(* ===== verification/_CoqProject ===== *)
-Q . S2P
Prelude.v
GoStd.v
Encoding.v
Cursors.v
Store.v
MoneyTypes.v
ProviderTopUp.v
ServiceMoney.v
ServiceValues.v
MoneyStore.v
WalletSpec.v
WalletRepo.v
TopUpRepo.v
ServiceRepo.v
ServiceMachine.v
ServiceFunds.v
ServicePlans.v
ServiceLife.v
ServiceRuns.v
SettlementRepo.v
Ledger.v
EntryPages.v
WalletLaws.v
TopUpLaws.v
TopUpTheorems.v
ServiceLedger.v
ServiceReplay.v
ResourceTypes.v
GenerationFacts.v
GenerationLife.v
PointTypes.v
ResourceStore.v
ResourceRepo.v
ResourceCharges.v
ResourcePoints.v
ResourceBooks.v
ResourceInv.v
ResourceMoves.v
ResourceSteps.v
ResourceReserve.v
ResourceShares.v
ResourceChargeSteps.v
ResourcePointMoves.v
ResourceLimitSteps.v
ResourceImageSteps.v
ResourceInvocationSteps.v
ResourceLedger.v
ResourceTheorems.v
PointTheorems.v
ResourceDemo.v
