(* ===== verification/Prelude.v ===== *)
(** * Money and resource ledgers of the task processor: a verification library

    ** The program

    The task processor is a monolith of many domains (image agents, crawlers,
    product data, marketplaces, billing). This library verifies the two parts
    that own what customers pay for.

    The money owner: the Go packages src/internal/ledger/money (value types,
    validation, fingerprints, arithmetic) and
    src/internal/integration/persistence/money (the repository that keeps them in
    PostgreSQL through gorm). Orders, payment-provider callbacks and referrals
    call it; nothing else writes its tables. It has four parts:

    - organization wallets: credit of settled top-ups (debt first), reserving
      funds for a purchase, committing and releasing reservations, the list of
      ledger entries (wallet_repository.go);
    - provider top-ups: a verified channel payment is posted once to a wallet;
      refunds and chargebacks take back its principal and record the excess;
      refund holds reserve funds ahead of a refund
      (provider_topup_repository.go);
    - service purchases: money that stays at the payment channel. A payment is
      accepted once; shares, returns, refunds and releases are prepared,
      admitted, and confirmed or failed one at a time; refund plans keep the
      platform's commission exact; observations put a payment under
      reconciliation (service_repository.go and its neighbours);
    - canonical settlements: payment, refund and chargeback facts and payout
      methods, and the routing of refunds and chargebacks to wallets or service
      purchases (repository.go).

    They interact through the tables: a payment fact is shared by all, a channel
    payment claim is held by a top-up or by a service purchase but not both, and
    a refund or chargeback fact of a payment moves the wallet or the service
    funds of that payment in the same transaction.

    The resource owner: src/internal/ledger/orgresource (the services) over
    src/internal/integration/orgresource (their repositories), what an
    organization holds of store renewal periods, AI points and data rows:

    - grants mint resources, once per source: the welcome of an organization, an
      item of a paid order, a trial; a debt is repaid first
      (gorm_repository.go, purchase_repository.go, trial_grant_repository.go,
      debt.go);
    - reservations for an owner in another domain, which binds the reservation
      to its attempt in the same transaction and later proves how the attempt
      ended (reservation_repository.go, settlement_repository.go);
    - transfers between an organization and the shares of its members
      (member_allocation_repository.go);
    - consumer charges, funded by the organization or by a member's share, settled
      on the consumer's proof, on request or by recovery
      (consumer_charge_repository.go);
    - AI points: a member's monthly limit, and the points that image generations
      and model invocations reserve within limit and balance and that are
      finalized on the facts their owners recorded (member_limit_repository.go,
      image_generation_repository.go, model_invocation_repository.go; the facts of
      src/internal/imageagent/generation_fact.go and the prices of
      src/internal/aicapability/model_point_pricing.go);
    - the balances of an organization (balance_read.go).

    They share buckets (one account per organization and resource), debts,
    operations (one immutable result per operation identity), source claims,
    reservations and events.

    ** The files

    Foundations.
    - Prelude: Go errors, the state-and-error monad [ST] with its notations,
      64-bit arithmetic ([+!], [-!], [*!], [/!] wrap around), sums over tables,
      [keeps] (what a computation preserves whatever its outcome), automation.
    - GoStd: byte strings, [TrimSpace], [time.Time], [sort.Slice].
    - Encoding: UTF-8, [json.Marshal], RFC 3339, SHA-256, hexadecimal.
    - Cursors: [time.Parse], base64 and [SplitN], as page cursors use them.
    - Store: gorm over any database: tables with keys and unique indexes,
      statements, transactions; laws of tables; frames ([Writes], [Inserts],
      [Saves]); weakest preconditions of statements.

    Money values (src/internal/ledger/money), one definition per Go function, a
    record per struct with the fields in a short prefix, [T_Validate] for the
    method [Validate] of [T].
    - MoneyTypes: types.go and wallet.go.
    - ProviderTopUp: provider_topup.go.
    - ServiceMoney: service_payment.go, service_channel_amounts.go,
      service_refund_plan.go, service_refund_review.go, service_fulfillment.go.
    - ServiceValues: theorems on the values of ServiceMoney.

    Money repositories (src/internal/integration/persistence/money), one
    definition per method of [Repository], under its Go name.
    - MoneyStore: the rows and tables.
    - WalletSpec: the abstract wallet, [ledger_step], [books], [ledger_ok].
    - WalletRepo, TopUpRepo, ServiceRepo, SettlementRepo: the operations, and
      what a successful run of each did to the tables.
    - EntryPages: the entries of a wallet, listed page by page.

    Money specifications and theorems.
    - Ledger: every operation that may write as a [command]; [reachable]
      databases; the wallets refine the abstract ledger; money is conserved;
      rollback, isolation, append-only facts.
    - WalletLaws: what the wallet operations answer, once and for ever.
    - TopUpLaws, TopUpTheorems: provider top-ups, reversals and refund holds
      over whole histories.
    - ServiceMachine: the step relation of service funds and its invariants by
      rule induction. ServiceFunds: amounts stay within the payment.
      ServicePlans: refund plans and the commission. ServiceLife: what never
      changes and how operations end. ServiceRuns: each operation is a run of
      the machine. ServiceLedger: every command is, so the invariants hold of
      every reachable database. ServiceReplay: first calls and repeated calls.

    Resources. A definition has its Go name, with the receiver's or a verb in
    front where two methods share it ([ConsumerChargeService_Reserve] is the
    service's, [ReserveCharge] the repository's).
    - ResourceTypes: the values of src/internal/ledger/orgresource.
    - ResourceStore: the rows and tables of schema.go.
    - ResourceRepo: grants, reservations and settlements, service and repository;
      [ResourceOwners] (the domains that own reservations and charges) and
      [ResourceAuthorities] (who may do what) are classes.
    - ResourceCharges: transfers, consumer charges, recovery, balances.
    - GenerationFacts: image generations, from the intent over the reservation and
      the dispatch to the outcome and its settlement. PointTypes: limits, prices and
      invocation records. ResourcePoints: the repositories of AI points;
      [PointOwners] (the facts of the other domains, and who may do what) and
      [GenerationAssets] are classes. GenerationLife: what a fact keeps.
    - ResourceBooks: the specification: [ledger_step] (quiet, or one event posted
      that moves an account by its deltas), [Balanced].
    - ResourceInv: the invariants [Sound] and [Traced], what is [kept], and
      [evolves], which joins them with [ledger_step]. ResourceMoves: one lemma
      turns what a transaction did to the tables into [evolves]. ResourceSteps,
      ResourceReserve, ResourceShares, ResourceChargeSteps, ResourcePointMoves,
      ResourceLimitSteps, ResourceImageSteps, ResourceInvocationSteps: every
      operation [evolves].
    - ResourceLedger: [life], requests in any order and however they end, owners
      changing their own state in between; [reachable] ledgers.
    - ResourceTheorems, PointTheorems: the properties. ResourceDemo: two small
      ledgers on which they are applied.

    ** How the code is modelled

    A repository method is a function [World -> result * World]: the tables, and
    how many UUIDs and clock readings were taken. The environment ([Env]: the
    stream of UUIDs, the clock, the SQL dialect) is a parameter; nothing is
    assumed of the clock, and of UUIDs only what a unique index enforces. The
    collation of identities in ORDER BY is a parameter ([Collation]).

    [db.Transaction] is one atomic step that rolls back on error: the code locks
    the wallet, claim, order or bucket row it works on, and the locks serialise
    the writers of one row; interleavings of transactions are not modelled, nor
    their retries. A command that fails half-way outside a transaction keeps
    what it wrote, as in the code; the resource repositories read the durable
    result back after a failed transaction, and so does the model. The
    bytes that are hashed are modelled exactly. Columns that hold JSON are kept
    decoded: what is read back is the [json_] image of the value, in which a string
    that was not UTF-8 has U+FFFD for its invalid bytes ([json_text]). A string that
    a text column of the same transaction holds too is UTF-8, because PostgreSQL
    refuses it otherwise, and is left as it is. A context, a nil receiver, a lost connection and column widths are left out: the
    first rows of each method that test them have no counterpart. Instants are
    nanoseconds since year 1 without a location.

    The domains that own reservations and charges are an interface: their answers
    and what they write are arbitrary functions of their own state. Three classes
    say what is assumed of them: [SeparateOwners], that no registered owner of
    reservations has the name of a consumer of charges (the application
    registers no owner of reservations today) nor reserves AI points, and
    [TypedOwners] and [TypedPointOwners], that the quantity of a charge intent and
    the points of a generation fact are [int64].

    ** What the theorems show

    Wallets: refinement of the abstract ledger by every command, conservation
    (each balance is the sum of its entries; what came in is there, spent or
    reversed), exactly-once credits, decisions that are made once and stay,
    reservations finished at most once, rollback and isolation, paging that
    reads each entry once and ends. Top-ups: posted once, reversed at most for
    what they credited, holds granted within the budget and ended once, a
    channel trade pays for one thing. Service purchases: refinement of the
    machine of service funds, totals that are the sums of their effects, amounts
    within the payment, one open operation at a time, the commission kept
    exactly, payments and effects accepted once, answers that stay. Values:
    validation accepts exactly the consistent values; allocation and refund
    plans equal exact arithmetic without overflow.

    Resources: every history is a run of the specification and its events are
    the journal of the run; the books balance (balances, debts, reservations,
    members' shares and events agree); sources mint once and reservations and
    charges are settled once; purchased grants and charges are answered again with
    what was done; balances can be read in every history. AI points: a member's use
    of a month stays within a limit that was set, images and invocations are charged
    what their facts say, prices are exact, and an image generation is dispatched to
    its provider once.

    Statements about fingerprints assume no collision where they need it
    ([collision_free], and claims that agree on a claim identity); SHA-256 is
    executable, so the witnesses evaluate it.

    ** Bounds and fuel

    Recursion is structural, on lists or on the fuel of a few functions: UTF-8
    decoding and the trimming of spaces consume at least one byte a step, so the
    length of the string is enough; [read_pages] takes one unit a page, and
    [EntryPages.statement_read_in_pages] proves that one more than the number of
    entries is enough. Integers of the code are Go's [int64]; the typing
    hypotheses ([typed], [command_typed], [typed_request]) say that inputs fit.

    ** Not modelled

    Of the resource owner: the executor of store services
    (store_service_executor.go), which consumes renewal periods at once and which
    the application does not construct; histories are without it. The listings of
    events and audit logs and the member directory. CHECK constraints and foreign
    keys of the tables. Of image generations: the slots, plans and stores of the
    image agent; of invocations: the models and their routing.

    Table grants and migrations (SQL text), the HTTP layer, the workers and
    process assembly, and every other domain of the repository: they reach these
    owners only through the operations modelled here. *)
From Stdlib Require Export ZArith Lia Ascii.
From stdpp Require Export base tactics numbers option list gmap strings pretty sorting.

#[global] Set Default Goal Selector "!".

(** ** Results and Go errors *)

(** Every sentinel error of the modelled packages, together with the raw
    errors of the database layer and of [json.Marshal]; [ErrInternal] is an error
    made in place with [errors.New]. An error wrapped by [fmt.Errorf("%w: ...")]
    is the error it wraps. *)
Inductive goerr : Type :=
  | ErrInvalid
  | ErrConflict
  | ErrNotFound
  | ErrUnavailable
  | ErrUnsupportedMutation
  | ErrWalletInsufficientBalance
  | ErrWalletReservationConflict
  | ErrWalletSettlementConflict
  | ErrWalletReserveDecisionNotFound
  | ErrRecordNotFound
  | ErrDuplicatedKey
  | ErrOutOfRange
  | ErrMarshal
  | ErrForbidden
  | ErrInvalidInput
  | ErrWelcomeGrantNotApproved
  | ErrIdempotencyKeyConflict
  | ErrConcurrencyRetry
  | ErrReservationOwnerNotRegistered
  | ErrOwnerScopeMismatch
  | ErrOwnerNotReservable
  | ErrOwnerNotTerminal
  | ErrInvalidOwnerProof
  | ErrReservationNotFound
  | ErrInsufficientBalance
  | ErrMemberResourceVersionConflict
  | ErrResourceDebtOutstanding
  | ErrConsumerChargeUnknown
  | ErrBalanceUnavailable
  | ErrMemberLimitUnavailable
  | ErrMemberLimitExceeded
  | ErrMemberLimitVersionConflict
  | ErrGenerationInvalid
  | ErrRevisionConflict
  | ErrInternal.

#[export] Instance goerr_eq_dec : EqDecision goerr.
Proof. solve_decision. Defined.

(** A Go [error] value: [None] is [nil]. *)
Abbreviation error := (option goerr).

Inductive result (A : Type) : Type :=
  | Ok (a : A)
  | Err (e : goerr).
Arguments Ok {A} a.
Arguments Err {A} e.

#[export] Instance result_eq_dec `{EqDecision A} : EqDecision (result A).
Proof. solve_decision. Defined.

#[export] Instance result_ret : MRet result := λ A a, Ok a.
#[export] Instance result_bind : MBind result := λ A B f m,
  match m with Ok a => f a | Err e => Err e end.

Definition is_ok {A} (r : result A) : bool :=
  match r with Ok _ => true | Err _ => false end.
Definition nil_error (e : error) : bool :=
  match e with None => true | Some _ => false end.

(** ** The state and error monad of the stateful code *)

Definition ST (S A : Type) : Type := S → result A * S.

#[export] Instance ST_ret {S} : MRet (ST S) := λ A a s, (Ok a, s).
#[export] Instance ST_bind {S} : MBind (ST S) := λ A B f m s,
  match m s with
  | (Ok a, s') => f a s'
  | (Err e, s') => (Err e, s')
  end.

Section st_operations.
Context {S : Type}.

Definition fail {A} (e : goerr) : ST S A := λ s, (Err e, s).
Definition gets {A} (f : S → A) : ST S A := λ s, (Ok (f s), s).
Definition modify (f : S → S) : ST S unit := λ s, (Ok tt, f s).
Definition lift {A} (r : result A) : ST S A := λ s, (r, s).
(** [if err := ...; err != nil { return err }] *)
Definition check (e : error) : ST S unit := λ s,
  match e with None => (Ok tt, s) | Some x => (Err x, s) end.
(** [if cond { return err }] *)
Definition guard_not (b : bool) (e : goerr) : ST S unit := λ s,
  if b then (Err e, s) else (Ok tt, s).
End st_operations.

(** [wp m Q E s]: running [m] from [s] ends in a value and state satisfying
    [Q], or in an error and state satisfying [E]. *)
Definition wp {S A} (m : ST S A) (Q : A → S → Prop) (E : goerr → S → Prop)
    (s : S) : Prop :=
  match m s with
  | (Ok a, s') => Q a s'
  | (Err e, s') => E e s'
  end.

(** ** Go's signed 64-bit integers *)

Definition max_int64 : Z := 9223372036854775807.
Definition min_int64 : Z := -9223372036854775808.
Definition in_int64 (z : Z) : Prop := (min_int64 ≤ z ≤ max_int64)%Z.

(** Two's complement wrap-around, what Go's int64 arithmetic computes. *)
Definition wrap64 (z : Z) : Z :=
  ((z + 9223372036854775808) mod 18446744073709551616 - 9223372036854775808)%Z.

Declare Scope go_scope.
Delimit Scope go_scope with go.
Notation "a +! b" := (wrap64 (a + b)%Z) (at level 50, left associativity) : go_scope.
Notation "a -! b" := (wrap64 (a - b)%Z) (at level 50, left associativity) : go_scope.
Notation "a *! b" := (wrap64 (a * b)%Z) (at level 40, left associativity) : go_scope.
Notation "a /! b" := (wrap64 (Z.quot a b)) (at level 40, left associativity) : go_scope.
Notation "a %! b" := (wrap64 (Z.rem a b)) (at level 40, left associativity) : go_scope.
Notation "-! a" := (wrap64 (- a)%Z) (at level 35, right associativity) : go_scope.
(** String equality and inequality as the code writes them. *)
Notation "s =s t" := (String.eqb s t) (at level 70, no associativity) : go_scope.
Notation "s ≠s t" := (negb (String.eqb s t)) (at level 70, no associativity) : go_scope.
Open Scope string_scope.
Open Scope list_scope.
Open Scope go_scope.
Open Scope Z_scope.

#[export] Instance in_int64_dec z : Decision (in_int64 z).
Proof. unfold in_int64. apply _. Defined.

(** ** Sums and searches over tables *)

Section tables.
Context {K V : Type} `{Countable K}.

(** SELECT COALESCE(SUM(f), 0). *)
Definition msum (f : V → Z) (m : gmap K V) : Z :=
  map_fold (λ _ v acc, f v + acc) 0 m.

(** The first row of the table that satisfies [P]. *)
Definition map_find (P : V → bool) (m : gmap K V) : option V :=
  head (filter (λ v, P v = true) (map_to_list m).*2).

(** All rows of the table that satisfy [P]. *)
Definition rows_where (P : V → bool) (m : gmap K V) : list V :=
  filter (λ v, P v = true) (map_to_list m).*2.

(** SELECT COUNT. *)
Definition count_where (P : V → bool) (m : gmap K V) : Z :=
  Z.of_nat (length (rows_where P m)).
End tables.

(** Sum of [f] over a list. *)
Definition lsum {A} (f : A → Z) (l : list A) : Z := foldr (λ x acc, f x + acc) 0 l.

(** * Lemmas *)

Create HintDb i64.
Create Rewrite HintDb go_bool.

Lemma wrap64_id z : in_int64 z → wrap64 z = z.
Proof.
  unfold in_int64, wrap64, min_int64, max_int64. intros ?.
  rewrite Z.mod_small; lia.
Qed.

Lemma wrap64_range z : in_int64 (wrap64 z).
Proof.
  unfold in_int64, wrap64, min_int64, max_int64.
  pose proof (Z.mod_pos_bound (z + 9223372036854775808) 18446744073709551616).
  lia.
Qed.
#[export] Hint Resolve wrap64_range : i64.

(** Normalises every wrap-around whose argument provably fits. *)
Ltac i64_bounds := unfold in_int64, min_int64, max_int64 in *; lia.
Ltac i64_norm :=
  repeat match goal with
  | |- context [wrap64 ?z] => rewrite (wrap64_id z) by i64_bounds
  | H : context [wrap64 ?z] |- _ => rewrite (wrap64_id z) in H by i64_bounds
  end.
Ltac i64 := i64_norm; i64_bounds.

#[export] Hint Rewrite orb_true_iff orb_false_iff andb_true_iff andb_false_iff
  negb_true_iff negb_false_iff Z.ltb_lt Z.ltb_ge Z.leb_le Z.leb_gt Z.eqb_eq
  Z.eqb_neq Z.gtb_ltb Z.geb_leb String.eqb_eq String.eqb_neq @bool_decide_eq_true
  @bool_decide_eq_false : go_bool.
Ltac reflect_bools := autorewrite with go_bool in *.

Section wp_lemmas.
Context {S : Type}.
Implicit Types (s : S).

Lemma wp_ret {A} (a : A) Q E s : Q a s → wp (S:=S) (mret a) Q E s.
Proof. done. Qed.
Lemma wp_fail {A} e (Q : A → S → Prop) E s : E e s → wp (fail e) Q E s.
Proof. done. Qed.
Lemma wp_gets {A} (f : S → A) Q E s : Q (f s) s → wp (gets f) Q E s.
Proof. done. Qed.
Lemma wp_modify f Q (E : goerr → S → Prop) s : Q tt (f s) → wp (modify f) Q E s.
Proof. done. Qed.
Lemma wp_bind {A B} (m : ST S A) (k : A → ST S B) Q E s :
  wp m (λ a s', wp (k a) Q E s') E s → wp (mbind k m) Q E s.
Proof. unfold wp, mbind, ST_bind. destruct (m s) as [[] ?]; done. Qed.
Lemma wp_check e Q (E : goerr → S → Prop) s :
  (e = None → Q tt s) → (∀ x, e = Some x → E x s) → wp (check e) Q E s.
Proof. destruct e; unfold wp, check; naive_solver. Qed.
Lemma wp_guard_not b e Q (E : goerr → S → Prop) s :
  (b = true → E e s) → (b = false → Q tt s) → wp (guard_not b e) Q E s.
Proof. destruct b; unfold wp, guard_not; naive_solver. Qed.
Lemma wp_lift {A} (r : result A) Q (E : goerr → S → Prop) s :
  (∀ a, r = Ok a → Q a s) → (∀ e, r = Err e → E e s) → wp (lift r) Q E s.
Proof. destruct r; unfold wp, lift; naive_solver. Qed.
Lemma wp_mono {A} (m : ST S A) (Q Q' : A → S → Prop) (E E' : goerr → S → Prop) s :
  wp m Q E s → (∀ a s', Q a s' → Q' a s') → (∀ e s', E e s' → E' e s') →
  wp m Q' E' s.
Proof. unfold wp. destruct (m s) as [[a|e] s0]; naive_solver. Qed.
Lemma wp_run {A} (m : ST S A) Q E s a s' :
  wp m Q E s → m s = (Ok a, s') → Q a s'.
Proof. unfold wp. intros HQ Hm. by rewrite Hm in HQ. Qed.
End wp_lemmas.

(** *** Successful runs, read backwards *)

Section run_lemmas.
Context {S : Type}.
Implicit Types (s : S).

Lemma is_ok_run {A} (r : result A * S) : is_ok r.1 = true → ∃ a s', r = (Ok a, s').
Proof. destruct r as [[a|e] s']; [by exists a, s'|done]. Qed.

(** A result that passes a test, and a row that does, found by evaluation. *)
Lemma ok_run_passes {A} (r : result A * S) (P : A → bool) :
  match r.1 with Ok a => P a | Err _ => false end = true → ∃ a s', r = (Ok a, s') ∧ P a = true.
Proof. destruct r as [[a|e] s']; [eauto|done]. Qed.

Lemma row_passes {V} (o : option V) (P : V → bool) :
  match o with Some v => P v | None => false end = true → ∃ v, o = Some v ∧ P v = true.
Proof. destruct o; [eauto|done]. Qed.

Lemma bind_Ok {A B} (m : ST S A) (k : A → ST S B) s b s' :
  mbind k m s = (Ok b, s') → ∃ a s1, m s = (Ok a, s1) ∧ k a s1 = (Ok b, s').
Proof. unfold mbind, ST_bind. destruct (m s) as [[] ?]; naive_solver. Qed.
Lemma bind_Err {A B} (m : ST S A) (k : A → ST S B) s e s' :
  mbind k m s = (Err e, s') →
  m s = (Err e, s') ∨ ∃ a s1, m s = (Ok a, s1) ∧ k a s1 = (Err e, s').
Proof. unfold mbind, ST_bind. destruct (m s) as [[] ?]; naive_solver. Qed.
Lemma ret_Ok {A} (a : A) s b s' : (mret a : ST S A) s = (Ok b, s') → b = a ∧ s' = s.
Proof. unfold mret, ST_ret. naive_solver. Qed.
Lemma fail_Ok {A} e s (b : A) s' : fail e s = (Ok b, s') → False.
Proof. done. Qed.
Lemma lift_Ok {A} (r : result A) s b s' : lift r s = (Ok b, s') → r = Ok b ∧ s' = s.
Proof. unfold lift. naive_solver. Qed.
Lemma check_Ok e s b s' : check e s = (Ok b, s') → e = None ∧ s' = s.
Proof. destruct e; unfold check; naive_solver. Qed.
Lemma guard_not_Ok c e s b s' : guard_not c e s = (Ok b, s') → c = false ∧ s' = s.
Proof. destruct c; unfold guard_not; naive_solver. Qed.
End run_lemmas.

(** A relation every step of a computation respects, from any state. *)
Definition keeps {S A} (R : S → S → Prop) (m : ST S A) : Prop := ∀ s, R s (m s).2.

Section keeps_lemmas.
Context {S : Type} (R : S → S → Prop) `{!PreOrder R}.

Lemma keeps_bind {A B} (m : ST S A) (k : A → ST S B) :
  keeps R m → (∀ a, keeps R (k a)) → keeps R (mbind k m).
Proof.
  intros Hm Hk s. unfold mbind, ST_bind. specialize (Hm s).
  destruct (m s) as [[a|e] s1]; simpl in *; [|done]. etrans; [done|apply Hk].
Qed.
Lemma keeps_ret {A} (a : A) : keeps R (mret a : ST S A).
Proof. intros s. simpl. reflexivity. Qed.
Lemma keeps_fail {A} e : keeps R (fail e : ST S A).
Proof. intros s. simpl. reflexivity. Qed.
Lemma keeps_gets {A} (f : S → A) : keeps R (gets f).
Proof. intros s. simpl. reflexivity. Qed.
Lemma keeps_lift {A} (r : result A) : keeps R (lift r).
Proof. intros s. simpl. reflexivity. Qed.
Lemma keeps_check e : keeps R (check e).
Proof. intros s. destruct e; simpl; reflexivity. Qed.
Lemma keeps_guard_not b e : keeps R (guard_not b e).
Proof. intros s. destruct b; simpl; reflexivity. Qed.
End keeps_lemmas.

Create HintDb keeps.
#[export] Hint Resolve keeps_ret keeps_fail keeps_gets keeps_lift keeps_check
  keeps_guard_not : keeps.

Section table_lemmas.
Context {K V : Type} `{Countable K}.
Implicit Types (m : gmap K V) (f : V → Z) (P : V → bool).

Lemma msum_empty f : msum f (∅ : gmap K V) = 0.
Proof. done. Qed.

Lemma msum_insert f m k v : m !! k = None →
  msum f (<[k:=v]> m) = f v + msum f m.
Proof.
  intros Hk. unfold msum. rewrite map_fold_insert_L; [done| |done].
  intros; lia.
Qed.

Lemma msum_delete f m k v : m !! k = Some v →
  msum f m = f v + msum f (delete k m).
Proof.
  intros Hk. rewrite <- (msum_insert f (delete k m) k v) by apply lookup_delete_eq.
  by rewrite insert_delete_id.
Qed.

Lemma msum_update f m k v v' : m !! k = Some v →
  msum f (<[k:=v']> m) = msum f m - f v + f v'.
Proof.
  intros Hk. rewrite <- (insert_delete_eq m), msum_insert by apply lookup_delete_eq.
  rewrite (msum_delete f m k v) by done. lia.
Qed.

Lemma msum_ext f g m : (∀ k v, m !! k = Some v → f v = g v) →
  msum f m = msum g m.
Proof.
  induction m as [|k v m Hk IH] using map_ind; intros Hfg; [done|].
  rewrite !msum_insert by done. rewrite (Hfg k v) by apply lookup_insert_eq.
  rewrite IH; [done|]. intros k' v' ?. apply (Hfg k').
  rewrite lookup_insert_ne; [done|]. by intros ->; simplify_eq.
Qed.

Lemma msum_nonneg f m : (∀ k v, m !! k = Some v → 0 ≤ f v) → 0 ≤ msum f m.
Proof.
  induction m as [|k v m Hk IH] using map_ind; intros Hf; [done|].
  rewrite msum_insert by done. pose proof (Hf k v (lookup_insert_eq _ _ _)).
  enough (0 ≤ msum f m) by lia. apply IH. intros k' v' ?. apply (Hf k').
  rewrite lookup_insert_ne; [done|]. by intros ->; simplify_eq.
Qed.

Lemma msum_lookup_le f m k v : (∀ k v, m !! k = Some v → 0 ≤ f v) →
  m !! k = Some v → f v ≤ msum f m.
Proof.
  intros Hf Hk. rewrite (msum_delete f m k v) by done.
  enough (0 ≤ msum f (delete k m)) by lia. apply msum_nonneg.
  intros k' v' [??]%lookup_delete_Some. eauto.
Qed.

Lemma elem_of_rows m v : v ∈ (map_to_list m).*2 ↔ ∃ k, m !! k = Some v.
Proof.
  rewrite list_elem_of_fmap. split.
  - intros ([k v'] & -> & Hin). exists k. by apply elem_of_map_to_list.
  - intros [k Hk]. exists (k, v). split; [done|]. by apply elem_of_map_to_list.
Qed.

Lemma elem_of_rows_where P m v :
  v ∈ rows_where P m ↔ P v = true ∧ ∃ k, m !! k = Some v.
Proof. unfold rows_where. by rewrite list_elem_of_filter, elem_of_rows. Qed.

Lemma map_find_Some P m v : map_find P m = Some v →
  P v = true ∧ ∃ k, m !! k = Some v.
Proof.
  intros Hv. apply elem_of_rows_where. unfold map_find in Hv.
  apply head_Some in Hv as [l Hl]. unfold rows_where. rewrite Hl. left.
Qed.

Lemma map_find_None P m k v : map_find P m = None → m !! k = Some v → P v = false.
Proof.
  unfold map_find. intros Hn%head_None Hk. apply not_true_iff_false. intros HP.
  assert (v ∈ rows_where P m) as Hin by (apply elem_of_rows_where; eauto).
  unfold rows_where in Hin. rewrite Hn in Hin. by apply not_elem_of_nil in Hin.
Qed.

Lemma msum_filter_insert P f m k v : m !! k = None →
  msum (λ v, if P v then f v else 0) (<[k:=v]> m) =
  (if P v then f v else 0) + msum (λ v, if P v then f v else 0) m.
Proof. apply (msum_insert (λ v, if P v then f v else 0)). Qed.

(** A search whose predicate singles out one key is a lookup. *)
Lemma map_find_unique P m k v : m !! k = Some v → P v = true →
  (∀ k' v', m !! k' = Some v' → P v' = true → k' = k) → map_find P m = Some v.
Proof.
  intros Hk HP Huniq. destruct (map_find P m) as [v'|] eqn:Hf.
  - apply map_find_Some in Hf as (HP' & k' & Hk').
    assert (k' = k) as -> by eauto. by simplify_eq.
  - apply (map_find_None _ _ k v) in Hf; [congruence|done].
Qed.
End table_lemmas.

Section list_sums.
Context {A : Type}.
Implicit Types (f g : A → Z) (l : list A).

Lemma lsum_nil f : lsum f [] = 0.
Proof. done. Qed.
Lemma lsum_cons f x l : lsum f (x :: l) = f x + lsum f l.
Proof. done. Qed.
Lemma lsum_app f l1 l2 : lsum f (l1 ++ l2) = lsum f l1 + lsum f l2.
Proof. induction l1 as [|x l1 IH]; simpl; [done|]. rewrite IH. lia. Qed.
#[global] Instance lsum_perm f : Proper ((≡ₚ) ==> (=)) (lsum f).
Proof. induction 1; simpl; lia. Qed.
Lemma lsum_nonneg f l : (∀ x, x ∈ l → 0 ≤ f x) → 0 ≤ lsum f l.
Proof.
  induction l as [|x l IH]; intros Hf; simpl; [done|].
  pose proof (Hf x ltac:(left)). enough (0 ≤ lsum f l) by lia.
  apply IH. intros y ?. apply Hf. by right.
Qed.
Lemma lsum_le f g l : (∀ x, x ∈ l → f x ≤ g x) → lsum f l ≤ lsum g l.
Proof.
  induction l as [|x l IH]; intros Hf; simpl; [done|].
  pose proof (Hf x ltac:(left)). enough (lsum f l ≤ lsum g l) by lia.
  apply IH. intros y ?. apply Hf. by right.
Qed.
Lemma lsum_submseteq f l1 l2 : (∀ x, x ∈ l2 → 0 ≤ f x) → l1 ⊆+ l2 →
  lsum f l1 ≤ lsum f l2.
Proof.
  intros Hf [l Hl]%submseteq_Permutation. rewrite Hl, lsum_app.
  enough (0 ≤ lsum f l) by lia. apply lsum_nonneg. intros x ?. apply Hf.
  rewrite Hl. apply elem_of_app. by right.
Qed.
Lemma lsum_fmap {B} (h : B → A) f (l : list B) : lsum f (h <$> l) = lsum (f ∘ h) l.
Proof.
  induction l as [|x l IH]; [done|]. by rewrite fmap_cons, !lsum_cons, IH.
Qed.
End list_sums.

(** ** Values of Go types

    [typed x]: every integer field of the Go value [x] fits its type. *)
Class Typed (A : Type) := typed : A → Prop.
