(* ===== verification/GoStd.v ===== *)
(** * The parts of Go's standard library the ledgers use

    Byte strings ([strings.TrimSpace], hexadecimal), instants ([time.Time])
    and [sort.Slice] on string keys. A Go string is a Rocq [string] of bytes.
    An instant is its number of nanoseconds since Go's zero time
    (0001-01-01T00:00:00Z); locations and monotonic readings are not kept, so
    [UTC] is the identity. *)
From S2P Require Import Prelude.

(** ** Byte strings *)

Definition byte (z : Z) : ascii := ascii_of_N (Z.to_N z).
Definition byte_val (c : ascii) : Z := Z.of_N (N_of_ascii c).
Definition bytes (l : list Z) : string := foldr (λ z s, String (byte z) s) ""%string l.
Definition slen (s : string) : Z := Z.of_nat (String.length s).

(** The UTF-8 encodings of the code points of [unicode.IsSpace]. *)
Definition space_encodings : list string :=
  bytes <$> [[9]; [10]; [11]; [12]; [13]; [32]; [194; 133]; [194; 160];
             [225; 154; 128]; [226; 128; 128]; [226; 128; 129]; [226; 128; 130];
             [226; 128; 131]; [226; 128; 132]; [226; 128; 133]; [226; 128; 134];
             [226; 128; 135]; [226; 128; 136]; [226; 128; 137]; [226; 128; 138];
             [226; 128; 168]; [226; 128; 169]; [226; 128; 175]; [226; 129; 159];
             [227; 128; 128]].

Fixpoint strip_prefix (p s : string) : option string :=
  match p, s with
  | EmptyString, _ => Some s
  | String a p', String b s' => if Ascii.eqb a b then strip_prefix p' s' else None
  | String _ _, EmptyString => None
  end.

(** Removes one leading rune out of [encs]. *)
Definition strip_any (encs : list string) (s : string) : option string :=
  head (omap (λ p, strip_prefix p s) encs).

Fixpoint strip_all (fuel : nat) (encs : list string) (s : string) : string :=
  match fuel with
  | O => s
  | S fuel' => match strip_any encs s with
               | Some s' => strip_all fuel' encs s'
               | None => s
               end
  end.

Definition srev (s : string) : string := String.rev s.

(** Each step of [strip_all] removes at least one byte, so the length of the
    string is enough fuel. *)
Definition trim_left (s : string) : string :=
  strip_all (String.length s) space_encodings s.
Definition trim_right (s : string) : string :=
  srev (strip_all (String.length s) (srev <$> space_encodings) (srev s)).

(** [strings.TrimSpace]. *)
Definition TrimSpace (s : string) : string := trim_right (trim_left s).

(** [strings.TrimSpace(s) == ""]. *)
Definition blank (s : string) : bool := TrimSpace s =s "".

Definition hex_digit (z : Z) : ascii :=
  byte (if z <? 10 then 48 + z else 87 + z).
Definition is_lower_hex (c : ascii) : bool :=
  let b := byte_val c in
  ((48 <=? b) && (b <=? 57)) || ((97 <=? b) && (b <=? 102)).
Definition is_hex (c : ascii) : bool :=
  is_lower_hex c || (let b := byte_val c in (65 <=? b) && (b <=? 70)).
Fixpoint string_forallb (f : ascii → bool) (s : string) : bool :=
  match s with
  | EmptyString => true
  | String c s' => f c && string_forallb f s'
  end.

(** ** Instants *)

Definition Time : Type := Z.
Definition zero_time : Time := 0.
Definition IsZero (t : Time) : bool := t =? 0.
Definition Microsecond : Z := 1000.
Definition Second : Z := 1000000000.

(** [t.Truncate(d)] rounds down to a multiple of [d] since the zero time. *)
Definition Truncate (t : Time) (d : Z) : Time := t - t mod d.

(** ** sort.Slice on a string key

    [sort.Slice] is not stable, and the code sorts slices whose keys are
    checked to be distinct, where every sorting algorithm gives one result;
    insertion sort computes it. *)

Fixpoint string_ltb (s t : string) : bool :=
  match s, t with
  | EmptyString, EmptyString => false
  | EmptyString, String _ _ => true
  | String _ _, EmptyString => false
  | String a s', String b t' =>
    if byte_val a <? byte_val b then true
    else if byte_val b <? byte_val a then false
    else string_ltb s' t'
  end.

Section sort.
Context {A : Type} (key : A → string).

Fixpoint insert_by (x : A) (l : list A) : list A :=
  match l with
  | [] => [x]
  | y :: l' => if string_ltb (key y) (key x) then y :: insert_by x l' else x :: y :: l'
  end.

Fixpoint sort_by (l : list A) : list A :=
  match l with
  | [] => []
  | x :: l' => insert_by x (sort_by l')
  end.
End sort.

(** ** Lemmas *)

Lemma strip_prefix_spec p s s' : strip_prefix p s = Some s' ↔ s = (p +:+ s')%string.
Proof.
  revert s; induction p as [|a p IH]; intros s; simpl.
  - split; [intros [= ->]; done|intros ->; by destruct s'].
  - destruct s as [|b s]; [done|]. destruct (Ascii.eqb a b) eqn:Hab.
    + apply Ascii.eqb_eq in Hab as ->. rewrite IH.
      split; [by intros ->|by intros [= ->]].
    + apply Ascii.eqb_neq in Hab. split; [done|]. by intros [= ->].
Qed.

Lemma length_append s t : String.length (s +:+ t) = (String.length s + String.length t)%nat.
Proof. induction s as [|a s IH]; [done|]. simpl. by rewrite IH. Qed.

Definition nonempty_encs (encs : list string) : Prop := Forall (λ p, p ≠ ""%string) encs.

Lemma strip_any_shorter encs s s' : nonempty_encs encs →
  strip_any encs s = Some s' → (String.length s' < String.length s)%nat.
Proof.
  unfold strip_any. intros Hne Hs.
  induction Hne as [|p encs Hp _ IH]; simpl in Hs; [done|].
  destruct (strip_prefix p s) as [s1|] eqn:Hp1; simpl in Hs; [|auto].
  simplify_eq. apply strip_prefix_spec in Hp1 as ->.
  rewrite length_append. destruct p; [done|]. simpl. lia.
Qed.

(** With enough fuel nothing strippable is left. *)
Lemma strip_all_done fuel encs s : nonempty_encs encs →
  (String.length s ≤ fuel)%nat → strip_any encs (strip_all fuel encs s) = None.
Proof.
  intros Hne. revert s. induction fuel as [|fuel IH]; intros s Hlen; simpl.
  - destruct (strip_any encs s) as [s'|] eqn:Hs; [|done].
    apply strip_any_shorter in Hs; [lia|done].
  - destruct (strip_any encs s) as [s'|] eqn:Hs; [|done].
    apply IH. apply strip_any_shorter in Hs; [lia|done].
Qed.

Lemma strip_all_id fuel encs s : strip_any encs s = None → strip_all fuel encs s = s.
Proof. intros Hs. destruct fuel; simpl; [done|]. by rewrite Hs. Qed.

Lemma space_encodings_nonempty : nonempty_encs space_encodings.
Proof. repeat constructor; discriminate. Qed.

Lemma trim_left_idem s : trim_left (trim_left s) = trim_left s.
Proof.
  unfold trim_left at 1. apply strip_all_id. apply strip_all_done; [|lia].
  apply space_encodings_nonempty.
Qed.

Lemma Truncate_le t d : 0 < d → Truncate t d ≤ t.
Proof. unfold Truncate. intros. pose proof (Z.mod_pos_bound t d). lia. Qed.

Lemma Truncate_idem t d : 0 < d → Truncate (Truncate t d) d = Truncate t d.
Proof.
  unfold Truncate. intros Hd. rewrite Zminus_mod_idemp_r, Z.sub_diag. 
  rewrite Zmod_0_l. lia.
Qed.

Lemma sort_by_perm {A} (key : A → string) l : sort_by key l ≡ₚ l.
Proof.
  induction l as [|x l IH]; simpl; [done|]. transitivity (x :: sort_by key l).
  - generalize (sort_by key l). clear. intros l.
    induction l as [|y l IH]; simpl; [done|].
    destruct (string_ltb _ _); [|done]. rewrite IH. constructor.
  - by constructor.
Qed.

(** The order the sort uses: total on strings, so a sorted list with distinct
    keys is the only one of its elements. *)
Definition string_le (s t : string) : Prop := string_ltb t s = false.

Lemma string_ltb_irrefl s : string_ltb s s = false.
Proof. induction s as [|a s IH]; simpl; [done|]. by rewrite Z.ltb_irrefl. Qed.

Lemma byte_val_inj a b : byte_val a = byte_val b → a = b.
Proof.
  unfold byte_val. intros He%N2Z.inj. rewrite <- (ascii_N_embedding a), He.
  apply ascii_N_embedding.
Qed.

Lemma string_ltb_trans s t u : string_ltb s t = true → string_ltb t u = true → string_ltb s u = true.
Proof.
  revert t u. induction s as [|a s IH]; intros [|b t] [|c u]; simpl; try done.
  intros. repeat case_match; reflect_bools; try done; try lia.
  assert (byte_val a = byte_val b) by lia. assert (byte_val b = byte_val c) by lia. eauto.
Qed.

Lemma string_ltb_antisym s t : string_ltb s t = false → string_ltb t s = false → s = t.
Proof.
  revert t. induction s as [|a s IH]; intros [|b t]; simpl; try done.
  intros. repeat case_match; reflect_bools; try done; try lia.
  f_equal; [apply byte_val_inj; lia|by apply IH].
Qed.

Lemma string_ltb_asym s t : string_ltb s t = true → string_ltb t s = false.
Proof.
  intros Hst. apply not_true_iff_false. intros Hts.
  pose proof (string_ltb_trans _ _ _ Hst Hts) as Hss. by rewrite string_ltb_irrefl in Hss.
Qed.

#[export] Instance string_le_trans : Transitive string_le.
Proof.
  intros s t u Hst Htu. unfold string_le in *. apply not_true_iff_false. intros Hus.
  destruct (string_ltb s t) eqn:E.
  - pose proof (string_ltb_trans _ _ _ Hus E). congruence.
  - rewrite (string_ltb_antisym _ _ E Hst) in Hus. congruence.
Qed.

Lemma sort_by_sorted {A} (key : A → string) l :
  StronglySorted (λ x y, string_le (key x) (key y)) (sort_by key l).
Proof.
  induction l as [|x l IH]; simpl; [constructor|]. revert IH.
  generalize (sort_by key l). clear l. intros l. induction 1 as [|y l Hs IH Hy]; simpl.
  { repeat constructor. }
  destruct (string_ltb (key y) (key x)) eqn:Hlt.
  - constructor; [exact IH|]. apply Forall_forall. intros z Hz.
    assert (insert_by key x l ≡ₚ x :: l) as Hp.
    { clear. induction l as [|y l IH]; simpl; [done|]. destruct (string_ltb _ _); [|done].
      rewrite IH. constructor. }
    rewrite Hp in Hz. apply elem_of_cons in Hz as [->|Hz]; [by apply string_ltb_asym|].
    rewrite Forall_forall in Hy. by apply Hy.
  - constructor; [by constructor|]. constructor; [done|]. eapply Forall_impl; [exact Hy|].
    intros z Hz. by etrans.
Qed.

(** Sorting forgets the order the elements came in. *)
Lemma sort_by_canonical {A} (key : A → string) l l' : NoDup (key <$> l) → l ≡ₚ l' →
  sort_by key l = sort_by key l'.
Proof.
  intros Hd Hp. eapply StronglySorted_unique_strong; [|apply sort_by_sorted..|].
  - intros x y Hx Hy Hxy Hyx. rewrite sort_by_perm in Hx, Hy. rewrite <- Hp in Hy.
    assert (key x = key y) as Hk by (by apply string_ltb_antisym).
    apply list_elem_of_lookup in Hx as [i Hi]. apply list_elem_of_lookup in Hy as [j Hj].
    assert (i = j) as ->; [|congruence]. eapply (NoDup_lookup (key <$> l)); [done|..];
      rewrite list_lookup_fmap; [by rewrite Hi|by rewrite Hj, Hk].
  - by rewrite !sort_by_perm.
Qed.

(** ** A prefix on a trimmed string *)

Lemma cons_app_str a s t : (String a s +:+ t)%string = String a (s +:+ t).
Proof. done. Qed.
(** Reversal, and what a trimmed string stays with a prefix. *)
Lemma app_nil_r_str s : (s +:+ "")%string = s.
Proof. induction s as [|a s IH]; [done|]. by rewrite !cons_app_str, IH. Qed.

Lemma app_assoc_str s t u : (s +:+ (t +:+ u))%string = ((s +:+ t) +:+ u)%string.
Proof. induction s as [|a s IH]; [done|]. by rewrite !cons_app_str, IH. Qed.

Lemma rev_app_spec s t : String.rev_app s t = (srev s +:+ t)%string.
Proof.
  unfold srev, String.rev. revert t. induction s as [|a s IH]; intros t; simpl; [done|].
  rewrite IH, (IH (String a "")). by rewrite <- app_assoc_str.
Qed.

Lemma srev_app s t : srev (s +:+ t) = (srev t +:+ srev s)%string.
Proof.
  induction s as [|a s IH].
  - simpl. by rewrite app_nil_r_str.
  - change (srev (String a s +:+ t)) with (String.rev_app (s +:+ t) (String a "")).
    change (srev (String a s)) with (String.rev_app s (String a "")).
    by rewrite !rev_app_spec, IH, app_assoc_str.
Qed.

Lemma srev_involutive s : srev (srev s) = s.
Proof.
  induction s as [|a s IH]; [done|].
  change (srev (String a s)) with (String.rev_app s (String a "")).
  by rewrite rev_app_spec, srev_app, IH.
Qed.

(** A byte that is in no encoding ends every match. *)
Fixpoint has_byte (c : ascii) (s : string) : bool :=
  match s with
  | EmptyString => false
  | String a s' => Ascii.eqb a c || has_byte c s'
  end.

Lemma strip_prefix_stops r t c q : has_byte c r = false →
  strip_prefix r t = None → strip_prefix r (t +:+ String c q) = None.
Proof.
  revert t. induction r as [|a r IH]; intros t; simpl; [done|]. intros [Ha Hr]%orb_false_iff.
  destruct t as [|b t]; [simpl; by rewrite Ha|]. rewrite cons_app_str. simpl. destruct (Ascii.eqb a b); [by apply IH|done].
Qed.

Lemma strip_any_None encs s : strip_any encs s = None ↔ ∀ p, p ∈ encs → strip_prefix p s = None.
Proof.
  unfold strip_any. induction encs as [|e encs IH]; simpl.
  - split; [|done]. intros _ p Hp. by apply elem_of_nil in Hp.
  - destruct (strip_prefix e s) eqn:He; simpl.
    + split; [done|]. intros Hp. specialize (Hp e (list_elem_of_here _ _)). congruence.
    + rewrite IH. split.
      * intros Hp p [->|Hin]%elem_of_cons; auto.
      * intros Hp p Hin. apply Hp. by apply list_elem_of_further.
Qed.

Lemma trimmed_end s : TrimSpace s = s → strip_any (srev <$> space_encodings) (srev s) = None.
Proof.
  unfold TrimSpace, trim_right. intros Hs. rewrite <- Hs at 1. rewrite srev_involutive.
  apply strip_all_done.
  - apply Forall_fmap, Forall_forall. intros p Hp. simpl.
    pose proof (proj1 (Forall_forall _ _) space_encodings_nonempty p Hp) as Hne.
    intros Hr. apply Hne. by rewrite <- (srev_involutive p), Hr.
  - assert (∀ t, String.length (srev t) = String.length t) as Hlen.
    { intros t. induction t as [|a t IH]; [done|].
      change (srev (String a t)) with (String.rev_app t (String a "")).
      rewrite rev_app_spec, length_append, IH. simpl. lia. }
    rewrite Hlen. lia.
Qed.

(** A trimmed string stays trimmed behind a prefix that starts with no space
    and ends with a colon. *)
Lemma TrimSpace_prefixed p s : strip_any space_encodings (p +:+ (":" +:+ s)) = None →
  TrimSpace s = s → TrimSpace (p +:+ (":" +:+ s)) = (p +:+ (":" +:+ s))%string.
Proof.
  intros Hl Hs. unfold TrimSpace, trim_left. rewrite strip_all_id by done.
  unfold trim_right. rewrite strip_all_id; [by rewrite srev_involutive|].
  apply strip_any_None. intros r Hr. rewrite !srev_app, <- app_assoc_str.
  change (srev ":" +:+ srev p)%string with (String ":" (srev p)).
  apply strip_prefix_stops; [|by apply (proj1 (strip_any_None _ _) (trimmed_end s Hs))].
  clear -Hr. assert (Forall (λ r, has_byte ":" r = false) (srev <$> space_encodings)) as Hf.
  { by apply (bool_decide_unpack _). }
  by apply (proj1 (Forall_forall _ _) Hf).
Qed.

Lemma slen_nonneg s : 0 ≤ slen s.
Proof. unfold slen. lia. Qed.
#[export] Hint Resolve slen_nonneg : core.

Example trim_example :
  TrimSpace (bytes [32; 194; 160; 97; 32; 98; 227; 128; 128; 10]) = "a b"%string.
Proof. reflexivity. Qed.
