(* ===== verification/Encoding.v ===== *)
(** * Canonical encodings: UTF-8, [encoding/json] and SHA-256

    The fingerprints of the ledgers are
    [hex(sha256(prefix || json.Marshal(value)))]. This file models what they
    use of the standard library: [json.Marshal] on a JSON tree (with its HTML
    escapes and the U+FFFD replacement of invalid UTF-8), RFC 3339 instants,
    and SHA-256 itself, executable and checked on the published vectors. *)
From S2P Require Import Prelude GoStd.

(** ** UTF-8 *)

Fixpoint string_bytes (s : string) : list Z :=
  match s with
  | EmptyString => []
  | String c s' => byte_val c :: string_bytes s'
  end.

Definition in_range (lo hi b : Z) : bool := (lo <=? b) && (b <=? hi).
Definition cont (b : Z) : bool := in_range 128 191 b.

(** [utf8.DecodeRune]: the code point and the number of bytes it takes, or
    [None] for the error rune, which takes one byte. *)
Definition decode_rune (l : list Z) : option (Z * nat) :=
  match l with
  | b0 :: r =>
    if b0 <? 128 then Some (b0, 1%nat)
    else if in_range 194 223 b0 then
      match r with
      | b1 :: _ => if cont b1 then Some ((b0 - 192) * 64 + (b1 - 128), 2%nat) else None
      | _ => None
      end
    else if in_range 224 239 b0 then
      match r with
      | b1 :: b2 :: _ =>
        if in_range (if b0 =? 224 then 160 else 128) (if b0 =? 237 then 159 else 191) b1
           && cont b2
        then Some (((b0 - 224) * 64 + (b1 - 128)) * 64 + (b2 - 128), 3%nat) else None
      | _ => None
      end
    else if in_range 240 244 b0 then
      match r with
      | b1 :: b2 :: b3 :: _ =>
        if in_range (if b0 =? 240 then 144 else 128) (if b0 =? 244 then 143 else 191) b1
           && cont b2 && cont b3
        then Some ((((b0 - 240) * 64 + (b1 - 128)) * 64 + (b2 - 128)) * 64 + (b3 - 128),
                   4%nat)
        else None
      | _ => None
      end
    else None
  | [] => None
  end.

(** ** json.Marshal *)

Inductive json : Type :=
  | JNull
  | JBool (b : bool)
  | JInt (z : Z)
  | JRaw (number : string)
  | JStr (s : string)
  | JArr (l : list json)
  | JObj (fields : list (string * json)).

Definition chars (s : string) : list Z := string_bytes s.

(** The escape of one ASCII byte. *)
Definition json_escape (b : Z) : list Z :=
  if b =? 34 then [92; 34]
  else if b =? 92 then [92; 92]
  else if b =? 8 then chars "\b"
  else if b =? 12 then chars "\f"
  else if b =? 10 then chars "\n"
  else if b =? 13 then chars "\r"
  else if b =? 9 then chars "\t"
  else if (b <? 32) || (b =? 60) || (b =? 62) || (b =? 38) then
    chars "\u00" ++ [byte_val (hex_digit (b / 16)); byte_val (hex_digit (b mod 16))]
  else [b].

(** The body of a JSON string. Each step consumes at least one byte: the
    number of bytes is enough fuel. *)
Fixpoint json_runes (fuel : nat) (l : list Z) : list Z :=
  match fuel, l with
  | S fuel', b :: r =>
    match decode_rune l with
    | None => chars "\ufffd" ++ json_runes fuel' r
    | Some (c, 1%nat) => json_escape b ++ json_runes fuel' r
    | Some (c, n) =>
      (if (c =? 8232) || (c =? 8233)
       then chars "\u202" ++ [byte_val (hex_digit (c mod 16))]
       else take n l) ++ json_runes fuel' (drop n l)
    end
  | _, _ => []
  end.

Definition json_string (s : string) : list Z :=
  [34] ++ json_runes (String.length s) (string_bytes s) ++ [34].

Definition json_int (z : Z) : list Z :=
  chars (pretty z).

Fixpoint sep_by (sep : list Z) (l : list (list Z)) : list Z :=
  match l with
  | [] => []
  | [x] => x
  | x :: l' => x ++ sep ++ sep_by sep l'
  end.

(** [json.Marshal] of a value described by its JSON tree. *)
Fixpoint marshal (j : json) : list Z :=
  match j with
  | JNull => chars "null"
  | JBool b => chars (if b then "true" else "false")
  | JInt z => json_int z
  | JRaw n => chars n
  | JStr s => json_string s
  | JArr l => [91] ++ sep_by [44] (marshal <$> l) ++ [93]
  | JObj fs => [123] ++ sep_by [44] ((λ '(k, v), json_string k ++ [58] ++ marshal v) <$> fs)
                     ++ [125]
  end.

(** ** RFC 3339 *)

(** Proleptic Gregorian date of a day counted from 0001-01-01 (day 0),
    by 400, 100, 4 and 1 year cycles. *)
Definition year_day (days : Z) : Z * Z :=
  let n400 := days / 146097 in
  let d := days mod 146097 in
  let n100 := Z.min 3 (d / 36524) in
  let d := d - n100 * 36524 in
  let n4 := d / 1461 in
  let d := d mod 1461 in
  let n1 := Z.min 3 (d / 365) in
  (400 * n400 + 100 * n100 + 4 * n4 + n1 + 1, d - n1 * 365).

Definition is_leap (y : Z) : bool :=
  (y mod 4 =? 0) && (negb (y mod 100 =? 0) || (y mod 400 =? 0)).

Fixpoint month_day (lens : list Z) (m d : Z) : Z * Z :=
  match lens with
  | [] => (m, d + 1)
  | n :: r => if d <? n then (m, d + 1) else month_day r (m + 1) (d - n)
  end.

Definition month_lengths (y : Z) : list Z :=
  [31; if is_leap y then 29 else 28; 31; 30; 31; 30; 31; 31; 30; 31; 30; 31].

(** [w] decimal digits of [z]. *)
Fixpoint digits (w : nat) (z : Z) : list Z :=
  match w with
  | O => []
  | S w' => digits w' (z / 10) ++ [48 + z mod 10]
  end.

Fixpoint drop_zeros (l : list Z) : list Z :=
  match l with
  | 48 :: r => drop_zeros r
  | _ => l
  end.

(** The fraction of RFC3339Nano: trailing zeros and an empty fraction are
    left out. *)
Definition fraction (ns : Z) : list Z :=
  match reverse (drop_zeros (reverse (digits 9 ns))) with
  | [] => []
  | l => 46 :: l
  end.

Definition year_of (t : Time) : Z := (year_day (t / Second / 86400)).1.

(** What follows the year in the RFC3339Nano form of a UTC instant. *)
Definition after_year (t : Time) : list Z :=
  let secs := t / Second in
  let '(y, yd) := year_day (secs / 86400) in
  let s := secs mod 86400 in
  let '(m, d) := month_day (month_lengths y) 1 yd in
  [45] ++ digits 2 m ++ [45] ++ digits 2 d ++ [84] ++
  digits 2 (s / 3600) ++ [58] ++ digits 2 (s mod 3600 / 60) ++ [58] ++
  digits 2 (s mod 60) ++ fraction (t mod Second) ++ [90].

(** A year is written with at least four digits. *)
Definition year_bytes (y : Z) : list Z :=
  (if y <? 0 then [45] else []) ++
  (if Z.abs y <? 10000 then digits 4 (Z.abs y) else chars (pretty (Z.abs y))).

(** [t.UTC().Format(time.RFC3339Nano)]. *)
Definition Format_RFC3339Nano (t : Time) : list Z := year_bytes (year_of t) ++ after_year t.

(** [Time.MarshalJSON] of a UTC instant; it fails outside years 0 to 9999. *)
Definition format_time (t : Time) : option (list Z) :=
  if (0 <=? year_of t) && (year_of t <=? 9999) then Some (Format_RFC3339Nano t) else None.

Definition of_bytes (l : list Z) : string := bytes l.

(** ** Reading JSON back

    [json.Unmarshal] of a string that [json.Marshal] wrote: the string, with
    U+FFFD for each byte that was not part of valid UTF-8. Each step takes at least
    one byte, so the number of bytes is enough fuel. *)
Fixpoint replace_invalid (fuel : nat) (l : list Z) : list Z :=
  match fuel, l with
  | S fuel', _ :: r =>
    match decode_rune l with
    | None => [239; 191; 189] ++ replace_invalid fuel' r
    | Some (_, n) => take n l ++ replace_invalid fuel' (drop n l)
    end
  | _, _ => []
  end.

Definition json_text (s : string) : string :=
  of_bytes (replace_invalid (String.length s) (string_bytes s)).

(** The runes of a string: [None] when it is not valid UTF-8. *)
Fixpoint runes (fuel : nat) (l : list Z) : option (list Z) :=
  match fuel, l with
  | _, [] => Some []
  | O, _ => None
  | S fuel', _ => '(c, n) ← decode_rune l; rest ← runes fuel' (skipn n l); Some (c :: rest)
  end.

(** [utf8.ValidString]. *)
Definition valid_utf8 (s : string) : bool :=
  match runes (String.length s) (string_bytes s) with Some _ => true | None => false end.

Definition json_time (t : Time) : option json := JStr ∘ of_bytes <$> format_time t.

(** ** SHA-256 *)

Definition w32 (z : Z) : Z := Z.land z 4294967295.
Definition rotr (n x : Z) : Z :=
  Z.lor (Z.shiftr x n) (w32 (Z.shiftl x (32 - n))).

Definition sha_k : list Z :=
  [1116352408; 1899447441; 3049323471; 3921009573; 961987163; 1508970993; 2453635748;
   2870763221; 3624381080; 310598401; 607225278; 1426881987; 1925078388; 2162078206;
   2614888103; 3248222580; 3835390401; 4022224774; 264347078; 604807628; 770255983;
   1249150122; 1555081692; 1996064986; 2554220882; 2821834349; 2952996808; 3210313671;
   3336571891; 3584528711; 113926993; 338241895; 666307205; 773529912; 1294757372;
   1396182291; 1695183700; 1986661051; 2177026350; 2456956037; 2730485921; 2820302411;
   3259730800; 3345764771; 3516065817; 3600352804; 4094571909; 275423344; 430227734;
   506948616; 659060556; 883997877; 958139571; 1322822218; 1537002063; 1747873779;
   1955562222; 2024104815; 2227730452; 2361852424; 2428436474; 2756734187; 3204031479;
   3329325298].

Definition sha_init : list Z :=
  [1779033703; 3144134277; 1013904242; 2773480762; 1359893119; 2600822924; 528734635;
   1541459225].

Definition be32 (a b c d : Z) : Z := ((a * 256 + b) * 256 + c) * 256 + d.

Fixpoint words (n : nat) (l : list Z) : list Z :=
  match n, l with
  | S n', a :: b :: c :: d :: r => be32 a b c d :: words n' r
  | _, _ => []
  end.

(** The message schedule, kept newest first. *)
Fixpoint schedule (n : nat) (w : list Z) : list Z :=
  match n with
  | O => w
  | S n' =>
    let g i := nth i w 0 in
    let s0 := Z.lxor (Z.lxor (rotr 7 (g 14%nat)) (rotr 18 (g 14%nat))) (Z.shiftr (g 14%nat) 3) in
    let s1 := Z.lxor (Z.lxor (rotr 17 (g 1%nat)) (rotr 19 (g 1%nat))) (Z.shiftr (g 1%nat) 10) in
    schedule n' (w32 (g 15%nat + s0 + g 6%nat + s1) :: w)
  end.

Definition sha_round (st : list Z) (kw : Z * Z) : list Z :=
  match st with
  | [a; b; c; d; e; f; g; h] =>
    let s1 := Z.lxor (Z.lxor (rotr 6 e) (rotr 11 e)) (rotr 25 e) in
    let ch := Z.lxor (Z.land e f) (Z.land (Z.lxor e 4294967295) g) in
    let t1 := w32 (h + s1 + ch + kw.1 + kw.2) in
    let s0 := Z.lxor (Z.lxor (rotr 2 a) (rotr 13 a)) (rotr 22 a) in
    let maj := Z.lxor (Z.lxor (Z.land a b) (Z.land a c)) (Z.land b c) in
    [w32 (t1 + w32 (s0 + maj)); a; b; c; w32 (d + t1); e; f; g]
  | _ => st
  end.

Definition sha_block (st : list Z) (block : list Z) : list Z :=
  let w := reverse (schedule 48 (reverse (words 16 block))) in
  zip_with (λ a b, w32 (a + b)) st (fold_left sha_round (zip sha_k w) st).

(** [n] blocks of 64 bytes. *)
Fixpoint sha_blocks (n : nat) (st : list Z) (l : list Z) : list Z :=
  match n with
  | O => st
  | S n' => sha_blocks n' (sha_block st (take 64 l)) (drop 64 l)
  end.

Fixpoint be_bytes (w : nat) (z : Z) : list Z :=
  match w with
  | O => []
  | S w' => be_bytes w' (z / 256) ++ [z mod 256]
  end.

Definition sha_pad (l : list Z) : list Z :=
  let n := Z.of_nat (length l) in
  l ++ [128] ++ replicate (Z.to_nat ((55 - n) mod 64)) 0 ++ be_bytes 8 (8 * n).

(** [sha256.Sum256] on the bytes of a message. *)
Definition sha256 (l : list Z) : list Z :=
  let p := sha_pad l in
  sha_blocks (length p / 64) sha_init p ≫= be_bytes 4.

(** [hex.EncodeToString]. *)
Definition hex_encode (l : list Z) : string :=
  foldr (λ b s, String (hex_digit (b / 16)) (String (hex_digit (b mod 16)) s)) ""%string l.

(** ** Lemmas and published vectors *)

Lemma of_bytes_string_bytes s : of_bytes (string_bytes s) = s.
Proof.
  induction s as [|a s IH]; [done|]. unfold of_bytes, bytes in *. simpl. rewrite IH. f_equal.
  unfold byte, byte_val. rewrite N2Z.id. apply ascii_N_embedding.
Qed.

Lemma replace_invalid_valid fuel l : is_Some (runes fuel l) → replace_invalid fuel l = l.
Proof.
  revert l. induction fuel as [|fuel IH]; intros [|b l] [cs Hr]; try done. cbn [runes] in Hr.
  cbn [replace_invalid]. destruct (decode_rune (b :: l)) as [[c n]|]; [|done]. cbn in Hr.
  destruct (runes fuel (skipn n (b :: l))) eqn:Hl; [|done]. rewrite IH by (by rewrite Hl).
  apply take_drop.
Qed.

(** Valid UTF-8 is read back as it was. *)
Lemma json_text_valid s : valid_utf8 s = true → json_text s = s.
Proof.
  unfold valid_utf8, json_text. intros Hv. rewrite replace_invalid_valid; [apply of_bytes_string_bytes|].
  by destruct (runes _ _).
Qed.

Example json_text_replaces : json_text (of_bytes [111; 45; 255]) = of_bytes [111; 45; 239; 191; 189].
Proof. vm_compute. reflexivity. Qed.

Example sha256_empty : hex_encode (sha256 []) =
  "e3b0c44298fc1c149afbf4c8996fb92427ae41e4649b934ca495991b7852b855"%string.
Proof. vm_compute. reflexivity. Qed.

Example sha256_abc : hex_encode (sha256 (chars "abc")) =
  "ba7816bf8f01cfea414140de5dae2223b00361a396177a9cb410ff61f20015ad"%string.
Proof. vm_compute. reflexivity. Qed.

Example sha256_two_blocks :
  hex_encode (sha256 (chars "abcdbcdecdefdefgefghfghighijhijkijkljklmklmnlmnomnopnopq")) =
  "248d6a61d20638b8e5c026930c3e6039a33ce45964ff2167f6ecedd419db06c1"%string.
Proof. vm_compute. reflexivity. Qed.

Example format_epoch :
  of_bytes <$> format_time (62135596800 * Second + 120000000) =
  Some "1970-01-01T00:00:00.12Z"%string.
Proof. vm_compute. reflexivity. Qed.

Example format_leap_day :
  of_bytes <$> format_time ((62135596800 + 951782400) * Second) =
  Some "2000-02-29T00:00:00Z"%string.
Proof. vm_compute. reflexivity. Qed.

Example marshal_example :
  of_bytes (marshal (JObj [("A", JStr "x<y"); ("B", JArr [JInt (-5); JNull])]))%string =
  of_bytes ([123] ++ json_string "A" ++ [58; 34] ++ chars "x\u003cy" ++
            [34; 44] ++ json_string "B" ++ chars ":[-5,null]}").
Proof. vm_compute. reflexivity. Qed.

Lemma length_be_bytes w z : length (be_bytes w z) = w.
Proof. revert z; induction w as [|w IH]; intros z; simpl; [done|].
  rewrite length_app, IH. simpl. lia. Qed.

Lemma length_sha_round st kw : length st = 8%nat → length (sha_round st kw) = 8%nat.
Proof. intros Hst. do 9 (destruct st as [|? st]; try done). Qed.

Lemma length_sha_rounds l st : length st = 8%nat → length (fold_left sha_round l st) = 8%nat.
Proof.
  revert st; induction l as [|kw l IH]; intros st Hst; simpl; [done|].
  by apply IH, length_sha_round.
Qed.

Lemma length_sha_block st b : length st = 8%nat → length (sha_block st b) = 8%nat.
Proof.
  intros Hst. unfold sha_block. rewrite length_zip_with, length_sha_rounds by done. lia.
Qed.

Lemma length_sha_blocks n st l : length st = 8%nat → length (sha_blocks n st l) = 8%nat.
Proof.
  revert st l; induction n as [|n IH]; intros st l Hst; simpl; [done|].
  by apply IH, length_sha_block.
Qed.

Lemma length_bind_be_bytes (l : list Z) : length (l ≫= be_bytes 4) = (4 * length l)%nat.
Proof.
  induction l as [|x l IH]; [done|].
  change ((x :: l) ≫= be_bytes 4) with (be_bytes 4 x ++ (l ≫= be_bytes 4)).
  rewrite length_app, IH, length_be_bytes. simpl. lia.
Qed.

Lemma length_sha256 l : length (sha256 l) = 32%nat.
Proof. unfold sha256. rewrite length_bind_be_bytes, length_sha_blocks; done. Qed.

Lemma length_hex_encode l : String.length (hex_encode l) = (2 * length l)%nat.
Proof. induction l as [|x l IH]; simpl; [done|]. rewrite IH. lia. Qed.

(** ** Fingerprints *)

Definition jstrings (l : list string) : json :=
  match l with [] => JNull | _ => JArr (JStr <$> l) end.

(** [hex(sha256(prefix || json))], or the empty string when marshalling fails. *)
Definition fingerprint (prefix : string) (j : option json) : string :=
  match j with
  | None => ""
  | Some j => hex_encode (sha256 (chars prefix ++ marshal j))
  end.
#[global] Arguments fingerprint : simpl never.

Lemma length_fingerprint prefix j : String.length (fingerprint prefix (Some j)) = 64%nat.
Proof. unfold fingerprint. by rewrite length_hex_encode, length_sha256. Qed.

Lemma slen_fingerprint prefix j : slen (fingerprint prefix (Some j)) = 64.
Proof. unfold slen. by rewrite length_fingerprint. Qed.

Lemma string_bytes_app s t : string_bytes (s +:+ t) = string_bytes s ++ string_bytes t.
Proof. induction s as [|c s IH]; [done|]. simpl. by rewrite <- IH. Qed.

(** ** A hexadecimal string is trimmed *)

Lemma hex_digit_lower z : 0 ≤ z < 16 → is_lower_hex (hex_digit z) = true.
Proof.
  intros Hz. assert (z ∈ (Z.of_nat <$> seq 0 16)) as Hin.
  { apply list_elem_of_fmap. exists (Z.to_nat z). rewrite elem_of_seq. lia. }
  clear Hz. revert z Hin. apply Forall_forall. by apply (bool_decide_unpack _).
Qed.

Lemma forallb_append f s t :
  string_forallb f (s +:+ t) = string_forallb f s && string_forallb f t.
Proof.
  induction s as [|a s IH]; [done|]. rewrite cons_app_str. simpl. by rewrite IH, andb_assoc.
Qed.

Lemma forallb_srev f s : string_forallb f (srev s) = string_forallb f s.
Proof.
  induction s as [|a s IH]; [done|].
  change (srev (String a s)) with (String.rev_app s (String a "")).
  rewrite rev_app_spec, forallb_append, IH. simpl. by rewrite andb_true_r, andb_comm.
Qed.

Lemma be_bytes_range w z b : b ∈ be_bytes w z → 0 ≤ b < 256.
Proof.
  revert z; induction w as [|w IH]; intros z; simpl; [by rewrite elem_of_nil|].
  rewrite elem_of_app, list_elem_of_singleton. intros [Hb| ->]; [eauto|]. apply Z.mod_pos_bound. lia.
Qed.

Lemma hex_encode_lower l : (∀ b, b ∈ l → 0 ≤ b < 256) →
  string_forallb is_lower_hex (hex_encode l) = true.
Proof.
  induction l as [|b l IH]; intros Hl; simpl; [done|].
  assert (0 ≤ b < 256) as Hb by (apply Hl; left).
  rewrite !hex_digit_lower, IH; [done| | |].
  - intros c Hc. apply Hl. by right.
  - apply Z.mod_pos_bound. lia.
  - split; [apply Z.div_pos; lia|apply Z.div_lt_upper_bound; lia].
Qed.

Lemma fingerprint_lower prefix j : string_forallb is_lower_hex (fingerprint prefix j) = true.
Proof.
  destruct j as [j|]; [|done]. apply hex_encode_lower. intros b Hb. unfold sha256 in Hb.
  apply list_elem_of_bind in Hb as (z & Hb & _). by eapply be_bytes_range.
Qed.

(** A string of characters that start no encoding of a space, and end none, is
    trimmed. *)
Definition starts_none (f : ascii → bool) (encs : list string) : Prop :=
  Forall (λ p, match p with String a _ => f a = false | EmptyString => False end) encs.

Lemma strip_class f encs s : starts_none f encs → string_forallb f s = true →
  strip_any encs s = None.
Proof.
  intros He Hs. apply strip_any_None. intros p Hp.
  pose proof (proj1 (Forall_forall _ _) He p Hp) as Ha. destruct p as [|a p]; [done|].
  destruct s as [|b s]; simpl in *; [done|]. apply andb_true_iff in Hs as [Hb _].
  destruct (Ascii.eqb a b) eqn:Hab; [|done]. apply Ascii.eqb_eq in Hab as ->. congruence.
Qed.

Lemma class_trimmed f s : starts_none f space_encodings →
  starts_none f (srev <$> space_encodings) → string_forallb f s = true → TrimSpace s = s.
Proof.
  intros Hl Hr Hs. unfold TrimSpace, trim_left. rewrite strip_all_id by by eapply strip_class.
  unfold trim_right. rewrite strip_all_id; [apply srev_involutive|].
  eapply strip_class; [exact Hr|by rewrite forallb_srev].
Qed.

Lemma hex_trimmed s : string_forallb is_lower_hex s = true → TrimSpace s = s.
Proof. apply class_trimmed; repeat constructor. Qed.
