(* ===== verification/Cursors.v ===== *)
(** * Page cursors: RFC 3339 instants read back, base64

    [time.Parse(time.RFC3339Nano, s)], [base64.RawURLEncoding] and
    [strings.SplitN(s, "|", 2)], which the cursor of
    [ListOrganizationWalletEntries] is written and read with, and that each
    reads back what its counterpart writes. Bytes are a list of [Z]. *)
From S2P Require Import Prelude GoStd Encoding.

(** ** Reading an instant *)

Definition digit (b : Z) : option Z := if in_range 48 57 b then Some (b - 48) else None.

(** [getnum]: two digits, or one when the field is not of fixed width. *)
Definition getnum (fixed : bool) (l : list Z) : option (Z * list Z) :=
  match l with
  | [] => None
  | a :: r =>
    x ← digit a;
    match r with
    | b :: r' => match digit b with
                 | Some y => Some (10 * x + y, r')
                 | None => if fixed then None else Some (x, r)
                 end
    | [] => if fixed then None else Some (x, r)
    end
  end.

Fixpoint number (acc : Z) (l : list Z) : option Z :=
  match l with
  | [] => Some acc
  | b :: r => d ← digit b; number (10 * acc + d) r
  end.

(** The field "2006": four digits. *)
Definition getyear (l : list Z) : option (Z * list Z) :=
  match l with
  | a :: b :: c :: d :: r => y ← number 0 [a; b; c; d]; Some (y, r)
  | _ => None
  end.

Definition skip (c : Z) (l : list Z) : option (list Z) :=
  match l with
  | b :: r => if b =? c then Some r else None
  | [] => None
  end.

Fixpoint leading_digits (l : list Z) : list Z * list Z :=
  match l with
  | b :: r => if in_range 48 57 b then let '(ds, rest) := leading_digits r in (b :: ds, rest)
              else ([], l)
  | [] => ([], [])
  end.

(** [parseNanoseconds] keeps the first nine digits. *)
Definition nanoseconds (ds : list Z) : option Z :=
  let ds := firstn 9 ds in
  n ← number 0 ds;
  Some (n * 10 ^ (9 - Z.of_nat (length ds))).

(** The optional fraction of a second, after a period or a comma. *)
Definition getfraction (l : list Z) : option (Z * list Z) :=
  match l with
  | p :: r =>
    if (p =? 46) || (p =? 44) then
      match leading_digits r with
      | ([], _) => Some (0, l)
      | (ds, rest) => n ← nanoseconds ds; Some (n, rest)
      end
    else Some (0, l)
  | [] => Some (0, [])
  end.

(** The field "Z07:00": the seconds east of UTC. *)
Definition getzone (l : list Z) : option (Z * list Z) :=
  match l with
  | 90 :: r => Some (0, r)
  | sign :: h1 :: h2 :: c :: m1 :: m2 :: r =>
    if c =? 58 then
      '(h, _) ← getnum true [h1; h2];
      '(m, _) ← getnum true [m1; m2];
      if (h >? 24) || (m >? 60) then None
      else if sign =? 43 then Some ((h * 60 + m) * 60, r)
      else if sign =? 45 then Some (- ((h * 60 + m) * 60), r)
      else None
    else None
  | _ => None
  end.

(** Days from 0001-01-01 to the first day of a year, and of a month in it. *)
Definition days_before_year (y : Z) : Z :=
  let n := y - 1 in 365 * n + n / 4 - n / 100 + n / 400.
Definition days_before_month (y m : Z) : Z :=
  foldr Z.add 0 (firstn (Z.to_nat (m - 1)) (month_lengths y)).

(** [time.Date] of a UTC date and time. *)
Definition Date (y m d h mi s ns : Z) : Time :=
  ((days_before_year y + days_before_month y m + (d - 1)) * 86400
   + h * 3600 + mi * 60 + s) * Second + ns.

Definition Parse_RFC3339Nano (l : list Z) : option Time :=
  '(y, l) ← getyear l;
  l ← skip 45 l; '(mo, l) ← getnum true l;
  if (mo <=? 0) || (12 <? mo) then None else
  l ← skip 45 l; '(d, l) ← getnum true l;
  l ← skip 84 l; '(h, l) ← getnum false l;
  if (h <? 0) || (24 <=? h) then None else
  l ← skip 58 l; '(mi, l) ← getnum true l;
  if (mi <? 0) || (60 <=? mi) then None else
  l ← skip 58 l; '(s, l) ← getnum true l;
  if (s <? 0) || (60 <=? s) then None else
  '(ns, l) ← getfraction l;
  '(zone, l) ← getzone l;
  if (match l with [] => false | _ => true end) || (d <? 1) || (nth (Z.to_nat (mo - 1)) (month_lengths y) 0 <? d)
  then None
  else Some (Date y mo d h mi s ns - zone * Second).

(** ** base64.RawURLEncoding *)

Definition b64_char (z : Z) : Z :=
  if z <? 26 then 65 + z else if z <? 52 then 71 + z else if z <? 62 then z - 4
  else if z =? 62 then 45 else 95.
Definition b64_value (c : Z) : option Z :=
  if in_range 65 90 c then Some (c - 65) else if in_range 97 122 c then Some (c - 71)
  else if in_range 48 57 c then Some (c + 4) else if c =? 45 then Some 62
  else if c =? 95 then Some 63 else None.

Fixpoint b64_encode (l : list Z) : list Z :=
  match l with
  | a :: b :: c :: r =>
    b64_char (a / 4) :: b64_char (a mod 4 * 16 + b / 16) :: b64_char (b mod 16 * 4 + c / 64)
    :: b64_char (c mod 64) :: b64_encode r
  | [a; b] => [b64_char (a / 4); b64_char (a mod 4 * 16 + b / 16); b64_char (b mod 16 * 4)]
  | [a] => [b64_char (a / 4); b64_char (a mod 4 * 16)]
  | [] => []
  end.

(** Groups of four values; a last group of two or three leaves bits unused. *)
Fixpoint b64_groups (l : list Z) : option (list Z) :=
  match l with
  | a :: b :: c :: d :: r =>
    rest ← b64_groups r;
    Some (a * 4 + b / 16 :: b mod 16 * 16 + c / 4 :: c mod 4 * 64 + d :: rest)
  | [a; b; c] => Some [a * 4 + b / 16; b mod 16 * 16 + c / 4]
  | [a; b] => Some [a * 4 + b / 16]
  | [_] => None
  | [] => Some []
  end.

(** Line breaks are ignored, any other byte outside the alphabet is an error. *)
Definition b64_decode (l : list Z) : option (list Z) :=
  values ← mapM b64_value (filter (λ c, c ≠ 10 ∧ c ≠ 13) l);
  b64_groups values.

(** ** strings.SplitN(s, "|", 2) *)

(** The parts around the first separator; [None] when there is one part. *)
Fixpoint split_bar (l : list Z) : option (list Z * list Z) :=
  match l with
  | [] => None
  | b :: r => if b =? 124 then Some ([], r)
              else '(x, y) ← split_bar r; Some (b :: x, y)
  end.

(** ** Examples *)

Example parse_examples :
  Parse_RFC3339Nano (chars "2000-02-29T00:00:00Z") = Some ((62135596800 + 951782400) * Second) ∧
  Parse_RFC3339Nano (chars "1970-01-01T1:00:00,5+01:00") = Some (62135596800 * Second + 500000000) ∧
  Parse_RFC3339Nano (chars "1999-02-29T00:00:00Z") = None ∧
  Parse_RFC3339Nano (chars "1970-01-01T00:00:00") = None.
Proof. vm_compute. auto. Qed.

Example base64_examples :
  of_bytes (b64_encode (chars "light work.")) = "bGlnaHQgd29yay4"%string ∧
  (of_bytes <$> b64_decode (chars "bGlnaHQgd29yay4")) = Some "light work."%string ∧
  b64_decode (chars "bGlna") = None ∧ b64_decode (chars "bG=") = None.
Proof. vm_compute. auto. Qed.

(** * Lemmas *)

(** ** The calendar *)

(** A number split by a divisor. *)
Lemma div_mod_split a b : 0 < b → a = b * (a / b) + a mod b ∧ 0 ≤ a mod b < b.
Proof. intros. split; [apply Z.div_mod; lia|]. apply Z.mod_pos_bound. lia. Qed.

(** The counts of 400, 100, 4 and 1 year cycles fix the days and the leap year. *)
Lemma cycles_year a b c e (y := 400 * a + 100 * b + 4 * c + e + 1) :
  0 ≤ b ≤ 3 → 0 ≤ c ≤ 24 → 0 ≤ e ≤ 3 →
  days_before_year y = 146097 * a + 36524 * b + 1461 * c + 365 * e ∧
  is_leap y = (e =? 3) && ((c <? 24) || (b =? 3)).
Proof.
  intros Hb Hc He. unfold days_before_year. split.
  - replace (y - 1) with (4 * (100 * a + 25 * b + c) + e) by (unfold y; lia).
    assert ((4 * (100 * a + 25 * b + c) + e) / 4 = 100 * a + 25 * b + c) as ->.
    { symmetry. apply Z.div_unique with e; lia. }
    assert ((4 * (100 * a + 25 * b + c) + e) / 100 = 4 * a + b) as ->.
    { symmetry. apply Z.div_unique with (4 * c + e); lia. }
    assert ((4 * (100 * a + 25 * b + c) + e) / 400 = a) as ->.
    { symmetry. apply Z.div_unique with (100 * b + 4 * c + e); lia. }
    lia.
  - unfold is_leap. assert (y = 400 * a + 100 * b + 4 * c + e + 1) as Hy by done.
    clearbody y. destruct (div_mod_split y 4), (div_mod_split y 100), (div_mod_split y 400);
      [lia..|].
    destruct (y mod 4 =? 0) eqn:?, (y mod 100 =? 0) eqn:?, (y mod 400 =? 0) eqn:?,
      (e =? 3) eqn:?, (c <? 24) eqn:?, (b =? 3) eqn:?; simpl; reflect_bools; lia.
Qed.

Lemma year_day_spec days : let '(y, yd) := year_day days in
  days = days_before_year y + yd ∧ 0 ≤ yd < (if is_leap y then 366 else 365).
Proof.
  unfold year_day.
  destruct (div_mod_split days 146097) as [G1 ?]; [lia|].
  set (a := days / 146097) in *. set (d := days mod 146097) in *.
  destruct (div_mod_split d 36524) as [G2 ?]; [lia|].
  set (b := Z.min 3 (d / 36524)) in *. set (d2 := d - b * 36524) in *.
  assert (0 ≤ d2 ∧ (b < 3 → d2 < 36524) ∧ d2 ≤ 36524 ∧ 0 ≤ b ≤ 3) as (? & ? & ? & ?) by lia.
  destruct (div_mod_split d2 1461) as [G3 ?]; [lia|].
  set (c := d2 / 1461) in *. set (d3 := d2 mod 1461) in *.
  assert (0 ≤ c ≤ 24) by lia.
  destruct (div_mod_split d3 365) as [G4 ?]; [lia|].
  set (e := Z.min 3 (d3 / 365)) in *.
  assert (0 ≤ e ≤ 3) by lia.
  destruct (cycles_year a b c e) as [-> ->]; [done..|].
  split; [lia|]. split; [lia|].
  destruct (e =? 3) eqn:?, (c <? 24) eqn:?, (b =? 3) eqn:?; simpl; reflect_bools; lia.
Qed.

Lemma month_day_spec lens m d m' d' : Forall (λ n, 0 < n) lens →
  0 ≤ d < foldr Z.add 0 lens → month_day lens m d = (m', d') →
  ∃ k, (k < length lens)%nat ∧ m' = m + Z.of_nat k ∧ d = foldr Z.add 0 (firstn k lens) + (d' - 1) ∧
       1 ≤ d' ≤ nth k lens 0.
Proof.
  intros Hpos. revert m d. induction Hpos as [|n lens Hn _ IH]; intros m d Hd Hm; simpl in *;
    [lia|].
  destruct (d <? n) eqn:Hlt; reflect_bools.
  - injection Hm as <- <-. exists 0%nat. simpl. lia.
  - destruct (IH (m + 1) (d - n)) as (k & Hk & -> & Hdk & Hd'); [lia|done|].
    exists (S k). simpl. lia.
Qed.

(** The date of a day: its month and day of the month are in range. *)
Lemma date_of_day days y yd m d : year_day days = (y, yd) →
  month_day (month_lengths y) 1 yd = (m, d) →
  days = days_before_year y + days_before_month y m + (d - 1) ∧
  1 ≤ m ≤ 12 ∧ 1 ≤ d ≤ nth (Z.to_nat (m - 1)) (month_lengths y) 0 ∧ d ≤ 31.
Proof.
  intros Hy Hm. pose proof (year_day_spec days) as Hs. rewrite Hy in Hs. destruct Hs as [Hdays Hyd].
  apply month_day_spec in Hm as (k & Hk & -> & Hd & Hd').
  - unfold days_before_month. replace (Z.to_nat (1 + Z.of_nat k - 1)) with k by lia.
    simpl in Hk. split; [lia|]. split; [lia|]. split; [done|].
    assert (Forall (λ n, n ≤ 31) (month_lengths y)) as Hall.
    { unfold month_lengths. destruct (is_leap y); repeat constructor; lia. }
    rewrite (Forall_nth _ 0) in Hall. specialize (Hall k Hk). lia.
  - unfold month_lengths. destruct (is_leap y); repeat constructor; lia.
  - unfold month_lengths. destruct (is_leap y); simpl; lia.
Qed.

(** ** Digits read back *)

(** A bind of a result that is there. *)
Ltac some_bind := repeat match goal with
  | |- context [mbind ?f (Some ?a)] => change (mbind f (Some a)) with (f a); cbv beta
  end.

Lemma digit_digit z : 0 ≤ z < 10 → digit (48 + z) = Some z.
Proof.
  intros. unfold digit, in_range. rewrite (proj2 (Z.leb_le _ _)), (proj2 (Z.leb_le _ _)) by lia.
  simpl. f_equal. lia.
Qed.

Lemma digits_2 z r : digits 2 z ++ r = 48 + z / 10 mod 10 :: 48 + z mod 10 :: r.
Proof. done. Qed.

Lemma getnum_digits fixed z r : 0 ≤ z < 100 → getnum fixed (digits 2 z ++ r) = Some (z, r).
Proof.
  intros. rewrite digits_2. unfold getnum.
  destruct (div_mod_split z 10); [lia|]. rewrite (Z.mod_small (z / 10) 10) by lia.
  rewrite digit_digit by lia. some_bind. rewrite digit_digit by lia.
  some_bind. f_equal. f_equal. lia.
Qed.

Lemma length_digits w z : length (digits w z) = w.
Proof. revert z. induction w as [|w IH]; intros z; simpl; [done|]. rewrite length_app, IH. simpl. lia. Qed.

Lemma number_app acc l r : number acc (l ++ r) = n ← number acc l; number n r.
Proof.
  revert acc. induction l as [|b l IH]; intros acc; simpl; [done|].
  destruct (digit b); simpl; [apply IH|done].
Qed.

Lemma number_digits acc w z : 0 ≤ z →
  number acc (digits w z) = Some (acc * 10 ^ Z.of_nat w + z mod 10 ^ Z.of_nat w).
Proof.
  revert z. induction w as [|w IH]; intros z Hz; [simpl; rewrite Z.mod_1_r; f_equal; lia|].
  destruct (div_mod_split z 10); [lia|].
  cbn [digits]. rewrite number_app, IH by lia. cbn [number]; some_bind.
  rewrite digit_digit by lia. some_bind. f_equal.
  rewrite Nat2Z.inj_succ, Z.pow_succ_r by lia.
  rewrite (Z.rem_mul_r z 10 (10 ^ Z.of_nat w)) by lia. lia.
Qed.

Definition is_digit (b : Z) : Prop := in_range 48 57 b = true.

Lemma digits_are_digits w z : Forall is_digit (digits w z).
Proof.
  revert z. induction w as [|w IH]; intros z; [constructor|]. cbn [digits].
  apply Forall_app. split; [done|]. repeat constructor.
  unfold is_digit, in_range. destruct (div_mod_split z 10); [lia|].
  rewrite (proj2 (Z.leb_le _ _)), (proj2 (Z.leb_le _ _)) by lia. done.
Qed.

Lemma leading_digits_app ds r : Forall is_digit ds →
  match r with b :: _ => in_range 48 57 b = false | [] => True end →
  leading_digits (ds ++ r) = (ds, r).
Proof.
  intros Hds Hr. induction Hds as [|b ds Hb _ IH]; simpl.
  - destruct r as [|b r]; [done|]. simpl. by rewrite Hr.
  - by rewrite Hb, IH.
Qed.

(** Trailing zeros only scale. *)
Lemma drop_zeros_split l : ∃ n, l = replicate n 48 ++ drop_zeros l.
Proof.
  induction l as [|b l [n IH]]; [by exists 0%nat|].
  destruct (decide (b = 48)) as [->|Hb].
  - exists (S n). simpl. by f_equal.
  - exists 0%nat. simpl. by repeat case_match.
Qed.

Lemma number_zeros acc n : number acc (replicate n 48) = Some (acc * 10 ^ Z.of_nat n).
Proof.
  revert acc. induction n as [|n IH]; intros acc; [simpl; f_equal; lia|].
  cbn [replicate number]. change (digit 48) with (Some 0). some_bind.
  rewrite IH, Nat2Z.inj_succ, Z.pow_succ_r by lia. f_equal. lia.
Qed.

Lemma number_total acc l : Forall is_digit l → is_Some (number acc l).
Proof.
  intros Hl. revert acc. induction Hl as [|b l Hb _ IH]; intros acc; simpl; [done|].
  unfold digit. rewrite Hb. apply IH.
Qed.

Lemma fraction_spec ns : 0 ≤ ns < Second → ∃ l k,
  fraction ns = match l with [] => [] | _ => 46 :: l end ∧
  Forall is_digit l ∧ (length l + k = 9)%nat ∧
  number 0 l = Some (ns / 10 ^ Z.of_nat k) ∧ ns = ns / 10 ^ Z.of_nat k * 10 ^ Z.of_nat k.
Proof.
  intros Hns. destruct (drop_zeros_split (reverse (digits 9 ns))) as [k Hk].
  set (l := reverse (drop_zeros (reverse (digits 9 ns)))).
  assert (digits 9 ns = l ++ replicate k 48) as Hl.
  { apply (inj reverse). rewrite reverse_app. unfold l.
    rewrite reverse_involutive, reverse_replicate. exact Hk. }
  assert (Forall is_digit l) as Hd.
  { pose proof (digits_are_digits 9 ns) as Hall. rewrite Hl in Hall. by apply Forall_app in Hall as []. }
  exists l, k. destruct (number_total 0 l Hd) as [v Hv].
  assert (v * 10 ^ Z.of_nat k = ns) as Hvns.
  { pose proof (number_digits 0 9 ns ltac:(lia)) as Hn. rewrite Hl, number_app, Hv in Hn.
    revert Hn. some_bind. rewrite number_zeros, Z.mod_small by exact Hns.
    intros Hn. apply (inj Some) in Hn. lia. }
  assert (ns / 10 ^ Z.of_nat k = v) as Hdiv.
  { rewrite <- Hvns. apply Z.div_mul. lia. }
  split; [unfold fraction; fold l; by destruct l|]. split; [done|]. split.
  { pose proof (length_digits 9 ns) as Hlen. rewrite Hl, length_app, length_replicate in Hlen. done. }
  by rewrite Hdiv.
Qed.

Lemma getfraction_fraction ns r : 0 ≤ ns < Second →
  match r with b :: _ => in_range 48 57 b = false ∧ b ≠ 46 ∧ b ≠ 44 | [] => True end →
  getfraction (fraction ns ++ r) = Some (ns, r).
Proof.
  intros Hns Hr. destruct (fraction_spec ns Hns) as (l & k & -> & Hd & Hlen & Hn & Heq).
  destruct l as [|b l].
  - simpl in Hn, Hlen. injection Hn as Hn. rewrite <- Hn in Heq. subst ns.
    destruct r as [|b r]; [done|]. simpl. destruct Hr as (_ & H46 & H44).
    by rewrite (proj2 (Z.eqb_neq _ _) H46), (proj2 (Z.eqb_neq _ _) H44).
  - unfold getfraction. rewrite <- app_comm_cons. cbn [Z.eqb Pos.eqb orb].
    rewrite leading_digits_app; [|done|destruct r; [done|by destruct Hr]].
    unfold nanoseconds. rewrite firstn_all2 by lia. rewrite Hn. some_bind. do 2 f_equal.
    rewrite Heq at 2. do 2 f_equal. lia.
Qed.

Lemma getyear_digits y r : 0 ≤ y < 10000 → getyear (digits 4 y ++ r) = Some (y, r).
Proof.
  intros Hy. destruct (digits 4 y) as [|a [|b [|c [|d [|]]]]] eqn:Hd;
    pose proof (length_digits 4 y) as Hl; rewrite Hd in Hl; try done.
  simpl. change (number 0 [a; b; c; d] ≫= (λ y, Some (y, r)) = Some (y, r)).
  rewrite <- Hd, number_digits by lia. some_bind. rewrite Z.mod_small by lia. f_equal.
Qed.

Lemma skip_cons c r : skip c (c :: r) = Some r.
Proof. simpl. by rewrite Z.eqb_refl. Qed.

(** The fields of a time of day. *)
Lemma time_of_day s : 0 ≤ s < 86400 →
  s = s / 3600 * 3600 + s mod 3600 / 60 * 60 + s mod 60 ∧
  0 ≤ s / 3600 < 24 ∧ 0 ≤ s mod 3600 / 60 < 60 ∧ 0 ≤ s mod 60 < 60.
Proof.
  intros. destruct (div_mod_split s 3600); [lia|].
  destruct (div_mod_split (s mod 3600) 60); [lia|].
  assert (s mod 3600 mod 60 = s mod 60) as Hm.
  { symmetry. rewrite (Znumtheory.Zmod_div_mod 60 3600); [done|lia..|]. by exists 60. }
  lia.
Qed.

(** Reading an instant of a year with four digits gives back the instant. *)
Lemma Parse_Format t : 0 ≤ year_of t ≤ 9999 →
  Parse_RFC3339Nano (Format_RFC3339Nano t) = Some t.
Proof.
  unfold year_of, Format_RFC3339Nano, after_year, year_bytes, year_of.
  destruct (div_mod_split t Second) as [Ht Hns]; [done|].
  destruct (div_mod_split (t / Second) 86400) as [Hs Hsod]; [done|].
  destruct (year_day (t / Second / 86400)) as [y yd] eqn:Hy. simpl fst. intros Hyr.
  destruct (month_day (month_lengths y) 1 yd) as [m d] eqn:Hm.
  destruct (date_of_day _ _ _ _ _ Hy Hm) as (Hday & Hmr & Hdr & Hd31).
  destruct (time_of_day _ Hsod) as (Hsplit & Hh & Hmi & Hse).
  set (s := t / Second mod 86400) in *. set (ns := t mod Second) in *.
  rewrite (proj2 (Z.ltb_ge y 0)), Z.abs_eq, (proj2 (Z.ltb_lt y 10000)) by lia.
  unfold Parse_RFC3339Nano. rewrite app_nil_l.
  rewrite getyear_digits by lia. some_bind.
  repeat (rewrite <- app_comm_cons, app_nil_l, skip_cons; some_bind;
          rewrite getnum_digits by lia; some_bind;
          rewrite ?(proj2 (Z.leb_gt _ _)), ?(proj2 (Z.ltb_ge _ _)) by lia; cbn [orb]).
  rewrite getfraction_fraction; [|done|done]. some_bind. cbn [getzone app]. some_bind.
  repeat rewrite (proj2 (Z.leb_gt _ _)) by lia. repeat rewrite (proj2 (Z.ltb_ge _ _)) by lia.
  f_equal. unfold Date. lia.
Qed.

(** ** Base64 *)

Definition is_byte (b : Z) : Prop := 0 ≤ b < 256.

Lemma b64_value_char z : 0 ≤ z < 64 →
  b64_value (b64_char z) = Some z ∧ b64_char z ≠ 10 ∧ b64_char z ≠ 13.
Proof.
  intros Hz. assert (Forall (λ z, b64_value (b64_char z) = Some z ∧ b64_char z ≠ 10 ∧
    b64_char z ≠ 13) (seqZ 0 64)) as Hall by (apply (bool_decide_unpack _); by vm_compute).
  rewrite Forall_forall in Hall. apply Hall. apply elem_of_seqZ. lia.
Qed.

Lemma b64_char_byte z : 0 ≤ z < 64 → is_byte (b64_char z).
Proof. intros. unfold is_byte, b64_char. repeat case_match; reflect_bools; lia. Qed.

(** The values of the characters, before they are written. *)
Fixpoint b64_values (l : list Z) : list Z :=
  match l with
  | a :: b :: c :: r =>
    a / 4 :: a mod 4 * 16 + b / 16 :: b mod 16 * 4 + c / 64 :: c mod 64 :: b64_values r
  | [a; b] => [a / 4; a mod 4 * 16 + b / 16; b mod 16 * 4]
  | [a] => [a / 4; a mod 4 * 16]
  | [] => []
  end.

(** Induction on a list three elements at a time. *)
Lemma list_ind_3 {A} (P : list A → Prop) : P [] → (∀ a, P [a]) → (∀ a b, P [a; b]) →
  (∀ a b c l, P l → P (a :: b :: c :: l)) → ∀ l, P l.
Proof.
  intros H0 H1 H2 H3. fix IH 1. intros [|a [|b [|c l]]]; [apply H0|apply H1|apply H2|].
  apply H3, IH.
Qed.

Ltac split_byte a n := let H := fresh in
  destruct (div_mod_split a n) as [? H]; [lia|].

Lemma b64_values_ok l : Forall is_byte l →
  b64_encode l = b64_char <$> b64_values l ∧ Forall (λ z, 0 ≤ z < 64) (b64_values l) ∧
  b64_groups (b64_values l) = Some l.
Proof.
  unfold is_byte. induction l as [|a|a b|a b c l IH] using list_ind_3.
  - done.
  - intros [Ha _]%Forall_cons. split_byte a 4. cbn [b64_encode b64_values b64_groups].
    split; [done|]. split; [repeat constructor; lia|]. do 2 f_equal.
    rewrite Z.div_mul by lia. lia.
  - intros [Ha [Hb _]%Forall_cons]%Forall_cons. split_byte a 4. split_byte b 16.
    cbn [b64_encode b64_values b64_groups]. split; [done|]. split; [repeat constructor; lia|].
    rewrite Z.div_mul, Z.div_add_l, (Z.div_small (_ / _)) by lia.
    rewrite (Z.add_comm (a mod 4 * 16)), Z.mod_add, (Z.mod_small (_ / _)) by lia. do 2 f_equal; [lia|].
    f_equal. lia.
  - intros [Ha [Hb [Hc Hl]%Forall_cons]%Forall_cons]%Forall_cons.
    destruct (IH Hl) as (He & Hv & Hg). split_byte a 4. split_byte b 16. split_byte c 64.
    cbn [b64_encode b64_values b64_groups]. rewrite He, Hg. split; [done|].
    split; [repeat (constructor; [lia|]); done|]. some_bind.
    rewrite !Z.div_add_l, !(Z.div_small (_ / _)) by lia.
    rewrite (Z.add_comm (a mod 4 * 16)), (Z.add_comm (b mod 16 * 4)), !Z.mod_add by lia.
    rewrite !(Z.mod_small (_ / _)) by lia. repeat f_equal; lia.
Qed.

(** base64 reads back what it wrote. *)
Lemma b64_decode_encode l : Forall is_byte l → b64_decode (b64_encode l) = Some l.
Proof.
  intros Hl. destruct (b64_values_ok l Hl) as (He & Hv & Hg).
  unfold b64_decode. rewrite He. clear He. revert Hv Hg. generalize (b64_values l). intros v Hv Hg.
  assert (filter (λ c, c ≠ 10 ∧ c ≠ 13) (b64_char <$> v) = b64_char <$> v) as ->.
  { clear Hg. induction Hv as [|z v Hz _ IH]; [done|]. rewrite fmap_cons, filter_cons_True, IH;
      [done|]. by destruct (b64_value_char z Hz). }
  assert (mapM b64_value (b64_char <$> v) = Some v) as ->; [|exact Hg].
  clear Hg. induction Hv as [|z v Hz _ IH]; [done|]. cbn [fmap list_fmap]. simpl.
  destruct (b64_value_char z Hz) as [-> _]. simpl. by rewrite IH.
Qed.

(** ** The separator *)

Lemma split_bar_app x y : Forall (λ b, b ≠ 124) x → split_bar (x ++ 124 :: y) = Some (x, y).
Proof.
  intros Hx. induction Hx as [|b x Hb _ IH]; simpl; [done|].
  by rewrite (proj2 (Z.eqb_neq b 124) Hb), IH.
Qed.

(** ** Strings and their bytes *)

Lemma byte_val_byte b : is_byte b → byte_val (byte b) = b.
Proof. unfold is_byte, byte, byte_val. intros. rewrite N_ascii_embedding by lia. lia. Qed.

Lemma string_bytes_of_bytes l : Forall is_byte l → string_bytes (of_bytes l) = l.
Proof.
  intros Hl. induction Hl as [|b l Hb _ IH]; [done|]. unfold of_bytes, bytes in *. simpl.
  by rewrite IH, byte_val_byte.
Qed.

Lemma string_bytes_are_bytes s : Forall is_byte (string_bytes s).
Proof.
  induction s as [|a s IH]; constructor; [|done]. unfold is_byte, byte_val.
  pose proof (N_ascii_bounded a). lia.
Qed.
