(* ===== verification/Store.v ===== *)
(** * A database behind gorm

    The part of gorm the repositories use, over any database: tables with a
    primary key and unique indexes, [Take], [Create], [Create] with ON CONFLICT
    DO NOTHING, column updates, [Save], [Count], [SUM] scanned into an int64, and
    [Transaction]. A transaction is one atomic step (the code serialises writers
    by row locks); it rolls the tables back when its body fails. Clock readings
    and fresh UUIDs come from the environment. Also the laws of tables, frames
    ([Writes], [Inserts], [Saves]) for what a computation leaves alone, and
    weakest preconditions of the statements. *)
From S2P Require Import Prelude GoStd.

(** The tables, and how many UUIDs and clock readings were taken. *)
Record WorldOf (D : Type) := {
  the_db : D;
  uuids_used : nat;
  clock_reads : nat }.
Arguments the_db {D} w : rename.
Arguments uuids_used {D} w : rename.
Arguments clock_reads {D} w : rename.
Arguments Build_WorldOf {D} the_db uuids_used clock_reads : rename.

Definition set_db {D : Type} (f : D → D) (w : WorldOf D) : WorldOf D :=
  {| the_db := f (the_db w); uuids_used := uuids_used w; clock_reads := clock_reads w |}.

(** The environment: [uuid.NewString], [time.Now] and [tx.Dialector.Name]. *)
Class Env := {
  uuid_stream : nat → string;
  clock_stream : nat → Time;
  dialect : string }.

Definition NewString {D : Type} `{Env} : ST (WorldOf D) string := λ w,
  (Ok (uuid_stream (uuids_used w)),
   {| the_db := the_db w; uuids_used := S (uuids_used w); clock_reads := clock_reads w |}).

Definition Now {D : Type} `{Env} : ST (WorldOf D) Time := λ w,
  (Ok (clock_stream (clock_reads w)),
   {| the_db := the_db w; uuids_used := uuids_used w; clock_reads := S (clock_reads w) |}).

(** ** Tables and the statements that act on them *)

(** A table: where it is in the database, its primary key, and whether two
    rows of different keys collide on one of its unique indexes. *)
Record TableOf (D K V : Type) `{Countable K} := {
  rows : D → gmap K V;
  put_rows : gmap K V → D → D;
  pk : V → K;
  collides : V → V → bool }.
Arguments rows {D K V _ _} t.
Arguments put_rows {D K V _ _} t.
Arguments pk {D K V _ _} t.
Arguments collides {D K V _ _} t.

Section statements.
Context {D : Type}.
Context {K V : Type} `{Countable K}.
Implicit Types (t : TableOf D K V) (P : V → bool).

Definition table t : WorldOf D → gmap K V := λ w, rows t (the_db w).
Definition write t (m : gmap K V) : WorldOf D → WorldOf D := set_db (put_rows t m).

(** [WHERE pk = ?] with [Take]. *)
Definition take_pk t (k : K) : ST (WorldOf D) (option V) := gets (λ w, table t w !! k).
(** [WHERE pk = ? AND ...] with [Take]. *)
Definition take_pk_and t (k : K) P : ST (WorldOf D) (option V) :=
  gets (λ w, v ← table t w !! k; if P v then Some v else None).
(** [WHERE ...] on other columns with [Take]. *)
Definition take t P : ST (WorldOf D) (option V) := gets (λ w, map_find P (table t w)).

(** Whether INSERT of [v] violates the primary key or a unique index. *)
Definition duplicate t (m : gmap K V) (v : V) : bool :=
  bool_decide (is_Some (m !! pk t v)) ||
  match map_find (collides t v) m with Some _ => true | None => false end.

(** [Create]. *)
Definition Create t (v : V) : ST (WorldOf D) unit := λ w,
  if duplicate t (table t w) v then (Err ErrDuplicatedKey, w)
  else (Ok tt, write t (<[pk t v := v]> (table t w)) w).
(** [Create] with ON CONFLICT DO NOTHING; whether a row was inserted. *)
Definition CreateIgnore t (v : V) : ST (WorldOf D) bool := λ w,
  if duplicate t (table t w) v then (Ok false, w)
  else (Ok true, write t (<[pk t v := v]> (table t w)) w).
(** UPDATE of columns no unique index covers, of the row with key [k]. *)
Definition Update t (k : K) (f : V → V) : ST (WorldOf D) unit :=
  modify (λ w, write t (alter f k (table t w)) w).
(** The same UPDATE with more conditions; whether [RowsAffected] is 1. *)
Definition UpdateWhere t (k : K) P (f : V → V) : ST (WorldOf D) bool := λ w,
  match table t w !! k with
  | Some v => if P v then (Ok true, write t (alter f k (table t w)) w) else (Ok false, w)
  | None => (Ok false, w)
  end.
(** [Save]: the row replaces the one with its key; a unique index may refuse. *)
Definition Save t (v : V) : ST (WorldOf D) unit := λ w,
  let m := table t w in
  match map_find (collides t v) (delete (pk t v) m) with
  | Some _ => (Err ErrDuplicatedKey, w)
  | None => (Ok tt, write t (<[pk t v := v]> m) w)
  end.

(** SELECT COALESCE(SUM(f), 0) ... WHERE P, scanned into an int64. *)
Definition Sum t P (f : V → Z) : ST (WorldOf D) Z := λ w,
  let s := msum (λ v, if P v then f v else 0) (table t w) in
  if bool_decide (in_int64 s) then (Ok s, w) else (Err ErrOutOfRange, w).
(** [Count]. *)
Definition Count t P : ST (WorldOf D) Z := gets (λ w, count_where P (table t w)).
(** [Find], in no order. *)
Definition Find t P : ST (WorldOf D) (list V) := gets (λ w, rows_where P (table t w)).
End statements.

(** [if err := m; err != nil { return e }] *)
Definition or_error {D : Type} {A} (e : goerr) (m : ST (WorldOf D) A) : ST (WorldOf D) A := λ w,
  match m w with (Err _, w') => (Err e, w') | r => r end.

(** A row that must exist. *)
Definition found {D : Type} {V} (e : goerr) (o : option V) : ST (WorldOf D) V :=
  match o with Some v => mret v | None => fail e end.

(** [db.Transaction(body)]: an error rolls the tables back. *)
Definition Transaction {D : Type} {A} (body : ST (WorldOf D) A) : ST (WorldOf D) A := λ w,
  match body w with
  | (Ok a, w') => (Ok a, w')
  | (Err e, w') => (Err e, set_db (λ _, the_db w) w')
  end.

(** [for _, x := range l { if err := f(x); err != nil { return err } }],
    gathering the results. *)
Fixpoint each {D : Type} {A B} (f : A → ST (WorldOf D) B) (l : list A) : ST (WorldOf D) (list B) :=
  match l with
  | [] => mret []
  | x :: l' => y ← f x; ys ← each f l'; mret (y :: ys)
  end.

Definition no_collision {V} (_ _ : V) : bool := false.


(** ** ORDER BY on an identity

    The collation of the column: a strict total order. *)
Class Collation := {
  id_before : string → string → bool;
  id_before_irrefl s : id_before s s = false;
  id_before_trans s t u : id_before s t = true → id_before t u = true → id_before s u = true;
  id_before_total s t : id_before s t = false → id_before t s = false → s = t }.

(** The "C" collation compares bytes. *)
Definition c_collation : Collation := {|
  id_before := string_ltb; id_before_irrefl := string_ltb_irrefl;
  id_before_trans := string_ltb_trans; id_before_total := string_ltb_antisym |}.


(** ** A concrete environment

    Numbered UUIDs and a clock that ticks every second from 2024-01-01, for
    worked examples. *)
Definition demo_uuid (n : nat) : string := ("uuid-" +:+ pretty (N.of_nat n))%string.
Definition demo_start : Time := 63839664000000000000.
Definition demo_env : Env := {|
  uuid_stream := demo_uuid;
  clock_stream n := demo_start + Z.of_nat n * Second;
  dialect := "postgres" |}.

(** * Lemmas *)

(** ** Table laws

    Reading back what was written, and reading a table another one was
    written to. *)
Class LawfulTable {D K V} `{Countable K} (t : TableOf D K V) : Prop := {
  rows_put m d : rows t (put_rows t m d) = m;
  put_put m m' d : put_rows t m (put_rows t m' d) = put_rows t m d;
  put_rows_id d : put_rows t (rows t d) d = d }.


Lemma alter_insert_row {K V} `{Countable K} (f : V → V) (k : K) (m : gmap K V) v :
  m !! k = Some v → alter f k m = <[k := f v]> m.
Proof.
  intros Hk. apply map_eq. intros i. destruct (decide (i = k)) as [->|Hne].
  - by rewrite lookup_alter_eq, lookup_insert_eq, Hk.
  - by rewrite lookup_alter_ne, lookup_insert_ne.
Qed.

(** ** Successful statements, read backwards *)

Section statement_lemmas.
Context {D : Type}.
Context {K V : Type} `{Countable K} (t : TableOf D K V).
Implicit Types (w : WorldOf D).

Lemma take_pk_Ok k w o w' : take_pk t k w = (Ok o, w') →
  o = rows t (the_db w) !! k ∧ w' = w.
Proof. unfold take_pk, gets, table. naive_solver. Qed.

Lemma take_pk_and_Ok k P w o w' : take_pk_and t k P w = (Ok o, w') →
  w' = w ∧ (∀ v, o = Some v → rows t (the_db w) !! k = Some v ∧ P v = true) ∧
  (o = None → ∀ v, rows t (the_db w) !! k = Some v → P v = false).
Proof.
  unfold take_pk_and, gets, table. intros [= <- <-]. split; [done|].
  destruct (_ !! k) as [v|]; simpl; [|done]. destruct (P v) eqn:?; naive_solver.
Qed.

Lemma take_Ok P w o w' : take t P w = (Ok o, w') →
  w' = w ∧ o = map_find P (rows t (the_db w)).
Proof. unfold take, gets, table. naive_solver. Qed.

Lemma Create_Ok v w u w' : Create t v w = (Ok u, w') →
  rows t (the_db w) !! pk t v = None ∧
  map_find (collides t v) (rows t (the_db w)) = None ∧
  w' = write t (<[pk t v := v]> (rows t (the_db w))) w.
Proof.
  unfold Create, duplicate, table. intros Hc.
  destruct (rows t (the_db w) !! pk t v) as [x|]; [by simpl in Hc|].
  destruct (map_find _ _); [by simpl in Hc|]. simpl in Hc. by simplify_eq.
Qed.

Lemma CreateIgnore_Ok v w b w' : CreateIgnore t v w = (Ok b, w') →
  (b = false ∧ w' = w ∧ duplicate t (rows t (the_db w)) v = true) ∨
  (b = true ∧ rows t (the_db w) !! pk t v = None ∧
   map_find (collides t v) (rows t (the_db w)) = None ∧
   w' = write t (<[pk t v := v]> (rows t (the_db w))) w).
Proof.
  unfold CreateIgnore, table. destruct (duplicate _ _ _) eqn:Hd; intros Hc; simplify_eq.
  - by left.
  - right. unfold duplicate in Hd. split; [done|].
    destruct (rows t (the_db w) !! pk t v) as [x|]; [done|].
    destruct (map_find _ _); done.
Qed.

Lemma Update_Ok k f w u w' : Update t k f w = (Ok u, w') →
  w' = write t (alter f k (rows t (the_db w))) w.
Proof. unfold Update, modify, table. naive_solver. Qed.

Lemma UpdateWhere_Ok k P f w b w' : UpdateWhere t k P f w = (Ok b, w') →
  (b = false ∧ w' = w) ∨ (b = true ∧ ∃ v, rows t (the_db w) !! k = Some v ∧ P v = true ∧
    w' = write t (<[k := f v]> (rows t (the_db w))) w).
Proof.
  unfold UpdateWhere, table. destruct (rows t (the_db w) !! k) as [v|] eqn:Hk;
    [destruct (P v) eqn:HP|]; intros [= <- <-]; auto. right. split; [done|]. exists v.
  split; [done|]. split; [done|]. by rewrite (alter_insert_row _ _ _ v).
Qed.

Lemma Save_Ok v w u w' : Save t v w = (Ok u, w') →
  map_find (collides t v) (delete (pk t v) (rows t (the_db w))) = None ∧
  w' = write t (<[pk t v := v]> (rows t (the_db w))) w.
Proof. unfold Save, table. intros Hs. case_match; naive_solver. Qed.

Lemma Sum_Ok P f w z w' : Sum t P f w = (Ok z, w') →
  z = msum (λ v, if P v then f v else 0) (rows t (the_db w)) ∧ in_int64 z ∧ w' = w.
Proof. unfold Sum, table. intros Hs. case_bool_decide; naive_solver. Qed.

Lemma Count_Ok P w z w' : Count t P w = (Ok z, w') →
  z = count_where P (rows t (the_db w)) ∧ w' = w.
Proof. unfold Count, gets, table. naive_solver. Qed.

Lemma Find_Ok P w l w' : Find t P w = (Ok l, w') →
  l = rows_where P (rows t (the_db w)) ∧ w' = w.
Proof. unfold Find, gets, table. naive_solver. Qed.
End statement_lemmas.

Lemma found_Ok {D : Type} {V} e (o : option V) (w : WorldOf D) v w' :
  found e o w = (Ok v, w') → o = Some v ∧ w' = w.
Proof. destruct o; unfold found, mret, ST_ret, fail; naive_solver. Qed.

Lemma or_error_Ok {D : Type} {A} e (m : ST (WorldOf D) A) w a w' :
  or_error e m w = (Ok a, w') → m w = (Ok a, w').
Proof. unfold or_error. destruct (m w) as [[] ?]; naive_solver. Qed.

Lemma Transaction_Ok {D : Type} {A} (m : ST (WorldOf D) A) w a w' :
  Transaction m w = (Ok a, w') → m w = (Ok a, w').
Proof. unfold Transaction. destruct (m w) as [[] ?]; naive_solver. Qed.

Lemma Transaction_Err {D : Type} {A} (m : ST (WorldOf D) A) w e w' :
  Transaction m w = (Err e, w') → the_db w' = the_db w.
Proof. unfold Transaction. destruct (m w) as [[] ?]; naive_solver. Qed.

(** The world after clock readings or UUIDs, and what it does to the tables. *)
Definition same_db {D : Type} (w w' : WorldOf D) : Prop := the_db w' = the_db w.

Lemma Now_Ok {D : Type} `{Env} (w : WorldOf D) t w' : Now w = (Ok t, w') → the_db w' = the_db w.
Proof. unfold Now. naive_solver. Qed.

Lemma NewString_Ok {D : Type} `{Env} (w : WorldOf D) t w' : NewString w = (Ok t, w') → the_db w' = the_db w.
Proof. unfold NewString. naive_solver. Qed.

Lemma write_db {D : Type} {K V} `{Countable K} (t : TableOf D K V) m w :
  the_db (write t m w) = put_rows t m (the_db w).
Proof. done. Qed.

(** Takes a successful run apart. Each statement leaves its facts and, when it
    wrote, an equation for the tables. *)
Ltac inv_step H :=
  lazymatch type of H with
  | mbind _ _ _ = (Ok _, _) => apply bind_Ok in H as (?&?&?&?)
  | mret _ _ = (Ok _, _) => apply ret_Ok in H as [??]
  | fail _ _ = (Ok _, _) => exfalso; exact (fail_Ok _ _ _ _ H)
  | lift _ _ = (Ok _, _) => apply lift_Ok in H as [??]
  | check _ _ = (Ok _, _) => apply check_Ok in H as [??]
  | guard_not _ _ _ = (Ok _, _) => apply guard_not_Ok in H as [??]
  | take_pk _ _ _ = (Ok _, _) => apply take_pk_Ok in H as [??]
  | take_pk_and _ _ _ _ = (Ok _, _) => apply take_pk_and_Ok in H as (?&?&?)
  | take _ _ _ = (Ok _, _) => apply take_Ok in H as [??]
  | Create _ _ _ = (Ok _, _) => apply Create_Ok in H as (?&?&?)
  | Update _ _ _ _ = (Ok _, _) => apply Update_Ok in H
  | Save _ _ _ = (Ok _, _) => apply Save_Ok in H as [??]
  | Sum _ _ _ _ = (Ok _, _) => apply Sum_Ok in H as (?&?&?)
  | Count _ _ _ = (Ok _, _) => apply Count_Ok in H as [??]
  | Find _ _ _ = (Ok _, _) => apply Find_Ok in H as [??]
  | found _ _ _ = (Ok _, _) => apply found_Ok in H as [??]
  | or_error _ _ _ = (Ok _, _) => apply or_error_Ok in H
  | Transaction _ _ = (Ok _, _) => apply Transaction_Ok in H
  | Now _ = (Ok _, _) => apply Now_Ok in H
  | NewString _ = (Ok _, _) => apply NewString_Ok in H
  | (if ?b then _ else _) _ = (Ok _, _) => destruct b eqn:?
  | (match ?x with (_, _) => _ end) _ = (Ok _, _) => destruct x as [??]
  | (match ?x with Some _ => _ | None => _ end) _ = (Ok _, _) => destruct x eqn:?
  end.
Ltac inv_run :=
  repeat match goal with
  | H : _ = (Ok _, _) |- _ => progress (inv_step H); subst
  end.

(** ** Footprints

    A frame is a relation between the worlds before and after, that whatever
    leaves the tables alone respects. A computation that only inserts into, or
    writes to, tables a frame leaves open respects the frame. *)
Class Frame {D : Type} (R : WorldOf D → WorldOf D → Prop) : Prop := {
  frame_preorder :: PreOrder R;
  frame_db w w' : the_db w' = the_db w → R w w' }.

(** A relation on the tables, as one on worlds. *)
Definition on_db {D : Type} (R : D → D → Prop) : WorldOf D → WorldOf D → Prop :=
  λ w w', R (the_db w) (the_db w').

#[export] Instance on_db_frame {D : Type} (R : D → D → Prop) `{!PreOrder R} : Frame (on_db R).
Proof.
  unfold on_db. split; [split|].
  - intros w. reflexivity.
  - intros w1 w2 w3 ??. by etrans.
  - intros w w' ->. reflexivity.
Qed.

(** A fresh row may be added to [t]. *)
Class Inserts {D : Type} {K V} `{Countable K} (R : WorldOf D → WorldOf D → Prop) (t : TableOf D K V) : Prop :=
  frame_insert w v : rows t (the_db w) !! pk t v = None →
    map_find (collides t v) (rows t (the_db w)) = None →
    R w (write t (<[pk t v := v]> (rows t (the_db w))) w).
(** A row may replace the one with its key. *)
Class Saves {D : Type} {K V} `{Countable K} (R : WorldOf D → WorldOf D → Prop) (t : TableOf D K V) : Prop :=
  frame_save w v : map_find (collides t v) (delete (pk t v) (rows t (the_db w))) = None →
    R w (write t (<[pk t v := v]> (rows t (the_db w))) w).
(** Anything may be written to [t]. *)
Class Writes {D : Type} {K V} `{Countable K} (R : WorldOf D → WorldOf D → Prop) (t : TableOf D K V) : Prop :=
  frame_write m w : R w (write t m w).
#[export] Instance writes_inserts {D : Type} {K V} `{Countable K} (R : WorldOf D → WorldOf D → Prop) (t : TableOf D K V) :
  Writes R t → Inserts R t.
Proof. intros HW w v _ _. apply HW. Qed.
#[export] Instance writes_saves {D : Type} {K V} `{Countable K} (R : WorldOf D → WorldOf D → Prop) (t : TableOf D K V) :
  Writes R t → Saves R t.
Proof. intros HW w v _. apply HW. Qed.

Section keeps_statements.
Context {D : Type}.
Context (R : WorldOf D → WorldOf D → Prop) `{!Frame R}.

Lemma keeps_take_pk {K V} `{Countable K} (t : TableOf D K V) k : keeps R (take_pk t k).
Proof. apply keeps_gets, _. Qed.
Lemma keeps_take_pk_and {K V} `{Countable K} (t : TableOf D K V) k P : keeps R (take_pk_and t k P).
Proof. apply keeps_gets, _. Qed.
Lemma keeps_take {K V} `{Countable K} (t : TableOf D K V) P : keeps R (take t P).
Proof. apply keeps_gets, _. Qed.
Lemma keeps_Count {K V} `{Countable K} (t : TableOf D K V) P : keeps R (Count t P).
Proof. apply keeps_gets, _. Qed.
Lemma keeps_Find {K V} `{Countable K} (t : TableOf D K V) P : keeps R (Find t P).
Proof. apply keeps_gets, _. Qed.
Lemma duplicate_false {K V} `{Countable K} (t : TableOf D K V) m v :
  duplicate t m v = false → m !! pk t v = None ∧ map_find (collides t v) m = None.
Proof.
  unfold duplicate. intros [Hd Hc]%orb_false_iff. apply bool_decide_eq_false in Hd.
  split; [by apply eq_None_not_Some|]. by destruct (map_find _ _).
Qed.
Lemma keeps_Create {K V} `{Countable K} (t : TableOf D K V) `{!Inserts R t} v : keeps R (Create t v).
Proof.
  intros w. unfold Create, table. destruct (duplicate _ _ _) eqn:Hd; simpl; [reflexivity|].
  apply duplicate_false in Hd as [??]. by apply frame_insert.
Qed.
Lemma keeps_CreateIgnore {K V} `{Countable K} (t : TableOf D K V) `{!Inserts R t} v :
  keeps R (CreateIgnore t v).
Proof.
  intros w. unfold CreateIgnore, table.
  destruct (duplicate _ _ _) eqn:Hd; simpl; [reflexivity|].
  apply duplicate_false in Hd as [??]. by apply frame_insert.
Qed.
Lemma keeps_Update {K V} `{Countable K} (t : TableOf D K V) `{!Writes R t} k f :
  keeps R (Update t k f).
Proof. intros w. apply frame_write. Qed.
Lemma keeps_UpdateWhere {K V} `{Countable K} (t : TableOf D K V) `{!Writes R t} k P f :
  keeps R (UpdateWhere t k P f).
Proof.
  intros w. unfold UpdateWhere. repeat case_match; simpl; try reflexivity. apply frame_write.
Qed.
Lemma keeps_Save {K V} `{Countable K} (t : TableOf D K V) `{!Saves R t} v : keeps R (Save t v).
Proof. intros w. unfold Save. case_match; [reflexivity|by apply frame_save]. Qed.
Lemma keeps_Sum {K V} `{Countable K} (t : TableOf D K V) P f : keeps R (Sum t P f).
Proof. intros w. unfold Sum. case_match; reflexivity. Qed.
Lemma keeps_found {V} e (o : option V) : keeps R (found e o).
Proof. intros w. destruct o; simpl; reflexivity. Qed.
Lemma keeps_or_error {A} e (m : ST (WorldOf D) A) : keeps R m → keeps R (or_error e m).
Proof. intros Hm w. specialize (Hm w). unfold or_error. by destruct (m w) as [[] ?]. Qed.
Lemma keeps_Transaction {A} (m : ST (WorldOf D) A) : keeps R m → keeps R (Transaction m).
Proof.
  intros Hm w. specialize (Hm w). unfold Transaction.
  destruct (m w) as [[] ?]; simpl in *; [done|]. by apply frame_db.
Qed.
Lemma keeps_Now `{Env} : keeps R Now.
Proof. intros w. by apply frame_db. Qed.
Lemma keeps_NewString `{Env} : keeps R NewString.
Proof. intros w. by apply frame_db. Qed.
Lemma keeps_each {A B} (f : A → ST (WorldOf D) B) l : (∀ x, keeps R (f x)) → keeps R (each f l).
Proof.
  intros Hf. induction l as [|x l IH]; simpl; [apply keeps_ret, _|].
  apply keeps_bind; [apply _|apply Hf|]. intros y. apply keeps_bind; [apply _|done|].
  intros ys. apply keeps_ret, _.
Qed.
End keeps_statements.
#[export] Hint Resolve keeps_take_pk keeps_take_pk_and keeps_take keeps_Count keeps_Find
  keeps_Create keeps_CreateIgnore keeps_Update keeps_UpdateWhere keeps_Save keeps_Sum keeps_found keeps_Now
  keeps_NewString : keeps.

(** Walks through a computation; what each call keeps comes from the hints. *)
Ltac keeps_step :=
  lazymatch goal with
  | |- keeps _ (mbind _ _) => apply keeps_bind; [apply _| |intros ?]
  | |- keeps _ (match ?x with _ => _ end) => destruct x
  | |- keeps _ (or_error _ _) => apply keeps_or_error
  | |- keeps _ (Transaction _) => apply keeps_Transaction; [apply _|]
  | |- keeps _ (each _ _) => apply keeps_each; [apply _|intros ?]
  | |- keeps _ _ => solve [auto with keeps typeclass_instances]
  end.
Ltac solve_keeps := intros; cbv zeta; repeat (keeps_step; cbv beta zeta).

(** ** Statements, run forward

    What it takes for a statement to succeed, as weakest preconditions; used
    for the theorems that an operation returns a result. *)
Section wp_statements.
Context {D : Type}.
Context {K V : Type} `{Countable K} (t : TableOf D K V).
Implicit Types (w : WorldOf D) (P : V → bool) (E : goerr → WorldOf D → Prop).

Lemma wp_take_pk k Q E w : Q (rows t (the_db w) !! k) w → wp (take_pk t k) Q E w.
Proof. done. Qed.
Lemma wp_take_pk_and k P Q E w :
  Q (mbind (M:=option) (λ v, if P v then Some v else None) (rows t (the_db w) !! k)) w →
  wp (take_pk_and t k P) Q E w.
Proof. done. Qed.
Lemma wp_take P Q E w : Q (map_find P (rows t (the_db w))) w → wp (take t P) Q E w.
Proof. done. Qed.
Lemma wp_Create v Q E w :
  rows t (the_db w) !! pk t v = None → map_find (collides t v) (rows t (the_db w)) = None →
  Q tt (write t (<[pk t v := v]> (rows t (the_db w))) w) → wp (Create t v) Q E w.
Proof. intros Hk Hc HQ. unfold wp, Create, duplicate, table. by rewrite Hk, Hc. Qed.
Lemma wp_CreateIgnore v Q E w :
  (duplicate t (rows t (the_db w)) v = true → Q false w) →
  (duplicate t (rows t (the_db w)) v = false →
   Q true (write t (<[pk t v := v]> (rows t (the_db w))) w)) → wp (CreateIgnore t v) Q E w.
Proof. unfold wp, CreateIgnore, table. destruct (duplicate _ _ _); auto. Qed.
Lemma wp_Update k f Q E w :
  Q tt (write t (alter f k (rows t (the_db w))) w) → wp (Update t k f) Q E w.
Proof. done. Qed.
Lemma wp_Save v Q E w :
  map_find (collides t v) (delete (pk t v) (rows t (the_db w))) = None →
  Q tt (write t (<[pk t v := v]> (rows t (the_db w))) w) → wp (Save t v) Q E w.
Proof. intros Hc HQ. unfold wp, Save, table. by rewrite Hc. Qed.
Lemma wp_found e (o : option V) v Q E w : o = Some v → Q v w → wp (found e o) Q E w.
Proof. by intros ->. Qed.
End wp_statements.

Lemma wp_or_error {D : Type} {A} e (m : ST (WorldOf D) A) Q (E : goerr → WorldOf D → Prop) w :
  wp m Q (λ _ w', E e w') w → wp (or_error e m) Q E w.
Proof. unfold wp, or_error. by destruct (m w) as [[] ?]. Qed.
Lemma wp_Transaction {D : Type} {A} (m : ST (WorldOf D) A) Q (E : goerr → WorldOf D → Prop) w :
  wp m Q (λ e w', E e (set_db (λ _, the_db w) w')) w → wp (Transaction m) Q E w.
Proof. unfold wp, Transaction. by destruct (m w) as [[] ?]. Qed.
Lemma wp_Now {D : Type} `{Env} Q (E : goerr → WorldOf D → Prop) w :
  (∀ w', the_db w' = the_db w → uuids_used w' = uuids_used w →
     Q (clock_stream (clock_reads w)) w') → wp Now Q E w.
Proof. intros HQ. by apply HQ. Qed.
Lemma wp_NewString {D : Type} `{Env} Q (E : goerr → WorldOf D → Prop) w :
  (∀ w', the_db w' = the_db w → uuids_used w' = S (uuids_used w) →
     Q (uuid_stream (uuids_used w)) w') → wp NewString Q E w.
Proof. intros HQ. by apply HQ. Qed.

(** A computation that ends in a value, and what holds then. *)
Definition yields {D : Type} {A} (m : ST (WorldOf D) A) (w : WorldOf D) (Q : A → WorldOf D → Prop) : Prop :=
  wp m Q (λ _ _, False) w.

Lemma yields_Ok {D : Type} {A} (m : ST (WorldOf D) A) w Q : yields m w Q → ∃ a w', m w = (Ok a, w') ∧ Q a w'.
Proof. unfold yields, wp. destruct (m w) as [[] ?]; naive_solver. Qed.

Lemma yields_bind {D : Type} {A B} (m : ST (WorldOf D) A) (k : A → ST (WorldOf D) B) w Q :
  yields m w (λ a w', yields (k a) w' Q) → yields (mbind k m) w Q.
Proof. apply wp_bind. Qed.

Lemma yields_mono {D : Type} {A} (m : ST (WorldOf D) A) w (Q Q' : A → WorldOf D → Prop) :
  yields m w Q → (∀ a w', m w = (Ok a, w') → Q a w' → Q' a w') → yields m w Q'.
Proof. unfold yields, wp. destruct (m w) as [[a|e] ?]; naive_solver. Qed.

Lemma map_find_none {K V} `{Countable K} (P : V → bool) (m : gmap K V) :
  (∀ k v, m !! k = Some v → P v = false) → map_find P m = None.
Proof.
  intros HP. destruct (map_find P m) as [v|] eqn:Hf; [|done].
  apply map_find_Some in Hf as [Hv [k Hk]]. by rewrite (HP k v Hk) in Hv.
Qed.

Lemma duplicate_pk {D : Type} {K V} `{Countable K} (t : TableOf D K V) m v :
  (∀ x y, collides t x y = false) → duplicate t m v = true → is_Some (m !! pk t v).
Proof.
  intros Hc. unfold duplicate. rewrite (map_find_none (collides t v)) by eauto.
  rewrite orb_false_r. apply bool_decide_eq_true_1.
Qed.
