(* ===== verification/MoneyTypes.v ===== *)
(** * Facts of the money owner

    Models src/internal/ledger/money/types.go (canonical payment, refund and
    chargeback settlements, payout methods) and wallet.go (wallet snapshots,
    ledger entries, reservations, reserve decisions, top-up settlements and
    reversals), with every [Validate]. A Go string enumeration stays a string:
    [Validate] decides which values are known. *)
From S2P Require Import Prelude GoStd.

(** ** types.go *)

Definition PaymentSettled : string := "SETTLED".
Definition PaymentPurposeWalletTopUp : string := "WALLET_TOP_UP".
Definition PaymentPurposeServicePurchase : string := "SERVICE_PURCHASE".
Definition PayerOrganizationServiceBuyer : string := "ORGANIZATION_SERVICE_BUYER".
Definition CommissionNonCommissionable : string := "NON_COMMISSIONABLE".
Definition PayerUnattributedExternal : string := "UNATTRIBUTED_EXTERNAL".
Definition WalletCurrencyCNY : string := "CNY".

Record PaymentSettlement := {
  ps_PaymentID : string;
  ps_PaymentPurpose : string;
  ps_CommissionTreatment : string;
  ps_PayerBinding : string;
  ps_PayerUserID : string;
  ps_Currency : string;
  ps_GrossAmountMinor : Z;
  ps_DiscountAmountMinor : Z;
  ps_CommissionableAmountMinor : Z;
  ps_Status : string;
  ps_SettledAt : Time;
  ps_ProviderReference : string;
  ps_Version : Z }.

Record RefundSettlement := {
  rs_RefundID : string;
  rs_PaymentID : string;
  rs_AmountMinor : Z;
  rs_OccurredAt : Time;
  rs_ProviderReference : string }.

Record ChargebackSettlement := {
  cs_ChargebackID : string;
  cs_PaymentID : string;
  cs_AmountMinor : Z;
  cs_OccurredAt : Time;
  cs_ProviderReference : string }.

Definition NormalizeTimestamp (value : Time) : Time := Truncate value Microsecond.

Definition invalid_if (b : bool) : error := if b then Some ErrInvalid else None.

Definition PaymentSettlement_Validate (p : PaymentSettlement) : error :=
  if blank (ps_PaymentID p) || blank (ps_Currency p) || (ps_Status p ≠s PaymentSettled)
     || IsZero (ps_SettledAt p) || (ps_GrossAmountMinor p <=? 0)
     || (ps_DiscountAmountMinor p <? 0)
     || (ps_DiscountAmountMinor p >? ps_GrossAmountMinor p)
     || (ps_CommissionableAmountMinor p >?
           (ps_GrossAmountMinor p -! ps_DiscountAmountMinor p))
     || blank (ps_ProviderReference p) || (ps_Version p <? 1)
  then Some ErrInvalid
  else if ps_PaymentPurpose p =s PaymentPurposeWalletTopUp then
    invalid_if ((ps_CommissionTreatment p ≠s CommissionNonCommissionable)
      || (ps_PayerBinding p ≠s PayerUnattributedExternal) || (ps_PayerUserID p ≠s "")
      || negb (ps_CommissionableAmountMinor p =? 0) || negb (ps_DiscountAmountMinor p =? 0)
      || (ps_Currency p ≠s WalletCurrencyCNY))
  else if ps_PaymentPurpose p =s PaymentPurposeServicePurchase then
    invalid_if ((ps_CommissionTreatment p ≠s CommissionNonCommissionable)
      || (ps_PayerBinding p ≠s PayerOrganizationServiceBuyer) || (ps_PayerUserID p ≠s "")
      || negb (ps_CommissionableAmountMinor p =? 0) || negb (ps_DiscountAmountMinor p =? 0)
      || (ps_Currency p ≠s WalletCurrencyCNY))
  else
    invalid_if ((ps_PaymentPurpose p ≠s "") || (ps_CommissionTreatment p ≠s "")
      || (ps_PayerBinding p ≠s "") || blank (ps_PayerUserID p)
      || (ps_CommissionableAmountMinor p <=? 0)).

Definition RefundSettlement_Validate (r : RefundSettlement) : error :=
  invalid_if (blank (rs_RefundID r) || blank (rs_PaymentID r) || (rs_AmountMinor r <=? 0)
    || IsZero (rs_OccurredAt r) || blank (rs_ProviderReference r)).

Definition ChargebackSettlement_Validate (c : ChargebackSettlement) : error :=
  invalid_if (blank (cs_ChargebackID c) || blank (cs_PaymentID c)
    || (cs_AmountMinor c <=? 0) || IsZero (cs_OccurredAt c)
    || blank (cs_ProviderReference c)).

Definition PayoutAlipay : string := "ALIPAY".
Definition PayoutBankTransfer : string := "BANK_TRANSFER".
Definition PayoutMethodActive : string := "ACTIVE".
Definition PayoutMethodDisabled : string := "DISABLED".

Record PayoutMethod := {
  pm_MethodID : string;
  pm_SubjectUserID : string;
  pm_Type : string;
  pm_DisplayName : string;
  pm_MaskedDestination : string;
  pm_SecureReference : list ascii;
  pm_EncryptionKeyID : string;
  pm_Status : string;
  pm_CreatedAt : Time;
  pm_UpdatedAt : Time;
  pm_Version : Z }.

Record PayoutMethodSummary := {
  pms_MethodID : string;
  pms_SubjectUserID : string;
  pms_Type : string;
  pms_DisplayName : string;
  pms_MaskedDestination : string;
  pms_Status : string;
  pms_Version : Z }.

Definition PayoutMethod_Validate (p : PayoutMethod) : error :=
  invalid_if (blank (pm_MethodID p) || blank (pm_SubjectUserID p)
    || ((pm_Type p ≠s PayoutAlipay) && (pm_Type p ≠s PayoutBankTransfer))
    || blank (pm_DisplayName p) || blank (pm_MaskedDestination p)
    || (Z.of_nat (length (pm_SecureReference p)) =? 0) || blank (pm_EncryptionKeyID p)
    || ((pm_Status p ≠s PayoutMethodActive) && (pm_Status p ≠s PayoutMethodDisabled))
    || (pm_Version p <? 1)).

(** ** wallet.go *)

Definition MaxOrganizationWalletEntryPageSize : Z := 50.

Definition WalletReservationReserved : string := "RESERVED".
Definition WalletReservationCommitted : string := "COMMITTED".
Definition WalletReservationReleased : string := "RELEASED".

Definition WalletEntryTopUpCredit : string := "TOP_UP_CREDIT".
Definition WalletEntryPurchaseReserve : string := "PURCHASE_RESERVE".
Definition WalletEntryPurchaseCommit : string := "PURCHASE_COMMIT".
Definition WalletEntryPurchaseRelease : string := "PURCHASE_RELEASE".
Definition WalletEntryRefundReversal : string := "REFUND_REVERSAL".
Definition WalletEntryChargebackReversal : string := "CHARGEBACK_REVERSAL".
Definition WalletEntryDebtRepayment : string := "DEBT_REPAYMENT".
Definition WalletEntryRefundReserve : string := "REFUND_RESERVE".
Definition WalletEntryRefundConfirm : string := "REFUND_CONFIRM".
Definition WalletEntryRefundRelease : string := "REFUND_RELEASE".

Record OrganizationWalletSnapshot := {
  ws_OrganizationID : string;
  ws_Currency : string;
  ws_AvailableMinor : Z;
  ws_ReservedMinor : Z;
  ws_DebtMinor : Z;
  ws_LifetimeTopUpMinor : Z;
  ws_LifetimeSpendMinor : Z;
  ws_Version : Z;
  ws_UpdatedAt : Time }.

Definition OrganizationWalletSnapshot_Validate (s : OrganizationWalletSnapshot) : error :=
  invalid_if (blank (ws_OrganizationID s) || (ws_Currency s ≠s WalletCurrencyCNY)
    || (ws_AvailableMinor s <? 0) || (ws_ReservedMinor s <? 0) || (ws_DebtMinor s <? 0)
    || ((ws_DebtMinor s >? 0) && (ws_AvailableMinor s >? 0))
    || (ws_LifetimeTopUpMinor s <? 0) || (ws_LifetimeSpendMinor s <? 0)
    || (ws_Version s <? 1) || IsZero (ws_UpdatedAt s)).

Record WalletEntry := {
  we_EntryID : string;
  we_OrganizationID : string;
  we_Currency : string;
  we_Kind : string;
  we_AvailableDelta : Z;
  we_ReservedDelta : Z;
  we_DebtDelta : Z;
  we_AvailableAfter : Z;
  we_ReservedAfter : Z;
  we_DebtAfter : Z;
  we_CommercialOrderID : string;
  we_PaymentID : string;
  we_SourceIdentity : string;
  we_OccurredAt : Time }.

Definition isCanonicalWalletSourceIdentity (value : string) : bool :=
  (value ≠s "") && (TrimSpace value =s value).

Definition isCanonicalWalletIdentifier (value : string) : bool :=
  (value ≠s "") && (slen value <=? 128) && (TrimSpace value =s value).

(** The balance before an entry, when it is a balance at all. *)
Definition walletEntryPriorBalance (after delta : Z) : Z * bool :=
  if after <? 0 then (0, false)
  else if delta >? 0 then
    if after <? delta then (0, false) else (after -! delta, true)
  else if delta <? 0 then
    if after >? (max_int64 +! delta) then (0, false) else (after -! delta, true)
  else (after, true).

Definition hasValidWalletEntryPriorBalances (entry : WalletEntry) : bool :=
  let '(availableBefore, availableOK) :=
    walletEntryPriorBalance (we_AvailableAfter entry) (we_AvailableDelta entry) in
  let '(_, reservedOK) :=
    walletEntryPriorBalance (we_ReservedAfter entry) (we_ReservedDelta entry) in
  let '(debtBefore, debtOK) :=
    walletEntryPriorBalance (we_DebtAfter entry) (we_DebtDelta entry) in
  availableOK && reservedOK && debtOK && negb ((debtBefore >? 0) && (availableBefore >? 0)).

(** The [switch entry.Kind] of [Validate]. *)
Definition WalletEntry_Validate_kind (e : WalletEntry) : error :=
  let order := isCanonicalWalletIdentifier (we_CommercialOrderID e) in
  let av := we_AvailableDelta e in
  let rd := we_ReservedDelta e in
  let dd := we_DebtDelta e in
  let kind := we_Kind e in
  if kind =s WalletEntryTopUpCredit then
    invalid_if (blank (we_PaymentID e) || negb order || (av <=? 0) || negb (rd =? 0)
      || negb (dd =? 0))
  else if (kind =s WalletEntryRefundReversal) || (kind =s WalletEntryChargebackReversal) then
    invalid_if (blank (we_PaymentID e) || negb order || (av >? 0) || negb (rd =? 0)
      || (dd <? 0) || ((av =? 0) && (dd =? 0)))
  else if kind =s WalletEntryPurchaseReserve then
    invalid_if ((we_PaymentID e ≠s "") || negb order || (av >=? 0) || (rd <=? 0)
      || negb ((av +! rd) =? 0) || negb (dd =? 0))
  else if kind =s WalletEntryPurchaseCommit then
    invalid_if ((we_PaymentID e ≠s "") || negb order || negb (av =? 0) || (rd >=? 0)
      || negb (dd =? 0))
  else if kind =s WalletEntryPurchaseRelease then
    let released := -! rd in
    let debtRepaid := -! dd in
    invalid_if ((we_PaymentID e ≠s "") || negb order || (av <? 0) || (rd >=? 0)
      || (dd >? 0) || (debtRepaid >? released) || negb (av =? (released -! debtRepaid)))
  else if kind =s WalletEntryDebtRepayment then
    invalid_if (blank (we_PaymentID e) || negb order || negb (av =? 0) || negb (rd =? 0)
      || (dd >=? 0))
  else if kind =s WalletEntryRefundReserve then
    invalid_if ((we_PaymentID e =s "") || negb order || (av >=? 0) || (rd <=? 0)
      || negb ((av +! rd) =? 0) || negb (dd =? 0))
  else if (kind =s WalletEntryRefundConfirm) || (kind =s WalletEntryRefundRelease) then
    if (we_PaymentID e =s "") || negb order || (av <? 0) || (rd >=? 0) || (dd >? 0)
    then Some ErrInvalid
    else
      let released := -! rd in
      let repaid := -! dd in
      invalid_if ((repaid >? released) || (av >? (released -! repaid))
        || ((kind =s WalletEntryRefundRelease) && negb (av =? (released -! repaid))))
  else Some ErrInvalid.

Definition WalletEntry_Validate (e : WalletEntry) : error :=
  if blank (we_EntryID e) || blank (we_OrganizationID e)
     || (we_Currency e ≠s WalletCurrencyCNY)
     || (we_AvailableAfter e <? 0) || (we_ReservedAfter e <? 0) || (we_DebtAfter e <? 0)
     || ((we_DebtAfter e >? 0) && (we_AvailableAfter e >? 0))
     || negb (isCanonicalWalletSourceIdentity (we_SourceIdentity e))
     || IsZero (we_OccurredAt e) || negb (hasValidWalletEntryPriorBalances e)
  then Some ErrInvalid
  else WalletEntry_Validate_kind e.

Record WalletEntryPage := {
  wp_Items : list WalletEntry;
  wp_NextCursor : string }.

Record WalletReservation := {
  wr_ReservationID : string;
  wr_OperationID : string;
  wr_OrganizationID : string;
  wr_CommercialOrderID : string;
  wr_Currency : string;
  wr_AmountMinor : Z;
  wr_State : string;
  wr_Version : Z;
  wr_CreatedAt : Time;
  wr_UpdatedAt : Time }.

Record ReserveWalletFundsInput := {
  rw_OperationID : string;
  rw_OrganizationID : string;
  rw_CommercialOrderID : string;
  rw_Currency : string;
  rw_AmountMinor : Z }.

Definition WalletReserveDecisionReserved : string := "RESERVED".
Definition WalletReserveDecisionRejectedInsufficientFunds : string :=
  "REJECTED_INSUFFICIENT_FUNDS".

Record WalletReserveDecision := {
  wd_OperationID : string;
  wd_OrganizationID : string;
  wd_CommercialOrderID : string;
  wd_Currency : string;
  wd_AmountMinor : Z;
  wd_Outcome : string;
  wd_ReservationID : string;
  wd_DecidedAt : Time }.

Definition WalletReserveDecision_Validate (d : WalletReserveDecision) : error :=
  if negb (isCanonicalWalletIdentifier (wd_OperationID d))
     || negb (isCanonicalWalletIdentifier (wd_OrganizationID d))
     || negb (isCanonicalWalletIdentifier (wd_CommercialOrderID d))
     || (wd_Currency d ≠s WalletCurrencyCNY)
     || (wd_AmountMinor d <=? 0) || IsZero (wd_DecidedAt d)
  then Some ErrInvalid
  else if wd_Outcome d =s WalletReserveDecisionReserved then
    invalid_if (negb (isCanonicalWalletIdentifier (wd_ReservationID d)))
  else if wd_Outcome d =s WalletReserveDecisionRejectedInsufficientFunds then
    invalid_if (wd_ReservationID d ≠s "")
  else Some ErrInvalid.

Record CommitWalletReservationInput := {
  cw_OperationID : string;
  cw_OrganizationID : string;
  cw_CommercialOrderID : string;
  cw_ReservationID : string }.

Record ReleaseWalletReservationInput := {
  rl_OperationID : string;
  rl_OrganizationID : string;
  rl_CommercialOrderID : string;
  rl_ReservationID : string;
  rl_Reason : string }.

Record OrganizationTopUpSettlement := {
  ts_PaymentID : string;
  ts_CommercialOrderID : string;
  ts_OrganizationID : string;
  ts_Currency : string;
  ts_AmountMinor : Z;
  ts_SettledAt : Time;
  ts_ProviderReference : string;
  ts_Version : Z }.

Definition OrganizationTopUpSettlement_Validate (s : OrganizationTopUpSettlement) : error :=
  invalid_if (blank (ts_PaymentID s) || blank (ts_CommercialOrderID s)
    || blank (ts_OrganizationID s) || (ts_Currency s ≠s WalletCurrencyCNY)
    || (ts_AmountMinor s <=? 0) || IsZero (ts_SettledAt s)
    || blank (ts_ProviderReference s) || (ts_Version s <? 1)).

Definition WalletReversalRefund : string := "REFUND".
Definition WalletReversalChargeback : string := "CHARGEBACK".

Record OrganizationWalletReversal := {
  rv_ReversalID : string;
  rv_PaymentID : string;
  rv_CommercialOrderID : string;
  rv_OrganizationID : string;
  rv_Kind : string;
  rv_Currency : string;
  rv_AmountMinor : Z;
  rv_OccurredAt : Time;
  rv_ProviderReference : string }.

Definition OrganizationWalletReversal_Validate (r : OrganizationWalletReversal) : error :=
  invalid_if (blank (rv_ReversalID r) || blank (rv_PaymentID r)
    || blank (rv_CommercialOrderID r) || blank (rv_OrganizationID r)
    || ((rv_Kind r ≠s WalletReversalRefund) && (rv_Kind r ≠s WalletReversalChargeback))
    || (rv_Currency r ≠s WalletCurrencyCNY) || (rv_AmountMinor r <=? 0)
    || IsZero (rv_OccurredAt r) || blank (rv_ProviderReference r)).

(** ** Typing of the integer fields *)

#[export] Instance PaymentSettlement_typed : Typed PaymentSettlement := λ p,
  in_int64 (ps_GrossAmountMinor p) ∧ in_int64 (ps_DiscountAmountMinor p) ∧
  in_int64 (ps_CommissionableAmountMinor p) ∧ in_int64 (ps_Version p).
#[export] Instance WalletEntry_typed : Typed WalletEntry := λ e,
  in_int64 (we_AvailableDelta e) ∧ in_int64 (we_ReservedDelta e) ∧
  in_int64 (we_DebtDelta e) ∧ in_int64 (we_AvailableAfter e) ∧
  in_int64 (we_ReservedAfter e) ∧ in_int64 (we_DebtAfter e).
#[export] Instance OrganizationTopUpSettlement_typed : Typed OrganizationTopUpSettlement :=
  λ s, in_int64 (ts_AmountMinor s) ∧ in_int64 (ts_Version s).
#[export] Instance OrganizationWalletReversal_typed : Typed OrganizationWalletReversal :=
  λ r, in_int64 (rv_AmountMinor r).
#[export] Instance ReserveWalletFundsInput_typed : Typed ReserveWalletFundsInput :=
  λ i, in_int64 (rw_AmountMinor i).

(** * Lemmas *)

Lemma invalid_if_None b : invalid_if b = None ↔ b = false.
Proof. by destruct b. Qed.
#[export] Hint Rewrite invalid_if_None : go_bool.

Lemma canonical_identifier_spec s : isCanonicalWalletIdentifier s = true ↔
  s ≠ ""%string ∧ slen s ≤ 128 ∧ TrimSpace s = s.
Proof. unfold isCanonicalWalletIdentifier. reflect_bools. tauto. Qed.

Lemma canonical_not_blank s : isCanonicalWalletIdentifier s = true → blank s = false.
Proof.
  rewrite canonical_identifier_spec. intros (Hne & _ & Ht). unfold blank.
  rewrite Ht. by apply String.eqb_neq.
Qed.

(** A canonical identifier behind a prefix that ends with a colon. *)
Lemma canonical_prefixed p s : isCanonicalWalletIdentifier s = true →
  strip_any space_encodings (p +:+ (":" +:+ s)) = None →
  isCanonicalWalletIdentifier (p +:+ (":" +:+ s)) = (slen p + 1 + slen s <=? 128).
Proof.
  rewrite canonical_identifier_spec. intros (Hne & _ & Ht) Hp.
  pose proof (TrimSpace_prefixed p s Hp Ht) as Htp. unfold isCanonicalWalletIdentifier.
  rewrite Htp, String.eqb_refl, andb_true_r.
  assert (slen (p +:+ (":" +:+ s)) = slen p + 1 + slen s) as ->
    by (unfold slen; rewrite !length_append; simpl; lia).
  by destruct p.
Qed.

(** A balance and a delta that pass the check come from a representable
    non-negative balance, computed without wrap-around. *)
Lemma walletEntryPriorBalance_ok after delta before :
  in_int64 after → in_int64 delta →
  walletEntryPriorBalance after delta = (before, true) →
  0 ≤ after ∧ 0 ≤ before ∧ in_int64 before ∧ before + delta = after.
Proof.
  unfold walletEntryPriorBalance. intros Ha Hd Hb.
  repeat case_match; simplify_eq; i64.
Qed.

Lemma walletEntryPriorBalance_complete after delta :
  0 ≤ after ≤ max_int64 → in_int64 delta → 0 ≤ after - delta ≤ max_int64 →
  walletEntryPriorBalance after delta = (after - delta, true).
Proof.
  unfold walletEntryPriorBalance. intros Ha Hd Hb.
  repeat case_match; simplify_eq; try (exfalso; i64); f_equal; i64.
Qed.

(** ** What a valid ledger entry is *)

(** Balances of a wallet: none negative, and debt only when nothing is
    available. *)
Definition balances_ok (available reserved debt : Z) : Prop :=
  0 ≤ available ≤ max_int64 ∧ 0 ≤ reserved ≤ max_int64 ∧ 0 ≤ debt ≤ max_int64 ∧
  (available = 0 ∨ debt = 0).

(** The effect each entry kind may have, in exact integers. *)
Inductive entry_effect (payment : string) : string → Z → Z → Z → Prop :=
  | effect_credit a : blank payment = false → 0 < a →
      entry_effect payment WalletEntryTopUpCredit a 0 0
  | effect_reversal kind a d :
      kind = WalletEntryRefundReversal ∨ kind = WalletEntryChargebackReversal →
      blank payment = false → 0 ≤ a → 0 ≤ d → 0 < a + d →
      entry_effect payment kind (- a) 0 d
  | effect_reserve a : payment = ""%string → 0 < a →
      entry_effect payment WalletEntryPurchaseReserve (- a) a 0
  | effect_commit a : payment = ""%string → 0 < a →
      entry_effect payment WalletEntryPurchaseCommit 0 (- a) 0
  | effect_release a d : payment = ""%string → 0 < a → 0 ≤ d ≤ a →
      entry_effect payment WalletEntryPurchaseRelease (a - d) (- a) (- d)
  | effect_repay d : blank payment = false → 0 < d →
      entry_effect payment WalletEntryDebtRepayment 0 0 (- d)
  | effect_refund_reserve a : payment ≠ ""%string → 0 < a →
      entry_effect payment WalletEntryRefundReserve (- a) a 0
  | effect_refund_confirm a b d : payment ≠ ""%string → 0 < a → 0 ≤ d → 0 ≤ b →
      b + d ≤ a → entry_effect payment WalletEntryRefundConfirm b (- a) (- d)
  | effect_refund_release a d : payment ≠ ""%string → 0 < a → 0 ≤ d ≤ a →
      entry_effect payment WalletEntryRefundRelease (a - d) (- a) (- d).

Record valid_entry (e : WalletEntry) : Prop := {
  ve_entry : blank (we_EntryID e) = false;
  ve_org : blank (we_OrganizationID e) = false;
  ve_currency : we_Currency e = WalletCurrencyCNY;
  ve_source : isCanonicalWalletSourceIdentity (we_SourceIdentity e) = true;
  ve_time : we_OccurredAt e ≠ 0;
  ve_order : isCanonicalWalletIdentifier (we_CommercialOrderID e) = true;
  ve_after : balances_ok (we_AvailableAfter e) (we_ReservedAfter e) (we_DebtAfter e);
  ve_before : balances_ok (we_AvailableAfter e - we_AvailableDelta e)
                (we_ReservedAfter e - we_ReservedDelta e) (we_DebtAfter e - we_DebtDelta e);
  ve_effect : entry_effect (we_PaymentID e) (we_Kind e) (we_AvailableDelta e)
                (we_ReservedDelta e) (we_DebtDelta e) }.

Lemma effect_eq p k a r d a' r' d' : entry_effect p k a' r' d' →
  a' = a → r' = r → d' = d → entry_effect p k a r d.
Proof. by intros ? -> -> ->. Qed.

Lemma entry_kind_sound e : typed e →
  0 ≤ we_AvailableAfter e - we_AvailableDelta e ≤ max_int64 →
  0 ≤ we_ReservedAfter e - we_ReservedDelta e ≤ max_int64 →
  0 ≤ we_DebtAfter e - we_DebtDelta e ≤ max_int64 →
  0 ≤ we_AvailableAfter e → 0 ≤ we_ReservedAfter e → 0 ≤ we_DebtAfter e →
  WalletEntry_Validate_kind e = None →
  isCanonicalWalletIdentifier (we_CommercialOrderID e) = true ∧
  entry_effect (we_PaymentID e) (we_Kind e) (we_AvailableDelta e)
    (we_ReservedDelta e) (we_DebtDelta e).
Proof.
  unfold WalletEntry_Validate_kind, typed, WalletEntry_typed.
  destruct e as [??? kind av rd dd ???????]; simpl.
  intros Hty Hb1 Hb2 Hb3 Ha1 Ha2 Ha3 Hv.
  repeat (match type of Hv with (if ?b then _ else _) = None => destruct b eqn:? end;
    try discriminate Hv);
    apply invalid_if_None in Hv || idtac.
  all: reflect_bools; destruct_and?; subst; (split; [tauto|]); i64_norm.
  - by constructor.
  - eapply effect_eq; [eapply (effect_reversal _ _ (- av) dd)|..]; auto; lia.
  - eapply effect_eq; [eapply (effect_reserve _ rd)|..]; auto; lia.
  - eapply effect_eq; [eapply (effect_commit _ (- rd))|..]; auto; lia.
  - eapply effect_eq; [eapply (effect_release _ (- rd) (- dd))|..]; auto; lia.
  - eapply effect_eq; [eapply (effect_repay _ (- dd))|..]; auto; lia.
  - eapply effect_eq; [eapply (effect_refund_reserve _ rd)|..]; auto; lia.
  - destruct_or?; subst; try done.
    + eapply effect_eq; [eapply (effect_refund_confirm _ (- rd) av (- dd))|..]; auto; lia.
    + eapply effect_eq; [eapply (effect_refund_confirm _ (- rd) (- rd - - dd) (- dd))|..]; auto; lia.
    + eapply effect_eq; [eapply (effect_refund_release _ (- rd) (- dd))|..]; auto; lia.
Qed.

Lemma entry_kind_complete e : typed e →
  isCanonicalWalletIdentifier (we_CommercialOrderID e) = true →
  balances_ok (we_AvailableAfter e) (we_ReservedAfter e) (we_DebtAfter e) →
  entry_effect (we_PaymentID e) (we_Kind e) (we_AvailableDelta e)
    (we_ReservedDelta e) (we_DebtDelta e) →
  balances_ok (we_AvailableAfter e - we_AvailableDelta e)
    (we_ReservedAfter e - we_ReservedDelta e) (we_DebtAfter e - we_DebtDelta e) →
  WalletEntry_Validate_kind e = None.
Proof.
  unfold WalletEntry_Validate_kind, typed, WalletEntry_typed, balances_ok.
  destruct e as [??? kind av rd dd ???????]; simpl. intros Hty -> Ha He Hb.
  destruct_and?.
  inversion He; subst; destruct_or?; subst; simpl;
    repeat match goal with H : blank _ = false |- _ => rewrite H; clear H end; simpl.
  all: repeat match goal with |- context [(?p =s "")] =>
    let H := fresh in destruct (p =s "") eqn:H; reflect_bools; [done|] end; simpl.
  all: i64_norm; repeat (case_match; [exfalso; reflect_bools; lia|]).
  all: reflect_bools; repeat split; try lia.
Qed.

Lemma prior_balances_iff e : typed e →
  0 ≤ we_AvailableAfter e → 0 ≤ we_ReservedAfter e → 0 ≤ we_DebtAfter e →
  hasValidWalletEntryPriorBalances e = true ↔
  balances_ok (we_AvailableAfter e - we_AvailableDelta e)
    (we_ReservedAfter e - we_ReservedDelta e) (we_DebtAfter e - we_DebtDelta e).
Proof.
  unfold typed, WalletEntry_typed, hasValidWalletEntryPriorBalances. intros Hty ???.
  destruct_and!. split.
  - destruct (walletEntryPriorBalance (we_AvailableAfter e) _) as [a []] eqn:Ha;
      destruct (walletEntryPriorBalance (we_ReservedAfter e) _) as [r []] eqn:Hr;
      destruct (walletEntryPriorBalance (we_DebtAfter e) _) as [d []] eqn:Hd; simpl; try done.
    apply walletEntryPriorBalance_ok in Ha; [|done..].
    apply walletEntryPriorBalance_ok in Hr; [|done..].
    apply walletEntryPriorBalance_ok in Hd; [|done..].
    intros. reflect_bools.
    unfold balances_ok. i64_bounds.
  - unfold balances_ok. intros ?. destruct_and!.
    rewrite !walletEntryPriorBalance_complete by i64_bounds. reflect_bools. lia.
Qed.

Lemma WalletEntry_Validate_sound e : typed e →
  WalletEntry_Validate e = None → valid_entry e.
Proof.
  intros Hty Hv. unfold WalletEntry_Validate in Hv.
  destruct (_ || negb (hasValidWalletEntryPriorBalances e)) eqn:Hg; [done|].
  reflect_bools. destruct_and!.
  assert (Hb : hasValidWalletEntryPriorBalances e = true) by done.
  apply prior_balances_iff in Hb; [|done..].
  pose proof Hty as (?&?&?&?&?&?). pose proof Hb as (?&?&?&?).
  apply entry_kind_sound in Hv as [Ho He]; try done.
  constructor; try done; [by apply Z.eqb_neq|]. unfold balances_ok. i64_bounds.
Qed.

Lemma WalletEntry_Validate_complete e : typed e →
  valid_entry e → WalletEntry_Validate e = None.
Proof.
  intros Hty [He Ho Hc Hs Ht Hord Ha Hb Hk]. unfold WalletEntry_Validate.
  pose proof Ha as (?&?&?&?).
  assert (Hp : hasValidWalletEntryPriorBalances e = true)
    by (apply prior_balances_iff; [done|lia..|done]).
  rewrite He, Ho, Hc, Hs, Hp. case_match eqn:Hg.
  - exfalso. reflect_bools. unfold IsZero in *. reflect_bools. intuition (congruence || lia).
  - by apply entry_kind_complete.
Qed.

Definition sample_entry : WalletEntry := {|
  we_EntryID := "e1"; we_OrganizationID := "org"; we_Currency := "CNY";
  we_Kind := "PURCHASE_RELEASE"; we_AvailableDelta := 30; we_ReservedDelta := -100;
  we_DebtDelta := -70; we_AvailableAfter := 30; we_ReservedAfter := 0; we_DebtAfter := 0;
  we_CommercialOrderID := "order"; we_PaymentID := ""; we_SourceIdentity := "order";
  we_OccurredAt := 1 |}.

(** A wallet entry passes [Validate] exactly when it is a well-formed ledger
    step: canonical identities, representable non-negative balances before and
    after it that never mix debt with available funds, and the effect its kind
    allows, computed in exact integers although the code works in int64. *)
Theorem WalletEntry_Validate_iff (e : WalletEntry) (Hty : typed e) :
  WalletEntry_Validate e = None ↔ valid_entry e.
Proof.
  split; [by apply WalletEntry_Validate_sound|by apply WalletEntry_Validate_complete].
Qed.

Lemma WalletEntry_Validate_iff_witness :
  typed sample_entry ∧ valid_entry sample_entry.
Proof.
  assert (typed sample_entry) as Hty by (repeat split; by vm_compute).
  split; [exact Hty|]. apply (WalletEntry_Validate_iff sample_entry Hty).
  vm_compute. reflexivity.
Defined.
