(* ===== verification/ProviderTopUp.v ===== *)
(** * Provider top-ups

    Models src/internal/ledger/money/provider_topup.go: the verified channel
    identity of a payment, the posting and reversal receipts of a wallet
    top-up, their fingerprints and every [Validate]. A receipt seals its own
    fields: [ResultFingerprint] is the digest of the receipt without it. *)
From S2P Require Import Prelude GoStd Encoding MoneyTypes.

Record ProviderPaymentBinding := {
  pb_Provider : string;
  pb_Environment : string;
  pb_MerchantID : string;
  pb_AppID : string;
  pb_TradeID : string }.

Definition ProviderPaymentBinding_Validate (b : ProviderPaymentBinding) : error :=
  invalid_if (((pb_Provider b ≠s "ALIPAY") && (pb_Provider b ≠s "WECHAT_PAY"))
    || ((pb_Environment b ≠s "PRODUCTION")
        && negb ((pb_Provider b =s "ALIPAY") && (pb_Environment b =s "SANDBOX")))
    || negb (isCanonicalWalletIdentifier (pb_MerchantID b))
    || negb (isCanonicalWalletIdentifier (pb_AppID b))
    || negb (isCanonicalWalletIdentifier (pb_TradeID b))).

(** A binding as it is read back from JSON, and one that reads back as it was. *)
Definition json_ProviderPaymentBinding (b : ProviderPaymentBinding) : ProviderPaymentBinding :=
  {| pb_Provider := json_text (pb_Provider b); pb_Environment := json_text (pb_Environment b);
     pb_MerchantID := json_text (pb_MerchantID b); pb_AppID := json_text (pb_AppID b);
     pb_TradeID := json_text (pb_TradeID b) |}.
Definition text_binding (b : ProviderPaymentBinding) : bool :=
  forallb valid_utf8 [pb_Provider b; pb_Environment b; pb_MerchantID b; pb_AppID b; pb_TradeID b].

(** [TopUpFingerprint] of a value given by its JSON tree ([None] when
    marshalling fails). *)
Definition TopUpFingerprint (value : option json) : string :=
  fingerprint "wallet-topup:v1:" value.

Definition ProviderPaymentBinding_ClaimID (b : ProviderPaymentBinding) : string :=
  TopUpFingerprint (Some (jstrings
    [pb_Provider b; pb_Environment b; pb_MerchantID b; pb_TradeID b])).

Record ProviderTopUpInput := {
  pt_OperationID : string;
  pt_OrganizationID : string;
  pt_CommercialOrderID : string;
  pt_Currency : string;
  pt_AmountMinor : Z;
  pt_Binding : ProviderPaymentBinding;
  pt_Payment : PaymentSettlement;
  pt_KnownReversals : list OrganizationWalletReversal }.

Definition ProviderTopUpInput_Validate (i : ProviderTopUpInput) : error :=
  if negb (isCanonicalWalletIdentifier (pt_OperationID i))
     || negb (isCanonicalWalletIdentifier (pt_OrganizationID i))
     || negb (isCanonicalWalletIdentifier (pt_CommercialOrderID i))
     || (pt_Currency i ≠s WalletCurrencyCNY) || (pt_AmountMinor i <=? 0)
     || negb (nil_error (PaymentSettlement_Validate (pt_Payment i)))
     || negb (nil_error (ProviderPaymentBinding_Validate (pt_Binding i)))
     || (ps_PaymentPurpose (pt_Payment i) ≠s PaymentPurposeWalletTopUp)
     || (ps_Currency (pt_Payment i) ≠s pt_Currency i)
     || negb (ps_GrossAmountMinor (pt_Payment i) =? pt_AmountMinor i)
  then Some ErrInvalid
  else invalid_if (existsb (λ r,
    negb (nil_error (OrganizationWalletReversal_Validate r))
    || (rv_PaymentID r ≠s ps_PaymentID (pt_Payment i))
    || (rv_OrganizationID r ≠s pt_OrganizationID i)
    || (rv_CommercialOrderID r ≠s pt_CommercialOrderID i)
    || (rv_Currency r ≠s pt_Currency i)) (pt_KnownReversals i)).

(** ** JSON trees of the fingerprinted structs, in field order *)

Definition ProviderPaymentBinding_json (b : ProviderPaymentBinding) : json :=
  JObj [("Provider", JStr (pb_Provider b)); ("Environment", JStr (pb_Environment b));
        ("MerchantID", JStr (pb_MerchantID b)); ("AppID", JStr (pb_AppID b));
        ("TradeID", JStr (pb_TradeID b))].

Definition PaymentSettlement_json (p : PaymentSettlement) : option json :=
  at_ ← json_time (ps_SettledAt p);
  Some (JObj [("PaymentID", JStr (ps_PaymentID p));
        ("PaymentPurpose", JStr (ps_PaymentPurpose p));
        ("CommissionTreatment", JStr (ps_CommissionTreatment p));
        ("PayerBinding", JStr (ps_PayerBinding p));
        ("PayerUserID", JStr (ps_PayerUserID p)); ("Currency", JStr (ps_Currency p));
        ("GrossAmountMinor", JInt (ps_GrossAmountMinor p));
        ("DiscountAmountMinor", JInt (ps_DiscountAmountMinor p));
        ("CommissionableAmountMinor", JInt (ps_CommissionableAmountMinor p));
        ("Status", JStr (ps_Status p)); ("SettledAt", at_);
        ("ProviderReference", JStr (ps_ProviderReference p));
        ("Version", JInt (ps_Version p))]).

Definition OrganizationWalletReversal_json (r : OrganizationWalletReversal) : option json :=
  at_ ← json_time (rv_OccurredAt r);
  Some (JObj [("ReversalID", JStr (rv_ReversalID r)); ("PaymentID", JStr (rv_PaymentID r));
        ("CommercialOrderID", JStr (rv_CommercialOrderID r));
        ("OrganizationID", JStr (rv_OrganizationID r)); ("Kind", JStr (rv_Kind r));
        ("Currency", JStr (rv_Currency r)); ("AmountMinor", JInt (rv_AmountMinor r));
        ("OccurredAt", at_); ("ProviderReference", JStr (rv_ProviderReference r))]).

(** The payment with its settlement instant normalised. *)
Definition normalized_payment (p : PaymentSettlement) : PaymentSettlement :=
  {| ps_PaymentID := ps_PaymentID p; ps_PaymentPurpose := ps_PaymentPurpose p;
     ps_CommissionTreatment := ps_CommissionTreatment p;
     ps_PayerBinding := ps_PayerBinding p; ps_PayerUserID := ps_PayerUserID p;
     ps_Currency := ps_Currency p; ps_GrossAmountMinor := ps_GrossAmountMinor p;
     ps_DiscountAmountMinor := ps_DiscountAmountMinor p;
     ps_CommissionableAmountMinor := ps_CommissionableAmountMinor p;
     ps_Status := ps_Status p; ps_SettledAt := NormalizeTimestamp (ps_SettledAt p);
     ps_ProviderReference := ps_ProviderReference p; ps_Version := ps_Version p |}.

(** [ProviderTopUpInput.Fingerprint]: later observed reversals are left out. *)
Definition ProviderTopUpInput_Fingerprint (i : ProviderTopUpInput) : string :=
  TopUpFingerprint (
    payment ← PaymentSettlement_json (normalized_payment (pt_Payment i));
    Some (JObj [("OperationID", JStr (pt_OperationID i));
      ("OrganizationID", JStr (pt_OrganizationID i));
      ("CommercialOrderID", JStr (pt_CommercialOrderID i));
      ("Currency", JStr (pt_Currency i)); ("AmountMinor", JInt (pt_AmountMinor i));
      ("Binding", ProviderPaymentBinding_json (pt_Binding i)); ("Payment", payment);
      ("KnownReversals", JNull)])).

(** The strings of a posting that only JSON holds are UTF-8. *)
Definition text_posting (i : ProviderTopUpInput) : bool :=
  valid_utf8 (pt_OperationID i) && text_binding (pt_Binding i).

Record TopUpPostingReceipt := {
  tp_ReceiptID : string;
  tp_OperationID : string;
  tp_PaymentID : string;
  tp_OrganizationID : string;
  tp_CommercialOrderID : string;
  tp_Binding : ProviderPaymentBinding;
  tp_Currency : string;
  tp_GrossCreditMinor : Z;
  tp_AvailableAddedMinor : Z;
  tp_DebtRepaidMinor : Z;
  tp_CreditEntryIDs : list string;
  tp_KnownReversalReceiptIDs : list string;
  tp_RequestFingerprint : string;
  tp_ResultFingerprint : string;
  tp_PostedAt : Time }.

(** The digest of the receipt with an empty [ResultFingerprint]. *)
Definition TopUpPostingReceipt_Fingerprint (r : TopUpPostingReceipt) : string :=
  TopUpFingerprint (
    at_ ← json_time (tp_PostedAt r);
    Some (JObj [("ReceiptID", JStr (tp_ReceiptID r)); ("OperationID", JStr (tp_OperationID r));
      ("PaymentID", JStr (tp_PaymentID r)); ("OrganizationID", JStr (tp_OrganizationID r));
      ("CommercialOrderID", JStr (tp_CommercialOrderID r));
      ("Binding", ProviderPaymentBinding_json (tp_Binding r));
      ("Currency", JStr (tp_Currency r)); ("GrossCreditMinor", JInt (tp_GrossCreditMinor r));
      ("AvailableAddedMinor", JInt (tp_AvailableAddedMinor r));
      ("DebtRepaidMinor", JInt (tp_DebtRepaidMinor r));
      ("CreditEntryIDs", jstrings (tp_CreditEntryIDs r));
      ("KnownReversalReceiptIDs", jstrings (tp_KnownReversalReceiptIDs r));
      ("RequestFingerprint", JStr (tp_RequestFingerprint r));
      ("ResultFingerprint", JStr ""); ("PostedAt", at_)])).

(** A receipt as it is read back from the column that holds its JSON. The strings
    left as they are are constants, digests, or identities that text columns hold
    too, written by the same transaction; those are UTF-8 (PostgreSQL takes no
    other text). *)
Definition json_TopUpPostingReceipt (r : TopUpPostingReceipt) : TopUpPostingReceipt :=
  {| tp_ReceiptID := tp_ReceiptID r; tp_OperationID := json_text (tp_OperationID r);
     tp_PaymentID := tp_PaymentID r; tp_OrganizationID := tp_OrganizationID r;
     tp_CommercialOrderID := tp_CommercialOrderID r;
     tp_Binding := json_ProviderPaymentBinding (tp_Binding r); tp_Currency := tp_Currency r;
     tp_GrossCreditMinor := tp_GrossCreditMinor r;
     tp_AvailableAddedMinor := tp_AvailableAddedMinor r; tp_DebtRepaidMinor := tp_DebtRepaidMinor r;
     tp_CreditEntryIDs := tp_CreditEntryIDs r;
     tp_KnownReversalReceiptIDs := tp_KnownReversalReceiptIDs r;
     tp_RequestFingerprint := tp_RequestFingerprint r;
     tp_ResultFingerprint := tp_ResultFingerprint r; tp_PostedAt := tp_PostedAt r |}.

Definition TopUpPostingReceipt_Validate (r : TopUpPostingReceipt) : error :=
  invalid_if (negb (isCanonicalWalletIdentifier (tp_ReceiptID r))
    || negb (isCanonicalWalletIdentifier (tp_OperationID r))
    || negb (isCanonicalWalletIdentifier (tp_PaymentID r))
    || negb (isCanonicalWalletIdentifier (tp_OrganizationID r))
    || negb (isCanonicalWalletIdentifier (tp_CommercialOrderID r))
    || negb (nil_error (ProviderPaymentBinding_Validate (tp_Binding r)))
    || (tp_Currency r ≠s WalletCurrencyCNY) || (tp_GrossCreditMinor r <=? 0)
    || (tp_AvailableAddedMinor r <? 0)
    || (tp_AvailableAddedMinor r >? tp_GrossCreditMinor r)
    || negb (tp_DebtRepaidMinor r =? (tp_GrossCreditMinor r -! tp_AvailableAddedMinor r))
    || (Z.of_nat (length (tp_CreditEntryIDs r)) =? 0) || (tp_RequestFingerprint r =s "")
    || IsZero (tp_PostedAt r)
    || (tp_ResultFingerprint r ≠s TopUpPostingReceipt_Fingerprint r)).

Record TopUpReversalKey := {
  rk_PaymentID : string;
  rk_Kind : string;
  rk_ReversalID : string }.

#[export] Instance TopUpReversalKey_eq_dec : EqDecision TopUpReversalKey.
Proof. solve_decision. Defined.

Definition TopUpReversalKey_Validate (k : TopUpReversalKey) : error :=
  invalid_if (negb (isCanonicalWalletIdentifier (rk_PaymentID k))
    || negb (isCanonicalWalletIdentifier (rk_ReversalID k))
    || ((rk_Kind k ≠s WalletReversalRefund) && (rk_Kind k ≠s WalletReversalChargeback))).

Definition TopUpReversalKey_json (k : TopUpReversalKey) : json :=
  JObj [("PaymentID", JStr (rk_PaymentID k)); ("Kind", JStr (rk_Kind k));
        ("ReversalID", JStr (rk_ReversalID k))].

Definition TopUpReversalKey_StorageID (k : TopUpReversalKey) : string :=
  ("topup-reversal:v1:" +:+ TopUpFingerprint (Some (TopUpReversalKey_json k))).

Record TopUpRefundInput := {
  ri_Key : TopUpReversalKey;
  ri_OrganizationID : string;
  ri_CommercialOrderID : string;
  ri_AmountMinor : Z;
  ri_ApprovalID : string }.

#[export] Instance TopUpRefundInput_eq_dec : EqDecision TopUpRefundInput.
Proof. solve_decision. Defined.

Definition TopUpRefundInput_Validate (i : TopUpRefundInput) : error :=
  invalid_if (negb (nil_error (TopUpReversalKey_Validate (ri_Key i)))
    || (rk_Kind (ri_Key i) ≠s WalletReversalRefund)
    || negb (isCanonicalWalletIdentifier (ri_OrganizationID i))
    || negb (isCanonicalWalletIdentifier (ri_CommercialOrderID i))
    || (ri_AmountMinor i <=? 0) || negb (isCanonicalWalletIdentifier (ri_ApprovalID i))).

Record TopUpRefundHold := {
  rh_HoldID : string;
  rh_Input : TopUpRefundInput;
  rh_State : string;
  rh_Dispatched : bool;
  rh_CreatedAt : Time }.

Record TopUpReversalReceipt := {
  rr_ReceiptID : string;
  rr_Key : TopUpReversalKey;
  rr_OrganizationID : string;
  rr_CommercialOrderID : string;
  rr_Currency : string;
  rr_ProviderAmountMinor : Z;
  rr_WalletPrincipalEffectMinor : Z;
  rr_ExcessProviderMinor : Z;
  rr_ExcessRecordID : string;
  rr_HoldID : string;
  rr_HoldState : string;
  rr_HoldConsumedMinor : Z;
  rr_HoldReleasedMinor : Z;
  rr_HoldDebtRepaidMinor : Z;
  rr_EntryIDs : list string;
  rr_RequestFingerprint : string;
  rr_ResultFingerprint : string;
  rr_PostedAt : Time }.

Definition TopUpReversalReceipt_Fingerprint (r : TopUpReversalReceipt) : string :=
  TopUpFingerprint (
    at_ ← json_time (rr_PostedAt r);
    Some (JObj [("ReceiptID", JStr (rr_ReceiptID r)); ("Key", TopUpReversalKey_json (rr_Key r));
      ("OrganizationID", JStr (rr_OrganizationID r));
      ("CommercialOrderID", JStr (rr_CommercialOrderID r));
      ("Currency", JStr (rr_Currency r));
      ("ProviderAmountMinor", JInt (rr_ProviderAmountMinor r));
      ("WalletPrincipalEffectMinor", JInt (rr_WalletPrincipalEffectMinor r));
      ("ExcessProviderMinor", JInt (rr_ExcessProviderMinor r));
      ("ExcessRecordID", JStr (rr_ExcessRecordID r)); ("HoldID", JStr (rr_HoldID r));
      ("HoldState", JStr (rr_HoldState r)); ("HoldConsumedMinor", JInt (rr_HoldConsumedMinor r));
      ("HoldReleasedMinor", JInt (rr_HoldReleasedMinor r));
      ("HoldDebtRepaidMinor", JInt (rr_HoldDebtRepaidMinor r));
      ("EntryIDs", jstrings (rr_EntryIDs r));
      ("RequestFingerprint", JStr (rr_RequestFingerprint r));
      ("ResultFingerprint", JStr ""); ("PostedAt", at_)])).

Definition TopUpReversalReceipt_Validate (r : TopUpReversalReceipt) : error :=
  if negb (nil_error (TopUpReversalKey_Validate (rr_Key r)))
     || (rr_ReceiptID r ≠s TopUpReversalKey_StorageID (rr_Key r))
     || negb (isCanonicalWalletIdentifier (rr_OrganizationID r))
     || negb (isCanonicalWalletIdentifier (rr_CommercialOrderID r))
     || (rr_Currency r ≠s WalletCurrencyCNY) || (rr_ProviderAmountMinor r <=? 0)
     || (rr_WalletPrincipalEffectMinor r <? 0)
     || (rr_WalletPrincipalEffectMinor r >? rr_ProviderAmountMinor r)
     || negb (rr_ExcessProviderMinor r =?
              (rr_ProviderAmountMinor r -! rr_WalletPrincipalEffectMinor r))
     || negb (Bool.eqb (rr_ExcessProviderMinor r >? 0) (rr_ExcessRecordID r ≠s ""))
     || (rr_RequestFingerprint r =s "") || IsZero (rr_PostedAt r)
     || (rr_ResultFingerprint r ≠s TopUpReversalReceipt_Fingerprint r)
  then Some ErrInvalid
  else if rr_HoldID r ≠s "" then
    invalid_if ((rk_Kind (rr_Key r) ≠s WalletReversalRefund)
      || (rr_HoldState r ≠s "CONFIRMED")
      || negb (rr_HoldConsumedMinor r =? rr_WalletPrincipalEffectMinor r)
      || negb (rr_HoldReleasedMinor r =?
               (rr_ProviderAmountMinor r -! rr_HoldConsumedMinor r))
      || (rr_HoldDebtRepaidMinor r <? 0)
      || (rr_HoldDebtRepaidMinor r >? rr_HoldReleasedMinor r))
  else
    invalid_if ((rr_HoldState r ≠s "") || negb (rr_HoldConsumedMinor r =? 0)
      || negb (rr_HoldReleasedMinor r =? 0) || negb (rr_HoldDebtRepaidMinor r =? 0)).

(** ** Typing of the integer fields *)

#[export] Instance ProviderTopUpInput_typed : Typed ProviderTopUpInput := λ i,
  in_int64 (pt_AmountMinor i) ∧ ∀ r, r ∈ pt_KnownReversals i → typed r.
#[export] Instance TopUpRefundInput_typed : Typed TopUpRefundInput := λ i,
  in_int64 (ri_AmountMinor i).
