(* ===== verification/ServiceMoney.v ===== *)
(** * Service payments: amounts, allocation, operations and refund plans

    Models src/internal/ledger/money/service_channel_amounts.go,
    service_payment.go, service_refund_plan.go, service_refund_review.go and
    service_fulfillment.go. Funds of a service purchase stay at the channel
    submerchant; these facts say how a payment splits between platform and
    provider and in which order a refund returns the shared commission. *)
From S2P Require Import Prelude GoStd Encoding MoneyTypes ProviderTopUp.

(** ** service_channel_amounts.go *)

Definition ServiceAllocationChannelNetFloorV2 : string := "CHANNEL_SETTLEMENT_NET_FLOOR_V2".

Record ServiceVoucher := {
  sv_ID : string;
  sv_FundingType : string;
  sv_AmountMinor : Z }.

Record ServicePaymentAmounts := {
  pa_PayerMinor : Z;
  pa_Vouchers : list ServiceVoucher }.

Definition ServicePaymentAmounts_Normalize (a : ServicePaymentAmounts) : ServicePaymentAmounts :=
  {| pa_PayerMinor := pa_PayerMinor a; pa_Vouchers := sort_by sv_ID (pa_Vouchers a) |}.

(** The voucher loop: [None] on an invalid voucher, else what remains. *)
Fixpoint payment_vouchers_loop (vs : list ServiceVoucher) (seen : gset string)
    (remaining : Z) : option Z :=
  match vs with
  | [] => Some remaining
  | v :: vs' =>
    if negb (isCanonicalWalletIdentifier (sv_ID v)) || bool_decide (sv_ID v ∈ seen)
       || ((sv_FundingType v ≠s "CASH") && (sv_FundingType v ≠s "NOCASH"))
       || (sv_AmountMinor v <=? 0) || (sv_AmountMinor v >? remaining)
    then None
    else payment_vouchers_loop vs' ({[sv_ID v]} ∪ seen) (remaining -! sv_AmountMinor v)
  end.

Definition ServicePaymentAmounts_Validate (a : ServicePaymentAmounts) (total : Z) : error :=
  if (total <=? 0) || (pa_PayerMinor a <? 0) || (pa_PayerMinor a >? total)
     || (Z.of_nat (length (pa_Vouchers a)) >? 100)
  then Some ErrInvalid
  else match payment_vouchers_loop (pa_Vouchers a) ∅ (total -! pa_PayerMinor a) with
       | Some 0 => None
       | _ => Some ErrInvalid
       end.

Definition ServicePaymentAmounts_SettlementMinor (a : ServicePaymentAmounts) : Z :=
  fold_left (λ n v, if sv_FundingType v =s "CASH" then n +! sv_AmountMinor v else n)
    (pa_Vouchers a) (pa_PayerMinor a).

Record ServiceVoucherRefund := {
  vr_ID : string;
  vr_RefundType : string;
  vr_FundingType : string;
  vr_OriginalAmountMinor : Z;
  vr_RefundMinor : Z }.

Record ServiceRefundAmounts := {
  ra_PayerMinor : Z;
  ra_DiscountMinor : Z;
  ra_Vouchers : list ServiceVoucherRefund }.

Definition ServiceRefundAmounts_Normalize (a : ServiceRefundAmounts) : ServiceRefundAmounts :=
  {| ra_PayerMinor := ra_PayerMinor a; ra_DiscountMinor := ra_DiscountMinor a;
     ra_Vouchers := sort_by vr_ID (ra_Vouchers a) |}.

(** [original[v.ID] = v]: a later voucher overwrites an earlier one. *)
Definition voucher_map (vs : list ServiceVoucher) : gmap string ServiceVoucher :=
  fold_left (λ m v, <[sv_ID v := v]> m) vs ∅.

Fixpoint refund_vouchers_loop (original : gmap string ServiceVoucher)
    (vs : list ServiceVoucherRefund) (seen : gset string) (remaining : Z) : option Z :=
  match vs with
  | [] => Some remaining
  | v :: vs' =>
    match original !! vr_ID v with
    | None => None
    | Some o =>
      if bool_decide (vr_ID v ∈ seen)
         || ((vr_RefundType v ≠s "COUPON") && (vr_RefundType v ≠s "DISCOUNT"))
         || (vr_FundingType v ≠s sv_FundingType o)
         || negb (vr_OriginalAmountMinor v =? sv_AmountMinor o)
         || (vr_RefundMinor v <? 0) || (vr_RefundMinor v >? sv_AmountMinor o)
         || (vr_RefundMinor v >? remaining)
      then None
      else refund_vouchers_loop original vs' ({[vr_ID v]} ∪ seen)
             (remaining -! vr_RefundMinor v)
    end
  end.

Definition ServiceRefundAmounts_Validate (a : ServiceRefundAmounts)
    (payment : ServicePaymentAmounts) (nominal : Z) : error :=
  if (nominal <=? 0) || (ra_PayerMinor a <? 0) || (ra_PayerMinor a >? nominal)
     || (ra_PayerMinor a >? pa_PayerMinor payment) || (ra_DiscountMinor a <? 0)
     || negb (ra_DiscountMinor a =? (nominal -! ra_PayerMinor a))
     || (Z.of_nat (length (ra_Vouchers a)) >? 100)
  then Some ErrInvalid
  else match refund_vouchers_loop (voucher_map (pa_Vouchers payment)) (ra_Vouchers a) ∅
               (ra_DiscountMinor a) with
       | Some 0 => None
       | _ => Some ErrInvalid
       end.

Definition ServiceRefundAmounts_SettlementMinor (a : ServiceRefundAmounts) : Z :=
  fold_left (λ n v, if vr_FundingType v =s "CASH" then n +! vr_RefundMinor v else n)
    (ra_Vouchers a) (ra_PayerMinor a).

(** ** service_payment.go: allocation *)

Definition ServiceAllocationCumulativeNetFloorV1 : string := "CUMULATIVE_NET_FLOOR_V1".

Record ServiceAllocationPolicy := {
  ap_CommissionBPS : Z;
  ap_Basis : string }.

#[export] Instance ServiceAllocationPolicy_eq_dec : EqDecision ServiceAllocationPolicy.
Proof. solve_decision. Defined.

Definition ServiceAllocationPolicy_Validate (p : ServiceAllocationPolicy) : error :=
  invalid_if (((ap_Basis p ≠s ServiceAllocationCumulativeNetFloorV1)
               && (ap_Basis p ≠s ServiceAllocationChannelNetFloorV2))
    || (ap_CommissionBPS p <? 0) || (ap_CommissionBPS p >? 10000)).

(** The platform's and the provider's share of what is left of a payment. *)
Definition ServiceAllocation (gross refunded : Z) (policy : ServiceAllocationPolicy)
    : result (Z * Z) :=
  if negb (nil_error (ServiceAllocationPolicy_Validate policy)) || (gross <? 0)
     || ((gross =? 0) && (ap_Basis policy ≠s ServiceAllocationChannelNetFloorV2))
     || (refunded <? 0) || (refunded >? gross)
  then Err ErrInvalid
  else
    let net := gross -! refunded in
    let platform := ((net /! 10000) *! ap_CommissionBPS policy)
                    +! (((net %! 10000) *! ap_CommissionBPS policy) /! 10000) in
    Ok (platform, net -! platform).

(** ** service_payment.go: facts *)

Record ServicePaymentInput := {
  sp_ChannelAmounts : option ServicePaymentAmounts;
  sp_Allocation : ServiceAllocationPolicy;
  sp_OrderID : string;
  sp_RequestID : string;
  sp_BuyerOrganizationID : string;
  sp_ProviderOrganizationID : string;
  sp_PlatformMerchantID : string;
  sp_ProviderMerchantID : string;
  sp_PolicyVersion : string;
  sp_Binding : ProviderPaymentBinding;
  sp_Payment : PaymentSettlement }.

Definition ServicePaymentInput_Validate (i : ServicePaymentInput) : error :=
  if negb (forallb isCanonicalWalletIdentifier
       [sp_OrderID i; sp_RequestID i; sp_BuyerOrganizationID i; sp_ProviderOrganizationID i;
        sp_PlatformMerchantID i; sp_ProviderMerchantID i; sp_PolicyVersion i])
  then Some ErrInvalid
  else if negb (nil_error (ServiceAllocationPolicy_Validate (sp_Allocation i)))
     || (sp_BuyerOrganizationID i =s sp_ProviderOrganizationID i)
     || (sp_PlatformMerchantID i =s sp_ProviderMerchantID i)
     || negb (nil_error (ProviderPaymentBinding_Validate (sp_Binding i)))
     || (pb_Provider (sp_Binding i) ≠s "WECHAT_PAY")
     || (pb_MerchantID (sp_Binding i) ≠s sp_ProviderMerchantID i)
     || negb (nil_error (PaymentSettlement_Validate (sp_Payment i)))
     || (ps_PaymentPurpose (sp_Payment i) ≠s PaymentPurposeServicePurchase)
  then Some ErrInvalid
  else if ap_Basis (sp_Allocation i) =s ServiceAllocationChannelNetFloorV2 then
    match sp_ChannelAmounts i with
    | None => Some ErrInvalid
    | Some a => if nil_error (ServicePaymentAmounts_Validate a
                                (ps_GrossAmountMinor (sp_Payment i)))
                then None else Some ErrInvalid
    end
  else match sp_ChannelAmounts i with Some _ => Some ErrInvalid | None => None end.

(** An input as it is read back from JSON: the identities that text columns hold
    too, and the constants, are as they were. *)
Definition json_ServiceVoucher (v : ServiceVoucher) : ServiceVoucher :=
  {| sv_ID := json_text (sv_ID v); sv_FundingType := sv_FundingType v;
     sv_AmountMinor := sv_AmountMinor v |}.
Definition json_ServicePaymentInput (i : ServicePaymentInput) : ServicePaymentInput :=
  {| sp_ChannelAmounts := (λ a, {| pa_PayerMinor := pa_PayerMinor a;
       pa_Vouchers := json_ServiceVoucher <$> pa_Vouchers a |}) <$> sp_ChannelAmounts i;
     sp_Allocation := sp_Allocation i; sp_OrderID := sp_OrderID i; sp_RequestID := sp_RequestID i;
     sp_BuyerOrganizationID := sp_BuyerOrganizationID i;
     sp_ProviderOrganizationID := sp_ProviderOrganizationID i;
     sp_PlatformMerchantID := json_text (sp_PlatformMerchantID i);
     sp_ProviderMerchantID := json_text (sp_ProviderMerchantID i);
     sp_PolicyVersion := json_text (sp_PolicyVersion i);
     sp_Binding := json_ProviderPaymentBinding (sp_Binding i); sp_Payment := sp_Payment i |}.

Definition ServiceFingerprint (value : option json) : string :=
  fingerprint "service-purchase:v1:" value.

(** A nil slice marshals to [null]; [Normalize] makes an empty slice nil. *)
Definition jlist {A} (f : A → json) (l : list A) : json :=
  match l with [] => JNull | _ => JArr (f <$> l) end.

(** A field with the omitempty option. *)
Definition omit_nil (k : string) (v : option json) : list (string * json) :=
  match v with None => [] | Some j => [(k, j)] end.
Definition omit_empty (k v : string) : list (string * json) :=
  if v =s "" then [] else [(k, JStr v)].

Definition ServicePaymentAmounts_json (a : ServicePaymentAmounts) : json :=
  JObj [("PayerMinor", JInt (pa_PayerMinor a));
        ("Vouchers", jlist (λ v, JObj [("ID", JStr (sv_ID v));
           ("FundingType", JStr (sv_FundingType v));
           ("AmountMinor", JInt (sv_AmountMinor v))]) (pa_Vouchers a))].

Definition ServiceRefundAmounts_json (a : ServiceRefundAmounts) : json :=
  JObj [("PayerMinor", JInt (ra_PayerMinor a)); ("DiscountMinor", JInt (ra_DiscountMinor a));
        ("Vouchers", jlist (λ v, JObj [("ID", JStr (vr_ID v));
           ("RefundType", JStr (vr_RefundType v)); ("FundingType", JStr (vr_FundingType v));
           ("OriginalAmountMinor", JInt (vr_OriginalAmountMinor v));
           ("RefundMinor", JInt (vr_RefundMinor v))]) (ra_Vouchers a))].

Definition ServiceAllocationPolicy_json (p : ServiceAllocationPolicy) : json :=
  JObj [("CommissionBPS", JInt (ap_CommissionBPS p)); ("Basis", JStr (ap_Basis p))].

(** The JSON tree of a payment input, as it is given. *)
Definition ServicePaymentInput_json (i : ServicePaymentInput) : option json :=
  payment ← PaymentSettlement_json (sp_Payment i);
  Some (JObj (omit_nil "ChannelAmounts" (ServicePaymentAmounts_json <$> sp_ChannelAmounts i) ++
    [("Allocation", ServiceAllocationPolicy_json (sp_Allocation i));
     ("OrderID", JStr (sp_OrderID i)); ("RequestID", JStr (sp_RequestID i));
     ("BuyerOrganizationID", JStr (sp_BuyerOrganizationID i));
     ("ProviderOrganizationID", JStr (sp_ProviderOrganizationID i));
     ("PlatformMerchantID", JStr (sp_PlatformMerchantID i));
     ("ProviderMerchantID", JStr (sp_ProviderMerchantID i));
     ("PolicyVersion", JStr (sp_PolicyVersion i));
     ("Binding", ProviderPaymentBinding_json (sp_Binding i)); ("Payment", payment)])).

Definition normalized_channel_amounts (i : ServicePaymentInput) : ServicePaymentInput :=
  {| sp_ChannelAmounts := ServicePaymentAmounts_Normalize <$> sp_ChannelAmounts i;
     sp_Allocation := sp_Allocation i; sp_OrderID := sp_OrderID i;
     sp_RequestID := sp_RequestID i; sp_BuyerOrganizationID := sp_BuyerOrganizationID i;
     sp_ProviderOrganizationID := sp_ProviderOrganizationID i;
     sp_PlatformMerchantID := sp_PlatformMerchantID i;
     sp_ProviderMerchantID := sp_ProviderMerchantID i;
     sp_PolicyVersion := sp_PolicyVersion i; sp_Binding := sp_Binding i;
     sp_Payment := sp_Payment i |}.

Definition with_normalized_payment (i : ServicePaymentInput) : ServicePaymentInput :=
  {| sp_ChannelAmounts := sp_ChannelAmounts i;
     sp_Allocation := sp_Allocation i; sp_OrderID := sp_OrderID i;
     sp_RequestID := sp_RequestID i; sp_BuyerOrganizationID := sp_BuyerOrganizationID i;
     sp_ProviderOrganizationID := sp_ProviderOrganizationID i;
     sp_PlatformMerchantID := sp_PlatformMerchantID i;
     sp_ProviderMerchantID := sp_ProviderMerchantID i;
     sp_PolicyVersion := sp_PolicyVersion i; sp_Binding := sp_Binding i;
     sp_Payment := normalized_payment (sp_Payment i) |}.

Definition ServicePaymentInput_Fingerprint (i : ServicePaymentInput) : string :=
  ServiceFingerprint (ServicePaymentInput_json
    (with_normalized_payment (normalized_channel_amounts i))).

Definition ServiceShare : string := "SHARE".
Definition ServiceFinish : string := "FINISH".
Definition ServiceRefundRelease : string := "REFUND_RELEASE".
Definition ServiceReturn : string := "RETURN".
Definition ServiceRefund : string := "REFUND".
Definition ServiceChargeback : string := "CHARGEBACK".
Definition ServiceAutomaticRelease : string := "AUTOMATIC_RELEASE".

(** ** service_refund_plan.go: the plan *)

Definition ServiceReturnPre : string := "RETURN_PRE".
Definition ServiceRefundPhase : string := "REFUND".
Definition ServiceReturnPost : string := "RETURN_POST".
Definition ServiceRefundReleasePhase : string := "REFUND_RELEASE".

Record ServiceRefundPlan := {
  rp_OrderID : string;
  rp_PaymentID : string;
  rp_CommandID : string;
  rp_SourceProofID : string;
  rp_PreOperationID : string;
  rp_RefundOperationID : string;
  rp_PostOperationID : string;
  rp_ReleaseOperationID : string;
  rp_OriginalShareID : string;
  rp_Allocation : ServiceAllocationPolicy;
  rp_NominalMinor : Z;
  rp_BaseRefundedMinor : Z;
  rp_BaseSettlementRefundedMinor : Z;
  rp_BaseReturnedMinor : Z;
  rp_SettlementMinor : Z;
  rp_NetShareMinor : Z;
  rp_RemainingNoCashMinor : Z;
  rp_PreReturnMinor : Z }.

(** A plan as it is read back from JSON; the other strings are identities that text
    columns hold too. *)
Definition json_ServiceRefundPlan (p : ServiceRefundPlan) : ServiceRefundPlan :=
  {| rp_OrderID := rp_OrderID p; rp_PaymentID := rp_PaymentID p;
     rp_CommandID := json_text (rp_CommandID p); rp_SourceProofID := json_text (rp_SourceProofID p);
     rp_PreOperationID := rp_PreOperationID p; rp_RefundOperationID := rp_RefundOperationID p;
     rp_PostOperationID := rp_PostOperationID p; rp_ReleaseOperationID := rp_ReleaseOperationID p;
     rp_OriginalShareID := rp_OriginalShareID p; rp_Allocation := rp_Allocation p;
     rp_NominalMinor := rp_NominalMinor p; rp_BaseRefundedMinor := rp_BaseRefundedMinor p;
     rp_BaseSettlementRefundedMinor := rp_BaseSettlementRefundedMinor p;
     rp_BaseReturnedMinor := rp_BaseReturnedMinor p; rp_SettlementMinor := rp_SettlementMinor p;
     rp_NetShareMinor := rp_NetShareMinor p; rp_RemainingNoCashMinor := rp_RemainingNoCashMinor p;
     rp_PreReturnMinor := rp_PreReturnMinor p |}.

#[export] Instance ServiceRefundPlan_eq_dec : EqDecision ServiceRefundPlan.
Proof. solve_decision. Defined.

Fixpoint has_duplicate (l : list string) : bool :=
  match l with
  | [] => false
  | x :: l' => bool_decide (x ∈ l') || has_duplicate l'
  end.

Definition ServiceRefundPlan_Validate (p : ServiceRefundPlan) : error :=
  if negb (forallb isCanonicalWalletIdentifier
       [rp_OrderID p; rp_PaymentID p; rp_CommandID p; rp_SourceProofID p;
        rp_PreOperationID p; rp_RefundOperationID p; rp_PostOperationID p;
        rp_ReleaseOperationID p])
  then Some ErrInvalid
  else if has_duplicate [rp_PreOperationID p; rp_RefundOperationID p; rp_PostOperationID p;
                         rp_ReleaseOperationID p]
  then Some ErrInvalid
  else if negb (nil_error (ServiceAllocationPolicy_Validate (rp_Allocation p)))
     || (ap_Basis (rp_Allocation p) ≠s ServiceAllocationChannelNetFloorV2)
     || (rp_NominalMinor p <=? 0) || (rp_BaseRefundedMinor p <? 0)
     || (rp_BaseSettlementRefundedMinor p <? 0) || (rp_BaseReturnedMinor p <? 0)
     || (rp_SettlementMinor p <? 0) || (rp_NetShareMinor p <? 0)
     || (rp_RemainingNoCashMinor p <? 0) || (rp_PreReturnMinor p <? 0)
     || (rp_PreReturnMinor p >? rp_NetShareMinor p)
  then Some ErrInvalid
  else if rp_OriginalShareID p =s "" then
    invalid_if (negb (rp_PreReturnMinor p =? 0) || negb (rp_NetShareMinor p =? 0))
  else invalid_if (negb (isCanonicalWalletIdentifier (rp_OriginalShareID p))).

(** What the refund settled decides the second return of the commission. *)
Definition ServiceRefundPlan_PostReturn (p : ServiceRefundPlan)
    (actual : ServiceRefundAmounts) : result Z :=
  if negb (nil_error (ServiceRefundPlan_Validate p)) then Err ErrInvalid
  else if rp_OriginalShareID p =s "" then Ok 0
  else
    '(target, _) ← ServiceAllocation (rp_SettlementMinor p)
                     (ServiceRefundAmounts_SettlementMinor actual) (rp_Allocation p);
    let due := (rp_NetShareMinor p -! rp_PreReturnMinor p) -! target in
    if (due <? 0) || (due >? (rp_NetShareMinor p -! rp_PreReturnMinor p))
    then Err ErrConflict
    else Ok due.

(** ** service_payment.go: operations, effects and receipts *)

Record ServiceOperation := {
  so_RefundPlan : option ServiceRefundPlan;
  so_RefundPhase : string;
  so_OrderID : string;
  so_OperationID : string;
  so_Kind : string;
  so_AmountMinor : Z;
  so_SourceProofID : string;
  so_OriginalShareID : string }.

#[export] Instance ServiceOperation_eq_dec : EqDecision ServiceOperation.
Proof. solve_decision. Defined.

(** The checks of [Validate] that bind an operation to its refund plan. *)
Definition ServiceOperation_Validate_plan (i : ServiceOperation) : error :=
  match so_RefundPlan i with
  | Some p =>
    if negb (nil_error (ServiceRefundPlan_Validate p)) || (rp_OrderID p ≠s so_OrderID i)
       || (rp_SourceProofID p ≠s so_SourceProofID i)
    then Some ErrInvalid
    else if so_RefundPhase i =s ServiceReturnPre then
      invalid_if ((so_Kind i ≠s ServiceReturn) || (so_OperationID i ≠s rp_PreOperationID p)
        || negb (so_AmountMinor i =? rp_PreReturnMinor p)
        || (so_OriginalShareID i ≠s rp_OriginalShareID p))
    else if so_RefundPhase i =s ServiceReturnPost then
      invalid_if ((so_Kind i ≠s ServiceReturn) || (so_OperationID i ≠s rp_PostOperationID p)
        || (so_OriginalShareID i ≠s rp_OriginalShareID p))
    else if so_RefundPhase i =s ServiceRefundPhase then
      invalid_if ((so_Kind i ≠s ServiceRefund)
        || (so_OperationID i ≠s rp_RefundOperationID p)
        || negb (so_AmountMinor i =? rp_NominalMinor p))
    else if so_RefundPhase i =s ServiceRefundReleasePhase then
      invalid_if ((so_Kind i ≠s ServiceRefundRelease)
        || (so_OperationID i ≠s rp_ReleaseOperationID p))
    else Some ErrInvalid
  | None => invalid_if (so_RefundPhase i ≠s "")
  end.

Definition ServiceOperation_Validate (i : ServiceOperation) : error :=
  if negb (isCanonicalWalletIdentifier (so_OrderID i))
     || negb (isCanonicalWalletIdentifier (so_OperationID i))
     || negb (isCanonicalWalletIdentifier (so_SourceProofID i)) || (so_AmountMinor i <? 0)
  then Some ErrInvalid
  else if (so_Kind i =s ServiceShare) || (so_Kind i =s ServiceFinish)
          || (so_Kind i =s ServiceRefundRelease) then ServiceOperation_Validate_plan i
  else if so_Kind i =s ServiceReturn then
    if negb (isCanonicalWalletIdentifier (so_OriginalShareID i))
       && negb (match so_RefundPlan i with
                | Some p => (so_AmountMinor i =? 0) && (rp_OriginalShareID p =s "")
                | None => false
                end)
    then Some ErrInvalid
    else ServiceOperation_Validate_plan i
  else if (so_Kind i =s ServiceRefund) || (so_Kind i =s ServiceChargeback) then
    if so_AmountMinor i =? 0 then Some ErrInvalid else ServiceOperation_Validate_plan i
  else Some ErrInvalid.

Record ServiceEffect := {
  se_RefundAmounts : option ServiceRefundAmounts;
  se_Operation : ServiceOperation;
  se_ProviderReference : string;
  se_OccurredAt : Time }.

Record ServiceOperationFailure := {
  sf_Operation : ServiceOperation;
  sf_ProofID : string;
  sf_ProviderReference : string;
  sf_Reason : string;
  sf_OccurredAt : Time }.

Definition ServiceOperationFailure_Validate (i : ServiceOperationFailure) : error :=
  invalid_if (negb (nil_error (ServiceOperation_Validate (sf_Operation i)))
    || negb (isCanonicalWalletIdentifier (sf_ProofID i))
    || negb (isCanonicalWalletIdentifier (sf_ProviderReference i))
    || negb (isCanonicalWalletIdentifier (sf_Reason i)) || IsZero (sf_OccurredAt i)).

Definition ServiceEffect_Validate (e : ServiceEffect) : error :=
  if negb (nil_error (ServiceOperation_Validate (se_Operation e)))
     || negb (isCanonicalWalletIdentifier (se_ProviderReference e))
     || IsZero (se_OccurredAt e)
  then Some ErrInvalid
  else match se_RefundAmounts e with
       | Some _ => invalid_if (so_Kind (se_Operation e) ≠s ServiceRefund)
       | None => None
       end.

Definition ServiceRefundPlan_json (p : ServiceRefundPlan) : json :=
  JObj [("OrderID", JStr (rp_OrderID p)); ("PaymentID", JStr (rp_PaymentID p));
        ("CommandID", JStr (rp_CommandID p)); ("SourceProofID", JStr (rp_SourceProofID p));
        ("PreOperationID", JStr (rp_PreOperationID p));
        ("RefundOperationID", JStr (rp_RefundOperationID p));
        ("PostOperationID", JStr (rp_PostOperationID p));
        ("ReleaseOperationID", JStr (rp_ReleaseOperationID p));
        ("OriginalShareID", JStr (rp_OriginalShareID p));
        ("Allocation", ServiceAllocationPolicy_json (rp_Allocation p));
        ("NominalMinor", JInt (rp_NominalMinor p));
        ("BaseRefundedMinor", JInt (rp_BaseRefundedMinor p));
        ("BaseSettlementRefundedMinor", JInt (rp_BaseSettlementRefundedMinor p));
        ("BaseReturnedMinor", JInt (rp_BaseReturnedMinor p));
        ("SettlementMinor", JInt (rp_SettlementMinor p));
        ("NetShareMinor", JInt (rp_NetShareMinor p));
        ("RemainingNoCashMinor", JInt (rp_RemainingNoCashMinor p));
        ("PreReturnMinor", JInt (rp_PreReturnMinor p))].

Definition ServiceOperation_json (i : ServiceOperation) : json :=
  JObj (omit_nil "RefundPlan" (ServiceRefundPlan_json <$> so_RefundPlan i) ++
        omit_empty "RefundPhase" (so_RefundPhase i) ++
        [("OrderID", JStr (so_OrderID i)); ("OperationID", JStr (so_OperationID i));
         ("Kind", JStr (so_Kind i)); ("AmountMinor", JInt (so_AmountMinor i));
         ("SourceProofID", JStr (so_SourceProofID i));
         ("OriginalShareID", JStr (so_OriginalShareID i))]).

(** [ServiceFingerprint] of an operation. *)
Definition operation_fingerprint (i : ServiceOperation) : string :=
  ServiceFingerprint (Some (ServiceOperation_json i)).

Definition ServiceEffect_Fingerprint (e : ServiceEffect) : string :=
  ServiceFingerprint (
    at_ ← json_time (NormalizeTimestamp (se_OccurredAt e));
    Some (JObj (omit_nil "RefundAmounts" (ServiceRefundAmounts_json ∘
                  ServiceRefundAmounts_Normalize <$> se_RefundAmounts e) ++
      [("Operation", ServiceOperation_json (se_Operation e));
       ("ProviderReference", JStr (se_ProviderReference e)); ("OccurredAt", at_)]))).

(** [ServiceFingerprint] of a failure, as it is given. *)
Definition failure_fingerprint (i : ServiceOperationFailure) : string :=
  ServiceFingerprint (
    at_ ← json_time (sf_OccurredAt i);
    Some (JObj [("Operation", ServiceOperation_json (sf_Operation i));
      ("ProofID", JStr (sf_ProofID i)); ("ProviderReference", JStr (sf_ProviderReference i));
      ("Reason", JStr (sf_Reason i)); ("OccurredAt", at_)])).

(** [ServiceFingerprint] of a chargeback fact, as it is given. *)
Definition chargeback_fingerprint (c : ChargebackSettlement) : string :=
  ServiceFingerprint (
    at_ ← json_time (cs_OccurredAt c);
    Some (JObj [("ChargebackID", JStr (cs_ChargebackID c));
      ("PaymentID", JStr (cs_PaymentID c)); ("AmountMinor", JInt (cs_AmountMinor c));
      ("OccurredAt", at_); ("ProviderReference", JStr (cs_ProviderReference c))])).

Record ServiceFundsView := {
  fv_PendingRefundCommandID : string;
  fv_ChannelAmounts : option ServicePaymentAmounts;
  fv_SettlementMinor : Z;
  fv_SettlementRefundedMinor : Z;
  fv_PayerRefundedMinor : Z;
  fv_VoucherRefundedMinor : gmap string Z;
  fv_Allocation : ServiceAllocationPolicy;
  fv_ChannelFeeMinor : Z;
  fv_ChannelFeeObserved : bool;
  fv_OrderID : string;
  fv_PaymentID : string;
  fv_BuyerOrganizationID : string;
  fv_ProviderOrganizationID : string;
  fv_Currency : string;
  fv_GrossMinor : Z;
  fv_RefundedMinor : Z;
  fv_ChargedBackMinor : Z;
  fv_PlatformMinor : Z;
  fv_ProviderMinor : Z;
  fv_SharedMinor : Z;
  fv_ReturnedMinor : Z;
  fv_ReleasedMinor : Z;
  fv_AutomaticReleasedMinor : Z;
  fv_PendingOperationID : string;
  fv_ReconciliationReason : string }.

Record ServiceChannelFee := {
  cf_Payment : ServicePaymentInput;
  cf_FlowID : string;
  cf_BusinessID : string;
  cf_ProofID : string;
  cf_AmountMinor : Z;
  cf_Returned : bool;
  cf_OccurredAt : Time }.

Definition ServiceChannelFee_Validate (i : ServiceChannelFee) : error :=
  invalid_if (negb (nil_error (ServicePaymentInput_Validate (cf_Payment i)))
    || negb (isCanonicalWalletIdentifier (cf_FlowID i))
    || negb (isCanonicalWalletIdentifier (cf_BusinessID i))
    || negb (isCanonicalWalletIdentifier (cf_ProofID i)) || (cf_AmountMinor i <? 0)
    || (cf_AmountMinor i >? ps_GrossAmountMinor (sp_Payment (cf_Payment i)))
    || IsZero (cf_OccurredAt i)).

Definition ServiceChannelFee_Fingerprint (i : ServiceChannelFee) : string :=
  ServiceFingerprint (
    payment ← ServicePaymentInput_json (cf_Payment i);
    at_ ← json_time (NormalizeTimestamp (cf_OccurredAt i));
    Some (JObj [("Payment", payment); ("FlowID", JStr (cf_FlowID i));
      ("BusinessID", JStr (cf_BusinessID i)); ("ProofID", JStr "");
      ("AmountMinor", JInt (cf_AmountMinor i)); ("Returned", JBool (cf_Returned i));
      ("OccurredAt", at_)])).

Record ServiceUnsplitObservation := {
  uo_Payment : ServicePaymentInput;
  uo_ProfileVersion : string;
  uo_ExpectedFundsFingerprint : string;
  uo_ProofID : string;
  uo_UnsplitMinor : Z;
  uo_OccurredAt : Time }.

Definition ServiceUnsplitObservation_Validate (i : ServiceUnsplitObservation) : error :=
  invalid_if (negb (nil_error (ServicePaymentInput_Validate (uo_Payment i)))
    || negb (isCanonicalWalletIdentifier (uo_ProfileVersion i))
    || negb (isCanonicalWalletIdentifier (uo_ProofID i))
    || negb (slen (uo_ExpectedFundsFingerprint i) =? 64) || (uo_UnsplitMinor i <? 0)
    || (uo_UnsplitMinor i >? ps_GrossAmountMinor (sp_Payment (uo_Payment i)))
    || IsZero (uo_OccurredAt i)).

(** [ServiceFingerprint] of an unsplit observation, as it is given. *)
Definition unsplit_fingerprint (i : ServiceUnsplitObservation) : string :=
  ServiceFingerprint (
    payment ← ServicePaymentInput_json (uo_Payment i);
    at_ ← json_time (uo_OccurredAt i);
    Some (JObj [("Payment", payment); ("ProfileVersion", JStr (uo_ProfileVersion i));
      ("ExpectedFundsFingerprint", JStr (uo_ExpectedFundsFingerprint i));
      ("ProofID", JStr (uo_ProofID i)); ("UnsplitMinor", JInt (uo_UnsplitMinor i));
      ("OccurredAt", at_)])).

Definition ExpectedUnsplitMinor (f : ServiceFundsView) : Z :=
  let remaining :=
    if ap_Basis (fv_Allocation f) =s ServiceAllocationChannelNetFloorV2 then
      fv_SettlementMinor f -! fv_SettlementRefundedMinor f -! fv_ChargedBackMinor f
        -! fv_SharedMinor f -! fv_ReleasedMinor f -! fv_AutomaticReleasedMinor f
    else
      fv_GrossMinor f -! fv_RefundedMinor f -! fv_ChargedBackMinor f -! fv_SharedMinor f
        -! fv_ReleasedMinor f -! fv_AutomaticReleasedMinor f in
  if remaining <? 0 then 0 else remaining.

(** [ServiceFingerprint] of a funds view; a map marshals in key order. *)
Definition funds_fingerprint (f : ServiceFundsView) : string :=
  ServiceFingerprint (Some (JObj (
    omit_empty "PendingRefundCommandID" (fv_PendingRefundCommandID f) ++
    omit_nil "ChannelAmounts" (ServicePaymentAmounts_json <$> fv_ChannelAmounts f) ++
    [("SettlementMinor", JInt (fv_SettlementMinor f));
     ("SettlementRefundedMinor", JInt (fv_SettlementRefundedMinor f));
     ("PayerRefundedMinor", JInt (fv_PayerRefundedMinor f))] ++
    match sort_by fst (map_to_list (fv_VoucherRefundedMinor f)) with
    | [] => []
    | l => [("VoucherRefundedMinor", JObj ((λ kv, (kv.1, JInt kv.2)) <$> l))]
    end ++
    [("Allocation", ServiceAllocationPolicy_json (fv_Allocation f));
     ("ChannelFeeMinor", JInt (fv_ChannelFeeMinor f));
     ("ChannelFeeObserved", JBool (fv_ChannelFeeObserved f));
     ("OrderID", JStr (fv_OrderID f)); ("PaymentID", JStr (fv_PaymentID f));
     ("BuyerOrganizationID", JStr (fv_BuyerOrganizationID f));
     ("ProviderOrganizationID", JStr (fv_ProviderOrganizationID f));
     ("Currency", JStr (fv_Currency f)); ("GrossMinor", JInt (fv_GrossMinor f));
     ("RefundedMinor", JInt (fv_RefundedMinor f));
     ("ChargedBackMinor", JInt (fv_ChargedBackMinor f));
     ("PlatformMinor", JInt (fv_PlatformMinor f));
     ("ProviderMinor", JInt (fv_ProviderMinor f)); ("SharedMinor", JInt (fv_SharedMinor f));
     ("ReturnedMinor", JInt (fv_ReturnedMinor f));
     ("ReleasedMinor", JInt (fv_ReleasedMinor f));
     ("AutomaticReleasedMinor", JInt (fv_AutomaticReleasedMinor f));
     ("PendingOperationID", JStr (fv_PendingOperationID f));
     ("ReconciliationReason", JStr (fv_ReconciliationReason f))]))).

Record ServiceReceipt := {
  sr_RefundAmounts : option ServiceRefundAmounts;
  sr_ReceiptID : string;
  sr_OrderID : string;
  sr_OperationID : string;
  sr_RequestFingerprint : string;
  sr_ResultFingerprint : string;
  sr_Kind : string;
  sr_AmountMinor : Z;
  sr_ProviderReference : string;
  sr_OccurredAt : Time }.

(** A receipt as it is read back from JSON. Its identities are held by text columns
    too, and the vouchers it refunds are among the payment's. *)
Definition json_ServiceReceipt (r : ServiceReceipt) : ServiceReceipt :=
  {| sr_RefundAmounts := sr_RefundAmounts r; sr_ReceiptID := sr_ReceiptID r;
     sr_OrderID := sr_OrderID r; sr_OperationID := sr_OperationID r;
     sr_RequestFingerprint := sr_RequestFingerprint r; sr_ResultFingerprint := sr_ResultFingerprint r;
     sr_Kind := sr_Kind r; sr_AmountMinor := sr_AmountMinor r;
     sr_ProviderReference := json_text (sr_ProviderReference r); sr_OccurredAt := sr_OccurredAt r |}.

Definition ServiceReceipt_Fingerprint (r : ServiceReceipt) : string :=
  ServiceFingerprint (
    at_ ← json_time (sr_OccurredAt r);
    Some (JObj (omit_nil "RefundAmounts" (ServiceRefundAmounts_json <$> sr_RefundAmounts r) ++
      [("ReceiptID", JStr (sr_ReceiptID r)); ("OrderID", JStr (sr_OrderID r));
       ("OperationID", JStr (sr_OperationID r));
       ("RequestFingerprint", JStr (sr_RequestFingerprint r));
       ("ResultFingerprint", JStr ""); ("Kind", JStr (sr_Kind r));
       ("AmountMinor", JInt (sr_AmountMinor r));
       ("ProviderReference", JStr (sr_ProviderReference r)); ("OccurredAt", at_)]))).

(** The receipt carrying its own digest. *)
Definition sealed (r : ServiceReceipt) : ServiceReceipt :=
  {| sr_RefundAmounts := sr_RefundAmounts r; sr_ReceiptID := sr_ReceiptID r;
     sr_OrderID := sr_OrderID r; sr_OperationID := sr_OperationID r;
     sr_RequestFingerprint := sr_RequestFingerprint r;
     sr_ResultFingerprint := ServiceReceipt_Fingerprint r; sr_Kind := sr_Kind r;
     sr_AmountMinor := sr_AmountMinor r; sr_ProviderReference := sr_ProviderReference r;
     sr_OccurredAt := sr_OccurredAt r |}.

Definition ServiceReceipt_Validate (r : ServiceReceipt) : error :=
  invalid_if (negb (isCanonicalWalletIdentifier (sr_ReceiptID r))
    || negb (isCanonicalWalletIdentifier (sr_OrderID r))
    || negb (isCanonicalWalletIdentifier (sr_OperationID r))
    || (sr_RequestFingerprint r =s "")
    || (sr_ResultFingerprint r ≠s ServiceReceipt_Fingerprint r)
    || IsZero (sr_OccurredAt r) || (sr_AmountMinor r <? 0)).

Definition ValidateServiceUncertaintyProof (proof : string) : error :=
  invalid_if (negb (isCanonicalWalletIdentifier proof)).

(** ** service_refund_plan.go: building a plan *)

(** The voucher loop of [NewServiceRefundPlan]. *)
Fixpoint remaining_no_cash (used : gmap string Z) (vs : list ServiceVoucher) (acc : Z)
    : result Z :=
  match vs with
  | [] => Ok acc
  | v :: vs' =>
    let u := default 0 (used !! sv_ID v) in
    if (u <? 0) || (u >? sv_AmountMinor v) then Err ErrConflict
    else remaining_no_cash used vs'
           (if sv_FundingType v =s "NOCASH" then acc +! (sv_AmountMinor v -! u) else acc)
  end.

Definition NewServiceRefundPlan (f : ServiceFundsView)
    (command source pre refund post release share : string) (amount : Z)
    : result ServiceRefundPlan :=
  let settlement := fv_SettlementMinor f -! fv_SettlementRefundedMinor f in
  let netShare := fv_SharedMinor f -! fv_ReturnedMinor f in
  let plan share noCash preReturn := {|
    rp_OrderID := fv_OrderID f; rp_PaymentID := fv_PaymentID f; rp_CommandID := command;
    rp_SourceProofID := source; rp_PreOperationID := pre; rp_RefundOperationID := refund;
    rp_PostOperationID := post; rp_ReleaseOperationID := release;
    rp_OriginalShareID := share; rp_Allocation := fv_Allocation f;
    rp_NominalMinor := amount; rp_BaseRefundedMinor := fv_RefundedMinor f;
    rp_BaseSettlementRefundedMinor := fv_SettlementRefundedMinor f;
    rp_BaseReturnedMinor := fv_ReturnedMinor f; rp_SettlementMinor := settlement;
    rp_NetShareMinor := netShare; rp_RemainingNoCashMinor := noCash;
    rp_PreReturnMinor := preReturn |} in
  match fv_ChannelAmounts f with
  | None => Err ErrConflict
  | Some amounts =>
    if (ap_Basis (fv_Allocation f) ≠s ServiceAllocationChannelNetFloorV2)
       || negb (nil_error (ServicePaymentAmounts_Validate amounts (fv_GrossMinor f)))
       || (fv_ReconciliationReason f ≠s "") || negb (fv_ChargedBackMinor f =? 0)
       || (amount <=? 0) || (amount >? (fv_GrossMinor f -! fv_RefundedMinor f))
    then Err ErrConflict
    else
      noCash ← remaining_no_cash (fv_VoucherRefundedMinor f) (pa_Vouchers amounts) 0;
      p ← (if fv_SharedMinor f >? 0 then
             if (share =s "") || negb (netShare =? fv_PlatformMinor f) then Err ErrConflict
             else
               let lower := amount -! noCash in
               let lower := if lower <? 0 then 0 else lower in
               '(target, _) ← ServiceAllocation settlement lower (fv_Allocation f);
               Ok (plan share noCash (netShare -! target))
           else Ok (plan "" noCash 0));
      match ServiceRefundPlan_Validate p with
      | None => Ok p
      | Some e => Err e
      end
  end.

(** ** service_refund_review.go and service_fulfillment.go *)

Record ServiceRefundReviewAdmission := {
  ad_Payment : ServicePaymentInput;
  ad_PaymentReceiptID : string;
  ad_OrganizationID : string;
  ad_ActorID : string;
  ad_Kind : string;
  ad_Key : string;
  ad_CommandFingerprint : string;
  ad_RequestVersion : Z;
  ad_RefundVersion : Z;
  ad_QuoteVersion : Z;
  ad_AmountMinor : Z }.

Definition ServiceRefundReviewAdmission_Validate (i : ServiceRefundReviewAdmission) : error :=
  invalid_if (negb (nil_error (ServicePaymentInput_Validate (ad_Payment i)))
    || negb (isCanonicalWalletIdentifier (ad_PaymentReceiptID i))
    || negb (isCanonicalWalletIdentifier (ad_Key i)) || (ad_Kind i ≠s "refund_review")
    || (ad_ActorID i =s "") || (TrimSpace (ad_ActorID i) ≠s ad_ActorID i)
    || (slen (ad_ActorID i) >? 256) || (slen (ad_OrganizationID i) >? 128)
    || negb (slen (ad_CommandFingerprint i) =? 64) || (ad_RequestVersion i <? 1)
    || (ad_RefundVersion i <? 1) || (ad_QuoteVersion i <? 1) || (ad_AmountMinor i <=? 0)
    || (ad_AmountMinor i >? ps_GrossAmountMinor (sp_Payment (ad_Payment i)))).

Definition ServiceRefundReviewAdmission_Fingerprint (i : ServiceRefundReviewAdmission)
    : string :=
  ServiceFingerprint (Some (JObj
    [("Payment", JStr (ServicePaymentInput_Fingerprint (ad_Payment i)));
     ("Receipt", JStr (ad_PaymentReceiptID i)); ("Organization", JStr (ad_OrganizationID i));
     ("Actor", JStr (ad_ActorID i)); ("Kind", JStr (ad_Kind i)); ("Key", JStr (ad_Key i));
     ("Command", JStr (ad_CommandFingerprint i));
     ("RequestVersion", JInt (ad_RequestVersion i));
     ("RefundVersion", JInt (ad_RefundVersion i)); ("QuoteVersion", JInt (ad_QuoteVersion i));
     ("Amount", JInt (ad_AmountMinor i))])).

Definition ServiceRefundReviewAdmission_Identity (i : ServiceRefundReviewAdmission) : string :=
  ("service-refund-review:" +:+ ServiceFingerprint (Some (jstrings
     [ad_OrganizationID i; ad_Kind i; ad_Key i]))).

Definition json_ServiceRefundReviewAdmission (i : ServiceRefundReviewAdmission)
    : ServiceRefundReviewAdmission :=
  {| ad_Payment := json_ServicePaymentInput (ad_Payment i);
     ad_PaymentReceiptID := json_text (ad_PaymentReceiptID i);
     ad_OrganizationID := json_text (ad_OrganizationID i); ad_ActorID := json_text (ad_ActorID i);
     ad_Kind := json_text (ad_Kind i); ad_Key := json_text (ad_Key i);
     ad_CommandFingerprint := json_text (ad_CommandFingerprint i);
     ad_RequestVersion := ad_RequestVersion i; ad_RefundVersion := ad_RefundVersion i;
     ad_QuoteVersion := ad_QuoteVersion i; ad_AmountMinor := ad_AmountMinor i |}.

Record ServiceRefundReviewProof := {
  rpf_ReceiptID : string;
  rpf_InputFingerprint : string;
  rpf_PaymentReceiptID : string;
  rpf_RemainingMinor : Z;
  rpf_OccurredAt : Time;
  rpf_ResultFingerprint : string }.

Definition ServiceRefundReviewProof_Fingerprint (p : ServiceRefundReviewProof) : string :=
  ServiceFingerprint (
    at_ ← json_time (rpf_OccurredAt p);
    Some (JObj [("ReceiptID", JStr (rpf_ReceiptID p));
      ("InputFingerprint", JStr (rpf_InputFingerprint p));
      ("PaymentReceiptID", JStr (rpf_PaymentReceiptID p));
      ("RemainingMinor", JInt (rpf_RemainingMinor p)); ("OccurredAt", at_);
      ("ResultFingerprint", JStr "")])).

Definition ServiceRefundReviewProof_Matches (p : ServiceRefundReviewProof)
    (i : ServiceRefundReviewAdmission) : bool :=
  nil_error (ServiceRefundReviewAdmission_Validate i)
  && (rpf_ReceiptID p =s ServiceRefundReviewAdmission_Identity i)
  && (rpf_InputFingerprint p =s ServiceRefundReviewAdmission_Fingerprint i)
  && (rpf_PaymentReceiptID p =s ad_PaymentReceiptID i)
  && (rpf_RemainingMinor p >=? ad_AmountMinor i)
  && (rpf_RemainingMinor p <=? ps_GrossAmountMinor (sp_Payment (ad_Payment i)))
  && negb (IsZero (rpf_OccurredAt p))
  && (rpf_ResultFingerprint p =s ServiceRefundReviewProof_Fingerprint p).

Record ServiceFulfillmentAdmission := {
  fa_Payment : ServicePaymentInput;
  fa_PaymentReceiptID : string;
  fa_OrganizationID : string;
  fa_ActorID : string;
  fa_Kind : string;
  fa_Key : string;
  fa_CommandFingerprint : string;
  fa_RequestVersion : Z;
  fa_QuoteVersion : Z }.

Definition ServiceFulfillmentAdmission_Validate (i : ServiceFulfillmentAdmission) : error :=
  let provider := (fa_Kind i =s "start") || (fa_Kind i =s "deliver") in
  let buyer := (fa_Kind i =s "accept") || (fa_Kind i =s "reject") in
  invalid_if (negb (nil_error (ServicePaymentInput_Validate (fa_Payment i)))
    || negb (isCanonicalWalletIdentifier (fa_PaymentReceiptID i))
    || negb (isCanonicalWalletIdentifier (fa_Key i))
    || (negb provider && negb buyer)
    || (provider && (fa_OrganizationID i ≠s sp_ProviderOrganizationID (fa_Payment i)))
    || (buyer && (fa_OrganizationID i ≠s sp_BuyerOrganizationID (fa_Payment i)))
    || (fa_ActorID i =s "") || (TrimSpace (fa_ActorID i) ≠s fa_ActorID i)
    || (slen (fa_ActorID i) >? 256) || negb (slen (fa_CommandFingerprint i) =? 64)
    || (fa_RequestVersion i <? 1) || (fa_QuoteVersion i <? 1)).

Definition ServiceFulfillmentAdmission_Fingerprint (i : ServiceFulfillmentAdmission) : string :=
  ServiceFingerprint (Some (JObj
    [("Payment", JStr (ServicePaymentInput_Fingerprint (fa_Payment i)));
     ("Receipt", JStr (fa_PaymentReceiptID i)); ("Organization", JStr (fa_OrganizationID i));
     ("Actor", JStr (fa_ActorID i)); ("Kind", JStr (fa_Kind i)); ("Key", JStr (fa_Key i));
     ("Command", JStr (fa_CommandFingerprint i));
     ("RequestVersion", JInt (fa_RequestVersion i));
     ("QuoteVersion", JInt (fa_QuoteVersion i))])).

Definition ServiceFulfillmentAdmission_Identity (i : ServiceFulfillmentAdmission) : string :=
  ("service-fulfillment:" +:+ ServiceFingerprint (Some (jstrings
     [fa_OrganizationID i; fa_Kind i; fa_Key i]))).

Definition json_ServiceFulfillmentAdmission (i : ServiceFulfillmentAdmission)
    : ServiceFulfillmentAdmission :=
  {| fa_Payment := json_ServicePaymentInput (fa_Payment i);
     fa_PaymentReceiptID := json_text (fa_PaymentReceiptID i);
     fa_OrganizationID := json_text (fa_OrganizationID i); fa_ActorID := json_text (fa_ActorID i);
     fa_Kind := json_text (fa_Kind i); fa_Key := json_text (fa_Key i);
     fa_CommandFingerprint := json_text (fa_CommandFingerprint i);
     fa_RequestVersion := fa_RequestVersion i; fa_QuoteVersion := fa_QuoteVersion i |}.

Record ServiceFulfillmentProof := {
  fpf_ReceiptID : string;
  fpf_InputFingerprint : string;
  fpf_PaymentReceiptID : string;
  fpf_OccurredAt : Time;
  fpf_ResultFingerprint : string }.

Definition ServiceFulfillmentProof_Fingerprint (p : ServiceFulfillmentProof) : string :=
  ServiceFingerprint (
    at_ ← json_time (fpf_OccurredAt p);
    Some (JObj [("ReceiptID", JStr (fpf_ReceiptID p));
      ("InputFingerprint", JStr (fpf_InputFingerprint p));
      ("PaymentReceiptID", JStr (fpf_PaymentReceiptID p)); ("OccurredAt", at_);
      ("ResultFingerprint", JStr "")])).

Definition ServiceFulfillmentProof_Matches (p : ServiceFulfillmentProof)
    (i : ServiceFulfillmentAdmission) : bool :=
  nil_error (ServiceFulfillmentAdmission_Validate i)
  && (fpf_ReceiptID p =s ServiceFulfillmentAdmission_Identity i)
  && (fpf_InputFingerprint p =s ServiceFulfillmentAdmission_Fingerprint i)
  && (fpf_PaymentReceiptID p =s fa_PaymentReceiptID i)
  && negb (IsZero (fpf_OccurredAt p))
  && (fpf_ResultFingerprint p =s ServiceFulfillmentProof_Fingerprint p).

(** * Lemmas *)

(** ** Allocation *)

(** The commission of [net], rounded down, in exact integers. *)
Definition share (net bps : Z) : Z := net * bps / 10000.

Definition alloc_ok (gross refunded : Z) (policy : ServiceAllocationPolicy) : Prop :=
  ServiceAllocationPolicy_Validate policy = None ∧ 0 ≤ gross ∧
  (gross = 0 → ap_Basis policy = ServiceAllocationChannelNetFloorV2) ∧
  0 ≤ refunded ≤ gross.

Lemma policy_bps p : ServiceAllocationPolicy_Validate p = None →
  0 ≤ ap_CommissionBPS p ≤ 10000.
Proof. unfold ServiceAllocationPolicy_Validate. intros. reflect_bools. lia. Qed.

Lemma share_bounds net bps : 0 ≤ net → 0 ≤ bps ≤ 10000 → 0 ≤ share net bps ≤ net.
Proof.
  unfold share. intros. split; [apply Z.div_pos; nia|].
  apply Z.div_le_upper_bound; nia.
Qed.

Lemma share_mono n m bps : n ≤ m → 0 ≤ bps → share n bps ≤ share m bps.
Proof. unfold share. intros. apply Z.div_le_mono; nia. Qed.

(** Quotient and remainder parts, multiplied apart, give the floor. *)
Lemma share_split net bps : 0 ≤ net →
  net / 10000 * bps + (net mod 10000) * bps / 10000 = share net bps.
Proof.
  intros. unfold share. rewrite (Z.div_mod net 10000) at 3 by lia.
  replace ((10000 * (net / 10000) + net mod 10000) * bps)
    with (net / 10000 * bps * 10000 + net mod 10000 * bps) by ring.
  rewrite Z.div_add_l by lia. done.
Qed.

Lemma allocation_parts_fit net bps : 0 ≤ net ≤ max_int64 → 0 ≤ bps ≤ 10000 →
  0 ≤ net / 10000 * bps ≤ net ∧ 0 ≤ net mod 10000 * bps < 100000000 ∧
  0 ≤ net mod 10000 < 10000.
Proof.
  intros Hn Hb. pose proof (Z.mod_pos_bound net 10000).
  pose proof (Z.div_mod net 10000). assert (0 ≤ net / 10000) by (apply Z.div_pos; lia).
  nia.
Qed.

Lemma nil_error_None e : nil_error e = true ↔ e = None.
Proof. by destruct e. Qed.
Lemma nil_error_false e : nil_error e = false ↔ e ≠ None.
Proof. by destruct e. Qed.
#[export] Hint Rewrite nil_error_None nil_error_false : go_bool.

Lemma ServiceAllocation_Ok gross refunded policy : in_int64 gross →
  alloc_ok gross refunded policy →
  ServiceAllocation gross refunded policy =
    Ok (share (gross - refunded) (ap_CommissionBPS policy),
        gross - refunded - share (gross - refunded) (ap_CommissionBPS policy)).
Proof.
  intros Hg (Hp & H0 & Hz & Hr). pose proof (policy_bps _ Hp) as Hb.
  unfold ServiceAllocation. rewrite Hp. case_match eqn:Hc.
  { exfalso. simpl in Hc. reflect_bools. intuition lia. }
  destruct (allocation_parts_fit (gross - refunded) (ap_CommissionBPS policy))
    as (?&?&?); [i64_bounds|done|].
  pose proof (share_bounds (gross - refunded) (ap_CommissionBPS policy)) as Hs.
  assert (0 ≤ (gross - refunded) / 10000 ≤ gross - refunded) as Hq.
  { split; [apply Z.div_pos; lia|]. apply Z.div_le_upper_bound; lia. }
  rewrite (wrap64_id (gross - refunded)) by i64_bounds.
  rewrite Z.quot_div_nonneg, Z.rem_mod_nonneg by lia.
  rewrite (wrap64_id (_ / _)), (wrap64_id (_ mod _)) by i64_bounds.
  rewrite (wrap64_id (_ / _ * _)), (wrap64_id (_ mod _ * _)) by i64_bounds.
  rewrite Z.quot_div_nonneg by lia.
  pose proof (share_split (gross - refunded) (ap_CommissionBPS policy)) as Hsp.
  assert (0 ≤ (gross - refunded) mod 10000 * ap_CommissionBPS policy / 10000 ≤ 100000000).
  { split; [apply Z.div_pos; lia|]. apply Z.div_le_upper_bound; lia. }
  rewrite (wrap64_id (_ mod _ * _ / _)) by i64_bounds.
  rewrite Hsp by lia. i64_norm. done.
Qed.

Lemma ServiceAllocation_inv gross refunded policy x : in_int64 gross →
  ServiceAllocation gross refunded policy = Ok x → alloc_ok gross refunded policy.
Proof.
  intros Hg H. unfold ServiceAllocation in H. case_match eqn:Hc; [done|].
  reflect_bools. destruct_and!. repeat split; try done.
  intros ->. by destruct_or!.
Qed.
