(* ===== verification/ServiceValues.v ===== *)
(** * What service amounts, allocations and refund plans compute

    The value types of service_channel_amounts.go, service_payment.go and
    service_refund_plan.go against exact arithmetic: which payment and refund
    amounts are accepted and what they settle, how a payment is split between
    platform and provider, and that a refund plan returns exactly what the
    platform no longer earns. *)
From S2P Require Import Prelude GoStd Encoding MoneyTypes ProviderTopUp ServiceMoney.

(** ** Specifications *)

Definition is_funding (s : string) : Prop := s = "CASH"%string ∨ s = "NOCASH"%string.

(** Payer money and vouchers make up the total. *)
Record payment_amounts_ok (a : ServicePaymentAmounts) (total : Z) : Prop := {
  po_total : 0 < total;
  po_payer : 0 ≤ pa_PayerMinor a;
  po_few : (length (pa_Vouchers a) ≤ 100)%nat;
  po_ids : NoDup (sv_ID <$> pa_Vouchers a);
  po_vouchers : ∀ v, v ∈ pa_Vouchers a →
    isCanonicalWalletIdentifier (sv_ID v) = true ∧ is_funding (sv_FundingType v) ∧
    0 < sv_AmountMinor v;
  po_sum : pa_PayerMinor a + lsum sv_AmountMinor (pa_Vouchers a) = total }.

(** A refunded voucher is one of the payment, and returns no more than it paid. *)
Definition voucher_refund_ok (payment : ServicePaymentAmounts) (v : ServiceVoucherRefund) : Prop :=
  (vr_RefundType v = "COUPON"%string ∨ vr_RefundType v = "DISCOUNT"%string) ∧
  0 ≤ vr_RefundMinor v ≤ vr_OriginalAmountMinor v ∧
  ∃ o, o ∈ pa_Vouchers payment ∧ sv_ID o = vr_ID v ∧
    sv_FundingType o = vr_FundingType v ∧ sv_AmountMinor o = vr_OriginalAmountMinor v.

Record refund_amounts_ok (a : ServiceRefundAmounts) (payment : ServicePaymentAmounts)
    (nominal : Z) : Prop := {
  ro_nominal : 0 < nominal;
  ro_payer : 0 ≤ ra_PayerMinor a ≤ pa_PayerMinor payment;
  ro_few : (length (ra_Vouchers a) ≤ 100)%nat;
  ro_ids : NoDup (vr_ID <$> ra_Vouchers a);
  ro_vouchers : ∀ v, v ∈ ra_Vouchers a → voucher_refund_ok payment v;
  ro_sum : ra_PayerMinor a + ra_DiscountMinor a = nominal;
  ro_discount : lsum vr_RefundMinor (ra_Vouchers a) = ra_DiscountMinor a }.

(** The settled part: payer money and cash vouchers. *)
Definition cash_part (v : ServiceVoucher) : Z :=
  if sv_FundingType v =s "CASH" then sv_AmountMinor v else 0.
Definition no_cash_part (v : ServiceVoucher) : Z :=
  if sv_FundingType v =s "NOCASH" then sv_AmountMinor v else 0.
Definition refund_cash_part (v : ServiceVoucherRefund) : Z :=
  if vr_FundingType v =s "CASH" then vr_RefundMinor v else 0.
Definition refund_no_cash_part (v : ServiceVoucherRefund) : Z :=
  if vr_FundingType v =s "NOCASH" then vr_RefundMinor v else 0.

(** * Lemmas *)

(** ** Sums over matched lists *)

Section matched_sums.
Context {A B : Type} (ka : A → string) (kb : B → string) (f : A → Z) (g : B → Z).

(** When distinct elements of [l] are matched by key in [l'], with no more on
    the left, the sum is no more either. *)
Lemma lsum_matched l l' : NoDup (ka <$> l) → (∀ y, y ∈ l' → 0 ≤ g y) →
  (∀ x, x ∈ l → ∃ y, y ∈ l' ∧ kb y = ka x ∧ f x ≤ g y) → lsum f l ≤ lsum g l'.
Proof.
  revert l'. induction l as [|x l IH]; intros l' Hd Hg Hm; [by apply lsum_nonneg|].
  apply NoDup_cons in Hd as [Hx Hd]. destruct (Hm x ltac:(left)) as (y & Hy & Hk & Hf).
  apply list_elem_of_split in Hy as (l1 & l2 & ->).
  assert (lsum f l ≤ lsum g (l1 ++ l2)) as Hl.
  { apply IH; [done| |].
    - intros z Hz. apply Hg. rewrite elem_of_app, elem_of_cons in *. naive_solver.
    - intros z Hz. destruct (Hm z ltac:(by right)) as (y' & Hy' & Hk' & Hf').
      exists y'. split; [|done]. rewrite elem_of_app, elem_of_cons in *.
      destruct Hy' as [?|[->|?]]; [by left| |by right].
      exfalso. apply Hx. rewrite <- Hk, Hk'. by apply list_elem_of_fmap_2. }
  rewrite lsum_cons, lsum_app, lsum_cons in *. lia.
Qed.
End matched_sums.

Lemma lsum_plus {A} (f g : A → Z) l : lsum (λ x, f x + g x) l = lsum f l + lsum g l.
Proof. induction l as [|x l IH]; [done|]. rewrite !lsum_cons, IH. lia. Qed.

Lemma lsum_ext_in {A} (f g : A → Z) l : (∀ x, x ∈ l → f x = g x) → lsum f l = lsum g l.
Proof.
  intros Hx. induction l as [|x l IH]; [done|]. rewrite !lsum_cons, (Hx x) by left.
  rewrite IH; [done|]. intros y Hy. apply Hx. by right.
Qed.

(** ** Payment amounts *)

Lemma payment_loop_iff vs seen r : 0 ≤ r ≤ max_int64 →
  payment_vouchers_loop vs seen r = Some 0 ↔
  NoDup (sv_ID <$> vs) ∧ (∀ v, v ∈ vs → sv_ID v ∉ seen ∧
    isCanonicalWalletIdentifier (sv_ID v) = true ∧ is_funding (sv_FundingType v) ∧
    0 < sv_AmountMinor v) ∧ lsum sv_AmountMinor vs = r.
Proof.
  revert seen r. induction vs as [|v vs IH]; intros seen r Hr; simpl.
  { split; [intros [= ->]|intros (_&_&<-)]; [|done].
    split; [constructor|]. split; [|done]. intros v Hv. by apply elem_of_nil in Hv. }
  case_match eqn:Hc.
  - split; [done|]. intros (Hd & Hv & Hsum). exfalso.
    destruct (Hv v ltac:(left)) as (Hs & Hcan & Hf & Hn).
    assert (0 ≤ lsum sv_AmountMinor vs) by
      (apply lsum_nonneg; intros x Hx; destruct (Hv x ltac:(by right)); lia).
    reflect_bools. destruct Hf; destruct_or!; destruct_and?; try congruence; try lia.
  - reflect_bools. destruct_and!. i64_norm. rewrite IH by i64_bounds.
    rewrite NoDup_cons. split.
    + intros (Hd & Hv & Hsum). split; [split; [|done]|].
      { intros (x & Hk & Hx)%list_elem_of_fmap. destruct (Hv x Hx) as [Hs _].
        apply Hs. rewrite <- Hk. set_solver. }
      split; [|lia]. intros x [->|Hx]%elem_of_cons.
      * repeat split; [done|done| |lia]. unfold is_funding.
        match goal with H : _ ∨ _ |- _ => destruct H; [left|right]; done end.
      * destruct (Hv x Hx) as (Hs & ?). split; [set_solver|done].
    + intros ([Hn Hd] & Hv & Hsum). split; [done|]. split; [|lia].
      intros x Hx. destruct (Hv x ltac:(by right)) as (Hs & ?). split; [|done].
      rewrite not_elem_of_union, not_elem_of_singleton. split; [|done].
      intros Hk. apply Hn. rewrite <- Hk. by apply list_elem_of_fmap_2.
Qed.

Lemma payment_amounts_iff a total : in_int64 total →
  ServicePaymentAmounts_Validate a total = None ↔ payment_amounts_ok a total.
Proof.
  intros Ht. unfold ServicePaymentAmounts_Validate.
  assert (∀ o : option Z, match o with Some 0 => None | _ => Some ErrInvalid end = None ↔ o = Some 0)
    as Ho by (intros [[]|]; naive_solver).
  case_match eqn:Hc.
  - split; [done|]. intros [H1 H2 H3 _ Hv Hs]. exfalso.
    assert (0 ≤ lsum sv_AmountMinor (pa_Vouchers a)) by
      (apply lsum_nonneg; intros x Hx; destruct (Hv x Hx) as (_&_&?); lia).
    reflect_bools. lia.
  - reflect_bools. destruct_and!. i64_norm. rewrite Ho, payment_loop_iff by i64_bounds. split.
    + intros (Hd & Hv & Hs). split; [lia|lia|lia|done| |lia].
      intros v Hin. by destruct (Hv v Hin).
    + intros [_ _ _ Hd Hv Hs]. split; [done|]. split; [|lia]. intros v Hin.
      split; [set_solver|]. by apply Hv.
Qed.

Lemma settlement_fold vs n : (∀ v, v ∈ vs → 0 ≤ sv_AmountMinor v) → 0 ≤ n →
  n + lsum sv_AmountMinor vs ≤ max_int64 →
  fold_left (λ n v, if sv_FundingType v =s "CASH" then n +! sv_AmountMinor v else n) vs n =
    n + lsum cash_part vs.
Proof.
  revert n. induction vs as [|v vs IH]; intros n Hv Hn Hs; simpl; [lia|].
  rewrite lsum_cons in Hs. pose proof (Hv v ltac:(left)).
  assert (∀ v, v ∈ vs → 0 ≤ sv_AmountMinor v) as Hv' by (intros; apply Hv; by right).
  pose proof (lsum_nonneg _ _ Hv'). unfold cash_part at 1.
  destruct (_ =s _); [|rewrite IH by (done || lia); lia]. i64_norm.
  rewrite IH by (done || lia). lia.
Qed.

(** What a valid payment settles: payer money and cash vouchers, all but the
    vouchers that carry no cash. *)
Lemma payment_settlement a total : in_int64 total → payment_amounts_ok a total →
  ServicePaymentAmounts_SettlementMinor a = pa_PayerMinor a + lsum cash_part (pa_Vouchers a) ∧
  ServicePaymentAmounts_SettlementMinor a = total - lsum no_cash_part (pa_Vouchers a) ∧
  0 ≤ ServicePaymentAmounts_SettlementMinor a ≤ total.
Proof.
  intros Ht [H1 H2 H3 _ Hv Hs]. unfold ServicePaymentAmounts_SettlementMinor.
  rewrite settlement_fold; [|intros v Hin; destruct (Hv v Hin) as (_&_&?); lia|done|i64_bounds].
  assert (lsum cash_part (pa_Vouchers a) + lsum no_cash_part (pa_Vouchers a) =
    lsum sv_AmountMinor (pa_Vouchers a)) as Hsplit.
  { rewrite <- lsum_plus. apply lsum_ext_in. intros v Hin. destruct (Hv v Hin) as (_&Hf&_).
    unfold cash_part, no_cash_part. destruct Hf as [->| ->]; simpl; lia. }
  assert (0 ≤ lsum cash_part (pa_Vouchers a) ∧ 0 ≤ lsum no_cash_part (pa_Vouchers a)) as [? ?].
  { split; apply lsum_nonneg; intros v Hin; destruct (Hv v Hin) as (_&_&?);
      unfold cash_part, no_cash_part; case_match; lia. }
  lia.
Qed.

(** ** Refund amounts *)

Lemma voucher_map_fold vs (m : gmap string ServiceVoucher) k o : NoDup (sv_ID <$> vs) →
  (∀ v, v ∈ vs → m !! sv_ID v = None) →
  fold_left (λ m v, <[sv_ID v := v]> m) vs m !! k = Some o ↔
    m !! k = Some o ∨ (o ∈ vs ∧ sv_ID o = k).
Proof.
  revert m. induction vs as [|v vs IH]; intros m Hd Hm; simpl.
  { rewrite elem_of_nil. naive_solver. }
  apply NoDup_cons in Hd as [Hn Hd]. rewrite IH; [|done|].
  - rewrite lookup_insert_Some, elem_of_cons. split.
    + intros [[[<- <-]|[_ ?]]|[? ?]]; auto.
    + intros [Hk|[[->|Hin] <-]]; [|by left; left|by right].
      left. right. split; [|done]. intros <-. rewrite Hm in Hk by left. done.
  - intros x Hx. rewrite lookup_insert_None. split; [apply Hm; by right|].
    intros Hk. apply Hn. rewrite Hk. by apply list_elem_of_fmap_2.
Qed.

Lemma voucher_map_lookup vs k o : NoDup (sv_ID <$> vs) →
  voucher_map vs !! k = Some o ↔ o ∈ vs ∧ sv_ID o = k.
Proof.
  intros Hd. unfold voucher_map. rewrite voucher_map_fold; [|done|intros; apply lookup_empty].
  rewrite lookup_empty. naive_solver.
Qed.

Lemma refund_loop_iff payment vs seen r : NoDup (sv_ID <$> pa_Vouchers payment) →
  0 ≤ r ≤ max_int64 →
  refund_vouchers_loop (voucher_map (pa_Vouchers payment)) vs seen r = Some 0 ↔
  NoDup (vr_ID <$> vs) ∧ (∀ v, v ∈ vs → vr_ID v ∉ seen ∧ voucher_refund_ok payment v) ∧
  lsum vr_RefundMinor vs = r.
Proof.
  intros Hp. revert seen r. induction vs as [|v vs IH]; intros seen r Hr; simpl.
  { split; [intros [= ->]|intros (_&_&<-)]; [|done].
    split; [constructor|]. split; [|done]. intros v Hv. by apply elem_of_nil in Hv. }
  destruct (voucher_map _ !! vr_ID v) as [o|] eqn:Ho.
  2: { split; [done|]. intros (_ & Hv & _). exfalso.
       destruct (Hv v ltac:(left)) as (_&_&_&o&Hin&Hk&_).
       assert (voucher_map (pa_Vouchers payment) !! vr_ID v = Some o) as Hx
         by (by apply voucher_map_lookup). congruence. }
  apply voucher_map_lookup in Ho as [Hin Hk]; [|done].
  case_match eqn:Hc.
  - split; [done|]. intros (Hd & Hv & Hsum). exfalso.
    destruct (Hv v ltac:(left)) as (Hs & Ht & Hn & o' & Hin' & Hk' & Hf' & Ha').
    assert (o' = o) as ->.
    { assert (voucher_map (pa_Vouchers payment) !! vr_ID v = Some o) by (by apply voucher_map_lookup).
      assert (voucher_map (pa_Vouchers payment) !! vr_ID v = Some o') by (by apply voucher_map_lookup).
      congruence. }
    assert (0 ≤ lsum vr_RefundMinor vs) by
      (apply lsum_nonneg; intros x Hx; destruct (Hv x ltac:(by right)) as (_&_&?&_); lia).
    reflect_bools. destruct_or!; destruct_and?; destruct_or?; try congruence; try lia.
  - reflect_bools. destruct_and!. i64_norm. rewrite IH by i64_bounds.
    rewrite NoDup_cons. split.
    + intros (Hd & Hv & Hsum). split; [split; [|done]|].
      { intros (x & Hkx & Hx)%list_elem_of_fmap. destruct (Hv x Hx) as [Hs _].
        apply Hs. rewrite <- Hkx. set_solver. }
      split; [|lia]. intros x [->|Hx]%elem_of_cons.
      * split; [done|]. split; [tauto|]. split; [lia|]. exists o. repeat split; [done|done|congruence|lia].
      * destruct (Hv x Hx) as (Hs & ?). split; [set_solver|done].
    + intros ([Hn Hd] & Hv & Hsum). split; [done|]. split; [|lia].
      intros x Hx. destruct (Hv x ltac:(by right)) as (Hs & ?). split; [|done].
      rewrite not_elem_of_union, not_elem_of_singleton. split; [|done].
      intros He. apply Hn. rewrite <- He. by apply list_elem_of_fmap_2.
Qed.

Lemma refund_amounts_iff a payment nominal : in_int64 nominal →
  NoDup (sv_ID <$> pa_Vouchers payment) →
  ServiceRefundAmounts_Validate a payment nominal = None ↔ refund_amounts_ok a payment nominal.
Proof.
  intros Ht Hp. unfold ServiceRefundAmounts_Validate.
  assert (∀ o : option Z, match o with Some 0 => None | _ => Some ErrInvalid end = None ↔ o = Some 0)
    as Ho by (intros [[]|]; naive_solver).
  case_match eqn:Hc.
  - split; [done|]. intros [H1 H2 H3 _ Hv Hs Hd]. exfalso.
    assert (0 ≤ lsum vr_RefundMinor (ra_Vouchers a)) by
      (apply lsum_nonneg; intros x Hx; destruct (Hv x Hx) as (_&?&_); lia).
    reflect_bools. i64_norm. lia.
  - reflect_bools. destruct_and!. i64_norm. rewrite Ho, refund_loop_iff by (done || i64_bounds).
    split.
    + intros (Hd & Hv & Hs). split; [lia|lia|lia|done| |lia|done].
      intros v Hin. by destruct (Hv v Hin).
    + intros [_ _ _ Hd Hv _ Hs]. split; [done|]. split; [|lia]. intros v Hin.
      split; [set_solver|]. by apply Hv.
Qed.

Lemma refund_settlement_fold vs n : (∀ v, v ∈ vs → 0 ≤ vr_RefundMinor v) → 0 ≤ n →
  n + lsum vr_RefundMinor vs ≤ max_int64 →
  fold_left (λ n v, if vr_FundingType v =s "CASH" then n +! vr_RefundMinor v else n) vs n =
    n + lsum refund_cash_part vs.
Proof.
  revert n. induction vs as [|v vs IH]; intros n Hv Hn Hs; simpl; [lia|].
  rewrite lsum_cons in Hs. pose proof (Hv v ltac:(left)).
  assert (∀ v, v ∈ vs → 0 ≤ vr_RefundMinor v) as Hv' by (intros; apply Hv; by right).
  pose proof (lsum_nonneg _ _ Hv'). unfold refund_cash_part at 1.
  destruct (_ =s _); [|rewrite IH by (done || lia); lia]. i64_norm.
  rewrite IH by (done || lia). lia.
Qed.

(** What a valid refund of a valid payment settles. *)
Lemma refund_settlement a payment total nominal : in_int64 total → in_int64 nominal →
  payment_amounts_ok payment total → refund_amounts_ok a payment nominal →
  ServiceRefundAmounts_SettlementMinor a =
    ra_PayerMinor a + lsum refund_cash_part (ra_Vouchers a) ∧
  ServiceRefundAmounts_SettlementMinor a =
    nominal - lsum refund_no_cash_part (ra_Vouchers a) ∧
  0 ≤ ServiceRefundAmounts_SettlementMinor a ≤ ServicePaymentAmounts_SettlementMinor payment.
Proof.
  intros Ht Htn Hp [H1 H2 H3 Hd Hv Hs Hdi]. pose proof (payment_settlement _ _ Ht Hp) as (Hset&_&_).
  destruct Hp as [P1 P2 P3 P4 P5 P6].
  unfold ServiceRefundAmounts_SettlementMinor.
  rewrite refund_settlement_fold; [|intros v Hin; destruct (Hv v Hin) as (_&?&_); lia|lia|i64_bounds].
  assert (lsum refund_cash_part (ra_Vouchers a) + lsum refund_no_cash_part (ra_Vouchers a) =
    lsum vr_RefundMinor (ra_Vouchers a)) as Hsplit.
  { rewrite <- lsum_plus. apply lsum_ext_in. intros v Hin.
    destruct (Hv v Hin) as (_&_&o&Ho&_&Hf&_). destruct (P5 o Ho) as (_&Hfo&_).
    unfold refund_cash_part, refund_no_cash_part. rewrite <- Hf.
    destruct Hfo as [->| ->]; simpl; lia. }
  assert (0 ≤ lsum refund_cash_part (ra_Vouchers a) ∧
    0 ≤ lsum refund_no_cash_part (ra_Vouchers a)) as [? ?].
  { split; apply lsum_nonneg; intros v Hin; destruct (Hv v Hin) as (_&?&_);
      unfold refund_cash_part, refund_no_cash_part; case_match; lia. }
  assert (lsum refund_cash_part (ra_Vouchers a) ≤ lsum cash_part (pa_Vouchers payment)).
  { apply (lsum_matched vr_ID sv_ID); [done| |].
    - intros v Hin. destruct (P5 v Hin) as (_&_&?). unfold cash_part. case_match; lia.
    - intros v Hin. destruct (Hv v Hin) as (_&Hn&o&Ho&Hk&Hf&Ha). exists o. do 2 (split; [done|]).
      unfold refund_cash_part, cash_part. rewrite Hf. case_match; lia. }
  rewrite Hset. lia.
Qed.

(** ** The refund plan *)

Definition no_cash_left (used : gmap string Z) (v : ServiceVoucher) : Z :=
  if sv_FundingType v =s "NOCASH" then sv_AmountMinor v - default 0 (used !! sv_ID v) else 0.

Lemma remaining_no_cash_Ok used vs acc n : (∀ v, v ∈ vs → 0 ≤ sv_AmountMinor v) → 0 ≤ acc →
  acc + lsum sv_AmountMinor vs ≤ max_int64 → remaining_no_cash used vs acc = Ok n →
  n = acc + lsum (no_cash_left used) vs ∧
  ∀ v, v ∈ vs → 0 ≤ default 0 (used !! sv_ID v) ≤ sv_AmountMinor v.
Proof.
  revert acc. induction vs as [|v vs IH]; intros acc Hv Ha Hs; simpl.
  { intros [= <-]. split; [lia|]. intros v Hin. by apply elem_of_nil in Hin. }
  rewrite lsum_cons in Hs. pose proof (Hv v ltac:(left)) as Hn.
  assert (∀ v, v ∈ vs → 0 ≤ sv_AmountMinor v) as Hv' by (intros; apply Hv; by right).
  pose proof (lsum_nonneg _ _ Hv'). case_match eqn:Hc; [done|]. reflect_bools. destruct Hc.
  set (u := default 0 (used !! sv_ID v)) in *. i64_norm.
  intros Hr. apply IH in Hr as [-> Hu]; [|done|case_match; lia|case_match; lia].
  split.
  - unfold no_cash_left at 2. fold u. case_match; lia.
  - intros x [->|Hx]%elem_of_cons; [fold u; lia|by apply Hu].
Qed.

(** The integers of a funds view, and the order its totals keep. *)
Record funds_in_range (f : ServiceFundsView) : Prop := {
  fr_gross : in_int64 (fv_GrossMinor f);
  fr_settled : 0 ≤ fv_SettlementRefundedMinor f ≤ fv_SettlementMinor f;
  fr_settlement : fv_SettlementMinor f ≤ max_int64;
  fr_returned : 0 ≤ fv_ReturnedMinor f ≤ fv_SharedMinor f;
  fr_shared : fv_SharedMinor f ≤ max_int64;
  fr_refunded : 0 ≤ fv_RefundedMinor f ≤ fv_GrossMinor f }.

(** The cash that a refund of [amount] returns at least. *)
Definition least_cash (f : ServiceFundsView) (amounts : ServicePaymentAmounts) (amount : Z) : Z :=
  Z.max 0 (amount - lsum (no_cash_left (fv_VoucherRefundedMinor f)) (pa_Vouchers amounts)).

Lemma NewServiceRefundPlan_Ok f command source pre refund post release sh amount p :
  funds_in_range f →
  NewServiceRefundPlan f command source pre refund post release sh amount = Ok p →
  ServiceRefundPlan_Validate p = None ∧ rp_Allocation p = fv_Allocation f ∧
  rp_NominalMinor p = amount ∧
  rp_BaseReturnedMinor p = fv_ReturnedMinor f ∧
  rp_BaseSettlementRefundedMinor p = fv_SettlementRefundedMinor f ∧
  rp_SettlementMinor p = fv_SettlementMinor f - fv_SettlementRefundedMinor f ∧
  rp_NetShareMinor p = fv_SharedMinor f - fv_ReturnedMinor f ∧
  0 < amount ≤ fv_GrossMinor f - fv_RefundedMinor f ∧
  fv_ReconciliationReason f = ""%string ∧
  ∃ amounts, fv_ChannelAmounts f = Some amounts ∧ payment_amounts_ok amounts (fv_GrossMinor f) ∧
    (∀ v, v ∈ pa_Vouchers amounts →
       0 ≤ default 0 (fv_VoucherRefundedMinor f !! sv_ID v) ≤ sv_AmountMinor v) ∧
    (if fv_SharedMinor f >? 0 then
       rp_OriginalShareID p = sh ∧ sh ≠ ""%string ∧
       rp_NetShareMinor p = fv_PlatformMinor f ∧
       least_cash f amounts amount ≤ rp_SettlementMinor p ∧
       rp_PreReturnMinor p = rp_NetShareMinor p -
         share (rp_SettlementMinor p - least_cash f amounts amount)
           (ap_CommissionBPS (fv_Allocation f))
     else rp_OriginalShareID p = ""%string ∧ rp_PreReturnMinor p = 0).
Proof.
  intros [F1 F2 F3 F4 F5 F6]. unfold NewServiceRefundPlan. cbv zeta.
  destruct (fv_ChannelAmounts f) as [amounts|]; [|done].
  case_match eqn:Hc; [done|]. reflect_bools. destruct_and!. i64_norm.
  match goal with H : ServicePaymentAmounts_Validate _ _ = None |- _ =>
    apply payment_amounts_iff in H as Hok; [|done] end.
  pose proof Hok as [P1 P2 P3 P4 P5 P6].
  assert (∀ v, v ∈ pa_Vouchers amounts → 0 ≤ sv_AmountMinor v) as Hvs
    by (intros v Hin; destruct (P5 v Hin) as (_&_&?); lia).
  destruct (remaining_no_cash _ _ 0) as [noCash|e] eqn:Hrem; simpl; [|done].
  apply remaining_no_cash_Ok in Hrem as [-> Hu]; [|done|done|i64_bounds].
  rewrite Z.add_0_l. set (nc := lsum (no_cash_left _) _) in *.
  assert (0 ≤ nc ≤ fv_GrossMinor f) as Hnc.
  { split.
    - apply lsum_nonneg. intros v Hin. unfold no_cash_left. specialize (Hu v Hin). case_match; lia.
    - transitivity (lsum sv_AmountMinor (pa_Vouchers amounts)); [|lia]. apply lsum_le.
      intros v Hin. unfold no_cash_left. specialize (Hu v Hin). specialize (Hvs v Hin).
      case_match; lia. }
  i64_norm.
  assert ((if amount - nc <? 0 then 0 else amount - nc) = Z.max 0 (amount - nc)) as Hlow
    by (case_match; reflect_bools; lia).
  unfold least_cash. fold nc. rewrite Hlow. set (lower := Z.max 0 (amount - nc)) in *.
  destruct (0 <? fv_SharedMinor f) eqn:Hsh.
  - destruct ((sh =s "") || _) eqn:Hg; [done|]. reflect_bools. destruct Hg as [Hne Hnet].
    destruct (ServiceAllocation _ _ _) as [[target rest]|e] eqn:Hal; simpl; [|done].
    apply ServiceAllocation_inv in Hal as Hal'; [|i64_bounds].
    rewrite ServiceAllocation_Ok in Hal by (done || i64_bounds). injection Hal as <- <-.
    destruct Hal' as (Hpol & _ & _ & Hlo). pose proof (policy_bps _ Hpol) as Hbps.
    pose proof (share_bounds (fv_SettlementMinor f - fv_SettlementRefundedMinor f - lower)
      (ap_CommissionBPS (fv_Allocation f))) as Hsb.
    i64_norm. destruct (ServiceRefundPlan_Validate _) eqn:Hval; [done|]. intros [= <-]. simpl.
    do 7 (split; [done|]). split; [lia|]. split; [done|]. exists amounts.
    do 3 (split; [done|]). do 3 (split; [done|]). split; [lia|done].
  - simpl. destruct (ServiceRefundPlan_Validate _) eqn:Hval; [done|]. intros [= <-]. simpl.
    do 7 (split; [done|]). split; [lia|]. split; [done|]. exists amounts. done.
Qed.

(** A refund the channel reports: valid against the payment, and within what
    the vouchers and the settlement have left. *)
Record refund_within (f : ServiceFundsView) (amount : Z) (actual : ServiceRefundAmounts) : Prop := {
  rw_amounts : ∀ amounts, fv_ChannelAmounts f = Some amounts →
    ServiceRefundAmounts_Validate actual amounts amount = None;
  rw_vouchers : ∀ v, v ∈ ra_Vouchers actual →
    default 0 (fv_VoucherRefundedMinor f !! vr_ID v) + vr_RefundMinor v ≤ vr_OriginalAmountMinor v;
  rw_settlement : ServiceRefundAmounts_SettlementMinor actual ≤
    fv_SettlementMinor f - fv_SettlementRefundedMinor f }.

(** Whatever vouchers it returns, a refund returns at least its least cash. *)
Lemma refund_least_cash f amounts amount actual : in_int64 (fv_GrossMinor f) → in_int64 amount →
  payment_amounts_ok amounts (fv_GrossMinor f) → fv_ChannelAmounts f = Some amounts →
  (∀ v, v ∈ pa_Vouchers amounts →
     0 ≤ default 0 (fv_VoucherRefundedMinor f !! sv_ID v) ≤ sv_AmountMinor v) →
  refund_within f amount actual →
  least_cash f amounts amount ≤ ServiceRefundAmounts_SettlementMinor actual.
Proof.
  intros Hg Ha Hp Hc Hu [Hv Hw _]. specialize (Hv _ Hc). pose proof Hp as [_ _ _ Hids Hvs _].
  apply refund_amounts_iff in Hv; [|done..].
  destruct (refund_settlement actual amounts (fv_GrossMinor f) amount) as (_&Hs&Hb&_); [done..|].
  unfold least_cash. rewrite Hs in *.
  enough (lsum refund_no_cash_part (ra_Vouchers actual) ≤
    lsum (no_cash_left (fv_VoucherRefundedMinor f)) (pa_Vouchers amounts)) by lia.
  destruct Hv as [_ _ _ Hrd Hrv _ _]. apply (lsum_matched vr_ID sv_ID); [done| |].
  - intros v Hin. unfold no_cash_left. specialize (Hu v Hin). case_match; lia.
  - intros v Hin. destruct (Hrv v Hin) as (_&Hn&o&Ho&Hk&Hf&Hao). exists o. do 2 (split; [done|]).
    specialize (Hw v Hin). specialize (Hu o Ho).
    unfold refund_no_cash_part, no_cash_left. rewrite Hf, Hk, Hao. rewrite Hk in Hu.
    case_match; lia.
Qed.

(** ** Voucher order *)

Definition set_vouchers (vs : list ServiceVoucher) (a : ServicePaymentAmounts) : ServicePaymentAmounts :=
  {| pa_PayerMinor := pa_PayerMinor a; pa_Vouchers := vs |}.

Definition set_channel_amounts (a : ServicePaymentAmounts) (i : ServicePaymentInput) : ServicePaymentInput :=
  {| sp_ChannelAmounts := Some a; sp_Allocation := sp_Allocation i; sp_OrderID := sp_OrderID i;
     sp_RequestID := sp_RequestID i; sp_BuyerOrganizationID := sp_BuyerOrganizationID i;
     sp_ProviderOrganizationID := sp_ProviderOrganizationID i;
     sp_PlatformMerchantID := sp_PlatformMerchantID i;
     sp_ProviderMerchantID := sp_ProviderMerchantID i;
     sp_PolicyVersion := sp_PolicyVersion i; sp_Binding := sp_Binding i;
     sp_Payment := sp_Payment i |}.

Lemma payment_amounts_permuted a vs total : vs ≡ₚ pa_Vouchers a →
  payment_amounts_ok a total → payment_amounts_ok (set_vouchers vs a) total.
Proof.
  intros Hp [H1 H2 H3 H4 H5 H6]. split; simpl; rewrite ?Hp; try done.
  intros v Hv. apply H5. by rewrite <- Hp.
Qed.

(** * Properties *)

(** C31. Allocation. A payment is split exactly when the policy is valid and the
    refunded part is within the gross amount; platform and provider then share
    all that is left, the platform's commission is the exact fraction rounded
    down, computed without overflow for every 64-bit amount, and neither share
    grows when more is refunded. Otherwise the error is [ErrInvalid]. *)
Theorem allocation_splits_exactly (gross refunded : Z) (policy : ServiceAllocationPolicy)
    (Hg : in_int64 gross) :
  (alloc_ok gross refunded policy ∧ ∃ platform provider,
     ServiceAllocation gross refunded policy = Ok (platform, provider) ∧
     platform + provider = gross - refunded ∧ 0 ≤ platform ∧ 0 ≤ provider ∧
     10000 * platform ≤ (gross - refunded) * ap_CommissionBPS policy < 10000 * (platform + 1) ∧
     ∀ more platform' provider', refunded ≤ more →
       ServiceAllocation gross more policy = Ok (platform', provider') →
       platform' ≤ platform ∧ provider' ≤ provider) ∨
  (¬ alloc_ok gross refunded policy ∧ ServiceAllocation gross refunded policy = Err ErrInvalid).
Proof.
  destruct (ServiceAllocation gross refunded policy) as [[platform provider]|e] eqn:Ha.
  - left. apply ServiceAllocation_inv in Ha as Hok; [|done]. split; [done|].
    rewrite ServiceAllocation_Ok in Ha by done. injection Ha as <- <-.
    destruct Hok as (Hp & H0 & _ & Hr). pose proof (policy_bps _ Hp) as Hb.
    pose proof (share_bounds (gross - refunded) (ap_CommissionBPS policy) ltac:(lia) Hb).
    do 2 eexists. split; [done|]. split; [lia|]. split; [lia|]. split; [lia|]. split.
    { unfold share. pose proof (Z.mul_div_le ((gross - refunded) * ap_CommissionBPS policy) 10000).
      pose proof (Z.mul_succ_div_gt ((gross - refunded) * ap_CommissionBPS policy) 10000). lia. }
    intros more p' v' Hm Ha. apply ServiceAllocation_inv in Ha as Hok; [|done].
    rewrite ServiceAllocation_Ok in Ha by done. injection Ha as <- <-.
    destruct Hok as (_ & _ & _ & Hr'). set (bps := ap_CommissionBPS policy) in *.
    pose proof (share_mono (gross - more) (gross - refunded) bps ltac:(lia) ltac:(lia)).
    split; [done|]. unfold share in *.
    assert ((gross - refunded) * bps / 10000 ≤
      (gross - more) * bps / 10000 + (more - refunded)); [|lia].
    rewrite <- Z.div_add by lia. apply Z.div_le_mono; nia.
  - right. split; [|unfold ServiceAllocation in Ha; by case_match; simplify_eq].
    intros Hok. by rewrite ServiceAllocation_Ok in Ha.
Qed.

(** Payment amounts. Validation accepts exactly payer money and vouchers
    that are distinct, canonical, positive and of a known funding type, at most
    a hundred of them, adding up to the total; such a payment settles the payer
    money and the cash vouchers, which is the total less the vouchers that carry
    no cash. *)
Theorem payment_amounts_add_up (a : ServicePaymentAmounts) (total : Z) (Ht : in_int64 total) :
  (ServicePaymentAmounts_Validate a total = None ↔ payment_amounts_ok a total) ∧
  (payment_amounts_ok a total →
     ServicePaymentAmounts_SettlementMinor a = pa_PayerMinor a + lsum cash_part (pa_Vouchers a) ∧
     ServicePaymentAmounts_SettlementMinor a = total - lsum no_cash_part (pa_Vouchers a) ∧
     0 ≤ ServicePaymentAmounts_SettlementMinor a ≤ total).
Proof. split; [by apply payment_amounts_iff|by apply payment_settlement]. Qed.

(** Refund amounts. Against a valid payment, validation accepts exactly the
    refunds whose payer part is within the payer money, whose discount is the
    rest of the nominal amount, and whose vouchers are distinct vouchers of the
    payment, none returning more than it paid and together returning the
    discount; such a refund settles at most what the payment settled. *)
Theorem refund_amounts_add_up (a : ServiceRefundAmounts) (payment : ServicePaymentAmounts)
    (total nominal : Z) (Ht : in_int64 total) (Hn : in_int64 nominal)
    (Hp : ServicePaymentAmounts_Validate payment total = None) :
  (ServiceRefundAmounts_Validate a payment nominal = None ↔ refund_amounts_ok a payment nominal) ∧
  (refund_amounts_ok a payment nominal →
     ServiceRefundAmounts_SettlementMinor a = nominal - lsum refund_no_cash_part (ra_Vouchers a) ∧
     0 ≤ ServiceRefundAmounts_SettlementMinor a ≤ ServicePaymentAmounts_SettlementMinor payment).
Proof.
  apply payment_amounts_iff in Hp; [|done]. split.
  - apply refund_amounts_iff; [done..|]. apply Hp.
  - intros Ha. by destruct (refund_settlement a payment total nominal Ht Hn Hp Ha) as (_&?&?).
Qed.

(** Voucher order. Two reports of one payment that list the same vouchers
    in another order are both accepted, and have the same fingerprint. *)
Theorem voucher_order_is_immaterial (i : ServicePaymentInput) (a : ServicePaymentAmounts)
    (vs : list ServiceVoucher) (Ht : in_int64 (ps_GrossAmountMinor (sp_Payment i)))
    (Ha : sp_ChannelAmounts i = Some a) (Hvs : vs ≡ₚ pa_Vouchers a)
    (Hv : ServicePaymentInput_Validate i = None) :
  let i' := set_channel_amounts (set_vouchers vs a) i in
  ServicePaymentInput_Validate i' = None ∧
  ServicePaymentInput_Fingerprint i' = ServicePaymentInput_Fingerprint i.
Proof.
  cbv zeta. assert (payment_amounts_ok a (ps_GrossAmountMinor (sp_Payment i))) as Hok.
  { unfold ServicePaymentInput_Validate in Hv. rewrite Ha in Hv. repeat (case_match; [done|]).
    repeat case_match; try done. reflect_bools. by apply payment_amounts_iff. }
  pose proof (payment_amounts_permuted _ _ _ Hvs Hok) as Hok'. split.
  - revert Hv. unfold ServicePaymentInput_Validate. rewrite Ha. simpl.
    apply payment_amounts_iff in Hok, Hok'; [|done..]. by rewrite Hok, Hok'.
  - unfold ServicePaymentInput_Fingerprint, normalized_channel_amounts. simpl. rewrite Ha. simpl.
    unfold ServicePaymentAmounts_Normalize. simpl.
    rewrite (sort_by_canonical sv_ID vs (pa_Vouchers a)); [done| |done].
    rewrite Hvs. apply Hok.
Qed.

(** C30. A refund plan lands on its target. Once a plan is made, for every
    refund of the planned amount the channel may report within what is left,
    the second return can be computed, neither return is negative, and after
    both the platform keeps exactly its share of what stays settled; when
    nothing was shared, nothing is returned. *)
Theorem refund_plan_lands_on_target (f : ServiceFundsView)
    (command source pre refund post release sh : string) (amount : Z) (p : ServiceRefundPlan)
    (actual : ServiceRefundAmounts) (Hf : funds_in_range f)
    (Hplan : NewServiceRefundPlan f command source pre refund post release sh amount = Ok p)
    (Hact : refund_within f amount actual) :
  ∃ due, ServiceRefundPlan_PostReturn p actual = Ok due ∧ 0 ≤ due ∧ 0 ≤ rp_PreReturnMinor p ∧
    rp_PreReturnMinor p + due ≤ rp_NetShareMinor p ∧
    if fv_SharedMinor f >? 0 then
      rp_NetShareMinor p - rp_PreReturnMinor p - due =
        share (rp_SettlementMinor p - ServiceRefundAmounts_SettlementMinor actual)
          (ap_CommissionBPS (fv_Allocation f))
    else rp_PreReturnMinor p = 0 ∧ due = 0.
Proof.
  apply NewServiceRefundPlan_Ok in Hplan as
    (Hv&Hal&_&_&_&Hset&Hnet&Ham&_&amounts&Hc&Hok&Hu&Hsh); [|done].
  pose proof Hf as [F1 F2 F3 F4 F5 F6].
  pose proof (refund_least_cash f amounts amount actual F1 ltac:(i64_bounds) Hok Hc Hu Hact) as Hlow.
  destruct Hact as [Hra _ Hrs]. unfold ServiceRefundPlan_PostReturn. rewrite Hv. cbn [nil_error negb].
  destruct (fv_SharedMinor f >? 0) eqn:Hgt.
  2: { destruct Hsh as [-> ->]. exists 0. reflect_bools. repeat split; lia. }
  destruct Hsh as (-> & Hne & _ & Hle & Hpre). apply String.eqb_neq in Hne. rewrite Hne.
  assert (ServiceAllocationPolicy_Validate (fv_Allocation f) = None) as Hpol.
  { rewrite <- Hal. unfold ServiceRefundPlan_Validate in Hv. do 2 (case_match; [done|]).
    case_match eqn:Hb; [done|]. reflect_bools. by destruct_and!. }
  assert (ap_Basis (fv_Allocation f) = ServiceAllocationChannelNetFloorV2) as Hbasis.
  { rewrite <- Hal. unfold ServiceRefundPlan_Validate in Hv. do 2 (case_match; [done|]).
    case_match eqn:Hb; [done|]. reflect_bools. by destruct_and!. }
  pose proof (policy_bps _ Hpol) as Hbps. rewrite Hal.
  assert (0 ≤ least_cash f amounts amount) by (unfold least_cash; lia).
  set (S := ServiceRefundAmounts_SettlementMinor actual) in *.
  set (bps := ap_CommissionBPS (fv_Allocation f)) in *. set (low := least_cash _ _ _) in *.
  rewrite <- Hset in Hrs. pose proof (share_bounds (rp_SettlementMinor p - S) bps ltac:(lia) Hbps).
  pose proof (share_bounds (rp_SettlementMinor p - low) bps ltac:(lia) Hbps).
  pose proof (share_mono (rp_SettlementMinor p - S) (rp_SettlementMinor p - low) bps
    ltac:(lia) ltac:(lia)).
  rewrite ServiceAllocation_Ok; [|i64_bounds|split; [done|]; repeat split; try lia; done].
  fold bps. unfold mbind, result_bind.
  assert (share (rp_SettlementMinor p - low) bps ≤ rp_NetShareMinor p) as Hcap.
  { assert (0 ≤ rp_PreReturnMinor p); [|lia].
    unfold ServiceRefundPlan_Validate in Hv. do 2 (case_match; [done|]).
    case_match eqn:Hb; [done|]. reflect_bools. destruct_and!. lia. }
  i64_norm. case_match eqn:Hdue; reflect_bools; [exfalso; lia|].
  eexists. split; [done|]. lia.
Qed.

(** ** Worked instances

    A purchase of 100.00: 70.00 from the payer, a cash voucher of 20.00 and one
    of 10.00 that carries no cash; 10% to the platform. A refund of 50.00
    returns the payer 40.00 and all of the no-cash voucher. *)
Definition sample_policy : ServiceAllocationPolicy :=
  {| ap_CommissionBPS := 1000; ap_Basis := ServiceAllocationChannelNetFloorV2 |}.

Definition cash_voucher : ServiceVoucher :=
  {| sv_ID := "cash-1"; sv_FundingType := "CASH"; sv_AmountMinor := 2000 |}.
Definition no_cash_voucher : ServiceVoucher :=
  {| sv_ID := "nocash-1"; sv_FundingType := "NOCASH"; sv_AmountMinor := 1000 |}.

Definition sample_amounts : ServicePaymentAmounts :=
  {| pa_PayerMinor := 7000; pa_Vouchers := [no_cash_voucher; cash_voucher] |}.

Definition sample_refund : ServiceRefundAmounts := {|
  ra_PayerMinor := 4000; ra_DiscountMinor := 1000;
  ra_Vouchers := [{| vr_ID := "nocash-1"; vr_RefundType := "COUPON"; vr_FundingType := "NOCASH";
                     vr_OriginalAmountMinor := 1000; vr_RefundMinor := 1000 |}] |}.

Definition sample_service_payment : ServicePaymentInput := {|
  sp_ChannelAmounts := Some sample_amounts; sp_Allocation := sample_policy;
  sp_OrderID := "order-9"; sp_RequestID := "request-9"; sp_BuyerOrganizationID := "org-1";
  sp_ProviderOrganizationID := "org-2"; sp_PlatformMerchantID := "platform-1";
  sp_ProviderMerchantID := "merchant-1"; sp_PolicyVersion := "v1";
  sp_Binding := {| pb_Provider := "WECHAT_PAY"; pb_Environment := "PRODUCTION";
    pb_MerchantID := "merchant-1"; pb_AppID := "app-1"; pb_TradeID := "trade-9" |};
  sp_Payment := {|
    ps_PaymentID := "pay-9"; ps_PaymentPurpose := PaymentPurposeServicePurchase;
    ps_CommissionTreatment := CommissionNonCommissionable;
    ps_PayerBinding := PayerOrganizationServiceBuyer; ps_PayerUserID := "";
    ps_Currency := WalletCurrencyCNY; ps_GrossAmountMinor := 10000;
    ps_DiscountAmountMinor := 0; ps_CommissionableAmountMinor := 0;
    ps_Status := PaymentSettled; ps_SettledAt := 63839664000000000000;
    ps_ProviderReference := "trade-9"; ps_Version := 1 |} |}.

Definition sample_funds : ServiceFundsView := {|
  fv_PendingRefundCommandID := ""; fv_ChannelAmounts := Some sample_amounts;
  fv_SettlementMinor := 9000; fv_SettlementRefundedMinor := 0; fv_PayerRefundedMinor := 0;
  fv_VoucherRefundedMinor := ∅; fv_Allocation := sample_policy; fv_ChannelFeeMinor := 0;
  fv_ChannelFeeObserved := false; fv_OrderID := "order-9"; fv_PaymentID := "pay-9";
  fv_BuyerOrganizationID := "org-1"; fv_ProviderOrganizationID := "org-2"; fv_Currency := "CNY";
  fv_GrossMinor := 10000; fv_RefundedMinor := 0; fv_ChargedBackMinor := 0; fv_PlatformMinor := 900;
  fv_ProviderMinor := 8100; fv_SharedMinor := 900; fv_ReturnedMinor := 0; fv_ReleasedMinor := 0;
  fv_AutomaticReleasedMinor := 0; fv_PendingOperationID := ""; fv_ReconciliationReason := "" |}.

Definition sample_plan : result ServiceRefundPlan :=
  NewServiceRefundPlan sample_funds "command-1" "source-1" "pre-1" "refund-1" "post-1" "release-1"
    "share-1" 5000.

(** 4.00 is returned beforehand, and no more once the refund cost 40.00. *)
Example sample_returns :
  (p ← sample_plan; due ← ServiceRefundPlan_PostReturn p sample_refund;
   Ok (rp_PreReturnMinor p, due)) = Ok (400, 0).
Proof. vm_compute. reflexivity. Qed.

Lemma allocation_splits_exactly_witness :
  ServiceAllocation 999 0 sample_policy = Ok (99, 900) ∧
  (alloc_ok 999 0 sample_policy ∨ ¬ alloc_ok 999 0 sample_policy).
Proof.
  split; [vm_compute; reflexivity|].
  destruct (allocation_splits_exactly 999 0 sample_policy ltac:(by vm_compute)) as [[Hok _]|[Hno _]];
    [left; exact Hok|right; exact Hno].
Defined.

Lemma payment_amounts_add_up_witness :
  payment_amounts_ok sample_amounts 10000 ∧
  ServicePaymentAmounts_SettlementMinor sample_amounts = 9000.
Proof.
  destruct (payment_amounts_add_up sample_amounts 10000 ltac:(by vm_compute)) as [Hv Hs].
  assert (payment_amounts_ok sample_amounts 10000) as Hok
    by (apply Hv; vm_compute; reflexivity).
  split; [exact Hok|]. destruct (Hs Hok) as (_ & -> & _). vm_compute. reflexivity.
Defined.

Lemma refund_amounts_add_up_witness :
  refund_amounts_ok sample_refund sample_amounts 5000 ∧
  ServiceRefundAmounts_SettlementMinor sample_refund = 4000.
Proof.
  destruct (refund_amounts_add_up sample_refund sample_amounts 10000 5000 ltac:(by vm_compute)
    ltac:(by vm_compute) ltac:(vm_compute; reflexivity)) as [Hv Hs].
  assert (refund_amounts_ok sample_refund sample_amounts 5000) as Hok
    by (apply Hv; vm_compute; reflexivity).
  split; [exact Hok|]. destruct (Hs Hok) as (-> & _). vm_compute. reflexivity.
Defined.

Lemma voucher_order_is_immaterial_witness :
  ServicePaymentInput_Fingerprint
    (set_channel_amounts (set_vouchers [cash_voucher; no_cash_voucher] sample_amounts)
       sample_service_payment) =
  ServicePaymentInput_Fingerprint sample_service_payment.
Proof.
  apply (voucher_order_is_immaterial sample_service_payment sample_amounts).
  - by vm_compute.
  - reflexivity.
  - apply perm_swap.
  - vm_compute. reflexivity.
Defined.

Lemma refund_plan_lands_on_target_witness :
  ∃ p due, sample_plan = Ok p ∧ ServiceRefundPlan_PostReturn p sample_refund = Ok due ∧
    rp_NetShareMinor p - rp_PreReturnMinor p - due =
      share (rp_SettlementMinor p - ServiceRefundAmounts_SettlementMinor sample_refund) 1000.
Proof.
  destruct sample_plan as [p|e] eqn:Hp; [|exfalso; by vm_compute in Hp].
  destruct (refund_plan_lands_on_target sample_funds "command-1" "source-1" "pre-1" "refund-1"
    "post-1" "release-1" "share-1" 5000 p sample_refund) as (due & Hd & _ & _ & _ & Ht).
  - split; by vm_compute.
  - exact Hp.
  - split; [by intros amounts [= <-]| |by vm_compute].
    intros v Hv. apply list_elem_of_singleton in Hv as ->. by vm_compute.
  - exists p, due. split; [reflexivity|]. split; [exact Hd|]. exact Ht.
Defined.
