(* ===== verification/MoneyStore.v ===== *)
(** * The tables of the money owner

    Models the row types of src/internal/integration/persistence/money/*.go
    with their primary keys and unique indexes, as a database for the statements
    of Store. A column that holds JSON is held decoded, [None] when it is empty. *)
From S2P Require Import Prelude GoStd Store MoneyTypes ProviderTopUp ServiceMoney.

(** ** Rows of wallet_repository.go *)

Record organizationWalletRow := {
  w_OrganizationID : string;
  w_Currency : string;
  w_AvailableMinor : Z;
  w_ReservedMinor : Z;
  w_DebtMinor : Z;
  w_LifetimeTopUpMinor : Z;
  w_LifetimeSpendMinor : Z;
  w_Version : Z;
  w_UpdatedAt : Time }.

Record organizationWalletEntryRow := {
  e_EntryID : string;
  e_OrganizationID : string;
  e_Currency : string;
  e_Kind : string;
  e_AvailableDelta : Z;
  e_ReservedDelta : Z;
  e_DebtDelta : Z;
  e_AvailableAfter : Z;
  e_ReservedAfter : Z;
  e_DebtAfter : Z;
  e_CommercialOrderID : string;
  e_PaymentID : string;
  e_SourceIdentity : string;
  e_OccurredAt : Time }.

Record walletReservationRow := {
  r_OrganizationID : string;
  r_ReservationID : string;
  r_OperationID : string;
  r_CommercialOrderID : string;
  r_FinishOperationID : option string;
  r_Currency : string;
  r_AmountMinor : Z;
  r_State : string;
  r_CreatedAt : Time;
  r_UpdatedAt : Time }.

Record walletReserveDecisionRow := {
  d_OrganizationID : string;
  d_OperationID : string;
  d_CommercialOrderID : string;
  d_Currency : string;
  d_AmountMinor : Z;
  d_Outcome : string;
  d_ReservationID : string;
  d_DecidedAt : Time }.

Record walletTopUpSettlementRow := {
  t_PaymentID : string;
  t_CommercialOrderID : string;
  t_OrganizationID : string;
  t_Currency : string;
  t_AmountMinor : Z;
  t_SettledAt : Time;
  t_ProviderReference : string;
  t_Version : Z }.

Record walletReversalRow := {
  v_ReversalID : string;
  v_PaymentID : string;
  v_CommercialOrderID : string;
  v_OrganizationID : string;
  v_Kind : string;
  v_AmountMinor : Z;
  v_ProviderReference : string;
  v_OccurredAt : Time }.

(** ** Rows of repository.go *)

Record paymentRow := {
  p_PaymentID : string;
  p_PaymentPurpose : string;
  p_CommissionTreatment : string;
  p_PayerBinding : string;
  p_PayerUserID : string;
  p_Currency : string;
  p_GrossAmountMinor : Z;
  p_DiscountAmountMinor : Z;
  p_CommissionableAmountMinor : Z;
  p_Status : string;
  p_SettledAt : Time;
  p_ProviderReference : string;
  p_Version : Z }.

Record refundRow := {
  f_RefundID : string;
  f_PaymentID : string;
  f_AmountMinor : Z;
  f_OccurredAt : Time;
  f_ProviderReference : string }.

Record chargebackRow := {
  c_ChargebackID : string;
  c_PaymentID : string;
  c_AmountMinor : Z;
  c_OccurredAt : Time;
  c_ProviderReference : string }.

Record payoutMethodRow := {
  m_MethodID : string;
  m_SubjectUserID : string;
  m_Type : string;
  m_DisplayName : string;
  m_MaskedDestination : string;
  m_SecureReference : list ascii;
  m_EncryptionKeyID : string;
  m_Status : string;
  m_CreatedAt : Time;
  m_UpdatedAt : Time;
  m_Version : Z }.

Record payoutMethodOperationRow := {
  o_IdempotencyKey : string;
  o_MethodID : string;
  o_Fingerprint : string;
  o_CreatedAt : Time }.

(** ** Rows of provider_topup_repository.go *)

Record providerTopUpRow := {
  pc_ClaimID : string;
  pc_PaymentID : string;
  pc_CommercialOrderID : string;
  pc_OrganizationID : string;
  pc_Fingerprint : string;
  pc_Receipt : option TopUpPostingReceipt }.

Record topUpReversalReceiptRow := {
  tr_ReceiptID : string;
  tr_PaymentID : string;
  tr_Kind : string;
  tr_ReversalID : string;
  tr_OrganizationID : string;
  tr_CommercialOrderID : string;
  tr_ProviderAmountMinor : Z;
  tr_WalletPrincipalEffectMinor : Z;
  tr_Fingerprint : string;
  tr_Receipt : TopUpReversalReceipt }.

Record topUpExcessRow := {
  x_ReceiptID : string;
  x_PaymentID : string;
  x_Kind : string;
  x_ReversalID : string;
  x_ProviderReference : string;
  x_ProviderAmountMinor : Z;
  x_WalletPrincipalEffectMinor : Z;
  x_ExcessProviderMinor : Z;
  x_State : string }.

Record topUpRefundHoldRow := {
  h_HoldID : string;
  h_PaymentID : string;
  h_ReversalID : string;
  h_OrganizationID : string;
  h_CommercialOrderID : string;
  h_AmountMinor : Z;
  h_ApprovalID : string;
  h_State : string;
  h_Dispatched : bool;
  h_CreatedAt : Time }.

(** The states of a refund hold. *)
Definition HoldReserved : string := "RESERVED".
Definition HoldConfirmed : string := "CONFIRMED".
Definition HoldReleased : string := "RELEASED".

(** ** Rows of service_repository.go, service_fulfillment.go and
    service_refund_review.go *)

Record channelPaymentClaimRow := {
  cc_ClaimID : string;
  cc_PaymentID : string;
  cc_Purpose : string }.

Record servicePaymentRow := {
  s_SettlementRefundedMinor : Z;
  s_PayerRefundedMinor : Z;
  s_VoucherRefunded : option (gmap string Z);
  s_PendingRefundPlan : option ServiceRefundPlan;
  s_ChannelFeeMinor : Z;
  s_ChannelFeeObserved : bool;
  s_OrderID : string;
  s_RequestID : string;
  s_ClaimID : string;
  s_PaymentID : string;
  s_BuyerOrganizationID : string;
  s_ProviderOrganizationID : string;
  s_Fingerprint : string;
  s_Input : ServicePaymentInput;
  s_Receipt : option ServiceReceipt;
  s_GrossMinor : Z;
  s_RefundedMinor : Z;
  s_ChargedBackMinor : Z;
  s_SharedMinor : Z;
  s_ReturnedMinor : Z;
  s_ReleasedMinor : Z;
  s_AutomaticReleasedMinor : Z;
  s_PendingOperationID : string;
  s_ReconciliationReason : string }.

Record serviceReservationRow := {
  sres_OperationID : string;
  sres_OrderID : string;
  sres_Kind : string;
  sres_Fingerprint : string;
  sres_Operation : ServiceOperation;
  sres_State : string;
  sres_Dispatched : bool;
  sres_DenialProofID : string;
  sres_Receipt : ServiceReceipt }.

(** What an effect row's receipt column may hold: a sealed receipt, the same
    with the channel fee it came from, or an unsplit observation. *)
Inductive effectPayload : Type :=
  | ReceiptPayload (r : ServiceReceipt)
  | FeePayload (r : ServiceReceipt) (fee : ServiceChannelFee)
  | UnsplitPayload (o : ServiceUnsplitObservation).

Record serviceEffectRow := {
  eff_OperationID : string;
  eff_OrderID : string;
  eff_Kind : string;
  eff_Fingerprint : string;
  eff_Receipt : effectPayload }.

Record serviceRefundReviewRow := {
  srr_ReceiptID : string;
  srr_OrderID : string;
  srr_Fingerprint : string;
  srr_Input : ServiceRefundReviewAdmission;
  srr_Proof : ServiceRefundReviewProof }.

Record serviceFulfillmentRow := {
  sff_ReceiptID : string;
  sff_OrderID : string;
  sff_Fingerprint : string;
  sff_Input : ServiceFulfillmentAdmission;
  sff_Proof : ServiceFulfillmentProof }.

(** ** The database *)

Record WalletTables := {
  tb_wallets : gmap (string * string) organizationWalletRow;
  tb_entries : gmap string organizationWalletEntryRow;
  tb_reservations : gmap string walletReservationRow;
  tb_decisions : gmap (string * string * string) walletReserveDecisionRow;
  tb_settlements : gmap string walletTopUpSettlementRow;
  tb_reversals : gmap string walletReversalRow }.

Record SettlementTables := {
  tb_payments : gmap string paymentRow;
  tb_refunds : gmap string refundRow;
  tb_chargebacks : gmap string chargebackRow;
  tb_methods : gmap string payoutMethodRow;
  tb_method_ops : gmap string payoutMethodOperationRow }.

Record TopUpTables := {
  tb_claims : gmap string providerTopUpRow;
  tb_receipts : gmap string topUpReversalReceiptRow;
  tb_excess : gmap string topUpExcessRow;
  tb_holds : gmap string topUpRefundHoldRow }.

Record ServiceTables := {
  tb_channel_claims : gmap string channelPaymentClaimRow;
  tb_service_payments : gmap string servicePaymentRow;
  tb_service_reservations : gmap string serviceReservationRow;
  tb_effects : gmap string serviceEffectRow;
  tb_reviews : gmap string serviceRefundReviewRow;
  tb_fulfillments : gmap string serviceFulfillmentRow }.

Record DB := {
  db_wallet : WalletTables;
  db_settlement : SettlementTables;
  db_topup : TopUpTables;
  db_service : ServiceTables }.

Definition empty_db : DB :=
  {| db_wallet := Build_WalletTables ∅ ∅ ∅ ∅ ∅ ∅;
     db_settlement := Build_SettlementTables ∅ ∅ ∅ ∅ ∅;
     db_topup := Build_TopUpTables ∅ ∅ ∅ ∅;
     db_service := Build_ServiceTables ∅ ∅ ∅ ∅ ∅ ∅ |}.

(** The tables, and how many UUIDs and clock readings were taken. *)
Notation World := (WorldOf DB).
Notation Table := (TableOf DB).

(** *** Where each table is *)

Definition on_wallet (f : WalletTables → WalletTables) (d : DB) : DB :=
  {| db_wallet := f (db_wallet d); db_settlement := db_settlement d;
     db_topup := db_topup d; db_service := db_service d |}.
Definition on_settlement (f : SettlementTables → SettlementTables) (d : DB) : DB :=
  {| db_wallet := db_wallet d; db_settlement := f (db_settlement d);
     db_topup := db_topup d; db_service := db_service d |}.
Definition on_topup (f : TopUpTables → TopUpTables) (d : DB) : DB :=
  {| db_wallet := db_wallet d; db_settlement := db_settlement d;
     db_topup := f (db_topup d); db_service := db_service d |}.
Definition on_service (f : ServiceTables → ServiceTables) (d : DB) : DB :=
  {| db_wallet := db_wallet d; db_settlement := db_settlement d;
     db_topup := db_topup d; db_service := f (db_service d) |}.

Definition wallets : Table (string * string) organizationWalletRow := {|
  rows d := tb_wallets (db_wallet d);
  put_rows m := on_wallet (λ x, Build_WalletTables m (tb_entries x) (tb_reservations x)
    (tb_decisions x) (tb_settlements x) (tb_reversals x));
  pk w := (w_OrganizationID w, w_Currency w); collides := no_collision |}.
Definition entries : Table string organizationWalletEntryRow := {|
  rows d := tb_entries (db_wallet d);
  put_rows m := on_wallet (λ x, Build_WalletTables (tb_wallets x) m (tb_reservations x)
    (tb_decisions x) (tb_settlements x) (tb_reversals x));
  pk := e_EntryID; collides := no_collision |}.
(** Unique: (operation, order), and the finish operation when there is one. *)
Definition reservations : Table string walletReservationRow := {|
  rows d := tb_reservations (db_wallet d);
  put_rows m := on_wallet (λ x, Build_WalletTables (tb_wallets x) (tb_entries x) m
    (tb_decisions x) (tb_settlements x) (tb_reversals x));
  pk := r_ReservationID;
  collides a b :=
    ((r_OperationID a =s r_OperationID b) && (r_CommercialOrderID a =s r_CommercialOrderID b))
    || match r_FinishOperationID a, r_FinishOperationID b with
       | Some x, Some y => x =s y
       | _, _ => false
       end |}.
Definition decisions : Table (string * string * string) walletReserveDecisionRow := {|
  rows d := tb_decisions (db_wallet d);
  put_rows m := on_wallet (λ x, Build_WalletTables (tb_wallets x) (tb_entries x)
    (tb_reservations x) m (tb_settlements x) (tb_reversals x));
  pk d := (d_OrganizationID d, d_OperationID d, d_CommercialOrderID d);
  collides := no_collision |}.
(** Unique: the commercial order. *)
Definition settlements : Table string walletTopUpSettlementRow := {|
  rows d := tb_settlements (db_wallet d);
  put_rows m := on_wallet (λ x, Build_WalletTables (tb_wallets x) (tb_entries x)
    (tb_reservations x) (tb_decisions x) m (tb_reversals x));
  pk := t_PaymentID; collides a b := t_CommercialOrderID a =s t_CommercialOrderID b |}.
Definition reversals : Table string walletReversalRow := {|
  rows d := tb_reversals (db_wallet d);
  put_rows m := on_wallet (λ x, Build_WalletTables (tb_wallets x) (tb_entries x)
    (tb_reservations x) (tb_decisions x) (tb_settlements x) m);
  pk := v_ReversalID; collides := no_collision |}.

Definition payments : Table string paymentRow := {|
  rows d := tb_payments (db_settlement d);
  put_rows m := on_settlement (λ x, Build_SettlementTables m (tb_refunds x)
    (tb_chargebacks x) (tb_methods x) (tb_method_ops x));
  pk := p_PaymentID; collides := no_collision |}.
Definition refunds : Table string refundRow := {|
  rows d := tb_refunds (db_settlement d);
  put_rows m := on_settlement (λ x, Build_SettlementTables (tb_payments x) m
    (tb_chargebacks x) (tb_methods x) (tb_method_ops x));
  pk := f_RefundID; collides := no_collision |}.
Definition chargebacks : Table string chargebackRow := {|
  rows d := tb_chargebacks (db_settlement d);
  put_rows m := on_settlement (λ x, Build_SettlementTables (tb_payments x) (tb_refunds x) m
    (tb_methods x) (tb_method_ops x));
  pk := c_ChargebackID; collides := no_collision |}.
Definition payout_methods : Table string payoutMethodRow := {|
  rows d := tb_methods (db_settlement d);
  put_rows m := on_settlement (λ x, Build_SettlementTables (tb_payments x) (tb_refunds x)
    (tb_chargebacks x) m (tb_method_ops x));
  pk := m_MethodID; collides := no_collision |}.
Definition payout_operations : Table string payoutMethodOperationRow := {|
  rows d := tb_method_ops (db_settlement d);
  put_rows m := on_settlement (λ x, Build_SettlementTables (tb_payments x) (tb_refunds x)
    (tb_chargebacks x) (tb_methods x) m);
  pk := o_IdempotencyKey; collides := no_collision |}.

(** Unique: the payment, and the commercial order. *)
Definition claims : Table string providerTopUpRow := {|
  rows d := tb_claims (db_topup d);
  put_rows m := on_topup (λ x, Build_TopUpTables m (tb_receipts x) (tb_excess x) (tb_holds x));
  pk := pc_ClaimID;
  collides a b := (pc_PaymentID a =s pc_PaymentID b)
                  || (pc_CommercialOrderID a =s pc_CommercialOrderID b) |}.
(** Unique: (kind, reversal). *)
Definition receipts : Table string topUpReversalReceiptRow := {|
  rows d := tb_receipts (db_topup d);
  put_rows m := on_topup (λ x, Build_TopUpTables (tb_claims x) m (tb_excess x) (tb_holds x));
  pk := tr_ReceiptID;
  collides a b := (tr_Kind a =s tr_Kind b) && (tr_ReversalID a =s tr_ReversalID b) |}.
Definition excesses : Table string topUpExcessRow := {|
  rows d := tb_excess (db_topup d);
  put_rows m := on_topup (λ x, Build_TopUpTables (tb_claims x) (tb_receipts x) m (tb_holds x));
  pk := x_ReceiptID; collides := no_collision |}.
(** Unique: the reversal. *)
Definition holds : Table string topUpRefundHoldRow := {|
  rows d := tb_holds (db_topup d);
  put_rows m := on_topup (λ x, Build_TopUpTables (tb_claims x) (tb_receipts x) (tb_excess x) m);
  pk := h_HoldID; collides a b := h_ReversalID a =s h_ReversalID b |}.

(** Unique: the payment. *)
Definition channel_claims : Table string channelPaymentClaimRow := {|
  rows d := tb_channel_claims (db_service d);
  put_rows m := on_service (λ x, Build_ServiceTables m (tb_service_payments x)
    (tb_service_reservations x) (tb_effects x) (tb_reviews x) (tb_fulfillments x));
  pk := cc_ClaimID; collides a b := cc_PaymentID a =s cc_PaymentID b |}.
(** Unique: the request, the claim, and the payment. *)
Definition service_payments : Table string servicePaymentRow := {|
  rows d := tb_service_payments (db_service d);
  put_rows m := on_service (λ x, Build_ServiceTables (tb_channel_claims x) m
    (tb_service_reservations x) (tb_effects x) (tb_reviews x) (tb_fulfillments x));
  pk := s_OrderID;
  collides a b := (s_RequestID a =s s_RequestID b) || (s_ClaimID a =s s_ClaimID b)
                  || (s_PaymentID a =s s_PaymentID b) |}.
Definition service_reservations : Table string serviceReservationRow := {|
  rows d := tb_service_reservations (db_service d);
  put_rows m := on_service (λ x, Build_ServiceTables (tb_channel_claims x)
    (tb_service_payments x) m (tb_effects x) (tb_reviews x) (tb_fulfillments x));
  pk := sres_OperationID; collides := no_collision |}.
Definition effects : Table string serviceEffectRow := {|
  rows d := tb_effects (db_service d);
  put_rows m := on_service (λ x, Build_ServiceTables (tb_channel_claims x)
    (tb_service_payments x) (tb_service_reservations x) m (tb_reviews x) (tb_fulfillments x));
  pk := eff_OperationID; collides := no_collision |}.
Definition refund_reviews : Table string serviceRefundReviewRow := {|
  rows d := tb_reviews (db_service d);
  put_rows m := on_service (λ x, Build_ServiceTables (tb_channel_claims x)
    (tb_service_payments x) (tb_service_reservations x) (tb_effects x) m (tb_fulfillments x));
  pk := srr_ReceiptID; collides := no_collision |}.
Definition fulfillments : Table string serviceFulfillmentRow := {|
  rows d := tb_fulfillments (db_service d);
  put_rows m := on_service (λ x, Build_ServiceTables (tb_channel_claims x)
    (tb_service_payments x) (tb_service_reservations x) (tb_effects x) (tb_reviews x) m);
  pk := sff_ReceiptID; collides := no_collision |}.

Definition empty_world : World :=
  {| the_db := empty_db; uuids_used := 0; clock_reads := 0 |}.

(** * Lemmas *)

Ltac solve_table := split; [done|done|by intros [[] [] [] []]].
#[export] Instance wallets_lawful : LawfulTable wallets. Proof. solve_table. Qed.
#[export] Instance entries_lawful : LawfulTable entries. Proof. solve_table. Qed.
#[export] Instance reservations_lawful : LawfulTable reservations. Proof. solve_table. Qed.
#[export] Instance decisions_lawful : LawfulTable decisions. Proof. solve_table. Qed.
#[export] Instance settlements_lawful : LawfulTable settlements. Proof. solve_table. Qed.
#[export] Instance reversals_lawful : LawfulTable reversals. Proof. solve_table. Qed.
#[export] Instance payments_lawful : LawfulTable payments. Proof. solve_table. Qed.
#[export] Instance refunds_lawful : LawfulTable refunds. Proof. solve_table. Qed.
#[export] Instance chargebacks_lawful : LawfulTable chargebacks. Proof. solve_table. Qed.
#[export] Instance claims_lawful : LawfulTable claims. Proof. solve_table. Qed.
#[export] Instance receipts_lawful : LawfulTable receipts. Proof. solve_table. Qed.
#[export] Instance excesses_lawful : LawfulTable excesses. Proof. solve_table. Qed.
#[export] Instance holds_lawful : LawfulTable holds. Proof. solve_table. Qed.
#[export] Instance channel_claims_lawful : LawfulTable channel_claims. Proof. solve_table. Qed.
#[export] Instance service_payments_lawful : LawfulTable service_payments.
Proof. solve_table. Qed.
#[export] Instance service_reservations_lawful : LawfulTable service_reservations.
Proof. solve_table. Qed.
#[export] Instance effects_lawful : LawfulTable effects. Proof. solve_table. Qed.
