(* ===== verification/WalletSpec.v ===== *)
(** * What an organization wallet promises

    The abstract wallet: an account of five amounts, and the movements the
    ledger allows on it, in exact integers. [account] reads the account of an
    organization off the wallet table; [books] adds up, independently of it,
    what the settlements, reversals, reservations, refund holds and ledger
    entries say. The two agree: see [agree]. The repositories are proved to
    move the tables only as [ledger_step] allows. *)
From S2P Require Import Prelude GoStd Encoding MoneyTypes ProviderTopUp ServiceMoney Store MoneyStore.

(** ** Accounts and movements *)

Record Account := {
  a_available : Z;
  a_reserved : Z;
  a_debt : Z;
  a_topup : Z;
  a_spend : Z }.

Definition zero_account : Account := Build_Account 0 0 0 0 0.

Inductive movement : Type :=
  | Credit (n : Z)        (** a top-up: debt first, the rest available *)
  | Reverse (n : Z)       (** a refund or chargeback: what is missing is debt *)
  | Reserve (n : Z)       (** a purchase or a refund hold sets funds aside *)
  | Commit (n : Z)        (** reserved funds are spent *)
  | Release (n : Z)       (** reserved funds come back, debt first *)
  | Confirm (n d : Z).    (** of a hold of [n], [d] left and the rest comes back *)

(** Funds that come back pay the debt first. *)
Definition give_back (n : Z) (a : Account) : Account :=
  let repaid := Z.min (a_debt a) n in
  Build_Account (a_available a + (n - repaid)) (a_reserved a) (a_debt a - repaid)
    (a_topup a) (a_spend a).

Definition apply (mv : movement) (a : Account) : Account :=
  match mv with
  | Credit n =>
    let a' := give_back n a in
    Build_Account (a_available a') (a_reserved a) (a_debt a') (a_topup a + n) (a_spend a)
  | Reverse n =>
    let loss := Z.min (a_available a) n in
    Build_Account (a_available a - loss) (a_reserved a) (a_debt a + (n - loss))
      (a_topup a) (a_spend a)
  | Reserve n =>
    Build_Account (a_available a - n) (a_reserved a + n) (a_debt a) (a_topup a) (a_spend a)
  | Commit n =>
    Build_Account (a_available a) (a_reserved a - n) (a_debt a) (a_topup a) (a_spend a + n)
  | Release n =>
    let a' := give_back n a in
    Build_Account (a_available a') (a_reserved a - n) (a_debt a') (a_topup a) (a_spend a)
  | Confirm n d =>
    let a' := give_back (n - d) a in
    Build_Account (a_available a') (a_reserved a - n) (a_debt a') (a_topup a) (a_spend a)
  end.

(** Funds that leave the wallet for good other than by spending. *)
Definition reversed_by (mv : movement) : Z :=
  match mv with Reverse n => n | Confirm _ d => d | _ => 0 end.

Definition account_ok (a : Account) : Prop :=
  balances_ok (a_available a) (a_reserved a) (a_debt a) ∧
  0 ≤ a_topup a ≤ max_int64 ∧ 0 ≤ a_spend a ≤ max_int64.

(** When a movement may happen: the funds are there, and the result fits. *)
Definition covered (mv : movement) (a : Account) : Prop :=
  match mv with
  | Credit n | Reverse n => 0 < n
  | Reserve n => 0 < n ≤ a_available a
  | Commit n | Release n => 0 < n ≤ a_reserved a
  | Confirm n d => 0 < n ≤ a_reserved a ∧ 0 ≤ d ≤ n
  end.
Definition fits (a : Account) : Prop :=
  a_available a ≤ max_int64 ∧ a_reserved a ≤ max_int64 ∧ a_debt a ≤ max_int64 ∧
  a_topup a ≤ max_int64 ∧ a_spend a ≤ max_int64.
Definition enabled (mv : movement) (a : Account) : Prop :=
  covered mv a ∧ fits (apply mv a).

(** ** The books *)

Section totals.
Context {K V : Type} `{Countable K}.

(** The sum of [f] over the rows [org] owns. *)
Definition total (owner : V → string) (f : V → Z) (m : gmap K V) (org : string) : Z :=
  msum (λ v, if org =s owner v then f v else 0) m.
End totals.

Record Books := {
  b_topup : Z;
  b_reversed : Z;
  b_held : Z;
  b_spent : Z;
  b_available : Z;
  b_reserved : Z;
  b_debt : Z }.

Definition reserved_amount (r : walletReservationRow) : Z :=
  if r_State r =s WalletReservationReserved then r_AmountMinor r else 0.
Definition committed_amount (r : walletReservationRow) : Z :=
  if r_State r =s WalletReservationCommitted then r_AmountMinor r else 0.
Definition held_amount (h : topUpRefundHoldRow) : Z :=
  if h_State h =s HoldReserved then h_AmountMinor h else 0.

Definition books (d : DB) (org : string) : Books := {|
  b_topup := total t_OrganizationID t_AmountMinor (rows settlements d) org;
  b_reversed := total v_OrganizationID v_AmountMinor (rows reversals d) org;
  b_held := total r_OrganizationID reserved_amount (rows reservations d) org
            + total h_OrganizationID held_amount (rows holds d) org;
  b_spent := total r_OrganizationID committed_amount (rows reservations d) org;
  b_available := total e_OrganizationID e_AvailableDelta (rows entries d) org;
  b_reserved := total e_OrganizationID e_ReservedDelta (rows entries d) org;
  b_debt := total e_OrganizationID e_DebtDelta (rows entries d) org |}.

Definition account_of (w : organizationWalletRow) : Account :=
  Build_Account (w_AvailableMinor w) (w_ReservedMinor w) (w_DebtMinor w)
    (w_LifetimeTopUpMinor w) (w_LifetimeSpendMinor w).

(** The account of an organization; it has zeros before its first row. *)
Definition account (d : DB) (org : string) : Account :=
  match rows wallets d !! (org, WalletCurrencyCNY) with
  | Some w => account_of w
  | None => zero_account
  end.

(** The account is what the books say: every balance is the sum of the entry
    deltas, reserved funds are the open reservations and holds, what came in
    equals what is there, was spent or was reversed, and no more is owed than
    was reversed. *)
Record agree (a : Account) (b : Books) : Prop := {
  ag_ok : account_ok a;
  ag_topup : a_topup a = b_topup b;
  ag_spend : a_spend a = b_spent b;
  ag_held : a_reserved a = b_held b;
  ag_available : a_available a = b_available b;
  ag_reserved : a_reserved a = b_reserved b;
  ag_debt : a_debt a = b_debt b;
  ag_conserved : a_available a + a_reserved a - a_debt a =
    b_topup b - b_spent b - b_reversed b;
  ag_owed : a_debt a ≤ b_reversed b }.

(** The books after a movement on an account. *)
Definition record_movement (mv : movement) (a : Account) (b : Books) : Books :=
  let a' := apply mv a in {|
  b_topup := b_topup b + (a_topup a' - a_topup a);
  b_reversed := b_reversed b + reversed_by mv;
  b_held := b_held b + (a_reserved a' - a_reserved a);
  b_spent := b_spent b + (a_spend a' - a_spend a);
  b_available := b_available b + (a_available a' - a_available a);
  b_reserved := b_reserved b + (a_reserved a' - a_reserved a);
  b_debt := b_debt b + (a_debt a' - a_debt a) |}.

(** ** Well-formed tables *)

Definition hold_ok (h : topUpRefundHoldRow) : Prop :=
  0 < h_AmountMinor h ≤ max_int64 ∧
  (h_State h = HoldReserved ∨ h_State h = HoldConfirmed ∨ h_State h = HoldReleased).

Record tables_ok (d : DB) : Prop := {
  ok_wallets : ∀ k w, rows wallets d !! k = Some w →
    k = (w_OrganizationID w, w_Currency w) ∧ w_Currency w = WalletCurrencyCNY;
  ok_reservations : ∀ k r, rows reservations d !! k = Some r →
    k = r_ReservationID r ∧ r_Currency r = WalletCurrencyCNY ∧
    0 < r_AmountMinor r ≤ max_int64;
  ok_settlements : ∀ k t, rows settlements d !! k = Some t →
    k = t_PaymentID t ∧ t_Currency t = WalletCurrencyCNY ∧
    0 < t_AmountMinor t ≤ max_int64;
  ok_reversals : ∀ k v, rows reversals d !! k = Some v →
    k = v_ReversalID v ∧ 0 < v_AmountMinor v ≤ max_int64;
  ok_holds : ∀ k h, rows holds d !! k = Some h → k = h_HoldID h ∧ hold_ok h }.

Definition ledger_ok (d : DB) : Prop :=
  tables_ok d ∧ ∀ org, agree (account d org) (books d org).

(** ** Steps of the ledger *)

(** Only the account and the books of [org] changed, as [mv] says. *)
Record moves (mv : movement) (org : string) (d d' : DB) : Prop := {
  mv_account : account d' org = apply mv (account d org);
  mv_books : books d' org = record_movement mv (account d org) (books d org);
  mv_others : ∀ o, o ≠ org → account d' o = account d o ∧ books d' o = books d o }.

(** Nothing an account or the books read changed. *)
Definition idle (d d' : DB) : Prop :=
  ∀ o, account d' o = account d o ∧ books d' o = books d o.

(** A step of the ledger that may move the money of [org]. *)
Inductive ledger_step (org : string) : DB → DB → Prop :=
  | step_idle d d' : idle d d' → tables_ok d' → ledger_step org d d'
  | step_move mv d d' : enabled mv (account d org) → moves mv org d d' →
      tables_ok d' → ledger_step org d d'.

(** * Lemmas *)

Lemma apply_conserves mv a :
  a_available (apply mv a) + a_reserved (apply mv a) - a_debt (apply mv a) =
  a_available a + a_reserved a - a_debt a
  + (a_topup (apply mv a) - a_topup a) - (a_spend (apply mv a) - a_spend a)
  - reversed_by mv.
Proof. destruct mv; simpl; lia. Qed.

Lemma apply_ok mv a : account_ok a → enabled mv a → account_ok (apply mv a).
Proof.
  unfold account_ok, enabled, fits, balances_ok. intros ((?&?&?&?)&?&?) [Hc ?].
  destruct mv; simpl in *; lia.
Qed.

Lemma apply_debt mv a : covered mv a → 0 ≤ a_available a → 0 ≤ a_debt a →
  a_debt (apply mv a) ≤ a_debt a + reversed_by mv.
Proof. destruct mv; simpl; lia. Qed.

(** The books follow every enabled movement. *)
Lemma agree_step mv a b : agree a b → enabled mv a →
  agree (apply mv a) (record_movement mv a b).
Proof.
  intros [[[Hav Hdt] ?]] He. pose proof (apply_conserves mv a). pose proof He as [Hc _].
  apply apply_debt in Hc; [|lia..]. constructor; simpl; [by apply apply_ok|lia..].
Qed.

Lemma ledger_step_ok org d d' : ledger_ok d → ledger_step org d d' → ledger_ok d'.
Proof.
  intros [Ht Ha] Hs. inversion Hs as [? ? Hi ?|mv ? ? He [Hacc Hb Ho] ?]; subst.
  - split; [done|]. intros o. destruct (Hi o) as [-> ->]. done.
  - split; [done|]. intros o. destruct (decide (o = org)) as [->|Hne].
    + rewrite Hacc, Hb. by apply agree_step.
    + destruct (Ho o Hne) as [-> ->]. done.
Qed.

Lemma ledger_step_tables org d d' : ledger_step org d d' → tables_ok d'.
Proof. by inversion 1. Qed.

Lemma ledger_steps_tables org d d' : tables_ok d → rtc (ledger_step org) d d' → tables_ok d'.
Proof. intros Hok. induction 1; eauto using ledger_step_tables. Qed.

Lemma ledger_steps_ok org d d' : ledger_ok d → rtc (ledger_step org) d d' → ledger_ok d'.
Proof. intros Hok. induction 1; eauto using ledger_step_ok. Qed.

(** Steps for one organization leave the others alone. *)
Lemma ledger_steps_others org d d' o : rtc (ledger_step org) d d' → o ≠ org →
  account d' o = account d o ∧ books d' o = books d o.
Proof.
  intros Hs Hne. induction Hs as [|d1 d2 d3 Hs _ IH]; [done|].
  assert (account d2 o = account d1 o ∧ books d2 o = books d1 o) as [E1 E2].
  { inversion Hs as [? ? Hi ?|mv ? ? He [_ _ Ho] ?]; subst; auto. }
  destruct IH. split; congruence.
Qed.

(** *** Totals *)

Section total_lemmas.
Context {K V : Type} `{Countable K} (owner : V → string) (f : V → Z).
Implicit Types (m : gmap K V).

Lemma total_insert m k v org : m !! k = None →
  total owner f (<[k:=v]> m) org =
  total owner f m org + (if org =s owner v then f v else 0).
Proof. intros. unfold total. rewrite msum_insert by done. lia. Qed.

Lemma total_update m k v v' org : m !! k = Some v → owner v' = owner v →
  total owner f (<[k:=v']> m) org =
  total owner f m org + (if org =s owner v then f v' - f v else 0).
Proof.
  intros Hk Ho. unfold total. rewrite (msum_update _ m k v v') by done.
  rewrite Ho. case_match; lia.
Qed.
End total_lemmas.
#[global] Hint Rewrite String.eqb_refl : go_bool.

Lemma eqb_ne s t : s ≠ t → (s =s t) = false.
Proof. apply String.eqb_neq. Qed.

Lemma zero_account_ok : account_ok zero_account.
Proof. unfold account_ok, balances_ok, max_int64. simpl. lia. Qed.

Lemma empty_ok : ledger_ok empty_db.
Proof.
  split.
  - split; intros ? ?; unfold rows; simpl; rewrite lookup_empty; done.
  - intros org. split; try done. apply zero_account_ok.
Qed.

(** *** Reading the tables after writes

    [read_tables] computes what each table holds after a chain of writes. *)
Ltac read_tables :=
  repeat match goal with
  | |- context [the_db (write ?t ?m ?w)] =>
      change (the_db (write t m w)) with (put_rows t m (the_db w))
  | |- context [put_rows ?t ?m (put_rows ?t ?m' ?d)] =>
      change (put_rows t m (put_rows t m' d)) with (put_rows t m d)
  | |- context [rows ?t (put_rows ?t ?m ?d)] => change (rows t (put_rows t m d)) with m
  | |- context [rows ?t1 (put_rows ?t2 ?m ?d)] =>
      change (rows t1 (put_rows t2 m d)) with (rows t1 d)
  | H : context [the_db (write ?t ?m ?w)] |- _ =>
      change (the_db (write t m w)) with (put_rows t m (the_db w)) in H
  | H : context [rows ?t (put_rows ?t ?m ?d)] |- _ =>
      change (rows t (put_rows t m d)) with m in H
  | H : context [rows ?t1 (put_rows ?t2 ?m ?d)] |- _ =>
      change (rows t1 (put_rows t2 m d)) with (rows t1 d) in H
  end.

(** Replaces the tables of later worlds by those of earlier ones. *)
Definition db_is (w : World) (d : DB) : Prop := the_db w = d.
Ltac use_db :=
  unfold db_is in *;
  repeat match goal with
  | H : the_db ?x = ?E |- _ => is_var x; try (rewrite !H in * ); change (db_is x E) in H
  end.
Ltac tables := read_tables; use_db; read_tables.

Lemma account_lookup d org w : rows wallets d !! (org, WalletCurrencyCNY) = Some w →
  account d org = account_of w.
Proof. unfold account. by intros ->. Qed.

Lemma moves_intro mv org d d' wr :
  rows wallets d' = <[(org, WalletCurrencyCNY) := wr]> (rows wallets d) →
  account_of wr = apply mv (account d org) →
  books d' org = record_movement mv (account d org) (books d org) →
  (∀ o, o ≠ org → books d' o = books d o) →
  moves mv org d d'.
Proof.
  intros Hw Ha Hb Ho. split; [|done|].
  - by rewrite (account_lookup _ _ wr) by (rewrite Hw; apply lookup_insert_eq).
  - intros o Hne. split; [|by apply Ho]. unfold account. rewrite Hw, lookup_insert_ne; [done|].
    naive_solver.
Qed.

Ltac books_cbn :=
  cbn [b_topup b_reversed b_held b_spent b_available b_reserved b_debt].

Ltac spec_cbn :=
  cbn [apply give_back reversed_by a_available a_reserved a_debt a_topup a_spend account_of
       w_AvailableMinor w_ReservedMinor w_DebtMinor w_LifetimeTopUpMinor
       w_LifetimeSpendMinor].

Lemma Books_eq b1 b2 : b_topup b1 = b_topup b2 → b_reversed b1 = b_reversed b2 →
  b_held b1 = b_held b2 → b_spent b1 = b_spent b2 → b_available b1 = b_available b2 →
  b_reserved b1 = b_reserved b2 → b_debt b1 = b_debt b2 → b1 = b2.
Proof. destruct b1, b2. simpl. by intros -> -> -> -> -> -> ->. Qed.

Lemma idle_trans d1 d2 d3 : idle d1 d2 → idle d2 d3 → idle d1 d3.
Proof. intros H1 H2 o. destruct (H1 o), (H2 o). split; congruence. Qed.

(** A wallet row inserted or found is idle when it has the account's amounts. *)
Lemma idle_wallet d org row :
  account_of row = account d org →
  idle d (put_rows wallets (<[(org, WalletCurrencyCNY) := row]> (rows wallets d)) d).
Proof.
  intros Ha o. split; [|done]. unfold account at 1. read_tables.
  destruct (decide (o = org)) as [->|Hne].
  - by rewrite lookup_insert_eq.
  - rewrite lookup_insert_ne by naive_solver. done.
Qed.

(** Tables no one of the ledger reads may change freely. *)
Definition same_ledger (d d' : DB) : Prop :=
  rows wallets d' = rows wallets d ∧ rows entries d' = rows entries d ∧
  rows reservations d' = rows reservations d ∧ rows settlements d' = rows settlements d ∧
  rows reversals d' = rows reversals d ∧ rows holds d' = rows holds d.

#[export] Instance same_ledger_preorder : PreOrder same_ledger.
Proof.
  split; [by repeat split|]. intros d1 d2 d3 (?&?&?&?&?&?) (?&?&?&?&?&?).
  repeat split; congruence.
Qed.

Lemma same_ledger_idle d d' : same_ledger d d' → idle d d'.
Proof.
  intros (Hw&He&Hr&Hs&Hv&Hh) o. unfold account, books. by rewrite Hw, He, Hr, Hs, Hv, Hh.
Qed.

Lemma account_same d d' org : same_ledger d d' → account d' org = account d org.
Proof. intros Hs. by destruct (same_ledger_idle _ _ Hs org). Qed.

Lemma same_ledger_tables d d' : same_ledger d d' → tables_ok d → tables_ok d'.
Proof.
  intros (Hw&He&Hr&Hs&Hv&Hh) []. split; by rewrite ?Hw, ?Hr, ?Hs, ?Hv, ?Hh.
Qed.

Lemma same_ledger_ok d d' : same_ledger d d' → ledger_ok d → ledger_ok d'.
Proof.
  intros Hs [Ht Ha]. split; [by eapply same_ledger_tables|]. intros org.
  destruct (same_ledger_idle _ _ Hs org) as [-> ->]. done.
Qed.

Lemma same_ledger_step org d d' : tables_ok d → same_ledger d d' → ledger_step org d d'.
Proof. intros ? Hs. apply step_idle; [by apply same_ledger_idle|by eapply same_ledger_tables]. Qed.

(** Entries inserted one after the other, each under a fresh identity. *)
Inductive added : list organizationWalletEntryRow → gmap string organizationWalletEntryRow →
    gmap string organizationWalletEntryRow → Prop :=
  | added_nil E : added [] E E
  | added_cons e es E E' E'' : E !! e_EntryID e = None → added es E' E'' →
      E' = <[e_EntryID e := e]> E → added (e :: es) E E''.

Lemma added_one e E : E !! e_EntryID e = None → added [e] E (<[e_EntryID e := e]> E).
Proof. intros. econstructor; [done|constructor|done]. Qed.

Lemma added_app es1 es2 E E' E'' : added es1 E E' → added es2 E' E'' →
  added (es1 ++ es2) E E''.
Proof. intros Ha. revert E''. induction Ha; intros; simpl; [done|]. econstructor; eauto. Qed.

Lemma added_total f es E E' o : added es E E' →
  total e_OrganizationID f E' o =
  total e_OrganizationID f E o + lsum (λ e, if o =s e_OrganizationID e then f e else 0) es.
Proof.
  induction 1 as [|e es E E' E'' He _ IH ->]; simpl; [lia|].
  rewrite IH, total_insert by done. lia.
Qed.

Lemma total_alter {K V} `{Countable K} (owner : V → string) (f : V → Z) g
    (m : gmap K V) k v org : m !! k = Some v → owner (g v) = owner v →
  total owner f (alter g k m) org =
  total owner f m org + (if org =s owner v then f (g v) - f v else 0).
Proof.
  intros Hk Ho. rewrite <- (total_update owner f m k v (g v)) by done. f_equal.
  apply map_eq. intros j. destruct (decide (j = k)) as [->|Hne].
  - by rewrite lookup_alter_eq, lookup_insert_eq, Hk.
  - by rewrite lookup_alter_ne, lookup_insert_ne by done.
Qed.

(** *** One movement, written out

    The wallet row changes, at most some entries and source rows are added:
    the books follow as long as each table did what the movement says. *)
Record posted (mv : movement) (org : string) (wr : organizationWalletRow)
    (es : list organizationWalletEntryRow) (d d' : DB) : Prop := {
  po_wallets : rows wallets d' = <[(org, WalletCurrencyCNY) := wr]> (rows wallets d);
  po_account : account_of wr = apply mv (account d org);
  po_added : added es (rows entries d) (rows entries d');
  po_owner : ∀ e, e ∈ es → e_OrganizationID e = org;
  po_available : lsum e_AvailableDelta es =
    a_available (account_of wr) - a_available (account d org);
  po_reserved : lsum e_ReservedDelta es =
    a_reserved (account_of wr) - a_reserved (account d org);
  po_debt : lsum e_DebtDelta es = a_debt (account_of wr) - a_debt (account d org) }.

(** The source rows of a movement. *)
Record sourced (mv : movement) (org : string) (a : Account) (d d' : DB) : Prop := {
  so_topup : ∀ o, total t_OrganizationID t_AmountMinor (rows settlements d') o =
    total t_OrganizationID t_AmountMinor (rows settlements d) o +
    (if o =s org then a_topup (apply mv a) - a_topup a else 0);
  so_reversed : ∀ o, total v_OrganizationID v_AmountMinor (rows reversals d') o =
    total v_OrganizationID v_AmountMinor (rows reversals d) o +
    (if o =s org then reversed_by mv else 0);
  so_held : ∀ o, b_held (books d' o) = b_held (books d o) +
    (if o =s org then a_reserved (apply mv a) - a_reserved a else 0);
  so_spent : ∀ o, b_spent (books d' o) = b_spent (books d o) +
    (if o =s org then a_spend (apply mv a) - a_spend a else 0) }.

Lemma owned_sum (f : organizationWalletEntryRow → Z) es org o :
  (∀ e, e ∈ es → e_OrganizationID e = org) →
  lsum (λ e, if o =s e_OrganizationID e then f e else 0) es =
  (if o =s org then lsum f es else 0).
Proof.
  induction es as [|e es IH]; intros Ho; simpl; [by case_match|].
  rewrite IH by (intros; apply Ho; by right). rewrite (Ho e) by left.
  case_match; lia.
Qed.

Lemma posted_moves mv org wr es d d' :
  posted mv org wr es d d' → sourced mv org (account d org) d d' → moves mv org d d'.
Proof.
  intros [Hw Ha He Hown Hav Hres Hdebt] [Ht Hr Hh Hs].
  assert (∀ f o, total e_OrganizationID f (rows entries d') o =
    total e_OrganizationID f (rows entries d) o + (if o =s org then lsum f es else 0)) as Het.
  { intros f o. by rewrite (added_total f es (rows entries d)), (owned_sum f es org). }
  rewrite Ha in *. eapply moves_intro; [done|done|..].
  - apply Books_eq; rewrite ?Hh, ?Hs, ?String.eqb_refl; try done;
      unfold books, record_movement; books_cbn;
      rewrite ?Ht, ?Hr, ?Het, ?String.eqb_refl; congruence.
  - intros o Hne. apply eqb_ne in Hne. apply Books_eq; rewrite ?Hh, ?Hs, ?Hne; try lia;
      unfold books; books_cbn; rewrite ?Ht, ?Hr, ?Het, ?Hne; lia.
Qed.

(** Closes the two halves of [posted_moves] for a concrete chain of writes;
    [Hacc] says the row found holds the account. *)
Ltac by_owner :=
  repeat match goal with
  | |- context [?o =s ?x] => is_var o; destruct (o =s x) eqn:?; try lia
  end.
Ltac solve_sourced :=
  let o := fresh "o" in
  split; intros o; unfold books; books_cbn; read_tables; spec_cbn;
  rewrite ?total_insert by done;
  unfold reserved_amount, committed_amount, held_amount; simpl; by_owner; try lia.
Ltac solve_posted Hacc :=
  split; read_tables; rewrite <- ?Hacc; [done|done|eassumption|..];
  rewrite ?lsum_app; simpl; try i64; try set_solver;
  try (intros ?; rewrite list_elem_of_singleton; intros ->; simpl in *; congruence).

Lemma posted_ext mv org wr es d d1 d2 : posted mv org wr es d d1 →
  rows wallets d2 = rows wallets d1 → rows entries d2 = rows entries d1 →
  posted mv org wr es d d2.
Proof. intros [] Hw He. split; rewrite ?Hw, ?He; done. Qed.

Lemma posted_one mv org wr e a d d' :
  account d org = a → rows wallets d' = <[(org, WalletCurrencyCNY) := wr]> (rows wallets d) →
  account_of wr = apply mv a → added [e] (rows entries d) (rows entries d') →
  e_OrganizationID e = org → e_AvailableDelta e = a_available (apply mv a) - a_available a →
  e_ReservedDelta e = a_reserved (apply mv a) - a_reserved a →
  e_DebtDelta e = a_debt (apply mv a) - a_debt a → posted mv org wr [e] d d'.
Proof.
  intros <- Hw Ha He Ho H1 H2 H3. split; try done; rewrite ?Ha; simpl; try lia.
  intros e'. rewrite list_elem_of_singleton. by intros ->.
Qed.

(** Steps before and after a movement that leave the ledger alone. *)
Lemma moves_idle mv org d1 d2 d3 d4 : idle d1 d2 → moves mv org d2 d3 → idle d3 d4 →
  moves mv org d1 d4.
Proof.
  intros H1 [Ha Hb Ho] H2. destruct (H1 org) as [E1 E2], (H2 org) as [E3 E4]. split.
  - by rewrite E3, Ha, E1.
  - by rewrite E4, Hb, E1, E2.
  - intros o Hne. destruct (H1 o) as [F1 F2], (H2 o) as [F3 F4], (Ho o Hne) as [F5 F6].
    split; congruence.
Qed.

(** *** Keeping the tables well-formed *)

Lemma tables_ok_wallet d W org wr : tables_ok d →
  (∀ k, k ≠ (org, WalletCurrencyCNY) → W !! k = rows wallets d !! k) →
  w_OrganizationID wr = org → w_Currency wr = WalletCurrencyCNY →
  tables_ok (put_rows wallets (<[(org, WalletCurrencyCNY) := wr]> W) d).
Proof.
  intros [Hw] HW Ho Hc. split; try done. intros k w. read_tables.
  rewrite lookup_insert_Some. intros [[<- <-]|[? Hl]]; [by rewrite Ho, Hc|].
  apply Hw. by rewrite <- HW.
Qed.

Lemma tables_ok_entries d E : tables_ok d → tables_ok (put_rows entries E d).
Proof. by intros []. Qed.

Lemma tables_ok_settlement d S t : tables_ok d → rows settlements d = S →
  t_Currency t = WalletCurrencyCNY → 0 < t_AmountMinor t ≤ max_int64 →
  tables_ok (put_rows settlements (<[pk settlements t := t]> S) d).
Proof.
  intros [? ? Hs] <- ??. split; try done. intros k v. read_tables.
  rewrite lookup_insert_Some. intros [[<- <-]|[_ ?]]; [done|by apply Hs].
Qed.

Lemma tables_ok_reversal d V v : tables_ok d → rows reversals d = V →
  0 < v_AmountMinor v ≤ max_int64 →
  tables_ok (put_rows reversals (<[pk reversals v := v]> V) d).
Proof.
  intros [? ? ? Hs] <- ?. split; try done. intros k v'. read_tables.
  rewrite lookup_insert_Some. intros [[<- <-]|[_ ?]]; [done|by apply Hs].
Qed.

Lemma tables_ok_reservation d R r : tables_ok d → rows reservations d = R →
  r_Currency r = WalletCurrencyCNY → 0 < r_AmountMinor r ≤ max_int64 →
  tables_ok (put_rows reservations (<[pk reservations r := r]> R) d).
Proof.
  intros [? Hs] <- ??. split; try done. intros k v. read_tables.
  rewrite lookup_insert_Some. intros [[<- <-]|[_ ?]]; [done|by apply Hs].
Qed.

Lemma tables_ok_hold d T h : tables_ok d → rows holds d = T → hold_ok h →
  tables_ok (put_rows holds (<[pk holds h := h]> T) d).
Proof.
  intros [? ? ? ? Hs] <- ?. split; try done. intros k v'. read_tables.
  rewrite lookup_insert_Some. intros [[<- <-]|[_ ?]]; [done|by apply Hs].
Qed.

Lemma tables_ok_alter_hold d T id f : tables_ok d → rows holds d = T →
  (∀ h, h_HoldID (f h) = h_HoldID h) → (∀ h, hold_ok h → hold_ok (f h)) →
  tables_ok (put_rows holds (alter f id T) d).
Proof.
  intros [? ? ? ? Hh] <- Hi Ha. split; try done. intros k h. read_tables.
  rewrite lookup_alter_Some. intros [(->&h'&?&->)|[_ ?]]; [|by apply Hh].
  rewrite Hi. destruct (Hh k h'); auto.
Qed.

(** Peels the writes off, one lemma per table. *)
Ltac solve_tables :=
  read_tables;
  repeat lazymatch goal with
  | |- tables_ok (put_rows entries _ _) => apply tables_ok_entries
  | |- tables_ok (put_rows wallets _ _) =>
      apply tables_ok_wallet;
        [|intros ??; read_tables; by rewrite ?lookup_insert_ne by congruence|try done..]
  | |- tables_ok (put_rows settlements _ _) =>
      eapply tables_ok_settlement; [|reflexivity|try done..]
  | |- tables_ok (put_rows reversals _ _) =>
      eapply tables_ok_reversal; [|reflexivity|try done..]
  | |- tables_ok (put_rows reservations _ _) =>
      eapply tables_ok_reservation; [|reflexivity|try done..]
  | |- tables_ok (put_rows holds (alter _ _ _) _) =>
      eapply tables_ok_alter_hold; [|reflexivity|try done..]
  | |- tables_ok (put_rows holds _ _) => eapply tables_ok_hold; [|reflexivity|try done..]
  | |- tables_ok (put_rows _ _ ?d) => apply (same_ledger_tables d); [by repeat split|]
  end;
  try assumption; simpl; try i64_bounds.

(** The balances a row copies from an account in good order are representable. *)
Lemma account_bounds d org : ledger_ok d →
  0 ≤ a_available (account d org) ≤ max_int64 ∧ 0 ≤ a_reserved (account d org) ≤ max_int64 ∧
  0 ≤ a_debt (account d org) ≤ max_int64 ∧ 0 ≤ a_topup (account d org) ≤ max_int64 ∧
  0 ≤ a_spend (account d org) ≤ max_int64 ∧
  (a_available (account d org) = 0 ∨ a_debt (account d org) = 0).
Proof. intros [_ Hag]. destruct (ag_ok _ _ (Hag org)) as ((?&?&?&?)&?&?). done. Qed.

(** Funds that are there, set aside or spent never exceed what was topped up. *)
Lemma within_topups d org : ledger_ok d →
  let a := account d org in a_available a + a_reserved a + a_spend a ≤ a_topup a.
Proof. intros [_ Hag]. destruct (Hag org). simpl. lia. Qed.
