(* ===== verification/WalletRepo.v ===== *)
(** * The organization wallet

    Models src/internal/integration/persistence/money/wallet_repository.go:
    reading a wallet, crediting an ordinary settled top-up, reserving funds
    for a purchase, committing and releasing a reservation. (The reversal of a
    top-up needs the provider top-ups: see SettlementRepo.) *)
From S2P Require Import Prelude GoStd Encoding MoneyTypes ProviderTopUp ServiceMoney Store MoneyStore WalletSpec.

Section wallet_repository.
Context `{Env}.

(** ** Conversions *)

Definition walletSnapshot (row : organizationWalletRow) : OrganizationWalletSnapshot := {|
  ws_OrganizationID := w_OrganizationID row; ws_Currency := w_Currency row;
  ws_AvailableMinor := w_AvailableMinor row; ws_ReservedMinor := w_ReservedMinor row;
  ws_DebtMinor := w_DebtMinor row; ws_LifetimeTopUpMinor := w_LifetimeTopUpMinor row;
  ws_LifetimeSpendMinor := w_LifetimeSpendMinor row; ws_Version := w_Version row;
  ws_UpdatedAt := w_UpdatedAt row |}.

Definition emptyWallet (organizationID currency : string) : ST World OrganizationWalletSnapshot :=
  now ← Now;
  mret {| ws_OrganizationID := organizationID; ws_Currency := currency;
          ws_AvailableMinor := 0; ws_ReservedMinor := 0; ws_DebtMinor := 0;
          ws_LifetimeTopUpMinor := 0; ws_LifetimeSpendMinor := 0; ws_Version := 1;
          ws_UpdatedAt := now |}.

Definition walletEntry (row : organizationWalletEntryRow) : WalletEntry := {|
  we_EntryID := e_EntryID row; we_OrganizationID := e_OrganizationID row;
  we_Currency := e_Currency row; we_Kind := e_Kind row;
  we_AvailableDelta := e_AvailableDelta row; we_ReservedDelta := e_ReservedDelta row;
  we_DebtDelta := e_DebtDelta row; we_AvailableAfter := e_AvailableAfter row;
  we_ReservedAfter := e_ReservedAfter row; we_DebtAfter := e_DebtAfter row;
  we_CommercialOrderID := e_CommercialOrderID row; we_PaymentID := e_PaymentID row;
  we_SourceIdentity := e_SourceIdentity row; we_OccurredAt := e_OccurredAt row |}.

Definition reservationFromRow (row : walletReservationRow) : WalletReservation := {|
  wr_ReservationID := r_ReservationID row; wr_OperationID := r_OperationID row;
  wr_OrganizationID := r_OrganizationID row; wr_CommercialOrderID := r_CommercialOrderID row;
  wr_Currency := r_Currency row; wr_AmountMinor := r_AmountMinor row;
  wr_State := r_State row; wr_Version := 1; wr_CreatedAt := r_CreatedAt row;
  wr_UpdatedAt := r_UpdatedAt row |}.

Definition reserveDecisionFromRow (row : walletReserveDecisionRow) : WalletReserveDecision := {|
  wd_OperationID := d_OperationID row; wd_OrganizationID := d_OrganizationID row;
  wd_CommercialOrderID := d_CommercialOrderID row; wd_Currency := d_Currency row;
  wd_AmountMinor := d_AmountMinor row; wd_Outcome := d_Outcome row;
  wd_ReservationID := d_ReservationID row; wd_DecidedAt := d_DecidedAt row |}.

(** ** Readers *)

Definition ReadOrganizationWallet (organizationID currency : string)
    : ST World OrganizationWalletSnapshot :=
  let organizationID := TrimSpace organizationID in
  guard_not ((organizationID =s "") || (currency ≠s WalletCurrencyCNY)) ErrInvalid;;
  row ← take_pk wallets (organizationID, currency);
  match row with
  | None => emptyWallet organizationID currency
  | Some row => mret (walletSnapshot row)
  end.

Definition ReadCommercialPurchaseReservation (organizationID orderID reservationID : string)
    : ST World WalletReservation :=
  let organizationID := TrimSpace organizationID in
  let orderID := TrimSpace orderID in
  let reservationID := TrimSpace reservationID in
  guard_not ((organizationID =s "") || (orderID =s "") || (reservationID =s "")) ErrInvalid;;
  row ← take_pk_and reservations reservationID (λ r,
    (r_OrganizationID r =s organizationID) && (r_CommercialOrderID r =s orderID));
  row ← found ErrWalletReservationConflict row;
  mret (reservationFromRow row).

Definition ReadCommercialPurchaseReserveDecision (organizationID operationID orderID : string)
    : ST World WalletReserveDecision :=
  let organizationID := TrimSpace organizationID in
  let operationID := TrimSpace operationID in
  let orderID := TrimSpace orderID in
  guard_not ((organizationID =s "") || (operationID =s "") || (orderID =s "")) ErrInvalid;;
  row ← take_pk decisions (organizationID, operationID, orderID);
  row ← found ErrWalletReserveDecisionNotFound row;
  let decision := reserveDecisionFromRow row in
  guard_not (negb (nil_error (WalletReserveDecision_Validate decision))) ErrUnavailable;;
  mret decision.

(** ** Shared steps *)

Definition lockOrCreateWallet (organizationID currency : string)
    : ST World organizationWalletRow :=
  now ← Now;
  let seed := {| w_OrganizationID := organizationID; w_Currency := currency;
    w_AvailableMinor := 0; w_ReservedMinor := 0; w_DebtMinor := 0;
    w_LifetimeTopUpMinor := 0; w_LifetimeSpendMinor := 0; w_Version := 1;
    w_UpdatedAt := now |} in
  CreateIgnore wallets seed;;
  row ← take_pk wallets (organizationID, currency);
  found ErrUnavailable row.

Definition nextWalletProcessingTimestamp (previous : Time) : ST World Time :=
  now ← Now;
  let now := Truncate now Microsecond in
  let previous := Truncate previous Microsecond in
  mret (if negb (now >? previous) then previous + Microsecond else now).

Definition saveWalletRow (wallet : organizationWalletRow) : ST World unit :=
  Update wallets (w_OrganizationID wallet, w_Currency wallet) (λ old,
    {| w_OrganizationID := w_OrganizationID old; w_Currency := w_Currency old;
       w_AvailableMinor := w_AvailableMinor wallet; w_ReservedMinor := w_ReservedMinor wallet;
       w_DebtMinor := w_DebtMinor wallet;
       w_LifetimeTopUpMinor := w_LifetimeTopUpMinor wallet;
       w_LifetimeSpendMinor := w_LifetimeSpendMinor wallet;
       w_Version := w_Version wallet; w_UpdatedAt := w_UpdatedAt wallet |}).

Definition createWalletEntry (wallet : organizationWalletRow) (kind : string)
    (availableDelta reservedDelta debtDelta : Z) (orderID paymentID source : string)
    (occurredAt : Time) : ST World unit :=
  guard_not (blank source) ErrInvalid;;
  id ← NewString;
  Create entries {| e_EntryID := id; e_OrganizationID := w_OrganizationID wallet;
    e_Currency := w_Currency wallet; e_Kind := kind; e_AvailableDelta := availableDelta;
    e_ReservedDelta := reservedDelta; e_DebtDelta := debtDelta;
    e_AvailableAfter := w_AvailableMinor wallet; e_ReservedAfter := w_ReservedMinor wallet;
    e_DebtAfter := w_DebtMinor wallet; e_CommercialOrderID := orderID;
    e_PaymentID := paymentID; e_SourceIdentity := source; e_OccurredAt := occurredAt |}.

(** A credit pays the debt first. *)
Definition addTopUp (available debt amount : Z) : result (Z * Z) :=
  if debt >=? amount then Ok (available, debt -! amount)
  else
    let net := amount -! debt in
    if available >? (max_int64 -! net) then Err ErrInvalid
    else Ok (available +! net, 0).

Definition sameTopUp (row : walletTopUpSettlementRow) (value : OrganizationTopUpSettlement)
    : bool :=
  (t_CommercialOrderID row =s ts_CommercialOrderID value)
  && (t_OrganizationID row =s ts_OrganizationID value)
  && (t_Currency row =s ts_Currency value) && (t_AmountMinor row =? ts_AmountMinor value)
  && (t_ProviderReference row =s ts_ProviderReference value)
  && (t_Version row =? ts_Version value)
  && (t_SettledAt row =? NormalizeTimestamp (ts_SettledAt value)).

Definition minInt64 (a b : Z) : Z := if a <? b then a else b.

(** The wallet row with new balances, lifetime totals and instant. *)
Definition with_balances (wallet : organizationWalletRow)
    (available reserved debt topup spend version : Z) (at_ : Time) : organizationWalletRow :=
  {| w_OrganizationID := w_OrganizationID wallet; w_Currency := w_Currency wallet;
     w_AvailableMinor := available; w_ReservedMinor := reserved; w_DebtMinor := debt;
     w_LifetimeTopUpMinor := topup; w_LifetimeSpendMinor := spend; w_Version := version;
     w_UpdatedAt := at_ |}.

(** ** Crediting an ordinary settled top-up *)

(** An entry the code creates only when its amount is positive. *)
Definition create_entry_when (cond : bool) (row : string → organizationWalletEntryRow)
    : ST World unit :=
  if cond then
    id ← NewString;
    or_error ErrUnavailable (Create entries (row id))
  else mret tt.

Definition topup_entry (settlement : OrganizationTopUpSettlement) (kind source : string)
    (availableDelta debtDelta available reserved debt : Z) (at_ : Time) (id : string)
    : organizationWalletEntryRow :=
  {| e_EntryID := id; e_OrganizationID := ts_OrganizationID settlement;
     e_Currency := ts_Currency settlement; e_Kind := kind;
     e_AvailableDelta := availableDelta; e_ReservedDelta := 0; e_DebtDelta := debtDelta;
     e_AvailableAfter := available; e_ReservedAfter := reserved; e_DebtAfter := debt;
     e_CommercialOrderID := ts_CommercialOrderID settlement;
     e_PaymentID := ts_PaymentID settlement; e_SourceIdentity := source;
     e_OccurredAt := at_ |}.

Definition topup_settlement_row (settlement : OrganizationTopUpSettlement)
    : walletTopUpSettlementRow :=
  {| t_PaymentID := ts_PaymentID settlement;
     t_CommercialOrderID := ts_CommercialOrderID settlement;
     t_OrganizationID := ts_OrganizationID settlement;
     t_Currency := ts_Currency settlement; t_AmountMinor := ts_AmountMinor settlement;
     t_SettledAt := NormalizeTimestamp (ts_SettledAt settlement);
     t_ProviderReference := ts_ProviderReference settlement;
     t_Version := ts_Version settlement |}.

(** The instant of the credit entry, after that of a debt repayment. *)
Definition credit_instant (both : bool) (processedAt : Time) : ST World Time :=
  if both then nextWalletProcessingTimestamp processedAt else mret processedAt.

(** The credit of a payment that has none yet. *)
Definition credit_new_top_up (settlement : OrganizationTopUpSettlement)
    : ST World OrganizationWalletSnapshot :=
  byOrder ← take settlements (λ t, t_CommercialOrderID t =s ts_CommercialOrderID settlement);
  guard_not (match byOrder with Some _ => true | None => false end) ErrConflict;;
  row ← lockOrCreateWallet (ts_OrganizationID settlement) (ts_Currency settlement);
  '(available, debt) ← lift (addTopUp (w_AvailableMinor row) (w_DebtMinor row)
                                      (ts_AmountMinor settlement));
  guard_not (w_LifetimeTopUpMinor row >? (max_int64 -! ts_AmountMinor settlement)) ErrInvalid;;
  let availableBefore := w_AvailableMinor row in
  let debtBefore := w_DebtMinor row in
  let debtRepaid := debtBefore -! debt in
  let availableAdded := available -! availableBefore in
  processedAt ← nextWalletProcessingTimestamp (w_UpdatedAt row);
  creditProcessedAt ← credit_instant ((debtRepaid >? 0) && (availableAdded >? 0)) processedAt;
  let row := with_balances row available (w_ReservedMinor row) debt
    (w_LifetimeTopUpMinor row +! ts_AmountMinor settlement) (w_LifetimeSpendMinor row)
    (w_Version row +! 1) creditProcessedAt in
  saveWalletRow row;;
  or_error ErrUnavailable (Create settlements (topup_settlement_row settlement));;
  create_entry_when (debtRepaid >? 0) (topup_entry settlement WalletEntryDebtRepayment
    (ts_PaymentID settlement +:+ ":debt")%string 0 (-! debtRepaid) availableBefore
    (w_ReservedMinor row) debt processedAt);;
  create_entry_when (availableAdded >? 0) (topup_entry settlement WalletEntryTopUpCredit
    (ts_PaymentID settlement) availableAdded 0 available (w_ReservedMinor row) debt
    creditProcessedAt);;
  mret (walletSnapshot row).

Definition CreditSettledTopUp (settlement : OrganizationTopUpSettlement)
    : ST World OrganizationWalletSnapshot :=
  check (OrganizationTopUpSettlement_Validate settlement);;
  Transaction (
    payment ← take_pk payments (ts_PaymentID settlement);
    payment ← found ErrNotFound payment;
    guard_not ((p_PaymentPurpose payment =s PaymentPurposeWalletTopUp)
      || (p_PaymentPurpose payment =s PaymentPurposeServicePurchase)) ErrUnsupportedMutation;;
    guard_not ((p_Currency payment ≠s ts_Currency settlement)
      || (ts_AmountMinor settlement >? p_GrossAmountMinor payment)) ErrConflict;;
    existing ← take_pk settlements (ts_PaymentID settlement);
    match existing with
    | Some existing =>
      guard_not (negb (sameTopUp existing settlement)) ErrConflict;;
      row ← take_pk wallets (ts_OrganizationID settlement, ts_Currency settlement);
      row ← found ErrUnavailable row;
      mret (walletSnapshot row)
    | None => credit_new_top_up settlement
    end).

(** ** Reserving funds for a purchase *)

Definition readWalletReserveDecision (input : ReserveWalletFundsInput)
    : ST World (option WalletReserveDecision) :=
  row ← take_pk decisions
    (rw_OrganizationID input, rw_OperationID input, rw_CommercialOrderID input);
  match row with
  | None => mret None
  | Some row =>
    let decision := reserveDecisionFromRow row in
    guard_not (negb (nil_error (WalletReserveDecision_Validate decision))
      || (wd_Currency decision ≠s rw_Currency input)
      || negb (wd_AmountMinor decision =? rw_AmountMinor input)) ErrWalletReservationConflict;;
    mret (Some decision)
  end.

Definition readReservationForDecision (decision : WalletReserveDecision)
    : ST World WalletReservation :=
  guard_not ((wd_Outcome decision ≠s WalletReserveDecisionReserved)
    || (wd_ReservationID decision =s "")) ErrWalletReservationConflict;;
  row ← take_pk_and reservations (wd_ReservationID decision) (λ r,
    (r_OrganizationID r =s wd_OrganizationID decision)
    && (r_OperationID r =s wd_OperationID decision)
    && (r_CommercialOrderID r =s wd_CommercialOrderID decision));
  row ← found ErrUnavailable row;
  guard_not ((r_Currency row ≠s wd_Currency decision)
    || negb (r_AmountMinor row =? wd_AmountMinor decision)) ErrWalletReservationConflict;;
  mret (reservationFromRow row).

(** The replay of a recorded decision; [None] is [insufficient = true]. *)
Definition replay_decision (decision : WalletReserveDecision)
    : ST World (option WalletReservation) :=
  if wd_Outcome decision =s WalletReserveDecisionRejectedInsufficientFunds then mret None
  else
    reservation ← readReservationForDecision decision;
    mret (Some reservation).

Definition decision_row (input : ReserveWalletFundsInput) (outcome reservationID : string)
    (decidedAt : Time) : walletReserveDecisionRow :=
  {| d_OrganizationID := rw_OrganizationID input; d_OperationID := rw_OperationID input;
     d_CommercialOrderID := rw_CommercialOrderID input; d_Currency := rw_Currency input;
     d_AmountMinor := rw_AmountMinor input; d_Outcome := outcome;
     d_ReservationID := reservationID; d_DecidedAt := decidedAt |}.

(** The first decision on a request: reject, or reserve. *)
Definition decide_reservation (input : ReserveWalletFundsInput) (wallet : organizationWalletRow)
    : ST World (option WalletReservation) :=
  if w_AvailableMinor wallet <? rw_AmountMinor input then
    now ← Now;
    or_error ErrUnavailable (Create decisions (decision_row input
      WalletReserveDecisionRejectedInsufficientFunds "" (Truncate now Microsecond)));;
    mret None
  else
    guard_not (w_ReservedMinor wallet >? (max_int64 -! rw_AmountMinor input)) ErrInvalid;;
    now ← nextWalletProcessingTimestamp (w_UpdatedAt wallet);
    id ← NewString;
    let reservation := {| r_OrganizationID := rw_OrganizationID input; r_ReservationID := id;
      r_OperationID := rw_OperationID input; r_CommercialOrderID := rw_CommercialOrderID input;
      r_FinishOperationID := None; r_Currency := rw_Currency input;
      r_AmountMinor := rw_AmountMinor input; r_State := WalletReservationReserved;
      r_CreatedAt := now; r_UpdatedAt := now |} in
    let wallet := with_balances wallet
      (w_AvailableMinor wallet -! rw_AmountMinor input)
      (w_ReservedMinor wallet +! rw_AmountMinor input) (w_DebtMinor wallet)
      (w_LifetimeTopUpMinor wallet) (w_LifetimeSpendMinor wallet)
      (w_Version wallet +! 1) now in
    saveWalletRow wallet;;
    or_error ErrUnavailable (Create reservations reservation);;
    or_error ErrUnavailable (Create decisions
      (decision_row input WalletReserveDecisionReserved id now));;
    createWalletEntry wallet WalletEntryPurchaseReserve (-! rw_AmountMinor input)
      (rw_AmountMinor input) 0 (rw_CommercialOrderID input) "" (rw_CommercialOrderID input) now;;
    mret (Some (reservationFromRow reservation)).

Definition reserve_transaction (input : ReserveWalletFundsInput)
    : ST World (option WalletReservation) :=
  decision ← readWalletReserveDecision input;
  match decision with
  | Some decision => replay_decision decision
  | None =>
    wallet ← lockOrCreateWallet (rw_OrganizationID input) (rw_Currency input);
    decision ← readWalletReserveDecision input;
    match decision with
    | Some decision => replay_decision decision
    | None => decide_reservation input wallet
    end
  end.

Definition ReserveCommercialPurchase (input : ReserveWalletFundsInput)
    : ST World WalletReservation :=
  guard_not (blank (rw_OrganizationID input) || blank (rw_OperationID input)
    || blank (rw_CommercialOrderID input) || (rw_Currency input ≠s WalletCurrencyCNY)
    || (rw_AmountMinor input <=? 0)) ErrInvalid;;
  out ← Transaction (reserve_transaction input);
  match out with
  | None => fail ErrWalletInsufficientBalance
  | Some reservation => mret reservation
  end.

(** ** Committing or releasing a reservation *)

Definition finish_row (reservation : walletReservationRow) (terminal operationID : string)
    (at_ : Time) : walletReservationRow :=
  {| r_OrganizationID := r_OrganizationID reservation;
     r_ReservationID := r_ReservationID reservation;
     r_OperationID := r_OperationID reservation;
     r_CommercialOrderID := r_CommercialOrderID reservation;
     r_FinishOperationID := Some operationID; r_Currency := r_Currency reservation;
     r_AmountMinor := r_AmountMinor reservation; r_State := terminal;
     r_CreatedAt := r_CreatedAt reservation; r_UpdatedAt := at_ |}.

(** Available, debt and lifetime spend after the end of a reservation, with the
    deltas of its ledger entry. *)
Definition finish_amounts (wallet : organizationWalletRow) (amount : Z) (terminal : string)
    : result (Z * Z * Z * Z * Z) :=
  if terminal =s WalletReservationReleased then
    let debtRepaid := minInt64 (w_DebtMinor wallet) amount in
    let availableDelta := amount -! debtRepaid in
    if w_AvailableMinor wallet >? (max_int64 -! availableDelta) then Err ErrInvalid
    else Ok (w_AvailableMinor wallet +! availableDelta, w_DebtMinor wallet -! debtRepaid,
             w_LifetimeSpendMinor wallet, availableDelta, -! debtRepaid)
  else if w_LifetimeSpendMinor wallet >? (max_int64 -! amount) then Err ErrInvalid
  else Ok (w_AvailableMinor wallet, w_DebtMinor wallet,
           w_LifetimeSpendMinor wallet +! amount, 0, 0).

(** [Save] has gorm stamp the reservation's [UpdatedAt] with its own clock. *)
Definition finishReservation (operationID organizationID orderID reservationID : string)
    (terminal kind : string) : ST World WalletReservation :=
  guard_not (blank operationID || (slen operationID >? 128) || blank organizationID
    || blank orderID || blank reservationID) ErrInvalid;;
  Transaction (
    operationOwner ← take reservations (λ r,
      match r_FinishOperationID r with Some x => x =s operationID | None => false end);
    match operationOwner with
    | Some owner =>
      guard_not ((r_ReservationID owner ≠s reservationID)
        || (r_OrganizationID owner ≠s organizationID)
        || (r_CommercialOrderID owner ≠s orderID) || (r_State owner ≠s terminal))
        ErrWalletReservationConflict;;
      mret (reservationFromRow owner)
    | None =>
      reservation ← take_pk_and reservations reservationID
        (λ r, r_OrganizationID r =s organizationID);
      reservation ← found ErrWalletReservationConflict reservation;
      guard_not (r_CommercialOrderID reservation ≠s orderID) ErrWalletReservationConflict;;
      guard_not (r_State reservation =s terminal) ErrWalletReservationConflict;;
      guard_not (r_State reservation ≠s WalletReservationReserved) ErrWalletReservationConflict;;
      wallet ← lockOrCreateWallet organizationID (r_Currency reservation);
      let amount := r_AmountMinor reservation in
      guard_not (w_ReservedMinor wallet <? amount) ErrWalletReservationConflict;;
      '(available, debt, spend, availableDelta, debtDelta) ←
        lift (finish_amounts wallet amount terminal);
      at_ ← nextWalletProcessingTimestamp (w_UpdatedAt wallet);
      let wallet := with_balances wallet available (w_ReservedMinor wallet -! amount) debt
        (w_LifetimeTopUpMinor wallet) spend (w_Version wallet +! 1) at_ in
      saveWalletRow wallet;;
      stamped ← Now;
      let reservation := finish_row reservation terminal operationID stamped in
      or_error ErrUnavailable (Save reservations reservation);;
      createWalletEntry wallet kind availableDelta (-! amount) debtDelta orderID "" orderID at_;;
      mret (reservationFromRow reservation)
    end).

Definition CommitCommercialPurchase (input : CommitWalletReservationInput)
    : ST World WalletReservation :=
  finishReservation (cw_OperationID input) (cw_OrganizationID input)
    (cw_CommercialOrderID input) (cw_ReservationID input) WalletReservationCommitted
    WalletEntryPurchaseCommit.

Definition ReleaseCommercialPurchase (input : ReleaseWalletReservationInput)
    : ST World WalletReservation :=
  finishReservation (rl_OperationID input) (rl_OrganizationID input)
    (rl_CommercialOrderID input) (rl_ReservationID input) WalletReservationReleased
    WalletEntryPurchaseRelease.

End wallet_repository.

(** * Lemmas *)

Lemma addTopUp_Ok available debt n available' debt' :
  0 ≤ available ≤ max_int64 → 0 ≤ debt ≤ max_int64 → 0 < n ≤ max_int64 →
  addTopUp available debt n = Ok (available', debt') →
  available' = available + (n - Z.min debt n) ∧ debt' = debt - Z.min debt n ∧
  available' ≤ max_int64.
Proof.
  unfold addTopUp. intros ??? Hr. repeat case_match; simplify_eq; reflect_bools.
  - rewrite Z.min_r by lia. i64.
  - rewrite Z.min_l by lia. i64.
Qed.

Lemma minInt64_min a b : minInt64 a b = Z.min a b.
Proof. unfold minInt64. case_match; reflect_bools; lia. Qed.
#[export] Hint Rewrite minInt64_min : go_bool.

Section wallet_runs.
Context `{Env}.

Lemma nextWalletProcessingTimestamp_run t w at_ w1 :
  nextWalletProcessingTimestamp t w = (Ok at_, w1) →
  the_db w1 = the_db w ∧ Truncate t Microsecond < at_ ∧ Truncate at_ Microsecond = at_.
Proof.
  unfold nextWalletProcessingTimestamp. intros Hr. inv_run. split; [done|].
  case_match; reflect_bools; (split; [unfold Microsecond in *; lia|]).
  - unfold Truncate, Microsecond. Z.to_euclidean_division_equations. lia.
  - apply Truncate_idem. done.
Qed.

Lemma lockOrCreateWallet_run org w row w1 : tables_ok (the_db w) →
  lockOrCreateWallet org WalletCurrencyCNY w = (Ok row, w1) →
  the_db w1 = put_rows wallets (<[(org, WalletCurrencyCNY) := row]> (rows wallets (the_db w)))
                (the_db w) ∧
  w_OrganizationID row = org ∧ w_Currency row = WalletCurrencyCNY ∧
  account_of row = account (the_db w) org.
Proof.
  intros Hok Hr. unfold lockOrCreateWallet in Hr. inv_run.
  match goal with H : CreateIgnore _ _ _ = _ |- _ =>
    apply CreateIgnore_Ok in H as [(->&->&Hd)|(->&Hn&_&->)] end.
  - match goal with H : Some _ = _ |- _ => rename H into Hl end. use_db. symmetry in Hl.
    apply (ok_wallets _ Hok) in Hl as Hk. destruct Hk as [[= -> Hc] Hcny].
    rewrite insert_id, put_rows_id by done. repeat split; [done|].
    by rewrite (account_lookup _ _ row).
  - tables.
    match goal with H : Some _ = _ |- _ => rename H into Hl end.
    cbn [pk wallets w_OrganizationID w_Currency] in *.
    rewrite lookup_insert_eq in Hl. simplify_eq. simpl w_OrganizationID. simpl w_Currency.
    repeat split. unfold account. by rewrite Hn.
Qed.

Lemma saveWalletRow_run org W row row' w u w1 :
  rows wallets (the_db w) = <[(org, WalletCurrencyCNY) := row]> W →
  w_OrganizationID row = org → w_Currency row = WalletCurrencyCNY →
  w_OrganizationID row' = org → w_Currency row' = WalletCurrencyCNY →
  saveWalletRow row' w = (Ok u, w1) →
  the_db w1 = put_rows wallets (<[(org, WalletCurrencyCNY) := row']> W) (the_db w).
Proof.
  intros Hw Ho Hc Ho' Hc' Hr. unfold saveWalletRow in Hr. rewrite Ho', Hc' in Hr. inv_run.
  read_tables. rewrite Hw, alter_insert_eq. f_equal. f_equal. rewrite Hc, <- Hc', <- Ho'.
  by destruct row'.
Qed.

(** ** Crediting *)

Lemma OrganizationTopUpSettlement_valid s :
  OrganizationTopUpSettlement_Validate s = None →
  ts_Currency s = WalletCurrencyCNY ∧ 0 < ts_AmountMinor s.
Proof.
  unfold OrganizationTopUpSettlement_Validate. intros Hv. reflect_bools. destruct_and!.
  split; [done|lia].
Qed.

Lemma create_entry_when_run c mk w u w1 : (∀ id, e_EntryID (mk id) = id) →
  create_entry_when c mk w = (Ok u, w1) →
  ∃ id E', the_db w1 = put_rows entries E' (the_db w) ∧
    added (if c then [mk id] else []) (rows entries (the_db w)) E'.
Proof.
  intros Hid Hr. unfold create_entry_when in Hr. destruct c; inv_run.
  - tables. eexists x, _. split; [reflexivity|]. by apply added_one.
  - exists ""%string, (rows entries (the_db w)). rewrite put_rows_id. split; [done|constructor].
Qed.

Lemma createWalletEntry_run wallet kind av res debt order payment source at_ w u w1 :
  createWalletEntry wallet kind av res debt order payment source at_ w = (Ok u, w1) →
  ∃ e E', the_db w1 = put_rows entries E' (the_db w) ∧
    added [e] (rows entries (the_db w)) E' ∧ e_OrganizationID e = w_OrganizationID wallet ∧
    e_AvailableDelta e = av ∧ e_ReservedDelta e = res ∧ e_DebtDelta e = debt.
Proof.
  intros Hr. unfold createWalletEntry in Hr. inv_run. tables.
  eexists _, _. split; [reflexivity|]. split; [by apply added_one|]. done.
Qed.

Lemma credit_instant_run b t w at_ w1 : credit_instant b t w = (Ok at_, w1) →
  the_db w1 = the_db w.
Proof.
  unfold credit_instant. intros Hr. destruct b; inv_run; [|done].
  by apply nextWalletProcessingTimestamp_run in Hr as (?&_).
Qed.

Ltac inv_helpers :=
  repeat match goal with
  | H : lockOrCreateWallet _ _ _ = (Ok _, _) |- _ =>
      apply lockOrCreateWallet_run in H as (?&?&?&?); [|done]
  | H : nextWalletProcessingTimestamp _ _ = (Ok _, _) |- _ =>
      apply nextWalletProcessingTimestamp_run in H as (?&_&_)
  | H : credit_instant _ _ _ = (Ok _, _) |- _ => apply credit_instant_run in H
  | H : create_entry_when _ _ _ = (Ok _, _) |- _ =>
      apply create_entry_when_run in H as (?&?&?&?); [|done]
  | H : createWalletEntry _ _ _ _ _ _ _ _ _ _ = (Ok _, _) |- _ =>
      apply createWalletEntry_run in H as (?&?&?&?&?&?&?&?)
  end;
  tables;
  repeat match goal with
  | H : saveWalletRow _ _ = (Ok _, _) |- _ =>
      eapply saveWalletRow_run in H; [|tables; reflexivity|done..]
  end;
  tables.

(** A new credit is one [Credit] movement. *)
Lemma credit_new_top_up_run s w out w' : typed s →
  OrganizationTopUpSettlement_Validate s = None → ledger_ok (the_db w) →
  rows settlements (the_db w) !! ts_PaymentID s = None →
  credit_new_top_up s w = (Ok out, w') →
  enabled (Credit (ts_AmountMinor s)) (account (the_db w) (ts_OrganizationID s)) ∧
  moves (Credit (ts_AmountMinor s)) (ts_OrganizationID s) (the_db w) (the_db w') ∧
  tables_ok (the_db w') ∧
  (∃ row, rows wallets (the_db w') !! (ts_OrganizationID s, WalletCurrencyCNY) = Some row ∧
     out = walletSnapshot row) ∧
  rows settlements (the_db w') =
    <[ts_PaymentID s := topup_settlement_row s]> (rows settlements (the_db w)).
Proof.
  intros Hty Hv Hok Hfresh Hr. pose proof Hok as [Htab _].
  apply OrganizationTopUpSettlement_valid in Hv as [Hc Hn]. destruct Hty as [Hty _].
  unfold credit_new_top_up in Hr. rewrite Hc in Hr. inv_run. inv_helpers.
  pose proof (account_bounds _ (ts_OrganizationID s) Hok) as Hb.
  match goal with H : account_of ?r = _ |- _ => rename r into row; rename H into Hacc end.
  rewrite <- Hacc in *. simpl in Hb. destruct_and!.
  match goal with H : addTopUp _ _ _ = _ |- _ => apply addTopUp_Ok in H as (->&->&?); [|i64_bounds..] end.
  match goal with H : (_ >? _) = false |- _ => apply Z.gtb_ltb in H || rewrite Z.gtb_ltb, Z.ltb_ge in H end.
  i64_norm.
  repeat match goal with H : added _ _ _ |- _ => revert H end. intros Ha1 Ha2.
  pose proof (added_app _ _ _ _ _ Ha1 Ha2) as Ha. clear Ha1 Ha2.
  split; [unfold enabled, fits; simpl; i64_bounds|]. tables.
  split; [|split; [solve_tables|split; [eexists; split; [apply lookup_insert_eq|done]|done]]].
  eapply posted_moves; [|solve_sourced].
  split; read_tables; rewrite <- ?Hacc; [done|done|exact Ha|..].
  - intros e. rewrite elem_of_app. repeat destruct (_ >? _); set_solver.
  - rewrite lsum_app. repeat case_match; simpl; reflect_bools; i64.
  - rewrite lsum_app. repeat case_match; simpl; reflect_bools; i64.
  - rewrite lsum_app. repeat case_match; simpl; reflect_bools; i64.
Qed.

(** ** Reserving *)

(** A reservation that is granted is one [Reserve] movement. *)
Lemma decide_reservation_run i wallet w0 w out w' :
  in_int64 (rw_AmountMinor i) → 0 < rw_AmountMinor i → rw_Currency i = WalletCurrencyCNY →
  ledger_ok (the_db w0) →
  the_db w = put_rows wallets
    (<[(rw_OrganizationID i, WalletCurrencyCNY) := wallet]> (rows wallets (the_db w0))) (the_db w0) →
  w_OrganizationID wallet = rw_OrganizationID i → w_Currency wallet = WalletCurrencyCNY →
  account_of wallet = account (the_db w0) (rw_OrganizationID i) →
  decide_reservation i wallet w = (Ok out, w') →
  tables_ok (the_db w') ∧
  if a_available (account (the_db w0) (rw_OrganizationID i)) <? rw_AmountMinor i then
    out = None ∧ idle (the_db w0) (the_db w')
  else
    enabled (Reserve (rw_AmountMinor i)) (account (the_db w0) (rw_OrganizationID i)) ∧
    moves (Reserve (rw_AmountMinor i)) (rw_OrganizationID i) (the_db w0) (the_db w').
Proof.
  intros Hty Hn Hc Hok Hw Ho Hcu Hacc Hr. pose proof Hok as [Htab _].
  pose proof (account_bounds _ (rw_OrganizationID i) Hok) as Hb. rewrite <- Hacc in *.
  unfold decide_reservation in Hr. simpl a_available. simpl in Hb. destruct_and!.
  destruct (w_AvailableMinor wallet <? _) eqn:Hlt.
  - inv_run. inv_helpers. split; [solve_tables|]. split; [done|].
    apply (idle_trans _ _ _ (idle_wallet _ _ _ Hacc)). by apply same_ledger_idle.
  - inv_run. inv_helpers. i64_norm. reflect_bools.
    split; [solve_tables|].
    split; [unfold enabled, fits; simpl; i64_bounds|].
    eapply posted_moves; [solve_posted Hacc|solve_sourced].
Qed.

Lemma readWalletReserveDecision_run i w o w' : readWalletReserveDecision i w = (Ok o, w') →
  w' = w ∧ o = reserveDecisionFromRow <$>
    rows decisions (the_db w) !! (rw_OrganizationID i, rw_OperationID i, rw_CommercialOrderID i) ∧
  (∀ d, o = Some d → WalletReserveDecision_Validate d = None ∧
     wd_Currency d = rw_Currency i ∧ wd_AmountMinor d = rw_AmountMinor i).
Proof.
  unfold readWalletReserveDecision. intros Hr. inv_run.
  - match goal with H : Some _ = _ |- _ => rewrite <- H end. reflect_bools.
    split; [done|]. split; [done|]. intros d [= <-]. naive_solver.
  - by match goal with H : None = _ |- _ => rewrite <- H end.
Qed.

Lemma readReservationForDecision_run d w r w' :
  readReservationForDecision d w = (Ok r, w') → w' = w.
Proof. unfold readReservationForDecision. intros Hr. by inv_run. Qed.

Lemma replay_decision_run d w r w' : replay_decision d w = (Ok r, w') → w' = w.
Proof.
  unfold replay_decision. intros Hr. inv_run; [done|].
  eauto using readReservationForDecision_run.
Qed.

Lemma reserve_transaction_run i w out w' :
  typed i → 0 < rw_AmountMinor i → rw_Currency i = WalletCurrencyCNY → ledger_ok (the_db w) →
  reserve_transaction i w = (Ok out, w') →
  (w' = w ∧ is_Some (rows decisions (the_db w) !!
    (rw_OrganizationID i, rw_OperationID i, rw_CommercialOrderID i))) ∨
  tables_ok (the_db w') ∧
  if a_available (account (the_db w) (rw_OrganizationID i)) <? rw_AmountMinor i then
    out = None ∧ idle (the_db w) (the_db w')
  else
    enabled (Reserve (rw_AmountMinor i)) (account (the_db w) (rw_OrganizationID i)) ∧
    moves (Reserve (rw_AmountMinor i)) (rw_OrganizationID i) (the_db w) (the_db w').
Proof.
  intros Hty Hn Hc Hok Hr. pose proof Hok as [Htab _]. unfold reserve_transaction in Hr.
  apply bind_Ok in Hr as (d & w1 & Hd & Hr).
  apply readWalletReserveDecision_run in Hd as (-> & Hd & _). destruct d as [d|].
  { left. apply replay_decision_run in Hr as ->. split; [done|].
    symmetry in Hd. apply fmap_Some in Hd as (row & -> & _). eauto. }
  right. rewrite Hc in Hr. apply bind_Ok in Hr as (wallet & w1 & Hl & Hr).
  apply lockOrCreateWallet_run in Hl as (Hdb & Ho & Hcu & Hacc); [|done].
  apply bind_Ok in Hr as (d & w2 & Hd2 & Hr).
  apply readWalletReserveDecision_run in Hd2 as (-> & Hd2 & _).
  rewrite Hdb in Hd2. read_tables. rewrite <- Hd in Hd2. subst d.
  by eapply decide_reservation_run.
Qed.

Lemma reserve_input_valid i :
  blank (rw_OrganizationID i) || blank (rw_OperationID i)
    || blank (rw_CommercialOrderID i) || (rw_Currency i ≠s WalletCurrencyCNY)
    || (rw_AmountMinor i <=? 0) = false →
  rw_Currency i = WalletCurrencyCNY ∧ 0 < rw_AmountMinor i.
Proof. intros. reflect_bools. destruct_and!. split; [done|lia]. Qed.

(** ** Committing and releasing *)

Lemma finish_amounts_Ok wallet n terminal available debt spend dav ddebt :
  0 ≤ w_AvailableMinor wallet ≤ max_int64 → 0 ≤ w_DebtMinor wallet ≤ max_int64 →
  0 ≤ w_LifetimeSpendMinor wallet ≤ max_int64 → 0 < n ≤ max_int64 →
  finish_amounts wallet n terminal = Ok (available, debt, spend, dav, ddebt) →
  let a' := apply (if terminal =s WalletReservationReleased then Release n else Commit n)
              (account_of wallet) in
  available = a_available a' ∧ debt = a_debt a' ∧ spend = a_spend a' ∧
  dav = a_available a' - w_AvailableMinor wallet ∧ ddebt = a_debt a' - w_DebtMinor wallet ∧
  available ≤ max_int64 ∧ spend ≤ max_int64.
Proof.
  intros ???? Hf. unfold finish_amounts in Hf. rewrite minInt64_min in Hf.
  destruct (terminal =s _); case_match; simplify_eq; reflect_bools; simpl; i64_norm;
    repeat split; lia.
Qed.

Lemma finish_row_total f r t op at_ R o : R !! r_ReservationID r = Some r →
  total r_OrganizationID f (<[r_ReservationID r := finish_row r t op at_]> R) o =
  total r_OrganizationID f R o +
  (if o =s r_OrganizationID r then f (finish_row r t op at_) - f r else 0).
Proof. intros. by rewrite (total_update _ _ _ _ r). Qed.

Definition finish_movement (terminal : string) (n : Z) : movement :=
  if terminal =s WalletReservationReleased then Release n else Commit n.

Lemma finish_movement_facts t n a :
  a_reserved (apply (finish_movement t n) a) = a_reserved a - n ∧
  a_topup (apply (finish_movement t n) a) = a_topup a ∧
  a_spend (apply (finish_movement t n) a) =
    a_spend a + (if t =s WalletReservationReleased then 0 else n) ∧
  reversed_by (finish_movement t n) = 0 ∧
  (0 < n ≤ a_reserved a → covered (finish_movement t n) a).
Proof. unfold finish_movement. case_match; simpl; repeat split; lia. Qed.

Lemma finish_row_amounts r t op at_ :
  t = WalletReservationCommitted ∨ t = WalletReservationReleased →
  r_State r = WalletReservationReserved →
  reserved_amount (finish_row r t op at_) = 0 ∧ reserved_amount r = r_AmountMinor r ∧
  committed_amount (finish_row r t op at_) - committed_amount r =
    if t =s WalletReservationReleased then 0 else r_AmountMinor r.
Proof.
  unfold reserved_amount, committed_amount. intros [->| ->] ->; simpl; repeat split; lia.
Qed.

Lemma finishReservation_run op org order id terminal kind w out w' :
  terminal = WalletReservationCommitted ∨ terminal = WalletReservationReleased →
  ledger_ok (the_db w) → finishReservation op org order id terminal kind w = (Ok out, w') →
  (w' = w ∧ ∃ r, rows reservations (the_db w) !! id = Some r ∧ r_OrganizationID r = org ∧
     r_CommercialOrderID r = order ∧ r_State r = terminal ∧ r_FinishOperationID r = Some op ∧
     out = reservationFromRow r) ∨
  ∃ r, rows reservations (the_db w) !! id = Some r ∧
    r_OrganizationID r = org ∧ r_CommercialOrderID r = order ∧
    r_State r = WalletReservationReserved ∧
    rows reservations (the_db w') =
      <[id := finish_row r terminal op (wr_UpdatedAt out)]> (rows reservations (the_db w)) ∧
    out = reservationFromRow (finish_row r terminal op (wr_UpdatedAt out)) ∧
    enabled (finish_movement terminal (r_AmountMinor r)) (account (the_db w) org) ∧
    moves (finish_movement terminal (r_AmountMinor r)) org (the_db w) (the_db w') ∧
    tables_ok (the_db w').
Proof.
  intros Hterm Hok Hr. pose proof Hok as [Htab _].
  pose proof (account_bounds _ org Hok) as Hb. unfold finishReservation in Hr.
  apply bind_Ok in Hr as (? & ? & Hg & Hr). apply guard_not_Ok in Hg as [_ ->].
  inv_run; [left|right].
  { match goal with H : Some ?r = map_find _ _ |- _ =>
      symmetry in H; apply map_find_Some in H as [Hop [k Hk]] end.
    reflect_bools. split; [done|]. destruct_and!. subst.
    destruct (ok_reservations _ Htab _ _ Hk) as (-> & _). eexists. split; [exact Hk|].
    repeat split; [done..|]. destruct (r_FinishOperationID _) eqn:?; [|done]. by reflect_bools; subst. }
  match goal with H : ∀ v, Some ?r = Some v → _ |- _ =>
    destruct (H r eq_refl) as [Hl Horg%String.eqb_eq]; rename r into res end.
  destruct (ok_reservations _ Htab _ _ Hl) as (Hid & Hcny & Hn). rewrite Hcny in *.
  match goal with H : finish_amounts _ _ _ = _ |- _ => rename H into Hf end.
  inv_helpers. reflect_bools.
  match goal with H : account_of _ = _ |- _ => rename H into Hacc end.
  rewrite <- Hacc in *. simpl in Hb. destruct_and!.
  apply finish_amounts_Ok in Hf as (->&->&->&->&->&?&?); [|done..].
  assert (in_int64 (r_AmountMinor res)) by i64_bounds. i64_norm.
  exists res. do 4 (split; [by subst|]). read_tables.
  split; [by rewrite Hid|]. split; [done|].
  fold (finish_movement terminal (r_AmountMinor res)) in *.
  match goal with |- context [finish_row res terminal op ?t] =>
    set (stamped := t); destruct (finish_row_amounts res terminal op stamped) as (Hr1&Hr2&Hc); [done|done|] end.
  destruct (finish_movement_facts terminal (r_AmountMinor res) (account_of x11))
    as (Hm1&Hm2&Hm3&Hm4&Hm5). simpl in Hm1, Hm2.
  split; [|split].
  - split; [apply Hm5; simpl; lia|]. unfold fits. rewrite Hm1, Hm2.
    assert (a_debt (apply (finish_movement terminal (r_AmountMinor res)) (account_of x11))
      ≤ w_DebtMinor x11) by (unfold finish_movement; case_match; simpl; lia). i64_bounds.
  - eapply posted_moves.
    + split; read_tables; rewrite <- ?Hacc; [done| |eassumption|..].
      * simpl. rewrite <- Hm1, <- Hm2. by destruct (apply _ _).
      * intros ?. rewrite list_elem_of_singleton. intros ->. simpl in *. congruence.
      * simpl. lia.
      * simpl. lia.
      * simpl. lia.
    + rewrite <- Hacc. split; intros o; unfold books; books_cbn; read_tables;
        change (pk reservations (finish_row res terminal op stamped)) with (r_ReservationID res);
        rewrite ?finish_row_total by (by rewrite <- Hid);
        rewrite ?Hr1, ?Hr2, ?Hm1, ?Hm2, ?Hm3, ?Hm4, ?Horg, ?Hc; simpl; by_owner; lia.
  - solve_tables.
Qed.
End wallet_runs.

(** ** Footprints *)

Section wallet_footprints.
Context `{Env} (R : World → World → Prop) `{!Frame R, !Writes R wallets, !Inserts R entries}.

Lemma lockOrCreateWallet_keeps o c : keeps R (lockOrCreateWallet o c).
Proof. unfold lockOrCreateWallet. solve_keeps. Qed.
Lemma nextWalletProcessingTimestamp_keeps t : keeps R (nextWalletProcessingTimestamp t).
Proof. unfold nextWalletProcessingTimestamp. solve_keeps. Qed.
Lemma saveWalletRow_keeps r : keeps R (saveWalletRow r).
Proof. unfold saveWalletRow. solve_keeps. Qed.
Lemma createWalletEntry_keeps wl k a b c o p s t : keeps R (createWalletEntry wl k a b c o p s t).
Proof. unfold createWalletEntry. solve_keeps. Qed.
Lemma create_entry_when_keeps c mk : keeps R (create_entry_when c mk).
Proof. unfold create_entry_when. solve_keeps. Qed.
Lemma readWalletReserveDecision_keeps i : keeps R (readWalletReserveDecision i).
Proof. unfold readWalletReserveDecision. solve_keeps. Qed.
Lemma replay_decision_keeps d : keeps R (replay_decision d).
Proof. unfold replay_decision, readReservationForDecision. solve_keeps. Qed.
Hint Resolve lockOrCreateWallet_keeps nextWalletProcessingTimestamp_keeps saveWalletRow_keeps
  createWalletEntry_keeps create_entry_when_keeps readWalletReserveDecision_keeps
  replay_decision_keeps : keeps.

Lemma credit_instant_keeps b t : keeps R (credit_instant b t).
Proof. unfold credit_instant. solve_keeps. Qed.
Hint Resolve credit_instant_keeps : keeps.

Lemma ReadOrganizationWallet_keeps o c : keeps R (ReadOrganizationWallet o c).
Proof. unfold ReadOrganizationWallet, emptyWallet. solve_keeps. Qed.

Lemma CreditSettledTopUp_keeps `{!Inserts R settlements} s : keeps R (CreditSettledTopUp s).
Proof. unfold CreditSettledTopUp, credit_new_top_up. solve_keeps. Qed.

Lemma ReserveCommercialPurchase_keeps `{!Inserts R reservations, !Inserts R decisions} i :
  keeps R (ReserveCommercialPurchase i).
Proof.
  unfold ReserveCommercialPurchase, reserve_transaction, decide_reservation. solve_keeps.
Qed.

Lemma finishReservation_keeps `{!Saves R reservations} op org order id t k :
  keeps R (finishReservation op org order id t k).
Proof. unfold finishReservation. solve_keeps. Qed.
End wallet_footprints.

#[export] Hint Resolve lockOrCreateWallet_keeps nextWalletProcessingTimestamp_keeps
  saveWalletRow_keeps createWalletEntry_keeps create_entry_when_keeps ReadOrganizationWallet_keeps
  CreditSettledTopUp_keeps ReserveCommercialPurchase_keeps finishReservation_keeps : keeps.
