(* ===== verification/TopUpRepo.v ===== *)
(** * Provider top-ups and their reversals

    Models src/internal/integration/persistence/money/provider_topup_repository.go
    (and [claimChannelPayment] of service_repository.go, which it shares with
    the service payments): posting a verified top-up, accepting its refunds and
    chargebacks, and the refund holds that reserve funds ahead of a refund. *)
From S2P Require Import Prelude GoStd Encoding MoneyTypes ProviderTopUp ServiceMoney Store MoneyStore WalletSpec WalletRepo.

(** [json.Marshal] of a struct fails exactly when one of its instants does. *)
Definition MarshalTime {S} (t : Time) : ST S unit :=
  match json_time t with Some _ => mret tt | None => fail ErrMarshal end.

Definition paymentRowFromFact (p : PaymentSettlement) : paymentRow := {|
  p_PaymentID := ps_PaymentID p; p_PaymentPurpose := ps_PaymentPurpose p;
  p_CommissionTreatment := ps_CommissionTreatment p; p_PayerBinding := ps_PayerBinding p;
  p_PayerUserID := ps_PayerUserID p; p_Currency := ps_Currency p;
  p_GrossAmountMinor := ps_GrossAmountMinor p;
  p_DiscountAmountMinor := ps_DiscountAmountMinor p;
  p_CommissionableAmountMinor := ps_CommissionableAmountMinor p; p_Status := ps_Status p;
  p_SettledAt := NormalizeTimestamp (ps_SettledAt p);
  p_ProviderReference := ps_ProviderReference p; p_Version := ps_Version p |}.

Definition refundHold (row : topUpRefundHoldRow) : TopUpRefundHold := {|
  rh_HoldID := h_HoldID row;
  rh_Input := {| ri_Key := {| rk_PaymentID := h_PaymentID row; rk_Kind := WalletReversalRefund;
                              rk_ReversalID := h_ReversalID row |};
                 ri_OrganizationID := h_OrganizationID row;
                 ri_CommercialOrderID := h_CommercialOrderID row;
                 ri_AmountMinor := h_AmountMinor row; ri_ApprovalID := h_ApprovalID row |};
  rh_State := h_State row; rh_Dispatched := h_Dispatched row;
  rh_CreatedAt := h_CreatedAt row |}.

Definition set_hold_state (state : string) (h : topUpRefundHoldRow) : topUpRefundHoldRow :=
  {| h_HoldID := h_HoldID h; h_PaymentID := h_PaymentID h; h_ReversalID := h_ReversalID h;
     h_OrganizationID := h_OrganizationID h; h_CommercialOrderID := h_CommercialOrderID h;
     h_AmountMinor := h_AmountMinor h; h_ApprovalID := h_ApprovalID h; h_State := state;
     h_Dispatched := h_Dispatched h; h_CreatedAt := h_CreatedAt h |}.

Definition set_hold_dispatched (h : topUpRefundHoldRow) : topUpRefundHoldRow :=
  {| h_HoldID := h_HoldID h; h_PaymentID := h_PaymentID h; h_ReversalID := h_ReversalID h;
     h_OrganizationID := h_OrganizationID h; h_CommercialOrderID := h_CommercialOrderID h;
     h_AmountMinor := h_AmountMinor h; h_ApprovalID := h_ApprovalID h; h_State := h_State h;
     h_Dispatched := true; h_CreatedAt := h_CreatedAt h |}.

Definition set_claim_receipt (r : TopUpPostingReceipt) (c : providerTopUpRow) : providerTopUpRow :=
  {| pc_ClaimID := pc_ClaimID c; pc_PaymentID := pc_PaymentID c;
     pc_CommercialOrderID := pc_CommercialOrderID c; pc_OrganizationID := pc_OrganizationID c;
     pc_Fingerprint := pc_Fingerprint c; pc_Receipt := Some r |}.

Section provider_topup_repository.
Context `{Env}.

(** ** The channel claim shared by top-ups and service payments *)

Definition claimChannelPayment (b : ProviderPaymentBinding) (paymentID purpose : string)
    : ST World unit :=
  let seed := {| cc_ClaimID := ProviderPaymentBinding_ClaimID b; cc_PaymentID := paymentID;
                 cc_Purpose := purpose |} in
  CreateIgnore channel_claims seed;;
  got ← take_pk channel_claims (cc_ClaimID seed);
  got ← found ErrConflict got;
  guard_not ((cc_PaymentID got ≠s paymentID) || (cc_Purpose got ≠s purpose)) ErrConflict.

(** ** Posting an entry *)

(** The wallet after the entry, and the entry's identity. *)
Definition postTopUpEntry (wallet : organizationWalletRow) (kind : string)
    (available reserved debt : Z) (order payment source : string)
    : ST World (organizationWalletRow * string) :=
  at_ ← nextWalletProcessingTimestamp (w_UpdatedAt wallet);
  let wallet := with_balances wallet (w_AvailableMinor wallet) (w_ReservedMinor wallet)
    (w_DebtMinor wallet) (w_LifetimeTopUpMinor wallet) (w_LifetimeSpendMinor wallet)
    (w_Version wallet +! 1) at_ in
  id ← NewString;
  let row := {| e_EntryID := id; e_OrganizationID := w_OrganizationID wallet;
    e_Currency := w_Currency wallet; e_Kind := kind; e_AvailableDelta := available;
    e_ReservedDelta := reserved; e_DebtDelta := debt;
    e_AvailableAfter := w_AvailableMinor wallet; e_ReservedAfter := w_ReservedMinor wallet;
    e_DebtAfter := w_DebtMinor wallet; e_CommercialOrderID := order; e_PaymentID := payment;
    e_SourceIdentity := source; e_OccurredAt := w_UpdatedAt wallet |} in
  guard_not (negb (nil_error (WalletEntry_Validate (walletEntry row)))
    || negb (nil_error (OrganizationWalletSnapshot_Validate (walletSnapshot wallet))))
    ErrInvalid;;
  saveWalletRow wallet;;
  Create entries row;;
  mret (wallet, id).

Definition lockProviderTopUp (payment : string) : ST World walletTopUpSettlementRow :=
  claim ← take claims (λ c, pc_PaymentID c =s payment);
  claim ← found ErrNotFound claim;
  p ← take_pk payments payment;
  p ← found ErrRecordNotFound p;
  guard_not (p_PaymentPurpose p ≠s PaymentPurposeWalletTopUp) ErrInvalid;;
  binding ← take_pk settlements payment;
  binding ← found ErrRecordNotFound binding;
  guard_not (negb (t_AmountMinor binding =? p_GrossAmountMinor p)
    || (t_OrganizationID binding ≠s pc_OrganizationID claim)
    || (t_CommercialOrderID binding ≠s pc_CommercialOrderID claim)) ErrConflict;;
  mret binding.

(** ** Accepting a reversal *)

Definition normalized_reversal (r : OrganizationWalletReversal) : OrganizationWalletReversal :=
  {| rv_ReversalID := rv_ReversalID r; rv_PaymentID := rv_PaymentID r;
     rv_CommercialOrderID := rv_CommercialOrderID r; rv_OrganizationID := rv_OrganizationID r;
     rv_Kind := rv_Kind r; rv_Currency := rv_Currency r; rv_AmountMinor := rv_AmountMinor r;
     rv_OccurredAt := NormalizeTimestamp (rv_OccurredAt r);
     rv_ProviderReference := rv_ProviderReference r |}.

Definition reversal_key (r : OrganizationWalletReversal) : TopUpReversalKey :=
  {| rk_PaymentID := rv_PaymentID r; rk_Kind := rv_Kind r; rk_ReversalID := rv_ReversalID r |}.

Definition reversal_fingerprint (r : OrganizationWalletReversal) : string :=
  TopUpFingerprint (OrganizationWalletReversal_json r).

(** The per-kind fact keeps its full amount, the excess included. *)
Definition record_reversal_fact (r : OrganizationWalletReversal) : ST World unit :=
  created ← (if rv_Kind r =s WalletReversalRefund then
      CreateIgnore refunds {| f_RefundID := rv_ReversalID r; f_PaymentID := rv_PaymentID r;
        f_AmountMinor := rv_AmountMinor r; f_OccurredAt := rv_OccurredAt r;
        f_ProviderReference := rv_ProviderReference r |}
    else
      CreateIgnore chargebacks {| c_ChargebackID := rv_ReversalID r;
        c_PaymentID := rv_PaymentID r; c_AmountMinor := rv_AmountMinor r;
        c_OccurredAt := rv_OccurredAt r; c_ProviderReference := rv_ProviderReference r |});
  guard_not (negb created) ErrConflict.

(** The refund hold this reversal consumes, if one is open. *)
Definition open_hold (r : OrganizationWalletReversal) (id : string)
    : ST World (option topUpRefundHoldRow) :=
  if rv_Kind r =s WalletReversalRefund then
    hold ← take_pk holds id;
    match hold with
    | None => mret None
    | Some hold =>
      guard_not ((h_PaymentID hold ≠s rv_PaymentID r)
        || (h_OrganizationID hold ≠s rv_OrganizationID r)
        || (h_CommercialOrderID hold ≠s rv_CommercialOrderID r)
        || negb (h_AmountMinor hold =? rv_AmountMinor r)
        || (h_State hold =s HoldConfirmed)) ErrConflict;;
      mret (if h_State hold =s HoldReleased then None else Some hold)
    end
  else mret None.

(** What posting the reversal did to the wallet, as its receipt tells it. *)
Record ReversalPosting := {
  po_HoldID : string;
  po_HoldState : string;
  po_Consumed : Z;
  po_Released : Z;
  po_Repaid : Z;
  po_EntryIDs : list string }.

(** Principal [d] of the reversal and excess [e] of it, against the wallet. *)
Definition post_reversal (r : OrganizationWalletReversal) (id : string)
    (hold : option topUpRefundHoldRow) (wallet : organizationWalletRow) (d e : Z)
    : ST World ReversalPosting :=
  match hold with
  | Some _ =>
    guard_not (w_ReservedMinor wallet <? rv_AmountMinor r) ErrConflict;;
    let repaid := minInt64 (w_DebtMinor wallet) e in
    let availableAdded := e -! repaid in
    guard_not (w_AvailableMinor wallet >? (max_int64 -! availableAdded)) ErrInvalid;;
    '(_, entry) ← postTopUpEntry
      (with_balances wallet (w_AvailableMinor wallet +! availableAdded)
         (w_ReservedMinor wallet -! rv_AmountMinor r) (w_DebtMinor wallet -! repaid)
         (w_LifetimeTopUpMinor wallet) (w_LifetimeSpendMinor wallet) (w_Version wallet)
         (w_UpdatedAt wallet))
      WalletEntryRefundConfirm availableAdded (-! rv_AmountMinor r) (-! repaid)
      (rv_CommercialOrderID r) (rv_PaymentID r) (id +:+ ":confirm")%string;
    Update holds id (set_hold_state HoldConfirmed);;
    mret {| po_HoldID := id; po_HoldState := HoldConfirmed; po_Consumed := d;
            po_Released := e; po_Repaid := repaid; po_EntryIDs := [entry] |}
  | None =>
    if d >? 0 then
      let loss := minInt64 (w_AvailableMinor wallet) d in
      let debt := d -! loss in
      guard_not (w_DebtMinor wallet >? (max_int64 -! debt)) ErrInvalid;;
      '(_, entry) ← postTopUpEntry
        (with_balances wallet (w_AvailableMinor wallet -! loss) (w_ReservedMinor wallet)
           (w_DebtMinor wallet +! debt) (w_LifetimeTopUpMinor wallet)
           (w_LifetimeSpendMinor wallet) (w_Version wallet) (w_UpdatedAt wallet))
        (if rv_Kind r =s WalletReversalChargeback then WalletEntryChargebackReversal
         else WalletEntryRefundReversal)
        (-! loss) 0 debt (rv_CommercialOrderID r) (rv_PaymentID r) id;
      mret {| po_HoldID := ""; po_HoldState := ""; po_Consumed := 0; po_Released := 0;
              po_Repaid := 0; po_EntryIDs := [entry] |}
    else
      mret {| po_HoldID := ""; po_HoldState := ""; po_Consumed := 0; po_Released := 0;
              po_Repaid := 0; po_EntryIDs := [] |}
  end.

(** Its strings are in text columns of the same transaction too: JSON gives this
    receipt back as it was. *)
Definition reversal_receipt (r : OrganizationWalletReversal) (id fp : string) (d e : Z)
    (po : ReversalPosting) (postedAt : Time) (result : string) : TopUpReversalReceipt :=
  {| rr_ReceiptID := id; rr_Key := reversal_key r; rr_OrganizationID := rv_OrganizationID r;
     rr_CommercialOrderID := rv_CommercialOrderID r; rr_Currency := rv_Currency r;
     rr_ProviderAmountMinor := rv_AmountMinor r; rr_WalletPrincipalEffectMinor := d;
     rr_ExcessProviderMinor := e; rr_ExcessRecordID := (if e >? 0 then id else "");
     rr_HoldID := po_HoldID po; rr_HoldState := po_HoldState po;
     rr_HoldConsumedMinor := po_Consumed po; rr_HoldReleasedMinor := po_Released po;
     rr_HoldDebtRepaidMinor := po_Repaid po; rr_EntryIDs := po_EntryIDs po;
     rr_RequestFingerprint := fp; rr_ResultFingerprint := result; rr_PostedAt := postedAt |}.

(** The rows a settled reversal adds after its wallet movement. *)
Definition record_settled (r : OrganizationWalletReversal) (id fp : string) (d e : Z)
    (po : ReversalPosting) (postedAt : Time) : ST World TopUpReversalReceipt :=
  (if d >? 0 then Create reversals {| v_ReversalID := id; v_PaymentID := rv_PaymentID r;
       v_CommercialOrderID := rv_CommercialOrderID r; v_OrganizationID := rv_OrganizationID r;
       v_Kind := rv_Kind r; v_AmountMinor := d;
       v_ProviderReference := rv_ProviderReference r; v_OccurredAt := rv_OccurredAt r |}
   else mret tt);;
  (if e >? 0 then Create excesses {| x_ReceiptID := id; x_PaymentID := rv_PaymentID r;
       x_Kind := rv_Kind r; x_ReversalID := rv_ReversalID r;
       x_ProviderReference := rv_ProviderReference r;
       x_ProviderAmountMinor := rv_AmountMinor r; x_WalletPrincipalEffectMinor := d;
       x_ExcessProviderMinor := e; x_State := "OPEN" |}
   else mret tt);;
  let out := reversal_receipt r id fp d e po postedAt
    (TopUpReversalReceipt_Fingerprint (reversal_receipt r id fp d e po postedAt "")) in
  guard_not (negb (nil_error (TopUpReversalReceipt_Validate out))) ErrInvalid;;
  MarshalTime postedAt;;
  Create receipts {| tr_ReceiptID := id; tr_PaymentID := rv_PaymentID r;
    tr_Kind := rv_Kind r; tr_ReversalID := rv_ReversalID r;
    tr_OrganizationID := rv_OrganizationID r;
    tr_CommercialOrderID := rv_CommercialOrderID r;
    tr_ProviderAmountMinor := rv_AmountMinor r; tr_WalletPrincipalEffectMinor := d;
    tr_Fingerprint := fp; tr_Receipt := out |};;
  mret out.

(** The reversal of principal [d] and excess [e], once its amounts are known:
    the wallet, the reversal and excess rows, and the sealed receipt. *)
Definition settle_reversal (r : OrganizationWalletReversal) (id fp : string) (d e : Z)
    : ST World TopUpReversalReceipt :=
  hold ← open_hold r id;
  wallet ← lockOrCreateWallet (rv_OrganizationID r) (rv_Currency r);
  postedAt ← nextWalletProcessingTimestamp (w_UpdatedAt wallet);
  po ← post_reversal r id hold wallet d e;
  record_settled r id fp d e po postedAt.

(** The part of [acceptTopUpReversalTx] after the replay check. *)
Definition post_new_reversal (r : OrganizationWalletReversal) (id fp : string)
    (binding : walletTopUpSettlementRow) : ST World TopUpReversalReceipt :=
  record_reversal_fact r;;
  principal ← Sum receipts (λ x, tr_PaymentID x =s rv_PaymentID r) tr_WalletPrincipalEffectMinor;
  provider ← Sum receipts (λ x, tr_PaymentID x =s rv_PaymentID r) tr_ProviderAmountMinor;
  guard_not ((principal <? 0) || (principal >? t_AmountMinor binding)
    || (provider >? (max_int64 -! rv_AmountMinor r))) ErrInvalid;;
  let d := minInt64 (rv_AmountMinor r) (t_AmountMinor binding -! principal) in
  settle_reversal r id fp d (rv_AmountMinor r -! d).

Definition acceptTopUpReversalTx (input : OrganizationWalletReversal)
    : ST World TopUpReversalReceipt :=
  check (OrganizationWalletReversal_Validate input);;
  let r := normalized_reversal input in
  let id := TopUpReversalKey_StorageID (reversal_key r) in
  let fp := reversal_fingerprint r in
  binding ← lockProviderTopUp (rv_PaymentID r);
  guard_not ((t_OrganizationID binding ≠s rv_OrganizationID r)
    || (t_CommercialOrderID binding ≠s rv_CommercialOrderID r)
    || (t_Currency binding ≠s rv_Currency r)) ErrConflict;;
  previous ← take_pk receipts id;
  match previous with
  | Some previous =>
    guard_not ((tr_Fingerprint previous ≠s fp)
      || negb (nil_error (TopUpReversalReceipt_Validate (tr_Receipt previous)))) ErrConflict;;
    mret (tr_Receipt previous)
  | None => post_new_reversal r id fp binding
  end.

Definition AcceptProviderTopUpReversal (input : OrganizationWalletReversal)
    : ST World TopUpReversalReceipt :=
  check (OrganizationWalletReversal_Validate input);;
  Transaction (acceptTopUpReversalTx input).

(** ** Posting a verified top-up *)

Definition posting_receipt (i : ProviderTopUpInput) (claimID fp : string)
    (available repaid : Z) (entryIDs reversalIDs : list string) (postedAt : Time)
    (result : string) : TopUpPostingReceipt :=
  {| tp_ReceiptID := ("topup-posting:" +:+ claimID)%string; tp_OperationID := pt_OperationID i;
     tp_PaymentID := ps_PaymentID (pt_Payment i); tp_OrganizationID := pt_OrganizationID i;
     tp_CommercialOrderID := pt_CommercialOrderID i; tp_Binding := pt_Binding i;
     tp_Currency := pt_Currency i; tp_GrossCreditMinor := pt_AmountMinor i;
     tp_AvailableAddedMinor := available; tp_DebtRepaidMinor := repaid;
     tp_CreditEntryIDs := entryIDs; tp_KnownReversalReceiptIDs := reversalIDs;
     tp_RequestFingerprint := fp; tp_ResultFingerprint := result; tp_PostedAt := postedAt |}.

(** The credit entries of the posting: debt first, then available funds. *)
Definition post_credit (i : ProviderTopUpInput) (receiptID : string)
    (wallet : organizationWalletRow) (available debt added repaid : Z)
    : ST World (list string) :=
  let set w a d := with_balances w a (w_ReservedMinor w) d (w_LifetimeTopUpMinor w)
    (w_LifetimeSpendMinor w) (w_Version w) (w_UpdatedAt w) in
  let order := pt_CommercialOrderID i in
  let payment := ps_PaymentID (pt_Payment i) in
  '(wallet, debtIDs) ← (if repaid >? 0 then
      '(wallet, id) ← postTopUpEntry (set wallet (w_AvailableMinor wallet) debt)
        WalletEntryDebtRepayment 0 0 (-! repaid) order payment (receiptID +:+ ":debt")%string;
      mret (wallet, [id])
    else mret (wallet, []));
  creditIDs ← (if added >? 0 then
      '(_, id) ← postTopUpEntry (set wallet available (w_DebtMinor wallet))
        WalletEntryTopUpCredit added 0 0 order payment (receiptID +:+ ":credit")%string;
      mret [id]
    else mret []);
  mret (debtIDs ++ creditIDs).

(** The part of [AcceptAndPostProviderTopUp] for a claim without receipt. *)
Definition post_new_top_up (i : ProviderTopUpInput) (claimID fp : string)
    : ST World TopUpPostingReceipt :=
  let p := paymentRowFromFact (pt_Payment i) in
  created ← CreateIgnore payments p;
  guard_not (negb created) ErrConflict;;
  wallet ← lockOrCreateWallet (pt_OrganizationID i) (pt_Currency i);
  '(available, debt) ← lift (addTopUp (w_AvailableMinor wallet) (w_DebtMinor wallet)
                                      (pt_AmountMinor i));
  guard_not (w_LifetimeTopUpMinor wallet >? (max_int64 -! pt_AmountMinor i)) ErrInvalid;;
  postedAt ← nextWalletProcessingTimestamp (w_UpdatedAt wallet);
  let added := available -! w_AvailableMinor wallet in
  let repaid := w_DebtMinor wallet -! debt in
  let wallet := with_balances wallet (w_AvailableMinor wallet) (w_ReservedMinor wallet)
    (w_DebtMinor wallet) (w_LifetimeTopUpMinor wallet +! pt_AmountMinor i)
    (w_LifetimeSpendMinor wallet) (w_Version wallet) (w_UpdatedAt wallet) in
  entryIDs ← post_credit i ("topup-posting:" +:+ claimID)%string wallet available debt added repaid;
  Create settlements {| t_PaymentID := p_PaymentID p;
    t_CommercialOrderID := pt_CommercialOrderID i; t_OrganizationID := pt_OrganizationID i;
    t_Currency := pt_Currency i; t_AmountMinor := pt_AmountMinor i;
    t_SettledAt := p_SettledAt p; t_ProviderReference := p_ProviderReference p;
    t_Version := p_Version p |};;
  reversed ← each acceptTopUpReversalTx (pt_KnownReversals i);
  let receipt := posting_receipt i claimID fp added repaid entryIDs
    (rr_ReceiptID <$> reversed) postedAt in
  let out := receipt (TopUpPostingReceipt_Fingerprint (receipt ""%string)) in
  guard_not (negb (nil_error (TopUpPostingReceipt_Validate out))) ErrInvalid;;
  MarshalTime postedAt;;
  Update claims claimID (set_claim_receipt out);;
  mret out.

Definition AcceptAndPostProviderTopUp (i : ProviderTopUpInput)
    : ST World TopUpPostingReceipt :=
  check (ProviderTopUpInput_Validate i);;
  Transaction (
    claimChannelPayment (pt_Binding i) (ps_PaymentID (pt_Payment i)) PaymentPurposeWalletTopUp;;
    let seed := {| pc_ClaimID := ProviderPaymentBinding_ClaimID (pt_Binding i);
      pc_PaymentID := ps_PaymentID (pt_Payment i);
      pc_CommercialOrderID := pt_CommercialOrderID i; pc_OrganizationID := pt_OrganizationID i;
      pc_Fingerprint := ProviderTopUpInput_Fingerprint i; pc_Receipt := None |} in
    CreateIgnore claims seed;;
    claim ← take_pk claims (pc_ClaimID seed);
    claim ← found ErrConflict claim;
    guard_not ((pc_Fingerprint claim ≠s pc_Fingerprint seed)
      || (pc_PaymentID claim ≠s pc_PaymentID seed)
      || (pc_CommercialOrderID claim ≠s pc_CommercialOrderID seed)
      || (pc_OrganizationID claim ≠s pc_OrganizationID seed)) ErrConflict;;
    match pc_Receipt claim with
    | Some stored =>
      let out := json_TopUpPostingReceipt stored in
      guard_not (negb (nil_error (TopUpPostingReceipt_Validate out))) ErrConflict;;
      each acceptTopUpReversalTx (pt_KnownReversals i);;
      mret out
    | None => post_new_top_up i (pc_ClaimID seed) (pc_Fingerprint seed)
    end).

(** ** Readers *)

Definition ReadTopUpPosting (org order payment : string) : ST World TopUpPostingReceipt :=
  guard_not ((org =s "") || (order =s "") || (payment =s "")) ErrInvalid;;
  row ← take claims (λ c, (pc_OrganizationID c =s org) && (pc_CommercialOrderID c =s order)
                          && (pc_PaymentID c =s payment));
  row ← found ErrNotFound row;
  stored ← found ErrConflict (pc_Receipt row);
  let out := json_TopUpPostingReceipt stored in
  guard_not (negb (nil_error (TopUpPostingReceipt_Validate out))
    || (tp_OrganizationID out ≠s org) || (tp_CommercialOrderID out ≠s order)
    || (tp_PaymentID out ≠s payment)
    || (tp_RequestFingerprint out ≠s pc_Fingerprint row)) ErrConflict;;
  mret out.

Definition ReadTopUpReversal (org order : string) (key : TopUpReversalKey)
    : ST World TopUpReversalReceipt :=
  guard_not ((org =s "") || (order =s "") || negb (nil_error (TopUpReversalKey_Validate key)))
    ErrInvalid;;
  row ← take_pk_and receipts (TopUpReversalKey_StorageID key) (λ x,
    (tr_OrganizationID x =s org) && (tr_CommercialOrderID x =s order));
  row ← found ErrNotFound row;
  let out := tr_Receipt row in
  guard_not (negb (nil_error (TopUpReversalReceipt_Validate out))
    || negb (bool_decide (rr_Key out = key)) || (rr_OrganizationID out ≠s org)
    || (rr_CommercialOrderID out ≠s order)
    || (rr_RequestFingerprint out ≠s tr_Fingerprint row)) ErrConflict;;
  mret out.

Definition ReadTopUpRefundHold (i : TopUpRefundInput) : ST World TopUpRefundHold :=
  check (TopUpRefundInput_Validate i);;
  row ← take_pk_and holds (TopUpReversalKey_StorageID (ri_Key i)) (λ h,
    (h_OrganizationID h =s ri_OrganizationID i)
    && (h_CommercialOrderID h =s ri_CommercialOrderID i));
  row ← found ErrNotFound row;
  let out := refundHold row in
  guard_not (negb (bool_decide (rh_Input out = i))) ErrConflict;;
  mret out.

(** ** Refund holds *)

Definition checkRefundBudget (binding : walletTopUpSettlementRow) (extra : Z)
    : ST World unit :=
  confirmed ← Sum receipts (λ x, tr_PaymentID x =s t_PaymentID binding) tr_ProviderAmountMinor;
  held ← Sum holds (λ h, (h_PaymentID h =s t_PaymentID binding) && (h_State h =s HoldReserved))
    h_AmountMinor;
  guard_not ((confirmed <? 0) || (held <? 0) || (extra <? 0)
    || (confirmed >? t_AmountMinor binding)
    || (held >? (t_AmountMinor binding -! confirmed))
    || (extra >? (t_AmountMinor binding -! confirmed -! held))) ErrWalletInsufficientBalance.

Definition PrepareTopUpRefund (i : TopUpRefundInput) : ST World TopUpRefundHold :=
  check (TopUpRefundInput_Validate i);;
  Transaction (
    binding ← lockProviderTopUp (rk_PaymentID (ri_Key i));
    guard_not ((t_OrganizationID binding ≠s ri_OrganizationID i)
      || (t_CommercialOrderID binding ≠s ri_CommercialOrderID i)) ErrConflict;;
    existing ← take_pk holds (TopUpReversalKey_StorageID (ri_Key i));
    match existing with
    | Some existing =>
      let out := refundHold existing in
      guard_not (negb (bool_decide (rh_Input out = i))) ErrConflict;;
      mret out
    | None =>
      settled ← Count refunds (λ f, f_RefundID f =s rk_ReversalID (ri_Key i));
      guard_not (settled >? 0) ErrConflict;;
      checkRefundBudget binding (ri_AmountMinor i);;
      wallet ← lockOrCreateWallet (ri_OrganizationID i) (t_Currency binding);
      guard_not ((w_DebtMinor wallet >? 0) || (w_AvailableMinor wallet <? ri_AmountMinor i))
        ErrWalletInsufficientBalance;;
      guard_not (w_ReservedMinor wallet >? (max_int64 -! ri_AmountMinor i)) ErrInvalid;;
      let wallet' := with_balances wallet (w_AvailableMinor wallet -! ri_AmountMinor i)
        (w_ReservedMinor wallet +! ri_AmountMinor i) (w_DebtMinor wallet)
        (w_LifetimeTopUpMinor wallet) (w_LifetimeSpendMinor wallet) (w_Version wallet)
        (w_UpdatedAt wallet) in
      at_ ← nextWalletProcessingTimestamp (w_UpdatedAt wallet');
      let row := {| h_HoldID := TopUpReversalKey_StorageID (ri_Key i);
        h_PaymentID := rk_PaymentID (ri_Key i); h_ReversalID := rk_ReversalID (ri_Key i);
        h_OrganizationID := ri_OrganizationID i;
        h_CommercialOrderID := ri_CommercialOrderID i; h_AmountMinor := ri_AmountMinor i;
        h_ApprovalID := ri_ApprovalID i; h_State := HoldReserved; h_Dispatched := false;
        h_CreatedAt := at_ |} in
      Create holds row;;
      postTopUpEntry wallet' WalletEntryRefundReserve (-! ri_AmountMinor i)
        (ri_AmountMinor i) 0 (ri_CommercialOrderID i) (rk_PaymentID (ri_Key i))
        (h_HoldID row +:+ ":reserve")%string;;
      mret (refundHold row)
    end).

Definition AdmitTopUpRefund (i : TopUpRefundInput) : ST World TopUpRefundHold :=
  check (TopUpRefundInput_Validate i);;
  Transaction (
    binding ← lockProviderTopUp (rk_PaymentID (ri_Key i));
    row ← take_pk holds (TopUpReversalKey_StorageID (ri_Key i));
    row ← found ErrRecordNotFound row;
    let out := refundHold row in
    guard_not (negb (bool_decide (rh_Input out = i))) ErrConflict;;
    if h_Dispatched row then mret out
    else
      guard_not (h_State row ≠s HoldReserved) ErrConflict;;
      checkRefundBudget binding 0;;
      Update holds (h_HoldID row) set_hold_dispatched;;
      mret {| rh_HoldID := rh_HoldID out; rh_Input := rh_Input out; rh_State := rh_State out;
              rh_Dispatched := true; rh_CreatedAt := rh_CreatedAt out |}).

Definition ReleaseTopUpRefundHold (i : TopUpRefundInput) (terminalNotExecuted : bool)
    : ST World TopUpRefundHold :=
  check (TopUpRefundInput_Validate i);;
  Transaction (
    binding ← lockProviderTopUp (rk_PaymentID (ri_Key i));
    row ← take_pk holds (TopUpReversalKey_StorageID (ri_Key i));
    row ← found ErrRecordNotFound row;
    let out := refundHold row in
    guard_not (negb (bool_decide (rh_Input out = i)) || (h_State row =s HoldConfirmed))
      ErrConflict;;
    if h_State row =s HoldReleased then mret out
    else
      guard_not (h_Dispatched row && negb terminalNotExecuted) ErrConflict;;
      wallet ← lockOrCreateWallet (ri_OrganizationID i) (t_Currency binding);
      guard_not (w_ReservedMinor wallet <? ri_AmountMinor i) ErrConflict;;
      '(available, debt) ← lift (addTopUp (w_AvailableMinor wallet) (w_DebtMinor wallet)
                                          (ri_AmountMinor i));
      let added := available -! w_AvailableMinor wallet in
      let repaid := w_DebtMinor wallet -! debt in
      postTopUpEntry (with_balances wallet available
          (w_ReservedMinor wallet -! ri_AmountMinor i) debt (w_LifetimeTopUpMinor wallet)
          (w_LifetimeSpendMinor wallet) (w_Version wallet) (w_UpdatedAt wallet))
        WalletEntryRefundRelease added (-! ri_AmountMinor i) (-! repaid)
        (ri_CommercialOrderID i) (rk_PaymentID (ri_Key i)) (h_HoldID row +:+ ":release")%string;;
      Update holds (h_HoldID row) (set_hold_state HoldReleased);;
      mret {| rh_HoldID := rh_HoldID out; rh_Input := rh_Input out;
              rh_State := HoldReleased; rh_Dispatched := rh_Dispatched out;
              rh_CreatedAt := rh_CreatedAt out |}).

End provider_topup_repository.

(** * Lemmas *)

Ltac reversal_cbn :=
  cbn [rv_PaymentID rv_OrganizationID rv_CommercialOrderID rv_Currency rv_AmountMinor rv_Kind
       rv_ReversalID normalized_reversal] in *.

Section topup_runs.
Context `{Env}.

Lemma postTopUpEntry_run org W row wallet kind av res debt order payment source w wallet' id w1 :
  rows wallets (the_db w) = <[(org, WalletCurrencyCNY) := row]> W →
  w_OrganizationID row = org → w_Currency row = WalletCurrencyCNY →
  w_OrganizationID wallet = org → w_Currency wallet = WalletCurrencyCNY →
  postTopUpEntry wallet kind av res debt order payment source w = (Ok (wallet', id), w1) →
  ∃ e, the_db w1 = put_rows entries (<[e_EntryID e := e]> (rows entries (the_db w)))
         (put_rows wallets (<[(org, WalletCurrencyCNY) := wallet']> W) (the_db w)) ∧
    added [e] (rows entries (the_db w)) (<[e_EntryID e := e]> (rows entries (the_db w))) ∧
    e_OrganizationID e = org ∧ e_AvailableDelta e = av ∧ e_ReservedDelta e = res ∧
    e_DebtDelta e = debt ∧ account_of wallet' = account_of wallet ∧
    w_OrganizationID wallet' = org ∧ w_Currency wallet' = WalletCurrencyCNY ∧
    WalletEntry_Validate (walletEntry e) = None.
Proof.
  intros Hw Ho Hc Ho' Hc' Hr. unfold postTopUpEntry in Hr.
  apply bind_Ok in Hr as (at_ & w2 & Hat & Hr).
  apply nextWalletProcessingTimestamp_run in Hat as (Hdb2 & _ & _).
  inv_run. tables. reflect_bools. destruct_and!.
  match goal with H : saveWalletRow _ _ = _ |- _ =>
    eapply saveWalletRow_run in H; [|tables; exact Hw|done..] end.
  tables. simplify_eq. eexists. split; [reflexivity|]. split; [by apply added_one|].
  repeat split; done.
Qed.

Lemma lockProviderTopUp_run payment w t w1 :
  lockProviderTopUp payment w = (Ok t, w1) →
  w1 = w ∧ rows settlements (the_db w) !! payment = Some t ∧
  (∃ p, rows payments (the_db w) !! payment = Some p ∧
    p_PaymentPurpose p = PaymentPurposeWalletTopUp ∧ t_AmountMinor t = p_GrossAmountMinor p) ∧
  (∃ c, map_find (λ c, pc_PaymentID c =s payment) (rows claims (the_db w)) = Some c ∧
    t_OrganizationID t = pc_OrganizationID c ∧ t_CommercialOrderID t = pc_CommercialOrderID c).
Proof.
  unfold lockProviderTopUp. intros Hr. inv_run. reflect_bools. destruct_and!. naive_solver.
Qed.

Lemma OrganizationWalletReversal_valid r :
  OrganizationWalletReversal_Validate r = None →
  rv_Currency r = WalletCurrencyCNY ∧ 0 < rv_AmountMinor r ∧
  (rv_Kind r = WalletReversalRefund ∨ rv_Kind r = WalletReversalChargeback).
Proof.
  unfold OrganizationWalletReversal_Validate. intros Hv. reflect_bools. destruct_and!.
  split; [done|]. split; [lia|]. tauto.
Qed.

Lemma record_reversal_fact_run r w u w1 : record_reversal_fact r w = (Ok u, w1) →
  same_ledger (the_db w) (the_db w1) ∧ rows receipts (the_db w1) = rows receipts (the_db w) ∧
  rows claims (the_db w1) = rows claims (the_db w) ∧
  rows payments (the_db w1) = rows payments (the_db w).
Proof.
  unfold record_reversal_fact. intros Hr. inv_run;
    match goal with H : CreateIgnore _ _ _ = _ |- _ =>
      apply CreateIgnore_Ok in H as [(->&->&_)|(->&_&_&->)] end; by repeat split.
Qed.

(** The movement a reversal makes: it consumes its hold, or takes the
    principal; nothing when no principal is left and there is no hold. *)
Definition reversal_movement (hold : option topUpRefundHoldRow) (n d : Z) : option movement :=
  match hold with
  | Some _ => Some (Confirm n d)
  | None => if d >? 0 then Some (Reverse d) else None
  end.

(** The hold a refund finds open. *)
Definition reserved_hold (r : OrganizationWalletReversal) (id : string) (d : DB)
    : option topUpRefundHoldRow :=
  if rv_Kind r =s WalletReversalRefund then
    match rows holds d !! id with
    | Some h => if h_State h =s HoldReserved then Some h else None
    | None => None
    end
  else None.

Lemma open_hold_run r id w o w1 : tables_ok (the_db w) → open_hold r id w = (Ok o, w1) →
  w1 = w ∧ o = reserved_hold r id (the_db w) ∧
  ∀ h, o = Some h → rows holds (the_db w) !! id = Some h ∧
    h_OrganizationID h = rv_OrganizationID r ∧ h_AmountMinor h = rv_AmountMinor r ∧
    h_State h = HoldReserved.
Proof.
  unfold open_hold, reserved_hold. intros Htab Hr.
  destruct (rv_Kind r =s _); [|by apply ret_Ok in Hr as [-> ->]].
  apply bind_Ok in Hr as (h & ? & Hh & Hr). apply take_pk_Ok in Hh as [-> ->].
  destruct (rows holds (the_db w) !! id) as [h|] eqn:Hh; [|by apply ret_Ok in Hr as [-> ->]].
  destruct (ok_holds _ Htab _ _ Hh) as (_ & _ & Hst).
  apply bind_Ok in Hr as (? & ? & Hg & Hr). apply guard_not_Ok in Hg as [Hg ->].
  apply ret_Ok in Hr as [-> ->]. split; [done|]. reflect_bools. destruct_and!.
  destruct Hst as [Hs|[Hs|Hs]]; rewrite Hs in *; [|done|by split].
  split; [done|]. intros ? [= <-]. done.
Qed.

(** The wallet part of a posted reversal; its hold is confirmed with it. *)
Record reversal_posted (mv : movement) (org id : string) (hold : option topUpRefundHoldRow)
    (d d' : DB) : Prop := {
  rp_posted : ∃ wr es, posted mv org wr es d d';
  rp_enabled : enabled mv (account d org);
  rp_holds : rows holds d' =
    match hold with
    | Some _ => alter (set_hold_state HoldConfirmed) id (rows holds d)
    | None => rows holds d
    end;
  rp_settlements : rows settlements d' = rows settlements d;
  rp_reversals : rows reversals d' = rows reversals d;
  rp_reservations : rows reservations d' = rows reservations d;
  rp_rest : rows receipts d' = rows receipts d ∧ rows payments d' = rows payments d ∧
    rows claims d' = rows claims d;
  rp_tables : tables_ok d' }.

Lemma post_reversal_run r id hold wallet d d0 w po w1 :
  let n := rv_AmountMinor r in
  0 < n ≤ max_int64 → 0 ≤ d ≤ n → ledger_ok d0 →
  the_db w = put_rows wallets
    (<[(rv_OrganizationID r, WalletCurrencyCNY) := wallet]> (rows wallets d0)) d0 →
  w_OrganizationID wallet = rv_OrganizationID r → w_Currency wallet = WalletCurrencyCNY →
  account_of wallet = account d0 (rv_OrganizationID r) →
  post_reversal r id hold wallet d (n - d) w = (Ok po, w1) →
  match reversal_movement hold n d with
  | None => the_db w1 = the_db w
  | Some mv => reversal_posted mv (rv_OrganizationID r) id hold d0 (the_db w1)
  end.
Proof.
  intros n Hpos Hd Hok Hw Ho Hcu Hacc Hr. pose proof Hok as [Htab _].
  pose proof (account_bounds _ (rv_OrganizationID r) Hok) as Hb. rewrite <- Hacc in Hb.
  simpl in Hb. destruct_and!. unfold post_reversal in Hr. rewrite !minInt64_min in Hr.
  fold n in Hr. clearbody n. destruct hold as [h|]; simpl; [|case_match].
  - inv_run. reflect_bools. i64_norm.
    match goal with H : postTopUpEntry _ _ _ _ _ _ _ _ _ = _ |- _ =>
      eapply postTopUpEntry_run in H as (e&?&?&?&?&?&?&Haw&?&?&?); [|by rewrite Hw|done..] end.
    tables. split; read_tables; [|..|done|done|done|done|done|].
    + exists o, [e]. eapply posted_one; read_tables; try done; simpl; lia.
    + rewrite <- Hacc. unfold enabled, fits. simpl. i64_bounds.
    + solve_tables. intros ? [??]. split; [done|]. simpl. tauto.
  - inv_run. reflect_bools. i64_norm.
    match goal with H : postTopUpEntry _ _ _ _ _ _ _ _ _ = _ |- _ =>
      eapply postTopUpEntry_run in H as (e&?&?&?&?&?&?&Haw&?&?&?); [|by rewrite Hw|done..] end.
    tables. split; read_tables; [|..|done|done|done|done|done|].
    + exists o, [e]. eapply posted_one; read_tables; try done; simpl; lia.
    + rewrite <- Hacc. unfold enabled, fits. simpl. i64_bounds.
    + solve_tables.
  - by inv_run.
Qed.


(** What settling a reversal of principal [d] did to the tables. *)
Record reversal_settled (r : OrganizationWalletReversal) (id fp : string) (d : Z)
    (out : TopUpReversalReceipt) (t t' : DB) : Prop := {
  rd_moves : match reversal_movement (reserved_hold r id t) (rv_AmountMinor r) d with
    | Some mv => enabled mv (account t (rv_OrganizationID r)) ∧
        moves mv (rv_OrganizationID r) t t'
    | None => idle t t'
    end;
  rd_step : ledger_step (rv_OrganizationID r) t t';
  rd_receipt : rows receipts t !! id = None ∧ ∃ x,
    rows receipts t' = <[id := x]> (rows receipts t) ∧ tr_Receipt x = out ∧
    tr_PaymentID x = rv_PaymentID r ∧ tr_ProviderAmountMinor x = rv_AmountMinor r ∧
    tr_WalletPrincipalEffectMinor x = d ∧ tr_Fingerprint x = fp;
  rd_reversal :
    if d >? 0 then rows reversals t !! id = None ∧ ∃ v,
      rows reversals t' = <[id := v]> (rows reversals t) ∧
      v_PaymentID v = rv_PaymentID r ∧ v_OrganizationID v = rv_OrganizationID r ∧
      v_AmountMinor v = d
    else rows reversals t' = rows reversals t;
  rd_holds : rows holds t' =
    match reserved_hold r id t with
    | Some _ => alter (set_hold_state HoldConfirmed) id (rows holds t)
    | None => rows holds t
    end;
  rd_settlements : rows settlements t' = rows settlements t;
  rd_payments : rows payments t' = rows payments t;
  rd_claims : rows claims t' = rows claims t;
  rd_out : rr_ReceiptID out = id ∧ rr_ProviderAmountMinor out = rv_AmountMinor r ∧
    rr_WalletPrincipalEffectMinor out = d ∧ rr_ExcessProviderMinor out = rv_AmountMinor r - d ∧
    TopUpReversalReceipt_Validate out = None }.

Lemma MarshalTime_run t w (u : unit) w1 : MarshalTime (S:=World) t w = (Ok u, w1) → w1 = w.
Proof. unfold MarshalTime. case_match; intros Hr; inv_run; done. Qed.

(** The ledger tables but the reversals. *)
Definition same_but_reversals (d d' : DB) : Prop :=
  rows wallets d' = rows wallets d ∧ rows entries d' = rows entries d ∧
  rows reservations d' = rows reservations d ∧ rows settlements d' = rows settlements d ∧
  rows holds d' = rows holds d ∧ rows payments d' = rows payments d ∧
  rows claims d' = rows claims d.

Lemma record_settled_run r id fp d e po at_ w out w' :
  record_settled r id fp d e po at_ w = (Ok out, w') →
  (rows receipts (the_db w) !! id = None ∧ ∃ x,
    rows receipts (the_db w') = <[id := x]> (rows receipts (the_db w)) ∧
    tr_Receipt x = out ∧ tr_PaymentID x = rv_PaymentID r ∧
    tr_ProviderAmountMinor x = rv_AmountMinor r ∧ tr_WalletPrincipalEffectMinor x = d ∧
    tr_Fingerprint x = fp) ∧
  (if d >? 0 then rows reversals (the_db w) !! id = None ∧ ∃ v,
     rows reversals (the_db w') = <[id := v]> (rows reversals (the_db w)) ∧
     v_ReversalID v = id ∧ v_PaymentID v = rv_PaymentID r ∧
     v_OrganizationID v = rv_OrganizationID r ∧ v_AmountMinor v = d
   else rows reversals (the_db w') = rows reversals (the_db w)) ∧
  (rr_ReceiptID out = id ∧ rr_ProviderAmountMinor out = rv_AmountMinor r ∧
    rr_WalletPrincipalEffectMinor out = d ∧ rr_ExcessProviderMinor out = e ∧
    TopUpReversalReceipt_Validate out = None) ∧
  same_but_reversals (the_db w) (the_db w').
Proof.
  intros Hr. unfold record_settled in Hr. inv_run;
    repeat match goal with H : MarshalTime _ _ = _ |- _ => apply MarshalTime_run in H; subst end;
    read_tables; reflect_bools;
    (split; [split; [done|by eexists; split; [reflexivity|]]|split; [try done|by repeat split]]).
  all: split; [done|]; by eexists; split; [reflexivity|].
Qed.

(** The books of the source tables follow the movement of a reversal. *)
Lemma reversal_sourced r id hold mv d t t1 t2 :
  0 ≤ d → reversal_movement hold (rv_AmountMinor r) d = Some mv →
  (∀ h, hold = Some h → rows holds t !! id = Some h ∧
    h_OrganizationID h = rv_OrganizationID r ∧ h_AmountMinor h = rv_AmountMinor r ∧
    h_State h = HoldReserved) →
  reversal_posted mv (rv_OrganizationID r) id hold t t1 →
  (if d >? 0 then rows reversals t1 !! id = None ∧ ∃ v,
     rows reversals t2 = <[id := v]> (rows reversals t1) ∧
     v_ReversalID v = id ∧ v_PaymentID v = rv_PaymentID r ∧
     v_OrganizationID v = rv_OrganizationID r ∧ v_AmountMinor v = d
   else rows reversals t2 = rows reversals t1) →
  same_but_reversals t1 t2 →
  sourced mv (rv_OrganizationID r) (account t (rv_OrganizationID r)) t t2.
Proof.
  intros Hd Hmv Hh Hp Hrev (_&_&Hres&Hset&Hho&_&_).
  destruct Hp as [_ _ Hholds Hsett Hrevs Hresv _ _].
  split; intros o; unfold books; books_cbn; rewrite ?Hset, ?Hres, ?Hho, ?Hsett, ?Hresv, ?Hholds.
  - destruct hold; simpl in Hmv; [|destruct (d >? 0)]; simplify_eq; simpl; by_owner.
  - assert (reversed_by mv = d) as ->.
    { destruct hold; simpl in Hmv; [|destruct (d >? 0)]; by simplify_eq. }
    destruct (d >? 0) eqn:Hgt; [|rewrite Hrev, Hrevs; reflect_bools; by_owner].
    destruct Hrev as (Hn&v&->&?&?&Ho&Ha). rewrite Hrevs in *.
    rewrite total_insert by done. rewrite Ho, Ha. lia.
  - destruct hold as [h|]; simpl in Hmv.
    + simplify_eq. destruct (Hh h eq_refl) as (Hl&Ho&Ha&Hst). rewrite (total_alter _ _ _ _ _ h) by done.
      unfold held_amount. simpl. rewrite Hst, Ho, Ha. simpl. by_owner.
    + destruct (d >? 0); simplify_eq. simpl. by_owner.
  - destruct hold; simpl in Hmv; [|destruct (d >? 0)]; simplify_eq; simpl; by_owner.
Qed.

Lemma settle_reversal_run r id fp d w out w' :
  0 < rv_AmountMinor r ≤ max_int64 → 0 ≤ d ≤ rv_AmountMinor r →
  rv_Currency r = WalletCurrencyCNY → ledger_ok (the_db w) →
  settle_reversal r id fp d (rv_AmountMinor r - d) w = (Ok out, w') →
  reversal_settled r id fp d out (the_db w) (the_db w').
Proof.
  intros Hn Hd Hcur Hok Hr. pose proof Hok as [Htab _]. unfold settle_reversal in Hr.
  rewrite Hcur in Hr. apply bind_Ok in Hr as (hold & w1 & Hh & Hr).
  apply open_hold_run in Hh as (-> & Hopen & Hh'); [|done].
  apply bind_Ok in Hr as (wallet & w1 & Hl & Hr).
  apply lockOrCreateWallet_run in Hl as (Hdb & Ho & Hcu & Hacc); [|done].
  apply bind_Ok in Hr as (at_ & w2 & Hat & Hr).
  apply nextWalletProcessingTimestamp_run in Hat as (Hdb2 & _ & _). rewrite Hdb in Hdb2.
  apply bind_Ok in Hr as (po & w3 & Hp & Hr). eapply post_reversal_run in Hp; try done.
  apply record_settled_run in Hr as (Hrec & Hrev & Hout & Hsame).
  pose proof Hsame as (Sw&Se&Sr&St&Sh&Sp&Sc).
  destruct (reversal_movement hold (rv_AmountMinor r) d) as [mv|] eqn:Hmv.
  - pose proof (reversal_sourced r id hold mv d _ _ _ ltac:(lia) Hmv Hh' Hp Hrev Hsame) as Hsrc.
    destruct Hp as [(wr&es&Hpo) Hen Hhd Hs Hv Hr (Hrc&Hpy&Hcm) Htab3].
    assert (tables_ok (the_db w')) as Htab'.
    { destruct Htab3 as [T1 T2 T3 T4 T5]. split; rewrite ?Sw, ?Sr, ?St, ?Sh; try done.
      intros k v. destruct (d >? 0) eqn:?; [|rewrite Hrev; apply T4].
      destruct Hrev as (_&v0&->&?&?&?&?). rewrite lookup_insert_Some.
      intros [[<- <-]|[_ ?]]; [|by apply T4]. reflect_bools. split; [done|lia]. }
    assert (moves mv (rv_OrganizationID r) (the_db w) (the_db w')) as Hmoves.
    { eapply posted_moves; [|exact Hsrc]. eapply posted_ext; [exact Hpo|done|done]. }
    split; try congruence; try done.
    + by rewrite <- Hopen, Hmv.
    + by eapply step_move.
    + by rewrite <- Hrc.
    + destruct (d >? 0); [|congruence]. rewrite <- Hv. naive_solver.
    + by rewrite Sh, Hhd, <- Hopen.
  - destruct hold; simpl in Hmv; [done|]. destruct (d >? 0) eqn:Hgt; [done|].
    rewrite Hp, Hdb2 in *. read_tables.
    assert (idle (the_db w) (the_db w')) as Hidle.
    { eapply idle_trans; [by apply idle_wallet|]. apply same_ledger_idle. by repeat split. }
    split; try done; [by rewrite <- Hopen; simpl; rewrite Hgt| |by rewrite Hgt|by rewrite <- Hopen].
    eapply step_idle; [done|].
    apply (same_ledger_tables (put_rows wallets (<[(rv_OrganizationID r,
        WalletCurrencyCNY) := wallet]> (rows wallets (the_db w))) (the_db w)));
        [by repeat split|]. solve_tables.
Qed.

(** The principal already reversed of a payment. *)
Definition reversed_principal (d : DB) (payment : string) : Z :=
  msum (λ x, if tr_PaymentID x =s payment then tr_WalletPrincipalEffectMinor x else 0)
    (rows receipts d).

(** A reversal is a replay of its receipt, or settles what is left of the
    principal after the reversals before it. *)
Record reversal_accepted (input : OrganizationWalletReversal) (out : TopUpReversalReceipt)
    (t : walletTopUpSettlementRow) (d d' : DB) : Prop := {
  ra_settlement : rows settlements d !! rv_PaymentID input = Some t;
  ra_topup : ∃ p, rows payments d !! rv_PaymentID input = Some p ∧
    p_PaymentPurpose p = PaymentPurposeWalletTopUp ∧ t_AmountMinor t = p_GrossAmountMinor p;
  ra_claim : ∃ k c, rows claims d !! k = Some c ∧ pc_PaymentID c = rv_PaymentID input ∧
    t_OrganizationID t = pc_OrganizationID c ∧ t_CommercialOrderID t = pc_CommercialOrderID c;
  ra_owner : t_OrganizationID t = rv_OrganizationID input ∧
    t_CommercialOrderID t = rv_CommercialOrderID input ∧ t_Currency t = rv_Currency input;
  ra_done :
    let id := TopUpReversalKey_StorageID (reversal_key input) in
    (d' = d ∧ ∃ x, rows receipts d !! id = Some x ∧ tr_Receipt x = out ∧
      tr_Fingerprint x = reversal_fingerprint (normalized_reversal input) ∧
      TopUpReversalReceipt_Validate out = None) ∨
    (0 ≤ reversed_principal d (rv_PaymentID input) ≤ t_AmountMinor t ∧
     ∃ d1, same_ledger d d1 ∧ rows receipts d1 = rows receipts d ∧
       rows claims d1 = rows claims d ∧ rows payments d1 = rows payments d ∧
       reversal_settled (normalized_reversal input) id
         (reversal_fingerprint (normalized_reversal input))
         (Z.min (rv_AmountMinor input)
            (t_AmountMinor t - reversed_principal d (rv_PaymentID input))) out d1 d') }.

Lemma acceptTopUpReversalTx_run input w out w' : typed input → ledger_ok (the_db w) →
  acceptTopUpReversalTx input w = (Ok out, w') →
  ∃ t, reversal_accepted input out t (the_db w) (the_db w').
Proof.
  intros Hty Hok Hr. pose proof Hok as [Htab _]. unfold acceptTopUpReversalTx in Hr.
  apply bind_Ok in Hr as (? & ? & Hv & Hr). apply check_Ok in Hv as [Hv ->].
  apply OrganizationWalletReversal_valid in Hv as (Hcur & Hpos & _).
  apply bind_Ok in Hr as (t & w1 & Hl & Hr).
  apply lockProviderTopUp_run in Hl as (-> & Hset & (p & Hp & Hpur & Hgross) & c & Hcl & Hco & Hcor).
  apply bind_Ok in Hr as (? & ? & Hg & Hr). apply guard_not_Ok in Hg as [Hg ->].
  apply map_find_Some in Hcl as [Hcp [ck Hck]].
  reflect_bools. destruct_and!. reversal_cbn.
  destruct (ok_settlements _ Htab _ _ Hset) as (_&_&Ht).
  exists t. split; [done|by exists p|by exists ck, c|done|]. cbv zeta.
  apply bind_Ok in Hr as (o & w1 & Ho & Hr). apply take_pk_Ok in Ho as [-> ->].
  set (id := TopUpReversalKey_StorageID _) in *.
  change (reversal_key (normalized_reversal input)) with (reversal_key input) in Hr. fold id in Hr.
  destruct (rows receipts (the_db w) !! id) as [prev|] eqn:Hx.
  - left. clear Hp p Hpur Hgross. inv_run. reflect_bools. destruct_and!. split; [done|]. by eexists.
  - right. unfold post_new_reversal in Hr.
    apply bind_Ok in Hr as (? & w1 & Hfact & Hr).
    apply record_reversal_fact_run in Hfact as (Hsame & Hrec & Hcl & Hpay).
    apply bind_Ok in Hr as (pr & w2 & Hs & Hr). apply Sum_Ok in Hs as (-> & Hpi & ->).
    apply bind_Ok in Hr as (pv & w2 & Hs & Hr). apply Sum_Ok in Hs as (-> & _ & ->).
    apply bind_Ok in Hr as (? & ? & Hg & Hr). apply guard_not_Ok in Hg as [Hg ->].
    rewrite Hrec in *. reversal_cbn. fold (reversed_principal (the_db w) (rv_PaymentID input)) in *.
    set (pr := reversed_principal _ _) in *. reflect_bools. destruct_and!.
    split; [lia|]. exists (the_db w1). do 4 (split; [done|]).
    assert (in_int64 (rv_AmountMinor input)) by done. cbv zeta in Hr.
    i64_norm.
    eapply settle_reversal_run; [..|exact Hr]; reversal_cbn; [i64_bounds|lia|done|].
    by eapply same_ledger_ok.
Qed.

Lemma reversal_accepted_steps input out t d d' : tables_ok d →
  reversal_accepted input out t d d' → rtc (ledger_step (rv_OrganizationID input)) d d'.
Proof.
  intros Htab [_ _ _ _ [[-> _]|(_&d1&Hs&_&_&_&Hd)]]; [done|].
  eapply rtc_l; [by apply same_ledger_step|]. apply rtc_once, Hd.
Qed.

(** The reversals of a list, one after the other. *)
Inductive reversals_accepted : list OrganizationWalletReversal → DB → DB → Prop :=
  | accepted_nil d : reversals_accepted [] d d
  | accepted_cons r out t l d d1 d2 : OrganizationWalletReversal_Validate r = None → typed r →
      reversal_accepted r out t d d1 → reversals_accepted l d1 d2 →
      reversals_accepted (r :: l) d d2.

Lemma reversals_accepted_steps org l d d' : reversals_accepted l d d' →
  (∀ r, r ∈ l → rv_OrganizationID r = org) → tables_ok d → rtc (ledger_step org) d d'.
Proof.
  induction 1 as [d|r out t l d d1 d2 _ _ Ha _ IH]; intros Ho Htab; [done|].
  apply reversal_accepted_steps in Ha as Hs; [|done]. rewrite (Ho r) in Hs by left.
  etrans; [exact Hs|]. apply IH; [intros; apply Ho; by right|]. by eapply ledger_steps_tables.
Qed.

Lemma reversals_accepted_claims l d d' : reversals_accepted l d d' → rows claims d' = rows claims d.
Proof.
  induction 1 as [|r out t l d d1 d2 _ _ Ha _ IH]; [done|]. rewrite IH.
  destruct Ha as [_ _ _ _ [[-> _]|(_&d3&_&_&Hc&_&Hs)]]; [done|]. by rewrite (rd_claims _ _ _ _ _ _ _ Hs).
Qed.

Lemma each_reversal_run l w outs w' : (∀ r, r ∈ l → typed r) → ledger_ok (the_db w) →
  each acceptTopUpReversalTx l w = (Ok outs, w') → reversals_accepted l (the_db w) (the_db w').
Proof.
  revert w outs. induction l as [|r l IH]; intros w outs Hty Hok Hr; simpl in Hr.
  { apply ret_Ok in Hr as [_ ->]. constructor. }
  apply bind_Ok in Hr as (out & w1 & Ha & Hr). apply bind_Ok in Hr as (outs' & w2 & He & Hr).
  apply ret_Ok in Hr as [-> ->]. assert (typed r) as Htr by (apply Hty; left).
  assert (OrganizationWalletReversal_Validate r = None) as Hv.
  { unfold acceptTopUpReversalTx in Ha. apply bind_Ok in Ha as (? & ? & Hv & _).
    by apply check_Ok in Hv as [Hv _]. }
  apply acceptTopUpReversalTx_run in Ha as [t Ha]; [|done..].
  econstructor; [done|done|exact Ha|]. eapply IH; [intros; apply Hty; by right| |exact He].
  eapply ledger_steps_ok; [exact Hok|]. eapply reversal_accepted_steps; [apply Hok|exact Ha].
Qed.

(** ** Posting a top-up *)

(** Neither the ledger nor the reversal receipts nor the payments changed. *)
Definition quiet (d d' : DB) : Prop :=
  same_ledger d d' ∧ rows receipts d' = rows receipts d ∧ rows payments d' = rows payments d.

Lemma quiet_trans d1 d2 d3 : quiet d1 d2 → quiet d2 d3 → quiet d1 d3.
Proof. intros (?&?&?) (?&?&?). split; [by etrans|]. split; congruence. Qed.

(** Every table but the wallets and the entries. *)
Definition same_but_wallet (d d' : DB) : Prop :=
  rows reservations d' = rows reservations d ∧ rows settlements d' = rows settlements d ∧
  rows reversals d' = rows reversals d ∧ rows holds d' = rows holds d ∧
  rows receipts d' = rows receipts d ∧ rows claims d' = rows claims d ∧
  rows payments d' = rows payments d.

Lemma post_credit_run i rid wallet0 d0 w ids w' :
  let n := pt_AmountMinor i in
  let org := pt_OrganizationID i in
  let repaid := Z.min (w_DebtMinor wallet0) n in
  0 < n ≤ max_int64 → tables_ok d0 →
  the_db w = put_rows wallets (<[(org, WalletCurrencyCNY) := wallet0]> (rows wallets d0)) d0 →
  w_OrganizationID wallet0 = org → w_Currency wallet0 = WalletCurrencyCNY →
  account_of wallet0 = account d0 org → 0 ≤ w_DebtMinor wallet0 ≤ max_int64 →
  post_credit i rid
    (with_balances wallet0 (w_AvailableMinor wallet0) (w_ReservedMinor wallet0)
       (w_DebtMinor wallet0) (w_LifetimeTopUpMinor wallet0 + n) (w_LifetimeSpendMinor wallet0)
       (w_Version wallet0) (w_UpdatedAt wallet0))
    (w_AvailableMinor wallet0 + (n - repaid)) (w_DebtMinor wallet0 - repaid)
    (n - repaid) repaid w = (Ok ids, w') →
  ∃ wr es, posted (Credit n) org wr es d0 (the_db w') ∧ same_but_wallet d0 (the_db w') ∧
    tables_ok (the_db w').
Proof.
  intros n org repaid Hn Htab Hw Ho Hcu Hacc Hdebt Hr. unfold post_credit in Hr.
  assert (in_int64 repaid ∧ 0 ≤ repaid ≤ n) as [? ?] by i64_bounds.
  assert (repaid = Z.min (w_DebtMinor wallet0) n) as Hrep by done. clearbody repaid.
  inv_run; i64_norm;
    repeat match goal with H : postTopUpEntry _ _ _ _ _ _ _ _ _ = _ |- _ =>
      eapply postTopUpEntry_run in H as (?&?&?&?&?&?&?&?&?&?&?);
        [|tables; rewrite ?Hw; first [reflexivity|by tables]|done..]; tables end;
    repeat match goal with H : account_of _ = account_of _ |- _ =>
      unfold account_of in H; simpl in H; injection H as ????? end; reflect_bools; try lia.
  - exists o0, [x; x0]. split; [|split; [by repeat split|solve_tables]].
    split; read_tables; rewrite <- ?Hacc; simpl; try lia; try set_solver.
    + unfold account_of. f_equal; lia.
    + by eapply (added_app [x] [x0]).
  - exists o, [x]. split; [|split; [by repeat split|solve_tables]].
    eapply posted_one; read_tables; try done; simpl; try lia. unfold account_of. f_equal; lia.
  - eexists _, [x]. split; [|split; [by repeat split|solve_tables]].
    eapply posted_one; read_tables; try done; simpl; try lia. unfold account_of. f_equal; lia.
Qed.

Lemma CreateIgnore_quiet {K V} `{Countable K} (t : Table K V) v w b w1 :
  CreateIgnore t v w = (Ok b, w1) → (∀ m d, quiet d (put_rows t m d)) →
  quiet (the_db w) (the_db w1).
Proof.
  intros Hr Hs. apply CreateIgnore_Ok in Hr as [(_&->&_)|(_&_&_&->)]; [by repeat split|apply Hs].
Qed.

Lemma claimChannelPayment_run b p u w x w1 : claimChannelPayment b p u w = (Ok x, w1) →
  quiet (the_db w) (the_db w1) ∧
  ∃ c, rows channel_claims (the_db w1) !! ProviderPaymentBinding_ClaimID b = Some c ∧
    cc_PaymentID c = p ∧ cc_Purpose c = u.
Proof.
  unfold claimChannelPayment. intros Hr. inv_run.
  match goal with H : CreateIgnore _ _ _ = _ |- _ => apply CreateIgnore_quiet in H; [|by repeat split] end.
  reflect_bools. destruct_and!. split; [done|]. by eexists.
Qed.

Lemma ProviderTopUpInput_valid i : ProviderTopUpInput_Validate i = None →
  pt_Currency i = WalletCurrencyCNY ∧ 0 < pt_AmountMinor i ∧
  PaymentSettlement_Validate (pt_Payment i) = None ∧
  ps_PaymentPurpose (pt_Payment i) = PaymentPurposeWalletTopUp ∧
  ps_GrossAmountMinor (pt_Payment i) = pt_AmountMinor i.
Proof.
  unfold ProviderTopUpInput_Validate. intros Hv. case_match eqn:Hc; [done|]. clear Hv.
  reflect_bools. destruct_and!. repeat split; done || lia.
Qed.

Lemma ProviderTopUpInput_reversals i : typed i → ProviderTopUpInput_Validate i = None →
  ∀ r, r ∈ pt_KnownReversals i → typed r ∧ rv_OrganizationID r = pt_OrganizationID i.
Proof.
  intros [_ Hty] Hv r Hin. split; [auto|]. unfold ProviderTopUpInput_Validate in Hv.
  case_match; [done|]. apply invalid_if_None in Hv. apply list_elem_of_In in Hin.
  destruct (rv_OrganizationID r =s pt_OrganizationID i) eqn:He; [by apply String.eqb_eq|].
  rewrite <- not_true_iff_false in Hv. destruct Hv. apply existsb_exists. exists r.
  split; [done|]. rewrite He, !orb_true_iff. by simpl; tauto.
Qed.

(** The settlement row completes a posted credit. *)
Lemma settle_credit n org wr es t d d1 :
  posted (Credit n) org wr es d d1 → same_but_wallet d d1 → tables_ok d1 →
  rows settlements d1 !! t_PaymentID t = None → t_OrganizationID t = org →
  t_AmountMinor t = n → t_Currency t = WalletCurrencyCNY → 0 < n ≤ max_int64 →
  let d2 := put_rows settlements (<[t_PaymentID t := t]> (rows settlements d1)) d1 in
  moves (Credit n) org d d2 ∧ tables_ok d2.
Proof.
  intros Hp (Hr&Hs&Hv&Hh&_&_&_) Htab Hn Ho Ha Hc Hpos d2. split.
  - eapply posted_moves; [by eapply posted_ext|]. rewrite Hs in Hn.
    split; intros o; unfold books, d2; books_cbn; read_tables; rewrite ?Hr, ?Hs, ?Hv, ?Hh; spec_cbn;
      rewrite ?total_insert by done; rewrite ?Ho, ?Ha; by_owner.
  - apply tables_ok_settlement; rewrite ?Ha; done.
Qed.

(** The credit of a posting: the payment and its settlement are new. *)
Record top_up_credited (i : ProviderTopUpInput) (d d' : DB) : Prop := {
  tc_enabled : enabled (Credit (pt_AmountMinor i)) (account d (pt_OrganizationID i));
  tc_moves : moves (Credit (pt_AmountMinor i)) (pt_OrganizationID i) d d';
  tc_payment : rows payments d !! ps_PaymentID (pt_Payment i) = None ∧
    rows payments d' = <[ps_PaymentID (pt_Payment i) := paymentRowFromFact (pt_Payment i)]>
      (rows payments d);
  tc_settlement : rows settlements d !! ps_PaymentID (pt_Payment i) = None ∧ ∃ t,
    rows settlements d' = <[ps_PaymentID (pt_Payment i) := t]> (rows settlements d) ∧
    t_AmountMinor t = pt_AmountMinor i ∧ t_OrganizationID t = pt_OrganizationID i;
  tc_reversals : rows receipts d' = rows receipts d ∧ rows reversals d' = rows reversals d ∧
    rows holds d' = rows holds d ∧ rows claims d' = rows claims d;
  tc_tables : tables_ok d' }.

(** A new posting: one [Credit], then the reversals already known. *)
Record top_up_posted (i : ProviderTopUpInput) (out : TopUpPostingReceipt) (d d' : DB) : Prop := {
  tu_valid_input : ProviderTopUpInput_Validate i = None ∧ typed i;
  tu_claims : rows claims d' = alter (set_claim_receipt out)
    (ProviderPaymentBinding_ClaimID (pt_Binding i)) (rows claims d);
  tu_credited : ∃ d1 d2, top_up_credited i d d1 ∧
    reversals_accepted (pt_KnownReversals i) d1 d2 ∧ quiet d2 d';
  tu_repaid : tp_DebtRepaidMinor out =
    Z.min (a_debt (account d (pt_OrganizationID i))) (pt_AmountMinor i);
  tu_added : tp_AvailableAddedMinor out = pt_AmountMinor i - tp_DebtRepaidMinor out;
  tu_gross : tp_GrossCreditMinor out = pt_AmountMinor i;
  tu_valid : TopUpPostingReceipt_Validate out = None;
  tu_out : tp_OperationID out = pt_OperationID i ∧ tp_Binding out = pt_Binding i }.

Lemma CreateIgnore_payment p w w1 : CreateIgnore payments p w = (Ok true, w1) →
  same_ledger (the_db w) (the_db w1) ∧ rows payments (the_db w) !! p_PaymentID p = None ∧
  rows payments (the_db w1) = <[p_PaymentID p := p]> (rows payments (the_db w)) ∧
  rows receipts (the_db w1) = rows receipts (the_db w) ∧
  rows claims (the_db w1) = rows claims (the_db w).
Proof.
  intros Hr. apply CreateIgnore_Ok in Hr as [(?&_)|(_&Hn&_&->)]; [done|]. by repeat split.
Qed.

(** The books of the fresh payment row: it is no part of the ledger. *)
Lemma moves_same mv org d d1 d2 : same_ledger d d1 → moves mv org d1 d2 → moves mv org d d2.
Proof.
  intros Hs Hm. eapply moves_idle; [by apply same_ledger_idle|exact Hm|]. by intros o.
Qed.

Lemma post_new_top_up_run i fp w out w' : typed i →
  ProviderTopUpInput_Validate i = None → ledger_ok (the_db w) →
  post_new_top_up i (ProviderPaymentBinding_ClaimID (pt_Binding i)) fp w = (Ok out, w') →
  top_up_posted i out (the_db w) (the_db w').
Proof.
  intros Hti Hv Hok Hr. pose proof Hti as [Hty _]. pose proof Hv as Hv0.
  pose proof (ProviderTopUpInput_reversals i Hti Hv) as Htyr.
  apply ProviderTopUpInput_valid in Hv as (Hcur&Hpos&_).
  unfold post_new_top_up in Hr. rewrite Hcur in Hr. cbv zeta in Hr.
  apply bind_Ok in Hr as (b & w1 & Hc & Hr).
  apply bind_Ok in Hr as (? & ? & Hg & Hr). apply guard_not_Ok in Hg as [Hb0 ->].
  apply negb_false_iff in Hb0 as ->. apply CreateIgnore_payment in Hc as (Hc & Hpn & Hp1 & Hrc1 & Hcl1).
  apply (same_ledger_ok _ _ Hc) in Hok as Hok1. pose proof Hok1 as [Htab1 _].
  apply bind_Ok in Hr as (wallet & w2 & Hl & Hr).
  apply lockOrCreateWallet_run in Hl as (Hdb & Ho & Hcu & Hacc); [|done].
  apply bind_Ok in Hr as ([av debt] & ? & Ha & Hr). apply lift_Ok in Ha as [Ha ->].
  pose proof (account_bounds _ (pt_OrganizationID i) Hok1) as Hb. rewrite <- Hacc in Hb.
  simpl in Hb. destruct_and!. apply addTopUp_Ok in Ha as (->&->&?); [|i64_bounds..].
  apply bind_Ok in Hr as (? & ? & Hg & Hr). apply guard_not_Ok in Hg as [Hg ->]. reflect_bools.
  apply bind_Ok in Hr as (at_ & w3 & Hat & Hr).
  apply nextWalletProcessingTimestamp_run in Hat as (Hdb3 & _ & _). rewrite Hdb in Hdb3.
  i64_norm. apply bind_Ok in Hr as (ids & w4 & Hp & Hr).
  set (n := pt_AmountMinor i) in *. set (rep := Z.min (w_DebtMinor wallet) n) in *.
  replace (w_AvailableMinor wallet + (n - rep) - w_AvailableMinor wallet) with (n - rep) in * by lia.
  replace (w_DebtMinor wallet - (w_DebtMinor wallet - rep)) with rep in * by lia.
  eapply post_credit_run in Hp as (wr & es & Hpo & Hsame & Htab4); [|i64_bounds|done..].
  pose proof Hsame as (_&Hs4&Hv4&Hh4&Hrc4&Hcl4&Hpy4).
  apply bind_Ok in Hr as (? & w5 & Hset & Hr). apply Create_Ok in Hset as (Hfresh & _ & ->).
  apply bind_Ok in Hr as (rs & w6 & He & Hr).
  assert (enabled (Credit n) (account_of wallet)) as Hen.
  { unfold enabled, fits. simpl. i64_bounds. }
  destruct (settle_credit _ _ _ _ _ _ _ Hpo Hsame Htab4 Hfresh eq_refl eq_refl eq_refl)
    as [Hmv Htab5]; [i64_bounds|].
  assert (account (the_db w) (pt_OrganizationID i) = account_of wallet) as Hacc0
    by (rewrite Hacc; symmetry; by apply account_same).
  apply each_reversal_run in He; [|by intros r Hin; apply Htyr|].
  2: { eapply ledger_step_ok; [exact Hok1|]. eapply step_move; [|exact Hmv|exact Htab5].
       by rewrite <- Hacc. }
  apply bind_Ok in Hr as (? & ? & Hgu & Hr). apply guard_not_Ok in Hgu as [Hgu ->].
  reflect_bools. apply bind_Ok in Hr as (? & w7 & Hm & Hr). apply MarshalTime_run in Hm as ->.
  apply bind_Ok in Hr as (? & w8 & Hu & Hr). apply Update_Ok in Hu as ->.
  apply ret_Ok in Hr as [-> ->]. split; rewrite ?Hacc0; try done.
  { read_tables. f_equal. rewrite (reversals_accepted_claims _ _ _ He). read_tables. congruence. }
  eexists _, _. split; [|split; [exact He|by repeat split]].
  pose proof Hc as (_&_&_&Hs0&Hv0'&Hh0).
  split; read_tables; rewrite ?Hacc0; [done| |by rewrite Hpy4| |repeat split; congruence|exact Htab5].
  - by eapply moves_same.
  - split; [by rewrite <- Hs0, <- Hs4|]. eexists. split; [by rewrite Hs4, Hs0|done].
Qed.

Lemma top_up_posted_steps i out d d' : top_up_posted i out d d' → tables_ok d →
  rtc (ledger_step (pt_OrganizationID i)) d d'.
Proof.
  intros [[Hv Hty] _ (d1&d2&[He Hm _ _ _ Ht]&Hr&[Hs _])] Hok.
  eapply rtc_l; [eapply step_move; [exact He|exact Hm|exact Ht]|].
  pose proof (ProviderTopUpInput_reversals i Hty Hv) as Htyr.
  assert (rtc (ledger_step (pt_OrganizationID i)) d1 d2) as Hst.
  { eapply reversals_accepted_steps; [exact Hr| |done]. intros r Hin. by apply Htyr. }
  etrans; [exact Hst|]. apply rtc_once, same_ledger_step; [|done].
  eapply ledger_steps_tables; [exact Ht|exact Hst].
Qed.

(** The claim an input seeds, before its receipt. *)
Definition seed_claim (i : ProviderTopUpInput) : providerTopUpRow := {|
  pc_ClaimID := ProviderPaymentBinding_ClaimID (pt_Binding i);
  pc_PaymentID := ps_PaymentID (pt_Payment i);
  pc_CommercialOrderID := pt_CommercialOrderID i; pc_OrganizationID := pt_OrganizationID i;
  pc_Fingerprint := ProviderTopUpInput_Fingerprint i; pc_Receipt := None |}.

(** The claim of an input, found or seeded. *)
Record claim_taken (i : ProviderTopUpInput) (c : providerTopUpRow) (d d' : DB) : Prop := {
  ct_quiet : quiet d d';
  ct_channel : ∃ cc, rows channel_claims d' !! ProviderPaymentBinding_ClaimID (pt_Binding i) = Some cc ∧
    cc_PaymentID cc = ps_PaymentID (pt_Payment i) ∧ cc_Purpose cc = PaymentPurposeWalletTopUp;
  ct_rows : rows claims d' =
    <[ProviderPaymentBinding_ClaimID (pt_Binding i) := c]> (rows claims d);
  ct_same : pc_Fingerprint c = ProviderTopUpInput_Fingerprint i ∧
    pc_PaymentID c = ps_PaymentID (pt_Payment i) ∧
    pc_CommercialOrderID c = pt_CommercialOrderID i ∧ pc_OrganizationID c = pt_OrganizationID i;
  ct_new : rows claims d !! ProviderPaymentBinding_ClaimID (pt_Binding i) = Some c ∨
    (rows claims d !! ProviderPaymentBinding_ClaimID (pt_Binding i) = None ∧
     map_find (collides claims c) (rows claims d) = None ∧ c = seed_claim i) }.

Lemma AcceptAndPost_run i w out w' : typed i → ledger_ok (the_db w) →
  AcceptAndPostProviderTopUp i w = (Ok out, w') →
  ProviderTopUpInput_Validate i = None ∧ ∃ c d1, claim_taken i c (the_db w) d1 ∧
  match pc_Receipt c with
  | Some receipt => out = json_TopUpPostingReceipt receipt ∧ TopUpPostingReceipt_Validate out = None ∧
      reversals_accepted (pt_KnownReversals i) d1 (the_db w')
  | None => top_up_posted i out d1 (the_db w')
  end.
Proof.
  intros Hty Hok Hr. unfold AcceptAndPostProviderTopUp in Hr.
  apply bind_Ok in Hr as (? & ? & Hv & Hr). apply check_Ok in Hv as [Hv ->]. split; [done|].
  apply Transaction_Ok in Hr. apply bind_Ok in Hr as (? & w1 & Hcl & Hr).
  assert (rows claims (the_db w1) = rows claims (the_db w)) as Hcl1.
  { unfold claimChannelPayment in Hcl. clear Hr. inv_run.
    match goal with H : CreateIgnore _ _ _ = _ |- _ =>
      by apply CreateIgnore_Ok in H as [(_&->&_)|(_&_&_&->)] end. }
  apply claimChannelPayment_run in Hcl as (Hs1 & Hcc).
  apply bind_Ok in Hr as (b & w2 & Hc & Hr). pose proof Hc as Hc0.
  apply CreateIgnore_quiet in Hc; [|by repeat split].
  assert (quiet (the_db w) (the_db w2)) as Hs by (by eapply quiet_trans).
  apply (same_ledger_ok _ _ (proj1 Hs)) in Hok as Hok2.
  apply bind_Ok in Hr as (c & ? & Ht & Hr). apply take_pk_Ok in Ht as [-> ->].
  apply bind_Ok in Hr as (c & ? & Hf & Hr). apply found_Ok in Hf as [Hf ->].
  apply bind_Ok in Hr as (? & ? & Hg & Hr). apply guard_not_Ok in Hg as [Hg ->].
  cbn [pc_ClaimID pc_Fingerprint pc_PaymentID pc_CommercialOrderID pc_OrganizationID] in *.
  exists c, (the_db w2). split.
  { fold (seed_claim i) in Hc0. reflect_bools. destruct_and!.
    apply CreateIgnore_Ok in Hc0 as [(_&->&_)|(_&Hn&Hcol&->)].
    - split; [done|done| |done|left; by rewrite <- Hcl1]. rewrite <- Hcl1. by rewrite insert_id.
    - revert Hf. cbn [pk claims pc_ClaimID seed_claim] in *. read_tables.
      rewrite lookup_insert_eq. intros [= <-]. rewrite Hcl1 in *. split; try done.
      right. done. }
  destruct (pc_Receipt c) as [o|] eqn:Ho.
  - apply bind_Ok in Hr as (? & ? & Hgu & Hr). apply guard_not_Ok in Hgu as [Hgu ->].
    apply bind_Ok in Hr as (? & w3 & He & Hr). apply ret_Ok in Hr as [-> ->].
    reflect_bools. split; [done|]. split; [done|]. eapply each_reversal_run; [|done..].
    intros r Hin. by apply (ProviderTopUpInput_reversals i).
  - by eapply post_new_top_up_run.
Qed.

(** ** Refund holds *)

Lemma TopUpRefundInput_valid i : TopUpRefundInput_Validate i = None → 0 < ri_AmountMinor i.
Proof.
  unfold TopUpRefundInput_Validate. intros Hv. reflect_bools. destruct_and!. lia.
Qed.

Lemma checkRefundBudget_run t n w u w1 : checkRefundBudget t n w = (Ok u, w1) → w1 = w.
Proof. unfold checkRefundBudget. intros Hr. by inv_run. Qed.

(** Preparing a refund reserves its amount, unless its hold exists already. *)
Lemma PrepareTopUpRefund_run i w out w' : typed i → ledger_ok (the_db w) →
  PrepareTopUpRefund i w = (Ok out, w') →
  let id := TopUpReversalKey_StorageID (ri_Key i) in
  (w' = w ∧ ∃ h, rows holds (the_db w) !! id = Some h ∧ out = refundHold h ∧ rh_Input out = i) ∨
  (rows holds (the_db w) !! id = None ∧
   a_debt (account (the_db w) (ri_OrganizationID i)) = 0 ∧
   enabled (Reserve (ri_AmountMinor i)) (account (the_db w) (ri_OrganizationID i)) ∧
   moves (Reserve (ri_AmountMinor i)) (ri_OrganizationID i) (the_db w) (the_db w') ∧
   tables_ok (the_db w') ∧
   ∃ t h, rows settlements (the_db w) !! rk_PaymentID (ri_Key i) = Some t ∧
     checkRefundBudget t (ri_AmountMinor i) w = (Ok tt, w) ∧
     rows holds (the_db w') = <[id := h]> (rows holds (the_db w)) ∧
     h_PaymentID h = rk_PaymentID (ri_Key i) ∧ h_AmountMinor h = ri_AmountMinor i ∧
     h_State h = HoldReserved ∧ h_Dispatched h = false ∧ out = refundHold h ∧
     rows receipts (the_db w') = rows receipts (the_db w)).
Proof.
  intros Hty Hok Hr id. pose proof Hok as [Htab _]. unfold PrepareTopUpRefund in Hr.
  fold id in Hr. clearbody id.
  apply bind_Ok in Hr as (? & ? & Hv & Hr). apply check_Ok in Hv as [Hv ->].
  apply TopUpRefundInput_valid in Hv as Hn. apply Transaction_Ok in Hr.
  apply bind_Ok in Hr as (t & w1 & Hl & Hr).
  apply lockProviderTopUp_run in Hl as (-> & Hset & _).
  destruct (ok_settlements _ Htab _ _ Hset) as (_&Hcur&_). rewrite Hcur in Hr.
  apply bind_Ok in Hr as (? & ? & Hg & Hr). apply guard_not_Ok in Hg as [_ ->].
  apply bind_Ok in Hr as (h & ? & Ht & Hr). apply take_pk_Ok in Ht as [-> ->].
  destruct (rows holds (the_db w) !! id) as [h|] eqn:Hh.
  { left. inv_run. reflect_bools. split; [done|]. by exists h. }
  right. split; [done|]. apply bind_Ok in Hr as (? & ? & Hc & Hr). apply Count_Ok in Hc as [_ ->].
  apply bind_Ok in Hr as (? & ? & Hg & Hr). apply guard_not_Ok in Hg as [_ ->].
  apply bind_Ok in Hr as ([] & ? & Hbud & Hr).
  pose proof (checkRefundBudget_run _ _ _ _ _ Hbud) as ->.
  apply bind_Ok in Hr as (wallet & w1 & Hl & Hr).
  apply lockOrCreateWallet_run in Hl as (Hdb & Ho & Hcu & Hacc); [|done].
  pose proof (account_bounds _ (ri_OrganizationID i) Hok) as Hb. rewrite <- Hacc in Hb |- *.
  simpl in Hb. destruct_and!. assert (in_int64 (ri_AmountMinor i)) by done.
  apply bind_Ok in Hr as (? & ? & Hg & Hr). apply guard_not_Ok in Hg as [Hg1 ->].
  apply bind_Ok in Hr as (? & ? & Hg & Hr). apply guard_not_Ok in Hg as [Hg2 ->].
  reflect_bools. destruct_and!. i64_norm.
  split; [simpl; lia|]. apply bind_Ok in Hr as (at_ & w2 & Hat & Hr).
  apply nextWalletProcessingTimestamp_run in Hat as (Hdb2 & _ & _).
  apply bind_Ok in Hr as (? & w3 & Hc & Hr). apply Create_Ok in Hc as (Hf & _ & ->).
  apply bind_Ok in Hr as ([wallet' eid] & w4 & Hp & Hr). apply ret_Ok in Hr as [-> ->].
  tables. eapply postTopUpEntry_run in Hp as (e&?&?&?&?&?&?&Haw&?&?&?);
    [|tables; reflexivity|done..].
  tables. split; [unfold enabled, fits; simpl; i64_bounds|].
  split; [|split; [solve_tables; split; [simpl; i64_bounds|by left]|]].
  - eapply posted_moves; [|solve_sourced].
    eapply posted_one; read_tables; try done; simpl; lia.
  - exists t. eexists. do 2 (split; [done|]). split; [reflexivity|]. done.
Qed.

(** Marking a hold dispatched leaves the ledger idle. *)
Lemma AdmitTopUpRefund_run i w out w' : AdmitTopUpRefund i w = (Ok out, w') →
  tables_ok (the_db w) → ledger_step (ri_OrganizationID i) (the_db w) (the_db w') ∧
  ∃ t h, rows settlements (the_db w) !! rk_PaymentID (ri_Key i) = Some t ∧
    rows holds (the_db w) !! TopUpReversalKey_StorageID (ri_Key i) = Some h ∧
    rh_Input (refundHold h) = i ∧
    ((w' = w ∧ h_Dispatched h = true ∧ out = refundHold h) ∨
     (h_Dispatched h = false ∧ h_State h = HoldReserved ∧
      checkRefundBudget t 0 w = (Ok tt, w) ∧ out = refundHold (set_hold_dispatched h) ∧
      rows holds (the_db w') = alter set_hold_dispatched
        (TopUpReversalKey_StorageID (ri_Key i)) (rows holds (the_db w)))).
Proof.
  intros Hr Htab. unfold AdmitTopUpRefund in Hr.
  apply bind_Ok in Hr as (? & ? & Hv & Hr). apply check_Ok in Hv as [_ ->].
  apply Transaction_Ok in Hr. apply bind_Ok in Hr as (t & w1 & Hl & Hr).
  apply lockProviderTopUp_run in Hl as (-> & Hset & _).
  set (id := TopUpReversalKey_StorageID (ri_Key i)) in *. clearbody id.
  apply bind_Ok in Hr as (h & ? & Ht & Hr). apply take_pk_Ok in Ht as [-> ->].
  apply bind_Ok in Hr as (h & ? & Hf & Hr). apply found_Ok in Hf as [Hh ->].
  apply bind_Ok in Hr as (? & ? & Hg & Hr). apply guard_not_Ok in Hg as [Hin ->]. reflect_bools.
  destruct (h_Dispatched h) eqn:Hd.
  { apply ret_Ok in Hr as [-> ->]. split; [by apply step_idle|]. exists t, h.
    do 3 (split; [done|]). by left. }
  apply bind_Ok in Hr as (? & ? & Hg & Hr). apply guard_not_Ok in Hg as [Hs ->]. reflect_bools.
  apply bind_Ok in Hr as ([] & ? & Hb & Hr). pose proof (checkRefundBudget_run _ _ _ _ _ Hb) as ->.
  apply bind_Ok in Hr as (? & ? & Hu & Hr). apply Update_Ok in Hu as ->.
  apply ret_Ok in Hr as [-> ->]. destruct (ok_holds _ Htab _ _ Hh) as [Hk _]. split.
  - apply step_idle; [|solve_tables]. intros o. split; [done|].
    apply Books_eq; try done. unfold books. books_cbn. read_tables. rewrite <- Hk.
    rewrite (total_alter _ _ _ _ _ h) by done. unfold held_amount. simpl. by_owner.
  - exists t, h. do 3 (split; [done|]). right. do 3 (split; [done|]). read_tables.
    by rewrite <- Hk.
Qed.

(** Releasing an open hold gives its amount back, debt first. *)
Lemma ReleaseTopUpRefundHold_run i b w out w' : typed i → ledger_ok (the_db w) →
  ReleaseTopUpRefundHold i b w = (Ok out, w') →
  ∃ h, rows holds (the_db w) !! TopUpReversalKey_StorageID (ri_Key i) = Some h ∧
    rh_Input (refundHold h) = i ∧
  ((w' = w ∧ h_State h = HoldReleased ∧ out = refundHold h) ∨
   (enabled (Release (ri_AmountMinor i)) (account (the_db w) (ri_OrganizationID i)) ∧
    moves (Release (ri_AmountMinor i)) (ri_OrganizationID i) (the_db w) (the_db w') ∧
    tables_ok (the_db w') ∧
    h_State h = HoldReserved ∧ (h_Dispatched h = true → b = true) ∧
    rows holds (the_db w') = alter (set_hold_state HoldReleased)
      (TopUpReversalKey_StorageID (ri_Key i)) (rows holds (the_db w)))).
Proof.
  intros Hty Hok Hr. pose proof Hok as [Htab _]. unfold ReleaseTopUpRefundHold in Hr.
  set (id := TopUpReversalKey_StorageID _) in *. clearbody id.
  apply bind_Ok in Hr as (? & ? & Hv & Hr). apply check_Ok in Hv as [Hv ->].
  apply TopUpRefundInput_valid in Hv as Hn. apply Transaction_Ok in Hr.
  apply bind_Ok in Hr as (t & w1 & Hl & Hr).
  apply lockProviderTopUp_run in Hl as (-> & Hset & _).
  destruct (ok_settlements _ Htab _ _ Hset) as (_&Hcur&_). rewrite Hcur in Hr.
  apply bind_Ok in Hr as (h & ? & Ht & Hr). apply take_pk_Ok in Ht as [-> ->].
  apply bind_Ok in Hr as (h & ? & Ht & Hr). apply found_Ok in Ht as [Hh ->].
  destruct (ok_holds _ Htab _ _ Hh) as (Hk & _ & Hst).
  apply bind_Ok in Hr as (? & ? & Hg & Hr). apply guard_not_Ok in Hg as [Hg ->].
  reflect_bools. destruct Hg as [Hin Hnc]. exists h. do 2 (split; [done|]).
  destruct (h_State h =s HoldReleased) eqn:Hrel.
  { left. apply ret_Ok in Hr as [-> ->]. apply String.eqb_eq in Hrel. done. } right.
  assert (h_State h = HoldReserved) as Hres by (reflect_bools; naive_solver).
  apply bind_Ok in Hr as (? & ? & Hg & Hr). apply guard_not_Ok in Hg as [Hproof ->].
  apply bind_Ok in Hr as (wallet & w1 & Hl & Hr).
  apply lockOrCreateWallet_run in Hl as (Hdb & Ho & Hcu & Hacc); [|done].
  pose proof (account_bounds _ (ri_OrganizationID i) Hok) as Hb. rewrite <- Hacc in Hb |- *.
  simpl in Hb. destruct_and!. assert (in_int64 (ri_AmountMinor i)) by done.
  apply bind_Ok in Hr as (? & ? & Hg & Hr). apply guard_not_Ok in Hg as [Hg ->].
  apply bind_Ok in Hr as ([av debt] & ? & Ha & Hr). apply lift_Ok in Ha as [Ha ->].
  apply addTopUp_Ok in Ha as (->&->&?); [|i64_bounds..]. reflect_bools. i64_norm.
  apply bind_Ok in Hr as ([wallet' eid] & w4 & Hp & Hr).
  eapply postTopUpEntry_run in Hp as (e&?&?&?&?&?&?&Haw&?&?&?);
    [|tables; reflexivity|done..].
  apply bind_Ok in Hr as (? & w5 & Hu & Hr). apply Update_Ok in Hu as ->.
  apply ret_Ok in Hr as [-> ->]. tables.
  split; [unfold enabled, fits; simpl; i64_bounds|]. split.
  - eapply posted_moves; [eapply posted_one; read_tables; try done; simpl; lia|].
    assert (h_OrganizationID h = ri_OrganizationID i ∧ h_AmountMinor h = ri_AmountMinor i)
      as [Hho Hha] by (by rewrite <- Hin).
    split; intros o; unfold books; books_cbn; read_tables; spec_cbn; rewrite <- ?Hk;
      rewrite ?(total_alter _ _ _ _ _ h) by done; unfold held_amount; simpl;
      rewrite ?Hres, ?Hho, ?Hha; simpl; by_owner.
  - split; [solve_tables; intros ? [??]; split; [done|]; simpl; tauto|].
    split; [done|]. split; [|by rewrite <- Hk]. intros Hd. rewrite Hd in Hproof.
    reflect_bools. naive_solver.
Qed.
End topup_runs.

(** ** Footprints *)

Section topup_footprints.
Context `{Env} (R : World → World → Prop) `{!Frame R, !Writes R wallets, !Inserts R entries}.

Lemma MarshalTime_keeps t : keeps R (MarshalTime t).
Proof. unfold MarshalTime. solve_keeps. Qed.
Lemma claimChannelPayment_keeps `{!Inserts R channel_claims} b p u :
  keeps R (claimChannelPayment b p u).
Proof. unfold claimChannelPayment. solve_keeps. Qed.
Lemma postTopUpEntry_keeps wl k a b c o p s : keeps R (postTopUpEntry wl k a b c o p s).
Proof. unfold postTopUpEntry. solve_keeps. Qed.
Lemma lockProviderTopUp_keeps p : keeps R (lockProviderTopUp p).
Proof. unfold lockProviderTopUp. solve_keeps. Qed.
Lemma checkRefundBudget_keeps t n : keeps R (checkRefundBudget t n).
Proof. unfold checkRefundBudget. solve_keeps. Qed.
Hint Resolve MarshalTime_keeps claimChannelPayment_keeps postTopUpEntry_keeps
  lockProviderTopUp_keeps checkRefundBudget_keeps : keeps.

Lemma post_reversal_keeps `{!Writes R holds} r id h wl d e :
  keeps R (post_reversal r id h wl d e).
Proof. unfold post_reversal. solve_keeps. Qed.
Lemma record_settled_keeps `{!Inserts R reversals, !Inserts R excesses, !Inserts R receipts}
    r id fp d e po t : keeps R (record_settled r id fp d e po t).
Proof. unfold record_settled. solve_keeps. Qed.
Lemma record_reversal_fact_keeps `{!Inserts R refunds, !Inserts R chargebacks} r :
  keeps R (record_reversal_fact r).
Proof. unfold record_reversal_fact. solve_keeps. Qed.
Lemma open_hold_keeps r id : keeps R (open_hold r id).
Proof. unfold open_hold. solve_keeps. Qed.
Lemma post_credit_keeps i id wl a d n r : keeps R (post_credit i id wl a d n r).
Proof. unfold post_credit. solve_keeps. Qed.
Hint Resolve post_reversal_keeps record_settled_keeps record_reversal_fact_keeps open_hold_keeps
  post_credit_keeps : keeps.

Section reversal_tables.
Context `{!Writes R holds, !Inserts R reversals, !Inserts R excesses, !Inserts R receipts,
  !Inserts R refunds, !Inserts R chargebacks}.

Lemma acceptTopUpReversalTx_keeps r : keeps R (acceptTopUpReversalTx r).
Proof. unfold acceptTopUpReversalTx, post_new_reversal, settle_reversal. solve_keeps. Qed.
Hint Resolve acceptTopUpReversalTx_keeps : keeps.

Lemma AcceptProviderTopUpReversal_keeps r : keeps R (AcceptProviderTopUpReversal r).
Proof. unfold AcceptProviderTopUpReversal. solve_keeps. Qed.

Lemma AcceptAndPostProviderTopUp_keeps `{!Inserts R channel_claims, !Writes R claims,
  !Inserts R payments, !Inserts R settlements} i : keeps R (AcceptAndPostProviderTopUp i).
Proof. unfold AcceptAndPostProviderTopUp, post_new_top_up. solve_keeps. Qed.
End reversal_tables.

Lemma PrepareTopUpRefund_keeps `{!Inserts R holds} i : keeps R (PrepareTopUpRefund i).
Proof. unfold PrepareTopUpRefund. solve_keeps. Qed.
Lemma AdmitTopUpRefund_keeps `{!Writes R holds} i : keeps R (AdmitTopUpRefund i).
Proof. unfold AdmitTopUpRefund. solve_keeps. Qed.
Lemma ReleaseTopUpRefundHold_keeps `{!Writes R holds} i b : keeps R (ReleaseTopUpRefundHold i b).
Proof. unfold ReleaseTopUpRefundHold. solve_keeps. Qed.
End topup_footprints.

#[export] Hint Resolve MarshalTime_keeps claimChannelPayment_keeps AcceptProviderTopUpReversal_keeps
  acceptTopUpReversalTx_keeps post_credit_keeps AcceptAndPostProviderTopUp_keeps PrepareTopUpRefund_keeps
  AdmitTopUpRefund_keeps ReleaseTopUpRefundHold_keeps : keeps.
