(* ===== verification/ServiceRepo.v ===== *)
(** * Service payments in the database

    Models src/internal/integration/persistence/money/service_repository.go,
    service_refund_plan.go, service_balance.go, service_fee.go,
    service_fulfillment.go and service_refund_review.go: accepting a service
    payment, preparing, admitting, abandoning and failing an operation on its
    funds, accepting the effects the channel verified, and the observations
    that put a payment under reconciliation. *)
From S2P Require Import Prelude GoStd Encoding MoneyTypes ProviderTopUp ServiceMoney Store MoneyStore WalletSpec WalletRepo TopUpRepo.

(** ** Column updates *)

(** The refund columns, the running totals and the fences of a payment row. *)
Definition with_funds (row : servicePaymentRow) (settlementRefunded payerRefunded : Z)
    (voucherRefunded : option (gmap string Z)) (plan : option ServiceRefundPlan)
    (refunded chargedBack shared returned released : Z) (pending reason : string)
    : servicePaymentRow :=
  {| s_SettlementRefundedMinor := settlementRefunded; s_PayerRefundedMinor := payerRefunded;
     s_VoucherRefunded := voucherRefunded; s_PendingRefundPlan := plan;
     s_ChannelFeeMinor := s_ChannelFeeMinor row;
     s_ChannelFeeObserved := s_ChannelFeeObserved row; s_OrderID := s_OrderID row;
     s_RequestID := s_RequestID row; s_ClaimID := s_ClaimID row;
     s_PaymentID := s_PaymentID row; s_BuyerOrganizationID := s_BuyerOrganizationID row;
     s_ProviderOrganizationID := s_ProviderOrganizationID row;
     s_Fingerprint := s_Fingerprint row; s_Input := s_Input row; s_Receipt := s_Receipt row;
     s_GrossMinor := s_GrossMinor row; s_RefundedMinor := refunded;
     s_ChargedBackMinor := chargedBack; s_SharedMinor := shared; s_ReturnedMinor := returned;
     s_ReleasedMinor := released; s_AutomaticReleasedMinor := s_AutomaticReleasedMinor row;
     s_PendingOperationID := pending; s_ReconciliationReason := reason |}.

Definition with_fences (row : servicePaymentRow) (chargedBack : Z)
    (plan : option ServiceRefundPlan) (pending reason : string) : servicePaymentRow :=
  with_funds row (s_SettlementRefundedMinor row) (s_PayerRefundedMinor row)
    (s_VoucherRefunded row) plan (s_RefundedMinor row) chargedBack (s_SharedMinor row)
    (s_ReturnedMinor row) (s_ReleasedMinor row) pending reason.

Definition set_pending (pending : string) (row : servicePaymentRow) : servicePaymentRow :=
  with_fences row (s_ChargedBackMinor row) (s_PendingRefundPlan row) pending
    (s_ReconciliationReason row).
Definition set_reason (reason : string) (row : servicePaymentRow) : servicePaymentRow :=
  with_fences row (s_ChargedBackMinor row) (s_PendingRefundPlan row)
    (s_PendingOperationID row) reason.

Definition set_receipt_and_fee (receipt : option ServiceReceipt) (fee : Z) (observed : bool)
    (row : servicePaymentRow) : servicePaymentRow :=
  {| s_SettlementRefundedMinor := s_SettlementRefundedMinor row;
     s_PayerRefundedMinor := s_PayerRefundedMinor row;
     s_VoucherRefunded := s_VoucherRefunded row;
     s_PendingRefundPlan := s_PendingRefundPlan row; s_ChannelFeeMinor := fee;
     s_ChannelFeeObserved := observed; s_OrderID := s_OrderID row;
     s_RequestID := s_RequestID row; s_ClaimID := s_ClaimID row;
     s_PaymentID := s_PaymentID row; s_BuyerOrganizationID := s_BuyerOrganizationID row;
     s_ProviderOrganizationID := s_ProviderOrganizationID row;
     s_Fingerprint := s_Fingerprint row; s_Input := s_Input row; s_Receipt := receipt;
     s_GrossMinor := s_GrossMinor row; s_RefundedMinor := s_RefundedMinor row;
     s_ChargedBackMinor := s_ChargedBackMinor row; s_SharedMinor := s_SharedMinor row;
     s_ReturnedMinor := s_ReturnedMinor row; s_ReleasedMinor := s_ReleasedMinor row;
     s_AutomaticReleasedMinor := s_AutomaticReleasedMinor row;
     s_PendingOperationID := s_PendingOperationID row;
     s_ReconciliationReason := s_ReconciliationReason row |}.

Definition set_reservation (state : string) (dispatched : bool) (denial : string)
    (x : serviceReservationRow) : serviceReservationRow :=
  {| sres_OperationID := sres_OperationID x; sres_OrderID := sres_OrderID x;
     sres_Kind := sres_Kind x; sres_Fingerprint := sres_Fingerprint x;
     sres_Operation := sres_Operation x; sres_State := state; sres_Dispatched := dispatched;
     sres_DenialProofID := denial; sres_Receipt := sres_Receipt x |}.

Definition ReservationPrepared : string := "PREPARED".
Definition ReservationConfirmed : string := "CONFIRMED".
Definition ReservationAbandoned : string := "ABANDONED".
Definition ReservationFailed : string := "FAILED".
Definition ReasonChargeback : string := "CHANNEL_CHARGEBACK_REQUIRES_RECONCILIATION".
Definition ReasonRefund : string := "CHANNEL_REFUND_REQUIRES_RECONCILIATION".
Definition ReasonFundsChanged : string := "CHANNEL_FUNDS_CHANGED_REQUIRES_RECONCILIATION".

(** ** Decoding the stored JSON

    A column that holds the JSON of a value is modelled by the value; reading it
    back applies the [json_] function of its type, which puts U+FFFD where a string
    was not UTF-8. (A pending refund plan is stored as what it reads back as.) *)

Definition decodeServiceReceipt (stored : ServiceReceipt) : result ServiceReceipt :=
  let r := json_ServiceReceipt stored in
  if nil_error (ServiceReceipt_Validate r) then Ok r else Err ErrConflict.

(** An unsplit observation has no receipt identity, so it never decodes. *)
Definition decode_effect (p : effectPayload) : result ServiceReceipt :=
  match p with
  | ReceiptPayload r | FeePayload r _ => decodeServiceReceipt r
  | UnsplitPayload _ => Err ErrConflict
  end.

(** The fingerprint of the row was taken from the input as it came: an input that
    JSON does not preserve is refused here, which every reader of the input's
    amounts passes first. *)
Definition serviceAllocationPolicy (row : servicePaymentRow) : result ServiceAllocationPolicy :=
  let i := json_ServicePaymentInput (s_Input row) in
  if negb (nil_error (ServicePaymentInput_Validate i))
     || (ServicePaymentInput_Fingerprint i ≠s s_Fingerprint row)
     || (sp_OrderID i ≠s s_OrderID row)
     || negb (ps_GrossAmountMinor (sp_Payment i) =? s_GrossMinor row)
  then Err ErrConflict
  else Ok (sp_Allocation i).

(** What was reversed of [gross], capped at it. *)
Definition capped_reversal (gross refunded chargedBack : Z) : Z :=
  if chargedBack >? (gross -! refunded) then gross else refunded +! chargedBack.

(** The refund command under way, the channel amounts, what is shared out,
    what was reversed of it, and the vouchers used, by the basis of the policy. *)
Definition funds_basis (row : servicePaymentRow) (policy : ServiceAllocationPolicy)
    : result (string * option ServicePaymentAmounts * Z * Z * gmap string Z) :=
  if ap_Basis policy =s ServiceAllocationChannelNetFloorV2 then
    match sp_ChannelAmounts (s_Input row) with
    | None => Err ErrConflict
    | Some a =>
      let gross := ServicePaymentAmounts_SettlementMinor a in
      command ← match s_PendingRefundPlan row with
                | None => Ok ""%string
                | Some p => if nil_error (ServiceRefundPlan_Validate p)
                            then Ok (rp_CommandID p) else Err ErrConflict
                end;
      Ok (command, Some a, gross,
          capped_reversal gross (s_SettlementRefundedMinor row) (s_ChargedBackMinor row),
          default ∅ (s_VoucherRefunded row))
    end
  else
    Ok (""%string, None, s_GrossMinor row,
        capped_reversal (s_GrossMinor row) (s_RefundedMinor row) (s_ChargedBackMinor row),
        ∅).

Definition serviceFunds (row : servicePaymentRow) : result ServiceFundsView :=
  policy ← serviceAllocationPolicy row;
  '(command, amounts, gross, reversed, used) ← funds_basis row policy;
  '(platform, provider) ← ServiceAllocation gross reversed policy;
  Ok {| fv_PendingRefundCommandID := command; fv_ChannelAmounts := amounts;
        fv_SettlementMinor := gross;
        fv_SettlementRefundedMinor := s_SettlementRefundedMinor row;
        fv_PayerRefundedMinor := s_PayerRefundedMinor row; fv_VoucherRefundedMinor := used;
        fv_Allocation := policy; fv_ChannelFeeMinor := s_ChannelFeeMinor row;
        fv_ChannelFeeObserved := s_ChannelFeeObserved row; fv_OrderID := s_OrderID row;
        fv_PaymentID := s_PaymentID row;
        fv_BuyerOrganizationID := s_BuyerOrganizationID row;
        fv_ProviderOrganizationID := s_ProviderOrganizationID row;
        fv_Currency := WalletCurrencyCNY; fv_GrossMinor := s_GrossMinor row;
        fv_RefundedMinor := s_RefundedMinor row;
        fv_ChargedBackMinor := s_ChargedBackMinor row; fv_PlatformMinor := platform;
        fv_ProviderMinor := provider; fv_SharedMinor := s_SharedMinor row;
        fv_ReturnedMinor := s_ReturnedMinor row; fv_ReleasedMinor := s_ReleasedMinor row;
        fv_AutomaticReleasedMinor := s_AutomaticReleasedMinor row;
        fv_PendingOperationID := s_PendingOperationID row;
        fv_ReconciliationReason := s_ReconciliationReason row |}.

(** A verified receipt for an operation on the funds of an order. *)
Definition new_receipt (amounts : option ServiceRefundAmounts)
    (receiptID orderID operationID kind : string) (amount : Z) (fp reference : string)
    (at_ : Time) : ServiceReceipt :=
  sealed {| sr_RefundAmounts := amounts; sr_ReceiptID := receiptID; sr_OrderID := orderID;
            sr_OperationID := operationID; sr_RequestFingerprint := fp;
            sr_ResultFingerprint := ""; sr_Kind := kind; sr_AmountMinor := amount;
            sr_ProviderReference := reference; sr_OccurredAt := at_ |}.

(** The amounts column arithmetic of [acceptServiceRefundAmounts]. *)
Fixpoint use_vouchers (vs : list ServiceVoucherRefund) (used : gmap string Z)
    : result (gmap string Z) :=
  match vs with
  | [] => Ok used
  | v :: vs' =>
    let u := default 0 (used !! vr_ID v) in
    if vr_RefundMinor v >? (vr_OriginalAmountMinor v -! u) then Err ErrConflict
    else use_vouchers vs' (<[vr_ID v := u +! vr_RefundMinor v]> used)
  end.

(** [acceptServiceRefundAmounts]: settlement and payer refunds and the used
    vouchers after the effect. *)
Definition acceptServiceRefundAmounts (row : servicePaymentRow) (e : ServiceEffect)
    : result (Z * Z * option (gmap string Z)) :=
  policy ← serviceAllocationPolicy row;
  let same := Ok (s_SettlementRefundedMinor row, s_PayerRefundedMinor row,
                  s_VoucherRefunded row) in
  if so_Kind (se_Operation e) ≠s ServiceRefund then same
  else if ap_Basis policy ≠s ServiceAllocationChannelNetFloorV2 then
    match se_RefundAmounts e with Some _ => Err ErrConflict | None => same end
  else match sp_ChannelAmounts (s_Input row), se_RefundAmounts e with
  | Some original, Some amounts =>
    if negb (nil_error (ServiceRefundAmounts_Validate amounts original
                          (so_AmountMinor (se_Operation e))))
    then Err ErrConflict
    else
      let a := ServiceRefundAmounts_Normalize amounts in
      if (ra_PayerMinor a >? (pa_PayerMinor original -! s_PayerRefundedMinor row))
         || (ServiceRefundAmounts_SettlementMinor a >?
               (ServicePaymentAmounts_SettlementMinor original
                -! s_SettlementRefundedMinor row))
      then Err ErrConflict
      else
        used ← use_vouchers (ra_Vouchers a) (default ∅ (s_VoucherRefunded row));
        Ok (s_SettlementRefundedMinor row +! ServiceRefundAmounts_SettlementMinor a,
            s_PayerRefundedMinor row +! ra_PayerMinor a, Some used)
  | _, _ => Err ErrConflict
  end.

Section service_repository.
Context `{Env}.

(** ** Accepting a payment *)

Definition lockServicePayment (orderID : string) : ST World servicePaymentRow :=
  row ← take_pk service_payments orderID;
  row ← found ErrNotFound row;
  guard_not (match s_Receipt row with None => true | Some _ => false end) ErrConflict;;
  mret row.

Definition AcceptServicePayment (input : ServicePaymentInput) : ST World ServiceReceipt :=
  let i := normalized_channel_amounts input in
  check (ServicePaymentInput_Validate i);;
  Transaction (
    claimChannelPayment (sp_Binding i) (ps_PaymentID (sp_Payment i))
      PaymentPurposeServicePurchase;;
    MarshalTime (ps_SettledAt (sp_Payment i));;
    let seed := {| s_SettlementRefundedMinor := 0; s_PayerRefundedMinor := 0;
      s_VoucherRefunded := None; s_PendingRefundPlan := None; s_ChannelFeeMinor := 0;
      s_ChannelFeeObserved := false; s_OrderID := sp_OrderID i;
      s_RequestID := sp_RequestID i; s_ClaimID := ProviderPaymentBinding_ClaimID (sp_Binding i);
      s_PaymentID := ps_PaymentID (sp_Payment i);
      s_BuyerOrganizationID := sp_BuyerOrganizationID i;
      s_ProviderOrganizationID := sp_ProviderOrganizationID i;
      s_Fingerprint := ServicePaymentInput_Fingerprint i; s_Input := i; s_Receipt := None;
      s_GrossMinor := ps_GrossAmountMinor (sp_Payment i); s_RefundedMinor := 0;
      s_ChargedBackMinor := 0; s_SharedMinor := 0; s_ReturnedMinor := 0;
      s_ReleasedMinor := 0; s_AutomaticReleasedMinor := 0; s_PendingOperationID := "";
      s_ReconciliationReason := "" |} in
    CreateIgnore service_payments seed;;
    saved ← take_pk service_payments (sp_OrderID i);
    saved ← found ErrConflict saved;
    guard_not ((s_Fingerprint saved ≠s s_Fingerprint seed)
      || (s_ClaimID saved ≠s s_ClaimID seed)) ErrConflict;;
    match s_Receipt saved with
    | Some r => lift (decodeServiceReceipt r)
    | None =>
      created ← CreateIgnore payments (paymentRowFromFact (sp_Payment i));
      guard_not (negb created) ErrConflict;;
      let at_ := NormalizeTimestamp (ps_SettledAt (sp_Payment i)) in
      let out := new_receipt None ("service-payment:" +:+ s_ClaimID seed)%string
        (sp_OrderID i) (sp_OrderID i) ""%string (ps_GrossAmountMinor (sp_Payment i))
        (ServicePaymentInput_Fingerprint i) (ps_ProviderReference (sp_Payment i)) at_ in
      MarshalTime at_;;
      Update service_payments (sp_OrderID i) (λ row,
        set_receipt_and_fee (Some out) (s_ChannelFeeMinor row) (s_ChannelFeeObserved row) row);;
      mret out
    end).

Definition ReadServicePayment (i : ServicePaymentInput) : ST World ServiceReceipt :=
  check (ServicePaymentInput_Validate i);;
  row ← take_pk service_payments (sp_OrderID i);
  row ← found ErrNotFound row;
  guard_not (s_Fingerprint row ≠s ServicePaymentInput_Fingerprint i) ErrConflict;;
  r ← found ErrConflict (s_Receipt row);
  lift (decodeServiceReceipt r).

Definition ReadServiceFunds (orderID : string) : ST World ServiceFundsView :=
  guard_not (orderID =s "") ErrInvalid;;
  row ← take_pk service_payments orderID;
  row ← found ErrNotFound row;
  lift (serviceFunds row).

(** ** Validating an operation *)

(** The confirmed effect of an operation of this order. *)
Definition effect_receipt (orderID id kind : string) : ST World ServiceReceipt :=
  e ← take_pk_and effects id (λ e, (eff_OrderID e =s orderID) && (eff_Kind e =s kind));
  e ← found ErrConflict e;
  lift (decode_effect (eff_Receipt e)).

(** The plan must be the one the funds ask for, or the one already pending. *)
Definition expected_plan (row : servicePaymentRow) (op : ServiceOperation)
    (p : ServiceRefundPlan) (f : ServiceFundsView) : error :=
  match s_PendingRefundPlan row with
  | None =>
    if so_RefundPhase op ≠s ServiceReturnPre then Some ErrConflict
    else match NewServiceRefundPlan f (rp_CommandID p) (rp_SourceProofID p)
                 (rp_PreOperationID p) (rp_RefundOperationID p) (rp_PostOperationID p)
                 (rp_ReleaseOperationID p) (rp_OriginalShareID p) (rp_NominalMinor p) with
         | Ok expected => if bool_decide (expected = p) then None else Some ErrConflict
         | Err _ => Some ErrConflict
         end
  | Some saved => if bool_decide (saved = p) then None else Some ErrConflict
  end.

Definition validate_refund_phase (row : servicePaymentRow) (op : ServiceOperation)
    (p : ServiceRefundPlan) : ST World unit :=
  if so_RefundPhase op =s ServiceReturnPre then
    guard_not (negb (s_RefundedMinor row =? rp_BaseRefundedMinor p)
      || negb (s_SettlementRefundedMinor row =? rp_BaseSettlementRefundedMinor p)
      || negb (s_ReturnedMinor row =? rp_BaseReturnedMinor p)) ErrConflict
  else if (so_RefundPhase op =s ServiceRefundReleasePhase)
          || (so_RefundPhase op =s ServiceRefundPhase) then
    effect_receipt (s_OrderID row) (rp_PreOperationID p) ServiceReturn;;
    guard_not (negb (s_RefundedMinor row =? rp_BaseRefundedMinor p)
      || negb (s_SettlementRefundedMinor row =? rp_BaseSettlementRefundedMinor p)
      || negb (s_ReturnedMinor row =? (rp_BaseReturnedMinor p +! rp_PreReturnMinor p)))
      ErrConflict;;
    guard_not ((so_RefundPhase op =s ServiceRefundPhase) && (s_SharedMinor row >? 0)
      && (s_ReleasedMinor row =? 0) && (s_AutomaticReleasedMinor row =? 0)) ErrConflict
  else if so_RefundPhase op =s ServiceReturnPost then
    receipt ← effect_receipt (s_OrderID row) (rp_RefundOperationID p) ServiceRefund;
    amounts ← found ErrConflict (sr_RefundAmounts receipt);
    due ← or_error ErrConflict (lift (ServiceRefundPlan_PostReturn p amounts));
    guard_not (negb (so_AmountMinor op =? due)
      || negb (s_RefundedMinor row =? (rp_BaseRefundedMinor p +! rp_NominalMinor p))
      || negb (s_SettlementRefundedMinor row =?
               (rp_BaseSettlementRefundedMinor p
                +! ServiceRefundAmounts_SettlementMinor amounts))
      || negb (s_ReturnedMinor row =? (rp_BaseReturnedMinor p +! rp_PreReturnMinor p)))
      ErrConflict
  else fail ErrConflict.

Definition validateServiceRefundPlan (row : servicePaymentRow) (op : ServiceOperation)
    (f : ServiceFundsView) : ST World unit :=
  if ap_Basis (fv_Allocation f) ≠s ServiceAllocationChannelNetFloorV2 then
    match so_RefundPlan op with Some _ => fail ErrConflict | None => mret tt end
  else match so_RefundPlan op with
  | None =>
    guard_not (match s_PendingRefundPlan row with Some _ => true | None => false end
      || (so_Kind op =s ServiceRefund) || (so_Kind op =s ServiceReturn)
      || (so_Kind op =s ServiceRefundRelease)) ErrConflict
  | Some p =>
    check (expected_plan row op p f);;
    validate_refund_phase row op p
  end.

(** The [switch in.Kind] of [validateServiceOperation]. *)
Definition validate_kind (row : servicePaymentRow) (op : ServiceOperation)
    (funds : ServiceFundsView) : ST World unit :=
  let kind := so_Kind op in
  if kind =s ServiceShare then
    guard_not ((s_ReleasedMinor row >? 0) || (s_AutomaticReleasedMinor row >? 0)
      || (s_ReturnedMinor row >? 0)
      || negb (so_AmountMinor op =? (fv_PlatformMinor funds -! s_SharedMinor row))) ErrConflict
  else if kind =s ServiceFinish then
    guard_not ((s_ReleasedMinor row >? 0) || (s_AutomaticReleasedMinor row >? 0)
      || negb ((s_SharedMinor row -! s_ReturnedMinor row) =? fv_PlatformMinor funds)
      || negb (so_AmountMinor op =? fv_ProviderMinor funds)) ErrConflict
  else if kind =s ServiceRefundRelease then
    guard_not ((s_SharedMinor row =? 0) || (s_ReleasedMinor row >? 0)
      || (s_AutomaticReleasedMinor row >? 0)
      || negb (so_AmountMinor op =? ExpectedUnsplitMinor funds)) ErrConflict
  else if kind =s ServiceReturn then
    if match so_RefundPlan op with Some _ => true | None => false end
       && (so_OriginalShareID op =s "") && (so_AmountMinor op =? 0)
    then mret tt
    else
      share ← effect_receipt (s_OrderID row) (so_OriginalShareID op) ServiceShare;
      guard_not (so_AmountMinor op >? (sr_AmountMinor share -! s_ReturnedMinor row)) ErrConflict
  else if (kind =s ServiceRefund) || (kind =s ServiceChargeback) then
    let available := s_GrossMinor row -! s_RefundedMinor row -! s_ChargedBackMinor row in
    guard_not (so_AmountMinor op >? available) ErrInvalid;;
    if (kind =s ServiceRefund)
       && match so_RefundPlan op with Some _ => true | None => false end
    then mret tt
    else
      '(target, _) ← lift (ServiceAllocation (s_GrossMinor row)
        (s_RefundedMinor row +! s_ChargedBackMinor row +! so_AmountMinor op)
        (fv_Allocation funds));
      guard_not ((s_SharedMinor row -! s_ReturnedMinor row) >? target) ErrConflict
  else fail ErrInvalid.

Definition validateServiceOperation (row : servicePaymentRow) (op : ServiceOperation)
    : ST World unit :=
  funds ← lift (serviceFunds row);
  validateServiceRefundPlan row op funds;;
  validate_kind row op funds.

(** ** The life of an operation *)

Definition PrepareServiceOperation (op : ServiceOperation) : ST World ServiceReceipt :=
  check (ServiceOperation_Validate op);;
  Transaction (
    row ← lockServicePayment (so_OrderID op);
    existing ← take_pk service_reservations (so_OperationID op);
    match existing with
    | Some existing =>
      guard_not (sres_Fingerprint existing ≠s operation_fingerprint op) ErrConflict;;
      guard_not ((sres_State existing =s ReservationAbandoned)
        || (sres_State existing =s ReservationFailed)) ErrConflict;;
      lift (decodeServiceReceipt (sres_Receipt existing))
    | None =>
      guard_not ((s_PendingOperationID row ≠s "") || (s_ReconciliationReason row ≠s ""))
        ErrConflict;;
      validateServiceOperation row op;;
      now ← Now;
      let at_ := NormalizeTimestamp now in
      let out := new_receipt None ("service-reservation:" +:+ so_OperationID op)%string
        (so_OrderID op) (so_OperationID op) (so_Kind op) (so_AmountMinor op)
        (operation_fingerprint op) ""%string at_ in
      MarshalTime at_;;
      Create service_reservations {| sres_OperationID := so_OperationID op;
        sres_OrderID := so_OrderID op; sres_Kind := so_Kind op;
        sres_Fingerprint := operation_fingerprint op; sres_Operation := op;
        sres_State := ReservationPrepared; sres_Dispatched := false;
        sres_DenialProofID := ""; sres_Receipt := out |};;
      Update service_payments (s_OrderID row) (λ cur,
        with_fences cur (s_ChargedBackMinor cur)
          match so_RefundPlan op, s_PendingRefundPlan row with
          | Some p, None => Some (json_ServiceRefundPlan p)
          | _, _ => s_PendingRefundPlan cur
          end (so_OperationID op) (s_ReconciliationReason cur));;
      mret out
    end).

Definition AdmitServiceOperation (op : ServiceOperation) : ST World unit :=
  check (ServiceOperation_Validate op);;
  Transaction (
    row ← lockServicePayment (so_OrderID op);
    reservation ← take_pk service_reservations (so_OperationID op);
    reservation ← found ErrNotFound reservation;
    guard_not ((sres_Fingerprint reservation ≠s operation_fingerprint op)
      || (sres_State reservation =s ReservationAbandoned)
      || (sres_State reservation =s ReservationFailed)
      || (s_ReconciliationReason row ≠s "")) ErrConflict;;
    if sres_Dispatched reservation then mret tt
    else
      guard_not ((sres_State reservation ≠s ReservationPrepared)
        || (s_PendingOperationID row ≠s so_OperationID op)) ErrConflict;;
      Update service_reservations (sres_OperationID reservation) (λ x,
        set_reservation (sres_State x) true (sres_DenialProofID x) x)).

Definition AbandonUndispatchedServiceOperation (op : ServiceOperation)
    (denialProofID : string) : ST World unit :=
  check (ServiceOperation_Validate op);;
  guard_not ((denialProofID =s "") || (slen denialProofID >? 128)) ErrInvalid;;
  Transaction (
    row ← lockServicePayment (so_OrderID op);
    reservation ← take_pk service_reservations (so_OperationID op);
    reservation ← found ErrNotFound reservation;
    guard_not (sres_Fingerprint reservation ≠s operation_fingerprint op) ErrConflict;;
    if sres_State reservation =s ReservationAbandoned then
      guard_not (sres_DenialProofID reservation ≠s denialProofID) ErrConflict
    else
      guard_not (sres_Dispatched reservation
        || (sres_State reservation ≠s ReservationPrepared)
        || (s_PendingOperationID row ≠s so_OperationID op)) ErrConflict;;
      Update service_reservations (sres_OperationID reservation) (λ x,
        set_reservation ReservationAbandoned (sres_Dispatched x) denialProofID x);;
      Update service_payments (s_OrderID row) (set_pending "")).

Definition normalized_failure (f : ServiceOperationFailure) : ServiceOperationFailure :=
  {| sf_Operation := sf_Operation f; sf_ProofID := sf_ProofID f;
     sf_ProviderReference := sf_ProviderReference f; sf_Reason := sf_Reason f;
     sf_OccurredAt := NormalizeTimestamp (sf_OccurredAt f) |}.

Definition ResolveFailedServiceOperation (input : ServiceOperationFailure)
    : ST World ServiceReceipt :=
  check (ServiceOperationFailure_Validate input);;
  let i := normalized_failure input in
  let op := sf_Operation i in
  let identity := ("service-failure:" +:+ so_OperationID op)%string in
  let fp := failure_fingerprint i in
  Transaction (
    row ← lockServicePayment (so_OrderID op);
    prior ← take_pk effects identity;
    match prior with
    | Some prior =>
      guard_not (eff_Fingerprint prior ≠s fp) ErrConflict;;
      lift (decode_effect (eff_Receipt prior))
    | None =>
      reservation ← take_pk service_reservations (so_OperationID op);
      reservation ← found ErrNotFound reservation;
      guard_not ((sres_Fingerprint reservation ≠s operation_fingerprint op)
        || negb (sres_Dispatched reservation)
        || (sres_State reservation ≠s ReservationPrepared)
        || (s_PendingOperationID row ≠s so_OperationID op)) ErrConflict;;
      successful ← Count effects (λ e, eff_OperationID e =s so_OperationID op);
      guard_not (negb (successful =? 0)) ErrConflict;;
      let kind := ("FAILED_" +:+ so_Kind op)%string in
      let out := new_receipt None identity (s_OrderID row) (so_OperationID op) kind 0
        (operation_fingerprint op) (sf_ProviderReference i) (sf_OccurredAt i) in
      MarshalTime (sf_OccurredAt i);;
      Create effects {| eff_OperationID := identity; eff_OrderID := s_OrderID row;
        eff_Kind := kind; eff_Fingerprint := fp; eff_Receipt := ReceiptPayload out |};;
      Update service_reservations (sres_OperationID reservation) (λ x,
        set_reservation ReservationFailed (sres_Dispatched x) (sf_ProofID i) x);;
      Update service_payments (s_OrderID row) (set_pending "");;
      mret out
    end).

(** ** Accepting an effect the channel verified *)

Definition normalized_effect (e : ServiceEffect) : ServiceEffect :=
  {| se_RefundAmounts := ServiceRefundAmounts_Normalize <$> se_RefundAmounts e;
     se_Operation := se_Operation e; se_ProviderReference := se_ProviderReference e;
     se_OccurredAt := se_OccurredAt e |}.

(** The row after the effect: amounts, then the running total of its kind. *)
Definition effect_row (row : servicePaymentRow) (e : ServiceEffect)
    (amounts : Z * Z * option (gmap string Z)) : servicePaymentRow :=
  let op := se_Operation e in
  let kind := so_Kind op in
  let amount := so_AmountMinor op in
  let add k v := if kind =s k then v +! amount else v in
  with_funds row amounts.1.1 amounts.1.2 amounts.2
    (if so_RefundPhase op =s ServiceReturnPost then None else s_PendingRefundPlan row)
    (add ServiceRefund (s_RefundedMinor row)) (add ServiceChargeback (s_ChargedBackMinor row))
    (add ServiceShare (s_SharedMinor row)) (add ServiceReturn (s_ReturnedMinor row))
    (if (kind =s ServiceFinish) || (kind =s ServiceRefundRelease)
     then s_ReleasedMinor row +! amount else s_ReleasedMinor row)
    ""
    (if kind =s ServiceChargeback then ReasonChargeback else s_ReconciliationReason row).

(** The refund or chargeback fact the effect also is. *)
Definition record_effect_fact (row : servicePaymentRow) (e : ServiceEffect) (at_ : Time)
    : ST World unit :=
  let op := se_Operation e in
  if so_Kind op =s ServiceRefund then
    Create refunds {| f_RefundID := so_OperationID op; f_PaymentID := s_PaymentID row;
      f_AmountMinor := so_AmountMinor op; f_OccurredAt := at_;
      f_ProviderReference := se_ProviderReference e |}
  else if so_Kind op =s ServiceChargeback then
    Create chargebacks {| c_ChargebackID := so_OperationID op; c_PaymentID := s_PaymentID row;
      c_AmountMinor := so_AmountMinor op; c_OccurredAt := at_;
      c_ProviderReference := se_ProviderReference e |}
  else mret tt.

Definition AcceptServiceEffect (input : ServiceEffect) : ST World ServiceReceipt :=
  let e := normalized_effect input in
  let op := se_Operation e in
  check (ServiceEffect_Validate e);;
  Transaction (
    row ← lockServicePayment (so_OrderID op);
    existing ← take_pk effects (so_OperationID op);
    match existing with
    | Some existing =>
      guard_not (eff_Fingerprint existing ≠s ServiceEffect_Fingerprint e) ErrConflict;;
      lift (decode_effect (eff_Receipt existing))
    | None =>
      reservation ← take_pk service_reservations (so_OperationID op);
      reservation ← found ErrConflict reservation;
      guard_not ((sres_Fingerprint reservation ≠s operation_fingerprint op)
        || (sres_OrderID reservation ≠s s_OrderID row)
        || (sres_State reservation ≠s ReservationPrepared)
        || (s_PendingOperationID row ≠s so_OperationID op)
        || ((so_AmountMinor op >? 0) && negb (sres_Dispatched reservation))) ErrConflict;;
      (if s_ReconciliationReason row =s "" then validateServiceOperation row op else mret tt);;
      let at_ := NormalizeTimestamp (se_OccurredAt e) in
      amounts ← lift (acceptServiceRefundAmounts row e);
      record_effect_fact row e at_;;
      let out := new_receipt (se_RefundAmounts e)
        ("service-effect:" +:+ so_OperationID op)%string (s_OrderID row) (so_OperationID op)
        (so_Kind op) (so_AmountMinor op) (operation_fingerprint op) (se_ProviderReference e)
        at_ in
      MarshalTime at_;;
      Create effects {| eff_OperationID := so_OperationID op; eff_OrderID := s_OrderID row;
        eff_Kind := so_Kind op; eff_Fingerprint := ServiceEffect_Fingerprint e;
        eff_Receipt := ReceiptPayload out |};;
      Update service_reservations (sres_OperationID reservation) (λ x,
        set_reservation ReservationConfirmed (sres_Dispatched x) (sres_DenialProofID x) x);;
      let row' := effect_row row e amounts in
      Update service_payments (s_OrderID row) (λ cur,
        with_funds cur (s_SettlementRefundedMinor row') (s_PayerRefundedMinor row')
          (s_VoucherRefunded row') (s_PendingRefundPlan row') (s_RefundedMinor row')
          (s_ChargedBackMinor row') (s_SharedMinor row') (s_ReturnedMinor row')
          (s_ReleasedMinor row') (s_PendingOperationID row') (s_ReconciliationReason row'));;
      mret out
    end).

Definition ReadServiceEffect (op : ServiceOperation) : ST World ServiceReceipt :=
  check (ServiceOperation_Validate op);;
  row ← take_pk_and effects (so_OperationID op) (λ e,
    (eff_OrderID e =s so_OrderID op) && (eff_Kind e =s so_Kind op));
  row ← found ErrNotFound row;
  out ← lift (decode_effect (eff_Receipt row));
  guard_not (sr_RequestFingerprint out ≠s operation_fingerprint op) ErrConflict;;
  mret out.

(** ** Observations *)

Definition uncertainty_fingerprint (i : ServicePaymentInput) (proof : string) : string :=
  ServiceFingerprint (Some (JObj [("Payment", JStr (ServicePaymentInput_Fingerprint i));
                                  ("Proof", JStr proof)])).

Definition ObserveServiceRefundUncertainty (i : ServicePaymentInput) (proof : string)
    : ST World ServiceReceipt :=
  check (ServicePaymentInput_Validate i);;
  check (ValidateServiceUncertaintyProof proof);;
  let fp := uncertainty_fingerprint i proof in
  let identity := ("service-uncertainty:" +:+ fp)%string in
  Transaction (
    row ← lockServicePayment (sp_OrderID i);
    guard_not (s_Fingerprint row ≠s ServicePaymentInput_Fingerprint i) ErrConflict;;
    prior ← take_pk effects identity;
    match prior with
    | Some prior =>
      guard_not (eff_Fingerprint prior ≠s fp) ErrConflict;;
      lift (decode_effect (eff_Receipt prior))
    | None =>
      let at_ := NormalizeTimestamp (ps_SettledAt (sp_Payment i)) in
      let out := new_receipt None identity (sp_OrderID i) identity
        "REFUND_UNCERTAINTY"%string 0 (ServicePaymentInput_Fingerprint i) proof at_ in
      MarshalTime at_;;
      Create effects {| eff_OperationID := identity; eff_OrderID := sp_OrderID i;
        eff_Kind := "REFUND_UNCERTAINTY"; eff_Fingerprint := fp;
        eff_Receipt := ReceiptPayload out |};;
      (if s_ReconciliationReason row =s "" then
         Update service_payments (s_OrderID row) (set_reason ReasonRefund)
       else mret tt);;
      mret out
    end).

Definition ObserveServiceChargeback (orderID : string) (c : ChargebackSettlement)
    : ST World unit :=
  guard_not (orderID =s "") ErrInvalid;;
  check (ChargebackSettlement_Validate c);;
  Transaction (
    row ← lockServicePayment orderID;
    guard_not (s_PaymentID row ≠s cs_PaymentID c) ErrConflict;;
    old ← take_pk chargebacks (cs_ChargebackID c);
    let at_ := NormalizeTimestamp (cs_OccurredAt c) in
    match old with
    | Some old =>
      guard_not ((c_PaymentID old ≠s cs_PaymentID c)
        || negb (c_AmountMinor old =? cs_AmountMinor c)
        || (c_ProviderReference old ≠s cs_ProviderReference c)
        || negb (c_OccurredAt old =? at_)) ErrConflict
    | None =>
      guard_not (cs_AmountMinor c >?
        (s_GrossMinor row -! s_RefundedMinor row -! s_ChargedBackMinor row)) ErrConflict;;
      Create chargebacks {| c_ChargebackID := cs_ChargebackID c; c_PaymentID := cs_PaymentID c;
        c_AmountMinor := cs_AmountMinor c; c_OccurredAt := at_;
        c_ProviderReference := cs_ProviderReference c |};;
      let receipt := new_receipt None ("service-chargeback:" +:+ cs_ChargebackID c)%string
        orderID (cs_ChargebackID c) ServiceChargeback (cs_AmountMinor c)
        (chargeback_fingerprint c) (cs_ProviderReference c) at_ in
      MarshalTime at_;;
      Create effects {| eff_OperationID := sr_ReceiptID receipt; eff_OrderID := orderID;
        eff_Kind := ServiceChargeback; eff_Fingerprint := chargeback_fingerprint c;
        eff_Receipt := ReceiptPayload receipt |};;
      Update service_payments (s_OrderID row) (λ cur,
        with_fences cur (s_ChargedBackMinor row +! cs_AmountMinor c) (s_PendingRefundPlan cur)
          (s_PendingOperationID cur) ReasonChargeback)
    end).

(** Whether the chargeback was handled as one of a service payment. *)
Definition recordServiceChargeback (c : ChargebackSettlement) : ST World bool :=
  payment ← take_pk_and payments (cs_PaymentID c)
    (λ p, p_PaymentPurpose p =s PaymentPurposeServicePurchase);
  match payment with
  | None => mret false
  | Some payment =>
    binding ← take service_payments (λ s, s_PaymentID s =s p_PaymentID payment);
    binding ← found ErrConflict binding;
    ObserveServiceChargeback (s_OrderID binding) c;;
    mret true
  end.

Definition normalized_fee (i : ServiceChannelFee) : ServiceChannelFee :=
  {| cf_Payment := cf_Payment i; cf_FlowID := cf_FlowID i; cf_BusinessID := cf_BusinessID i;
     cf_ProofID := cf_ProofID i; cf_AmountMinor := cf_AmountMinor i;
     cf_Returned := cf_Returned i; cf_OccurredAt := NormalizeTimestamp (cf_OccurredAt i) |}.

Definition fee_identity (i : ServiceChannelFee) : string :=
  ("service-fee:" +:+ ServiceFingerprint (Some (jstrings
     [pb_Provider (sp_Binding (cf_Payment i)); pb_Environment (sp_Binding (cf_Payment i));
      sp_PlatformMerchantID (cf_Payment i); cf_FlowID i])))%string.

(** A fee on another business must be one on a confirmed refund. *)
Definition fee_bound (refundsSeen : list serviceEffectRow) (businessID : string)
    : result bool :=
  foldr (λ e acc,
    fact ← decode_effect (eff_Receipt e);
    bound ← acc;
    Ok (bound || (sr_ProviderReference fact =s ("wechat-refund:" +:+ businessID)%string)))
    (Ok false) refundsSeen.

(** The running fee after a fee or its return. *)
Definition fee_total (i : ServiceChannelFee) (fee : Z) : result Z :=
  if cf_Returned i then
    if cf_AmountMinor i >? fee then Err ErrConflict else Ok (fee -! cf_AmountMinor i)
  else if cf_AmountMinor i >? (max_int64 -! fee) then Err ErrConflict
  else Ok (fee +! cf_AmountMinor i).

Definition ObserveServiceChannelFee (input : ServiceChannelFee) : ST World ServiceReceipt :=
  check (ServiceChannelFee_Validate input);;
  let i := normalized_fee input in
  let identity := fee_identity i in
  let fp := ServiceChannelFee_Fingerprint i in
  Transaction (
    row ← lockServicePayment (sp_OrderID (cf_Payment i));
    guard_not (s_Fingerprint row ≠s ServicePaymentInput_Fingerprint (cf_Payment i)) ErrConflict;;
    prior ← take_pk effects identity;
    match prior with
    | Some prior =>
      guard_not ((eff_OrderID prior ≠s s_OrderID row) || (eff_Fingerprint prior ≠s fp))
        ErrConflict;;
      lift (decode_effect (eff_Receipt prior))
    | None =>
      (if cf_BusinessID i ≠s pb_TradeID (sp_Binding (cf_Payment i)) then
         seen ← Find effects (λ e, (eff_OrderID e =s s_OrderID row)
                                   && (eff_Kind e =s ServiceRefund));
         bound ← lift (fee_bound seen (cf_BusinessID i));
         guard_not (negb bound) ErrConflict
       else mret tt);;
      fee ← lift (fee_total i (s_ChannelFeeMinor row));
      let kind := (if cf_Returned i then "CHANNEL_FEE_RETURN" else "CHANNEL_FEE")%string in
      let out := new_receipt None identity (s_OrderID row) identity kind (cf_AmountMinor i) fp
        (cf_ProofID i) (cf_OccurredAt i) in
      MarshalTime (cf_OccurredAt i);;
      MarshalTime (ps_SettledAt (sp_Payment (cf_Payment i)));;
      Create effects {| eff_OperationID := identity; eff_OrderID := s_OrderID row;
        eff_Kind := kind; eff_Fingerprint := fp; eff_Receipt := FeePayload out i |};;
      Update service_payments (s_OrderID row) (λ cur,
        set_receipt_and_fee (s_Receipt cur) fee true cur);;
      mret out
    end).

Definition normalized_unsplit (i : ServiceUnsplitObservation) : ServiceUnsplitObservation :=
  {| uo_Payment := uo_Payment i; uo_ProfileVersion := uo_ProfileVersion i;
     uo_ExpectedFundsFingerprint := uo_ExpectedFundsFingerprint i; uo_ProofID := uo_ProofID i;
     uo_UnsplitMinor := uo_UnsplitMinor i;
     uo_OccurredAt := NormalizeTimestamp (uo_OccurredAt i) |}.

(** After the observation is recorded: the funds, and whether it is stale. *)
Definition settle_unsplit (row : servicePaymentRow) (i : ServiceUnsplitObservation)
    : ST World (ServiceFundsView * bool) :=
  out ← lift (serviceFunds row);
  if funds_fingerprint out ≠s uo_ExpectedFundsFingerprint i then mret (out, true)
  else if negb (ExpectedUnsplitMinor out =? uo_UnsplitMinor i)
          && (s_ReconciliationReason row =s "") then
    dispatched ← (if s_PendingOperationID row ≠s "" then
        pending ← take_pk service_reservations (s_PendingOperationID row);
        pending ← found ErrRecordNotFound pending;
        mret (sres_Dispatched pending)
      else mret false);
    if dispatched : bool then mret (out, true)
    else
      Update service_payments (s_OrderID row) (set_reason ReasonFundsChanged);;
      out ← lift (serviceFunds (set_reason ReasonFundsChanged row));
      mret (out, false)
  else mret (out, false).

Definition ObserveServiceUnsplit (input : ServiceUnsplitObservation)
    : ST World ServiceFundsView :=
  check (ServiceUnsplitObservation_Validate input);;
  let i := normalized_unsplit input in
  let fp := unsplit_fingerprint i in
  let identity := ("service-unsplit:" +:+ fp)%string in
  '(out, stale) ← Transaction (
    row ← lockServicePayment (sp_OrderID (uo_Payment i));
    guard_not (s_Fingerprint row ≠s ServicePaymentInput_Fingerprint (uo_Payment i)) ErrConflict;;
    prior ← take_pk effects identity;
    match prior with
    | Some prior => guard_not (eff_Fingerprint prior ≠s fp) ErrConflict
    | None =>
      MarshalTime (ps_SettledAt (sp_Payment (uo_Payment i)));;
      MarshalTime (uo_OccurredAt i);;
      Create effects {| eff_OperationID := identity; eff_OrderID := s_OrderID row;
        eff_Kind := "UNSPLIT_OBSERVATION"; eff_Fingerprint := fp;
        eff_Receipt := UnsplitPayload i |}
    end;;
    settle_unsplit row i);
  if stale : bool then fail ErrConflict else mret out.

(** ** Admissions *)

Definition payment_receipt_matches (row : servicePaymentRow) (i : ServicePaymentInput)
    (receiptID : string) : bool :=
  (s_Fingerprint row =s ServicePaymentInput_Fingerprint i)
  && match s_Receipt row with
     | Some r => match decodeServiceReceipt r with
                 | Ok r => sr_ReceiptID r =s receiptID
                 | Err _ => false
                 end
     | None => false
     end.

Definition AdmitServiceFulfillment (i : ServiceFulfillmentAdmission)
    : ST World ServiceFulfillmentProof :=
  check (ServiceFulfillmentAdmission_Validate i);;
  Transaction (
    row ← lockServicePayment (sp_OrderID (fa_Payment i));
    guard_not (negb (payment_receipt_matches row (fa_Payment i) (fa_PaymentReceiptID i)))
      ErrConflict;;
    prior ← take_pk fulfillments (ServiceFulfillmentAdmission_Identity i);
    match prior with
    | Some prior =>
      let saved := json_ServiceFulfillmentAdmission (sff_Input prior) in
      guard_not ((sff_OrderID prior ≠s sp_OrderID (fa_Payment i))
        || (sff_Fingerprint prior ≠s ServiceFulfillmentAdmission_Fingerprint i)
        || negb (nil_error (ServiceFulfillmentAdmission_Validate saved))
        || (ServiceFulfillmentAdmission_Fingerprint saved ≠s sff_Fingerprint prior)
        || negb (ServiceFulfillmentProof_Matches (sff_Proof prior) i)) ErrConflict;;
      mret (sff_Proof prior)
    | None =>
      funds ← lift (serviceFunds row);
      guard_not ((fv_ReconciliationReason funds ≠s "")
        || negb (fv_ChargedBackMinor funds =? 0)) ErrConflict;;
      now ← Now;
      let proof result := {| fpf_ReceiptID := ServiceFulfillmentAdmission_Identity i;
        fpf_InputFingerprint := ServiceFulfillmentAdmission_Fingerprint i;
        fpf_PaymentReceiptID := fa_PaymentReceiptID i;
        fpf_OccurredAt := NormalizeTimestamp now; fpf_ResultFingerprint := result |} in
      let out := proof (ServiceFulfillmentProof_Fingerprint (proof ""%string)) in
      MarshalTime (ps_SettledAt (sp_Payment (fa_Payment i)));;
      MarshalTime (NormalizeTimestamp now);;
      Create fulfillments {| sff_ReceiptID := fpf_ReceiptID out;
        sff_OrderID := sp_OrderID (fa_Payment i);
        sff_Fingerprint := ServiceFulfillmentAdmission_Fingerprint i; sff_Input := i;
        sff_Proof := out |};;
      mret out
    end).

Definition AdmitServiceRefundReview (i : ServiceRefundReviewAdmission)
    : ST World ServiceRefundReviewProof :=
  check (ServiceRefundReviewAdmission_Validate i);;
  Transaction (
    row ← lockServicePayment (sp_OrderID (ad_Payment i));
    guard_not (negb (payment_receipt_matches row (ad_Payment i) (ad_PaymentReceiptID i)))
      ErrConflict;;
    prior ← take_pk refund_reviews (ServiceRefundReviewAdmission_Identity i);
    match prior with
    | Some prior =>
      let saved := json_ServiceRefundReviewAdmission (srr_Input prior) in
      guard_not ((srr_OrderID prior ≠s sp_OrderID (ad_Payment i))
        || (srr_Fingerprint prior ≠s ServiceRefundReviewAdmission_Fingerprint i)
        || negb (nil_error (ServiceRefundReviewAdmission_Validate saved))
        || (ServiceRefundReviewAdmission_Fingerprint saved ≠s srr_Fingerprint prior)
        || negb (ServiceRefundReviewProof_Matches (srr_Proof prior) i)) ErrConflict;;
      mret (srr_Proof prior)
    | None =>
      funds ← lift (serviceFunds row);
      let remaining := fv_GrossMinor funds -! fv_RefundedMinor funds
                       -! fv_ChargedBackMinor funds in
      guard_not ((fv_ReconciliationReason funds ≠s "")
        || negb (fv_ChargedBackMinor funds =? 0) || (remaining <? ad_AmountMinor i)) ErrConflict;;
      now ← Now;
      let proof result := {| rpf_ReceiptID := ServiceRefundReviewAdmission_Identity i;
        rpf_InputFingerprint := ServiceRefundReviewAdmission_Fingerprint i;
        rpf_PaymentReceiptID := ad_PaymentReceiptID i; rpf_RemainingMinor := remaining;
        rpf_OccurredAt := NormalizeTimestamp now; rpf_ResultFingerprint := result |} in
      let out := proof (ServiceRefundReviewProof_Fingerprint (proof ""%string)) in
      MarshalTime (ps_SettledAt (sp_Payment (ad_Payment i)));;
      MarshalTime (NormalizeTimestamp now);;
      Create refund_reviews {| srr_ReceiptID := rpf_ReceiptID out;
        srr_OrderID := sp_OrderID (ad_Payment i);
        srr_Fingerprint := ServiceRefundReviewAdmission_Fingerprint i; srr_Input := i;
        srr_Proof := out |};;
      mret out
    end).

End service_repository.

(** * Lemmas *)

(** ** Footprints *)

Section service_footprints.
Context `{Env} (R : World → World → Prop) `{!Frame R}.

Lemma lockServicePayment_keeps o : keeps R (lockServicePayment o).
Proof. unfold lockServicePayment. solve_keeps. Qed.
Lemma effect_receipt_keeps o i k : keeps R (effect_receipt o i k).
Proof. unfold effect_receipt. solve_keeps. Qed.
Hint Resolve lockServicePayment_keeps effect_receipt_keeps : keeps.
Lemma validateServiceOperation_keeps row op : keeps R (validateServiceOperation row op).
Proof.
  unfold validateServiceOperation, validateServiceRefundPlan, validate_refund_phase,
    validate_kind. solve_keeps.
Qed.
Hint Resolve validateServiceOperation_keeps : keeps.

Lemma AcceptServicePayment_keeps `{!Inserts R channel_claims, !Writes R service_payments,
  !Inserts R payments} i : keeps R (AcceptServicePayment i).
Proof. unfold AcceptServicePayment. solve_keeps. Qed.

Lemma AdmitServiceOperation_keeps `{!Writes R service_reservations} op :
  keeps R (AdmitServiceOperation op).
Proof. unfold AdmitServiceOperation. solve_keeps. Qed.

Section funds_tables.
Context `{!Writes R service_payments}.

Lemma PrepareServiceOperation_keeps `{!Inserts R service_reservations} op :
  keeps R (PrepareServiceOperation op).
Proof. unfold PrepareServiceOperation. solve_keeps. Qed.
Lemma AbandonUndispatchedServiceOperation_keeps `{!Writes R service_reservations} op p :
  keeps R (AbandonUndispatchedServiceOperation op p).
Proof. unfold AbandonUndispatchedServiceOperation. solve_keeps. Qed.

Context `{!Inserts R effects}.

Lemma ResolveFailedServiceOperation_keeps `{!Writes R service_reservations} f :
  keeps R (ResolveFailedServiceOperation f).
Proof. unfold ResolveFailedServiceOperation. solve_keeps. Qed.
Lemma AcceptServiceEffect_keeps `{!Writes R service_reservations, !Inserts R refunds,
  !Inserts R chargebacks} e : keeps R (AcceptServiceEffect e).
Proof. unfold AcceptServiceEffect, record_effect_fact. solve_keeps. Qed.
Lemma ObserveServiceRefundUncertainty_keeps i p :
  keeps R (ObserveServiceRefundUncertainty i p).
Proof. unfold ObserveServiceRefundUncertainty. solve_keeps. Qed.
Lemma ObserveServiceChargeback_keeps `{!Inserts R chargebacks} o c :
  keeps R (ObserveServiceChargeback o c).
Proof. unfold ObserveServiceChargeback. solve_keeps. Qed.
Hint Resolve ObserveServiceChargeback_keeps : keeps.
Lemma recordServiceChargeback_keeps `{!Inserts R chargebacks} c :
  keeps R (recordServiceChargeback c).
Proof. unfold recordServiceChargeback. solve_keeps. Qed.
Lemma ObserveServiceChannelFee_keeps i : keeps R (ObserveServiceChannelFee i).
Proof. unfold ObserveServiceChannelFee. solve_keeps. Qed.
Lemma ObserveServiceUnsplit_keeps i : keeps R (ObserveServiceUnsplit i).
Proof. unfold ObserveServiceUnsplit, settle_unsplit. solve_keeps. Qed.
End funds_tables.

Lemma AdmitServiceFulfillment_keeps `{!Inserts R fulfillments} i :
  keeps R (AdmitServiceFulfillment i).
Proof. unfold AdmitServiceFulfillment. solve_keeps. Qed.
Lemma AdmitServiceRefundReview_keeps `{!Inserts R refund_reviews} i :
  keeps R (AdmitServiceRefundReview i).
Proof. unfold AdmitServiceRefundReview. solve_keeps. Qed.
End service_footprints.

#[export] Hint Resolve lockServicePayment_keeps effect_receipt_keeps validateServiceOperation_keeps
  AcceptServicePayment_keeps AdmitServiceOperation_keeps PrepareServiceOperation_keeps
  AbandonUndispatchedServiceOperation_keeps ResolveFailedServiceOperation_keeps
  AcceptServiceEffect_keeps ObserveServiceRefundUncertainty_keeps ObserveServiceChargeback_keeps
  recordServiceChargeback_keeps ObserveServiceChannelFee_keeps ObserveServiceUnsplit_keeps
  AdmitServiceFulfillment_keeps AdmitServiceRefundReview_keeps : keeps.
