(* ===== verification/ServiceMachine.v ===== *)
(** * The state machine of service funds

    What service_repository.go and its neighbours may do to the payment,
    reservation and effect tables, as a step relation: a payment is accepted,
    one operation at a time is prepared, dispatched, abandoned, failed or
    confirmed on its funds, and observations add to the record and may put the
    payment under reconciliation. The invariants of every state the machine
    reaches are proved here of the relation alone. *)
From S2P Require Import Prelude GoStd Encoding MoneyTypes ProviderTopUp ServiceMoney ServiceValues Store MoneyStore WalletSpec WalletRepo TopUpRepo ServiceRepo.

(** ** The steps *)

(** A payment just accepted: nothing has happened to its funds. *)
Record fresh_payment (row : servicePaymentRow) : Prop := {
  fp_input : ServicePaymentInput_Validate (s_Input row) = None;
  fp_same : s_OrderID row = sp_OrderID (s_Input row) ∧
    s_GrossMinor row = ps_GrossAmountMinor (sp_Payment (s_Input row)) ∧
    s_Fingerprint row = ServicePaymentInput_Fingerprint (s_Input row) ∧
    s_ClaimID row = ProviderPaymentBinding_ClaimID (sp_Binding (s_Input row)) ∧
    s_PaymentID row = ps_PaymentID (sp_Payment (s_Input row));
  fp_gross : in_int64 (s_GrossMinor row);
  fp_receipt : is_Some (s_Receipt row);
  fp_zero : s_SettlementRefundedMinor row = 0 ∧ s_PayerRefundedMinor row = 0 ∧
    s_RefundedMinor row = 0 ∧ s_ChargedBackMinor row = 0 ∧ s_SharedMinor row = 0 ∧
    s_ReturnedMinor row = 0 ∧ s_ReleasedMinor row = 0 ∧ s_AutomaticReleasedMinor row = 0 ∧
    s_ChannelFeeMinor row = 0;
  fp_idle : s_VoucherRefunded row = None ∧ s_PendingRefundPlan row = None ∧
    s_PendingOperationID row = ""%string ∧ s_ReconciliationReason row = ""%string }.

(** The amount an effect stands for. *)
Definition effect_amount (e : serviceEffectRow) : Z :=
  match eff_Receipt e with
  | ReceiptPayload r | FeePayload r _ => sr_AmountMinor r
  | UnsplitPayload _ => 0
  end.

Definition fee_kind : string := "CHANNEL_FEE".
Definition fee_return_kind : string := "CHANNEL_FEE_RETURN".

(** The kinds whose effects the running totals of a payment add up. *)
Definition counted_kinds : list string :=
  [ServiceShare; ServiceFinish; ServiceRefundRelease; ServiceReturn; ServiceRefund;
   ServiceChargeback; fee_kind; fee_return_kind].

(** The reason may be set once, and is never lifted. *)
Definition reason_set (row : servicePaymentRow) (r : string) : Prop :=
  r = s_ReconciliationReason row ∨ (s_ReconciliationReason row = ""%string ∧ r ≠ ""%string).

Section service_machine.
Context `{Env}.

(** The repository's own check of an operation passes on these tables. *)
Definition operation_allowed (d : DB) (row : servicePaymentRow) (op : ServiceOperation) : Prop :=
  ∃ w w', the_db w = d ∧ validateServiceOperation row op w = (Ok tt, w').

(** The open reservation [x] is the pending operation of the payment [row]. *)
Record pending_on (d : DB) (row : servicePaymentRow) (x : serviceReservationRow) : Prop := {
  po_row : rows service_payments d !! s_OrderID row = Some row;
  po_res : rows service_reservations d !! sres_OperationID x = Some x;
  po_open : sres_State x = ReservationPrepared;
  po_pending : s_PendingOperationID row = sres_OperationID x }.

(** [d'] is [d] with these three tables. *)
Definition tables_become (d d' : DB) (sp : gmap string servicePaymentRow)
    (sr : gmap string serviceReservationRow) (ef : gmap string serviceEffectRow) : Prop :=
  rows service_payments d' = sp ∧ rows service_reservations d' = sr ∧ rows effects d' = ef.

Definition put_payment (row row' : servicePaymentRow) (d : DB) : gmap string servicePaymentRow :=
  <[s_OrderID row := row']> (rows service_payments d).
Definition put_reservation (x x' : serviceReservationRow) (d : DB) : gmap string serviceReservationRow :=
  <[sres_OperationID x := x']> (rows service_reservations d).

(** The effect [e], new, about the order of [row]. *)
Definition new_effect (e : serviceEffectRow) (row : servicePaymentRow) (d : DB) : Prop :=
  rows effects d !! eff_OperationID e = None ∧ eff_OrderID e = s_OrderID row.
Definition put_effect (e : serviceEffectRow) (d : DB) : gmap string serviceEffectRow :=
  <[eff_OperationID e := e]> (rows effects d).

(** A step of the machine that prepares and confirms operations of [S] only. *)
Inductive service_step (S : ServiceOperation → Prop) (d d' : DB) : Prop :=
  | sv_idle : tables_become d d' (rows service_payments d) (rows service_reservations d)
        (rows effects d) → service_step S d d'
  | sv_paid row : fresh_payment row → rows service_payments d !! s_OrderID row = None →
      tables_become d d' (put_payment row row d) (rows service_reservations d) (rows effects d) →
      service_step S d d'
  | sv_prepared op row x plan : S op →
      ServiceOperation_Validate op = None → s_OrderID row = so_OrderID op →
      rows service_payments d !! s_OrderID row = Some row →
      s_PendingOperationID row = ""%string → s_ReconciliationReason row = ""%string →
      operation_allowed d row op →
      rows service_reservations d !! sres_OperationID x = None →
      sres_OperationID x = so_OperationID op → sres_OrderID x = s_OrderID row →
      sres_Operation x = op → sres_Fingerprint x = operation_fingerprint op →
      sres_State x = ReservationPrepared → sres_Dispatched x = false →
      plan = match so_RefundPlan op, s_PendingRefundPlan row with
             | Some p, None => Some (json_ServiceRefundPlan p)
             | _, _ => s_PendingRefundPlan row
             end →
      tables_become d d'
        (put_payment row (with_fences row (s_ChargedBackMinor row) plan (so_OperationID op)
           (s_ReconciliationReason row)) d)
        (put_reservation x x d) (rows effects d) → service_step S d d'
  | sv_dispatched row x : pending_on d row x → sres_Dispatched x = false →
      s_ReconciliationReason row = ""%string →
      tables_become d d' (rows service_payments d)
        (put_reservation x (set_reservation (sres_State x) true (sres_DenialProofID x) x) d)
        (rows effects d) → service_step S d d'
  | sv_abandoned row x proof : pending_on d row x → sres_Dispatched x = false →
      tables_become d d' (put_payment row (set_pending "" row) d)
        (put_reservation x (set_reservation ReservationAbandoned (sres_Dispatched x) proof x) d)
        (rows effects d) → service_step S d d'
  | sv_failed row x proof e : pending_on d row x → sres_Dispatched x = true →
      new_effect e row d → eff_Kind e ∉ counted_kinds →
      tables_become d d' (put_payment row (set_pending "" row) d)
        (put_reservation x (set_reservation ReservationFailed (sres_Dispatched x) proof x) d)
        (put_effect e d) → service_step S d d'
  | sv_confirmed row x i amounts e : pending_on d row x →
      let op := se_Operation i in S op →
      ServiceEffect_Validate i = None → so_OrderID op = s_OrderID row →
      so_OperationID op = sres_OperationID x →
      sres_OrderID x = s_OrderID row → sres_Fingerprint x = operation_fingerprint op →
      (so_AmountMinor op > 0 → sres_Dispatched x = true) →
      (s_ReconciliationReason row = ""%string → operation_allowed d row op) →
      acceptServiceRefundAmounts row i = Ok amounts →
      new_effect e row d → eff_OperationID e = so_OperationID op → eff_Kind e = so_Kind op →
      (∃ r, eff_Receipt e = ReceiptPayload r ∧ sr_AmountMinor r = so_AmountMinor op ∧
         sr_RefundAmounts r = se_RefundAmounts i) →
      tables_become d d' (put_payment row (effect_row row i amounts) d)
        (put_reservation x (set_reservation ReservationConfirmed (sres_Dispatched x)
           (sres_DenialProofID x) x) d)
        (put_effect e d) → service_step S d d'
  | sv_charged_back row e : rows service_payments d !! s_OrderID row = Some row →
      new_effect e row d → eff_Kind e = ServiceChargeback →
      tables_become d d'
        (put_payment row (with_fences row (s_ChargedBackMinor row +! effect_amount e)
           (s_PendingRefundPlan row) (s_PendingOperationID row) ReasonChargeback) d)
        (rows service_reservations d) (put_effect e d) → service_step S d d'
  | sv_fee row e fee : rows service_payments d !! s_OrderID row = Some row →
      new_effect e row d → 0 ≤ effect_amount e →
      (eff_Kind e = fee_kind ∧ effect_amount e ≤ max_int64 -! s_ChannelFeeMinor row ∧
         fee = s_ChannelFeeMinor row +! effect_amount e ∨
       eff_Kind e = fee_return_kind ∧ effect_amount e ≤ s_ChannelFeeMinor row ∧
         fee = s_ChannelFeeMinor row -! effect_amount e) →
      tables_become d d' (put_payment row (set_receipt_and_fee (s_Receipt row) fee true row) d)
        (rows service_reservations d) (put_effect e d) → service_step S d d'
  | sv_observed row e : rows service_payments d !! s_OrderID row = Some row →
      new_effect e row d → eff_Kind e ∉ counted_kinds →
      tables_become d d' (rows service_payments d) (rows service_reservations d)
        (put_effect e d) → service_step S d d'
  | sv_flagged row r : rows service_payments d !! s_OrderID row = Some row → reason_set row r →
      tables_become d d' (put_payment row (set_reason r row) d)
        (rows service_reservations d) (rows effects d) → service_step S d d'.
End service_machine.

(** ** Invariants *)

(** What is fixed when a payment is accepted. *)
Record payment_wf (k : string) (row : servicePaymentRow) : Prop := {
  pw_key : k = s_OrderID row;
  pw_input : ServicePaymentInput_Validate (s_Input row) = None;
  pw_same : s_OrderID row = sp_OrderID (s_Input row) ∧
    s_GrossMinor row = ps_GrossAmountMinor (sp_Payment (s_Input row)) ∧
    s_Fingerprint row = ServicePaymentInput_Fingerprint (s_Input row);
  pw_gross : 0 < s_GrossMinor row ≤ max_int64;
  pw_receipt : is_Some (s_Receipt row);
  pw_automatic : s_AutomaticReleasedMinor row = 0 }.

(** Rows are under their keys, and effects are of accepted payments. *)
Record services_wf (d : DB) : Prop := {
  sw_payment : ∀ k row, rows service_payments d !! k = Some row → payment_wf k row;
  sw_reservation : ∀ k x, rows service_reservations d !! k = Some x → k = sres_OperationID x;
  sw_effect : ∀ k e, rows effects d !! k = Some e →
    k = eff_OperationID e ∧ is_Some (rows service_payments d !! eff_OrderID e) }.

(** An operation is open exactly when it is the pending one of its payment. *)
Record one_open_operation (d : DB) : Prop := {
  oo_pending : ∀ o row, rows service_payments d !! o = Some row →
    s_PendingOperationID row ≠ ""%string →
    ∃ x, rows service_reservations d !! s_PendingOperationID row = Some x ∧
      sres_OrderID x = o ∧ sres_State x = ReservationPrepared;
  oo_open : ∀ id x, rows service_reservations d !! id = Some x →
    sres_State x = ReservationPrepared →
    id ≠ ""%string ∧ ∃ row, rows service_payments d !! sres_OrderID x = Some row ∧
      s_PendingOperationID row = id }.

(** The sum of an order's effects of a kind. *)
Definition effects_total (d : DB) (order kind : string) : Z :=
  msum (λ e, if (eff_OrderID e =s order) && (eff_Kind e =s kind) then effect_amount e else 0)
    (rows effects d).

(** The running totals of a payment are the sums of its effects, as int64. *)
Record payment_accounted (d : DB) (o : string) (row : servicePaymentRow) : Prop := {
  ac_refunded : s_RefundedMinor row = wrap64 (effects_total d o ServiceRefund);
  ac_charged : s_ChargedBackMinor row = wrap64 (effects_total d o ServiceChargeback);
  ac_shared : s_SharedMinor row = wrap64 (effects_total d o ServiceShare);
  ac_returned : s_ReturnedMinor row = wrap64 (effects_total d o ServiceReturn);
  ac_released : s_ReleasedMinor row =
    wrap64 (effects_total d o ServiceFinish + effects_total d o ServiceRefundRelease);
  ac_fee : s_ChannelFeeMinor row = effects_total d o fee_kind - effects_total d o fee_return_kind ∧
    0 ≤ s_ChannelFeeMinor row ≤ max_int64 }.

Definition accounted (d : DB) : Prop :=
  ∀ o row, rows service_payments d !! o = Some row → payment_accounted d o row.

(** * Lemmas *)

Lemma wrap64_add_l a b : wrap64 (wrap64 a + b) = wrap64 (a + b).
Proof.
  unfold wrap64. f_equal.
  replace ((a + 9223372036854775808) mod 18446744073709551616 - 9223372036854775808 + b +
    9223372036854775808) with ((a + 9223372036854775808) mod 18446744073709551616 + b) by lia.
  rewrite Zplus_mod_idemp_l. f_equal. lia.
Qed.

Lemma effects_total_insert d d' e o k : rows effects d !! eff_OperationID e = None →
  rows effects d' = put_effect e d →
  effects_total d' o k = effects_total d o k +
    (if (eff_OrderID e =s o) && (eff_Kind e =s k) then effect_amount e else 0).
Proof. intros Hn He. unfold effects_total. rewrite He. unfold put_effect. rewrite msum_insert by done. lia. Qed.

Lemma effects_total_same d d' o k : rows effects d' = rows effects d →
  effects_total d' o k = effects_total d o k.
Proof. unfold effects_total. by intros ->. Qed.

(** An effect of a kind that is not counted changes no total. *)
Lemma uncounted_total d d' e o k : rows effects d !! eff_OperationID e = None →
  rows effects d' = put_effect e d → eff_Kind e ∉ counted_kinds → k ∈ counted_kinds →
  effects_total d' o k = effects_total d o k.
Proof.
  intros Hn He Hk Hin. erewrite effects_total_insert by done.
  destruct (eff_Kind e =s k) eqn:Hc; [|rewrite andb_false_r; lia].
  apply String.eqb_eq in Hc. by rewrite Hc in Hk.
Qed.

Lemma ServiceOperation_ids op : ServiceOperation_Validate op = None →
  so_OrderID op ≠ ""%string ∧ so_OperationID op ≠ ""%string ∧ 0 ≤ so_AmountMinor op.
Proof.
  unfold ServiceOperation_Validate. case_match eqn:Hc; [done|]. intros _.
  reflect_bools. destruct_and!. unfold isCanonicalWalletIdentifier in *. reflect_bools.
  destruct_and!. done.
Qed.

(** The kinds an operation can be of. *)
Lemma ServiceOperation_kinds op : ServiceOperation_Validate op = None →
  so_Kind op = ServiceShare ∨ so_Kind op = ServiceFinish ∨ so_Kind op = ServiceRefundRelease ∨
  so_Kind op = ServiceReturn ∨ so_Kind op = ServiceRefund ∨ so_Kind op = ServiceChargeback.
Proof.
  unfold ServiceOperation_Validate. intros Hv. apply dec_stable. intros Hn.
  destruct (so_Kind op =s ServiceShare) eqn:E1; [apply String.eqb_eq in E1; tauto|].
  destruct (so_Kind op =s ServiceFinish) eqn:E2; [apply String.eqb_eq in E2; tauto|].
  destruct (so_Kind op =s ServiceRefundRelease) eqn:E3; [apply String.eqb_eq in E3; tauto|].
  destruct (so_Kind op =s ServiceReturn) eqn:E4; [apply String.eqb_eq in E4; tauto|].
  destruct (so_Kind op =s ServiceRefund) eqn:E5; [apply String.eqb_eq in E5; tauto|].
  destruct (so_Kind op =s ServiceChargeback) eqn:E6; [apply String.eqb_eq in E6; tauto|].
  by destruct (_ || _).
Qed.

Lemma ServiceEffect_operation e : ServiceEffect_Validate e = None →
  ServiceOperation_Validate (se_Operation e) = None.
Proof.
  unfold ServiceEffect_Validate. by destruct (ServiceOperation_Validate (se_Operation e)).
Qed.

Lemma ServicePaymentInput_gross i : ServicePaymentInput_Validate i = None →
  0 < ps_GrossAmountMinor (sp_Payment i).
Proof.
  unfold ServicePaymentInput_Validate. case_match; [done|]. case_match eqn:Hc; [done|]. intros _.
  reflect_bools. destruct_and!.
  match goal with H : PaymentSettlement_Validate _ = None |- _ => revert H end.
  unfold PaymentSettlement_Validate. case_match eqn:Hp; [done|]. intros _.
  reflect_bools. destruct_and!. lia.
Qed.

Section machine_invariants.
Context `{Env} {S : ServiceOperation → Prop}.

(** Every step puts at most one payment row and keeps what identifies it. *)
Definition same_identity (row row' : servicePaymentRow) : Prop :=
  s_OrderID row' = s_OrderID row ∧ s_RequestID row' = s_RequestID row ∧
  s_ClaimID row' = s_ClaimID row ∧ s_PaymentID row' = s_PaymentID row ∧
  s_BuyerOrganizationID row' = s_BuyerOrganizationID row ∧
  s_ProviderOrganizationID row' = s_ProviderOrganizationID row ∧
  s_Fingerprint row' = s_Fingerprint row ∧ s_Input row' = s_Input row ∧
  s_Receipt row' = s_Receipt row ∧ s_GrossMinor row' = s_GrossMinor row ∧
  s_AutomaticReleasedMinor row' = s_AutomaticReleasedMinor row ∧
  (s_ReconciliationReason row ≠ ""%string → s_ReconciliationReason row' ≠ ""%string).

#[export] Instance same_identity_preorder : PreOrder same_identity.
Proof.
  split; [intros row; by repeat split|]. intros r1 r2 r3 H12 H23.
  unfold same_identity in *. destruct_and!. repeat split; (congruence || auto).
Qed.

Lemma payment_wf_same k row row' : same_identity row row' → payment_wf k row → payment_wf k row'.
Proof.
  intros (E1&_&_&_&_&_&E2&E3&E4&E5&E6&_) [H1 H2 [H3 H4] H5 H6 H7].
  split; rewrite ?E1, ?E2, ?E3, ?E4, ?E5, ?E6; done.
Qed.

(** A payment is new, or stays in place with its identity. *)
Lemma set_reason_identity r row : reason_set row r → same_identity row (set_reason r row).
Proof. intros Hr. repeat split; try done. simpl. destruct Hr as [->|[? ?]]; done. Qed.

Lemma step_payments d d' : service_step S d d' →
  rows service_payments d' = rows service_payments d ∨
  (∃ row, fresh_payment row ∧ rows service_payments d !! s_OrderID row = None ∧
     rows service_payments d' = put_payment row row d) ∨
  (∃ row row', rows service_payments d !! s_OrderID row = Some row ∧
     rows service_payments d' = put_payment row row' d ∧ same_identity row row').
Proof.
  intros [(Hp&_)|row Hf Hn (Hp&_)|op row x plan ? ? ? Hrow ? ? ? ? ? ? ? ? ? ? ? (Hp&_)
    |row x [Hrow _ _ _] ? ? (Hp&_)|row x proof [Hrow _ _ _] ? (Hp&_)
    |row x proof e [Hrow _ _ _] ? ? ? (Hp&_)|row x i amounts e [Hrow _ _ _] op ? ? ? ? ? ? ? ? ? ? ? ? ? (Hp&_)
    |row e Hrow ? ? (Hp&_)|row e fee Hrow ? ? ? (Hp&_)|row e Hrow ? ? (Hp&_)|row r Hrow Hr (Hp&_)].
  all: try (by left).
  - right. left. by exists row.
  - right. right. by do 2 eexists.
  - right. right. by do 2 eexists.
  - right. right. by do 2 eexists.
  - right. right. do 2 eexists. split; [done|]. split; [done|]. repeat split; try done.
    simpl. by case_match.
  - right. right. by do 2 eexists.
  - right. right. by do 2 eexists.
  - right. right. do 2 eexists. split; [done|]. split; [done|]. by apply set_reason_identity.
Qed.

Lemma fresh_payment_wf row : fresh_payment row → payment_wf (s_OrderID row) row.
Proof.
  intros [Hv (H1&H2&H3&_) Hg Hr Hz _]. split; try done; [|tauto].
  split; [|apply Hg]. rewrite H2. by apply ServicePaymentInput_gross.
Qed.

(** Reservations of a step: one more, one changed, or all as before. *)
Lemma step_reservations d d' : service_step S d d' →
  rows service_reservations d' = rows service_reservations d ∨
  ∃ x, rows service_reservations d' = put_reservation x x d ∨
    ∃ s b p, rows service_reservations d !! sres_OperationID x = Some x ∧
      rows service_reservations d' = put_reservation x (set_reservation s b p x) d.
Proof.
  destruct 1 as [(_&Hx&_)|? ? ? (_&Hx&_)|op row x plan ? ? ? ? ? ? ? ? ? ? ? ? ? ? ? (_&Hx&_)
    |row x [_ Hl _ _] ? ? (_&Hx&_)|row x proof [_ Hl _ _] ? (_&Hx&_)
    |row x proof e [_ Hl _ _] ? ? ? (_&Hx&_)
    |row x i amounts e [_ Hl _ _] op ? ? ? ? ? ? ? ? ? ? ? ? ? (_&Hx&_)
    |? ? ? ? ? (_&Hx&_)|? ? ? ? ? ? ? (_&Hx&_)|? ? ? ? ? (_&Hx&_)|? ? ? ? (_&Hx&_)].
  all: try (by left). all: right; exists x.
  - by left.
  - right. eauto 6.
  - right. eauto 6.
  - right. eauto 6.
  - right. eauto 6.
Qed.

(** Effects of a step: one more of an accepted payment, or all as before. *)
Lemma step_effects d d' : service_step S d d' →
  rows effects d' = rows effects d ∨
  ∃ e row, rows service_payments d !! s_OrderID row = Some row ∧ new_effect e row d ∧
    rows effects d' = put_effect e d.
Proof.
  destruct 1 as [(_&_&Hx)|? ? ? (_&_&Hx)|op row x plan ? ? ? ? ? ? ? ? ? ? ? ? ? ? ? (_&_&Hx)
    |row x [Hr _ _ _] ? ? (_&_&Hx)|row x proof [Hr _ _ _] ? (_&_&Hx)
    |row x proof e [Hr _ _ _] ? ? ? (_&_&Hx)
    |row x i amounts e [Hr _ _ _] op ? ? ? ? ? ? ? ? ? ? ? ? ? (_&_&Hx)
    |? ? ? ? ? (_&_&Hx)|? ? ? ? ? ? ? (_&_&Hx)|? ? ? ? ? (_&_&Hx)|? ? ? ? (_&_&Hx)].
  all: first [by left|right; do 2 eexists; eauto].
Qed.

Lemma step_wf d d' : service_step S d d' → services_wf d → services_wf d'.
Proof.
  intros Hs [W1 W2 W3]. assert (∀ o, is_Some (rows service_payments d !! o) →
    is_Some (rows service_payments d' !! o)) as Hgrow.
  { intros o [row Hrow]. destruct (step_payments _ _ Hs) as [->|[(r&_&Hn&->)|(r&r'&Hr&->&_)]]; [by eexists|..];
      unfold put_payment; apply lookup_insert_is_Some'; by right; exists row. }
  split.
  - intros k row. destruct (step_payments _ _ Hs) as [->|[(r&Hf&Hn&->)|(r&r'&Hr&->&Hi)]]; [by apply W1|..];
      unfold put_payment; intros [[<- <-]|[_ Hk]]%lookup_insert_Some; [|by apply W1| |by apply W1].
    + by apply fresh_payment_wf.
    + eapply payment_wf_same; [exact Hi|by apply W1].
  - intros k x. destruct (step_reservations _ _ Hs) as [->|(y&[->|(s&b&p&Hl&->)])]; [by apply W2|..];
      unfold put_reservation; intros [[<- <-]|[_ Hk]]%lookup_insert_Some; try done; by apply W2.
  - intros k e. destruct (step_effects _ _ Hs) as [->|(y&row&Hr&[Hn Ho]&->)].
    + intros Hk. destruct (W3 _ _ Hk). split; [done|by apply Hgrow].
    + unfold put_effect. intros [[<- <-]|[_ Hk]]%lookup_insert_Some.
      * split; [done|]. apply Hgrow. rewrite Ho. by eexists.
      * destruct (W3 _ _ Hk). split; [done|by apply Hgrow].
Qed.

(** ** One operation at a time *)

(** Putting a payment row that keeps its pending operation. *)
Lemma one_open_payment d d' row row' : one_open_operation d →
  rows service_payments d !! s_OrderID row = Some row →
  s_PendingOperationID row' = s_PendingOperationID row →
  rows service_payments d' = put_payment row row' d →
  rows service_reservations d' = rows service_reservations d → one_open_operation d'.
Proof.
  intros [O1 O2] Hr Hp Hsp Hsr. unfold put_payment in Hsp. split; rewrite Hsp, Hsr.
  - intros o r [[<- <-]|[_ Ho]]%lookup_insert_Some Hne; [|by apply O1].
    rewrite Hp in *. by apply O1.
  - intros id x Hx Hs. destruct (O2 id x Hx Hs) as (Hne & r & Hl & <-). split; [done|].
    destruct (decide (s_OrderID row = sres_OrderID x)) as [He|He].
    + exists row'. rewrite He, lookup_insert_eq. split; [done|]. rewrite Hp. rewrite He in Hr.
      by simplify_eq.
    + exists r. by rewrite lookup_insert_ne.
Qed.

(** The pending operation ends: its payment is free again. *)
Lemma one_open_ended d d' row row' x s b p : services_wf d → one_open_operation d →
  pending_on d row x → s ≠ ReservationPrepared → s_PendingOperationID row' = ""%string →
  rows service_payments d' = put_payment row row' d →
  rows service_reservations d' = put_reservation x (set_reservation s b p x) d →
  one_open_operation d'.
Proof.
  intros [_ W2 _] [O1 O2] [Hr Hx Ho Hp] Hne Hp' Hsp Hsr. unfold put_payment, put_reservation in *.
  destruct (O2 _ _ Hx Ho) as (Hid & rx & Hrx & Hpx).
  assert (sres_OrderID x = s_OrderID row) as Hord.
  { destruct (O1 _ _ Hr) as (y & Hy & Hyo & _); [by rewrite Hp|]. rewrite Hp in Hy.
    rewrite Hx in Hy. by simplify_eq. }
  split; rewrite Hsp, Hsr.
  - intros o r [[<- <-]|[Hn Ho']]%lookup_insert_Some Hne'; [done|].
    destruct (O1 _ _ Ho' Hne') as (y & Hy & Hyo & Hys). exists y. split; [|done].
    rewrite lookup_insert_ne; [done|]. intros He. rewrite <- He, Hx in Hy. simplify_eq.
  - intros id y [[<- <-]|[Hn Hy]]%lookup_insert_Some Hs; [done|].
    destruct (O2 id y Hy Hs) as (Hne' & r & Hl & Hpr). split; [done|].
    exists r. split; [|done]. rewrite lookup_insert_ne; [done|]. intros He.
    rewrite <- He, Hr in Hl. simplify_eq.
Qed.

Lemma step_one_open d d' : service_step S d d' → services_wf d → one_open_operation d →
  one_open_operation d'.
Proof.
  intros Hs Hwf Hoo.
  destruct Hs as [(Hp&Hr&_)|row Hf Hn (Hp&Hr&_)
    |op row x plan _ Hv Ho Hrow Hpd Hre Hal Hx Hid Hox Hop Hfp Hst Hdi Hpl (Hp&Hr&_)
    |row x Hon Hd Hre (Hp&Hr&_)|row x proof Hon Hd (Hp&Hr&_)
    |row x proof e Hon ? ? ? (Hp&Hr&_)
    |row x i amounts e Hon op ? ? ? ? ? ? ? ? ? ? ? ? ? (Hp&Hr&_)
    |row e Hrow ? ? (Hp&Hr&_)|row e fee Hrow ? ? ? (Hp&Hr&_)|row e Hrow ? ? (Hp&Hr&_)
    |row r Hrow ? (Hp&Hr&_)].
  - destruct Hoo as [O1 O2]. by split; rewrite Hp, Hr.
  - destruct Hoo as [O1 O2]. unfold put_payment in Hp. split; rewrite Hp, Hr.
    + intros o r [[<- <-]|[_ Ho]]%lookup_insert_Some Hne; [|by apply O1].
      by destruct (fp_idle _ Hf) as (_&_&?&_).
    + intros id x Hx Hs. destruct (O2 id x Hx Hs) as (Hne & r & Hl & Hpr). split; [done|].
      exists r. rewrite lookup_insert_ne; [done|]. intros He. rewrite He in Hn. congruence.
  - apply ServiceOperation_ids in Hv as (_ & Hne & _).
    destruct Hoo as [O1 O2]. unfold put_payment, put_reservation in *. split; rewrite Hp, Hr.
    + intros o r [[<- <-]|[Hn' Ho']]%lookup_insert_Some Hne'.
      * simpl. exists x. rewrite <- Hid, lookup_insert_eq. done.
      * destruct (O1 _ _ Ho' Hne') as (y & Hy & ?). exists y. split; [|done].
        rewrite lookup_insert_ne; [done|]. intros He. rewrite He in Hx. congruence.
    + intros id y [[<- <-]|[Hn' Hy]]%lookup_insert_Some Hs.
      * split; [by rewrite Hid|]. eexists. rewrite Hox, lookup_insert_eq. done.
      * destruct (O2 id y Hy Hs) as (Hne' & r & Hl & Hpr). split; [done|]. exists r.
        split; [|done]. rewrite lookup_insert_ne; [done|]. intros He. rewrite <- He, Hrow in Hl.
        by simplify_eq.
  - destruct Hon as [_ Hx Ho _]. destruct Hoo as [O1 O2]. unfold put_reservation in Hr.
    split; rewrite Hp, Hr.
    + intros o r Ho' Hne. destruct (O1 _ _ Ho' Hne) as (y & Hy & Hyo & Hys).
      destruct (decide (sres_OperationID x = s_PendingOperationID r)) as [He|He].
      * rewrite He, lookup_insert_eq. eexists. split; [done|]. simpl. rewrite <- He, Hx in Hy.
        by simplify_eq.
      * exists y. by rewrite lookup_insert_ne.
    + intros id y [[<- <-]|[_ Hy]]%lookup_insert_Some Hs; [|by apply O2]. by apply (O2 _ _ Hx).
  - by eapply one_open_ended; [done|done|exact Hon| | |exact Hp|exact Hr].
  - by eapply one_open_ended; [done|done|exact Hon| | |exact Hp|exact Hr].
  - by eapply one_open_ended; [done|done|exact Hon| | |exact Hp|exact Hr].
  - by eapply one_open_payment; [done|exact Hrow| |exact Hp|exact Hr].
  - by eapply one_open_payment; [done|exact Hrow| |exact Hp|exact Hr].
  - destruct Hoo as [O1 O2]. by split; rewrite Hp, Hr.
  - by eapply one_open_payment; [done|exact Hrow| |exact Hp|exact Hr].
Qed.

(** ** Accounting *)

(** The totals of a payment whose effects, and whose columns, are as before. *)
Lemma accounted_ext d d' o row row' : payment_accounted d o row →
  (∀ k, k ∈ counted_kinds → effects_total d' o k = effects_total d o k) →
  s_RefundedMinor row' = s_RefundedMinor row → s_ChargedBackMinor row' = s_ChargedBackMinor row →
  s_SharedMinor row' = s_SharedMinor row → s_ReturnedMinor row' = s_ReturnedMinor row →
  s_ReleasedMinor row' = s_ReleasedMinor row → s_ChannelFeeMinor row' = s_ChannelFeeMinor row →
  payment_accounted d' o row'.
Proof.
  intros [A1 A2 A3 A4 A5 A6] He E1 E2 E3 E4 E5 E6.
  assert (∀ k, k = ServiceRefund ∨ k = ServiceChargeback ∨ k = ServiceShare ∨ k = ServiceReturn ∨
    k = ServiceFinish ∨ k = ServiceRefundRelease ∨ k = fee_kind ∨ k = fee_return_kind →
    effects_total d' o k = effects_total d o k) as Hk.
  { intros k Hk. apply He. unfold counted_kinds. set_solver. }
  split; rewrite ?E1, ?E2, ?E3, ?E4, ?E5, ?E6, ?Hk by tauto; done.
Qed.

(** No effect is of an order that has no payment. *)
Lemma no_effects_yet d o k : services_wf d → rows service_payments d !! o = None →
  effects_total d o k = 0.
Proof.
  intros [_ _ W3] Hn. unfold effects_total. rewrite <- (msum_ext (λ _, 0)).
  - generalize (rows effects d). intros m. induction m as [|i e m Hi IH] using map_ind; [done|].
    by rewrite msum_insert, IH.
  - intros i e He. destruct (W3 _ _ He) as [_ [row Hrow]].
    destruct (eff_OrderID e =s o) eqn:Ho; [|done]. apply String.eqb_eq in Ho. congruence.
Qed.

(** Payments not put keep their totals, whatever effect another order gets. *)
Lemma accounted_others d d' row row' : accounted d →
  rows service_payments d' = put_payment row row' d →
  (∀ o k, o ≠ s_OrderID row → effects_total d' o k = effects_total d o k) →
  payment_accounted d' (s_OrderID row) row' → accounted d'.
Proof.
  intros Hac Hp He Hrow o r. rewrite Hp. unfold put_payment.
  intros [[<- <-]|[Hn Ho]]%lookup_insert_Some; [done|].
  eapply accounted_ext; [by apply Hac|..]; try done. intros k _. by apply He.
Qed.

Lemma effect_elsewhere d d' e o k : rows effects d !! eff_OperationID e = None →
  rows effects d' = put_effect e d → eff_OrderID e ≠ o →
  effects_total d' o k = effects_total d o k.
Proof.
  intros Hn He Ho. erewrite effects_total_insert by done. rewrite (eqb_ne _ _ Ho). simpl. lia.
Qed.

Lemma effect_here d d' e k : rows effects d !! eff_OperationID e = None →
  rows effects d' = put_effect e d →
  effects_total d' (eff_OrderID e) k = effects_total d (eff_OrderID e) k +
    (if eff_Kind e =s k then effect_amount e else 0).
Proof. intros Hn He. erewrite effects_total_insert by done. by rewrite String.eqb_refl. Qed.

Lemma step_accounted d d' : service_step S d d' → services_wf d → accounted d → accounted d'.
Proof.
  intros Hs Hwf Hac.
  destruct Hs as [(Hp&_&He)|row Hf Hn (Hp&_&He)
    |op row x plan _ Hv Ho Hrow ? ? ? ? ? ? ? ? ? ? ? (Hp&_&He)
    |row x [Hrow _ _ _] ? ? (Hp&_&He)|row x proof [Hrow _ _ _] ? (Hp&_&He)
    |row x proof e [Hrow _ _ _] ? [Hn Ho] Hk (Hp&_&He)
    |row x i amounts e [Hrow _ _ _] op _ Hval ? ? ? ? ? ? ? [Hn Ho] Hid Hk (r&Hr&Ha&_) (Hp&_&He)
    |row e Hrow [Hn Ho] Hk (Hp&_&He)|row e fee Hrow [Hn Ho] Hamt Hfee (Hp&_&He)
    |row e Hrow [Hn Ho] Hk (Hp&_&He)|row r Hrow ? (Hp&_&He)].
  - intros o r. rewrite Hp. intros Hr. eapply accounted_ext; [by apply Hac|..]; try done.
    intros; by apply effects_total_same.
  - eapply accounted_others; [done|exact Hp|intros; by apply effects_total_same|].
    destruct (fp_zero _ Hf) as (?&?&E1&E2&E3&E4&E5&_&E6).
    split; rewrite ?E1, ?E2, ?E3, ?E4, ?E5, ?E6, ?(effects_total_same _ _ _ _ He), ?no_effects_yet by done;
      done.
  - eapply accounted_others; [done|exact Hp|intros; by apply effects_total_same|].
    eapply accounted_ext; [by apply Hac|..]; try done. intros; by apply effects_total_same.
  - intros o r. rewrite Hp. intros Hr. eapply accounted_ext; [by apply Hac|..]; try done.
    intros; by apply effects_total_same.
  - eapply accounted_others; [done|exact Hp|intros; by apply effects_total_same|].
    eapply accounted_ext; [by apply Hac|..]; try done. intros; by apply effects_total_same.
  - eapply accounted_others; [done|exact Hp|intros; eapply effect_elsewhere; [done..|congruence]|].
    eapply accounted_ext; [by apply Hac|..]; try done. intros; by eapply uncounted_total.
  - eapply accounted_others; [done|exact Hp|intros; eapply effect_elsewhere; [done..|congruence]|].
    assert (effect_amount e = so_AmountMinor op) as Hamt by (unfold effect_amount; by rewrite Hr).
    destruct (Hac _ _ Hrow) as [A1 A2 A3 A4 A5 A6].
    assert (∀ k, effects_total d' (s_OrderID row) k = effects_total d (s_OrderID row) k +
      (if so_Kind op =s k then so_AmountMinor op else 0)) as Ht.
    { intros k. rewrite <- Ho, <- Hk, <- Hamt. by apply effect_here. }
    split; rewrite ?Ht; simpl; fold op; try (rewrite ?A1, ?A2, ?A3, ?A4, ?A5; case_match;
      [by rewrite wrap64_add_l|by rewrite Z.add_0_r]).
    + rewrite A5. destruct (so_Kind op =s ServiceFinish) eqn:HF.
      * apply String.eqb_eq in HF. rewrite HF. simpl. rewrite wrap64_add_l. f_equal. lia.
      * simpl. destruct (so_Kind op =s ServiceRefundRelease).
        -- rewrite wrap64_add_l. f_equal. lia.
        -- f_equal. lia.
    + apply ServiceEffect_operation in Hval. fold op in Hval. rename Hval into Hv.
      apply ServiceOperation_kinds in Hv. destruct Hv as [E|[E|[E|[E|[E|E]]]]]; rewrite E; simpl;
        rewrite !Z.add_0_r; done.
  - eapply accounted_others; [done|exact Hp|intros; eapply effect_elsewhere; [done..|congruence]|].
    destruct (Hac _ _ Hrow) as [A1 A2 A3 A4 A5 A6].
    assert (∀ k, effects_total d' (s_OrderID row) k = effects_total d (s_OrderID row) k +
      (if ServiceChargeback =s k then effect_amount e else 0)) as Ht.
    { intros k. rewrite <- Ho, <- Hk. by apply effect_here. }
    split; rewrite ?Ht; simpl; rewrite ?Z.add_0_r; try done. by rewrite A2, wrap64_add_l.
  - eapply accounted_others; [done|exact Hp|intros; eapply effect_elsewhere; [done..|congruence]|].
    destruct (Hac _ _ Hrow) as [A1 A2 A3 A4 A5 [A6 A7]].
    assert (∀ k, effects_total d' (s_OrderID row) k = effects_total d (s_OrderID row) k +
      (if eff_Kind e =s k then effect_amount e else 0)) as Ht.
    { intros k. rewrite <- Ho. by apply effect_here. }
    destruct Hfee as [(Hk&Hle&->)|(Hk&Hle&->)]; rewrite Hk in Ht; i64_norm;
      split; rewrite ?Ht; simpl; rewrite ?Z.add_0_r; try done; lia.
  - intros o r'. rewrite Hp. intros Hr. eapply accounted_ext; [by apply Hac|..]; try done.
    intros; by eapply uncounted_total.
  - eapply accounted_others; [done|exact Hp|intros; by apply effects_total_same|].
    eapply accounted_ext; [by apply Hac|..]; try done. intros; by apply effects_total_same.
Qed.
End machine_invariants.
