(* ===== verification/ServiceFunds.v ===== *)
(** * What the funds of a service payment stay within

    Invariants of the amounts of a payment that is not under reconciliation,
    proved of the state machine of ServiceMachine: nothing is refunded beyond
    the payment, nothing returned beyond what was shared, and the platform
    keeps its commission on what stays paid. *)
From S2P Require Import Prelude GoStd Encoding MoneyTypes ProviderTopUp ServiceMoney ServiceValues Store MoneyStore WalletSpec WalletRepo TopUpRepo ServiceRepo ServiceMachine.

(** ** Specifications *)

Definition channel_net (row : servicePaymentRow) : bool :=
  ap_Basis (sp_Allocation (s_Input row)) =s ServiceAllocationChannelNetFloorV2.

(** What the two parties share, and what was reversed of it. *)
Definition paid_minor (row : servicePaymentRow) : Z :=
  if channel_net row then
    match sp_ChannelAmounts (s_Input row) with
    | Some a => ServicePaymentAmounts_SettlementMinor a
    | None => 0
    end
  else s_GrossMinor row.
Definition reversed_minor (row : servicePaymentRow) : Z :=
  if channel_net row then s_SettlementRefundedMinor row else s_RefundedMinor row.

(** The platform's commission on what stays paid. *)
Definition commission (row : servicePaymentRow) : Z :=
  share (paid_minor row - reversed_minor row) (ap_CommissionBPS (sp_Allocation (s_Input row))).

(** What holds of a payment that is not under reconciliation. *)
Record funds_within (d : DB) (o : string) (row : servicePaymentRow) : Prop := {
  fw_charged : s_ChargedBackMinor row = 0;
  fw_refunded : 0 ≤ s_RefundedMinor row ≤ s_GrossMinor row;
  fw_reversed : 0 ≤ reversed_minor row ≤ paid_minor row;
  fw_shares : ∀ k e, rows effects d !! k = Some e → eff_OrderID e = o →
    eff_Kind e = ServiceShare → 0 ≤ effect_amount e;
  fw_shared : 0 ≤ s_SharedMinor row ≤ paid_minor row ∧
    s_SharedMinor row = effects_total d o ServiceShare;
  fw_returned : 0 ≤ s_ReturnedMinor row ≤ s_SharedMinor row;
  fw_gross_basis : channel_net row = false →
    s_SharedMinor row - s_ReturnedMinor row ≤ commission row }.

Definition all_funds_within (d : DB) : Prop :=
  ∀ o row, rows service_payments d !! o = Some row → s_ReconciliationReason row = ""%string →
    funds_within d o row.

(** * Lemmas *)

Lemma commission_bounds k row : payment_wf k row → 0 ≤ reversed_minor row ≤ paid_minor row →
  0 ≤ commission row ≤ paid_minor row - reversed_minor row.
Proof.
  intros Hw Hr. apply share_bounds; [lia|]. apply policy_bps.
  pose proof (pw_input _ _ Hw) as Hv. unfold ServicePaymentInput_Validate in Hv.
  destruct (negb _); [done|]. destruct (_ || _) eqn:Hc; [done|]. reflect_bools. by destruct_and!.
Qed.

(** The channel amounts of a payment on the channel-net basis are valid. *)
Lemma channel_amounts_ok k row : payment_wf k row → channel_net row = true →
  ∃ a, sp_ChannelAmounts (s_Input row) = Some a ∧ payment_amounts_ok a (s_GrossMinor row) ∧
    paid_minor row = ServicePaymentAmounts_SettlementMinor a.
Proof.
  intros [_ Hv (_&Hg&_) Hgr _ _] Hn. unfold channel_net, paid_minor in *.
  unfold ServicePaymentInput_Validate in Hv. destruct (negb _); [done|]. destruct (_ || _); [done|].
  unfold channel_net. rewrite Hn in *. destruct (sp_ChannelAmounts _) as [a|]; [|done].
  exists a. split; [done|]. split; [|done]. rewrite Hg in *.
  destruct (ServicePaymentAmounts_Validate _ _) eqn:Ha; [done|].
  apply payment_amounts_iff in Ha; [done|i64_bounds].
Qed.

Lemma paid_bounds k row : payment_wf k row → 0 ≤ paid_minor row ≤ s_GrossMinor row.
Proof.
  intros Hw. pose proof (pw_gross _ _ Hw) as Hg. destruct (channel_net row) eqn:Hn.
  - destruct (channel_amounts_ok _ _ Hw Hn) as (a & _ & Ha & ->).
    apply payment_settlement in Ha; [|i64_bounds]. lia.
  - unfold paid_minor. rewrite Hn. lia.
Qed.

Lemma serviceAllocationPolicy_Ok row p : serviceAllocationPolicy row = Ok p →
  p = sp_Allocation (s_Input row).
Proof. unfold serviceAllocationPolicy. case_match; [done|]. by intros [= <-]. Qed.

Lemma capped_nothing gross reversed : 0 ≤ reversed ≤ gross → gross ≤ max_int64 →
  capped_reversal gross reversed 0 = reversed.
Proof. intros. unfold capped_reversal. i64_norm. case_match; reflect_bools; lia. Qed.

Lemma funds_basis_view k row b : payment_wf k row → s_ChargedBackMinor row = 0 →
  0 ≤ reversed_minor row ≤ paid_minor row → funds_basis row (sp_Allocation (s_Input row)) = Ok b →
  ∃ command amounts used, b = (command, amounts, paid_minor row, reversed_minor row, used) ∧
    (channel_net row = true →
      amounts = sp_ChannelAmounts (s_Input row) ∧ used = default ∅ (s_VoucherRefunded row)).
Proof.
  intros Hw Hcb Hr. pose proof (paid_bounds _ _ Hw) as Hp. pose proof (pw_gross _ _ Hw) as Hg.
  unfold funds_basis. change (ap_Basis _ =s _) with (channel_net row). unfold reversed_minor in *.
  destruct (channel_net row) eqn:Hn.
  - destruct (channel_amounts_ok _ _ Hw Hn) as (a & Ha & _ & Hpa). rewrite Ha, <- Hpa, Hcb.
    simpl. rewrite capped_nothing by lia.
    destruct (s_PendingRefundPlan row) as [p|]; [destruct (nil_error _); [|done]|];
      intros [= <-]; by do 3 eexists.
  - unfold paid_minor in *. rewrite Hn, Hcb in *. rewrite capped_nothing by lia.
    intros [= <-]. by do 3 eexists.
Qed.

(** The view of a payment that is not charged back. *)
Lemma serviceFunds_view k row f : payment_wf k row → s_ChargedBackMinor row = 0 →
  0 ≤ reversed_minor row ≤ paid_minor row → serviceFunds row = Ok f →
  fv_PlatformMinor f = commission row ∧
  fv_ProviderMinor f = paid_minor row - reversed_minor row - commission row ∧
  fv_Allocation f = sp_Allocation (s_Input row) ∧ fv_SettlementMinor f = paid_minor row ∧
  fv_SettlementRefundedMinor f = s_SettlementRefundedMinor row ∧
  fv_SharedMinor f = s_SharedMinor row ∧ fv_ReturnedMinor f = s_ReturnedMinor row ∧
  fv_RefundedMinor f = s_RefundedMinor row ∧ fv_GrossMinor f = s_GrossMinor row ∧
  (channel_net row = true → fv_ChannelAmounts f = sp_ChannelAmounts (s_Input row) ∧
     fv_VoucherRefundedMinor f = default ∅ (s_VoucherRefunded row)) ∧
  fv_ReconciliationReason f = s_ReconciliationReason row.
Proof.
  intros Hw Hcb Hr Hf. pose proof (paid_bounds _ _ Hw) as Hp. pose proof (pw_gross _ _ Hw) as Hg.
  unfold serviceFunds in Hf. destruct (serviceAllocationPolicy row) as [policy|] eqn:Hpol; [|done].
  apply serviceAllocationPolicy_Ok in Hpol as ->. unfold mbind, result_bind in Hf.
  destruct (funds_basis _ _) as [b|] eqn:Hb; [|done].
  eapply funds_basis_view in Hb as (command & amounts & used & -> & Hview); [|done..].
  destruct (ServiceAllocation _ _ _) as [[platform provider]|] eqn:Hal; [|done].
  apply ServiceAllocation_inv in Hal as Hok; [|i64_bounds].
  rewrite ServiceAllocation_Ok in Hal by (done || i64_bounds). injection Hal as <- <-.
  injection Hf as <-. simpl. repeat split; try done; by apply Hview.
Qed.

(** ** What the checks of an operation leave *)

Definition is_planned (op : ServiceOperation) : bool :=
  match so_RefundPlan op with Some _ => true | None => false end.

Section allowed.
Context `{Env}.

Lemma effect_receipt_Ok o id kind w r w' : effect_receipt o id kind w = (Ok r, w') →
  w' = w ∧ ∃ e, rows effects (the_db w) !! id = Some e ∧ eff_OrderID e = o ∧ eff_Kind e = kind ∧
    decode_effect (eff_Receipt e) = Ok r ∧ sr_AmountMinor r = effect_amount e.
Proof.
  unfold effect_receipt. intros Hr.
  apply bind_Ok in Hr as (e & ? & He & Hr). apply take_pk_and_Ok in He as (-> & He & _).
  apply bind_Ok in Hr as (e' & ? & Hf & Hr). apply found_Ok in Hf as [-> ->].
  apply lift_Ok in Hr as [Hd ->]. split; [done|]. destruct (He e' eq_refl) as [Hl Hc].
  reflect_bools. destruct Hc as [??]. exists e'. do 4 (split; [done|]).
  unfold effect_amount, decode_effect, decodeServiceReceipt in *.
  destruct (eff_Receipt e'); [|case_match|done]; repeat case_match; try done; by simplify_eq.
Qed.

(** The checks of [validate_kind], by kind. *)
Record kind_allowed (d : DB) (row : servicePaymentRow) (op : ServiceOperation)
    (f : ServiceFundsView) : Prop := {
  ka_share : so_Kind op = ServiceShare →
    s_ReturnedMinor row ≤ 0 ∧ so_AmountMinor op = fv_PlatformMinor f -! s_SharedMinor row;
  ka_return : so_Kind op = ServiceReturn →
    (so_OriginalShareID op = ""%string ∧ is_planned op = true ∧ so_AmountMinor op = 0) ∨
    ∃ e, rows effects d !! so_OriginalShareID op = Some e ∧ eff_OrderID e = s_OrderID row ∧
      eff_Kind e = ServiceShare ∧ so_AmountMinor op ≤ effect_amount e -! s_ReturnedMinor row;
  ka_refund : so_Kind op = ServiceRefund →
    so_AmountMinor op ≤ s_GrossMinor row -! s_RefundedMinor row -! s_ChargedBackMinor row ∧
    (is_planned op = false → ∃ target rest,
       ServiceAllocation (s_GrossMinor row)
         (s_RefundedMinor row +! s_ChargedBackMinor row +! so_AmountMinor op) (fv_Allocation f) =
         Ok (target, rest) ∧
       s_SharedMinor row -! s_ReturnedMinor row ≤ target);
  ka_release : (so_Kind op =s ServiceFinish) || (so_Kind op =s ServiceRefundRelease) = true →
    s_ReleasedMinor row ≤ 0 ∧
    (so_Kind op = ServiceFinish ∨ so_AmountMinor op = ExpectedUnsplitMinor f);
  ka_finish : so_Kind op = ServiceFinish →
    s_SharedMinor row -! s_ReturnedMinor row = fv_PlatformMinor f ∧
    so_AmountMinor op = fv_ProviderMinor f }.

Lemma validate_kind_Ok row op f w u w' : validate_kind row op f w = (Ok u, w') →
  kind_allowed (the_db w) row op f.
Proof.
  unfold validate_kind. intros Hr. split; intros Hk.
  4: { apply orb_true_iff in Hk as [Hk|Hk]; apply String.eqb_eq in Hk; rewrite Hk in Hr; simpl in Hr;
       apply guard_not_Ok in Hr as [Hg _]; reflect_bools; destruct_and!;
       (split; [lia|]); [by left|right; lia]. }
  4: { rewrite Hk in Hr. simpl in Hr. apply guard_not_Ok in Hr as [Hg _]. reflect_bools. destruct_and!.
       split; lia. }
  all: rewrite Hk in Hr; simpl in Hr.
  - apply guard_not_Ok in Hr as [Hg _]. reflect_bools. destruct_and!. lia.
  - unfold is_planned. destruct (_ && _ && _) eqn:Hc.
    + left. reflect_bools. destruct_and!. done.
    + apply bind_Ok in Hr as (r & w1 & He & Hr). apply effect_receipt_Ok in He as (-> & e & ?&?&?&?&Ha).
      apply guard_not_Ok in Hr as [Hg _]. right. exists e. reflect_bools. rewrite <- Ha.
      repeat split; (done || lia).
  - apply bind_Ok in Hr as ([] & w1 & Hg & Hr). apply guard_not_Ok in Hg as [Hg ->]. reflect_bools.
    split; [lia|]. unfold is_planned. intros Hp. destruct (so_RefundPlan op); [done|]. simpl in Hr.
    apply bind_Ok in Hr as ([target rest] & w1 & Ha & Hr). apply lift_Ok in Ha as [Ha ->].
    apply guard_not_Ok in Hr as [Hg' _]. reflect_bools. do 2 eexists. split; [done|lia].
Qed.

(** The checks of [validateServiceRefundPlan]. *)
Definition plan_allowed (d : DB) (row : servicePaymentRow) (op : ServiceOperation)
    (f : ServiceFundsView) : Prop :=
  match so_RefundPlan op with
  | None => channel_net row = true → s_PendingRefundPlan row = None ∧
      so_Kind op ≠ ServiceRefund ∧ so_Kind op ≠ ServiceReturn ∧ so_Kind op ≠ ServiceRefundRelease
  | Some p => channel_net row = true ∧ expected_plan row op p f = None ∧
      ∃ w w', the_db w = d ∧ validate_refund_phase row op p w = (Ok tt, w')
  end.

Lemma operation_allowed_parts d row op : operation_allowed d row op →
  ∃ f, serviceFunds row = Ok f ∧
    (fv_Allocation f = sp_Allocation (s_Input row) →
     plan_allowed d row op f ∧ kind_allowed d row op f).
Proof.
  intros (w & w' & Hd & Hr). unfold validateServiceOperation in Hr.
  apply bind_Ok in Hr as (f & w1 & Hf & Hr). apply lift_Ok in Hf as [Hf ->].
  exists f. split; [done|]. intros Hal. apply bind_Ok in Hr as ([] & w1 & Hp & Hr).
  assert (the_db w1 = d) as Hd1.
  { assert (keeps (λ w w', the_db w' = the_db w) (validateServiceRefundPlan row op f)) as Hk.
    { assert (Frame (λ w w' : World, the_db w' = the_db w)) as Hfr.
      { split; [split|]; [done|by intros ??? -> ->|]. by intros ?? ->. }
      unfold validateServiceRefundPlan, validate_refund_phase. solve_keeps. }
    specialize (Hk w). rewrite Hp in Hk. simpl in Hk. congruence. }
  apply validate_kind_Ok in Hr. rewrite Hd1 in Hr. split; [|done].
  unfold validateServiceRefundPlan in Hp. rewrite Hal in Hp. unfold plan_allowed, channel_net.
  destruct (ap_Basis _ =s _); simpl in Hp.
  - destruct (so_RefundPlan op) as [p|].
    + apply bind_Ok in Hp as ([] & w2 & Hc & Hp). apply check_Ok in Hc as [Hc ->].
      split; [done|]. split; [done|]. by exists w, w1.
    + intros _. apply guard_not_Ok in Hp as [Hg _]. reflect_bools. destruct_and!.
      by destruct (s_PendingRefundPlan row).
  - by destruct (so_RefundPlan op).
Qed.

(** The plan of an operation fixes its kind. *)
Lemma planned_kind op : ServiceOperation_Validate op = None →
  match so_RefundPlan op with
  | Some p => so_Kind op ≠ ServiceShare ∧ so_Kind op ≠ ServiceFinish ∧ so_Kind op ≠ ServiceChargeback ∧
      ServiceRefundPlan_Validate p = None ∧
      (so_RefundPhase op = ServiceReturnPre → so_Kind op = ServiceReturn ∧
         so_AmountMinor op = rp_PreReturnMinor p) ∧
      (so_RefundPhase op = ServiceReturnPost → so_Kind op = ServiceReturn) ∧
      (so_RefundPhase op = ServiceRefundPhase → so_Kind op = ServiceRefund) ∧
      (so_RefundPhase op = ServiceRefundReleasePhase → so_Kind op = ServiceRefundRelease)
  | None => so_RefundPhase op = ""%string
  end.
Proof.
  intros Hv. assert (ServiceOperation_Validate_plan op = None) as Hp.
  { unfold ServiceOperation_Validate in Hv. repeat (case_match; try done). }
  clear Hv. unfold ServiceOperation_Validate_plan in Hp. destruct (so_RefundPlan op) as [p|].
  2: { unfold invalid_if in Hp. case_match; [done|]. reflect_bools. done. }
  destruct (_ || _) eqn:Hc in Hp; [done|]. reflect_bools. destruct Hc as [[Hc _] _].
  unfold invalid_if in Hp.
  destruct (so_RefundPhase op =s ServiceReturnPre) eqn:E1;
    [|destruct (so_RefundPhase op =s ServiceReturnPost) eqn:E2;
      [|destruct (so_RefundPhase op =s ServiceRefundPhase) eqn:E3;
        [|destruct (so_RefundPhase op =s ServiceRefundReleasePhase) eqn:E4; [|done]]]];
    (case_match; [done|]); reflect_bools; destruct_and!;
    repeat match goal with H : so_Kind op = _ |- _ => rewrite H end;
    repeat match goal with H : so_RefundPhase op = _ |- _ => rewrite H end;
    repeat split; try done; intros; try done; congruence.
Qed.
End allowed.

(** ** The amounts of an accepted refund *)

Lemma refund_amounts_permuted a vs payment nominal : vs ≡ₚ ra_Vouchers a →
  refund_amounts_ok a payment nominal →
  refund_amounts_ok {| ra_PayerMinor := ra_PayerMinor a; ra_DiscountMinor := ra_DiscountMinor a;
    ra_Vouchers := vs |} payment nominal.
Proof.
  intros Hp [H1 H2 H3 H4 H5 H6 H7]. split; simpl; rewrite ?Hp; try done.
  intros v Hv. apply H5. by rewrite <- Hp.
Qed.

(** What a refund settles does not depend on the order of its vouchers. *)
Lemma refund_normalized_settlement a payment total nominal : in_int64 total → in_int64 nominal →
  payment_amounts_ok payment total → refund_amounts_ok a payment nominal →
  ServiceRefundAmounts_SettlementMinor (ServiceRefundAmounts_Normalize a) =
    ServiceRefundAmounts_SettlementMinor a.
Proof.
  intros Ht Hn Hp Ha. destruct (refund_settlement a payment total nominal Ht Hn Hp Ha) as (->&_&_).
  pose proof (refund_amounts_permuted a _ _ _ (sort_by_perm vr_ID (ra_Vouchers a)) Ha) as Ha'.
  destruct (refund_settlement _ payment total nominal Ht Hn Hp Ha') as (E&_&_).
  unfold ServiceRefundAmounts_Normalize. rewrite E. simpl. by rewrite sort_by_perm.
Qed.

Lemma refund_amounts_accepted k row i amounts : payment_wf k row →
  acceptServiceRefundAmounts row i = Ok amounts →
  if (so_Kind (se_Operation i) =s ServiceRefund) && channel_net row then
    in_int64 (so_AmountMinor (se_Operation i)) → 0 ≤ s_SettlementRefundedMinor row ≤ paid_minor row →
    ∃ a original, se_RefundAmounts i = Some a ∧ sp_ChannelAmounts (s_Input row) = Some original ∧
      refund_amounts_ok a original (so_AmountMinor (se_Operation i)) ∧
      0 ≤ ServiceRefundAmounts_SettlementMinor a ≤ paid_minor row - s_SettlementRefundedMinor row ∧
      amounts.1.1 = s_SettlementRefundedMinor row + ServiceRefundAmounts_SettlementMinor a
  else amounts = (s_SettlementRefundedMinor row, s_PayerRefundedMinor row, s_VoucherRefunded row).
Proof.
  intros Hw Ha. unfold acceptServiceRefundAmounts in Ha.
  destruct (serviceAllocationPolicy row) as [policy|] eqn:Hpol; [|done].
  apply serviceAllocationPolicy_Ok in Hpol as ->. unfold mbind at 1, result_bind at 1 in Ha.
  change (ap_Basis _ =s _) with (channel_net row) in Ha.
  destruct (so_Kind _ =s ServiceRefund); simpl in *; [|by simplify_eq].
  destruct (channel_net row) eqn:Hn; simpl in *; [|by destruct (se_RefundAmounts i); simplify_eq].
  intros Hop Hse. destruct (channel_amounts_ok _ _ Hw Hn) as (original & Ho & Hpo & Hpa).
  pose proof (pw_gross _ _ Hw) as Hg. rewrite Ho in Ha.
  destruct (se_RefundAmounts i) as [a|]; [|done].
  destruct (ServiceRefundAmounts_Validate _ _ _) eqn:Hv; [done|].
  apply refund_amounts_iff in Hv; [|done|apply Hpo]. simpl in Ha.
  destruct (_ || _) eqn:Hc in Ha; [done|]. reflect_bools.
  assert (in_int64 (s_GrossMinor row)) as Hgi by i64_bounds.
  destruct (refund_settlement a original _ _ Hgi Hop Hpo Hv) as (_&_&Hb).
  rewrite (refund_normalized_settlement a original _ _ Hgi Hop Hpo Hv) in *. rewrite <- Hpa in *.
  pose proof (paid_bounds _ _ Hw). unfold mbind, result_bind in Ha.
  destruct (use_vouchers _ _); [|done]. injection Ha as <-. simpl. i64_norm.
  exists a, original. split; [done|]. split; [done|]. split; [done|]. split; [lia|done].
Qed.

(** ** The invariant *)

Section funds.
Context `{Env} {S : ServiceOperation → Prop}.

(** Columns and effects that matter to the invariant as before. *)
Lemma funds_within_ext d d' o row row' : funds_within d o row →
  same_identity row row' →
  s_ChargedBackMinor row' = s_ChargedBackMinor row → s_RefundedMinor row' = s_RefundedMinor row →
  s_SettlementRefundedMinor row' = s_SettlementRefundedMinor row →
  s_SharedMinor row' = s_SharedMinor row → s_ReturnedMinor row' = s_ReturnedMinor row →
  (∀ k e, rows effects d' !! k = Some e → eff_OrderID e = o → eff_Kind e = ServiceShare →
     rows effects d !! k = Some e) →
  effects_total d' o ServiceShare = effects_total d o ServiceShare → funds_within d' o row'.
Proof.
  intros [F1 F2 F3 F4 F5 F6 F7] (_&_&_&_&_&_&_&Ei&_&Eg&_) E1 E2 E3 E4 E5 He Ht.
  split; unfold commission, reversed_minor, paid_minor, channel_net in *;
    rewrite ?Ei, ?Eg, ?E1, ?E2, ?E3, ?E4, ?E5, ?Ht; try done.
  intros k e Hk Ho Hkind. eapply F4; eauto.
Qed.

(** An effect of another order, or of another kind, leaves the shares alone. *)
Lemma shares_elsewhere d d' e o : services_wf d → rows effects d !! eff_OperationID e = None →
  rows effects d' = put_effect e d → eff_OrderID e ≠ o ∨ eff_Kind e ≠ ServiceShare →
  (∀ k x, rows effects d' !! k = Some x → eff_OrderID x = o → eff_Kind x = ServiceShare →
     rows effects d !! k = Some x) ∧
  effects_total d' o ServiceShare = effects_total d o ServiceShare.
Proof.
  intros Hwf Hn He Hne. split.
  - intros k x. rewrite He. unfold put_effect. intros [[<- <-]|[_ Hk]]%lookup_insert_Some Ho Hk'; [|done].
    by destruct Hne.
  - erewrite effects_total_insert by done.
    destruct Hne as [Hne|Hne]; rewrite (eqb_ne _ _ Hne), ?andb_false_r; simpl; lia.
Qed.

(** A share never exceeds what was shared. *)
Lemma share_within d o row k e : funds_within d o row → rows effects d !! k = Some e →
  eff_OrderID e = o → eff_Kind e = ServiceShare → effect_amount e ≤ s_SharedMinor row.
Proof.
  intros [_ _ _ F4 [_ ->] _ _] He Ho Hk. unfold effects_total.
  etrans; [|eapply (msum_lookup_le _ _ k e); [|exact He]].
  - simpl. by rewrite Ho, Hk, !String.eqb_refl.
  - intros k' x Hx. simpl. destruct (eff_OrderID x =s o) eqn:E1; [|done].
    destruct (eff_Kind x =s ServiceShare) eqn:E2; [|done]. reflect_bools. simpl. by eapply F4.
Qed.

(** What an update of the columns leaves to the specification. *)
Lemma row_view row row' : same_identity row row' →
  channel_net row' = channel_net row ∧ paid_minor row' = paid_minor row ∧
  s_GrossMinor row' = s_GrossMinor row ∧
  reversed_minor row' = (if channel_net row then s_SettlementRefundedMinor row'
                         else s_RefundedMinor row') ∧
  commission row' = share (paid_minor row - reversed_minor row')
    (ap_CommissionBPS (sp_Allocation (s_Input row))).
Proof.
  intros (_&_&_&_&_&_&_&Ei&_&Eg&_). unfold commission, reversed_minor, paid_minor, channel_net.
  by rewrite Ei, Eg.
Qed.

(** The columns after an effect. *)
Lemma effect_columns row i amounts :
  let op := se_Operation i in
  let row' := effect_row row i amounts in
  let add k v := if so_Kind op =s k then v +! so_AmountMinor op else v in
  s_SettlementRefundedMinor row' = amounts.1.1 ∧
  s_RefundedMinor row' = add ServiceRefund (s_RefundedMinor row) ∧
  s_ChargedBackMinor row' = add ServiceChargeback (s_ChargedBackMinor row) ∧
  s_SharedMinor row' = add ServiceShare (s_SharedMinor row) ∧
  s_ReturnedMinor row' = add ServiceReturn (s_ReturnedMinor row) ∧
  s_ReconciliationReason row' = (if so_Kind op =s ServiceChargeback then ReasonChargeback
                                 else s_ReconciliationReason row) ∧
  s_PendingRefundPlan row' = (if so_RefundPhase op =s ServiceReturnPost then None
                              else s_PendingRefundPlan row) ∧
  same_identity row row'.
Proof. cbv zeta. do 7 (split; [done|]). repeat split; try done. simpl. by case_match. Qed.

(** An effect that is not a refund changes no commission. *)
Lemma effect_commission k row i amounts : payment_wf k row →
  acceptServiceRefundAmounts row i = Ok amounts → so_Kind (se_Operation i) ≠ ServiceRefund →
  s_SettlementRefundedMinor (effect_row row i amounts) = s_SettlementRefundedMinor row ∧
  commission (effect_row row i amounts) = commission row.
Proof.
  intros Hw Ha Hk. eapply refund_amounts_accepted in Ha; [|done].
  rewrite (eqb_ne _ _ Hk) in Ha. simpl in Ha.
  destruct (effect_columns row i amounts) as (C1&C2&_&_&_&_&_&Cid).
  rewrite (eqb_ne _ _ Hk) in C2.
  assert (amounts.1.1 = s_SettlementRefundedMinor row) as Ha1 by (by rewrite Ha). rewrite Ha1 in C1.
  destruct (row_view _ _ Cid) as (_&_&_&V4&V5). rewrite C1, C2 in V4. split; [done|].
  rewrite V5, V4. done.
Qed.

(** A confirmed effect on a payment within its bounds. *)
Record confirming (d d' : DB) (row : servicePaymentRow) (i : ServiceEffect)
    (amounts : Z * Z * option (gmap string Z)) (e : serviceEffectRow) : Prop := {
  cg_wf : services_wf d;
  cg_row : rows service_payments d !! s_OrderID row = Some row;
  cg_within : funds_within d (s_OrderID row) row;
  cg_operation : ServiceOperation_Validate (se_Operation i) = None;
  cg_allowed : operation_allowed d row (se_Operation i);
  cg_accepted : acceptServiceRefundAmounts row i = Ok amounts;
  cg_new : new_effect e row d;
  cg_effect : eff_Kind e = so_Kind (se_Operation i) ∧
    effect_amount e = so_AmountMinor (se_Operation i);
  cg_effects : rows effects d' = put_effect e d }.

(** An effect of another kind than SHARE leaves the shares as they were. *)
Lemma confirming_shares d d' row i amounts e : confirming d d' row i amounts e →
  so_Kind (se_Operation i) ≠ ServiceShare →
  (∀ k x, rows effects d' !! k = Some x → eff_OrderID x = s_OrderID row →
     eff_Kind x = ServiceShare → rows effects d !! k = Some x) ∧
  effects_total d' (s_OrderID row) ServiceShare = effects_total d (s_OrderID row) ServiceShare.
Proof.
  intros [Hwf _ _ _ _ _ [Hn _] [Hk _] He] Hne. eapply shares_elsewhere; [done..|].
  right. by rewrite Hk.
Qed.

Lemma confirmed_share d d' row i amounts e : confirming d d' row i amounts e →
  so_Kind (se_Operation i) = ServiceShare →
  funds_within d' (s_OrderID row) (effect_row row i amounts) ∧
  s_SharedMinor (effect_row row i amounts) = commission row ∧ s_ReturnedMinor row = 0 ∧
  so_AmountMinor (se_Operation i) = commission row - s_SharedMinor row.
Proof.
  intros [Hwf Hrow Hfw Hv Hal Hacc [Hnew Ho] [Hkind Hamt] Heff] Hk.
  pose proof (sw_payment _ Hwf _ _ Hrow) as Hw. pose proof (paid_bounds _ _ Hw) as Hpb.
  pose proof (pw_gross _ _ Hw) as Hg. pose proof Hfw as [F1 F2 F3 F4 [F5 F5'] F6 F7].
  apply ServiceOperation_ids in Hv as (_&_&Hn).
  apply operation_allowed_parts in Hal as (f & Hf & Hal).
  eapply serviceFunds_view in Hf as (E1&_&E2&_); [|done..]. destruct (Hal E2) as [_ [K1 _ _ _ _]].
  pose proof (commission_bounds _ _ Hw F3) as Hcb. rewrite E1 in K1. destruct (K1 Hk) as [Hret Ham].
  eapply refund_amounts_accepted in Hacc; [|done]. rewrite Hk in Hacc. simpl in Hacc.
  destruct (effect_columns row i amounts) as (C1&C2&C3&C4&C5&_&_&Cid).
  generalize dependent (effect_row row i amounts). intros row' C1 C2 C3 C4 C5 Cid.
  rewrite Hk in *. simpl in C2, C3, C4, C5.
  assert (amounts.1.1 = s_SettlementRefundedMinor row) as Ha1 by (by rewrite Hacc).
  rewrite Ha1 in C1.
  destruct (row_view _ _ Cid) as (V1&V2&V3&V4&V5). rewrite C1, C2 in V4.
  change (if channel_net row then _ else _) with (reversed_minor row) in V4. rewrite V4 in V5.
  fold (commission row) in V5. i64_norm. rewrite Ham in *.
  split; [|split; [rewrite C4; lia|split; [lia|done]]].
  split; rewrite ?V1, ?V2, ?V3, ?V4, ?V5, ?C1, ?C2, ?C3, ?C4, ?C5; try lia; try done.
  - intros k x. rewrite Heff. unfold put_effect. intros [[<- <-]|[_ Hx]]%lookup_insert_Some; [lia|eauto].
  - split; [lia|]. rewrite <- Ho, (effect_here d d' e _ Hnew Heff), Ho, Hkind, String.eqb_refl. lia.
Qed.

Lemma ExpectedUnsplit_range f : ExpectedUnsplitMinor f ≤ max_int64.
Proof.
  unfold ExpectedUnsplitMinor. cbv zeta. case_match; [unfold max_int64; lia|].
  case_match; apply wrap64_range.
Qed.

(** A release comes first; the one that finishes leaves the commission shared
    and releases all the rest. *)
Lemma confirmed_release d d' row i amounts e : confirming d d' row i amounts e →
  (so_Kind (se_Operation i) =s ServiceFinish) || (so_Kind (se_Operation i) =s ServiceRefundRelease) =
    true →
  s_ReleasedMinor row ≤ 0 ∧ so_AmountMinor (se_Operation i) ≤ max_int64 ∧
  (so_Kind (se_Operation i) = ServiceFinish →
     s_SharedMinor row - s_ReturnedMinor row = commission row ∧
     so_AmountMinor (se_Operation i) = paid_minor row - reversed_minor row - commission row).
Proof.
  intros [Hwf Hrow Hfw Hv Hal Hacc _ _ _] Hk.
  pose proof (sw_payment _ Hwf _ _ Hrow) as Hw. pose proof (paid_bounds _ _ Hw) as Hpb.
  pose proof (pw_gross _ _ Hw) as Hg. pose proof Hfw as [F1 F2 F3 F4 [F5 F5'] F6 F7].
  apply operation_allowed_parts in Hal as (f & Hf & Hal).
  eapply serviceFunds_view in Hf as (E1&E3&E2&_); [|done..].
  destruct (Hal E2) as [_ [_ _ _ K4 K5]]. destruct (K4 Hk) as [Hle Ham]. split; [done|].
  pose proof (commission_bounds _ _ Hw F3) as Hcb. split.
  - destruct Ham as [Hfin| ->]; [destruct (K5 Hfin) as [_ ->]; rewrite E3; i64_bounds|].
    apply ExpectedUnsplit_range.
  - intros Hfin. destruct (K5 Hfin) as [K6 ->]. rewrite E1 in K6. i64_norm. by split.
Qed.

Lemma confirmed_return d d' row i amounts e : confirming d d' row i amounts e →
  so_Kind (se_Operation i) = ServiceReturn →
  funds_within d' (s_OrderID row) (effect_row row i amounts) ∧
  s_ReturnedMinor (effect_row row i amounts) =
    s_ReturnedMinor row + so_AmountMinor (se_Operation i).
Proof.
  intros Hc Hk. pose proof Hc as [Hwf Hrow Hfw Hv Hal Hacc _ _ _].
  destruct (confirming_shares _ _ _ _ _ _ Hc) as [Hsh Htot]; [by rewrite Hk|].
  pose proof (sw_payment _ Hwf _ _ Hrow) as Hw. pose proof (paid_bounds _ _ Hw) as Hpb.
  pose proof (pw_gross _ _ Hw) as Hg. pose proof Hfw as [F1 F2 F3 F4 [F5 F5'] F6 F7].
  apply ServiceOperation_ids in Hv as (_&_&Hn).
  apply operation_allowed_parts in Hal as (f & Hf & Hal).
  eapply serviceFunds_view in Hf as (_&_&E2&_); [|done..]. destruct (Hal E2) as [_ [_ K2 _ _ _]].
  assert (s_ReturnedMinor row + so_AmountMinor (se_Operation i) ≤ s_SharedMinor row) as Hle.
  { destruct (K2 Hk) as [(_&_&->)|(x&Hx&Hxo&Hxk&Hle)]; [lia|].
    pose proof (F4 _ _ Hx Hxo Hxk). pose proof (share_within _ _ _ _ _ Hfw Hx Hxo Hxk). i64_norm. lia. }
  eapply refund_amounts_accepted in Hacc; [|done]. rewrite Hk in Hacc. simpl in Hacc.
  destruct (effect_columns row i amounts) as (C1&C2&C3&C4&C5&_&_&Cid).
  generalize dependent (effect_row row i amounts). intros row' C1 C2 C3 C4 C5 Cid.
  rewrite Hk in *. simpl in C2, C3, C4, C5.
  assert (amounts.1.1 = s_SettlementRefundedMinor row) as Ha1 by (by rewrite Hacc).
  rewrite Ha1 in C1.
  destruct (row_view _ _ Cid) as (V1&V2&V3&V4&V5). rewrite C1, C2 in V4.
  change (if channel_net row then _ else _) with (reversed_minor row) in V4. rewrite V4 in V5.
  fold (commission row) in V5. i64_norm.
  split; [|done].
  split; rewrite ?V1, ?V2, ?V3, ?V4, ?V5, ?C1, ?C2, ?C3, ?C4, ?C5, ?Htot; try lia; try done; eauto.
  intros Hb. specialize (F7 Hb). lia.
Qed.

Lemma confirmed_refund d d' row i amounts e : confirming d d' row i amounts e →
  so_Kind (se_Operation i) = ServiceRefund →
  funds_within d' (s_OrderID row) (effect_row row i amounts) ∧
  s_RefundedMinor (effect_row row i amounts) =
    s_RefundedMinor row + so_AmountMinor (se_Operation i) ∧
  (channel_net row = true → ∃ a, se_RefundAmounts i = Some a ∧
     s_SettlementRefundedMinor (effect_row row i amounts) =
       s_SettlementRefundedMinor row + ServiceRefundAmounts_SettlementMinor a).
Proof.
  intros Hc Hk. pose proof Hc as [Hwf Hrow Hfw Hv Hal Hacc _ _ _].
  destruct (confirming_shares _ _ _ _ _ _ Hc) as [Hsh Htot]; [by rewrite Hk|].
  pose proof (sw_payment _ Hwf _ _ Hrow) as Hw. pose proof (paid_bounds _ _ Hw) as Hpb.
  pose proof (pw_gross _ _ Hw) as Hg. pose proof Hfw as [F1 F2 F3 F4 [F5 F5'] F6 F7].
  apply ServiceOperation_ids in Hv as (_&_&Hn).
  apply operation_allowed_parts in Hal as (f & Hf & Hal).
  eapply serviceFunds_view in Hf as (_&_&E2&_); [|done..]. destruct (Hal E2) as [Hpl [_ _ K3 _ _]].
  destruct (K3 Hk) as [Hle Htgt]. rewrite F1 in *. i64_norm.
  eapply refund_amounts_accepted in Hacc; [|done]. rewrite Hk in Hacc. simpl in Hacc.
  destruct (effect_columns row i amounts) as (C1&C2&C3&C4&C5&_&_&Cid).
  generalize dependent (effect_row row i amounts). intros row' C1 C2 C3 C4 C5 Cid.
  rewrite Hk in *. simpl in C2, C3, C4, C5.
  destruct (row_view _ _ Cid) as (V1&V2&V3&V4&V5). i64_norm.
  assert (0 ≤ reversed_minor row' ≤ paid_minor row) as Hrev.
  { rewrite V4, C1, C2. unfold reversed_minor in F3. destruct (channel_net row) eqn:Hcn.
    - destruct (Hacc ltac:(i64_bounds) F3) as (a&_&_&_&_&Hb&->). lia.
    - unfold paid_minor. rewrite Hcn. lia. }
  split; [|split; [done|]].
  2: { intros Hcn. rewrite C1, Hcn in *. unfold reversed_minor in F3. rewrite Hcn in F3.
       destruct (Hacc ltac:(i64_bounds) F3) as (a&_&?&_&_&_&?). by exists a. }
  split; rewrite ?V1, ?V2, ?V3, ?C2, ?C3, ?C4, ?C5, ?Htot; try lia; try done; eauto.
  intros Hcn. rewrite V5, V4, C2, Hcn. unfold plan_allowed in Hpl.
  assert (is_planned (se_Operation i) = false) as Hnp.
  { unfold is_planned. destruct (so_RefundPlan (se_Operation i)); [|done].
    destruct Hpl as [Hpl _]. congruence. }
  destruct (Htgt Hnp) as (target & rest & Hall & Ht). rewrite E2 in Hall.
  i64_norm. rewrite Z.add_0_r in Hall.
  apply ServiceAllocation_inv in Hall as Hok; [|i64_bounds].
  rewrite ServiceAllocation_Ok in Hall by (done || i64_bounds). injection Hall as <- _.
  unfold paid_minor. rewrite Hcn. lia.
Qed.

(** A confirmed effect keeps a payment within its bounds. *)
Lemma confirmed_within d d' row i amounts e : confirming d d' row i amounts e →
  s_ReconciliationReason (effect_row row i amounts) = ""%string →
  funds_within d' (s_OrderID row) (effect_row row i amounts).
Proof.
  intros Hc Hre. pose proof Hc as [Hwf Hrow Hfw Hv _ Hacc _ _ _].
  apply ServiceOperation_kinds in Hv as Hk.
  destruct Hk as [Hk|[Hk|[Hk|[Hk|[Hk|Hk]]]]].
  - by destruct (confirmed_share _ _ _ _ _ _ Hc Hk).
  - destruct (confirming_shares _ _ _ _ _ _ Hc) as [Hsh Htot]; [by rewrite Hk|].
    eapply refund_amounts_accepted in Hacc; [|by apply (sw_payment _ Hwf)]. rewrite Hk in Hacc.
    destruct (effect_columns row i amounts) as (C1&C2&C3&C4&C5&_&_&Cid).
    assert (amounts.1.1 = s_SettlementRefundedMinor row) as Ha1 by (by rewrite Hacc).
    rewrite Ha1 in C1. rewrite Hk in *. by eapply funds_within_ext.
  - destruct (confirming_shares _ _ _ _ _ _ Hc) as [Hsh Htot]; [by rewrite Hk|].
    eapply refund_amounts_accepted in Hacc; [|by apply (sw_payment _ Hwf)]. rewrite Hk in Hacc.
    destruct (effect_columns row i amounts) as (C1&C2&C3&C4&C5&_&_&Cid).
    assert (amounts.1.1 = s_SettlementRefundedMinor row) as Ha1 by (by rewrite Hacc).
    rewrite Ha1 in C1. rewrite Hk in *. by eapply funds_within_ext.
  - by destruct (confirmed_return _ _ _ _ _ _ Hc Hk).
  - by destruct (confirmed_refund _ _ _ _ _ _ Hc Hk).
  - destruct (effect_columns row i amounts) as (_&_&_&_&_&C&_). by rewrite Hk, Hre in C.
Qed.
(** What a step leaves of a payment other than the one it puts. *)
Lemma funds_others d d' row row' : services_wf d → all_funds_within d →
  rows service_payments d' = put_payment row row' d →
  (∀ o, o ≠ s_OrderID row →
     (∀ k e, rows effects d' !! k = Some e → eff_OrderID e = o → eff_Kind e = ServiceShare →
        rows effects d !! k = Some e) ∧
     effects_total d' o ServiceShare = effects_total d o ServiceShare) →
  (s_ReconciliationReason row' = ""%string → funds_within d' (s_OrderID row) row') →
  all_funds_within d'.
Proof.
  intros Hwf Hall Hp Ho Hrow o r. rewrite Hp. unfold put_payment.
  intros [[<- <-]|[Hn Hr]]%lookup_insert_Some Hre; [by apply Hrow|].
  destruct (Ho o) as [Hs Ht]; [done|]. eapply funds_within_ext; [by apply Hall|..]; try done.
Qed.

(** Nothing is shared yet of an order without a payment. *)
Lemma fresh_funds d d' row : services_wf d → fresh_payment row →
  rows service_payments d !! s_OrderID row = None → rows effects d' = rows effects d →
  funds_within d' (s_OrderID row) row.
Proof.
  intros Hwf Hf Hn He. pose proof (fresh_payment_wf _ Hf) as Hw. pose proof (paid_bounds _ _ Hw) as Hp.
  pose proof (pw_gross _ _ Hw) as Hg.
  destruct (fp_zero _ Hf) as (E1&_&E2&E3&E4&E5&_).
  assert (reversed_minor row = 0) as Hr by (unfold reversed_minor; by case_match).
  assert (effects_total d' (s_OrderID row) ServiceShare = 0) as Ht.
  { rewrite (effects_total_same _ _ _ _ He). by apply no_effects_yet. }
  pose proof (commission_bounds _ _ Hw) as Hc.
  split; rewrite ?Hr, ?E2, ?E3, ?E4, ?E5, ?Ht; try lia.
  intros k e. rewrite He. intros Hk Ho. destruct (sw_effect _ Hwf _ _ Hk) as [_ [r Hl]].
  rewrite Ho, Hn in Hl. done.
Qed.

Lemma step_funds d d' : service_step S d d' → services_wf d → all_funds_within d → all_funds_within d'.
Proof.
  intros Hs Hwf Hall.
  destruct Hs as [(Hp&_&He)|row Hf Hn (Hp&_&He)
    |op row x plan _ Hv Ho Hrow ? ? ? ? ? ? ? ? ? ? ? (Hp&_&He)
    |row x [Hrow _ _ _] ? ? (Hp&_&He)|row x proof [Hrow _ _ _] ? (Hp&_&He)
    |row x proof e [Hrow _ _ _] ? [Hn Ho] Hk (Hp&_&He)
    |row x i amounts e [Hrow _ _ _] op _ Hval ? ? ? ? ? Hal Hacc [Hn Ho] Hid Hk (r&Hr&Ha&_) (Hp&_&He)
    |row e Hrow [Hn Ho] Hk (Hp&_&He)|row e fee Hrow [Hn Ho] Hamt Hfee (Hp&_&He)
    |row e Hrow [Hn Ho] Hk (Hp&_&He)|row r Hrow Hset (Hp&_&He)].
  all: try (assert (∀ o,
    (∀ k e, rows effects d' !! k = Some e → eff_OrderID e = o → eff_Kind e = ServiceShare →
      rows effects d !! k = Some e) ∧
    effects_total d' o ServiceShare = effects_total d o ServiceShare) as Hsame by
    (intros o; split; [intros ??; by rewrite He|by apply effects_total_same])).
  all: try (assert (∀ o,
    (∀ k x, rows effects d' !! k = Some x → eff_OrderID x = o → eff_Kind x = ServiceShare →
      rows effects d !! k = Some x) ∧
    effects_total d' o ServiceShare = effects_total d o ServiceShare) as Hsame by
    (intros o; eapply shares_elsewhere; [done..|]; right; intros Hsh; rewrite Hsh in *;
     first [done|by apply Hk; unfold counted_kinds; set_solver|destruct Hfee as [(?&_)|(?&_)]; done])).
  - intros o r. rewrite Hp. intros Hr Hre. destruct (Hsame o).
    eapply funds_within_ext; [by apply Hall|..]; done.
  - eapply funds_others; [done|done|exact Hp|intros o _; apply Hsame|]. intros _.
    by eapply fresh_funds.
  - eapply funds_others; [done|done|exact Hp|intros o _; apply Hsame|]. intros Hre.
    destruct (Hsame (s_OrderID row)). eapply funds_within_ext; [by apply Hall|..]; done.
  - intros o r. rewrite Hp. intros Hr Hre. destruct (Hsame o).
    eapply funds_within_ext; [by apply Hall|..]; done.
  - eapply funds_others; [done|done|exact Hp|intros o _; apply Hsame|]. intros Hre.
    destruct (Hsame (s_OrderID row)). eapply funds_within_ext; [by apply Hall|..]; done.
  - eapply funds_others; [done|done|exact Hp|intros o _; apply Hsame|]. intros Hre.
    destruct (Hsame (s_OrderID row)). eapply funds_within_ext; [by apply Hall|..]; done.
  - eapply funds_others; [done|done|exact Hp|intros o Hne; eapply shares_elsewhere; [done..|]; left; congruence|].
    intros Hre. assert (s_ReconciliationReason row = ""%string) as Hre'.
    { destruct (effect_columns row i amounts) as (_&_&_&_&_&C&_). rewrite Hre in C.
      destruct (so_Kind _ =s ServiceChargeback); done. }
    eapply confirmed_within; [|done]. split; try done.
    + by apply Hall.
    + by apply ServiceEffect_operation.
    + by apply Hal.
    + split; [done|]. unfold effect_amount. by rewrite Hr.
  - eapply funds_others; [done|done|exact Hp|intros o _; apply Hsame|]. done.
  - eapply funds_others; [done|done|exact Hp|intros o _; apply Hsame|]. intros Hre.
    destruct (Hsame (s_OrderID row)). eapply funds_within_ext; [by apply Hall|..]; done.
  - intros o r. rewrite Hp. intros Hr Hre. destruct (Hsame o).
    eapply funds_within_ext; [by apply Hall|..]; done.
  - eapply funds_others; [done|done|exact Hp|intros o _; apply Hsame|]. simpl. intros Hre.
    destruct (Hsame (s_OrderID row)). eapply funds_within_ext;
      [apply Hall; [exact Hrow|destruct Hset as [<-|[Hx Hy]]; [exact Hre|by rewrite Hre in Hy]]|..];
      try done. by apply set_reason_identity.
Qed.
End funds.
