(* ===== verification/ServicePlans.v ===== *)
(** * The platform keeps exactly its commission

    On the channel-net basis refunds go through a plan of two returns around
    the refund. Proved of the state machine of ServiceMachine: whenever no plan
    is under way, a payment that shared anything has kept exactly the
    platform's commission on what stays paid. The returns of a plan are those
    of ServiceValues, checked by ServiceRepo when each effect is accepted. *)
From S2P Require Import Prelude GoStd Encoding MoneyTypes ProviderTopUp ServiceMoney ServiceValues Store MoneyStore WalletSpec WalletRepo TopUpRepo ServiceRepo ServiceMachine ServiceFunds.

(** ** Specifications *)

(** The platform kept its commission, if anything was shared. *)
Definition commission_kept (row : servicePaymentRow) : Prop :=
  s_SharedMinor row = 0 ∨ s_SharedMinor row - s_ReturnedMinor row = commission row.

(** The plan under way was made from the funds of this payment. *)
Record plan_fits (row : servicePaymentRow) (p : ServiceRefundPlan) : Prop := {
  pf_share : rp_NetShareMinor p = s_SharedMinor row - rp_BaseReturnedMinor p;
  pf_settlement : rp_SettlementMinor p = paid_minor row - rp_BaseSettlementRefundedMinor p;
  pf_allocation : rp_Allocation p = sp_Allocation (s_Input row);
  pf_original : 0 < s_SharedMinor row → rp_OriginalShareID p ≠ ""%string }.

Definition plan_settled (row : servicePaymentRow) : Prop :=
  match s_PendingRefundPlan row with
  | None => commission_kept row
  | Some p => plan_fits row p
  end.

(** No two of the operations of [S] have one fingerprint. *)
Definition collision_free (S : ServiceOperation → Prop) : Prop :=
  ∀ op op', S op → S op' → operation_fingerprint op = operation_fingerprint op' → op = op'.

(** Reservations are of operations of [S]; an open operation of a plan has its
    plan under way; and plans settle. *)
Record plans_ok (S : ServiceOperation → Prop) (d : DB) : Prop := {
  po_operation : ∀ id x, rows service_reservations d !! id = Some x →
    S (sres_Operation x) ∧ sres_Fingerprint x = operation_fingerprint (sres_Operation x);
  po_plan : ∀ id x row, rows service_reservations d !! id = Some x →
    sres_State x = ReservationPrepared → rows service_payments d !! sres_OrderID x = Some row →
    is_planned (sres_Operation x) = true → is_Some (s_PendingRefundPlan row);
  po_settled : ∀ o row, rows service_payments d !! o = Some row →
    s_ReconciliationReason row = ""%string → channel_net row = true → plan_settled row }.

(** * Lemmas *)

(** The columns that matter to plans as before. *)
Lemma plan_settled_ext row row' : plan_settled row → same_identity row row' →
  channel_net row = true → s_PendingRefundPlan row' = s_PendingRefundPlan row →
  s_SettlementRefundedMinor row' = s_SettlementRefundedMinor row →
  s_SharedMinor row' = s_SharedMinor row → s_ReturnedMinor row' = s_ReturnedMinor row →
  plan_settled row'.
Proof.
  intros Hp Hid Hcn E1 E2 E3 E4. destruct (row_view _ _ Hid) as (V1&V2&V3&V4&V5).
  rewrite Hcn, E2 in V4. assert (reversed_minor row = s_SettlementRefundedMinor row) as Er
    by (unfold reversed_minor; by rewrite Hcn). rewrite <- Er in V4. rewrite V4 in V5.
  fold (commission row) in V5. unfold plan_settled in *. rewrite E1.
  destruct (s_PendingRefundPlan row) as [p|].
  - destruct Hp as [P2 P3 P4 P5]. split; rewrite ?E3, ?V2; try done. rewrite P4.
    destruct Hid as (_&_&_&_&_&_&_&Ei&_). by rewrite Ei.
  - unfold commission_kept. by rewrite E3, E4, V5.
Qed.

(** The second return leaves the platform its commission. *)
Lemma PostReturn_Ok p actual due : ServiceRefundPlan_Validate p = None →
  rp_SettlementMinor p ≤ max_int64 → rp_NetShareMinor p ≤ max_int64 →
  ServiceRefundPlan_PostReturn p actual = Ok due →
  if rp_OriginalShareID p =s "" then due = 0
  else 0 ≤ ServiceRefundAmounts_SettlementMinor actual ≤ rp_SettlementMinor p ∧
    0 ≤ due ∧
    due = rp_NetShareMinor p - rp_PreReturnMinor p -
      share (rp_SettlementMinor p - ServiceRefundAmounts_SettlementMinor actual)
        (ap_CommissionBPS (rp_Allocation p)).
Proof.
  intros Hv Hs Hn. unfold ServiceRefundPlan_PostReturn. rewrite Hv. simpl.
  destruct (rp_OriginalShareID p =s ""); [by intros [= ->]|].
  assert (0 ≤ rp_PreReturnMinor p ≤ rp_NetShareMinor p ∧ 0 ≤ rp_SettlementMinor p) as Hb.
  { unfold ServiceRefundPlan_Validate in Hv. destruct (negb _); [done|].
    destruct (has_duplicate _); [done|]. destruct (_ || _) eqn:Hc in Hv; [done|].
    reflect_bools. destruct_and!. lia. }
  destruct (ServiceAllocation _ _ _) as [[target rest]|e] eqn:Ha; [|done]. simpl.
  apply ServiceAllocation_inv in Ha as Hok; [|i64_bounds].
  rewrite ServiceAllocation_Ok in Ha by (done || i64_bounds). injection Ha as <- <-.
  destruct Hok as (Hpol & H0 & _ & Hr). pose proof (policy_bps _ Hpol) as Hbps.
  pose proof (share_bounds (rp_SettlementMinor p - ServiceRefundAmounts_SettlementMinor actual)
    (ap_CommissionBPS (rp_Allocation p)) ltac:(lia) Hbps) as Hsb.
  i64_norm. case_match eqn:Hdue; [done|]. intros [= <-]. reflect_bools. lia.
Qed.

Section plans.
Context `{Env} {S : ServiceOperation → Prop}.

(** A plan that passes the checks was made from the funds, or is under way. *)
Lemma expected_plan_fits d row op p f : payment_wf (s_OrderID row) row → funds_within d (s_OrderID row) row →
  serviceFunds row = Ok f → channel_net row = true → expected_plan row op p f = None →
  match s_PendingRefundPlan row with Some q => q = p | None => plan_fits row p end.
Proof.
  intros Hw [F1 F2 F3 F4 [F5 F5'] F6 F7] Hf Hcn He.
  pose proof (paid_bounds _ _ Hw) as Hpb. pose proof (pw_gross _ _ Hw) as Hg.
  assert (reversed_minor row = s_SettlementRefundedMinor row) as Er
    by (unfold reversed_minor; by rewrite Hcn).
  eapply serviceFunds_view in Hf as (_&_&E1&E2&E3&E4&E5&E6&E7&_); [|done..].
  unfold expected_plan in He. destruct (s_PendingRefundPlan row) as [q|].
  { by case_bool_decide. }
  destruct (so_RefundPhase op ≠s ServiceReturnPre); [done|].
  destruct (NewServiceRefundPlan _ _ _ _ _ _ _ _ _) as [q|e] eqn:Hq; [|done].
  case_bool_decide as Hqp; [|done]. subst q.
  assert (funds_in_range f) as Hr.
  { split; rewrite ?E2, ?E3, ?E4, ?E5, ?E6, ?E7, <- ?Er; i64_bounds. }
  apply NewServiceRefundPlan_Ok in Hq as (Hv&Hal&_&Hbr&Hbs&Hst&Hns&_&_&a&_&_&_&Hsh); [|done].
  split; [lia|lia|congruence|]. rewrite E4 in Hsh.
  intros Hpos. destruct (s_SharedMinor row >? 0) eqn:Hc; [|reflect_bools; lia].
  destruct Hsh as (_&?&_). done.
Qed.

(** What the checks of the last phase establish. *)
Lemma post_phase_allowed d row op p : so_RefundPhase op = ServiceReturnPost →
  (∃ w w', the_db w = d ∧ validate_refund_phase row op p w = (Ok tt, w')) →
  ∃ amounts, ServiceRefundPlan_PostReturn p amounts = Ok (so_AmountMinor op) ∧
    s_SettlementRefundedMinor row =
      rp_BaseSettlementRefundedMinor p +! ServiceRefundAmounts_SettlementMinor amounts ∧
    s_ReturnedMinor row = rp_BaseReturnedMinor p +! rp_PreReturnMinor p.
Proof.
  intros Hph (w & w' & _ & Hr). unfold validate_refund_phase in Hr. rewrite Hph in Hr. simpl in Hr.
  apply bind_Ok in Hr as (r & w1 & _ & Hr). apply bind_Ok in Hr as (a & w2 & _ & Hr).
  apply bind_Ok in Hr as (due & w3 & Hd & Hr). apply or_error_Ok in Hd. apply lift_Ok in Hd as [Hd _].
  apply guard_not_Ok in Hr as [Hg _]. reflect_bools. destruct_and!. exists a. split; [congruence|done].
Qed.

(** A confirmed effect keeps plans settled. *)
Lemma confirmed_settled d d' row i amounts e : confirming d d' row i amounts e →
  s_ReconciliationReason (effect_row row i amounts) = ""%string → channel_net row = true →
  plan_settled row → (is_planned (se_Operation i) = true → is_Some (s_PendingRefundPlan row)) →
  plan_settled (effect_row row i amounts).
Proof.
  intros Hc Hre Hcn Hset Hpend. pose proof Hc as [Hwf Hrow Hfw Hv Hal Hacc _ _ _].
  pose proof (sw_payment _ Hwf _ _ Hrow) as Hw. pose proof (paid_bounds _ _ Hw) as Hpb.
  pose proof (pw_gross _ _ Hw) as Hg. pose proof Hfw as [F1 F2 F3 F4 [F5 F5'] F6 F7].
  assert (reversed_minor row = s_SettlementRefundedMinor row) as Er
    by (unfold reversed_minor; by rewrite Hcn).
  apply operation_allowed_parts in Hal as (f & Hf & Hal).
  pose proof Hf as Hview. eapply serviceFunds_view in Hview as (_&_&E2&_); [|done..].
  destruct (Hal E2) as [Hpl _]. pose proof (planned_kind _ Hv) as Hpk.
  destruct (effect_columns row i amounts) as (C1&C2&C3&C4&C5&C6&C7&Cid).
  unfold plan_allowed in Hpl. unfold is_planned in Hpend.
  destruct (so_RefundPlan (se_Operation i)) as [p|].
  - destruct Hpl as (_ & He & Hphase). destruct (Hpend eq_refl) as [q Hq].
    pose proof (expected_plan_fits _ _ _ _ _ Hw Hfw Hf Hcn He) as Hqp. rewrite Hq in Hqp. subst q.
    destruct Hpk as (Hk1&_&_&Hvp&_&Hk2&_).
    unfold plan_settled in *. rewrite Hq in *. rewrite C7.
    destruct (so_RefundPhase (se_Operation i) =s ServiceReturnPost) eqn:Hph.
    2: { destruct Hset as [P2 P3 P4 P5].
         rewrite (eqb_ne _ _ Hk1) in C4. destruct (row_view _ _ Cid) as (_&V2&_).
         by split; rewrite ?C4, ?V2. }
    apply String.eqb_eq in Hph.
    destruct (confirmed_return _ _ _ _ _ _ Hc (Hk2 Hph)) as [_ Hret].
    apply (post_phase_allowed d) in Hphase as (actual & Hdue & Hs & Hb); [|done].
    destruct Hset as [P2 P3 P4 P5]. rewrite (eqb_ne _ _ Hk1) in C4. rewrite Hk2 in * by done.
    assert (amounts.1.1 = s_SettlementRefundedMinor row) as Ha1.
    { eapply refund_amounts_accepted in Hacc; [|done]. rewrite Hk2 in Hacc by done. simpl in Hacc.
      by rewrite Hacc. }
    destruct (row_view _ _ Cid) as (_&_&_&V4&V5). rewrite Hcn, C1, Ha1 in V4. rewrite V4 in V5.
    unfold commission_kept. rewrite C4, Hret, V5.
    assert (0 ≤ rp_BaseSettlementRefundedMinor p ∧ 0 ≤ rp_BaseReturnedMinor p ∧
      0 ≤ rp_PreReturnMinor p ≤ rp_NetShareMinor p ∧ 0 ≤ rp_SettlementMinor p) as Hbd.
    { clear -Hvp. unfold ServiceRefundPlan_Validate in Hvp. destruct (negb _); [done|].
      destruct (has_duplicate _); [done|]. destruct (_ || _) eqn:Hc in Hvp; [done|].
      reflect_bools. destruct_and!. lia. }
    apply PostReturn_Ok in Hdue; [|done|lia|lia].
    destruct (rp_OriginalShareID p =s "") eqn:Hos.
    + left. apply String.eqb_eq in Hos. destruct (decide (s_SharedMinor row = 0)); [done|].
      destruct P5; [lia|done].
    + right. destruct Hdue as (Hrange & Hn & ->). i64_norm. rewrite Hb, Hs, <- P4, P3, P2.
      replace (paid_minor row - rp_BaseSettlementRefundedMinor p -
        ServiceRefundAmounts_SettlementMinor actual) with (paid_minor row -
        (rp_BaseSettlementRefundedMinor p + ServiceRefundAmounts_SettlementMinor actual)) by lia.
      lia.
  - destruct (Hpl Hcn) as (Hn & N1 & N2 & N3).
    apply ServiceOperation_kinds in Hv as [Hk|[Hk|[Hk|[Hk|[Hk|Hk]]]]]; try done.
    + destruct (confirmed_share _ _ _ _ _ _ Hc Hk) as (_ & Hsh & Hr0 & _).
      destruct (effect_commission _ _ _ _ Hw Hacc) as [_ V5]; [by rewrite Hk|].
      unfold plan_settled. rewrite C7, Hn.
      assert (commission_kept (effect_row row i amounts)); [|by case_match].
      right. rewrite Hsh, C5, Hk, Hr0, V5. simpl. lia.
    + eapply plan_settled_ext; [done|done|done| | | |].
      * rewrite C7, Hn. by case_match.
      * eapply refund_amounts_accepted in Hacc; [|done]. rewrite Hk in Hacc. simpl in Hacc.
        by rewrite C1, Hacc.
      * by rewrite C4, Hk.
      * by rewrite C5, Hk.
    + by rewrite C6, Hk in Hre.
Qed.
(** Two open operations are of different orders. *)
Lemma open_operation_unique d row x y id : one_open_operation d →
  rows service_payments d !! s_OrderID row = Some row →
  s_PendingOperationID row = x → rows service_reservations d !! id = Some y →
  sres_State y = ReservationPrepared → sres_OrderID y = s_OrderID row → id = x.
Proof.
  intros [_ O2] Hrow <- Hy Hs Ho. destruct (O2 _ _ Hy Hs) as (_ & r & Hr & <-).
  rewrite Ho in Hr. by simplify_eq.
Qed.

(** Another payment row with the same plan. *)
Lemma plans_put_payment d d' row row' : plans_ok S d →
  rows service_payments d !! s_OrderID row = Some row →
  rows service_payments d' = put_payment row row' d →
  rows service_reservations d' = rows service_reservations d →
  s_PendingRefundPlan row' = s_PendingRefundPlan row →
  (s_ReconciliationReason row' = ""%string → channel_net row' = true → plan_settled row') →
  plans_ok S d'.
Proof.
  intros [P1 P2 P3] Hrow Hp Hr Hpl Hset. unfold put_payment in Hp. split; rewrite ?Hp, ?Hr.
  - done.
  - intros id x r Hx Hs [[He <-]|[_ Hl]]%lookup_insert_Some; [|by eapply P2].
    intros Hpn. rewrite Hpl. eapply P2; [done..| |done]. by rewrite <- He.
  - intros o r [[_ <-]|[_ Hl]]%lookup_insert_Some; [done|by eapply P3].
Qed.

(** The pending operation ends, whatever becomes of the plan. *)
Lemma plans_ended d d' row row' x s b p : plans_ok S d → one_open_operation d → pending_on d row x →
  s ≠ ReservationPrepared →
  rows service_payments d' = put_payment row row' d →
  rows service_reservations d' = put_reservation x (set_reservation s b p x) d →
  (s_ReconciliationReason row' = ""%string → channel_net row' = true → plan_settled row') →
  plans_ok S d'.
Proof.
  intros [P1 P2 P3] Hoo [Hrow Hx Ho Hpd] Hne Hp Hr Hset. unfold put_payment, put_reservation in *.
  split; rewrite ?Hp, ?Hr.
  - intros id y [[_ <-]|[_ Hy]]%lookup_insert_Some; [by apply (P1 _ _ Hx)|by eapply P1].
  - intros id y r [[_ <-]|[Hid Hy]]%lookup_insert_Some Hs; [done|].
    intros [[He <-]|[_ Hl]]%lookup_insert_Some; [|by eapply P2]. exfalso. apply Hid.
    symmetry. by eapply (open_operation_unique d row).
  - intros o r [[_ <-]|[_ Hl]]%lookup_insert_Some; [done|by eapply P3].
Qed.

Lemma plans_same d d' : plans_ok S d → rows service_payments d' = rows service_payments d →
  rows service_reservations d' = rows service_reservations d → plans_ok S d'.
Proof. intros [P1 P2 P3] Hp Hr. by split; rewrite ?Hp, ?Hr. Qed.

(** A payment that keeps its columns keeps its plan settled. *)
Lemma plans_settled_same d row row' : plans_ok S d →
  rows service_payments d !! s_OrderID row = Some row → same_identity row row' →
  s_PendingRefundPlan row' = s_PendingRefundPlan row →
  s_SettlementRefundedMinor row' = s_SettlementRefundedMinor row →
  s_SharedMinor row' = s_SharedMinor row → s_ReturnedMinor row' = s_ReturnedMinor row →
  s_ReconciliationReason row' = ""%string → channel_net row' = true → plan_settled row'.
Proof.
  intros [_ _ P3] Hrow Hid E1 E2 E3 E4 Hre Hcn. destruct (row_view _ _ Hid) as (V1&_).
  rewrite V1 in Hcn. apply (plan_settled_ext row); [|done..]. eapply P3; [done| |done].
  destruct Hid as (_&_&_&_&_&_&_&_&_&_&_&Hk). apply dec_stable. intros Hne. by apply Hk.
Qed.

(** A plan is put under way. *)
Lemma prepared_settled d row op plan : services_wf d → plans_ok S d → all_funds_within d →
  rows service_payments d !! s_OrderID row = Some row → s_ReconciliationReason row = ""%string →
  operation_allowed d row op →
  plan = match so_RefundPlan op, s_PendingRefundPlan row with
         | Some p, None => Some (json_ServiceRefundPlan p)
         | _, _ => s_PendingRefundPlan row
         end →
  channel_net row = true →
  plan_settled (with_fences row (s_ChargedBackMinor row) plan (so_OperationID op)
    (s_ReconciliationReason row)).
Proof.
  intros Hwf [_ _ P3] Hfw Hrow Hre Hal -> Hcn. pose proof (Hfw _ _ Hrow Hre) as Hw.
  pose proof (sw_payment _ Hwf _ _ Hrow) as Hpw. pose proof (P3 _ _ Hrow Hre Hcn) as Hset.
  apply operation_allowed_parts in Hal as (f & Hf & Hal). pose proof Hf as Hview.
  eapply serviceFunds_view in Hview as (_&_&E2&_); [|done|by apply Hw|by apply Hw].
  destruct (Hal E2) as [Hpl _]. unfold plan_allowed in Hpl.
  destruct (so_RefundPlan op) as [p|]; [destruct (s_PendingRefundPlan row) as [q|] eqn:Hq|].
  1, 3: by eapply plan_settled_ext.
  destruct Hpl as (_ & He & _). pose proof (expected_plan_fits _ _ _ _ _ Hpw Hw Hf Hcn He) as Hfit.
  rewrite Hq in Hfit. unfold plan_settled. simpl. by destruct Hfit.
Qed.

Lemma step_plans d d' : collision_free S → service_step S d d' → services_wf d →
  one_open_operation d → all_funds_within d → plans_ok S d → plans_ok S d'.
Proof.
  intros Hcf Hs Hwf Hoo Hfw Hok.
  destruct Hs as [(Hp&Hr&_)|row Hf Hn (Hp&Hr&_)
    |op row x plan HS Hv Ho Hrow Hpd Hre Hal Hx Hid Hox Hop Hfp Hst Hdi Hpl (Hp&Hr&_)
    |row x Hon Hd Hre (Hp&Hr&_)|row x proof Hon Hd (Hp&Hr&_)
    |row x proof e Hon ? ? ? (Hp&Hr&_)
    |row x i amounts e Hon op HS Hval Hoo' Hoid Hxo Hxf ? Hal Hacc [Hn Ho] Hid Hk (r&Hr'&Ha&_) (Hp&Hr&He)
    |row e Hrow ? ? (Hp&Hr&_)|row e fee Hrow ? ? ? (Hp&Hr&_)|row e Hrow ? ? (Hp&Hr&_)
    |row r Hrow Hset (Hp&Hr&_)].
  - by eapply plans_same.
  - destruct Hok as [P1 P2 P3]. unfold put_payment in Hp. destruct (fp_idle _ Hf) as (_&Hpl&_).
    destruct (fp_zero _ Hf) as (_&_&_&_&Hz&_). split; rewrite ?Hp, ?Hr.
    + done.
    + intros id y r0 Hy Hs [[He <-]|[_ Hl]]%lookup_insert_Some; [|by eapply P2]. exfalso.
      destruct Hoo as [_ O2]. destruct (O2 _ _ Hy Hs) as (_ & r1 & Hr1 & _). congruence.
    + intros o r0 [[_ <-]|[_ Hl]]%lookup_insert_Some; [|by eapply P3]. intros _ _.
      unfold plan_settled. rewrite Hpl. by left.
  - pose proof Hok as [P1 P2 P3]. unfold put_payment, put_reservation in *. split; rewrite ?Hp, ?Hr.
    + intros id y [[_ <-]|[_ Hy]]%lookup_insert_Some; [by rewrite Hop|by eapply P1].
    + intros id y r [[_ <-]|[_ Hy]]%lookup_insert_Some Hs.
      * rewrite Hox, lookup_insert_eq. intros [= <-] Hpn. simpl. rewrite Hpl. rewrite Hop in Hpn.
        unfold is_planned in Hpn. destruct (so_RefundPlan op); [|done]. by case_match.
      * intros [[He <-]|[_ Hl]]%lookup_insert_Some; [|by eapply P2]. exfalso.
        assert (id = ""%string) as -> by (by eapply (open_operation_unique d row)).
        by destruct Hoo as [_ O2]; destruct (O2 _ _ Hy Hs).
    + intros o r [[_ <-]|[_ Hl]]%lookup_insert_Some; [|by eapply P3]. intros _ Hcn.
      by eapply prepared_settled.
  - destruct Hok as [P1 P2 P3]. pose proof (po_res _ _ _ Hon) as Hx. unfold put_reservation in Hr.
    split; rewrite ?Hp, ?Hr; [| |done].
    + intros id y [[_ <-]|[_ Hy]]%lookup_insert_Some; [by apply (P1 _ _ Hx)|by eapply P1].
    + intros id y r [[_ <-]|[_ Hy]]%lookup_insert_Some Hs; [by eapply (P2 _ x)|by eapply P2].
  - eapply plans_ended; [done|done|exact Hon| |exact Hp|exact Hr|]; [done|].
    eapply plans_settled_same; [done|apply Hon|done..].
  - eapply plans_ended; [done|done|exact Hon| |exact Hp|exact Hr|]; [done|].
    eapply plans_settled_same; [done|apply Hon|done..].
  - eapply plans_ended; [done|done|exact Hon| |exact Hp|exact Hr|]; [done|]. intros Hre Hcn.
    pose proof (po_row _ _ _ Hon) as Hrow. pose proof (po_res _ _ _ Hon) as Hx.
    assert (s_ReconciliationReason row = ""%string) as Hre'.
    { destruct (effect_columns row i amounts) as (_&_&_&_&_&C&_). rewrite Hre in C.
      destruct (so_Kind _ =s ServiceChargeback); done. }
    assert (channel_net row = true) as Hcn'.
    { destruct (effect_columns row i amounts) as (_&_&_&_&_&_&_&Cid).
      destruct (row_view _ _ Cid) as (V1&_). congruence. }
    assert (sres_Operation x = op) as Hsx.
    { destruct Hok as [P1 _ _]. destruct (P1 _ _ Hx) as [HSx Hfx]. apply Hcf; [done|done|congruence]. }
    apply (confirmed_settled d d' row i amounts e); [|done|done|by eapply (po_settled _ _ Hok)|].
    + split; try done.
      * by apply Hfw.
      * by apply ServiceEffect_operation.
      * by apply Hal.
      * split; [done|]. unfold effect_amount. by rewrite Hr'.
    + intros Hpn. apply (po_plan _ _ Hok _ x row Hx); [apply Hon| |by rewrite Hsx].
      by rewrite Hxo.
  - eapply plans_put_payment; [done|exact Hrow|exact Hp|exact Hr|done|]. done.
  - eapply plans_put_payment; [done|exact Hrow|exact Hp|exact Hr|done|].
    by eapply plans_settled_same.
  - by eapply plans_same.
  - eapply plans_put_payment; [done|exact Hrow|exact Hp|exact Hr|done|].
    eapply plans_settled_same; [done|done|by apply set_reason_identity|done..].
Qed.
End plans.
