(* ===== verification/ServiceLife.v ===== *)
(** * The life of a payment and of the operations on it

    What never changes of a payment, and how a reservation of an operation
    ends, proved of the state machine of ServiceMachine. *)
From S2P Require Import Prelude GoStd Encoding MoneyTypes ProviderTopUp ServiceMoney ServiceValues Store MoneyStore WalletSpec WalletRepo TopUpRepo ServiceRepo ServiceMachine.

(** ** Specifications *)

(** A reservation keeps what it reserves, stays dispatched, and is final once
    it left PREPARED. *)
Record reservation_evolves (x x' : serviceReservationRow) : Prop := {
  re_same : sres_OperationID x' = sres_OperationID x ∧ sres_OrderID x' = sres_OrderID x ∧
    sres_Kind x' = sres_Kind x ∧ sres_Fingerprint x' = sres_Fingerprint x ∧
    sres_Operation x' = sres_Operation x ∧ sres_Receipt x' = sres_Receipt x;
  re_dispatched : sres_Dispatched x = true → sres_Dispatched x' = true;
  re_final : sres_State x ≠ ReservationPrepared → x' = x }.

(** How a reservation may have ended. *)
Record reservation_ended (d : DB) (x : serviceReservationRow) : Prop := {
  en_state : sres_State x = ReservationPrepared ∨ sres_State x = ReservationConfirmed ∨
    sres_State x = ReservationAbandoned ∨ sres_State x = ReservationFailed;
  en_abandoned : sres_State x = ReservationAbandoned → sres_Dispatched x = false;
  en_failed : sres_State x = ReservationFailed → sres_Dispatched x = true;
  en_confirmed : sres_State x = ReservationConfirmed →
    ∃ e op, rows effects d !! sres_OperationID x = Some e ∧ eff_OrderID e = sres_OrderID x ∧
      sres_Fingerprint x = operation_fingerprint op ∧ so_OperationID op = sres_OperationID x ∧
      eff_Kind e = so_Kind op ∧ effect_amount e = so_AmountMinor op ∧
      (0 < so_AmountMinor op → sres_Dispatched x = true) }.

Definition all_ended (d : DB) : Prop :=
  ∀ id x, rows service_reservations d !! id = Some x → reservation_ended d x.

(** * Lemmas *)

#[export] Instance reservation_evolves_preorder : PreOrder reservation_evolves.
Proof.
  split; [by intros x; repeat split|]. intros x y z [(?&?&?&?&?&?) D1 F1] [(?&?&?&?&?&?) D2 F2].
  split; [repeat split; congruence|auto|]. intros Hx. pose proof (F1 Hx) as E. rewrite E in *. auto.
Qed.

Lemma set_reservation_evolves s b p x : sres_State x = ReservationPrepared →
  (sres_Dispatched x = true → b = true) → reservation_evolves x (set_reservation s b p x).
Proof. intros Hs Hb. split; [done|done|congruence]. Qed.

Section life.
Context `{Env} {S : ServiceOperation → Prop}.

Lemma put_reservation_evolves d x s b p id y : rows service_reservations d !! sres_OperationID x = Some x →
  reservation_evolves x (set_reservation s b p x) → rows service_reservations d !! id = Some y →
  ∃ y', put_reservation x (set_reservation s b p x) d !! id = Some y' ∧ reservation_evolves y y'.
Proof.
  intros Hx Hev Hy. unfold put_reservation. destruct (decide (sres_OperationID x = id)) as [<-|Hne].
  - exists (set_reservation s b p x). rewrite lookup_insert_eq. split; [done|]. congruence.
  - exists y. by rewrite lookup_insert_ne.
Qed.

Lemma step_evolves d d' id y : service_step S d d' → rows service_reservations d !! id = Some y →
  ∃ y', rows service_reservations d' !! id = Some y' ∧ reservation_evolves y y'.
Proof.
  intros Hs Hy.
  destruct Hs as [(_&Hr&_)|? ? ? (_&Hr&_)|op row x plan ? ? ? ? ? ? ? Hn ? ? ? ? ? ? ? (_&Hr&_)
    |row x [_ Hl Hst _] ? ? (_&Hr&_)|row x proof [_ Hl Hst _] ? (_&Hr&_)
    |row x proof e [_ Hl Hst _] ? ? ? (_&Hr&_)
    |row x i amounts e [_ Hl Hst _] op ? ? ? ? ? ? ? ? ? ? ? ? ? (_&Hr&_)
    |? ? ? ? ? (_&Hr&_)|? ? ? ? ? ? ? (_&Hr&_)|? ? ? ? ? (_&Hr&_)|? ? ? ? (_&Hr&_)]; rewrite Hr.
  all: try (by exists y).
  all: try (eapply put_reservation_evolves; [exact Hl|by apply set_reservation_evolves|exact Hy]).
  exists y. unfold put_reservation. rewrite lookup_insert_ne; [done|]. congruence.
Qed.

(** An ended reservation stays so as effects are added. *)
Lemma ended_grows d d' x : rows effects d ⊆ rows effects d' → reservation_ended d x →
  reservation_ended d' x.
Proof.
  intros He [E1 E2 E3 E4]. split; [done..|]. intros Hc. destruct (E4 Hc) as (e & op & Hl & ?).
  exists e, op. split; [|done]. by eapply lookup_weaken.
Qed.

Lemma step_effects_grow d d' : service_step S d d' → rows effects d ⊆ rows effects d'.
Proof.
  intros Hs. destruct (step_effects _ _ Hs) as [->|(e&row&_&[Hn _]&->)]; [done|].
  by apply insert_subseteq.
Qed.

Lemma step_ended d d' : service_step S d d' → services_wf d → all_ended d → all_ended d'.
Proof.
  intros Hs Hwf Hall. pose proof (step_effects_grow _ _ Hs) as Hg.
  assert (∀ id x, rows service_reservations d !! id = Some x → reservation_ended d' x) as Hold.
  { intros id x Hx. eapply ended_grows; [done|by eapply Hall]. }
  destruct Hs as [(_&Hr&_)|? ? ? (_&Hr&_)|op row x plan ? ? ? ? ? ? ? Hn ? ? ? ? Hst ? ? (_&Hr&_)
    |row x [_ Hl Hst _] ? ? (_&Hr&_)|row x proof [_ Hl Hst _] ? (_&Hr&_)
    |row x proof e [_ Hl Hst _] ? ? ? (_&Hr&_)
    |row x i amounts e [_ Hl Hst _] op ? ? ? Hop Hox Hfp Hdis ? ? [Hn Heo] Hid Hk Hrc (_&Hr&He)
    |? ? ? ? ? (_&Hr&_)|? ? ? ? ? ? ? (_&Hr&_)|? ? ? ? ? (_&Hr&_)|? ? ? ? (_&Hr&_)];
    intros id y; rewrite Hr; try (by apply Hold); unfold put_reservation;
    (intros [[<- <-]|[_ Hy]]%lookup_insert_Some; [|by eapply Hold]).
  - split; [by left|rewrite Hst; done..].
  - split; simpl; rewrite Hst; [by left|done..].
  - split; simpl; [by auto|done..].
  - split; simpl; [by auto|done..].
  - destruct Hrc as (r & Hr' & Ha & _).
    split; cbn [sres_State sres_Dispatched sres_OperationID sres_OrderID sres_Fingerprint set_reservation];
       [by auto|done|done|]. intros _. exists e, op.
    rewrite He. unfold put_effect. rewrite <- Hop, <- Hid, lookup_insert_eq.
    split; [done|]. split; [congruence|]. do 3 (split; [done|]). split; [|intros; apply Hdis; lia].
    unfold effect_amount. by rewrite Hr'.
Qed.

(** ** What a payment keeps *)

Lemma step_identity d d' o row : service_step S d d' → services_wf d →
  rows service_payments d !! o = Some row →
  ∃ row', rows service_payments d' !! o = Some row' ∧ same_identity row row'.
Proof.
  intros Hs Hwf Hrow. destruct (step_payments _ _ Hs) as [->|[(r&_&Hn&->)|(r&r'&Hr&->&Hi)]].
  - by exists row.
  - exists row. unfold put_payment. rewrite lookup_insert_ne; [done|]. congruence.
  - unfold put_payment. destruct (decide (s_OrderID r = o)) as [<-|Hne].
    + exists r'. rewrite lookup_insert_eq. split; [done|]. congruence.
    + exists row. by rewrite lookup_insert_ne.
Qed.
End life.
