(* ===== verification/ServiceRuns.v ===== *)
(** * Every service operation is a run of the service machine

    For each operation of ServiceRepo, what a successful call did to the
    payment, reservation and effect tables, as steps of ServiceMachine. *)
From S2P Require Import Prelude GoStd Encoding MoneyTypes ProviderTopUp ServiceMoney ServiceValues Store MoneyStore WalletSpec WalletRepo TopUpRepo ServiceRepo ServiceMachine.

(** The tables of the service machine as they were. *)
Definition same_services (d d' : DB) : Prop :=
  rows service_payments d' = rows service_payments d ∧
  rows service_reservations d' = rows service_reservations d ∧ rows effects d' = rows effects d.

#[export] Instance same_services_preorder : PreOrder same_services.
Proof.
  split; [intros d; by repeat split|]. intros d1 d2 d3 (?&?&?) (?&?&?). repeat split; congruence.
Qed.

#[export] Hint Extern 0 (Writes (on_db same_services) _) =>
  solve [intros ??; unfold on_db; by repeat split] : typeclass_instances.

(** The guard, check or marshalling at the head of a successful run passed. *)
Tactic Notation "passed" hyp(H) "as" simple_intropattern(G) :=
  apply bind_Ok in H as ([] & ? & ?Hstep & H);
  match goal with
  | S : check _ _ = _ |- _ => apply check_Ok in S as [G ->]
  | S : guard_not _ _ _ = _ |- _ => apply guard_not_Ok in S as [G ->]; reflect_bools
  end.
Tactic Notation "marshalled" hyp(H) :=
  apply bind_Ok in H as ([] & ? & ?Hstep & H);
  match goal with S : MarshalTime _ _ = _ |- _ => apply MarshalTime_run in S as -> end.
(** The row read by key at the head of a successful run. *)
Tactic Notation "read_row" hyp(H) :=
  apply bind_Ok in H as (? & ? & ?Hstep & H);
  match goal with S : take_pk _ _ _ = _ |- _ => apply take_pk_Ok in S as [-> ->] end.

Lemma alter_known {K V} `{Countable K} (f : V → V) k v (m : gmap K V) :
  m !! k = Some v → alter f k m = <[k := f v]> m.
Proof.
  intros Hk. apply map_eq. intros j. destruct (decide (j = k)) as [->|Hj].
  - by rewrite lookup_alter_eq, lookup_insert_eq, Hk.
  - by rewrite lookup_alter_ne, lookup_insert_ne by done.
Qed.

Section runs.
Context `{Env} {S : ServiceOperation → Prop}.

Lemma lock_run o w row w' : services_wf (the_db w) → lockServicePayment o w = (Ok row, w') →
  w' = w ∧ rows service_payments (the_db w) !! s_OrderID row = Some row ∧ s_OrderID row = o.
Proof.
  intros Hwf Hr. unfold lockServicePayment in Hr. read_row Hr.
  apply bind_Ok in Hr as (r & ? & Hf & Hr). apply found_Ok in Hf as [Hf ->].
  passed Hr as _. apply ret_Ok in Hr as [-> ->]. split; [done|].
  pose proof (pw_key _ _ (sw_payment _ Hwf _ _ Hf)) as ->. done.
Qed.

Lemma validate_same row op w x w' : validateServiceOperation row op w = (Ok x, w') → the_db w' = the_db w.
Proof.
  intros Hr. assert (keeps (on_db eq) (validateServiceOperation row op)) as Hk by solve_keeps.
  specialize (Hk w). by rewrite Hr in Hk.
Qed.

(** The claim of a channel trade leaves the service tables, and the facts. *)
Lemma claimChannelPayment_services b p u w x w1 : claimChannelPayment b p u w = (Ok x, w1) →
  same_services (the_db w) (the_db w1) ∧ rows payments (the_db w1) = rows payments (the_db w).
Proof.
  intros Hc. split.
  - assert (keeps (on_db same_services) (claimChannelPayment b p u)) as Hk by solve_keeps.
    specialize (Hk w). by rewrite Hc in Hk.
  - apply claimChannelPayment_run in Hc as ((?&?)&_). by destruct_and!.
Qed.

Lemma MarshalTime_always t w u (w' : World) : MarshalTime t w = (Ok u, w') →
  ∀ v : World, MarshalTime t v = (Ok tt, v).
Proof. unfold MarshalTime. by case_match. Qed.

Lemma MarshalTime_json t u (w w' : World) : MarshalTime t w = (Ok u, w') →
  ∃ j, json_time t = Some j ∧ w' = w.
Proof. unfold MarshalTime. case_match; [|done]. intros [= _ <-]. eauto. Qed.

(** The payment [i] is on record with the receipt [r]. *)
Record payment_on_record (i : ServicePaymentInput) (r : ServiceReceipt) (d : DB) : Prop := {
  pr_valid : ServicePaymentInput_Validate i = None;
  pr_time : ∀ v : World, MarshalTime (ps_SettledAt (sp_Payment i)) v = (Ok tt, v);
  pr_claim : ∃ c, rows channel_claims d !! ProviderPaymentBinding_ClaimID (sp_Binding i) = Some c ∧
    cc_PaymentID c = ps_PaymentID (sp_Payment i) ∧ cc_Purpose c = PaymentPurposeServicePurchase;
  pr_row : ∃ row, rows service_payments d !! sp_OrderID i = Some row ∧
    s_Fingerprint row = ServicePaymentInput_Fingerprint i ∧
    s_ClaimID row = ProviderPaymentBinding_ClaimID (sp_Binding i) ∧ s_Receipt row = Some r }.

(** What accepting the payment [i] does, when it is not on record yet. *)
Record payment_accepted (i : ServicePaymentInput) (out : ServiceReceipt) (d d' : DB) : Prop := {
  pa_new : rows service_payments d !! sp_OrderID i = None;
  pa_fact : rows payments d !! ps_PaymentID (sp_Payment i) = None ∧
    rows payments d' = <[ps_PaymentID (sp_Payment i) := paymentRowFromFact (sp_Payment i)]> (rows payments d);
  pa_out : out = new_receipt None
    ("service-payment:" +:+ ProviderPaymentBinding_ClaimID (sp_Binding i))%string (sp_OrderID i)
    (sp_OrderID i) "" (ps_GrossAmountMinor (sp_Payment i)) (ServicePaymentInput_Fingerprint i)
    (ps_ProviderReference (sp_Payment i)) (NormalizeTimestamp (ps_SettledAt (sp_Payment i)));
  pa_time : ∃ j, json_time (NormalizeTimestamp (ps_SettledAt (sp_Payment i))) = Some j;
  pa_row : ∃ row, (in_int64 (ps_GrossAmountMinor (sp_Payment i)) → fresh_payment row) ∧
    s_Input row = i ∧ s_OrderID row = sp_OrderID i ∧ s_Receipt row = Some out ∧
    tables_become d d' (put_payment row row d) (rows service_reservations d) (rows effects d) }.

Lemma AcceptServicePayment_run input w out w' : services_wf (the_db w) →
  AcceptServicePayment input w = (Ok out, w') →
  let i := normalized_channel_amounts input in
  (same_services (the_db w) (the_db w') ∧ is_Some (rows service_payments (the_db w) !! sp_OrderID i) ∧
     ∃ r, payment_on_record i r (the_db w') ∧ decodeServiceReceipt r = Ok out) ∨
  (payment_accepted i out (the_db w) (the_db w') ∧ payment_on_record i out (the_db w')).
Proof.
  intros Hwf Hr. unfold AcceptServicePayment in Hr. cbv zeta in *. passed Hr as Hv.
  generalize dependent (normalized_channel_amounts input). intros i Hv Hr.
  apply Transaction_Ok in Hr. apply bind_Ok in Hr as (c & w1 & Hc & Hr).
  assert (same_services (the_db w) (the_db w1) ∧ rows payments (the_db w1) = rows payments (the_db w))
    as [(E1&E2&E3) Epay].
  { apply (claimChannelPayment_services _ _ _ w) in Hc. done. }
  apply claimChannelPayment_run in Hc as (_ & Hcl).
  apply bind_Ok in Hr as (u & ? & Hm & Hr). pose proof (MarshalTime_always _ _ _ _ Hm) as Htime.
  apply MarshalTime_run in Hm as ->.
  apply bind_Ok in Hr as (b & w2 & Hcr & Hr). read_row Hr.
  apply bind_Ok in Hr as (saved & ? & Hf & Hr). apply found_Ok in Hf as [Hf ->]. passed Hr as Hg.
  destruct Hg as [Hgf Hgc].
  apply CreateIgnore_Ok in Hcr as [(->&->&_)|(->&Hn&_&->)].
  - left. rewrite E1 in Hf. destruct (pw_receipt _ _ (sw_payment _ Hwf _ _ Hf)) as [r Hrc]. rewrite Hrc in Hr.
    apply lift_Ok in Hr as [Hd ->]. split; [done|]. split; [by eexists|]. exists r. split; [|done].
    split; [done..|]. exists saved. by rewrite E1.
  - right. read_tables. rewrite E1 in *. simpl in Hf.
    rewrite lookup_insert_eq in Hf. injection Hf as <-. simpl in Hr.
    apply bind_Ok in Hr as (b & w3 & Hcr & Hr). passed Hr as Hb. subst b.
    apply CreateIgnore_Ok in Hcr as [(?&_)|(_&Hnp&_&->)]; [done|].
    apply bind_Ok in Hr as (u' & ? & Hm & Hr). apply MarshalTime_json in Hm as (jt & Hjt & ->).
    apply bind_Ok in Hr as ([] & ? & Hu & Hr). apply Update_Ok in Hu as ->.
    apply ret_Ok in Hr as [-> ->]. read_tables. rewrite alter_insert_eq. rewrite Epay in *.
    split.
    + split; [exact Hn|by split|done|by eexists|].
      lazymatch goal with |- context [put_rows service_payments (<[_ := ?r]> _)] => exists r end.
      split; [by split|]. do 3 (split; [done|]). unfold tables_become, put_payment. read_tables.
      by rewrite E2, E3.
    + split; [done..|]. read_tables. eexists. rewrite lookup_insert_eq. done.
Qed.

Lemma AcceptServicePayment_step i w out w' : in_int64 (ps_GrossAmountMinor (sp_Payment i)) →
  services_wf (the_db w) → AcceptServicePayment i w = (Ok out, w') →
  service_step S (the_db w) (the_db w').
Proof.
  intros Hty Hwf Hr. apply AcceptServicePayment_run in Hr as [[Hs _]|[[Hn _ _ _ (row&Hf&_&Ho&_&Ht)] _]];
    [by apply sv_idle| |done].
  apply (sv_paid _ _ _ row); [by apply Hf|by rewrite Ho|done].
Qed.

(** The reservation of a prepared operation. *)
Definition prepared_reservation (op : ServiceOperation) (out : ServiceReceipt) : serviceReservationRow :=
  {| sres_OperationID := so_OperationID op; sres_OrderID := so_OrderID op; sres_Kind := so_Kind op;
     sres_Fingerprint := operation_fingerprint op; sres_Operation := op;
     sres_State := ReservationPrepared; sres_Dispatched := false; sres_DenialProofID := "";
     sres_Receipt := out |}.

(** What preparing [op] for the first time does. *)
Record operation_prepared (op : ServiceOperation) (out : ServiceReceipt) (row : servicePaymentRow)
    (d d' : DB) : Prop := {
  op_valid : ServiceOperation_Validate op = None;
  op_row : rows service_payments d !! s_OrderID row = Some row ∧ s_OrderID row = so_OrderID op;
  op_idle : s_PendingOperationID row = ""%string ∧ s_ReconciliationReason row = ""%string;
  op_allowed : operation_allowed d row op;
  op_new : rows service_reservations d !! so_OperationID op = None;
  op_out : ∃ at_, out = new_receipt None ("service-reservation:" +:+ so_OperationID op)%string
    (so_OrderID op) (so_OperationID op) (so_Kind op) (so_AmountMinor op) (operation_fingerprint op)
    "" at_;
  op_tables : tables_become d d'
    (put_payment row (with_fences row (s_ChargedBackMinor row)
       match so_RefundPlan op, s_PendingRefundPlan row with
       | Some p, None => Some (json_ServiceRefundPlan p)
       | _, _ => s_PendingRefundPlan row
       end (so_OperationID op) (s_ReconciliationReason row)) d)
    (put_reservation (prepared_reservation op out) (prepared_reservation op out) d)
    (rows effects d) }.

Lemma PrepareServiceOperation_run op w out w' : services_wf (the_db w) →
  PrepareServiceOperation op w = (Ok out, w') →
  (w' = w ∧ ∃ x row, ServiceOperation_Validate op = None ∧
     rows service_payments (the_db w) !! so_OrderID op = Some row ∧
     rows service_reservations (the_db w) !! so_OperationID op = Some x ∧
     sres_Fingerprint x = operation_fingerprint op ∧
     (sres_State x ≠ ReservationAbandoned ∧ sres_State x ≠ ReservationFailed) ∧
     decodeServiceReceipt (sres_Receipt x) = Ok out) ∨
  ∃ row, operation_prepared op out row (the_db w) (the_db w').
Proof.
  intros Hwf Hr. unfold PrepareServiceOperation in Hr. passed Hr as Hv. apply Transaction_Ok in Hr.
  apply bind_Ok in Hr as (row & ? & Hl & Hr). apply lock_run in Hl as (->&Hrow&Ho); [|done].
  read_row Hr. destruct (rows service_reservations (the_db w) !! so_OperationID op) as [x|] eqn:Hx.
  { passed Hr as Hf. passed Hr as Hs. apply lift_Ok in Hr as [Hd ->]. left. rewrite <- Ho, Hrow.
    eauto 10. }
  passed Hr as Hg. apply bind_Ok in Hr as ([] & w1 & Hval & Hr).
  pose proof (validate_same _ _ _ _ _ Hval) as Hd1.
  apply bind_Ok in Hr as (now & w2 & Hnow & Hr). apply Now_Ok in Hnow. marshalled Hr.
  apply bind_Ok in Hr as ([] & ? & Hcr & Hr). apply Create_Ok in Hcr as (Hn&_&->).
  apply bind_Ok in Hr as ([] & ? & Hu & Hr). apply Update_Ok in Hu as ->.
  apply ret_Ok in Hr as [-> ->]. rewrite Hd1 in Hnow. rewrite Hnow in Hn. read_tables.
  rewrite Hnow, (alter_known _ _ _ _ Hrow). right. exists row. split; try done; [by exists w, w1|by eexists].
Qed.

Lemma PrepareServiceOperation_step op w out w' : S op → services_wf (the_db w) →
  PrepareServiceOperation op w = (Ok out, w') → service_step S (the_db w) (the_db w').
Proof.
  intros HS Hwf Hr. apply PrepareServiceOperation_run in Hr as [[-> _]|(row&Hp)];
    [by apply sv_idle| |done].
  destruct Hp as [H1 [H2 H3] [H4 H5] H6 H7 _ H8].
  by eapply (sv_prepared _ _ _ op row (prepared_reservation op out)).
Qed.

(** The open reservation of the run is the pending operation of its payment. *)
Lemma pending_here d row op x : rows service_payments d !! s_OrderID row = Some row →
  services_wf d → rows service_reservations d !! so_OperationID op = Some x →
  sres_State x = ReservationPrepared → s_PendingOperationID row = so_OperationID op →
  pending_on d row x.
Proof. intros Hrow Hwf Hx Hs Hp. pose proof (sw_reservation _ Hwf _ _ Hx) as E. split; congruence. Qed.

Lemma AdmitServiceOperation_step op w out w' : services_wf (the_db w) →
  AdmitServiceOperation op w = (Ok out, w') → service_step S (the_db w) (the_db w').
Proof.
  intros Hwf Hr. unfold AdmitServiceOperation in Hr. passed Hr as Hv. apply Transaction_Ok in Hr.
  apply bind_Ok in Hr as (row & ? & Hl & Hr). apply lock_run in Hl as (->&Hrow&Ho); [|done].
  read_row Hr. apply bind_Ok in Hr as (x & ? & Hx & Hr). apply found_Ok in Hx as [Hx ->].
  passed Hr as Hg. destruct Hg as [_ Hre]. destruct (sres_Dispatched x) eqn:Hd.
  { apply ret_Ok in Hr as [_ ->]. by apply sv_idle. }
  passed Hr as Hg. destruct Hg as [Hs Hp]. apply Update_Ok in Hr as ->.
  pose proof (pending_here _ _ _ _ Hrow Hwf Hx Hs Hp) as Hon. pose proof (po_res _ _ _ Hon) as Hx'.
  read_tables. rewrite (alter_known _ _ _ _ Hx').
  by eapply (sv_dispatched _ _ _ row x).
Qed.

Lemma Abandon_step op proof w out w' : services_wf (the_db w) →
  AbandonUndispatchedServiceOperation op proof w = (Ok out, w') →
  service_step S (the_db w) (the_db w').
Proof.
  intros Hwf Hr. unfold AbandonUndispatchedServiceOperation in Hr. passed Hr as Hv. passed Hr as _.
  apply Transaction_Ok in Hr.
  apply bind_Ok in Hr as (row & ? & Hl & Hr). apply lock_run in Hl as (->&Hrow&Ho); [|done].
  read_row Hr. apply bind_Ok in Hr as (x & ? & Hx & Hr). apply found_Ok in Hx as [Hx ->].
  passed Hr as _. destruct (sres_State x =s ReservationAbandoned).
  { apply guard_not_Ok in Hr as [_ ->]. by apply sv_idle. }
  passed Hr as Hg. destruct Hg as [[Hd Hs] Hp].
  apply bind_Ok in Hr as ([] & ? & Hu & Hr). apply Update_Ok in Hu as ->. apply Update_Ok in Hr as ->.
  pose proof (pending_here _ _ _ _ Hrow Hwf Hx Hs Hp) as Hon. pose proof (po_res _ _ _ Hon) as Hx'.
  read_tables. rewrite (alter_known _ _ _ _ Hx'), (alter_known _ _ _ _ Hrow).
  by eapply (sv_abandoned _ _ _ row x proof).
Qed.

Lemma failed_uncounted k : ("FAILED_" +:+ k)%string ∉ counted_kinds.
Proof. unfold counted_kinds. rewrite !elem_of_cons, elem_of_nil. intros Hk. naive_solver. Qed.

Lemma ResolveFailed_step f w out w' : services_wf (the_db w) →
  ResolveFailedServiceOperation f w = (Ok out, w') → service_step S (the_db w) (the_db w').
Proof.
  intros Hwf Hr. unfold ResolveFailedServiceOperation in Hr. passed Hr as Hv. cbv zeta in Hr.
  apply Transaction_Ok in Hr.
  apply bind_Ok in Hr as (row & ? & Hl & Hr). apply lock_run in Hl as (->&Hrow&Ho); [|done].
  read_row Hr. destruct (rows effects (the_db w) !! _) as [e|] eqn:He.
  { passed Hr as _. apply lift_Ok in Hr as [_ ->]. by apply sv_idle. }
  read_row Hr. apply bind_Ok in Hr as (x & ? & Hx & Hr). apply found_Ok in Hx as [Hx ->].
  passed Hr as Hg. destruct Hg as [[[_ Hd] Hs] Hp].
  apply bind_Ok in Hr as (n & ? & Hn & Hr). apply Count_Ok in Hn as [_ ->]. passed Hr as _.
  marshalled Hr. apply bind_Ok in Hr as ([] & ? & Hc & Hr). apply Create_Ok in Hc as (_&_&->).
  apply bind_Ok in Hr as ([] & ? & Hu & Hr). apply Update_Ok in Hu as ->.
  apply bind_Ok in Hr as ([] & ? & Hu & Hr). apply Update_Ok in Hu as ->.
  apply ret_Ok in Hr as [_ ->].
  pose proof (pending_here _ _ _ _ Hrow Hwf Hx Hs Hp) as Hon. pose proof (po_res _ _ _ Hon) as Hx'.
  read_tables. rewrite (alter_known _ _ _ _ Hx'), (alter_known _ _ _ _ Hrow).
  lazymatch goal with |- context [put_rows effects (<[_ := ?e]> _)] =>
    apply (sv_failed _ _ _ row x (sf_ProofID (normalized_failure f)) e) end; try done.
  apply failed_uncounted.
Qed.

(** The effect recorded for [i] on the order of [row]. *)
Definition recorded_effect (i : ServiceEffect) (row : servicePaymentRow) (out : ServiceReceipt)
    : serviceEffectRow :=
  {| eff_OperationID := so_OperationID (se_Operation i); eff_OrderID := s_OrderID row;
     eff_Kind := so_Kind (se_Operation i); eff_Fingerprint := ServiceEffect_Fingerprint i;
     eff_Receipt := ReceiptPayload out |}.

(** What accepting the effect [i] for the first time does. *)
Record effect_accepted (i : ServiceEffect) (out : ServiceReceipt) (row : servicePaymentRow)
    (x : serviceReservationRow) (amounts : Z * Z * option (gmap string Z)) (d d' : DB) : Prop := {
  ea_valid : ServiceEffect_Validate i = None;
  ea_pending : pending_on d row x;
  ea_ids : so_OrderID (se_Operation i) = s_OrderID row ∧
    so_OperationID (se_Operation i) = sres_OperationID x ∧ sres_OrderID x = s_OrderID row ∧
    sres_Fingerprint x = operation_fingerprint (se_Operation i);
  ea_dispatched : so_AmountMinor (se_Operation i) > 0 → sres_Dispatched x = true;
  ea_allowed : s_ReconciliationReason row = ""%string → operation_allowed d row (se_Operation i);
  ea_amounts : acceptServiceRefundAmounts row i = Ok amounts;
  ea_new : rows effects d !! so_OperationID (se_Operation i) = None;
  ea_out : out = new_receipt (se_RefundAmounts i)
    ("service-effect:" +:+ so_OperationID (se_Operation i))%string (s_OrderID row)
    (so_OperationID (se_Operation i)) (so_Kind (se_Operation i)) (so_AmountMinor (se_Operation i))
    (operation_fingerprint (se_Operation i)) (se_ProviderReference i)
    (NormalizeTimestamp (se_OccurredAt i));
  ea_tables : tables_become d d' (put_payment row (effect_row row i amounts) d)
    (put_reservation x (set_reservation ReservationConfirmed (sres_Dispatched x)
       (sres_DenialProofID x) x) d)
    (put_effect (recorded_effect i row out) d) }.

Lemma AcceptServiceEffect_run input w out w' : services_wf (the_db w) →
  AcceptServiceEffect input w = (Ok out, w') →
  (w' = w ∧ ∃ e row, ServiceEffect_Validate (normalized_effect input) = None ∧
     rows service_payments (the_db w) !! so_OrderID (se_Operation input) = Some row ∧
     rows effects (the_db w) !! so_OperationID (se_Operation input) = Some e ∧
     eff_Fingerprint e = ServiceEffect_Fingerprint (normalized_effect input) ∧
     decode_effect (eff_Receipt e) = Ok out) ∨
  ∃ row x amounts, effect_accepted (normalized_effect input) out row x amounts (the_db w) (the_db w').
Proof.
  intros Hwf Hr. unfold AcceptServiceEffect in Hr. cbv zeta in Hr. passed Hr as Hv.
  change (se_Operation input) with (se_Operation (normalized_effect input)).
  generalize dependent (normalized_effect input). intros i Hv Hr. apply Transaction_Ok in Hr.
  apply bind_Ok in Hr as (row & ? & Hl & Hr). apply lock_run in Hl as (->&Hrow&Ho); [|done].
  read_row Hr. destruct (rows effects (the_db w) !! _) as [e|] eqn:He.
  { passed Hr as Hf. apply lift_Ok in Hr as [? ->]. left. rewrite <- Ho, Hrow. eauto 10. }
  read_row Hr. apply bind_Ok in Hr as (x & ? & Hx & Hr). apply found_Ok in Hx as [Hx ->].
  passed Hr as Hg. destruct Hg as [[[[Hfp Hox] Hs] Hp] Hdis].
  apply bind_Ok in Hr as ([] & w1 & Hval & Hr).
  assert (the_db w1 = the_db w ∧
    (s_ReconciliationReason row = ""%string → operation_allowed (the_db w) row (se_Operation i)))
    as [Hd1 Hal].
  { destruct (s_ReconciliationReason row =s "") eqn:Hre.
    - split; [by eapply validate_same|]. intros _. by exists w, w1.
    - apply ret_Ok in Hval as [_ ->]. split; [done|]. intros E. by rewrite E in Hre. }
  clear Hval. apply bind_Ok in Hr as (amounts & ? & Ham & Hr). apply lift_Ok in Ham as [Ham ->].
  apply bind_Ok in Hr as ([] & w2 & Hfact & Hr).
  assert (same_services (the_db w1) (the_db w2)) as (E1&E2&E3).
  { assert (keeps (on_db same_services)
      (record_effect_fact row i (NormalizeTimestamp (se_OccurredAt i)))) as Hk
      by (unfold record_effect_fact; solve_keeps).
    specialize (Hk w1). by rewrite Hfact in Hk. }
  marshalled Hr. apply bind_Ok in Hr as ([] & ? & Hc & Hr). apply Create_Ok in Hc as (_&_&->).
  apply bind_Ok in Hr as ([] & ? & Hu & Hr). apply Update_Ok in Hu as ->.
  apply bind_Ok in Hr as ([] & ? & Hu & Hr). apply Update_Ok in Hu as ->.
  apply ret_Ok in Hr as [-> ->]. read_tables. rewrite Hd1 in E1, E2, E3.
  pose proof (pending_here _ _ _ _ Hrow Hwf Hx Hs Hp) as Hon. pose proof (po_res _ _ _ Hon) as Hx'.
  rewrite E1, E2, E3, (alter_known _ _ _ _ Hx'), (alter_known _ _ _ _ Hrow).
  right. exists row, x, amounts. split; try done.
  - by rewrite (sw_reservation _ Hwf _ _ Hx).
  - intros Hpos. destruct Hdis as [Hn|Hd]; [lia|done].
Qed.

Lemma AcceptServiceEffect_step input w out w' : S (se_Operation input) → services_wf (the_db w) →
  AcceptServiceEffect input w = (Ok out, w') → service_step S (the_db w) (the_db w').
Proof.
  intros HS Hwf Hr. apply AcceptServiceEffect_run in Hr as [[-> _]|(row&x&amounts&Ha)];
    [by apply sv_idle| |done].
  destruct Ha as [H1 H2 (H3&H4&H5&H6) H7 H8 H9 H10 Hout H12].
  apply (sv_confirmed _ _ _ row x (normalized_effect input) amounts
    (recorded_effect (normalized_effect input) row out)); try done.
  exists out. by subst out.
Qed.

(** ** Observations *)

Lemma uncounted_kind k : bool_decide (k ∉ counted_kinds) = true → k ∉ counted_kinds.
Proof. by intros Hk%bool_decide_eq_true. Qed.

(** An effect that is not counted is recorded, and maybe the payment flagged. *)
Lemma observed_steps d d' row e :
  rows service_payments d !! s_OrderID row = Some row → new_effect e row d →
  eff_Kind e ∉ counted_kinds →
  rows service_reservations d' = rows service_reservations d → rows effects d' = put_effect e d →
  (rows service_payments d' = rows service_payments d ∨
   ∃ r, reason_set row r ∧ rows service_payments d' = put_payment row (set_reason r row) d) →
  rtc (service_step S) d d'.
Proof.
  intros Hrow Hne Hk Hr He Hp.
  eapply rtc_l; [by apply (sv_observed _ _ (put_rows effects (put_effect e d) d) row e)|].
  destruct Hp as [Hp|(r&Hs&Hp)].
  - apply rtc_once, sv_idle. unfold tables_become. by rewrite Hp, Hr, He.
  - apply rtc_once. eapply (sv_flagged _ _ _ row r); [done|done|].
    unfold tables_become, put_payment. read_tables. by rewrite Hp, Hr, He.
Qed.

Lemma Uncertainty_steps i proof w out w' : services_wf (the_db w) →
  ObserveServiceRefundUncertainty i proof w = (Ok out, w') →
  rtc (service_step S) (the_db w) (the_db w').
Proof.
  intros Hwf Hr. unfold ObserveServiceRefundUncertainty in Hr. passed Hr as _. passed Hr as _.
  cbv zeta in Hr. apply Transaction_Ok in Hr.
  apply bind_Ok in Hr as (row & ? & Hl & Hr). apply lock_run in Hl as (->&Hrow&Ho); [|done].
  passed Hr as _. read_row Hr. destruct (rows effects (the_db w) !! _) as [e|] eqn:He.
  { passed Hr as _. by apply lift_Ok in Hr as [_ ->]. }
  marshalled Hr. apply bind_Ok in Hr as ([] & ? & Hc & Hr). apply Create_Ok in Hc as (_&_&->).
  apply bind_Ok in Hr as ([] & w1 & Hu & Hr). apply ret_Ok in Hr as [_ ->].
  lazymatch type of Hu with context [write effects (<[_ := ?e]> _)] =>
    apply (observed_steps _ _ row e) end; [done|done|by apply uncounted_kind|..].
  all: destruct (s_ReconciliationReason row =s "") eqn:Hre;
    [apply Update_Ok in Hu as ->|apply ret_Ok in Hu as [_ ->]]; read_tables; try done; try (by left).
  right. exists ReasonRefund. split; [right; by reflect_bools|]. by rewrite (alter_known _ _ _ _ Hrow).
Qed.

Lemma Chargeback_step o c w out w' : services_wf (the_db w) →
  ObserveServiceChargeback o c w = (Ok out, w') → service_step S (the_db w) (the_db w').
Proof.
  intros Hwf Hr. unfold ObserveServiceChargeback in Hr. passed Hr as _. passed Hr as _.
  cbv zeta in Hr. apply Transaction_Ok in Hr.
  apply bind_Ok in Hr as (row & ? & Hl & Hr). apply lock_run in Hl as (->&Hrow&Ho); [|done].
  passed Hr as _. read_row Hr. destruct (rows chargebacks (the_db w) !! _) as [x|].
  { apply guard_not_Ok in Hr as [_ ->]. by apply sv_idle. }
  passed Hr as _. apply bind_Ok in Hr as ([] & ? & Hc & Hr). apply Create_Ok in Hc as (_&_&->).
  marshalled Hr. apply bind_Ok in Hr as ([] & ? & Hc & Hr). apply Create_Ok in Hc as (Hn&_&->).
  apply Update_Ok in Hr as ->. read_tables. rewrite (alter_known _ _ _ _ Hrow).
  lazymatch goal with |- context [put_rows effects (<[_ := ?e]> _)] =>
    apply (sv_charged_back _ _ _ row e) end; done.
Qed.

Lemma Fee_step input w out w' : services_wf (the_db w) →
  ObserveServiceChannelFee input w = (Ok out, w') → service_step S (the_db w) (the_db w').
Proof.
  intros Hwf Hr. unfold ObserveServiceChannelFee in Hr. passed Hr as Hv. cbv zeta in Hr.
  apply Transaction_Ok in Hr.
  apply bind_Ok in Hr as (row & ? & Hl & Hr). apply lock_run in Hl as (->&Hrow&Ho); [|done].
  passed Hr as _. read_row Hr. destruct (rows effects (the_db w) !! _) as [e|] eqn:He.
  { passed Hr as _. apply lift_Ok in Hr as [_ ->]. by apply sv_idle. }
  apply bind_Ok in Hr as ([] & ? & Hb & Hr). assert (the_db x = the_db w) as Hx.
  { assert (keeps (on_db eq) (if cf_BusinessID (normalized_fee input)
        ≠s pb_TradeID (sp_Binding (cf_Payment (normalized_fee input)))
      then seen ← Find effects (λ e, (eff_OrderID e =s s_OrderID row) && (eff_Kind e =s ServiceRefund));
           bound ← lift (fee_bound seen (cf_BusinessID (normalized_fee input)));
           guard_not (negb bound) ErrConflict
      else mret tt)) as Hk by solve_keeps.
    specialize (Hk w). by rewrite Hb in Hk. }
  clear Hb. apply bind_Ok in Hr as (fee & ? & Hf & Hr). apply lift_Ok in Hf as [Hf ->].
  do 2 marshalled Hr. apply bind_Ok in Hr as ([] & ? & Hc & Hr). apply Create_Ok in Hc as (Hn&_&->).
  apply bind_Ok in Hr as ([] & ? & Hu & Hr). apply Update_Ok in Hu as ->.
  apply ret_Ok in Hr as [_ ->]. rewrite Hx in Hn. read_tables. rewrite Hx, (alter_known _ _ _ _ Hrow).
  assert (0 ≤ cf_AmountMinor input) as Hnn.
  { unfold ServiceChannelFee_Validate in Hv. apply invalid_if_None in Hv. reflect_bools.
    destruct_and!. lia. }
  unfold fee_total in Hf. simpl in Hf.
  lazymatch goal with |- context [put_rows effects (<[_ := ?e]> _)] =>
    apply (sv_fee _ _ _ row e fee) end; try done.
  unfold effect_amount. simpl. clear Hn. destruct (cf_Returned input).
  - right. destruct (_ >? _) eqn:Hle in Hf; [done|]. reflect_bools. by simplify_eq.
  - left. destruct (_ >? _) eqn:Hle in Hf; [done|]. reflect_bools. by simplify_eq.
Qed.
(** Settling an observation leaves the tables, or flags the payment. *)
Lemma settle_unsplit_run row i w out w' : rows service_payments (the_db w) !! s_OrderID row = Some row →
  settle_unsplit row i w = (Ok out, w') →
  rows service_reservations (the_db w') = rows service_reservations (the_db w) ∧
  rows effects (the_db w') = rows effects (the_db w) ∧
  (rows service_payments (the_db w') = rows service_payments (the_db w) ∨
   ∃ r, reason_set row r ∧
     rows service_payments (the_db w') = put_payment row (set_reason r row) (the_db w)).
Proof.
  intros Hrow Hr. unfold settle_unsplit in Hr.
  apply bind_Ok in Hr as (f & ? & Hf & Hr). apply lift_Ok in Hf as [Hf ->].
  destruct (funds_fingerprint f ≠s _); [apply ret_Ok in Hr as [_ ->]; by auto|].
  destruct (_ && _) eqn:Hc in Hr; [|apply ret_Ok in Hr as [_ ->]; by auto].
  apply bind_Ok in Hr as (b & w1 & Hb & Hr). assert (w1 = w) as ->.
  { destruct (s_PendingOperationID row ≠s ""); inv_run; done. }
  destruct b; [apply ret_Ok in Hr as [_ ->]; by auto|].
  apply bind_Ok in Hr as ([] & ? & Hu & Hr). apply Update_Ok in Hu as ->.
  apply bind_Ok in Hr as (f' & ? & Hf' & Hr). apply lift_Ok in Hf' as [Hf' ->].
  apply ret_Ok in Hr as [_ ->]. read_tables. rewrite (alter_known _ _ _ _ Hrow).
  do 2 (split; [done|]). right. exists ReasonFundsChanged. split; [|done]. right. reflect_bools. by destruct Hc.
Qed.

(** Whether it accepts the observation or reports it stale. *)
Lemma Unsplit_steps input w : services_wf (the_db w) →
  rtc (service_step S) (the_db w) (the_db (ObserveServiceUnsplit input w).2).
Proof.
  intros Hwf. unfold ObserveServiceUnsplit.
  unfold mbind at 1, ST_bind at 1. destruct (check _ w) as [[[]|e] w0] eqn:Hv; simpl.
  2: { unfold check in Hv. by case_match; simplify_eq. }
  apply check_Ok in Hv as [_ ->]. cbv zeta. unfold mbind at 1, ST_bind at 1.
  destruct (Transaction _ w) as [[[out stale]|e] w1] eqn:Hr.
  2: { apply Transaction_Err in Hr. simpl. by rewrite Hr. }
  assert (rtc (service_step S) (the_db w) (the_db w1)) as Hsteps; [|by destruct stale].
  apply Transaction_Ok in Hr.
  apply bind_Ok in Hr as (row & ? & Hl & Hr). apply lock_run in Hl as (->&Hrow&Ho); [|done].
  passed Hr as _. read_row Hr. apply bind_Ok in Hr as ([] & w2 & Hp & Hr).
  destruct (rows effects (the_db w) !! _) as [e|] eqn:He.
  - apply guard_not_Ok in Hp as [_ ->]. apply settle_unsplit_run in Hr as (Hsr&Hse&Hp); [|done].
    apply rtc_once. destruct Hp as [Hp|(r&Hs&Hp)]; [by apply sv_idle|by apply (sv_flagged _ _ _ row r)].
  - marshalled Hp. marshalled Hp. apply Create_Ok in Hp as (_&_&->).
    apply settle_unsplit_run in Hr as (Hsr&Hse&Hp); [|done].
    lazymatch type of Hse with context [write effects (<[_ := ?e]> _)] =>
      apply (observed_steps _ _ row e) end; try done. by apply uncounted_kind.
Qed.
End runs.
