(* ===== verification/SettlementRepo.v ===== *)
(** * Canonical settlements, payout methods and wallet reversals

    Models src/internal/integration/persistence/money/repository.go
    (payments, refunds, chargebacks, payout methods, and the observers notified
    after a settlement), [recordProviderReversal] of
    provider_topup_repository.go and [ApplyTopUpReversal] of
    wallet_repository.go, the operations that dispatch on the purpose of a
    payment. *)
From S2P Require Import Prelude GoStd Encoding MoneyTypes ProviderTopUp ServiceMoney Store MoneyStore WalletSpec WalletRepo TopUpRepo ServiceRepo.

(** The interface [money.SettlementObserver] (types.go). *)
Class SettlementObserver := {
  ObservePaymentSettlement : PaymentSettlement → ST World unit;
  ObserveRefundSettlement : RefundSettlement → ST World unit;
  ObserveChargebackSettlement : ChargebackSettlement → ST World unit }.

(** What [RecordPaymentSettlement] compares with a stored payment. *)
Definition same_payment (existing row : paymentRow) : bool :=
  (p_PayerUserID existing =s p_PayerUserID row) && (p_Currency existing =s p_Currency row)
  && (p_GrossAmountMinor existing =? p_GrossAmountMinor row)
  && (p_DiscountAmountMinor existing =? p_DiscountAmountMinor row)
  && (p_CommissionableAmountMinor existing =? p_CommissionableAmountMinor row)
  && (p_Status existing =s p_Status row) && (p_SettledAt existing =? p_SettledAt row)
  && (p_ProviderReference existing =s p_ProviderReference row)
  && (p_Version existing =? p_Version row).

Definition ordinary_payment_row (p : PaymentSettlement) : paymentRow := {|
  p_PaymentID := ps_PaymentID p; p_PaymentPurpose := ""; p_CommissionTreatment := "";
  p_PayerBinding := ""; p_PayerUserID := ps_PayerUserID p; p_Currency := ps_Currency p;
  p_GrossAmountMinor := ps_GrossAmountMinor p;
  p_DiscountAmountMinor := ps_DiscountAmountMinor p;
  p_CommissionableAmountMinor := ps_CommissionableAmountMinor p; p_Status := ps_Status p;
  p_SettledAt := NormalizeTimestamp (ps_SettledAt p);
  p_ProviderReference := ps_ProviderReference p; p_Version := ps_Version p |}.

Definition payoutMethodRow_of (method : PayoutMethod) : payoutMethodRow := {|
  m_MethodID := pm_MethodID method; m_SubjectUserID := pm_SubjectUserID method;
  m_Type := pm_Type method; m_DisplayName := pm_DisplayName method;
  m_MaskedDestination := pm_MaskedDestination method;
  m_SecureReference := pm_SecureReference method;
  m_EncryptionKeyID := pm_EncryptionKeyID method; m_Status := pm_Status method;
  m_CreatedAt := pm_CreatedAt method; m_UpdatedAt := pm_UpdatedAt method;
  m_Version := pm_Version method |}.

Definition payoutMethodFromRow (row : payoutMethodRow) : PayoutMethod := {|
  pm_MethodID := m_MethodID row; pm_SubjectUserID := m_SubjectUserID row;
  pm_Type := m_Type row; pm_DisplayName := m_DisplayName row;
  pm_MaskedDestination := m_MaskedDestination row;
  pm_SecureReference := m_SecureReference row;
  pm_EncryptionKeyID := m_EncryptionKeyID row; pm_Status := m_Status row;
  pm_CreatedAt := m_CreatedAt row; pm_UpdatedAt := m_UpdatedAt row;
  pm_Version := m_Version row |}.

Definition payoutMethodSummary (row : payoutMethodRow) : PayoutMethodSummary := {|
  pms_MethodID := m_MethodID row; pms_SubjectUserID := m_SubjectUserID row;
  pms_Type := m_Type row; pms_DisplayName := m_DisplayName row;
  pms_MaskedDestination := m_MaskedDestination row; pms_Status := m_Status row;
  pms_Version := m_Version row |}.

(** ORDER BY created_at ASC, method_id ASC. *)
Definition method_order (a b : payoutMethodRow) : Prop :=
  m_CreatedAt a < m_CreatedAt b ∨
  (m_CreatedAt a = m_CreatedAt b ∧ string_ltb (m_MethodID b) (m_MethodID a) = false).

#[export] Instance method_order_dec : RelDecision method_order.
Proof. intros a b. unfold method_order. apply _. Defined.

Section repository.
Context `{Env}.

(** ** Payments *)

Definition RecordPaymentSettlement (payment : PaymentSettlement) : ST World unit :=
  check (PaymentSettlement_Validate payment);;
  guard_not ((ps_PaymentPurpose payment =s PaymentPurposeWalletTopUp)
    || (ps_PaymentPurpose payment =s PaymentPurposeServicePurchase)) ErrUnsupportedMutation;;
  let row := ordinary_payment_row payment in
  Transaction (
    existing ← take_pk payments (p_PaymentID row);
    match existing with
    | Some existing => guard_not (negb (same_payment existing row)) ErrConflict
    | None => or_error ErrUnavailable (Create payments row)
    end).

(** ** Refunds and chargebacks *)

Definition lockOrdinaryReversal : ST World unit :=
  if (dialect =s "postgres") || (dialect =s "sqlite") then mret tt else fail ErrUnavailable.

(** Whether the reversal was one of a provider top-up. *)
Definition recordProviderReversal (payment id kind : string) (amount : Z) (at_ : Time)
    (reference : string) : ST World bool :=
  p ← take_pk payments payment;
  p ← found ErrNotFound p;
  if p_PaymentPurpose p ≠s PaymentPurposeWalletTopUp then mret false
  else
    binding ← take_pk settlements payment;
    binding ← found ErrRecordNotFound binding;
    AcceptProviderTopUpReversal {| rv_ReversalID := id; rv_PaymentID := payment;
      rv_CommercialOrderID := t_CommercialOrderID binding;
      rv_OrganizationID := t_OrganizationID binding; rv_Kind := kind;
      rv_Currency := t_Currency binding; rv_AmountMinor := amount; rv_OccurredAt := at_;
      rv_ProviderReference := reference |};;
    mret true.

(** What the refunds and chargebacks of a payment add up to. *)
Definition reversed_total (paymentID : string) : ST World (Z * Z) :=
  refunded ← or_error ErrUnavailable
    (Sum refunds (λ f, f_PaymentID f =s paymentID) f_AmountMinor);
  chargedBack ← or_error ErrUnavailable
    (Sum chargebacks (λ c, c_PaymentID c =s paymentID) c_AmountMinor);
  mret (refunded, chargedBack).

Definition RecordRefundSettlement (refund : RefundSettlement) : ST World unit :=
  check (RefundSettlement_Validate refund);;
  handled ← recordProviderReversal (rs_PaymentID refund) (rs_RefundID refund)
    WalletReversalRefund (rs_AmountMinor refund) (rs_OccurredAt refund)
    (rs_ProviderReference refund);
  if handled : bool then mret tt
  else Transaction (
    lockOrdinaryReversal;;
    payment ← take_pk payments (rs_PaymentID refund);
    payment ← found ErrNotFound payment;
    guard_not (p_PaymentPurpose payment =s PaymentPurposeServicePurchase)
      ErrUnsupportedMutation;;
    existing ← take_pk refunds (rs_RefundID refund);
    let at_ := NormalizeTimestamp (rs_OccurredAt refund) in
    match existing with
    | Some existing =>
      guard_not ((f_PaymentID existing ≠s rs_PaymentID refund)
        || negb (f_AmountMinor existing =? rs_AmountMinor refund)
        || negb (f_OccurredAt existing =? at_)
        || (f_ProviderReference existing ≠s rs_ProviderReference refund)) ErrConflict
    | None =>
      '(refunded, chargedBack) ← reversed_total (rs_PaymentID refund);
      guard_not (rs_AmountMinor refund >?
        (p_CommissionableAmountMinor payment -! refunded -! chargedBack)) ErrInvalid;;
      or_error ErrUnavailable (Create refunds
        {| f_RefundID := rs_RefundID refund; f_PaymentID := rs_PaymentID refund;
           f_AmountMinor := rs_AmountMinor refund; f_OccurredAt := at_;
           f_ProviderReference := rs_ProviderReference refund |})
    end).

Definition RecordChargebackSettlement (chargeback : ChargebackSettlement) : ST World unit :=
  check (ChargebackSettlement_Validate chargeback);;
  handled ← recordProviderReversal (cs_PaymentID chargeback) (cs_ChargebackID chargeback)
    WalletReversalChargeback (cs_AmountMinor chargeback) (cs_OccurredAt chargeback)
    (cs_ProviderReference chargeback);
  if handled : bool then mret tt
  else
    handled ← recordServiceChargeback chargeback;
    if handled : bool then mret tt
    else Transaction (
      lockOrdinaryReversal;;
      payment ← take_pk payments (cs_PaymentID chargeback);
      payment ← found ErrNotFound payment;
      guard_not (p_PaymentPurpose payment =s PaymentPurposeServicePurchase)
        ErrUnsupportedMutation;;
      existing ← take_pk chargebacks (cs_ChargebackID chargeback);
      let at_ := NormalizeTimestamp (cs_OccurredAt chargeback) in
      match existing with
      | Some existing =>
        guard_not ((c_PaymentID existing ≠s cs_PaymentID chargeback)
          || negb (c_AmountMinor existing =? cs_AmountMinor chargeback)
          || negb (c_OccurredAt existing =? at_)
          || (c_ProviderReference existing ≠s cs_ProviderReference chargeback)) ErrConflict
      | None =>
        '(refunded, chargedBack) ← reversed_total (cs_PaymentID chargeback);
        guard_not (cs_AmountMinor chargeback >?
          (p_CommissionableAmountMinor payment -! refunded -! chargedBack)) ErrInvalid;;
        or_error ErrUnavailable (Create chargebacks
          {| c_ChargebackID := cs_ChargebackID chargeback;
             c_PaymentID := cs_PaymentID chargeback;
             c_AmountMinor := cs_AmountMinor chargeback; c_OccurredAt := at_;
             c_ProviderReference := cs_ProviderReference chargeback |})
      end).

(** ** Settlements with notification; [None] is a nil observer. *)

Definition RecordPaymentSettlementAndNotify (payment : PaymentSettlement)
    (observer : option SettlementObserver) : ST World unit :=
  match observer with
  | None => fail ErrInvalid
  | Some o => RecordPaymentSettlement payment;; ObservePaymentSettlement payment
  end.

Definition RecordRefundSettlementAndNotify (refund : RefundSettlement)
    (observer : option SettlementObserver) : ST World unit :=
  match observer with
  | None => fail ErrInvalid
  | Some o => RecordRefundSettlement refund;; ObserveRefundSettlement refund
  end.

Definition RecordChargebackSettlementAndNotify (chargeback : ChargebackSettlement)
    (observer : option SettlementObserver) : ST World unit :=
  match observer with
  | None => fail ErrInvalid
  | Some o => RecordChargebackSettlement chargeback;; ObserveChargebackSettlement chargeback
  end.

(** ** Reversing an ordinary top-up *)

Definition same_reversal (existing : walletReversalRow) (r : OrganizationWalletReversal)
    : bool :=
  (v_PaymentID existing =s rv_PaymentID r) && (v_AmountMinor existing =? rv_AmountMinor r)
  && (v_Kind existing =s rv_Kind r)
  && (v_ProviderReference existing =s rv_ProviderReference r)
  && (v_OccurredAt existing =? NormalizeTimestamp (rv_OccurredAt r)).

Definition reverse_ordinary_top_up (reversal : OrganizationWalletReversal)
    : ST World OrganizationWalletSnapshot :=
  settlement ← take_pk_and settlements (rv_PaymentID reversal)
    (λ t, t_CommercialOrderID t =s rv_CommercialOrderID reversal);
  settlement ← found ErrNotFound settlement;
  guard_not ((t_OrganizationID settlement ≠s rv_OrganizationID reversal)
    || (t_Currency settlement ≠s rv_Currency reversal)) ErrConflict;;
  existing ← take_pk reversals (rv_ReversalID reversal);
  match existing with
  | Some existing =>
    guard_not (negb (same_reversal existing reversal)) ErrConflict;;
    row ← take_pk wallets (rv_OrganizationID reversal, rv_Currency reversal);
    row ← found ErrUnavailable row;
    mret (walletSnapshot row)
  | None =>
    row ← lockOrCreateWallet (rv_OrganizationID reversal) (rv_Currency reversal);
    reversed ← or_error ErrUnavailable
      (Sum reversals (λ v, v_PaymentID v =s rv_PaymentID reversal) v_AmountMinor);
    guard_not ((reversed >? t_AmountMinor settlement)
      || (rv_AmountMinor reversal >? (t_AmountMinor settlement -! reversed))) ErrConflict;;
    let availableLoss := minInt64 (w_AvailableMinor row) (rv_AmountMinor reversal) in
    let debtIncrease := rv_AmountMinor reversal -! availableLoss in
    guard_not (w_DebtMinor row >? (max_int64 -! debtIncrease)) ErrInvalid;;
    processedAt ← nextWalletProcessingTimestamp (w_UpdatedAt row);
    let row := with_balances row (w_AvailableMinor row -! availableLoss)
      (w_ReservedMinor row) (w_DebtMinor row +! debtIncrease) (w_LifetimeTopUpMinor row)
      (w_LifetimeSpendMinor row) (w_Version row +! 1) processedAt in
    saveWalletRow row;;
    or_error ErrUnavailable (Create reversals
      {| v_ReversalID := rv_ReversalID reversal; v_PaymentID := rv_PaymentID reversal;
         v_CommercialOrderID := rv_CommercialOrderID reversal;
         v_OrganizationID := rv_OrganizationID reversal; v_Kind := rv_Kind reversal;
         v_AmountMinor := rv_AmountMinor reversal;
         v_ProviderReference := rv_ProviderReference reversal;
         v_OccurredAt := NormalizeTimestamp (rv_OccurredAt reversal) |});;
    id ← NewString;
    or_error ErrUnavailable (Create entries
      {| e_EntryID := id; e_OrganizationID := rv_OrganizationID reversal;
         e_Currency := rv_Currency reversal;
         e_Kind := (if rv_Kind reversal =s WalletReversalChargeback
                    then WalletEntryChargebackReversal else WalletEntryRefundReversal);
         e_AvailableDelta := -! availableLoss; e_ReservedDelta := 0;
         e_DebtDelta := debtIncrease; e_AvailableAfter := w_AvailableMinor row;
         e_ReservedAfter := w_ReservedMinor row; e_DebtAfter := w_DebtMinor row;
         e_CommercialOrderID := rv_CommercialOrderID reversal;
         e_PaymentID := rv_PaymentID reversal; e_SourceIdentity := rv_ReversalID reversal;
         e_OccurredAt := processedAt |});;
    mret (walletSnapshot row)
  end.

Definition ApplyTopUpReversal (reversal : OrganizationWalletReversal)
    : ST World OrganizationWalletSnapshot :=
  check (OrganizationWalletReversal_Validate reversal);;
  payment ← take_pk payments (rv_PaymentID reversal);
  payment ← found ErrNotFound payment;
  guard_not (p_PaymentPurpose payment =s PaymentPurposeServicePurchase)
    ErrUnsupportedMutation;;
  if p_PaymentPurpose payment =s PaymentPurposeWalletTopUp then
    AcceptProviderTopUpReversal reversal;;
    ReadOrganizationWallet (rv_OrganizationID reversal) (rv_Currency reversal)
  else Transaction (reverse_ordinary_top_up reversal).

(** ** Payout methods *)

Definition CreatePayoutMethod (method : PayoutMethod) : ST World unit :=
  check (PayoutMethod_Validate method);;
  Create payout_methods (payoutMethodRow_of method).

Definition CreatePayoutMethodIdempotent (method : PayoutMethod)
    (idempotencyKey fingerprint : string) : ST World PayoutMethod :=
  check (PayoutMethod_Validate method);;
  guard_not ((idempotencyKey =s "") || (fingerprint =s "")) ErrInvalid;;
  Transaction (
    operation ← take_pk payout_operations idempotencyKey;
    match operation with
    | Some operation =>
      guard_not (o_Fingerprint operation ≠s fingerprint) ErrConflict;;
      row ← take_pk payout_methods (o_MethodID operation);
      row ← found ErrUnavailable row;
      mret (payoutMethodFromRow row)
    | None =>
      or_error ErrUnavailable (Create payout_methods (payoutMethodRow_of method));;
      now ← Now;
      or_error ErrUnavailable (Create payout_operations
        {| o_IdempotencyKey := idempotencyKey; o_MethodID := pm_MethodID method;
           o_Fingerprint := fingerprint; o_CreatedAt := now |});;
      mret method
    end).

Definition HasValidPayoutMethod (subject methodID : string) : ST World bool :=
  guard_not (subject =s "") ErrInvalid;;
  count ← Count payout_methods (λ m, (m_SubjectUserID m =s subject)
    && (m_MethodID m =s methodID) && (m_Status m =s PayoutMethodActive));
  mret (count >? 0).

Definition ListActivePayoutMethods (subject : string) : ST World (list PayoutMethodSummary) :=
  guard_not (subject =s "") ErrInvalid;;
  found_rows ← Find payout_methods (λ m, (m_SubjectUserID m =s subject)
    && (m_Status m =s PayoutMethodActive));
  mret (payoutMethodSummary <$> merge_sort method_order found_rows).

Definition ReadPayoutMethodForReview (methodID : string) : ST World PayoutMethod :=
  guard_not (blank methodID) ErrInvalid;;
  row ← take_pk payout_methods (TrimSpace methodID);
  row ← found ErrNotFound row;
  mret (payoutMethodFromRow row).

End repository.

(** * Lemmas *)

(** ** Footprints *)

Section settlement_footprints.
Context `{Env} (R : World → World → Prop) `{!Frame R}.

Lemma RecordPaymentSettlement_keeps `{!Inserts R payments} p : keeps R (RecordPaymentSettlement p).
Proof. unfold RecordPaymentSettlement. solve_keeps. Qed.
Lemma lockOrdinaryReversal_keeps : keeps R lockOrdinaryReversal.
Proof. unfold lockOrdinaryReversal. solve_keeps. Qed.
Lemma reversed_total_keeps p : keeps R (reversed_total p).
Proof. unfold reversed_total. solve_keeps. Qed.
Hint Resolve lockOrdinaryReversal_keeps reversed_total_keeps : keeps.

Section reversal_tables.
Context `{!Writes R wallets, !Inserts R entries, !Writes R holds, !Inserts R reversals,
  !Inserts R excesses, !Inserts R receipts, !Inserts R refunds, !Inserts R chargebacks}.

Lemma recordProviderReversal_keeps p i k a t r : keeps R (recordProviderReversal p i k a t r).
Proof. unfold recordProviderReversal. solve_keeps. Qed.
Hint Resolve recordProviderReversal_keeps : keeps.
Lemma RecordRefundSettlement_keeps f : keeps R (RecordRefundSettlement f).
Proof. unfold RecordRefundSettlement. solve_keeps. Qed.
Lemma RecordChargebackSettlement_keeps `{!Writes R service_payments, !Inserts R effects} c :
  keeps R (RecordChargebackSettlement c).
Proof. unfold RecordChargebackSettlement. solve_keeps. Qed.
Lemma ApplyTopUpReversal_keeps r : keeps R (ApplyTopUpReversal r).
Proof. unfold ApplyTopUpReversal, reverse_ordinary_top_up. solve_keeps. Qed.
End reversal_tables.

Lemma CreatePayoutMethod_keeps `{!Inserts R payout_methods} p : keeps R (CreatePayoutMethod p).
Proof. unfold CreatePayoutMethod. solve_keeps. Qed.
Lemma CreatePayoutMethodIdempotent_keeps `{!Inserts R payout_methods, !Inserts R payout_operations}
    p k f : keeps R (CreatePayoutMethodIdempotent p k f).
Proof. unfold CreatePayoutMethodIdempotent. solve_keeps. Qed.
End settlement_footprints.

#[export] Hint Resolve RecordPaymentSettlement_keeps lockOrdinaryReversal_keeps reversed_total_keeps
  recordProviderReversal_keeps RecordRefundSettlement_keeps RecordChargebackSettlement_keeps
  ApplyTopUpReversal_keeps CreatePayoutMethod_keeps CreatePayoutMethodIdempotent_keeps : keeps.

(** ** Reversing an ordinary top-up *)

Section settlement_runs.
Context `{Env}.

(** What was reversed of a settlement so far, provider or not. *)
Definition reversed_of (d : DB) (payment : string) : Z :=
  msum (λ v, if v_PaymentID v =s payment then v_AmountMinor v else 0) (rows reversals d).

Lemma reverse_ordinary_top_up_run r w out w' : typed r →
  OrganizationWalletReversal_Validate r = None → ledger_ok (the_db w) →
  reverse_ordinary_top_up r w = (Ok out, w') →
  ∃ t, rows settlements (the_db w) !! rv_PaymentID r = Some t ∧
    t_OrganizationID t = rv_OrganizationID r ∧
    t_CommercialOrderID t = rv_CommercialOrderID r ∧
  ((w' = w ∧ ∃ v, rows reversals (the_db w) !! rv_ReversalID r = Some v ∧
      same_reversal v r = true) ∨
   (rows reversals (the_db w) !! rv_ReversalID r = None ∧
    reversed_of (the_db w) (rv_PaymentID r) + rv_AmountMinor r ≤ t_AmountMinor t ∧
    enabled (Reverse (rv_AmountMinor r)) (account (the_db w) (rv_OrganizationID r)) ∧
    moves (Reverse (rv_AmountMinor r)) (rv_OrganizationID r) (the_db w) (the_db w') ∧
    tables_ok (the_db w') ∧
    ∃ v, rows reversals (the_db w') =
        <[rv_ReversalID r := v]> (rows reversals (the_db w)) ∧
      v_PaymentID v = rv_PaymentID r ∧ v_AmountMinor v = rv_AmountMinor r)).
Proof.
  intros Hty Hv Hok Hr. pose proof Hok as [Htab _].
  apply OrganizationWalletReversal_valid in Hv as (Hcur & Hpos & _).
  assert (in_int64 (rv_AmountMinor r)) by done.
  unfold reverse_ordinary_top_up in Hr. rewrite Hcur in Hr.
  apply bind_Ok in Hr as (o & ? & Ht & Hr). apply take_pk_and_Ok in Ht as (-> & Ht & _).
  apply bind_Ok in Hr as (t & ? & Hf & Hr). apply found_Ok in Hf as [-> ->].
  destruct (Ht t eq_refl) as [Hset Hord%String.eqb_eq]. clear Ht.
  apply bind_Ok in Hr as (? & ? & Hg & Hr). apply guard_not_Ok in Hg as [Hg ->].
  reflect_bools. destruct Hg as [Horg _]. exists t. do 3 (split; [done|]).
  apply bind_Ok in Hr as (o & ? & Hx & Hr). apply take_pk_Ok in Hx as [-> ->].
  destruct (rows reversals (the_db w) !! rv_ReversalID r) as [v|] eqn:Hl.
  { left. inv_run. reflect_bools. split; [done|]. by exists v. }
  right. split; [done|].
  apply bind_Ok in Hr as (wallet & w1 & Hlk & Hr).
  apply lockOrCreateWallet_run in Hlk as (Hdb & Ho & Hcu & Hacc); [|done].
  apply bind_Ok in Hr as (s & w2 & Hs & Hr). apply or_error_Ok, Sum_Ok in Hs as (-> & Hsi & ->).
  rewrite Hdb in Hr, Hsi. read_tables. fold (reversed_of (the_db w) (rv_PaymentID r)) in *.
  assert (0 ≤ reversed_of (the_db w) (rv_PaymentID r)).
  { apply msum_nonneg. intros k v Hk. destruct (ok_reversals _ Htab _ _ Hk). destruct (_ =s rv_PaymentID r); lia. }
  set (s := reversed_of _ _) in *.
  destruct (ok_settlements _ Htab _ _ Hset) as (_&_&?).
  apply bind_Ok in Hr as (? & ? & Hg & Hr). apply guard_not_Ok in Hg as [Hg ->].
  apply bind_Ok in Hr as (? & ? & Hg2 & Hr). apply guard_not_Ok in Hg2 as [Hg2 ->].
  pose proof (account_bounds _ (rv_OrganizationID r) Hok) as Hb. rewrite <- Hacc in *.
  simpl in Hb. destruct_and!. reflect_bools. destruct_and!. i64_norm. split; [lia|].
  apply bind_Ok in Hr as (at_ & w2 & Hat & Hr).
  apply nextWalletProcessingTimestamp_run in Hat as (Hdb2 & _ & _). rewrite Hdb in Hdb2.
  apply bind_Ok in Hr as (? & w3 & Hsv & Hr).
  eapply saveWalletRow_run in Hsv; [|by rewrite Hdb2; read_tables|done..].
  inv_run. tables.
  split; [unfold enabled, fits; simpl; i64_bounds|].
  split; [|split; [solve_tables|by eexists; split; [reflexivity|]]].
  eapply posted_moves; [|solve_sourced].
  eapply posted_one; read_tables; try done; [by apply added_one|simpl; done || lia..].
Qed.
End settlement_runs.
