(* ===== verification/Ledger.v ===== *)
(** * The money owner as a whole

    Every operation of the repository that may write, as a command; what a
    sequence of commands can reach from the empty database; and the theorems
    that hold of every command and of every reachable database: the
    repositories refine the abstract ledger of WalletSpec, money is conserved,
    a failed command rolls back, facts are append-only. *)
From S2P Require Import Prelude GoStd Encoding MoneyTypes ProviderTopUp ServiceMoney Store MoneyStore WalletSpec WalletRepo TopUpRepo ServiceRepo SettlementRepo.

(** The operations of the money repository that may write. *)
Inductive command : Type :=
  | RunCreditSettledTopUp (s : OrganizationTopUpSettlement)
  | RunApplyTopUpReversal (r : OrganizationWalletReversal)
  | RunReserveCommercialPurchase (i : ReserveWalletFundsInput)
  | RunCommitCommercialPurchase (i : CommitWalletReservationInput)
  | RunReleaseCommercialPurchase (i : ReleaseWalletReservationInput)
  | RunAcceptAndPostProviderTopUp (i : ProviderTopUpInput)
  | RunAcceptProviderTopUpReversal (r : OrganizationWalletReversal)
  | RunPrepareTopUpRefund (i : TopUpRefundInput)
  | RunAdmitTopUpRefund (i : TopUpRefundInput)
  | RunReleaseTopUpRefundHold (i : TopUpRefundInput) (terminalNotExecuted : bool)
  | RunRecordPaymentSettlement (p : PaymentSettlement)
  | RunRecordRefundSettlement (f : RefundSettlement)
  | RunRecordChargebackSettlement (c : ChargebackSettlement)
  | RunCreatePayoutMethod (p : PayoutMethod)
  | RunCreatePayoutMethodIdempotent (p : PayoutMethod) (key fp : string)
  | RunAcceptServicePayment (i : ServicePaymentInput)
  | RunPrepareServiceOperation (op : ServiceOperation)
  | RunAdmitServiceOperation (op : ServiceOperation)
  | RunAbandonUndispatchedServiceOperation (op : ServiceOperation) (proof : string)
  | RunResolveFailedServiceOperation (f : ServiceOperationFailure)
  | RunAcceptServiceEffect (e : ServiceEffect)
  | RunObserveServiceRefundUncertainty (i : ServicePaymentInput) (proof : string)
  | RunObserveServiceChargeback (order : string) (c : ChargebackSettlement)
  | RunObserveServiceChannelFee (i : ServiceChannelFee)
  | RunObserveServiceUnsplit (i : ServiceUnsplitObservation)
  | RunAdmitServiceFulfillment (i : ServiceFulfillmentAdmission)
  | RunAdmitServiceRefundReview (i : ServiceRefundReviewAdmission).

(** The integers of a refund or chargeback fact fit int64. *)
#[export] Instance RefundSettlement_typed : Typed RefundSettlement :=
  λ f, in_int64 (rs_AmountMinor f).
#[export] Instance ChargebackSettlement_typed : Typed ChargebackSettlement :=
  λ c, in_int64 (cs_AmountMinor c).

#[export] Instance ServicePaymentInput_typed : Typed ServicePaymentInput :=
  λ i, in_int64 (ps_GrossAmountMinor (sp_Payment i)).

(** The integers the command carries fit their Go type. *)
Definition command_typed (c : command) : Prop :=
  match c with
  | RunCreditSettledTopUp s => typed s
  | RunApplyTopUpReversal r | RunAcceptProviderTopUpReversal r => typed r
  | RunReserveCommercialPurchase i => typed i
  | RunAcceptAndPostProviderTopUp i => typed i
  | RunPrepareTopUpRefund i | RunAdmitTopUpRefund i | RunReleaseTopUpRefundHold i _ => typed i
  | RunRecordRefundSettlement f => typed f
  | RunRecordChargebackSettlement x | RunObserveServiceChargeback _ x => typed x
  | RunAcceptServicePayment i => typed i
  | _ => True
  end.

Section ledger.
Context `{Env}.

(** The result of an operation dropped. *)
Definition void {A} (m : ST World A) : ST World unit := m;; mret tt.

Definition run (c : command) : ST World unit :=
  match c with
  | RunCreditSettledTopUp s => void (CreditSettledTopUp s)
  | RunApplyTopUpReversal r => void (ApplyTopUpReversal r)
  | RunReserveCommercialPurchase i => void (ReserveCommercialPurchase i)
  | RunCommitCommercialPurchase i => void (CommitCommercialPurchase i)
  | RunReleaseCommercialPurchase i => void (ReleaseCommercialPurchase i)
  | RunAcceptAndPostProviderTopUp i => void (AcceptAndPostProviderTopUp i)
  | RunAcceptProviderTopUpReversal r => void (AcceptProviderTopUpReversal r)
  | RunPrepareTopUpRefund i => void (PrepareTopUpRefund i)
  | RunAdmitTopUpRefund i => void (AdmitTopUpRefund i)
  | RunReleaseTopUpRefundHold i b => void (ReleaseTopUpRefundHold i b)
  | RunRecordPaymentSettlement p => RecordPaymentSettlement p
  | RunRecordRefundSettlement f => RecordRefundSettlement f
  | RunRecordChargebackSettlement x => RecordChargebackSettlement x
  | RunCreatePayoutMethod p => CreatePayoutMethod p
  | RunCreatePayoutMethodIdempotent p k f => void (CreatePayoutMethodIdempotent p k f)
  | RunAcceptServicePayment i => void (AcceptServicePayment i)
  | RunPrepareServiceOperation op => void (PrepareServiceOperation op)
  | RunAdmitServiceOperation op => AdmitServiceOperation op
  | RunAbandonUndispatchedServiceOperation op p => AbandonUndispatchedServiceOperation op p
  | RunResolveFailedServiceOperation f => void (ResolveFailedServiceOperation f)
  | RunAcceptServiceEffect e => void (AcceptServiceEffect e)
  | RunObserveServiceRefundUncertainty i p => void (ObserveServiceRefundUncertainty i p)
  | RunObserveServiceChargeback o x => ObserveServiceChargeback o x
  | RunObserveServiceChannelFee i => void (ObserveServiceChannelFee i)
  | RunObserveServiceUnsplit i => void (ObserveServiceUnsplit i)
  | RunAdmitServiceFulfillment i => void (AdmitServiceFulfillment i)
  | RunAdmitServiceRefundReview i => void (AdmitServiceRefundReview i)
  end.

(** The worlds commands lead to, whatever their outcomes. *)
Inductive reachable : World → Prop :=
  | reach_start u c : reachable {| the_db := empty_db; uuids_used := u; clock_reads := c |}
  | reach_step c w : reachable w → command_typed c → reachable (run c w).2.

(** The world after a sequence of commands. *)
Definition run_all (cs : list command) (w : World) : World :=
  foldl (λ w c, (run c w).2) w cs.
End ledger.

(** ** A worked history

    A payment of 10.00 credited to org-1, 3.00 reserved and spent, and 8.00
    reversed: the 7.00 that are there go, 1.00 is owed. *)
Definition demo_payment : PaymentSettlement := {|
  ps_PaymentID := "pay-1"; ps_PaymentPurpose := ""; ps_CommissionTreatment := "";
  ps_PayerBinding := ""; ps_PayerUserID := "user-1"; ps_Currency := WalletCurrencyCNY;
  ps_GrossAmountMinor := 1000; ps_DiscountAmountMinor := 0; ps_CommissionableAmountMinor := 1000;
  ps_Status := PaymentSettled; ps_SettledAt := demo_start; ps_ProviderReference := "ref-1";
  ps_Version := 1 |}.
Definition demo_settlement : OrganizationTopUpSettlement := {|
  ts_PaymentID := "pay-1"; ts_CommercialOrderID := "order-1"; ts_OrganizationID := "org-1";
  ts_Currency := WalletCurrencyCNY; ts_AmountMinor := 1000; ts_SettledAt := demo_start;
  ts_ProviderReference := "ref-1"; ts_Version := 1 |}.
Definition demo_reserve : ReserveWalletFundsInput := {|
  rw_OperationID := "reserve-1"; rw_OrganizationID := "org-1"; rw_CommercialOrderID := "order-2";
  rw_Currency := WalletCurrencyCNY; rw_AmountMinor := 300 |}.
Definition demo_commit : CommitWalletReservationInput := {|
  cw_OperationID := "commit-1"; cw_OrganizationID := "org-1"; cw_CommercialOrderID := "order-2";
  cw_ReservationID := "uuid-1" |}.
Definition demo_reversal : OrganizationWalletReversal := {|
  rv_ReversalID := "refund-1"; rv_PaymentID := "pay-1"; rv_CommercialOrderID := "order-1";
  rv_OrganizationID := "org-1"; rv_Kind := WalletReversalRefund; rv_Currency := WalletCurrencyCNY;
  rv_AmountMinor := 800; rv_OccurredAt := demo_start + Second; rv_ProviderReference := "ref-2" |}.
Definition demo_commands : list command :=
  [RunRecordPaymentSettlement demo_payment; RunCreditSettledTopUp demo_settlement;
   RunReserveCommercialPurchase demo_reserve; RunCommitCommercialPurchase demo_commit;
   RunApplyTopUpReversal demo_reversal].
Definition demo_world (n : nat) : World := run_all (H:=demo_env) (List.firstn n demo_commands) empty_world.

(** * Lemmas *)

#[export] Hint Extern 0 (Writes (on_db same_ledger) _) =>
  solve [intros ??; unfold on_db; by repeat split] : typeclass_instances.

(** ** Failures leave the tables alone *)

Definition aborts {A} (m : ST World A) : Prop :=
  ∀ w e w', m w = (Err e, w') → the_db w' = the_db w.

Section aborts_lemmas.
Context `{Env}.

Lemma aborts_Transaction {A} (m : ST World A) : aborts (Transaction m).
Proof. intros w e w'. apply Transaction_Err. Qed.
Lemma aborts_quiet {A} (m : ST World A) : keeps (on_db eq) m → aborts m.
Proof. intros Hk w e w' Hm. specialize (Hk w). rewrite Hm in Hk. by symmetry. Qed.
Lemma aborts_bind {A B} (m : ST World A) (k : A → ST World B) :
  keeps (on_db eq) m → (∀ a, aborts (k a)) → aborts (mbind k m).
Proof.
  intros Hm Hk w e w' Hr. specialize (Hm w). unfold mbind, ST_bind, on_db in *.
  destruct (m w) as [[a|x] w1]; simpl in *.
  - apply Hk in Hr. congruence.
  - by simplify_eq.
Qed.
Lemma aborts_then {A B} (m : ST World A) (k : A → ST World B) :
  aborts m → (∀ w a w1 e w2, m w = (Ok a, w1) → k a w1 = (Err e, w2) → the_db w2 = the_db w) →
  aborts (mbind k m).
Proof.
  intros Hm Hk w e w' Hr. specialize (Hm w). unfold mbind, ST_bind in *.
  destruct (m w) as [[a|x] w1] eqn:Hmw; simpl in *; [eauto|]. simplify_eq. eauto.
Qed.
Lemma aborts_Create {K V} `{Countable K} (t : Table K V) v : aborts (Create t v).
Proof. intros w e w' Hc. unfold Create in Hc. case_match; by simplify_eq. Qed.
Lemma aborts_void {A} (m : ST World A) : aborts m → aborts (void m).
Proof. intros Hm. apply aborts_then; [done|]. done. Qed.
End aborts_lemmas.

Ltac aborts_step :=
  lazymatch goal with
  | |- aborts (void _) => apply aborts_void
  | |- aborts (Create _ _) => apply aborts_Create
  | |- aborts (Transaction _) => apply aborts_Transaction
  | |- aborts (mbind _ _) => apply aborts_bind; [solve [solve_keeps]|intros ?]
  | |- aborts (match ?x with _ => _ end) => destruct x
  | |- aborts _ => apply aborts_quiet; solve [solve_keeps]
  end.
Ltac solve_aborts := cbv zeta; repeat (aborts_step; cbv beta zeta).

Create HintDb repo.
#[export] Hint Unfold CreditSettledTopUp AcceptAndPostProviderTopUp AcceptProviderTopUpReversal
  PrepareTopUpRefund AdmitTopUpRefund ReleaseTopUpRefundHold RecordPaymentSettlement
  CreatePayoutMethod CreatePayoutMethodIdempotent AcceptServicePayment PrepareServiceOperation
  AdmitServiceOperation AbandonUndispatchedServiceOperation ResolveFailedServiceOperation
  AcceptServiceEffect ObserveServiceRefundUncertainty ObserveServiceChargeback
  ObserveServiceChannelFee AdmitServiceFulfillment AdmitServiceRefundReview : repo.

Section failures.
Context `{Env}.

Lemma AcceptProviderTopUpReversal_aborts r : aborts (AcceptProviderTopUpReversal r).
Proof. unfold AcceptProviderTopUpReversal. solve_aborts. Qed.

Lemma recordProviderReversal_Ok p id k n t ref w b w' :
  recordProviderReversal p id k n t ref w = (Ok b, w') →
  if b then ∃ o x out, rows settlements (the_db w) !! p = Some x ∧
      o = Build_OrganizationWalletReversal id p (t_CommercialOrderID x) (t_OrganizationID x) k
            (t_Currency x) n t ref ∧ AcceptProviderTopUpReversal o w = (Ok out, w')
  else w' = w.
Proof.
  unfold recordProviderReversal. intros Hr.
  apply bind_Ok in Hr as (q & ? & Hq & Hr). apply take_pk_Ok in Hq as [-> ->].
  apply bind_Ok in Hr as (q & ? & Hq & Hr). apply found_Ok in Hq as [Hq ->].
  case_match; [by inv_run|].
  apply bind_Ok in Hr as (x & ? & Hx & Hr). apply take_pk_Ok in Hx as [-> ->].
  apply bind_Ok in Hr as (x & ? & Hx & Hr). apply found_Ok in Hx as [Hx ->].
  apply bind_Ok in Hr as (out & w1 & Ha & Hr). apply ret_Ok in Hr as [-> ->]. eauto 6.
Qed.

Lemma recordProviderReversal_aborts p id k n t ref : aborts (recordProviderReversal p id k n t ref).
Proof.
  unfold recordProviderReversal. do 2 (apply aborts_bind; [solve_keeps|intros ?]).
  case_match; [solve_aborts|]. do 2 (apply aborts_bind; [solve_keeps|intros ?]).
  apply aborts_then; [apply AcceptProviderTopUpReversal_aborts|done].
Qed.

Lemma ObserveServiceChargeback_aborts o c : aborts (ObserveServiceChargeback o c).
Proof. unfold ObserveServiceChargeback. solve_aborts. Qed.

Lemma recordServiceChargeback_Ok c w b w' : recordServiceChargeback c w = (Ok b, w') →
  if b then ∃ o, ObserveServiceChargeback o c w = (Ok tt, w') else w' = w.
Proof.
  unfold recordServiceChargeback. intros Hr.
  apply bind_Ok in Hr as (p & ? & Hp & Hr). apply take_pk_and_Ok in Hp as (-> & _ & _).
  destruct p as [p|]; [|by inv_run].
  apply bind_Ok in Hr as (s & ? & Hs & Hr). apply take_Ok in Hs as (-> & _).
  apply bind_Ok in Hr as (s' & ? & Hs & Hr). apply found_Ok in Hs as (_ & ->).
  apply bind_Ok in Hr as ([] & w1 & Ho & Hr). apply ret_Ok in Hr as [-> ->]. eauto.
Qed.

Lemma recordServiceChargeback_aborts c : aborts (recordServiceChargeback c).
Proof.
  unfold recordServiceChargeback. apply aborts_bind; [solve_keeps|intros ?].
  case_match; [|solve_aborts]. do 2 (apply aborts_bind; [solve_keeps|intros ?]).
  apply aborts_then; [apply ObserveServiceChargeback_aborts|done].
Qed.

Lemma RecordRefundSettlement_aborts f : aborts (RecordRefundSettlement f).
Proof.
  unfold RecordRefundSettlement. apply aborts_bind; [solve_keeps|intros ?].
  apply aborts_then; [apply recordProviderReversal_aborts|].
  intros w b w1 e w2 Hb Hr. apply recordProviderReversal_Ok in Hb. destruct b; [done|].
  subst. by apply Transaction_Err in Hr.
Qed.

Lemma RecordChargebackSettlement_aborts c : aborts (RecordChargebackSettlement c).
Proof.
  unfold RecordChargebackSettlement. apply aborts_bind; [solve_keeps|intros ?].
  apply aborts_then; [apply recordProviderReversal_aborts|].
  intros w b w1 e w2 Hb Hr. apply recordProviderReversal_Ok in Hb. destruct b; [done|].
  subst. revert e w2 Hr. refine (λ e w2, aborts_then _ _ _ _ w e w2).
  { apply recordServiceChargeback_aborts. }
  clear. intros w b w1 e w2 Hb Hr. apply recordServiceChargeback_Ok in Hb.
  destruct b; [done|]. subst. by apply Transaction_Err in Hr.
Qed.
(** After a provider reversal the wallet is there to be read. *)
Lemma ReadOrganizationWallet_reads r w : OrganizationWalletReversal_Validate r = None →
  ∃ s w', ReadOrganizationWallet (rv_OrganizationID r) (rv_Currency r) w = (Ok s, w').
Proof.
  unfold OrganizationWalletReversal_Validate, ReadOrganizationWallet. intros Hv.
  apply invalid_if_None in Hv. rewrite !orb_false_iff in Hv. destruct_and!.
  unfold mbind, ST_bind, guard_not, take_pk, gets.
  match goal with H : blank (rv_OrganizationID r) = false |- _ => unfold blank in H; rewrite H end.
  match goal with H : (rv_Currency r ≠s _) = false |- _ => rewrite H end. simpl.
  case_match; unfold emptyWallet, mbind, ST_bind; simpl; eauto.
Qed.

Lemma ApplyTopUpReversal_aborts r : aborts (ApplyTopUpReversal r).
Proof.
  unfold ApplyTopUpReversal. intros w e w' Hr.
  destruct (OrganizationWalletReversal_Validate r) eqn:Hv.
  { unfold mbind, ST_bind in Hr. simpl in Hr. by simplify_eq. }
  revert w e w' Hr. do 4 (apply aborts_bind; [solve_keeps|intros ?]).
  case_match; [|solve_aborts]. apply aborts_then; [apply AcceptProviderTopUpReversal_aborts|].
  intros w0 out w1 e w2 _ Hr.
  destruct (ReadOrganizationWallet_reads r w1 Hv) as (s & w3 & Hread). congruence.
Qed.

Lemma ReserveCommercialPurchase_Err i w e w' : ReserveCommercialPurchase i w = (Err e, w') →
  the_db w' = the_db w ∨ (e = ErrWalletInsufficientBalance ∧
    rw_Currency i = WalletCurrencyCNY ∧ 0 < rw_AmountMinor i ∧
    reserve_transaction i w = (Ok None, w')).
Proof.
  unfold ReserveCommercialPurchase. intros [Hg|([] & w1 & Hg & Hr)]%bind_Err.
  { left. unfold guard_not in Hg. case_match; by simplify_eq. }
  apply guard_not_Ok in Hg as [Hg ->]. apply bind_Err in Hr as [Ht|(o & w1 & Ht & Hr)].
  { left. by apply Transaction_Err in Ht. }
  destruct o as [r|]; [done|]. unfold fail in Hr. simplify_eq.
  apply Transaction_Ok in Ht. apply reserve_input_valid in Hg as [??]. by right.
Qed.

Lemma ObserveServiceUnsplit_Err i w e w' : ObserveServiceUnsplit i w = (Err e, w') →
  the_db w' = the_db w ∨ e = ErrConflict.
Proof.
  unfold ObserveServiceUnsplit. intros [Hc|([] & w1 & Hc & Hr)]%bind_Err.
  { left. unfold check in Hc. case_match; by simplify_eq. }
  apply check_Ok in Hc as [_ ->]. apply bind_Err in Hr as [Ht|([out stale] & w1 & Ht & Hr)].
  { left. by apply Transaction_Err in Ht. }
  destruct stale; [|done]. unfold fail in Hr. simplify_eq. by right.
Qed.

Lemma run_aborts c w e w' : run c w = (Err e, w') →
  the_db w' = the_db w ∨
  (∃ i, c = RunReserveCommercialPurchase i ∧ e = ErrWalletInsufficientBalance) ∨
  (∃ i, c = RunObserveServiceUnsplit i ∧ e = ErrConflict).
Proof.
  intros Hr.
  assert (∀ m : ST World unit, run c = m → aborts m → the_db w' = the_db w) as Hab.
  { intros m Hm Ha. rewrite Hm in Hr. by apply Ha in Hr. }
  destruct c; try (left; eapply Hab; [reflexivity|]; simpl;
    first [apply RecordRefundSettlement_aborts|apply RecordChargebackSettlement_aborts
          |apply aborts_void, ApplyTopUpReversal_aborts
          |apply aborts_void; unfold CommitCommercialPurchase, ReleaseCommercialPurchase,
             finishReservation; solve [solve_aborts]
          |progress autounfold with repo; solve [solve_aborts]]).
  - apply bind_Err in Hr as [Hr|(? & ? & _ & Hr)]; [|done].
    apply ReserveCommercialPurchase_Err in Hr as [?|[-> _]]; eauto.
  - apply bind_Err in Hr as [Hr|(? & ? & _ & Hr)]; [|done].
    apply ObserveServiceUnsplit_Err in Hr as [?| ->]; eauto.
Qed.
End failures.

(** ** Every command is a run of the abstract ledger *)

(** From a ledger in good order, the tables move by ledger steps. *)
Definition sim (org : string) (w w' : World) : Prop :=
  ledger_ok (the_db w) → rtc (ledger_step org) (the_db w) (the_db w').

Lemma sim_idle org w w' : same_ledger (the_db w) (the_db w') → sim org w w'.
Proof. intros Hs [Htab _]. by apply rtc_once, same_ledger_step. Qed.

Section simulation.
Context `{Env}.

Lemma sim_intro {A} org (m : ST World A) : aborts m →
  (∀ w a w', ledger_ok (the_db w) → m w = (Ok a, w') →
     rtc (ledger_step org) (the_db w) (the_db w')) → keeps (sim org) m.
Proof.
  intros Ha Hm w Hok. destruct (m w) as [[a|e] w'] eqn:Hr; simpl; [eauto|].
  apply Ha in Hr. by rewrite Hr.
Qed.

Lemma sim_keeps {A} org (m : ST World A) : keeps (on_db same_ledger) m → keeps (sim org) m.
Proof. intros Hm w. apply sim_idle, Hm. Qed.

Lemma sim_void {A} org (m : ST World A) : keeps (sim org) m → keeps (sim org) (void m).
Proof.
  intros Hm w. unfold void, mbind, ST_bind. specialize (Hm w).
  by destruct (m w) as [[] ?].
Qed.

Ltac aborts_now := autounfold with repo; solve_aborts.
Ltac one_move := eapply rtc_once, step_move; eassumption.

Lemma CreditSettledTopUp_run s w out w' : typed s → ledger_ok (the_db w) →
  CreditSettledTopUp s w = (Ok out, w') →
  (w' = w ∧ ∃ t row, rows settlements (the_db w) !! ts_PaymentID s = Some t ∧
     sameTopUp t s = true ∧
     rows wallets (the_db w) !! (ts_OrganizationID s, ts_Currency s) = Some row ∧
     out = walletSnapshot row) ∨
  (rows settlements (the_db w) !! ts_PaymentID s = None ∧
   credit_new_top_up s w = (Ok out, w') ∧
   OrganizationTopUpSettlement_Validate s = None).
Proof.
  intros Hty Hok Hr. unfold CreditSettledTopUp in Hr.
  apply bind_Ok in Hr as (? & ? & Hv & Hr). apply check_Ok in Hv as [Hv ->].
  apply Transaction_Ok in Hr. apply bind_Ok in Hr as (p & ? & Hp & Hr).
  apply take_pk_Ok in Hp as [-> ->]. apply bind_Ok in Hr as (p & ? & Hp & Hr).
  apply found_Ok in Hp as [_ ->]. do 2 (apply bind_Ok in Hr as (? & ? & Hg & Hr);
    apply guard_not_Ok in Hg as [_ ->]).
  apply bind_Ok in Hr as (o & ? & Ho & Hr). apply take_pk_Ok in Ho as [-> ->].
  destruct (rows settlements (the_db w) !! ts_PaymentID s) as [t|] eqn:Ht; [|by right].
  left. inv_run. reflect_bools. split; [done|]. eauto 6.
Qed.

Lemma CreditSettledTopUp_sim s : typed s → keeps (sim (ts_OrganizationID s)) (CreditSettledTopUp s).
Proof.
  intros Hty. apply sim_intro; [aborts_now|]. intros w out w' Hok Hr.
  apply CreditSettledTopUp_run in Hr as [[-> _]|(Hn & Hr & Hv)]; [done| |done..].
  eapply credit_new_top_up_run in Hr as (He & Hm & Ht & _); [one_move|done..].
Qed.

Lemma ReserveCommercialPurchase_Ok i w r w' : ReserveCommercialPurchase i w = (Ok r, w') →
  rw_Currency i = WalletCurrencyCNY ∧ 0 < rw_AmountMinor i ∧
  reserve_transaction i w = (Ok (Some r), w').
Proof.
  unfold ReserveCommercialPurchase. intros Hr.
  apply bind_Ok in Hr as (? & ? & Hg & Hr). apply guard_not_Ok in Hg as [Hg ->].
  apply reserve_input_valid in Hg as [Hc Hn]. apply bind_Ok in Hr as (o & w1 & Ht & Hr).
  apply Transaction_Ok in Ht. destruct o; [|done]. by apply ret_Ok in Hr as [-> ->].
Qed.

Lemma ReserveCommercialPurchase_sim i : typed i → keeps (sim (rw_OrganizationID i)) (ReserveCommercialPurchase i).
Proof.
  intros Hty w Hok. assert (∀ o w', rw_Currency i = WalletCurrencyCNY →
    0 < rw_AmountMinor i → reserve_transaction i w = (Ok o, w') →
    rtc (ledger_step (rw_OrganizationID i)) (the_db w) (the_db w')) as Hrun.
  { intros o w' Hc Hn Hr.
    eapply reserve_transaction_run in Hr as [[-> _]|[Ht Hr]]; [done| |done..].
    case_match; [destruct Hr; by apply rtc_once, step_idle|]. destruct Hr. one_move. }
  destruct (ReserveCommercialPurchase i w) as [[r|e] w'] eqn:Hr; simpl.
  - apply ReserveCommercialPurchase_Ok in Hr as (?&?&?). eauto.
  - apply ReserveCommercialPurchase_Err in Hr as [->|(_&?&?&?)]; [done|eauto].
Qed.

Lemma finishReservation_sim op org order id t k :
  t = WalletReservationCommitted ∨ t = WalletReservationReleased →
  keeps (sim org) (finishReservation op org order id t k).
Proof.
  intros Ht. apply sim_intro; [unfold finishReservation; solve_aborts|]. intros w out w' Hok Hr.
  apply finishReservation_run in Hr as [[-> _]|(r&_&_&_&_&_&_&He&Hm&Htab)]; [done|one_move|done..].
Qed.

Lemma AcceptAndPost_sim i : typed i → keeps (sim (pt_OrganizationID i)) (AcceptAndPostProviderTopUp i).
Proof.
  intros Hty. apply sim_intro; [aborts_now|]. intros w out w' Hok Hr.
  apply AcceptAndPost_run in Hr as (Hv & c & d1 & [[Hs _] _ _ _ _] & Hr); [|done..].
  assert (tables_ok d1) as Htab by (eapply same_ledger_tables; [done|apply Hok]).
  eapply rtc_l; [apply same_ledger_step; [apply Hok|exact Hs]|].
  destruct (pc_Receipt c); [|by eapply top_up_posted_steps].
  destruct Hr as (_ & _ & Hr). eapply reversals_accepted_steps; [exact Hr| |done].
  intros r Hin. by apply (ProviderTopUpInput_reversals i).
Qed.

Lemma AcceptReversal_run r w out w' : typed r → ledger_ok (the_db w) →
  AcceptProviderTopUpReversal r w = (Ok out, w') →
  OrganizationWalletReversal_Validate r = None ∧
  acceptTopUpReversalTx r w = (Ok out, w') ∧
  ∃ t, reversal_accepted r out t (the_db w) (the_db w').
Proof.
  intros Hty Hok Hr. unfold AcceptProviderTopUpReversal in Hr.
  apply bind_Ok in Hr as (? & ? & Hv & Hr). apply check_Ok in Hv as [Hv ->].
  apply Transaction_Ok in Hr. split; [done|]. split; [done|].
  by apply acceptTopUpReversalTx_run.
Qed.

Lemma AcceptReversal_sim r : typed r → keeps (sim (rv_OrganizationID r)) (AcceptProviderTopUpReversal r).
Proof.
  intros Hty. apply sim_intro; [aborts_now|]. intros w out w' Hok Hr.
  apply AcceptReversal_run in Hr as (_ & _ & t & Hr); [|done..].
  eapply reversal_accepted_steps; [apply Hok|done].
Qed.

Lemma PrepareTopUpRefund_sim i : typed i → keeps (sim (ri_OrganizationID i)) (PrepareTopUpRefund i).
Proof.
  intros Hty. apply sim_intro; [aborts_now|]. intros w out w' Hok Hr.
  apply PrepareTopUpRefund_run in Hr as [[-> _]|(_&_&He&Hm&Ht&_)]; [done|one_move|done..].
Qed.

Lemma AdmitTopUpRefund_sim i : keeps (sim (ri_OrganizationID i)) (AdmitTopUpRefund i).
Proof.
  apply sim_intro; [aborts_now|]. intros w out w' [Hok _] Hr.
  by apply rtc_once, (AdmitTopUpRefund_run i w out w').
Qed.

Lemma ReleaseTopUpRefundHold_sim i b : typed i → keeps (sim (ri_OrganizationID i)) (ReleaseTopUpRefundHold i b).
Proof.
  intros Hty. apply sim_intro; [aborts_now|]. intros w out w' Hok Hr.
  apply ReleaseTopUpRefundHold_run in Hr as (h&_&_&[[-> _]|(He&Hm&Ht&_)]); [done|one_move|done..].
Qed.
Lemma ApplyTopUpReversal_run r w out w' : typed r → ledger_ok (the_db w) →
  ApplyTopUpReversal r w = (Ok out, w') →
  OrganizationWalletReversal_Validate r = None ∧
  ∃ p, rows payments (the_db w) !! rv_PaymentID r = Some p ∧
    p_PaymentPurpose p ≠ PaymentPurposeServicePurchase ∧
  if p_PaymentPurpose p =s PaymentPurposeWalletTopUp then
    ∃ x w1, AcceptProviderTopUpReversal r w = (Ok x, w1) ∧ the_db w' = the_db w1
  else reverse_ordinary_top_up r w = (Ok out, w').
Proof.
  intros Hty Hok Hr. unfold ApplyTopUpReversal in Hr.
  apply bind_Ok in Hr as (? & ? & Hv & Hr). apply check_Ok in Hv as [Hv ->]. split; [done|].
  apply bind_Ok in Hr as (p & ? & Hp & Hr). apply take_pk_Ok in Hp as [-> ->].
  apply bind_Ok in Hr as (p & ? & Hp & Hr). apply found_Ok in Hp as [Hp ->].
  apply bind_Ok in Hr as (? & ? & Hg & Hr). apply guard_not_Ok in Hg as [Hg ->].
  reflect_bools. exists p. do 2 (split; [done|]). case_match; [|by apply Transaction_Ok in Hr].
  apply bind_Ok in Hr as (rc & w1 & Hx & Hr). exists rc, w1. split; [done|].
  assert (keeps (on_db eq) (ReadOrganizationWallet (rv_OrganizationID r) (rv_Currency r))) as Hk.
  { unfold ReadOrganizationWallet, emptyWallet. solve_keeps. }
  specialize (Hk w1). by rewrite Hr in Hk.
Qed.

Lemma ApplyTopUpReversal_sim r : typed r → keeps (sim (rv_OrganizationID r)) (ApplyTopUpReversal r).
Proof.
  intros Hty. apply sim_intro; [apply ApplyTopUpReversal_aborts|]. intros w out w' Hok Hr.
  apply ApplyTopUpReversal_run in Hr as (Hv & p & _ & _ & Hr); [|done..].
  destruct (p_PaymentPurpose p =s _).
  - destruct Hr as (x & w1 & Hr & ->). pose proof (AcceptReversal_sim r Hty w Hok) as Hs.
    by rewrite Hr in Hs.
  - eapply reverse_ordinary_top_up_run in Hr as (t&_&_&_&[[-> _]|(_&_&He&Hm&Ht&_)]);
      [done|one_move|done..].
Qed.

(** The organization of the top-up a refund or chargeback reverses. *)
Definition payment_org (d : DB) (payment org : string) : Prop :=
  ∀ t, rows settlements d !! payment = Some t → t_OrganizationID t = org.

Lemma recordProviderReversal_sim p id k n t ref org w : in_int64 n →
  payment_org (the_db w) p org →
  sim org w (recordProviderReversal p id k n t ref w).2.
Proof.
  intros Hn Horg Hok.
  destruct (recordProviderReversal p id k n t ref w) as [[b|e] w'] eqn:Hr; simpl.
  2: { apply recordProviderReversal_aborts in Hr. by rewrite Hr. }
  apply recordProviderReversal_Ok in Hr. destruct b; [|by subst].
  destruct Hr as (o & x & out & Hx & Ho & Hr). rewrite <- (Horg x Hx).
  assert (typed o) as Hty by (by subst o).
  pose proof (AcceptReversal_sim o Hty w Hok) as Hs. rewrite Hr in Hs. by subst o.
Qed.

Lemma sim_trans org w1 w2 w3 : sim org w1 w2 → sim org w2 w3 → sim org w1 w3.
Proof.
  intros H12 H23 Hok. etrans; [by apply H12|]. apply H23. eapply ledger_steps_ok; eauto.
Qed.

(** A recorded reversal, and what follows when it was not one of a top-up. *)
Lemma sim_record {A} org p id k n t ref e (m : bool → ST World A) w : in_int64 n →
  payment_org (the_db w) p org → (∀ b, keeps (on_db same_ledger) (m b)) →
  sim org w ((check e;; b ← recordProviderReversal p id k n t ref; m b) w).2.
Proof.
  intros Hn Horg Hm. pose proof (recordProviderReversal_sim p id k n t ref org w Hn Horg) as Hs.
  unfold mbind at 1, ST_bind at 1. destruct e; simpl; [by apply sim_idle|].
  unfold mbind, ST_bind. destruct (recordProviderReversal _ _ _ _ _ _ w) as [[b|x] w1]; [|done].
  eapply sim_trans; [exact Hs|]. apply sim_idle, Hm.
Qed.

Lemma RecordRefundSettlement_sim f org w : typed f → payment_org (the_db w) (rs_PaymentID f) org →
  sim org w (RecordRefundSettlement f w).2.
Proof. intros Hty Ho. apply sim_record; [done..|]. solve_keeps. Qed.

Lemma RecordChargebackSettlement_sim c org w : typed c →
  payment_org (the_db w) (cs_PaymentID c) org → sim org w (RecordChargebackSettlement c w).2.
Proof. intros Hty Ho. apply sim_record; [done..|]. solve_keeps. Qed.

(** The only organization whose money a command may move, if any. *)
Definition command_org (d : DB) (c : command) (org : string) : Prop :=
  match c with
  | RunCreditSettledTopUp s => ts_OrganizationID s = org
  | RunApplyTopUpReversal r | RunAcceptProviderTopUpReversal r => rv_OrganizationID r = org
  | RunReserveCommercialPurchase i => rw_OrganizationID i = org
  | RunCommitCommercialPurchase i => cw_OrganizationID i = org
  | RunReleaseCommercialPurchase i => rl_OrganizationID i = org
  | RunAcceptAndPostProviderTopUp i => pt_OrganizationID i = org
  | RunPrepareTopUpRefund i | RunAdmitTopUpRefund i | RunReleaseTopUpRefundHold i _ =>
    ri_OrganizationID i = org
  | RunRecordRefundSettlement f => payment_org d (rs_PaymentID f) org
  | RunRecordChargebackSettlement x => payment_org d (cs_PaymentID x) org
  | _ => True
  end.

Lemma run_sim c org w : command_typed c → command_org (the_db w) c org → sim org w (run c w).2.
Proof.
  intros Hty Horg. destruct c; simpl in *; try subst org;
    try (revert w Horg; refine (λ w _, _); apply sim_keeps; unfold void; solve [solve_keeps]).
  - by apply sim_void, CreditSettledTopUp_sim.
  - by apply sim_void, ApplyTopUpReversal_sim.
  - by apply sim_void, ReserveCommercialPurchase_sim.
  - apply sim_void, finishReservation_sim. by left.
  - apply sim_void, finishReservation_sim. by right.
  - by apply sim_void, AcceptAndPost_sim.
  - by apply sim_void, AcceptReversal_sim.
  - by apply sim_void, PrepareTopUpRefund_sim.
  - by apply sim_void, AdmitTopUpRefund_sim.
  - by apply sim_void, ReleaseTopUpRefundHold_sim.
  - by apply RecordRefundSettlement_sim.
  - by apply RecordChargebackSettlement_sim.
Qed.

(** Every command has such an organization, in any ledger. *)
Lemma command_org_exists d c : ∃ org, command_org d c org.
Proof.
  assert (∀ p, ∃ org, payment_org d p org) as Hp.
  { intros p. unfold payment_org. destruct (rows settlements d !! p) as [t|].
    - exists (t_OrganizationID t). by intros ? [= ->].
    - by exists ""%string. }
  destruct c; simpl; eauto; by exists ""%string.
Qed.

Lemma reachable_ledger_ok w : reachable w → ledger_ok (the_db w).
Proof.
  induction 1 as [u k|c w _ IH Hty]; [apply empty_ok|].
  destruct (command_org_exists (the_db w) c) as [org Ho].
  eapply ledger_steps_ok; [done|]. by apply (run_sim c org).
Qed.
End simulation.

(** ** Facts are only added *)

(** The tables of immutable facts: settlements, reversals, decisions, entries,
    receipts and proofs. *)
Definition facts_grow (d d' : DB) : Prop :=
  (rows entries d ⊆ rows entries d' ∧ rows decisions d ⊆ rows decisions d' ∧
   rows settlements d ⊆ rows settlements d' ∧ rows reversals d ⊆ rows reversals d') ∧
  (rows payments d ⊆ rows payments d' ∧ rows refunds d ⊆ rows refunds d' ∧
   rows chargebacks d ⊆ rows chargebacks d' ∧ rows payout_methods d ⊆ rows payout_methods d' ∧
   rows payout_operations d ⊆ rows payout_operations d') ∧
  (rows receipts d ⊆ rows receipts d' ∧ rows excesses d ⊆ rows excesses d' ∧
   rows channel_claims d ⊆ rows channel_claims d') ∧
  (rows effects d ⊆ rows effects d' ∧ rows refund_reviews d ⊆ rows refund_reviews d' ∧
   rows fulfillments d ⊆ rows fulfillments d').

#[export] Instance facts_grow_preorder : PreOrder facts_grow.
Proof.
  split; [intros d; by repeat split|]. intros d1 d2 d3 H12 H23.
  unfold facts_grow in *. destruct_and!. repeat split; by etrans.
Qed.

Ltac grows :=
  unfold on_db, facts_grow; read_tables; repeat split;
  first [reflexivity|by apply insert_subseteq].
#[export] Hint Extern 0 (Writes (on_db facts_grow) _) => solve [intros ??; grows] : typeclass_instances.
#[export] Hint Extern 0 (Inserts (on_db facts_grow) _) => solve [intros ????; grows] : typeclass_instances.

Section append_only.
Context `{Env}.

Lemma run_facts_grow c : keeps (on_db facts_grow) (run c).
Proof.
  destruct c; simpl; unfold void, CommitCommercialPurchase, ReleaseCommercialPurchase;
    solve_keeps.
Qed.
End append_only.

(** * Properties *)

Section properties.
Context `{Env}.

Lemma run_all_app cs1 cs2 w : run_all (cs1 ++ cs2) w = run_all cs2 (run_all cs1 w).
Proof. unfold run_all. by rewrite foldl_app. Qed.

Lemma reachable_all cs u k : Forall command_typed cs →
  reachable (run_all cs {| the_db := empty_db; uuids_used := u; clock_reads := k |}).
Proof.
  induction cs as [|c cs IH] using rev_ind; intros Hty; [constructor|].
  apply Forall_app in Hty as [Hty Hc]. rewrite run_all_app.
  apply reach_step; [by apply IH|by inversion Hc].
Qed.

(** C1. Refinement. Whatever its outcome, a command whose integers fit their
    Go types takes a ledger in good order through steps of the abstract ledger:
    each one either leaves every account and its books alone, or is a credit,
    reversal, reservation, commit, release or confirmation that was enabled, on
    the account of the one organization the command names. *)
Theorem command_refines_ledger (c : command) (org : string) (w : World)
    (Hty : command_typed c) (Horg : command_org (the_db w) c org)
    (Hok : ledger_ok (the_db w)) :
  rtc (ledger_step org) (the_db w) (the_db (run c w).2).
Proof. by apply run_sim. Qed.

(** C2. Conservation. In every reachable database, for every organization:
    no balance is negative, available funds and debt exclude each other, each
    balance is the sum of the deltas of its ledger entries, reserved funds are
    the open reservations and refund holds, lifetime totals are the settled
    top-ups and the committed reservations, and what came in equals what is
    there, was spent or was reversed. *)
Theorem reachable_wallets_conserve (w : World) (org : string) (Hr : reachable w) :
  let a := account (the_db w) org in
  let b := books (the_db w) org in
  balances_ok (a_available a) (a_reserved a) (a_debt a) ∧
  (a_available a = b_available b ∧ a_reserved a = b_reserved b ∧ a_debt a = b_debt b) ∧
  (a_reserved a = b_held b ∧ a_topup a = b_topup b ∧ a_spend a = b_spent b) ∧
  a_available a + a_reserved a - a_debt a = b_topup b - b_spent b - b_reversed b.
Proof.
  destruct (reachable_ledger_ok w Hr) as [_ Hag]. destruct (Hag org) as [[Hb _] ???????].
  cbv zeta. split; [exact Hb|]. auto.
Qed.

(** C22. Rollback. A command that fails leaves every table as it was, but for
    the two that record a fact before failing: a purchase rejected for
    insufficient funds (its decision) and a stale balance observation. *)
Theorem failed_command_rolls_back (c : command) (w w' : World) (e : goerr)
    (Hr : run c w = (Err e, w')) :
  the_db w' = the_db w ∨
  (∃ i, c = RunReserveCommercialPurchase i ∧ e = ErrWalletInsufficientBalance) ∨
  (∃ i, c = RunObserveServiceUnsplit i ∧ e = ErrConflict).
Proof. by apply run_aborts. Qed.

(** C23. Isolation. A command moves the money of one organization: accounts and
    books of every other are as before. *)
Theorem other_organizations_untouched (c : command) (org o : string) (w : World)
    (Hr : reachable w) (Hty : command_typed c) (Horg : command_org (the_db w) c org)
    (Hne : o ≠ org) :
  account (the_db (run c w).2) o = account (the_db w) o ∧
  books (the_db (run c w).2) o = books (the_db w) o.
Proof.
  eapply ledger_steps_others; [|done]. apply run_sim; [done..|].
  by apply reachable_ledger_ok.
Qed.

(** C24. Append-only. No command, in any order, failing or not, changes or
    removes an entry, a reserve decision, a settlement, a reversal, a payment,
    refund or chargeback fact, a payout method or its operation, a reversal
    receipt, an excess record, a channel claim, an effect, or an admission. *)
Theorem facts_append_only (cs : list command) (w : World) :
  facts_grow (the_db w) (the_db (run_all cs w)).
Proof.
  revert w. induction cs as [|c cs IH]; intros w; [reflexivity|].
  etrans; [apply (run_facts_grow c w)|apply IH].
Qed.
End properties.

Example demo_account : account (the_db (demo_world 5)) "org-1" = Build_Account 0 0 100 1000 300.
Proof. vm_compute. reflexivity. Qed.

Lemma demo_typed : Forall command_typed demo_commands.
Proof. repeat constructor; by vm_compute. Qed.

Lemma demo_reachable n : reachable (H:=demo_env) (demo_world n).
Proof. apply reachable_all. apply Forall_take, demo_typed. Qed.

Lemma command_refines_ledger_witness :
  command_typed (RunApplyTopUpReversal demo_reversal) ∧
  rtc (ledger_step "org-1") (the_db (demo_world 4)) (the_db (demo_world 5)).
Proof.
  assert (command_typed (RunApplyTopUpReversal demo_reversal)) as Hty by (by vm_compute).
  split; [exact Hty|].
  exact (command_refines_ledger (H:=demo_env) (RunApplyTopUpReversal demo_reversal) "org-1"
    (demo_world 4) Hty eq_refl (reachable_ledger_ok (H:=demo_env) _ (demo_reachable 4))).
Defined.

Lemma reachable_wallets_conserve_witness :
  reachable (H:=demo_env) (demo_world 5) ∧
  b_reversed (books (the_db (demo_world 5)) "org-1") = 800.
Proof.
  pose proof (reachable_wallets_conserve (H:=demo_env) (demo_world 5) "org-1"
    (demo_reachable 5)) as (_ & _ & (_ & Ht & Hs) & Hc).
  split; [apply demo_reachable|]. pose proof demo_account as Ha. revert Ha Ht Hs Hc.
  generalize (the_db (demo_world 5)). intros d Ha Ht Hs Hc. rewrite Ha in *.
  cbn [a_available a_reserved a_debt a_topup a_spend] in *. lia.
Defined.

Lemma failed_command_rolls_back_witness :
  let r := run (H:=demo_env) (RunReserveCommercialPurchase demo_reserve) empty_world in
  r.1 = Err ErrWalletInsufficientBalance ∧
  (the_db r.2 = the_db empty_world ∨
   (∃ i, RunReserveCommercialPurchase demo_reserve = RunReserveCommercialPurchase i ∧
      ErrWalletInsufficientBalance = ErrWalletInsufficientBalance) ∨
   (∃ i, RunReserveCommercialPurchase demo_reserve = RunObserveServiceUnsplit i ∧
      ErrWalletInsufficientBalance = ErrConflict)).
Proof.
  cbv zeta.
  assert ((run (H:=demo_env) (RunReserveCommercialPurchase demo_reserve) empty_world).1 =
    Err ErrWalletInsufficientBalance) as Hr by (vm_compute; reflexivity).
  split; [exact Hr|]. revert Hr.
  destruct (run (H:=demo_env) (RunReserveCommercialPurchase demo_reserve) empty_world)
    as [res w'] eqn:Hrun.
  cbn [fst snd]. intros ->. exact (failed_command_rolls_back (H:=demo_env) _ _ _ _ Hrun).
Defined.

Lemma other_organizations_untouched_witness :
  account (the_db (demo_world 3)) "org-2" = account (the_db (demo_world 2)) "org-2".
Proof.
  apply (other_organizations_untouched (H:=demo_env) (RunReserveCommercialPurchase demo_reserve)
    "org-1" "org-2" (demo_world 2)); [apply demo_reachable|by vm_compute|done|done].
Defined.
