(* ===== verification/EntryPages.v ===== *)
(** * The statement of a wallet, page by page

    Models [ListOrganizationWalletEntries] of
    src/internal/integration/persistence/money/wallet_repository.go: the ledger
    entries of a wallet, newest first, in pages linked by an opaque cursor. The
    order of entry identities is the collation of the database column, a
    parameter that is a strict total order. Following the cursors from the
    first page reads every entry once, in order, and ends. *)
From S2P Require Import Prelude GoStd Encoding Cursors MoneyTypes ProviderTopUp ServiceMoney Store MoneyStore WalletSpec WalletRepo TopUpRepo ServiceRepo SettlementRepo Ledger.

Section entry_pages.
Context `{Collation}.

(** [(occurred_at < ?) OR (occurred_at = ? AND entry_id < ?)]. *)
Definition past_key (key : Time * string) (e : organizationWalletEntryRow) : bool :=
  (e_OccurredAt e <? key.1) || ((e_OccurredAt e =? key.1) && id_before (e_EntryID e) key.2).

Definition entry_key (e : organizationWalletEntryRow) : Time * string :=
  (e_OccurredAt e, e_EntryID e).

(** ORDER BY occurred_at DESC, entry_id DESC: nothing is before what it is past. *)
Definition newest_first (a b : organizationWalletEntryRow) : Prop :=
  past_key (entry_key b) a = false.
#[local] Instance newest_first_dec : RelDecision newest_first.
Proof. intros a b. unfold newest_first. apply _. Defined.

Definition next_cursor (last : organizationWalletEntryRow) : string :=
  of_bytes (b64_encode (Format_RFC3339Nano (e_OccurredAt last) ++
                        124 :: string_bytes (e_EntryID last))).

Definition parse_cursor (cursor : string) : result (Time * string) :=
  match b64_decode (string_bytes (TrimSpace cursor)) with
  | None => Err ErrInvalid
  | Some decoded =>
    match split_bar decoded with
    | None => Err ErrInvalid
    | Some (at_, id) =>
      if blank (of_bytes id) then Err ErrInvalid
      else match Parse_RFC3339Nano at_ with
           | None => Err ErrInvalid
           | Some occurredAt => Ok (occurredAt, of_bytes id)
           end
    end
  end.

(** [rows[limit-1]] is only read of more than [limit] rows. *)
Definition entry_page (limit : Z) (found_rows : list organizationWalletEntryRow)
    : WalletEntryPage :=
  {| wp_Items := walletEntry <$> firstn (Z.to_nat limit) found_rows;
     wp_NextCursor :=
       if Z.of_nat (length found_rows) >? limit then
         match found_rows !! Z.to_nat (limit - 1) with Some last => next_cursor last | None => "" end
       else "" |}.

Definition ListOrganizationWalletEntries (organizationID currency cursor : string) (limit : Z)
    : ST World WalletEntryPage :=
  let organizationID := TrimSpace organizationID in
  guard_not ((organizationID =s "") || (currency ≠s WalletCurrencyCNY) || (limit <? 0)
    || (limit >? MaxOrganizationWalletEntryPageSize)) ErrInvalid;;
  let limit := if limit =? 0 then 50 else limit in
  after ← (if blank cursor then mret None
           else key ← lift (parse_cursor cursor); mret (Some key));
  found_rows ← Find entries (λ e,
    (e_OrganizationID e =s organizationID) && (e_Currency e =s currency)
    && match after with Some key => past_key key e | None => true end);
  mret (entry_page limit (firstn (Z.to_nat (limit + 1)) (merge_sort newest_first found_rows))).

(** ** Specification *)

(** The entries of a wallet, newest first. *)
Definition statement (d : DB) (org currency : string) : list organizationWalletEntryRow :=
  merge_sort newest_first (rows_where (λ e,
    (e_OrganizationID e =s org) && (e_Currency e =s currency)) (rows entries d)).

(** Following the cursors, at most [fuel] pages: [None] when there are more. *)
Fixpoint read_pages (fuel : nat) (org currency cursor : string) (limit : Z)
    : ST World (option (list (list WalletEntry))) :=
  match fuel with
  | O => mret None
  | S fuel' =>
    page ← ListOrganizationWalletEntries org currency cursor limit;
    if wp_NextCursor page =s "" then mret (Some [wp_Items page])
    else rest ← read_pages fuel' org currency (wp_NextCursor page) limit;
         mret (cons (wp_Items page) <$> rest)
  end.

(** An entry whose instant has a year of four digits and whose identity is not
    blank: its cursor can be read back. *)
Definition readable (e : organizationWalletEntryRow) : Prop :=
  0 ≤ year_of (e_OccurredAt e) ≤ 9999 ∧ blank (e_EntryID e) = false.

(** Entries are filed under their identities. *)
Definition entries_filed (d : DB) : Prop :=
  ∀ k e, rows entries d !! k = Some e → e_EntryID e = k.

(** * Lemmas *)

(** ** The order is total *)

Lemma past_key_irrefl e : past_key (entry_key e) e = false.
Proof. unfold past_key. simpl. by rewrite Z.ltb_irrefl, Z.eqb_refl, id_before_irrefl. Qed.

Lemma past_key_trans a b c : past_key (entry_key a) b = true → past_key (entry_key b) c = true →
  past_key (entry_key a) c = true.
Proof.
  unfold past_key. simpl. intros Hab Hbc. apply orb_true_iff in Hab, Hbc.
  rewrite !andb_true_iff, !Z.eqb_eq, !Z.ltb_lt in *.
  destruct (e_OccurredAt c <? e_OccurredAt a) eqn:Hlt; [done|]. apply Z.ltb_ge in Hlt. simpl.
  destruct Hab as [|[? Hab]], Hbc as [|[? Hbc]]; try lia.
  apply andb_true_iff. split; [lia|]. by eapply id_before_trans.
Qed.

Lemma past_key_total a b : past_key (entry_key a) b = false → past_key (entry_key b) a = false →
  entry_key a = entry_key b.
Proof.
  unfold past_key, entry_key. simpl. intros [Hlt Hid]%orb_false_iff [Hlt' Hid']%orb_false_iff.
  apply Z.ltb_ge in Hlt, Hlt'. assert (e_OccurredAt a = e_OccurredAt b) as He by lia.
  rewrite He, Z.eqb_refl in *. simpl in *. f_equal. by apply id_before_total.
Qed.

Lemma past_key_congr a b c : entry_key a = entry_key b →
  past_key (entry_key a) c = past_key (entry_key b) c ∧
  past_key (entry_key c) a = past_key (entry_key c) b.
Proof. unfold past_key, entry_key. intros [= -> ->]. done. Qed.

#[local] Instance newest_first_trans : Transitive newest_first.
Proof.
  unfold newest_first. intros a b c Hba Hcb. apply not_true_iff_false. intros Hca.
  destruct (past_key (entry_key a) b) eqn:Hab.
  - by rewrite (past_key_trans c a b) in Hcb.
  - destruct (past_key_congr a b c) as [_ Hc]; [by apply past_key_total|]. congruence.
Qed.

#[local] Instance newest_first_total : Total newest_first.
Proof.
  intros a b. unfold newest_first. destruct (past_key (entry_key b) a) eqn:Hba; [right|by left].
  apply not_true_iff_false. intros Hab. pose proof (past_key_trans a b a Hab Hba) as Haa.
  by rewrite past_key_irrefl in Haa.
Qed.

(** Sorting a part of the rows is taking that part of the sorted rows. *)
Lemma sort_filter (P : organizationWalletEntryRow → bool) (l : list organizationWalletEntryRow) :
  NoDup (e_EntryID <$> l) →
  merge_sort newest_first (filter (λ e, P e = true) l) =
  filter (λ e, P e = true) (merge_sort newest_first l).
Proof.
  intros Hd. eapply StronglySorted_unique_strong.
  - intros a b Ha Hb Hab Hba.
    rewrite merge_sort_Permutation in Ha. apply list_elem_of_filter in Ha as [_ Ha].
    apply list_elem_of_filter in Hb as [_ Hb]. rewrite merge_sort_Permutation in Hb.
    pose proof (past_key_total a b Hba Hab) as He.
    apply list_elem_of_lookup in Ha as [i Hi]. apply list_elem_of_lookup in Hb as [j Hj].
    injection He as _ Hid. assert (i = j) as ->; [|congruence]. { 
    eapply (NoDup_lookup (e_EntryID <$> l)); [done|..]; rewrite list_lookup_fmap.
    + by rewrite Hi.
    + by rewrite Hj, Hid. }
  - apply StronglySorted_merge_sort; apply _.
  - assert (StronglySorted newest_first (merge_sort newest_first l)) as Hs
      by (apply StronglySorted_merge_sort; apply _).
    induction Hs as [|a m Hs IH Ha]; [constructor|]. rewrite filter_cons.
    case_decide; [|done]. constructor; [done|]. rewrite Forall_forall in *.
    intros b [_ Hb]%list_elem_of_filter. by apply Ha.
  - by rewrite !merge_sort_Permutation.
Qed.

(** What is past an element of the sorted rows are the rows after it. *)
Lemma filter_past p x s : StronglySorted newest_first (p ++ x :: s) →
  NoDup (e_EntryID <$> p ++ x :: s) →
  filter (λ e, past_key (entry_key x) e = true) (p ++ x :: s) = s.
Proof.
  intros Hs Hd. induction p as [|y p IH]; simpl in *.
  - inversion Hs as [|?? _ Hx]; subst. apply NoDup_cons in Hd as [Hnx _].
    rewrite filter_cons_False by (by rewrite past_key_irrefl).
    clear Hs. induction Hx as [|z s Hxz _ IH]; [done|]. rewrite filter_cons_True.
    + rewrite IH; [done|]. intros Hin. apply Hnx. simpl. by right.
    + apply not_false_iff_true. intros Hzx. apply Hnx. simpl.
      pose proof (past_key_total x z Hzx Hxz) as [= _ ->]. left.
  - inversion Hs as [|?? Hs' Hy]; subst. apply NoDup_cons in Hd as [_ Hd].
    rewrite filter_cons_False; [by apply IH|]. rewrite Forall_forall in Hy.
    assert (newest_first y x) as Hyx.
    { apply Hy, elem_of_app. right. left. }
    unfold newest_first in Hyx. by rewrite Hyx.
Qed.

(** ** Cursors read back *)

Lemma is_digit_range b : is_digit b → 48 ≤ b ≤ 57.
Proof. unfold is_digit, in_range. rewrite andb_true_iff, !Z.leb_le. lia. Qed.

(** A byte that is not the separator. *)
Definition plain (b : Z) : Prop := is_byte b ∧ b ≠ 124.

Lemma plain_digits w z : Forall plain (digits w z).
Proof.
  eapply Forall_impl; [apply digits_are_digits|]. intros b Hb%is_digit_range.
  unfold plain, is_byte. lia.
Qed.

Lemma plain_Format t : 0 ≤ year_of t ≤ 9999 → Forall plain (Format_RFC3339Nano t).
Proof.
  unfold Format_RFC3339Nano, after_year, year_bytes, year_of.
  destruct (year_day _) as [y yd]. simpl fst. intros Hy.
  rewrite (proj2 (Z.ltb_ge y 0)), Z.abs_eq, (proj2 (Z.ltb_lt y 10000)) by lia.
  destruct (month_day _ _ _) as [m d].
  destruct (fraction_spec (t mod Second)) as (l & k & Hf & Hd & _); [by apply Z.mod_pos_bound|].
  assert (Forall plain (fraction (t mod Second))) as Hp.
  { rewrite Hf. destruct l as [|b l]; [constructor|]. constructor; [by split|].
    eapply Forall_impl; [exact Hd|]. intros c Hc%is_digit_range. unfold plain, is_byte. lia. }
  rewrite !Forall_app, !Forall_singleton.
  repeat split; try apply plain_digits; try done.
Qed.

Definition is_b64 (c : ascii) : bool :=
  match b64_value (byte_val c) with Some _ => true | None => false end.

Lemma b64_encode_class l : Forall is_byte l →
  string_forallb is_b64 (of_bytes (b64_encode l)) = true ∧ Forall is_byte (b64_encode l) ∧
  (l ≠ [] → b64_encode l ≠ []).
Proof.
  intros Hl. destruct (b64_values_ok l Hl) as (-> & Hv & _). split; [|split].
  - induction Hv as [|z v Hz _ IH]; [done|]. rewrite fmap_cons.
    change (is_b64 (byte (b64_char z)) && string_forallb is_b64 (of_bytes (b64_char <$> v)) = true).
    rewrite IH, andb_true_r. destruct (b64_value_char z Hz) as (Hc & _).
    unfold is_b64. by rewrite byte_val_byte, Hc by by apply b64_char_byte.
  - apply Forall_fmap. eapply Forall_impl; [exact Hv|]. apply b64_char_byte.
  - intros Hne Hnil. destruct l as [|? [|? [|? ?]]]; done.
Qed.

(** A cursor reads back as the key of the entry it was written for. *)
Lemma parse_next_cursor e : readable e →
  parse_cursor (next_cursor e) = Ok (entry_key e) ∧ blank (next_cursor e) = false ∧
  next_cursor e ≠ ""%string.
Proof.
  intros [Hy Hid]. pose proof (plain_Format _ Hy) as Hp.
  assert (Forall is_byte (Format_RFC3339Nano (e_OccurredAt e) ++
    124 :: string_bytes (e_EntryID e))) as Hb.
  { rewrite Forall_app, Forall_cons. split; [|split; [done|apply string_bytes_are_bytes]].
    eapply Forall_impl; [exact Hp|]. by intros b []. }
  destruct (b64_encode_class _ Hb) as (Hc & Hcb & Hne).
  assert (TrimSpace (next_cursor e) = next_cursor e) as Ht.
  { eapply class_trimmed; [..|exact Hc]; repeat constructor. }
  assert (next_cursor e ≠ ""%string) as Hnonempty.
  { unfold next_cursor. destruct (b64_encode _); [|done]. exfalso. apply Hne; [|done].
    intros Hnil. by apply app_eq_nil in Hnil as [_ ?]. }
  split; [|split; [|done]].
  - unfold parse_cursor. rewrite Ht. unfold next_cursor.
    rewrite string_bytes_of_bytes, b64_decode_encode, split_bar_app by
      (done || (eapply Forall_impl; [exact Hp|]; by intros b [])).
    by rewrite of_bytes_string_bytes, Hid, Parse_Format.
  - unfold blank. rewrite Ht. by apply String.eqb_neq.
Qed.

(** ** One page *)

Lemma rows_NoDup d P : entries_filed d → NoDup (e_EntryID <$> rows_where P (rows entries d)).
Proof.
  intros Hf. unfold rows_where. eapply sublist_NoDup; [|apply fmap_sublist, sublist_filter].
  assert (e_EntryID <$> (map_to_list (rows entries d)).*2 = (map_to_list (rows entries d)).*1) as ->;
    [|apply NoDup_fst_map_to_list].
  rewrite <- list_fmap_compose. apply list_fmap_ext. intros i [k e] Hi. simpl.
  apply Hf. apply elem_of_map_to_list. by eapply list_elem_of_lookup_2.
Qed.

Lemma statement_sorted d org cur : StronglySorted newest_first (statement d org cur).
Proof. apply StronglySorted_merge_sort; apply _. Qed.

Lemma statement_NoDup d org cur : entries_filed d → NoDup (e_EntryID <$> statement d org cur).
Proof. intros Hf. unfold statement. rewrite merge_sort_Permutation. by apply rows_NoDup. Qed.

(** The cursor that resumes the statement after its part [p]. *)
Definition resumes (cursor : string) (p : list organizationWalletEntryRow) : Prop :=
  (p = [] ∧ blank cursor = true) ∨
  (∃ p' x, p = p' ++ [x] ∧ blank cursor = false ∧ parse_cursor cursor = Ok (entry_key x)).

(** The limit a request asks for, once defaulted. *)
Definition page_size (limit : Z) : Z := if limit =? 0 then 50 else limit.

Lemma page_from org cur cursor limit p s w : entries_filed (the_db w) →
  TrimSpace org ≠ ""%string → cur = WalletCurrencyCNY → 0 ≤ limit ≤ 50 →
  statement (the_db w) (TrimSpace org) cur = p ++ s → resumes cursor p →
  ListOrganizationWalletEntries org cur cursor limit w =
  (Ok (entry_page (page_size limit) (firstn (Z.to_nat (page_size limit + 1)) s)), w).
Proof.
  intros Hf Horg -> Hlim Hst Hres. unfold ListOrganizationWalletEntries, page_size.
  unfold MaxOrganizationWalletEntryPageSize, mbind at 1, ST_bind at 1, guard_not at 1.
  rewrite (proj2 (String.eqb_neq _ _) Horg), (proj2 (Z.ltb_ge limit 0)) by lia.
  rewrite Z.gtb_ltb, (proj2 (Z.ltb_ge _ limit)) by lia. cbn [orb negb String.eqb].
  pose proof (statement_NoDup (the_db w) (TrimSpace org) WalletCurrencyCNY Hf) as Hd.
  pose proof (statement_sorted (the_db w) (TrimSpace org) WalletCurrencyCNY) as Hsort.
  destruct Hres as [[-> ->]|(p' & x & -> & -> & ->)]; cbv delta [mbind ST_bind mret ST_ret lift Find gets table] beta iota.
  - do 4 f_equal. simpl in Hst. rewrite <- Hst. unfold statement. f_equal.
    unfold rows_where. apply list_filter_iff. intros e. by rewrite andb_true_r.
  - do 4 f_equal. rewrite Hst in Hd, Hsort. rewrite <- app_assoc in Hd, Hsort, Hst. simpl in *.
    rewrite <- (filter_past p' x s) by done. rewrite <- Hst. unfold statement.
    rewrite <- sort_filter by (by apply rows_NoDup). f_equal. unfold rows_where.
    rewrite list_filter_filter. apply list_filter_iff. intros e. rewrite !andb_true_iff.
    unfold entry_key. naive_solver.
Qed.

(** A page holds the first rows; it names a cursor only when some are left. *)
Lemma entry_page_firstn n s : 0 < n →
  entry_page n (firstn (Z.to_nat (n + 1)) s) =
  {| wp_Items := walletEntry <$> firstn (Z.to_nat n) s;
     wp_NextCursor := if Z.of_nat (length s) >? n then
         match s !! Z.to_nat (n - 1) with Some last => next_cursor last | None => "" end
       else "" |}.
Proof.
  intros Hn. unfold entry_page. rewrite firstn_firstn, Nat.min_l by lia.
  rewrite length_firstn, !Z.gtb_ltb. f_equal.
  destruct (n <? Z.of_nat (length s)) eqn:Hlt; reflect_bools.
  - rewrite (proj2 (Z.ltb_lt _ _)) by lia. by rewrite lookup_take_lt by lia.
  - by rewrite (proj2 (Z.ltb_ge _ _)) by lia.
Qed.

(** The rows of a page that is not the last, and the cursor to the next one. *)
Lemma next_page n s : 0 < n → (Z.to_nat n < length s)%nat → Forall readable s →
  ∃ q x, firstn (Z.to_nat n) s = q ++ [x] ∧ s !! Z.to_nat (n - 1) = Some x ∧ readable x.
Proof.
  intros Hn Hlen Hs. destruct (lookup_lt_is_Some_2 s (Z.to_nat (n - 1))) as [x Hx]; [lia|].
  exists (firstn (Z.to_nat (n - 1)) s), x. split; [|split; [done|by eapply Forall_lookup_1]].
  replace (Z.to_nat n) with (S (Z.to_nat (n - 1))) by lia. by apply take_S_r.
Qed.

(** The number of pages of [l] entries. *)
Definition page_count (n l : Z) : Z := Z.max 1 ((l + n - 1) / n).

Lemma page_count_next n l : 0 < n < l → page_count n l = 1 + page_count n (l - n).
Proof.
  intros Hn. unfold page_count. replace (l + n - 1) with (l - n + n - 1 + 1 * n) by lia.
  rewrite Z.div_add by lia.
  assert (1 ≤ (l - n + n - 1) / n) by (apply Z.div_le_lower_bound; lia). lia.
Qed.

Lemma page_count_last n l : 0 ≤ l ≤ n → 0 < n → page_count n l = 1.
Proof.
  intros Hl Hn. unfold page_count. assert ((l + n - 1) / n < 2); [|lia].
  apply Z.div_lt_upper_bound; lia.
Qed.

Lemma read_pages_from fuel org cur cursor limit p s w : entries_filed (the_db w) →
  TrimSpace org ≠ ""%string → cur = WalletCurrencyCNY → 0 ≤ limit ≤ 50 →
  statement (the_db w) (TrimSpace org) cur = p ++ s → resumes cursor p → Forall readable s →
  (length s < fuel)%nat →
  ∃ pages, read_pages fuel org cur cursor limit w = (Ok (Some pages), w) ∧
    concat pages = walletEntry <$> s ∧
    Forall (λ q, Z.of_nat (length q) ≤ page_size limit) pages ∧
    Z.of_nat (length pages) = page_count (page_size limit) (Z.of_nat (length s)).
Proof.
  intros Hf Horg Hcur Hlim. revert cursor p s.
  induction fuel as [|fuel IH]; intros cursor p s Hst Hres Hs Hfuel; [lia|].
  assert (0 < page_size limit) as Hn.
  { unfold page_size. case_match; reflect_bools; lia. }
  cbn [read_pages]. unfold mbind at 1, ST_bind at 1. rewrite (page_from _ _ _ _ p s) by done.
  rewrite entry_page_firstn by done. cbn [wp_Items wp_NextCursor]. rewrite Z.gtb_ltb.
  set (n := page_size limit) in *.
  assert (length (walletEntry <$> firstn (Z.to_nat n) s) ≤ Z.to_nat n)%nat as Hlen.
  { rewrite length_fmap, length_firstn. lia. }
  destruct (n <? Z.of_nat (length s)) eqn:Hmore; reflect_bools.
  - destruct (next_page n s) as (q & x & Hq & -> & Hx); [done|lia|done|].
    destruct (parse_next_cursor x Hx) as (Hparse & Hblank & Hne).
    rewrite (proj2 (String.eqb_neq _ _) Hne).
    destruct (IH (next_cursor x) (p ++ q ++ [x]) (skipn (Z.to_nat n) s))
      as (pages & Hr & Hc & Hl & Hcount).
    + by rewrite <- Hq, <- app_assoc, firstn_skipn.
    + right. exists (p ++ q), x. by rewrite <- app_assoc.
    + by apply Forall_drop.
    + rewrite length_skipn. lia.
    + unfold mbind, ST_bind. rewrite Hr. unfold mret, ST_ret. eexists. split; [done|].
      rewrite concat_cons, Hc, <- fmap_app, firstn_skipn. split; [done|].
      split; [constructor; [lia|done]|]. rewrite length_skipn in Hcount. cbn [length].
      rewrite page_count_next by lia. replace (Z.of_nat (length s) - n) with
        (Z.of_nat (length s - Z.to_nat n)) by lia. lia.
  - exists [walletEntry <$> firstn (Z.to_nat n) s]. split; [done|]. simpl. rewrite app_nil_r.
    rewrite firstn_all2 in * by lia. split; [done|]. split; [repeat constructor; lia|].
    by rewrite page_count_last by lia.
Qed.

(** ** Entries are filed in every reachable database *)

Definition files (d d' : DB) : Prop := entries_filed d → entries_filed d'.

#[export] Instance files_preorder : PreOrder files.
Proof. split; [by intros d ?|]. intros d1 d2 d3 H1 H2 ?. auto. Qed.

Lemma files_insert d m : files d (put_rows entries (<[e_EntryID m := m]> (rows entries d)) d).
Proof.
  intros Hf k e. unfold entries_filed in Hf. rewrite rows_put.
  intros [[<- <-]|[_ Hk]]%lookup_insert_Some; [done|]. by apply Hf.
Qed.
End entry_pages.

#[export] Hint Extern 0 (Writes (on_db files) _) =>
  solve [intros ?? Hf ??; read_tables; apply Hf] : typeclass_instances.
#[export] Hint Extern 0 (Inserts (on_db files) _) =>
  solve [intros ???? Hf ??; read_tables; apply Hf
        |intros ????; apply files_insert] : typeclass_instances.

Section filed.
Context `{Env}.

Lemma run_files c : keeps (on_db files) (run c).
Proof.
  destruct c; simpl; unfold void, CommitCommercialPurchase, ReleaseCommercialPurchase;
    solve_keeps.
Qed.

Lemma reachable_filed w : reachable w → entries_filed (the_db w).
Proof.
  induction 1 as [|c w _ IH]; [by intros k e Hk|]. by apply (run_files c w).
Qed.
End filed.

(** * Properties *)

Section page_properties.
Context `{Env, Collation}.

(** C37. Paging. In any reachable database, following the cursors from the first
    page of a wallet ends after as many pages as its entries fill, at least one:
    together the pages are all the entries of the wallet, newest first, each
    once, none longer than the limit; and nothing is written. It takes entries
    whose instants have years of four digits and whose identities are not blank. *)
Theorem statement_read_in_pages (org cursor : string) (limit : Z) (fuel : nat) (w : World)
    (Hre : reachable w) (Horg : blank org = false) (Hcur : blank cursor = true)
    (Hlim : 0 ≤ limit ≤ MaxOrganizationWalletEntryPageSize)
    (Hread : Forall readable (statement (the_db w) (TrimSpace org) WalletCurrencyCNY))
    (Hfuel : (length (statement (the_db w) (TrimSpace org) WalletCurrencyCNY) < fuel)%nat) :
  let st := statement (the_db w) (TrimSpace org) WalletCurrencyCNY in
  StronglySorted newest_first st ∧
  (∀ e, e ∈ st ↔ rows entries (the_db w) !! e_EntryID e = Some e ∧
     e_OrganizationID e = TrimSpace org ∧ e_Currency e = WalletCurrencyCNY) ∧
  ∃ pages, read_pages fuel org WalletCurrencyCNY cursor limit w = (Ok (Some pages), w) ∧
    concat pages = walletEntry <$> st ∧ NoDup (we_EntryID <$> concat pages) ∧
    Forall (λ q, Z.of_nat (length q) ≤ page_size limit) pages ∧
    Z.of_nat (length pages) = page_count (page_size limit) (Z.of_nat (length st)).
Proof.
  intros st. pose proof (reachable_filed w Hre) as Hf.
  split; [apply statement_sorted|]. split.
  - intros e. unfold st, statement. rewrite merge_sort_Permutation, elem_of_rows_where.
    rewrite andb_true_iff, !String.eqb_eq. split.
    + intros [? [k Hk]]. by rewrite (Hf k e Hk).
    + intros (? & ? & ?). eauto.
  - apply String.eqb_neq in Horg.
    destruct (read_pages_from fuel org WalletCurrencyCNY cursor limit [] st w)
      as (pages & Hr & Hc & Hl & Hn); [done|done|done|done|done|by left|done|done|].
    exists pages. split; [done|]. split; [done|]. split; [|done].
    rewrite Hc, <- list_fmap_compose. by apply statement_NoDup.
Qed.

(** Cursors read back. The cursor written after an entry is read as the
    instant and identity of that entry, so cursors of different entries differ;
    it is never taken for the empty cursor of a first page. *)
Theorem entry_cursor_reads_back (a b : organizationWalletEntryRow)
    (Ha : readable a) (Hb : readable b) :
  parse_cursor (next_cursor a) = Ok (e_OccurredAt a, e_EntryID a) ∧
  blank (next_cursor a) = false ∧
  (next_cursor a = next_cursor b → e_OccurredAt a = e_OccurredAt b ∧ e_EntryID a = e_EntryID b).
Proof.
  destruct (parse_next_cursor a Ha) as (Hpa & Hba & _), (parse_next_cursor b Hb) as (Hpb & _).
  split; [done|]. split; [done|]. intros He. rewrite He, Hpb in Hpa. by injection Hpa.
Qed.
End page_properties.

(** ** Witnesses *)

#[export] Instance readable_dec e : Decision (readable e).
Proof. unfold readable. apply _. Defined.

Lemma statement_read_in_pages_witness : ∃ pages,
  read_pages (H:=c_collation) 9 "org-1" WalletCurrencyCNY "" 3 (demo_world 5) =
    (Ok (Some pages), demo_world 5) ∧ length pages = 2%nat ∧ length (concat pages) = 4%nat.
Proof.
  pose proof (demo_reachable 5) as Hre.
  assert (bool_decide (Forall readable (statement (H:=c_collation) (the_db (demo_world 5))
    (TrimSpace "org-1") WalletCurrencyCNY)) = true) as Hb by (vm_compute; reflexivity).
  assert (length (statement (H:=c_collation) (the_db (demo_world 5))
    (TrimSpace "org-1") WalletCurrencyCNY) = 4%nat) as Hl by (vm_compute; reflexivity).
  revert Hre Hb Hl. generalize (demo_world 5). intros w Hre Hb Hl. apply bool_decide_eq_true in Hb.
  destruct (statement_read_in_pages (H:=demo_env) (H0:=c_collation) "org-1" "" 3 9 w Hre) as (_ & _ & pages & Hr & Hc & _ & _ & Hn);
    [reflexivity|reflexivity|split; discriminate|exact Hb|rewrite Hl; lia|].
  exists pages. split; [exact Hr|]. rewrite Hc, length_fmap, Hl. split; [|reflexivity].
  rewrite Hl in Hn. change (Z.of_nat (length pages) = 2) in Hn. lia.
Defined.

(** An entry of noon of 2026-01-02, one microsecond past. *)
Definition sample_row : organizationWalletEntryRow :=
  {| e_EntryID := "0b6c"; e_OrganizationID := "org-1"; e_Currency := WalletCurrencyCNY;
     e_Kind := WalletEntryTopUpCredit; e_AvailableDelta := 100; e_ReservedDelta := 0;
     e_DebtDelta := 0; e_AvailableAfter := 100; e_ReservedAfter := 0; e_DebtAfter := 0;
     e_CommercialOrderID := "order-1"; e_PaymentID := "payment-1"; e_SourceIdentity := "payment-1";
     e_OccurredAt := (62135596800 + 1767355200) * Second + 1000 |}.

Lemma entry_cursor_reads_back_witness :
  next_cursor sample_row = "MjAyNi0wMS0wMlQxMjowMDowMC4wMDAwMDFafDBiNmM"%string ∧
  parse_cursor (next_cursor sample_row) = Ok (e_OccurredAt sample_row, "0b6c"%string).
Proof.
  split; [vm_compute; reflexivity|].
  assert (readable sample_row) as Hr by (apply (bool_decide_unpack _); vm_compute; exact I).
  exact (proj1 (entry_cursor_reads_back sample_row sample_row Hr Hr)).
Defined.
