(* ===== verification/WalletLaws.v ===== *)
(** * What the wallet operations do

    The functional behaviour of the wallet repository on top of the balances
    that Ledger proves: outcomes and overflow of a reservation, replays, the
    life of a reservation, the exact effect of a credit, of a commit and of a
    release. *)
From S2P Require Import Prelude GoStd Encoding MoneyTypes ProviderTopUp ServiceMoney Store MoneyStore WalletSpec WalletRepo TopUpRepo ServiceRepo SettlementRepo Ledger.

(** ** The life of a reservation *)

(** A reservation stays as it is, or is finished once, from RESERVED. *)
Definition reservation_step (r r' : walletReservationRow) : Prop :=
  r' = r ∨
  (r_State r = WalletReservationReserved ∧ ∃ terminal op at_,
     (terminal = WalletReservationCommitted ∨ terminal = WalletReservationReleased) ∧
     r' = finish_row r terminal op at_).

Definition reservations_evolve (d d' : DB) : Prop :=
  ∀ k r, rows reservations d !! k = Some r →
    ∃ r', rows reservations d' !! k = Some r' ∧ reservation_step r r'.

(** ** Requests to reserve *)

Definition purchase_key (i : ReserveWalletFundsInput) : string * string * string :=
  (rw_OrganizationID i, rw_OperationID i, rw_CommercialOrderID i).

(** The guards of ReserveCommercialPurchase. *)
Definition purchase_valid (i : ReserveWalletFundsInput) : bool :=
  negb (blank (rw_OrganizationID i) || blank (rw_OperationID i)
    || blank (rw_CommercialOrderID i) || (rw_Currency i ≠s WalletCurrencyCNY)
    || (rw_AmountMinor i <=? 0)).

(** Identifiers with no space around them and of at most 128 bytes. *)
Definition purchase_canonical (i : ReserveWalletFundsInput) : bool :=
  isCanonicalWalletIdentifier (rw_OrganizationID i)
  && isCanonicalWalletIdentifier (rw_OperationID i)
  && isCanonicalWalletIdentifier (rw_CommercialOrderID i).

(** A request seen for the first time, with UUIDs no row has. *)
Record fresh_purchase `{Env} (i : ReserveWalletFundsInput) (w : World) : Prop := {
  fp_decision : rows decisions (the_db w) !! purchase_key i = None;
  fp_reservation : rows reservations (the_db w) !! uuid_stream (uuids_used w) = None;
  fp_entry : rows entries (the_db w) !! uuid_stream (S (uuids_used w)) = None;
  fp_request : ∀ k r, rows reservations (the_db w) !! k = Some r →
    r_OperationID r ≠ rw_OperationID i ∨ r_CommercialOrderID r ≠ rw_CommercialOrderID i }.

(** The tables record what was decided on a request. *)
Definition decided (i : ReserveWalletFundsInput) (out : option WalletReservation) (d : DB) : Prop :=
  ∃ row, rows decisions d !! purchase_key i = Some row ∧
    WalletReserveDecision_Validate (reserveDecisionFromRow row) = None ∧
    d_Currency row = rw_Currency i ∧ d_AmountMinor row = rw_AmountMinor i ∧
    (d_OrganizationID row, d_OperationID row, d_CommercialOrderID row) = purchase_key i ∧
  match out with
  | None => d_Outcome row = WalletReserveDecisionRejectedInsufficientFunds
  | Some r => d_Outcome row = WalletReserveDecisionReserved ∧
    ∃ res, rows reservations d !! d_ReservationID row = Some res ∧ reservationFromRow res = r ∧
      (r_OrganizationID res, r_OperationID res, r_CommercialOrderID res) = purchase_key i ∧
      r_Currency res = rw_Currency i ∧ r_AmountMinor res = rw_AmountMinor i
  end.

(** The same reservation, perhaps finished since. *)
Definition same_reservation (r r' : WalletReservation) : Prop :=
  wr_ReservationID r' = wr_ReservationID r ∧ wr_OrganizationID r' = wr_OrganizationID r ∧
  wr_OperationID r' = wr_OperationID r ∧ wr_CommercialOrderID r' = wr_CommercialOrderID r ∧
  wr_Currency r' = wr_Currency r ∧ wr_AmountMinor r' = wr_AmountMinor r ∧
  wr_CreatedAt r' = wr_CreatedAt r ∧
  (r' = r ∨ wr_State r = WalletReservationReserved).

(** An answer a retry must repeat: a reservation under a canonical identifier,
    or the refusal for want of funds. *)
Definition final_answer (res : result WalletReservation) : Prop :=
  match res with
  | Ok r => isCanonicalWalletIdentifier (wr_ReservationID r) = true
  | Err e => e = ErrWalletInsufficientBalance
  end.
Definition same_answer (res res' : result WalletReservation) : Prop :=
  match res, res' with
  | Ok r, Ok r' => same_reservation r r'
  | Err e, Err e' => e' = e
  | _, _ => False
  end.

(** ** Requests to finish *)

(** An open reservation that [op] may finish, with a UUID no entry has. *)
Record finishable `{Env} (op : string) (r : walletReservationRow) (w : World) : Prop := {
  fn_row : rows reservations (the_db w) !! r_ReservationID r = Some r;
  fn_open : r_State r = WalletReservationReserved;
  fn_ids : blank op || (slen op >? 128) || blank (r_OrganizationID r)
    || blank (r_CommercialOrderID r) || blank (r_ReservationID r) = false;
  fn_op : ∀ k x, rows reservations (the_db w) !! k = Some x → r_FinishOperationID x ≠ Some op;
  fn_entry : rows entries (the_db w) !! uuid_stream (uuids_used w) = None }.

(** The account a snapshot shows. *)
Definition snapshot_account (s : OrganizationWalletSnapshot) : Account :=
  Build_Account (ws_AvailableMinor s) (ws_ReservedMinor s) (ws_DebtMinor s)
    (ws_LifetimeTopUpMinor s) (ws_LifetimeSpendMinor s).

(** * Lemmas *)

#[export] Instance reservation_step_preorder : PreOrder reservation_step.
Proof.
  split; [by left|]. intros r1 r2 r3 [->|(Hs & t & op & at_ & Ht & ->)] H23; [done|].
  right. split; [done|]. destruct H23 as [->|[Hs' _]]; [eauto 6|].
  exfalso. simpl in Hs'. destruct Ht as [-> | ->]; discriminate.
Qed.

#[export] Instance reservations_evolve_preorder : PreOrder reservations_evolve.
Proof.
  split; [intros d k r Hr; exists r; by split; [|left]|].
  intros d1 d2 d3 H12 H23 k r Hr. destruct (H12 k r Hr) as (r2 & Hr2 & S12).
  destruct (H23 k r2 Hr2) as (r3 & Hr3 & S23). exists r3. split; [done|]. by etrans.
Qed.

Lemma same_reservations_evolve d d' : rows reservations d' = rows reservations d →
  reservations_evolve d d'.
Proof. intros Hs k r Hr. exists r. rewrite Hs. by split; [|left]. Qed.

#[export] Hint Extern 0 (Writes (on_db reservations_evolve) _) =>
  solve [intros ??; by apply same_reservations_evolve] : typeclass_instances.
#[export] Instance evolve_insert : Inserts (on_db reservations_evolve) reservations.
Proof.
  intros w v Hn _ k r Hr. exists r. read_tables. split; [|by left].
  rewrite lookup_insert_ne; [done|]. congruence.
Qed.

(** ** Errors a computation does not end in *)

Definition never {A} (e : goerr) (m : ST World A) : Prop := ∀ w w', m w ≠ (Err e, w').

Section never_lemmas.
Context (e : goerr).

Lemma never_bind {A B} (m : ST World A) (k : A → ST World B) :
  never e m → (∀ a, never e (k a)) → never e (mbind k m).
Proof.
  intros Hm Hk w w' Hr. apply bind_Err in Hr as [Hr|(a & w1 & _ & Hr)]; [by apply Hm in Hr|].
  by apply Hk in Hr.
Qed.
Lemma never_guard_not b x : x ≠ e → never e (guard_not b x : ST World unit).
Proof. intros Hne w w'. unfold guard_not. case_match; congruence. Qed.
Lemma never_found {V} x (o : option V) : x ≠ e → never e (found x o).
Proof. intros Hne w w'. unfold found. case_match; [done|]. intros [=]. done. Qed.
Lemma never_or_error {A} x (m : ST World A) : x ≠ e → never e (or_error x m).
Proof. intros Hne w w'. unfold or_error. destruct (m w) as [[] ?]; congruence. Qed.
Lemma never_Create {K V} `{Countable K} (t : Table K V) v :
  ErrDuplicatedKey ≠ e → never e (Create t v).
Proof. intros Hne w w'. unfold Create. case_match; congruence. Qed.
Lemma never_CreateIgnore {K V} `{Countable K} (t : Table K V) v : never e (CreateIgnore t v).
Proof. intros w w'. unfold CreateIgnore. by case_match. Qed.
End never_lemmas.

Ltac never_step :=
  lazymatch goal with
  | |- never _ (mbind _ _) => apply never_bind; [|intros ?]
  | |- never _ (guard_not _ _) => apply never_guard_not; discriminate
  | |- never _ (found _ _) => apply never_found; discriminate
  | |- never _ (or_error _ _) => apply never_or_error; discriminate
  | |- never _ (Create _ _) => apply never_Create; discriminate
  | |- never _ (CreateIgnore _ _) => apply never_CreateIgnore
  | |- never _ (match ?x with _ => _ end) => destruct x
  | |- never _ _ => by intros ??
  end.
Ltac solve_never := cbv zeta; repeat (never_step; cbv beta zeta).

Section wallet_laws.
Context `{Env}.

Lemma finishReservation_evolves op org order id t k w : ledger_ok (the_db w) →
  t = WalletReservationCommitted ∨ t = WalletReservationReleased →
  reservations_evolve (the_db w) (the_db (finishReservation op org order id t k w).2).
Proof.
  intros Hok Ht. destruct (finishReservation op org order id t k w) as [[out|e] w'] eqn:Hr; simpl.
  - apply finishReservation_run in Hr as [[-> _]|(r & Hl & _ & _ & Hs & Hm & _)]; [done| |done..].
    intros j r' Hr'. rewrite Hm. destruct (decide (j = id)) as [->|Hne].
    + rewrite lookup_insert_eq. simplify_eq. eexists. split; [done|]. right. eauto 6.
    + rewrite lookup_insert_ne by done. exists r'. by split; [|left].
  - assert (aborts (finishReservation op org order id t k)) as Ha
      by (unfold finishReservation; solve_aborts).
    apply Ha in Hr. by rewrite Hr.
Qed.

Definition evolving (w w' : World) : Prop :=
  ledger_ok (the_db w) → reservations_evolve (the_db w) (the_db w').

Lemma keeps_evolving {A} (m : ST World A) : keeps (on_db reservations_evolve) m → keeps evolving m.
Proof. intros Hm w _. apply Hm. Qed.

Lemma void_evolving {A} (m : ST World A) : keeps evolving m → keeps evolving (void m).
Proof.
  intros Hm w. unfold void, mbind, ST_bind. specialize (Hm w). by destruct (m w) as [[] ?].
Qed.

Lemma run_evolves c : keeps evolving (run c).
Proof.
  destruct c;
    lazymatch goal with
    | |- keeps _ (run (RunCommitCommercialPurchase _)) =>
      apply void_evolving; intros w Hok; apply finishReservation_evolves; [done|by left]
    | |- keeps _ (run (RunReleaseCommercialPurchase _)) =>
      apply void_evolving; intros w Hok; apply finishReservation_evolves; [done|by right]
    | |- _ => apply keeps_evolving; simpl; unfold void; solve_keeps
    end.
Qed.

Lemma run_all_evolves cs w : reachable w → Forall command_typed cs →
  reservations_evolve (the_db w) (the_db (run_all cs w)).
Proof.
  revert w. induction cs as [|c cs IH]; intros w Hr Hty; [done|].
  inversion Hty; subst. etrans; [by apply (run_evolves c w), reachable_ledger_ok|].
  apply IH; [by apply reach_step|done].
Qed.

(** ** Reserving, forward *)

Lemma lockOrCreateWallet_yields org w : tables_ok (the_db w) →
  yields (lockOrCreateWallet org WalletCurrencyCNY) w (λ row w1,
    (the_db w1 = put_rows wallets (<[(org, WalletCurrencyCNY) := row]> (rows wallets (the_db w)))
                (the_db w) ∧
     w_OrganizationID row = org ∧ w_Currency row = WalletCurrencyCNY ∧
     account_of row = account (the_db w) org) ∧ uuids_used w1 = uuids_used w).
Proof.
  intros Hok. apply (yields_mono _ _ (λ _ w1, uuids_used w1 = uuids_used w)).
  - unfold lockOrCreateWallet. apply yields_bind, wp_Now. intros w1 Hdb Hu.
    apply yields_bind, wp_CreateIgnore.
    + intros Hd. apply yields_bind, wp_take_pk. apply duplicate_pk in Hd as [row Hrow]; [|done].
      by apply (wp_found _ _ _ _ _ _ Hrow).
    + intros _. apply yields_bind, wp_take_pk. eapply wp_found; [apply lookup_insert_eq|done].
  - intros row w1 Hr Hu. split; [|done]. by apply lockOrCreateWallet_run.
Qed.

Lemma purchase_valid_spec i : purchase_valid i = true →
  blank (rw_CommercialOrderID i) = false ∧ rw_Currency i = WalletCurrencyCNY ∧
  0 < rw_AmountMinor i.
Proof. unfold purchase_valid. intros. reflect_bools. destruct_and!. repeat split; [done..|lia]. Qed.

Lemma nextWalletProcessingTimestamp_yields t w : yields (nextWalletProcessingTimestamp t) w
  (λ _ w', the_db w' = the_db w ∧ uuids_used w' = uuids_used w).
Proof. done. Qed.

Lemma createWalletEntry_yields wallet kind av res debt order payment source at_ w :
  blank source = false → rows entries (the_db w) !! uuid_stream (uuids_used w) = None →
  yields (createWalletEntry wallet kind av res debt order payment source at_) w (λ _ _, True).
Proof.
  intros Hs He. unfold createWalletEntry. rewrite Hs. apply yields_bind; simpl.
  apply yields_bind, wp_NewString. intros w1 Hdb Hu. apply wp_Create; simpl; [by rewrite Hdb| |done].
  by apply map_find_none.
Qed.

Lemma decide_reservation_yields i wallet w :
  in_int64 (rw_AmountMinor i) → 0 < rw_AmountMinor i → blank (rw_CommercialOrderID i) = false →
  0 ≤ w_ReservedMinor wallet →
  w_AvailableMinor wallet + w_ReservedMinor wallet ≤ max_int64 → fresh_purchase i w →
  yields (decide_reservation i wallet) w (λ o _,
    if w_AvailableMinor wallet <? rw_AmountMinor i then o = None
    else ∃ r, o = Some r ∧ wr_ReservationID r = uuid_stream (uuids_used w) ∧
      wr_State r = WalletReservationReserved ∧ wr_AmountMinor r = rw_AmountMinor i).
Proof.
  intros Hty Hn Hb Hres Hfit [Hd Hr He Hq]. unfold decide_reservation.
  destruct (_ <? _) eqn:Hlt.
  - apply yields_bind, wp_Now. intros w1 Hdb _. apply yields_bind, wp_or_error, wp_Create; simpl.
    + by rewrite Hdb.
    + by apply map_find_none.
    + done.
  - reflect_bools. apply yields_bind, wp_guard_not; [intros Hg|intros _].
    { i64_norm. reflect_bools. i64_bounds. }
    apply yields_bind. eapply yields_mono; [apply nextWalletProcessingTimestamp_yields|].
    intros now w1 _ [Hdb1 Hu1]. apply yields_bind, wp_NewString. intros w2 Hdb2 Hu2.
    apply yields_bind, wp_Update. apply yields_bind, wp_or_error, wp_Create.
    { read_tables. simpl. by rewrite Hdb2, Hdb1, Hu1. }
    { read_tables. rewrite Hdb2, Hdb1. apply map_find_none. intros k r Hk. simpl.
      rewrite orb_false_r. apply andb_false_iff.
      destruct (Hq k r Hk); [left|right]; apply eqb_ne; congruence. }
    apply yields_bind, wp_or_error, wp_Create.
    { read_tables. simpl. by rewrite Hdb2, Hdb1. }
    { by apply map_find_none. }
    apply yields_bind. eapply yields_mono; [apply createWalletEntry_yields; [done|]|].
    { read_tables. simpl. by rewrite Hdb2, Hdb1, Hu2, Hu1. }
    intros [] w3 _ _. apply wp_ret. eexists. split; [done|]. simpl. by rewrite Hu1.
Qed.

Lemma reserve_transaction_yields i w : ledger_ok (the_db w) → typed i →
  purchase_valid i = true → fresh_purchase i w →
  yields (reserve_transaction i) w (λ o _,
    if a_available (account (the_db w) (rw_OrganizationID i)) <? rw_AmountMinor i then o = None
    else ∃ r, o = Some r ∧ wr_ReservationID r = uuid_stream (uuids_used w) ∧
      wr_State r = WalletReservationReserved ∧ wr_AmountMinor r = rw_AmountMinor i).
Proof.
  intros Hok Hty Hv Hf. apply purchase_valid_spec in Hv as (Hb & Hc & Hn).
  assert (∀ w1, rows decisions (the_db w1) = rows decisions (the_db w) →
    readWalletReserveDecision i w1 = (Ok None, w1)) as Hread.
  { intros w1 Hw1. unfold readWalletReserveDecision, mbind, ST_bind, take_pk, gets, table.
    rewrite Hw1. change (_ !! _) with (rows decisions (the_db w) !! purchase_key i).
    by rewrite (fp_decision _ _ Hf). }
  unfold reserve_transaction. apply yields_bind. unfold yields at 1, wp. rewrite Hread by done.
  rewrite Hc. apply yields_bind. eapply yields_mono; [apply lockOrCreateWallet_yields, Hok|].
  intros row w1 _ [(Hdb & Ho & Hcu & Hacc) Hu].
  apply yields_bind. unfold yields at 1, wp. rewrite Hread by (rewrite Hdb; by read_tables).
  pose proof (within_topups _ (rw_OrganizationID i) Hok) as Hin.
  pose proof (account_bounds _ (rw_OrganizationID i) Hok) as Hab.
  rewrite <- Hacc, <- Hu in *. simpl in Hin, Hab |- *. destruct_and!.
  apply decide_reservation_yields; [done|done|done|lia|lia|].
  destruct Hf as [Hd Hr He Hq]. split; rewrite ?Hdb, ?Hu; by read_tables.
Qed.

(** ** What is on record of a request *)

Lemma readReservationForDecision_Ok d w r w' : readReservationForDecision d w = (Ok r, w') →
  w' = w ∧ wd_Outcome d = WalletReserveDecisionReserved ∧
  ∃ res, rows reservations (the_db w) !! wd_ReservationID d = Some res ∧ r = reservationFromRow res ∧
    (r_OrganizationID res, r_OperationID res, r_CommercialOrderID res) =
      (wd_OrganizationID d, wd_OperationID d, wd_CommercialOrderID d) ∧
    r_Currency res = wd_Currency d ∧ r_AmountMinor res = wd_AmountMinor d.
Proof.
  unfold readReservationForDecision. intros Hr. inv_run.
  match goal with H : ∀ v, Some ?x = Some v → _ |- _ => destruct (H x eq_refl) as [Hl Hp] end.
  reflect_bools. destruct_and!. split; [done|]. split; [done|]. eexists. split; [done|].
  split; [done|]. split; [congruence|]. done.
Qed.

(** The keys of the decisions are those of their rows. *)
Definition decisions_ok (d : DB) : Prop := ∀ k row, rows decisions d !! k = Some row →
  k = (d_OrganizationID row, d_OperationID row, d_CommercialOrderID row).

Lemma read_decided i w dec : decisions_ok (the_db w) →
  readWalletReserveDecision i w = (Ok (Some dec), w) →
  ∃ row, rows decisions (the_db w) !! purchase_key i = Some row ∧ dec = reserveDecisionFromRow row ∧
    WalletReserveDecision_Validate dec = None ∧ d_Currency row = rw_Currency i ∧
    d_AmountMinor row = rw_AmountMinor i ∧
    (d_OrganizationID row, d_OperationID row, d_CommercialOrderID row) = purchase_key i.
Proof.
  intros Hok Hr. apply readWalletReserveDecision_run in Hr as (_ & Hd & Hs). symmetry in Hd.
  apply fmap_Some in Hd as (row & Hrow & ->). destruct (Hs _ eq_refl) as (?&?&?).
  exists row. split; [exact Hrow|]. repeat split; [done..|]. by rewrite <- (Hok _ _ Hrow).
Qed.

Lemma replay_recorded i w dec out w' : decisions_ok (the_db w) →
  readWalletReserveDecision i w = (Ok (Some dec), w) → replay_decision dec w = (Ok out, w') →
  decided i out (the_db w').
Proof.
  intros Hok Hread Hr. apply read_decided in Hread as (row&Hrow&->&Hv&Hc&Ha&Hk); [|done].
  unfold replay_decision in Hr. exists row.
  destruct (wd_Outcome _ =s _) eqn:Ho.
  - apply ret_Ok in Hr as [-> ->]. repeat split; [done..|]. by apply String.eqb_eq.
  - apply bind_Ok in Hr as (r & w1 & Hr & Hret). apply ret_Ok in Hret as [-> ->].
    apply readReservationForDecision_Ok in Hr as (->&Hout&res&Hres&->&Hk'&Hc'&Ha').
    simpl in *. repeat split; [done..|]. exists res.
    repeat split; [done|congruence..].
Qed.

(** A canonical request leaves a decision that replays. *)
Lemma decide_recorded i wallet w out w' : (∀ n, Microsecond ≤ clock_stream n) →
  purchase_canonical i = true → rw_Currency i = WalletCurrencyCNY → 0 < rw_AmountMinor i →
  (∀ r, out = Some r → isCanonicalWalletIdentifier (wr_ReservationID r) = true) →
  decide_reservation i wallet w = (Ok out, w') → decided i out (the_db w').
Proof.
  unfold purchase_canonical. intros Hclk Hcan Hc Hn Hid Hr.
  rewrite !andb_true_iff in Hcan. destruct Hcan as [[Hc1 Hc2] Hc3].
  assert (∀ t t', Microsecond ≤ t → Truncate t' Microsecond < t → IsZero t = false) as Hz.
  { intros t _ Ht _. unfold IsZero, Microsecond in *. lia. }
  assert (∀ t, Microsecond ≤ t → Microsecond ≤ Truncate t Microsecond) as Htr.
  { intros t. unfold Truncate, Microsecond. Z.to_euclidean_division_equations. lia. }
  unfold decide_reservation in Hr. destruct (_ <? _).
  - apply bind_Ok in Hr as (now & w1 & Hnow & Hr). unfold Now in Hnow. injection Hnow as <- <-.
    apply bind_Ok in Hr as ([] & w2 & Hcr & Hr). apply or_error_Ok, Create_Ok in Hcr as (_&_&->).
    apply ret_Ok in Hr as [-> ->].
    eexists. read_tables. split; [apply lookup_insert_eq|]. simpl. repeat split; [|done..].
    unfold WalletReserveDecision_Validate. simpl. rewrite Hc1, Hc2, Hc3, Hc. simpl.
    replace (rw_AmountMinor i <=? 0) with false by lia. simpl.
    unfold IsZero. replace (Truncate _ _ =? 0) with false; [done|].
    symmetry. apply Z.eqb_neq. specialize (Htr _ (Hclk (clock_reads w))). unfold Microsecond in *. lia.
  - apply bind_Ok in Hr as ([] & w1 & Hg & Hr). apply guard_not_Ok in Hg as [_ ->].
    apply bind_Ok in Hr as (now & w1 & Hnow & Hr).
    assert (IsZero now = false) as Hnz.
    { unfold nextWalletProcessingTimestamp, Now in Hnow. apply bind_Ok in Hnow as (t & w2 & Ht & Hnow).
      injection Ht as <- <-. apply ret_Ok in Hnow as [-> _].
      specialize (Htr _ (Hclk (clock_reads w))). unfold IsZero, Microsecond in *.
      apply Z.eqb_neq. case_match; reflect_bools; lia. }
    apply bind_Ok in Hr as (id & w2 & Hu & Hr).
    apply bind_Ok in Hr as ([] & w3 & Hs & Hr).
    apply bind_Ok in Hr as ([] & w4 & Hres & Hr). apply or_error_Ok, Create_Ok in Hres as (_&_&->).
    apply bind_Ok in Hr as ([] & w4 & Hdec & Hr). apply or_error_Ok, Create_Ok in Hdec as (_&_&->).
    apply bind_Ok in Hr as ([] & w4 & He & Hr). apply createWalletEntry_run in He as (e&E&Hdb&_).
    apply ret_Ok in Hr as [-> ->]. rewrite Hdb. specialize (Hid _ eq_refl). simpl in Hid.
    eexists. read_tables. split; [apply lookup_insert_eq|]. simpl. repeat split; [|done..|].
    + unfold WalletReserveDecision_Validate. simpl. rewrite Hc1, Hc2, Hc3, Hc, Hnz, Hid. simpl.
      by replace (rw_AmountMinor i <=? 0) with false by lia.
    + eexists. split; [apply lookup_insert_eq|]. done.
Qed.

Lemma reserve_recorded i w out w' : (∀ n, Microsecond ≤ clock_stream n) →
  decisions_ok (the_db w) → tables_ok (the_db w) →
  purchase_canonical i = true → rw_Currency i = WalletCurrencyCNY → 0 < rw_AmountMinor i →
  (∀ r, out = Some r → isCanonicalWalletIdentifier (wr_ReservationID r) = true) →
  reserve_transaction i w = (Ok out, w') → decided i out (the_db w').
Proof.
  intros Hclk Hdok Htab Hcan Hc Hn Hid Hr. unfold reserve_transaction in Hr.
  apply bind_Ok in Hr as (o & w1 & Hread & Hr).
  pose proof (readWalletReserveDecision_run _ _ _ _ Hread) as [-> _].
  destruct o as [dec|]; [by eapply replay_recorded|].
  rewrite Hc in Hr. apply bind_Ok in Hr as (row & w1 & Hl & Hr).
  apply lockOrCreateWallet_run in Hl as (Hdb & _); [|done].
  apply bind_Ok in Hr as (o & w2 & Hread2 & Hr).
  pose proof (readWalletReserveDecision_run _ _ _ _ Hread2) as [-> _].
  destruct o as [dec|]; [|by eapply decide_recorded].
  eapply replay_recorded; [|done..]. intros k x. rewrite Hdb. read_tables. apply Hdok.
Qed.

(** What is on record is what the same request gets from then on. *)
Lemma decided_replays i out w : decided i out (the_db w) →
  reserve_transaction i w = (Ok out, w).
Proof.
  intros (row & Hrow & Hv & Hc & Ha & Hk & Hout). injection Hk as Hk1 Hk2 Hk3.
  assert (readWalletReserveDecision i w = (Ok (Some (reserveDecisionFromRow row)), w)) as Hread.
  { unfold readWalletReserveDecision, mbind, ST_bind, take_pk, gets, table.
    unfold purchase_key in Hrow. rewrite Hrow, Hv. simpl. rewrite Hc, Ha.
    by rewrite String.eqb_refl, Z.eqb_refl. }
  unfold reserve_transaction, mbind at 1, ST_bind at 1. rewrite Hread.
  unfold replay_decision. simpl. destruct out as [r|].
  - destruct Hout as (Ho & res & Hres & <- & [= E1 E2 E3] & Ec & Ea). rewrite Ho. simpl.
    unfold readReservationForDecision, mbind, ST_bind, take_pk_and, gets, table, guard_not. simpl.
    rewrite Ho. simpl.
    destruct (d_ReservationID row =s "") eqn:Hid.
    { exfalso. unfold WalletReserveDecision_Validate in Hv. simpl in Hv. rewrite Ho in Hv.
      case_match; [done|]. simpl in Hv. reflect_bools. rewrite Hid in Hv. by vm_compute in Hv. }
    simpl in Hres. rewrite Hres. simpl.
    rewrite E1, E2, E3, Hk1, Hk2, Hk3, !String.eqb_refl. simpl.
    by rewrite Ec, Ea, Hc, Ha, String.eqb_refl, Z.eqb_refl.
  - by rewrite Hout.
Qed.

Lemma reservation_step_same r r' : reservation_step r r' →
  same_reservation (reservationFromRow r) (reservationFromRow r').
Proof.
  unfold same_reservation. intros [->|(Hs & t & op & at_ & _ & ->)]; simpl; tauto.
Qed.

Lemma reservation_step_row r r' : reservation_step r r' →
  (r_OrganizationID r', r_OperationID r', r_CommercialOrderID r') =
    (r_OrganizationID r, r_OperationID r, r_CommercialOrderID r) ∧
  r_Currency r' = r_Currency r ∧ r_AmountMinor r' = r_AmountMinor r.
Proof. by intros [->|(Hs & t & op & at_ & _ & ->)]. Qed.

Lemma decided_evolves i out d d' : facts_grow d d' → reservations_evolve d d' →
  decided i out d →
  ∃ out', decided i out' d' ∧
    match out, out' with
    | Some r, Some r' => same_reservation r r'
    | None, None => True
    | _, _ => False
    end.
Proof.
  intros ((_ & Hdec & _) & _) Hev (row & Hrow & Hv & Hc & Ha & Hk & Hout).
  assert (rows decisions d' !! purchase_key i = Some row) as Hrow' by (by eapply lookup_weaken).
  destruct out as [r|].
  - destruct Hout as (Ho & res & Hres & <- & Ek & Ec & Ea).
    destruct (Hev _ _ Hres) as (res' & Hres' & Hs). exists (Some (reservationFromRow res')).
    pose proof (reservation_step_row _ _ Hs) as (?&?&?). split; [|by apply reservation_step_same].
    exists row. repeat split; [done..|]. exists res'. repeat split; [done|congruence..].
  - exists None. split; [|done]. by exists row.
Qed.
End wallet_laws.

(** ** Indexes

    Every row is under its primary key, and no two rows collide on a unique
    index. Inserting and saving keep that. *)
Record indexed {K V} `{Countable K} (t : Table K V) (d : DB) : Prop := {
  ix_key : ∀ k v, rows t d !! k = Some v → k = pk t v;
  ix_unique : ∀ k1 k2 v1 v2, rows t d !! k1 = Some v1 → rows t d !! k2 = Some v2 → k1 ≠ k2 →
    collides t v1 v2 = false }.

Definition index_stays {K V} `{Countable K} (t : Table K V) (d d' : DB) : Prop :=
  indexed t d → indexed t d'.

Class SymmetricIndex {K V} `{Countable K} (t : Table K V) : Prop :=
  collides_sym : ∀ x y, collides t x y = collides t y x.

Section indexes.
Context {K V : Type} `{Countable K} (t : Table K V) `{!LawfulTable t, !SymmetricIndex t}.

#[export] Instance index_stays_preorder : PreOrder (index_stays t).
Proof. split; unfold index_stays; [by intros ?|]. naive_solver. Qed.

#[export] Instance index_save : Saves (on_db (index_stays t)) t.
Proof.
  intros w v Hn [Hk Hu]. assert (∀ k x, rows t (the_db w) !! k = Some x → k ≠ pk t v →
    collides t v x = false) as Hv.
  { intros k x Hx Hne. eapply (map_find_None _ _ k); [exact Hn|]. by rewrite lookup_delete_ne. }
  unfold write, set_db. split; simpl; rewrite rows_put.
  - intros k x [[<- <-]|[_ Hx]]%lookup_insert_Some; [done|eauto].
  - intros k1 k2 v1 v2 [[<- <-]|[Hn1 H1]]%lookup_insert_Some
      [[<- <-]|[Hn2 H2]]%lookup_insert_Some Hne; [done|eauto| |eauto].
    rewrite collides_sym. eauto.
Qed.

#[export] Instance index_insert : Inserts (on_db (index_stays t)) t.
Proof. intros w v Hk Hn. apply index_save. by rewrite delete_id. Qed.

Lemma indexed_empty : rows t empty_db = ∅ → indexed t empty_db.
Proof. intros He. split; intros *; rewrite He; done. Qed.
End indexes.
#[export] Hint Extern 0 (Writes (on_db (index_stays _)) _) =>
  solve [intros ?? []; split; assumption] : typeclass_instances.

#[export] Instance reservations_symmetric : SymmetricIndex reservations.
Proof.
  intros x y. simpl. rewrite (String.eqb_sym (r_OperationID x)), (String.eqb_sym (r_CommercialOrderID x)).
  f_equal. destruct (r_FinishOperationID x), (r_FinishOperationID y); [|done..].
  apply String.eqb_sym.
Qed.
#[export] Instance decisions_symmetric : SymmetricIndex decisions.
Proof. done. Qed.

Section request_histories.
Context `{Env}.

(** What every command keeps and the empty database has, every reachable one has. *)
Lemma reachable_kept (P : DB → Prop) w : P empty_db →
  (∀ c, keeps (on_db (λ d d', P d → P d')) (run c)) → reachable w → P (the_db w).
Proof. intros HP Hk. induction 1 as [u k|c w _ IH _]; [done|]. by apply (Hk c w). Qed.

Lemma run_decisions_index c : keeps (on_db (index_stays decisions)) (run c).
Proof.
  destruct c; simpl; unfold void, CommitCommercialPurchase, ReleaseCommercialPurchase;
    solve_keeps.
Qed.

Lemma run_reservations_index c : keeps (on_db (index_stays reservations)) (run c).
Proof.
  destruct c; simpl; unfold void, CommitCommercialPurchase, ReleaseCommercialPurchase;
    solve_keeps.
Qed.

Lemma reachable_decisions_ok w : reachable w → decisions_ok (the_db w).
Proof.
  intros Hr k row. apply ix_key. eapply (reachable_kept (indexed decisions)); [|apply run_decisions_index|done].
  by apply indexed_empty.
Qed.

Lemma reachable_reservations_index w : reachable w → indexed reservations (the_db w).
Proof.
  apply (reachable_kept (indexed reservations)); [by apply indexed_empty|apply run_reservations_index].
Qed.

Lemma run_all_facts cs w : facts_grow (the_db w) (the_db (run_all cs w)).
Proof.
  revert w. induction cs as [|c cs IH]; intros w; [reflexivity|].
  etrans; [apply (run_facts_grow c w)|apply IH].
Qed.

Lemma void_world {A} (m : ST World A) w : (void m w).2 = (m w).2.
Proof. unfold void, mbind, ST_bind. by destruct (m w) as [[] ?]. Qed.

Lemma run_all_reachable cs w : reachable w → Forall command_typed cs → reachable (run_all cs w).
Proof.
  revert w. induction cs as [|c cs IH]; intros w Hr Hty; [done|]. inversion Hty; subst.
  apply IH; [by apply reach_step|done].
Qed.

(** A request that was decided is answered the same after any commands. *)
Lemma decided_for_good i out w cs : reachable w → Forall command_typed cs →
  decided i out (the_db w) →
  ∃ out', reserve_transaction i (run_all cs w) = (Ok out', run_all cs w) ∧
    match out, out' with
    | Some r, Some r' => same_reservation r r'
    | None, None => True
    | _, _ => False
    end.
Proof.
  intros Hr Hty Hd. edestruct decided_evolves as (out' & Hd' & Hs); [| |exact Hd|].
  - apply (run_all_facts cs).
  - by apply (run_all_evolves cs).
  - exists out'. split; [by apply decided_replays|done].
Qed.

Lemma ReserveCommercialPurchase_valid i w out w' : purchase_valid i = true →
  reserve_transaction i w = (Ok out, w') →
  ReserveCommercialPurchase i w =
    match out with Some r => (Ok r, w') | None => (Err ErrWalletInsufficientBalance, w') end.
Proof.
  unfold purchase_valid. intros Hv%negb_true_iff Hr.
  unfold ReserveCommercialPurchase. rewrite Hv. unfold mbind, ST_bind, guard_not, Transaction.
  rewrite Hr. by destruct out.
Qed.

Lemma reserve_transaction_never_insufficient i :
  never ErrWalletInsufficientBalance (reserve_transaction i).
Proof.
  unfold reserve_transaction, readWalletReserveDecision, replay_decision, lockOrCreateWallet,
    readReservationForDecision, decide_reservation, nextWalletProcessingTimestamp,
    saveWalletRow, createWalletEntry. solve_never.
Qed.

Lemma reserve_ran i w res w' : ReserveCommercialPurchase i w = (res, w') →
  (∃ r, res = Ok r) ∨ res = Err ErrWalletInsufficientBalance →
  ∃ out, reserve_transaction i w = (Ok out, w') ∧ purchase_valid i = true ∧
    res = match out with Some r => Ok r | None => Err ErrWalletInsufficientBalance end.
Proof.
  intros Hr Hres.
  unfold ReserveCommercialPurchase, mbind, ST_bind, guard_not in Hr. unfold purchase_valid.
  destruct (_ || _); [by destruct Hres as [[? ->]| ->]|].
  unfold Transaction in Hr. destruct (reserve_transaction i w) as [[out|e] w1] eqn:Ht.
  - exists out. destruct out; unfold mret, ST_ret, fail in Hr; by simplify_eq.
  - exfalso. simplify_eq. destruct Hres as [[? ?]|[= ->]]; [done|].
    by apply reserve_transaction_never_insufficient in Ht.
Qed.

(** ** Finishing, forward *)

Lemma reserved_covers d r k : ledger_ok d → rows reservations d !! k = Some r →
  r_State r = WalletReservationReserved →
  0 < r_AmountMinor r ≤ max_int64 ∧
  r_AmountMinor r ≤ a_reserved (account d (r_OrganizationID r)).
Proof.
  intros [Htab Hag] Hr Hs. destruct (ok_reservations _ Htab _ _ Hr) as (_&_&Hn). split; [done|].
  rewrite (ag_held _ _ (Hag (r_OrganizationID r))). unfold books. books_cbn.
  assert (0 ≤ total h_OrganizationID held_amount (rows holds d) (r_OrganizationID r)).
  { apply msum_nonneg. intros k' h Hh. apply (ok_holds _ Htab) in Hh as (_ & Hh & _).
    unfold held_amount. repeat case_match; lia. }
  enough (r_AmountMinor r ≤ total r_OrganizationID reserved_amount (rows reservations d)
    (r_OrganizationID r)) by lia.
  etrans; [|eapply (msum_lookup_le _ _ k r); [|exact Hr]].
  - unfold reserved_amount. by rewrite Hs, !String.eqb_refl.
  - intros k' x Hx. apply (ok_reservations _ Htab) in Hx as (_ & _ & Hx).
    unfold reserved_amount. repeat case_match; lia.
Qed.

Lemma finish_amounts_fit wallet n t :
  0 ≤ w_AvailableMinor wallet → 0 ≤ w_DebtMinor wallet ≤ max_int64 →
  0 ≤ w_LifetimeSpendMinor wallet → 0 < n ≤ w_ReservedMinor wallet →
  w_AvailableMinor wallet + w_ReservedMinor wallet + w_LifetimeSpendMinor wallet ≤ max_int64 →
  ∃ x, finish_amounts wallet n t = Ok x.
Proof.
  intros ?????. unfold finish_amounts. rewrite minInt64_min.
  destruct (t =s _); (case_match; [exfalso; reflect_bools; i64|eexists; reflexivity]).
Qed.

Lemma finishReservation_yields op r t kind w : reachable w → finishable op r w →
  t = WalletReservationCommitted ∨ t = WalletReservationReleased →
  yields (finishReservation op (r_OrganizationID r) (r_CommercialOrderID r) (r_ReservationID r)
    t kind) w (λ out _, wr_State out = t).
Proof.
  intros Hre [Hrow Hs Hids Hop He] Ht. pose proof (reachable_ledger_ok w Hre) as Hok.
  pose proof (reserved_covers _ _ _ Hok Hrow Hs) as [Hn Hcov].
  destruct Hok as [Htab Hag] eqn:Hok'. destruct (ok_reservations _ Htab _ _ Hrow) as (_&Hcny&_).
  unfold finishReservation. rewrite Hids. apply yields_bind; simpl.
  apply wp_Transaction, yields_bind, wp_take. rewrite map_find_none.
  2: { intros k x Hx. specialize (Hop k x Hx). destruct (r_FinishOperationID x); [|done].
       apply eqb_ne. congruence. }
  apply yields_bind, wp_take_pk_and. rewrite Hrow. simpl. rewrite String.eqb_refl.
  apply yields_bind, wp_ret, yields_bind, wp_guard_not; [by rewrite String.eqb_refl|intros _].
  apply yields_bind, wp_guard_not; rewrite Hs; [intros <-%String.eqb_eq; by destruct Ht|intros _].
  apply yields_bind, wp_guard_not; [done|intros _]. rewrite Hcny.
  apply yields_bind. eapply yields_mono; [by apply lockOrCreateWallet_yields|].
  intros wl w1 _ [(Hdb & Ho & Hcu & Hacc) Hu].
  pose proof (within_topups _ (r_OrganizationID r) Hok) as Hin.
  pose proof (account_bounds _ (r_OrganizationID r) Hok) as Hab.
  rewrite <- Hacc in *. simpl in Hin, Hab, Hcov.
  apply yields_bind, wp_guard_not; [intros; reflect_bools; lia|intros _].
  destruct (finish_amounts_fit wl (r_AmountMinor r) t) as [[[[[av db] sp] dav] ddb] Hf]; [lia..|].
  rewrite Hf. apply yields_bind, wp_ret.
  apply yields_bind. eapply yields_mono; [apply nextWalletProcessingTimestamp_yields|].
  intros at_ w2 _ [Hdb2 Hu2]. apply yields_bind, wp_Update.
  apply yields_bind, wp_Now. intros w3 Hdb3 Hu3. apply yields_bind, wp_or_error, wp_Save.
  - read_tables. rewrite Hdb3. read_tables. rewrite Hdb2, Hdb. read_tables. apply map_find_none. intros k x Hx.
    apply lookup_delete_Some in Hx as [Hne Hx]. simpl in Hne |- *.
    pose proof (ix_unique _ _ (reachable_reservations_index w Hre) _ _ _ _ Hrow Hx Hne) as Hc.
    simpl in Hc. apply orb_false_iff in Hc as [Hc _]. rewrite Hc. simpl.
    specialize (Hop k x Hx). destruct (r_FinishOperationID x); [|done]. apply eqb_ne. congruence.
  - apply yields_bind. eapply yields_mono; [apply createWalletEntry_yields|].
    + rewrite !orb_false_iff in Hids. tauto.
    + read_tables. rewrite Hdb3. read_tables. rewrite Hdb2, Hdb. read_tables. cbn [uuids_used write set_db].
      rewrite Hu3. cbn [uuids_used write set_db].
      by rewrite Hu2, Hu.
    + by intros [] w4 _ _.
Qed.

(** ** Crediting *)

Lemma sameTopUp_refl s : sameTopUp (topup_settlement_row s) s = true.
Proof. unfold sameTopUp. simpl. by rewrite !String.eqb_refl, !Z.eqb_refl. Qed.

(** A settled top-up has a wallet. *)
Lemma settled_wallet d k t : ledger_ok d → rows settlements d !! k = Some t →
  is_Some (rows wallets d !! (t_OrganizationID t, WalletCurrencyCNY)).
Proof.
  intros [Htab Hag] Ht. destruct (ok_settlements _ Htab _ _ Ht) as (_&_&Hn).
  destruct (rows wallets d !! _) eqn:Hw; [done|]. exfalso.
  pose proof (ag_topup _ _ (Hag (t_OrganizationID t))) as Htop. unfold account in Htop.
  rewrite Hw in Htop. unfold books in Htop. revert Htop. books_cbn. simpl a_topup. intros Htop.
  enough (t_AmountMinor t ≤ total t_OrganizationID t_AmountMinor (rows settlements d)
    (t_OrganizationID t)) by lia.
  etrans; [|eapply (msum_lookup_le _ _ k t); [|exact Ht]]; [cbv beta; by rewrite String.eqb_refl|].
  intros k' x Hx. apply (ok_settlements _ Htab) in Hx as (_ & _ & Hx). case_match; lia.
Qed.

(** A credit on record is answered from the record. *)
Lemma credit_replays s w w0 p : ledger_ok (the_db w) →
  OrganizationTopUpSettlement_Validate s = None →
  rows payments (the_db w) !! ts_PaymentID s = Some p →
  ((p_PaymentPurpose p =s PaymentPurposeWalletTopUp)
    || (p_PaymentPurpose p =s PaymentPurposeServicePurchase)) = false →
  ((p_Currency p ≠s ts_Currency s) || (ts_AmountMinor s >? p_GrossAmountMinor p)) = false →
  rows settlements (the_db w) !! ts_PaymentID s = Some w0 → sameTopUp w0 s = true →
  ∃ out, CreditSettledTopUp s w = (Ok out, w) ∧
    snapshot_account out = account (the_db w) (ts_OrganizationID s).
Proof.
  intros Hok Hv Hp H1 H2 Ht Hs.
  destruct (settled_wallet _ _ _ Hok Ht) as [row Hrow].
  pose proof Hs as Hs'. unfold sameTopUp in Hs'. rewrite !andb_true_iff in Hs'.
  destruct Hs' as [[[[[[_ Ho] _] _] _] _] _]. apply String.eqb_eq in Ho. rewrite Ho in Hrow.
  apply OrganizationTopUpSettlement_valid in Hv as Hc. destruct Hc as [Hc _].
  exists (walletSnapshot row). split; [|by unfold account; rewrite Hrow].
  unfold CreditSettledTopUp, mbind, ST_bind, check. rewrite Hv.
  unfold Transaction, take_pk, gets, found, guard_not, table. rewrite Hp. simpl mret.
  unfold mret, ST_ret. rewrite H1, H2, Ht, Hs, Hc. simpl negb. cbv iota. by rewrite Hrow.
Qed.

Lemma CreditSettledTopUp_guards s w out w' : CreditSettledTopUp s w = (Ok out, w') →
  OrganizationTopUpSettlement_Validate s = None ∧
  ∃ p, rows payments (the_db w) !! ts_PaymentID s = Some p ∧
  ((p_PaymentPurpose p =s PaymentPurposeWalletTopUp)
    || (p_PaymentPurpose p =s PaymentPurposeServicePurchase)) = false ∧
  ((p_Currency p ≠s ts_Currency s) || (ts_AmountMinor s >? p_GrossAmountMinor p)) = false.
Proof.
  unfold CreditSettledTopUp. intros Hr.
  apply bind_Ok in Hr as (? & ? & Hv & Hr). apply check_Ok in Hv as [Hv ->].
  apply Transaction_Ok in Hr. apply bind_Ok in Hr as (p & ? & Hp & Hr).
  apply take_pk_Ok in Hp as [-> ->]. apply bind_Ok in Hr as (p & ? & Hp & Hr).
  apply found_Ok in Hp as [Hp ->].
  apply bind_Ok in Hr as (? & ? & Hg & Hr). apply guard_not_Ok in Hg as [Hg1 ->].
  apply bind_Ok in Hr as (? & ? & Hg & Hr). apply guard_not_Ok in Hg as [Hg2 ->]. eauto 6.
Qed.
End request_histories.

(** * Properties *)

Section wallet_properties.
Context `{Env}.

(** C6. The first request to reserve funds for a purchase is always decided:
    when less is available than asked it is refused as insufficient and no
    account changes; otherwise the reservation is returned and the amount moves
    from available to reserved, and nothing else. The overflow guard never
    fires, because no more can be reserved than was topped up. *)
Theorem first_purchase_request_decided (i : ReserveWalletFundsInput) (w : World)
    (Hre : reachable w) (Hty : typed i) (Hv : purchase_valid i = true)
    (Hf : fresh_purchase i w) :
  let res := ReserveCommercialPurchase i w in
  if a_available (account (the_db w) (rw_OrganizationID i)) <? rw_AmountMinor i then
    res.1 = Err ErrWalletInsufficientBalance ∧ idle (the_db w) (the_db res.2)
  else ∃ r, res.1 = Ok r ∧ wr_ReservationID r = uuid_stream (uuids_used w) ∧
    wr_State r = WalletReservationReserved ∧ wr_AmountMinor r = rw_AmountMinor i ∧
    moves (Reserve (rw_AmountMinor i)) (rw_OrganizationID i) (the_db w) (the_db res.2).
Proof.
  pose proof (reachable_ledger_ok w Hre) as Hok. pose proof (purchase_valid_spec i Hv) as (_&Hc&Hn).
  pose proof (reserve_transaction_yields i w Hok Hty Hv Hf) as Hy.
  apply yields_Ok in Hy as (out & w' & Hr & Hout). cbv zeta.
  rewrite (ReserveCommercialPurchase_valid i w out w' Hv Hr).
  eapply reserve_transaction_run in Hr as Hrun; [|done..].
  destruct Hrun as [[_ [row Hrow]]|[_ Hrun]].
  { pose proof (fp_decision _ _ Hf). unfold purchase_key in *. congruence. }
  revert Hrun Hout.
  destruct (_ <? _); [by intros [-> ?] _|].
  intros [_ Hm] (r & -> & Hid & Hs & Ha). by exists r.
Qed.

(** C14. An answer to a canonical purchase request is final: once a reservation
    was granted, or refused for want of funds, the same request gets the same
    answer after any commands whatever (the reservation perhaps finished since,
    funds perhaps credited since), and the retry changes nothing. *)
Theorem purchase_answer_is_final (i : ReserveWalletFundsInput) (w : World) (cs : list command)
    (Hclk : ∀ n, Microsecond ≤ clock_stream n)
    (Hre : reachable w) (Hty : typed i) (Hcan : purchase_canonical i = true)
    (Hcs : Forall command_typed cs)
    (Hfin : final_answer (ReserveCommercialPurchase i w).1) :
  let w2 := run_all cs (ReserveCommercialPurchase i w).2 in
  (ReserveCommercialPurchase i w2).2 = w2 ∧
  same_answer (ReserveCommercialPurchase i w).1 (ReserveCommercialPurchase i w2).1.
Proof.
  destruct (ReserveCommercialPurchase i w) as [res w1] eqn:Hr. simpl in *.
  pose proof (reserve_ran i w res w1 Hr) as (out & Ht & Hv & ->).
  { destruct res as [r|e]; [eauto|]. right. by rewrite Hfin. }
  pose proof (purchase_valid_spec i Hv) as (_ & Hc & Hn).
  assert (reachable w1) as Hre1.
  { pose proof (reach_step (RunReserveCommercialPurchase i) w Hre Hty) as Hs.
    simpl in Hs. by rewrite void_world, Hr in Hs. }
  destruct (decided_for_good i out w1 cs Hre1 Hcs) as (out' & Hagain & Hsame).
  { eapply (reserve_recorded i w); [done|by apply reachable_decisions_ok|by apply reachable_ledger_ok
      |done..| |exact Ht]. intros r ->. exact Hfin. }
  rewrite (ReserveCommercialPurchase_valid i _ _ _ Hv Hagain).
  by destruct out, out'.
Qed.

(** C15. A reservation is finished at most once, in any history: every later
    database has it as it was or, if it was open, committed or released once;
    and a finished one never changes again. *)
Theorem reservation_finished_at_most_once (w : World) (cs : list command) (id : string)
    (r : walletReservationRow) (Hre : reachable w) (Hcs : Forall command_typed cs)
    (Hr : rows reservations (the_db w) !! id = Some r) :
  ∃ r', rows reservations (the_db (run_all cs w)) !! id = Some r' ∧ reservation_step r r' ∧
    (r_State r ≠ WalletReservationReserved → r' = r).
Proof.
  destruct (run_all_evolves cs w Hre Hcs id r Hr) as (r' & Hr' & Hs).
  exists r'. split; [done|]. split; [done|]. by destruct Hs as [->|[Ho _]].
Qed.

(** A commit or release that succeeds either moves the reserved amount
    once - spent, or given back with debt repaid first - and marks the row, or
    is the retry of the operation that finished the row and changes nothing. *)
Theorem finishing_moves_once (op org order id terminal kind : string) (w w' : World)
    (out : WalletReservation) (Hre : reachable w)
    (Ht : terminal = WalletReservationCommitted ∨ terminal = WalletReservationReleased)
    (Hr : finishReservation op org order id terminal kind w = (Ok out, w')) :
  ∃ r, rows reservations (the_db w) !! id = Some r ∧ r_OrganizationID r = org ∧
    r_CommercialOrderID r = order ∧
    ((r_State r = terminal ∧ r_FinishOperationID r = Some op ∧ w' = w ∧
      out = reservationFromRow r) ∨
     (r_State r = WalletReservationReserved ∧
      moves (if terminal =s WalletReservationReleased then Release (r_AmountMinor r)
             else Commit (r_AmountMinor r)) org (the_db w) (the_db w') ∧
      wr_State out = terminal ∧ wr_AmountMinor out = r_AmountMinor r ∧
      rows reservations (the_db w') !! id = Some (finish_row r terminal op (wr_UpdatedAt out)))).
Proof.
  apply finishReservation_run in Hr as [(->&r&Hl&Ho&Hor&Hs&Hf&->)|(r&Hl&Ho&Hor&Hs&Hm&Hout&_&Hmv&_)];
    [..|done|by apply reachable_ledger_ok].
  - exists r. repeat split; [done..|]. by left.
  - exists r. repeat split; [done..|]. right. rewrite Hm, lookup_insert_eq.
    split; [done|]. split; [exact Hmv|]. by rewrite Hout.
Qed.

(** C16. An open reservation can always be committed, and always released, by an
    operation with a new identifier: funds are there to cover it and no total
    overflows. *)
Theorem open_reservation_can_finish (op terminal kind : string) (r : walletReservationRow)
    (w : World) (Hre : reachable w) (Hf : finishable op r w)
    (Ht : terminal = WalletReservationCommitted ∨ terminal = WalletReservationReleased) :
  ∃ out w', finishReservation op (r_OrganizationID r) (r_CommercialOrderID r)
    (r_ReservationID r) terminal kind w = (Ok out, w') ∧ wr_State out = terminal.
Proof. apply yields_Ok. by apply finishReservation_yields. Qed.

(** C5. A settled top-up is credited exactly once: the first call moves its
    amount into the wallet, debt first, and returns the balances; after it, and
    after any commands, the same call changes nothing and returns the balances
    of that moment. *)
Theorem top_up_credited_exactly_once (s : OrganizationTopUpSettlement) (w w' : World)
    (out : OrganizationWalletSnapshot) (cs : list command)
    (Hre : reachable w) (Hty : typed s) (Hcs : Forall command_typed cs)
    (Hr : CreditSettledTopUp s w = (Ok out, w')) :
  snapshot_account out = account (the_db w') (ts_OrganizationID s) ∧
  match rows settlements (the_db w) !! ts_PaymentID s with
  | None => moves (Credit (ts_AmountMinor s)) (ts_OrganizationID s) (the_db w) (the_db w')
  | Some _ => w' = w
  end ∧
  ∃ out2, CreditSettledTopUp s (run_all cs w') = (Ok out2, run_all cs w') ∧
    snapshot_account out2 = account (the_db (run_all cs w')) (ts_OrganizationID s).
Proof.
  pose proof (reachable_ledger_ok w Hre) as Hok.
  destruct (CreditSettledTopUp_guards _ _ _ _ Hr) as (Hv & p & Hp & H1 & H2).
  assert (reachable (run_all cs w')) as Hre2.
  { apply run_all_reachable; [|done].
    pose proof (reach_step (RunCreditSettledTopUp s) w Hre Hty) as Hs.
    simpl in Hs. by rewrite void_world, Hr in Hs. }
  pose proof (run_all_facts cs w') as ((_&_&Hgs&_)&(Hgp&_)&_).
  assert (facts_grow (the_db w) (the_db w')) as (_&(Hgp1&_)&_).
  { pose proof (run_facts_grow (RunCreditSettledTopUp s) w) as Hs. unfold on_db in Hs.
    simpl in Hs. by rewrite void_world, Hr in Hs. }
  assert (rows payments (the_db (run_all cs w')) !! ts_PaymentID s = Some p) as Hp2
    by (by eapply lookup_weaken, Hgp; eapply lookup_weaken, Hgp1).
  apply CreditSettledTopUp_run in Hr as [(->&t&row&Ht&Hs&Hrow&->)|(Hn&Hr&_)]; [| |done..].
  - apply OrganizationTopUpSettlement_valid in Hv as Hc. destruct Hc as [Hc _].
    rewrite Hc in Hrow. split; [by unfold account; rewrite Hrow|]. rewrite Ht. split; [done|].
    eapply credit_replays; [by apply reachable_ledger_ok|done..| |done].
    by eapply lookup_weaken.
  - eapply credit_new_top_up_run in Hr as (_&Hm&_&(row&Hrow&->)&Hset); [|done..].
    split; [by unfold account; rewrite Hrow|]. rewrite Hn. split; [done|].
    eapply credit_replays; [by apply reachable_ledger_ok|done..| |apply sameTopUp_refl].
    eapply lookup_weaken, Hgs. rewrite Hset. apply lookup_insert_eq.
Qed.
End wallet_properties.

(** ** Worked instances *)

Lemma first_purchase_request_decided_witness :
  purchase_valid demo_reserve = true ∧
  ∃ r, (ReserveCommercialPurchase (H:=demo_env) demo_reserve (demo_world 2)).1 = Ok r ∧
    wr_AmountMinor r = 300.
Proof.
  assert (purchase_valid demo_reserve = true) as Hv by (by vm_compute).
  assert (typed demo_reserve) as Hty by (by vm_compute).
  assert (fresh_purchase (H:=demo_env) demo_reserve (demo_world 2)) as Hf.
  { split; [by vm_compute..|]. intros k r.
    assert (rows reservations (the_db (demo_world 2)) = ∅) as Hn by (by vm_compute).
    rewrite Hn. intros Hk. by apply lookup_empty_Some in Hk. }
  split; [done|].
  pose proof (first_purchase_request_decided (H:=demo_env) demo_reserve (demo_world 2)
    (demo_reachable 2) Hty Hv Hf) as Hd. cbv zeta in Hd.
  assert ((a_available (account (the_db (demo_world 2)) (rw_OrganizationID demo_reserve))
    <? rw_AmountMinor demo_reserve) = false) as Hb by (by vm_compute).
  rewrite Hb in Hd. destruct Hd as (r & Hr & _ & _ & Ha & _). exists r. split; [exact Hr|].
  exact Ha.
Defined.

Lemma demo_clock n : Microsecond ≤ clock_stream (Env:=demo_env) n.
Proof. unfold clock_stream, demo_env, demo_start, Second, Microsecond. lia. Qed.

Lemma purchase_answer_is_final_witness :
  let w2 := run_all (H:=demo_env) [RunCommitCommercialPurchase demo_commit]
    (ReserveCommercialPurchase (H:=demo_env) demo_reserve (demo_world 2)).2 in
  (ReserveCommercialPurchase (H:=demo_env) demo_reserve w2).2 = w2 ∧
  same_answer (ReserveCommercialPurchase (H:=demo_env) demo_reserve (demo_world 2)).1
    (ReserveCommercialPurchase (H:=demo_env) demo_reserve w2).1.
Proof.
  exact (purchase_answer_is_final (H:=demo_env) demo_reserve (demo_world 2)
    [RunCommitCommercialPurchase demo_commit] demo_clock (demo_reachable 2)
    ltac:(by vm_compute) ltac:(by vm_compute) ltac:(by repeat constructor) ltac:(by vm_compute)).
Defined.

Definition demo_open_reservation : walletReservationRow := {|
  r_OrganizationID := "org-1"; r_ReservationID := "uuid-1"; r_OperationID := "reserve-1";
  r_CommercialOrderID := "order-2"; r_FinishOperationID := None; r_Currency := "CNY";
  r_AmountMinor := 300; r_State := "RESERVED"; r_CreatedAt := demo_start + 3 * Second;
  r_UpdatedAt := demo_start + 3 * Second |}.

Lemma demo_open : rows reservations (the_db (demo_world 3)) !! "uuid-1" = Some demo_open_reservation.
Proof. vm_compute. reflexivity. Qed.

Lemma reservation_finished_at_most_once_witness :
  ∃ r', rows reservations (the_db (run_all (H:=demo_env) [RunCommitCommercialPurchase demo_commit]
    (demo_world 3))) !! "uuid-1" = Some r' ∧ reservation_step demo_open_reservation r'.
Proof.
  destruct (reservation_finished_at_most_once (H:=demo_env) (demo_world 3)
    [RunCommitCommercialPurchase demo_commit] "uuid-1" demo_open_reservation (demo_reachable 3)
    ltac:(by repeat constructor) demo_open) as (r' & Hr & Hs & _).
  exists r'. exact (conj Hr Hs).
Defined.

Lemma finishing_moves_once_witness :
  ∃ r, rows reservations (the_db (demo_world 3)) !! "uuid-1" = Some r ∧
    r_OrganizationID r = "org-1" ∧ r_CommercialOrderID r = "order-2".
Proof.
  destruct (is_ok_run (finishReservation (H:=demo_env) "commit-1" "org-1" "order-2" "uuid-1"
    WalletReservationCommitted WalletEntryPurchaseCommit (demo_world 3))) as (out & w' & Hr);
    [vm_compute; reflexivity|].
  destruct (finishing_moves_once (H:=demo_env) _ _ _ _ _ _ _ _ _ (demo_reachable 3)
    (or_introl eq_refl) Hr) as (r & H1 & H2 & H3 & _). exists r. exact (conj H1 (conj H2 H3)).
Defined.

Lemma open_reservation_can_finish_witness :
  ∃ out w', finishReservation (H:=demo_env) "release-1" "org-1" "order-2" "uuid-1"
    WalletReservationReleased WalletEntryPurchaseRelease (demo_world 3) = (Ok out, w') ∧
    wr_State out = WalletReservationReleased.
Proof.
  apply (open_reservation_can_finish (H:=demo_env) "release-1" WalletReservationReleased
    WalletEntryPurchaseRelease demo_open_reservation (demo_world 3) (demo_reachable 3));
    [|by right].
  split; [exact demo_open|by vm_compute|by vm_compute| |by vm_compute].
  assert (map_Forall (λ _ x, r_FinishOperationID x ≠ Some "release-1"%string)
    (rows reservations (the_db (demo_world 3)))) as Hf; [|exact Hf].
  apply (bool_decide_eq_true_1 _). vm_compute. reflexivity.
Defined.

Lemma top_up_credited_exactly_once_witness :
  ∃ out w', CreditSettledTopUp (H:=demo_env) demo_settlement (demo_world 1) = (Ok out, w') ∧
    snapshot_account out = account (the_db w') "org-1".
Proof.
  destruct (is_ok_run (CreditSettledTopUp (H:=demo_env) demo_settlement (demo_world 1)))
    as (out & w' & Hr); [vm_compute; reflexivity|].
  exists out, w'. split; [exact Hr|].
  exact (proj1 (top_up_credited_exactly_once (H:=demo_env) demo_settlement (demo_world 1) w' out []
    (demo_reachable 1) ltac:(by vm_compute) (Forall_nil_2 _) Hr)).
Defined.
