(* ===== verification/TopUpLaws.v ===== *)
(** * What the provider top-ups promise

    The laws of provider_topup_repository.go over whole histories, on top of
    Ledger: no top-up is reversed for more than it credited, the receipts say
    how much of each reversal was principal and how much excess, postings and
    reversals are accepted once and replayed from their receipts, refund holds
    end once, and a channel trade pays for one thing. *)
From S2P Require Import Prelude GoStd Encoding MoneyTypes ProviderTopUp ServiceMoney Store MoneyStore WalletSpec WalletRepo TopUpRepo ServiceRepo SettlementRepo Ledger WalletLaws.

(** ** What the receipts add up to *)

(** What the provider reversed of a payment, the excess included. *)
Definition provider_reversed (d : DB) (payment : string) : Z :=
  msum (λ x, if tr_PaymentID x =s payment then tr_ProviderAmountMinor x else 0)
    (rows receipts d).

Definition is_top_up (d : DB) (payment : string) : Prop :=
  ∃ p, rows payments d !! payment = Some p ∧ p_PaymentPurpose p = PaymentPurposeWalletTopUp.

(** Receipts are of settled provider top-ups; of every settlement, the principal
    reversed is what the provider reversed up to the settled amount. *)
Record reversals_ok (d : DB) : Prop := {
  ro_receipt : ∀ k x, rows receipts d !! k = Some x →
    is_top_up d (tr_PaymentID x) ∧ is_Some (rows settlements d !! tr_PaymentID x);
  ro_reversal : ∀ k v, rows reversals d !! k = Some v →
    is_Some (rows settlements d !! v_PaymentID v);
  ro_payment : ∀ p t, rows settlements d !! p = Some t → is_Some (rows payments d !! p);
  ro_caps : ∀ p t, rows settlements d !! p = Some t →
    0 ≤ provider_reversed d p ∧
    reversed_principal d p = Z.min (t_AmountMinor t) (provider_reversed d p) ∧
    0 ≤ reversed_of d p ≤ t_AmountMinor t ∧
    (is_top_up d p → reversed_of d p = reversed_principal d p) }.

(** ** Claims and what is on record of a reversal *)

(** Every claim has the receipt of its posting. *)
Definition claims_ok (d : DB) : Prop :=
  indexed claims d ∧ ∀ k c, rows claims d !! k = Some c → is_Some (pc_Receipt c).

(** The claim, payment and settlement of a provider top-up. *)
Definition top_up_rows (payment : string) (t : walletTopUpSettlementRow) (d : DB) : Prop :=
  rows settlements d !! payment = Some t ∧
  (∃ p, rows payments d !! payment = Some p ∧
    p_PaymentPurpose p = PaymentPurposeWalletTopUp ∧ t_AmountMinor t = p_GrossAmountMinor p) ∧
  (∃ k c, rows claims d !! k = Some c ∧ pc_PaymentID c = payment ∧
    t_OrganizationID t = pc_OrganizationID c ∧ t_CommercialOrderID t = pc_CommercialOrderID c).

(** A reversal has its receipt, and the rows that are checked on replay. *)
Definition on_record (r : OrganizationWalletReversal) (out : TopUpReversalReceipt) (d : DB) : Prop :=
  OrganizationWalletReversal_Validate r = None ∧
  (∃ t, top_up_rows (rv_PaymentID r) t d ∧ t_OrganizationID t = rv_OrganizationID r ∧
    t_CommercialOrderID t = rv_CommercialOrderID r ∧ t_Currency t = rv_Currency r) ∧
  ∃ x, rows receipts d !! TopUpReversalKey_StorageID (reversal_key r) = Some x ∧
    tr_Receipt x = out ∧ tr_Fingerprint x = reversal_fingerprint (normalized_reversal r) ∧
    TopUpReversalReceipt_Validate out = None.

(** ** Refund holds *)

(** What is set aside for refunds of a payment. *)
Definition open_holds (d : DB) (payment : string) : Z :=
  msum (λ h, if (h_PaymentID h =s payment) && (h_State h =s HoldReserved)
             then h_AmountMinor h else 0) (rows holds d).

Definition hold_at (s : string) (dispatched : bool) (h : topUpRefundHoldRow) : topUpRefundHoldRow :=
  {| h_HoldID := h_HoldID h; h_PaymentID := h_PaymentID h; h_ReversalID := h_ReversalID h;
     h_OrganizationID := h_OrganizationID h; h_CommercialOrderID := h_CommercialOrderID h;
     h_AmountMinor := h_AmountMinor h; h_ApprovalID := h_ApprovalID h; h_State := s;
     h_Dispatched := dispatched; h_CreatedAt := h_CreatedAt h |}.

(** A hold stays as it is, or was open and got dispatched, confirmed or
    released; what was dispatched stays so. *)
Definition hold_step (h h' : topUpRefundHoldRow) : Prop :=
  h' = h ∨
  (h_State h = HoldReserved ∧ ∃ s dispatched, h' = hold_at s dispatched h ∧
     (s = HoldReserved ∨ s = HoldConfirmed ∨ s = HoldReleased) ∧
     (h_Dispatched h = true → dispatched = true)).

Definition holds_evolve (d d' : DB) : Prop :=
  ∀ k h, rows holds d !! k = Some h → ∃ h', rows holds d' !! k = Some h' ∧ hold_step h h'.

(** The reversal tables and settlements as they were, and no payment gone. *)
Definition same_reversals (d d' : DB) : Prop :=
  rows receipts d' = rows receipts d ∧ rows reversals d' = rows reversals d ∧
  rows settlements d' = rows settlements d ∧ rows payments d ⊆ rows payments d'.

(** * Lemmas *)

#[export] Instance same_reversals_preorder : PreOrder same_reversals.
Proof.
  split; [by intros d; repeat split|]. intros d1 d2 d3 (?&?&?&?) (?&?&?&?).
  repeat split; [congruence..|by etrans].
Qed.
#[export] Hint Extern 0 (Writes (on_db same_reversals) _) =>
  solve [intros ??; by repeat split] : typeclass_instances.
#[export] Instance same_reversals_payments : Inserts (on_db same_reversals) payments.
Proof. intros w v Hn _. repeat split; try done. read_tables. by apply insert_subseteq. Qed.

Lemma sum_absent {V} (owner : V → string) (f : V → Z) `{Countable K} (m : gmap K V) p :
  (∀ k v, m !! k = Some v → owner v ≠ p) → msum (λ v, if owner v =s p then f v else 0) m = 0.
Proof.
  intros Hn. assert (∀ m : gmap K V, msum (λ _, 0) m = 0) as Hz.
  { intros m'. induction m' as [|k v m' Hk IH] using map_ind; [apply msum_empty|].
    by rewrite msum_insert, IH. }
  rewrite <- (Hz m). apply msum_ext. intros k v Hk. by rewrite (eqb_ne _ _ (Hn k v Hk)).
Qed.

Lemma is_top_up_mono d d' p : rows payments d ⊆ rows payments d' → is_top_up d p → is_top_up d' p.
Proof. intros Hs (x & Hx & Hp). exists x. split; [by eapply lookup_weaken|done]. Qed.

Lemma is_top_up_back d d' p : rows payments d ⊆ rows payments d' →
  is_Some (rows payments d !! p) → is_top_up d' p → is_top_up d p.
Proof.
  intros Hs [y Hy] (x & Hx & Hp). exists y. split; [done|].
  eapply lookup_weaken in Hy; [|exact Hs]. congruence.
Qed.

Lemma reversals_ok_empty : reversals_ok empty_db.
Proof. split; intros ? ? Hl; exfalso; exact (lookup_empty_Some _ _ Hl). Qed.

(** The sums a settlement is checked against depend on the tables alone. *)
Lemma sums_same d d' p : rows receipts d' = rows receipts d → rows reversals d' = rows reversals d →
  provider_reversed d' p = provider_reversed d p ∧
  reversed_principal d' p = reversed_principal d p ∧ reversed_of d' p = reversed_of d p.
Proof. unfold provider_reversed, reversed_principal, reversed_of. by intros -> ->. Qed.

Lemma reversals_ok_same d d' : same_reversals d d' → reversals_ok d → reversals_ok d'.
Proof.
  intros (Hr & Hv & Hs & Hp) [R1 R2 R3 R4]. split; rewrite ?Hr, ?Hv, ?Hs.
  - intros k x Hx. destruct (R1 k x Hx). split; [by eapply is_top_up_mono|done].
  - done.
  - intros p t Ht. destruct (R3 p t Ht) as [y Hy]. exists y. by eapply lookup_weaken.
  - intros p t Ht. destruct (sums_same d d' p Hr Hv) as (->&->&->).
    destruct (R4 p t Ht) as (?&?&?&Ho). do 3 (split; [done|]). intros Ht'. apply Ho.
    eapply is_top_up_back; eauto.
Qed.

(** A new settlement starts with nothing reversed. *)
Lemma reversals_ok_settled d d' p t : reversals_ok d →
  rows receipts d' = rows receipts d → rows reversals d' = rows reversals d →
  rows payments d ⊆ rows payments d' → is_Some (rows payments d' !! p) →
  rows settlements d !! p = None → rows settlements d' = <[p := t]> (rows settlements d) →
  0 ≤ t_AmountMinor t → reversals_ok d'.
Proof.
  intros [R1 R2 R3 R4] Hr Hv Hp Hpp Hn Hs Ht.
  assert (∀ q, is_Some (rows settlements d !! q) → is_Some (rows settlements d' !! q)) as Hkeep.
  { intros q [x Hx]. exists x. rewrite Hs. rewrite lookup_insert_ne; [done|congruence]. }
  split; rewrite ?Hr, ?Hv.
  - intros k x Hx. destruct (R1 k x Hx). split; [by eapply is_top_up_mono|auto].
  - intros k v Hk. by apply Hkeep, (R2 k).
  - intros q u. rewrite Hs. intros [[<- <-]|[_ Hu]]%lookup_insert_Some; [done|].
    destruct (R3 q u Hu) as [y Hy]. exists y. by eapply lookup_weaken.
  - intros q u. rewrite Hs. destruct (sums_same d d' q Hr Hv) as (->&->&->).
    intros [[<- <-]|[_ Hu]]%lookup_insert_Some.
    + assert (provider_reversed d p = 0 ∧ reversed_principal d p = 0 ∧ reversed_of d p = 0)
        as (->&->&->); [|by rewrite Z.min_r].
      repeat split; apply sum_absent; intros k x Hx <-.
      * destruct (R1 k x Hx) as [_ [? ?]]. congruence.
      * destruct (R1 k x Hx) as [_ [? ?]]. congruence.
      * destruct (R2 k x Hx) as [? ?]. congruence.
    + destruct (R4 q u Hu) as (?&?&?&Ho). do 3 (split; [done|]). intros Ht'. apply Ho.
      eapply is_top_up_back; eauto.
Qed.

Lemma sum_added {V} `{Countable K} (owner : V → string) (f : V → Z) (m : gmap K V) k v p :
  m !! k = None →
  msum (λ v, if owner v =s p then f v else 0) (<[k := v]> m) =
  msum (λ v, if owner v =s p then f v else 0) m + (if owner v =s p then f v else 0).
Proof. intros Hn. rewrite msum_insert by done. lia. Qed.

(** An accepted reversal takes the principal that is left. *)
Lemma reversals_ok_accepted input out t d d' :
  OrganizationWalletReversal_Validate input = None → tables_ok d → reversals_ok d →
  reversal_accepted input out t d d' → reversals_ok d'.
Proof.
  intros Hv Htab Hok [Hset Htop0 _ _ Hdone].
  assert (is_top_up d (rv_PaymentID input)) as Htop by (destruct Htop0 as (?&?&?&_); by eexists). destruct Hdone as [[-> _]|(Hpr&d1&Hs1&Hr1&_&Hp1&Hst)]; [done|].
  apply OrganizationWalletReversal_valid in Hv as (_ & Hn & _).
  destruct Hok as [R1 R2 R3 R4]. destruct (R4 _ _ Hset) as (Hpv & Hcap & Hro & Htr).
  specialize (Htr Htop). pose proof Hst as [_ _ [Hnew (x & Hx & _ & Hxp & Hxa & Hxw & _)] Hrev _ Hs' Hp' _ _].
  destruct Hs1 as (_&_&_&Hs1&Hv1&_). rewrite Hr1 in *. rewrite Hp1 in Hp'. rewrite Hs1 in Hs'.
  rewrite Hv1 in Hrev. simpl in Hxp, Hxa. set (p := rv_PaymentID input) in *.
  set (D := Z.min _ _) in *. assert (0 ≤ D) by lia.
  assert (∀ q, provider_reversed d' q = provider_reversed d q + (if p =s q then rv_AmountMinor input else 0) ∧
    reversed_principal d' q = reversed_principal d q + (if p =s q then D else 0) ∧
    reversed_of d' q = reversed_of d q + (if p =s q then D else 0)) as Hsum.
  { intros q. unfold provider_reversed, reversed_principal, reversed_of. rewrite Hx.
    rewrite !sum_added by done. rewrite Hxp, Hxa, Hxw. split; [done|]. split; [done|].
    destruct (D >? 0) eqn:HD.
    - destruct Hrev as (Hnv & v & -> & Hvp & _ & Hva). simpl in Hvp. rewrite sum_added by done.
      by rewrite Hvp, Hva.
    - rewrite Hrev. reflect_bools. replace D with 0 by lia. destruct (_ =s _); lia. }
  split; rewrite ?Hs'.
  - intros k y. rewrite Hx. intros [[<- <-]|[_ Hy]]%lookup_insert_Some.
    + rewrite Hxp. split; [unfold is_top_up; by rewrite Hp'|by rewrite Hset].
    + destruct (R1 k y Hy). split; [unfold is_top_up; by rewrite Hp'|done].
  - intros k v Hk. destruct (D >? 0); [|rewrite Hrev in Hk; by eapply R2].
    destruct Hrev as (Hnv & u & He & Hup & _). rewrite He in Hk.
    apply lookup_insert_Some in Hk as [[<- <-]|[_ Hk]]; [|by eapply R2].
    simpl in Hup. rewrite Hup. by eexists.
  - intros q u Hu. rewrite Hp'. by eapply R3.
  - intros q u Hu. destruct (Hsum q) as (->&->&->). destruct (R4 q u Hu) as (?&?&?&Ho).
    destruct (p =s q) eqn:Hq.
    + apply String.eqb_eq in Hq as <-. assert (u = t) as -> by congruence. lia.
    + rewrite !Z.add_0_r. do 3 (split; [done|]). unfold is_top_up. by rewrite Hp'.
Qed.

Lemma reversals_ok_all l d d' : reversals_accepted l d d' → ledger_ok d → reversals_ok d →
  reversals_ok d'.
Proof.
  induction 1 as [d|r out t l d d1 d2 Hv Hty Ha _ IH]; intros Hok Hro; [done|].
  apply reversal_accepted_steps in Ha as Hs; [|apply Hok].
  apply IH; [by eapply ledger_steps_ok|]. eapply reversals_ok_accepted; [done|apply Hok|done|done].
Qed.

Lemma quiet_same_reversals d d' : quiet d d' → same_reversals d d'.
Proof. intros ((_&_&_&Hs&Hv&_)&Hr&Hp). by repeat split; rewrite ?Hp. Qed.

Lemma reversals_ok_posted i out d d' : top_up_posted i out d d' → ledger_ok d → reversals_ok d →
  reversals_ok d'.
Proof.
  intros [[Hv _] _ (d1&d2&Hc&Hr&Hq)] Hok Hro. apply ProviderTopUpInput_valid in Hv as (_&Hn&_).
  eapply reversals_ok_same; [by apply quiet_same_reversals|].
  destruct Hc as [He Hm [Hpn Hp] [Hsn (t & Hs & Ha & _)] (Hrc&Hrv&_&_) Ht].
  eapply reversals_ok_all; [exact Hr| |].
  - eapply ledger_step_ok; [exact Hok|]. by eapply step_move.
  - eapply reversals_ok_settled; [exact Hro|done|done| | |done|done|lia]; rewrite Hp.
    + by apply insert_subseteq.
    + rewrite lookup_insert_eq. eauto.
Qed.

Section reversal_histories.
Context `{Env}.

Definition reversals_stay (w w' : World) : Prop :=
  ledger_ok (the_db w) → reversals_ok (the_db w) → reversals_ok (the_db w').

Lemma stay_same {A} (m : ST World A) : keeps (on_db same_reversals) m → keeps reversals_stay m.
Proof. intros Hm w _ Hro. eapply reversals_ok_same; [apply Hm|done]. Qed.

Lemma stay_intro {A} (m : ST World A) : aborts m →
  (∀ w a w', ledger_ok (the_db w) → reversals_ok (the_db w) → m w = (Ok a, w') →
     reversals_ok (the_db w')) → keeps reversals_stay m.
Proof.
  intros Ha Hm w Hok Hro. destruct (m w) as [[a|e] w'] eqn:Hr; simpl; [eauto|].
  apply Ha in Hr. by rewrite Hr.
Qed.

Lemma stay_void {A} (m : ST World A) : keeps reversals_stay m → keeps reversals_stay (void m).
Proof. intros Hm w. rewrite void_world. apply Hm. Qed.

Lemma AcceptReversal_stay r : typed r → keeps reversals_stay (AcceptProviderTopUpReversal r).
Proof.
  intros Hty. apply stay_intro; [apply AcceptProviderTopUpReversal_aborts|].
  intros w out w' Hok Hro Hr. apply AcceptReversal_run in Hr as (Hv & _ & t & Ha); [|done..].
  eapply reversals_ok_accepted; [done|apply Hok|done|done].
Qed.

Lemma recordProviderReversal_stay p id k n t ref : in_int64 n →
  keeps reversals_stay (recordProviderReversal p id k n t ref).
Proof.
  intros Hn w Hok Hro.
  destruct (recordProviderReversal p id k n t ref w) as [[b|e] w'] eqn:Hr; simpl.
  2: { apply recordProviderReversal_aborts in Hr. by rewrite Hr. }
  apply recordProviderReversal_Ok in Hr. destruct b; [|by subst].
  destruct Hr as (o & x & out & Hx & Ho & Hr).
  assert (typed o) as Hty by (by subst o).
  pose proof (AcceptReversal_stay o Hty w Hok Hro) as Hs. by rewrite Hr in Hs.
Qed.

Lemma CreditSettledTopUp_footprint s :
  keeps (on_db (λ d d', rows receipts d' = rows receipts d ∧ rows reversals d' = rows reversals d))
    (CreditSettledTopUp s).
Proof.
  assert (PreOrder (λ d d', rows receipts d' = rows receipts d ∧ rows reversals d' = rows reversals d)).
  { split; [done|]. intros d1 d2 d3 [??] [??]. split; congruence. }
  apply CreditSettledTopUp_keeps; try apply _; by intros ??.
Qed.

Lemma CreditSettledTopUp_stay s : typed s → keeps reversals_stay (CreditSettledTopUp s).
Proof.
  intros Hty. apply stay_intro; [unfold CreditSettledTopUp; solve_aborts|].
  intros w out w' Hok Hro Hr. pose proof (CreditSettledTopUp_guards _ _ _ _ Hr) as (Hv&p&Hp&_).
  pose proof (run_facts_grow (RunCreditSettledTopUp s) w) as Hg. unfold on_db in Hg.
  simpl in Hg. rewrite void_world, Hr in Hg. destruct Hg as (_&(Hg&_)&_). simpl in Hg.
  assert (on_db (λ d d', rows receipts d' = rows receipts d ∧ rows reversals d' = rows reversals d) w w')
    as [Hrc Hrv].
  { pose proof (CreditSettledTopUp_footprint s w) as Hk. by rewrite Hr in Hk. }
  apply CreditSettledTopUp_run in Hr as [[-> _]|(Hn&Hr&_)]; [done| |done..].
  apply OrganizationTopUpSettlement_valid in Hv as Hc. destruct Hc as [_ Hpos].
  eapply credit_new_top_up_run in Hr as (_&_&_&_&Hset); [|done..].
  eapply reversals_ok_settled; [exact Hro|exact Hrc|exact Hrv|exact Hg| |exact Hn|exact Hset|simpl; lia].
  exists p. by eapply lookup_weaken.
Qed.

Lemma reverse_ordinary_footprint r :
  keeps (on_db (λ d d', rows receipts d' = rows receipts d ∧ rows settlements d' = rows settlements d ∧
      rows payments d' = rows payments d)) (reverse_ordinary_top_up r).
Proof.
  set (R := λ d d', _).
  assert (PreOrder R). { split; [done|]. intros d1 d2 d3 (?&?&?) (?&?&?). repeat split; congruence. }
  assert (Writes (on_db R) wallets) by (by intros ??).
  assert (Writes (on_db R) entries) by (by intros ??).
  assert (Writes (on_db R) reversals) by (by intros ??).
  unfold reverse_ordinary_top_up. solve_keeps.
Qed.

Lemma AcceptAndPost_stay i : typed i → keeps reversals_stay (AcceptAndPostProviderTopUp i).
Proof.
  intros Hty. apply stay_intro; [autounfold with repo; solve_aborts|].
  intros w out w' Hok Hro Hr. apply AcceptAndPost_run in Hr as (Hv&c&d1&[Hq _ _ _ _]&Hr); [|done..].
  assert (ledger_ok d1) as Hok1 by (eapply same_ledger_ok; [apply Hq|done]).
  assert (reversals_ok d1) as Hro1 by (eapply reversals_ok_same; [by apply quiet_same_reversals|done]).
  destruct (pc_Receipt c); [|by eapply reversals_ok_posted].
  destruct Hr as (_&_&Hr). by eapply reversals_ok_all.
Qed.

Lemma ApplyTopUpReversal_stay r : typed r → keeps reversals_stay (ApplyTopUpReversal r).
Proof.
  intros Hty. apply stay_intro; [apply ApplyTopUpReversal_aborts|].
  intros w out w' Hok Hro Hr. apply ApplyTopUpReversal_run in Hr as (Hv & p & Hp & _ & Hr); [|done..].
  destruct (p_PaymentPurpose p =s _) eqn:Hpur.
  - destruct Hr as (x & w1 & Hr & ->). pose proof (AcceptReversal_stay r Hty w Hok Hro) as Hs.
    by rewrite Hr in Hs.
  - assert (on_db (λ d d', rows receipts d' = rows receipts d ∧ rows settlements d' = rows settlements d ∧
      rows payments d' = rows payments d) w w') as (Hrc & Hst & Hpy).
    { pose proof (reverse_ordinary_footprint r w) as Hk. by rewrite Hr in Hk. }
    eapply reverse_ordinary_top_up_run in Hr as (t&Ht&_&_&[[-> _]|(Hn&Hle&_&_&_&v&Hrv&Hvp&Hva)]);
      [done| |done..].
    apply OrganizationWalletReversal_valid in Hv as (_ & Hpos & _).
    destruct Hro as [R1 R2 R3 R4]. split; rewrite ?Hrc, ?Hst, ?Hpy.
    + intros k x Hx. destruct (R1 k x Hx). by split; [unfold is_top_up; rewrite Hpy|].
    + intros k u. rewrite Hrv. intros [[<- <-]|[_ Hu]]%lookup_insert_Some; [|by eapply R2].
      rewrite Hvp. by eexists.
    + done.
    + intros q u Hu. destruct (R4 q u Hu) as (?&?&?&Ho).
      unfold provider_reversed, reversed_principal, reversed_of. rewrite Hrc, Hrv.
      rewrite sum_added by done. rewrite Hvp, Hva.
      fold (provider_reversed (the_db w) q) (reversed_principal (the_db w) q) (reversed_of (the_db w) q).
      do 2 (split; [done|]). destruct (_ =s q) eqn:Hq.
      * apply String.eqb_eq in Hq as <-. assert (u = t) as -> by congruence. split; [lia|].
        intros (y & Hy & Hyp). rewrite Hpy in Hy. simplify_eq. by rewrite Hyp in Hpur.
      * rewrite Z.add_0_r. split; [done|]. intros (y & Hy & Hyp). rewrite Hpy in Hy. apply Ho.
        by exists y.
Qed.

(** A recorded reversal, and what follows when it was not one of a top-up. *)
Lemma stay_record {A} p id k n t ref e (m : bool → ST World A) : in_int64 n →
  (∀ b, keeps (on_db same_reversals) (m b)) →
  keeps reversals_stay (check e;; b ← recordProviderReversal p id k n t ref; m b).
Proof.
  intros Hn Hm w Hok Hro. unfold mbind at 1, ST_bind at 1. destruct e; simpl; [done|].
  pose proof (recordProviderReversal_stay p id k n t ref Hn w Hok Hro) as Hs.
  unfold mbind, ST_bind. destruct (recordProviderReversal _ _ _ _ _ _ w) as [[b|x] w1]; [|done].
  eapply reversals_ok_same; [apply Hm|done].
Qed.

Lemma run_reversals_stay c : command_typed c → keeps reversals_stay (run c).
Proof.
  intros Hty.
  destruct c;
    lazymatch goal with
    | |- keeps _ (run (RunCreditSettledTopUp _)) => by apply stay_void, CreditSettledTopUp_stay
    | |- keeps _ (run (RunApplyTopUpReversal _)) => by apply stay_void, ApplyTopUpReversal_stay
    | |- keeps _ (run (RunAcceptAndPostProviderTopUp _)) => by apply stay_void, AcceptAndPost_stay
    | |- keeps _ (run (RunAcceptProviderTopUpReversal _)) => by apply stay_void, AcceptReversal_stay
    | |- keeps _ (run (RunRecordRefundSettlement _)) => apply stay_record; [done|]; solve_keeps
    | |- keeps _ (run (RunRecordChargebackSettlement _)) => apply stay_record; [done|]; solve_keeps
    | |- _ => apply stay_same; simpl;
        unfold void, CommitCommercialPurchase, ReleaseCommercialPurchase; solve_keeps
    end.
Qed.

Lemma reachable_reversals_ok w : reachable w → reversals_ok (the_db w).
Proof.
  induction 1 as [u k|c w Hr IH Hty]; [apply reversals_ok_empty|].
  apply (run_reversals_stay c Hty w); [by apply reachable_ledger_ok|done].
Qed.
End reversal_histories.

(** ** Claims *)

#[export] Instance claims_symmetric : SymmetricIndex claims.
Proof. intros x y. simpl. by rewrite (String.eqb_sym (pc_PaymentID x)), (String.eqb_sym (pc_CommercialOrderID x)). Qed.

Lemma claims_ok_empty : claims_ok empty_db.
Proof. split; [by apply indexed_empty|]. intros k c Hl. exfalso. exact (lookup_empty_Some _ _ Hl). Qed.

(** Claims are only added. *)
Definition claims_grow (d d' : DB) : Prop :=
  claims_ok d → claims_ok d' ∧ rows claims d ⊆ rows claims d'.

#[export] Instance claims_grow_preorder : PreOrder claims_grow.
Proof.
  split; [by intros d|]. intros d1 d2 d3 H12 H23 H1. destruct (H12 H1) as [H2 ?].
  destruct (H23 H2) as [H3 ?]. split; [done|by etrans].
Qed.
Lemma same_claims_grow d d' : rows claims d' = rows claims d → claims_grow d d'.
Proof. intros He [[Hk Hu] Hr]. split; [|by rewrite He]. split; [split|]; rewrite He; eauto. Qed.

#[export] Hint Extern 0 (Writes (on_db claims_grow) _) =>
  solve [intros ??; by apply same_claims_grow] : typeclass_instances.

Lemma claims_grow_insert d d' k c : k = pc_ClaimID c → rows claims d !! k = None →
  (∀ k' x, rows claims d !! k' = Some x → collides claims c x = false) →
  is_Some (pc_Receipt c) → rows claims d' = <[k := c]> (rows claims d) → claims_grow d d'.
Proof.
  intros -> Hn Hc Hr He [[Hk Hu] Hs]. rewrite He. split; [|by apply insert_subseteq].
  split; [split|].
  - intros j x. rewrite He. intros [[<- <-]|[_ Hx]]%lookup_insert_Some; [done|eauto].
  - intros k1 k2 v1 v2. rewrite He. intros [[<- <-]|[Hn1 H1]]%lookup_insert_Some
      [[<- <-]|[Hn2 H2]]%lookup_insert_Some Hne; [done|eauto| |eauto].
    rewrite collides_sym. eauto.
  - intros j x. rewrite He. intros [[<- <-]|[_ Hx]]%lookup_insert_Some; [done|eauto].
Qed.

Section claim_histories.
Context `{Env}.

Lemma top_up_posted_claims i out d d' : top_up_posted i out d d' →
  rows claims d' = alter (set_claim_receipt out)
    (ProviderPaymentBinding_ClaimID (pt_Binding i)) (rows claims d).
Proof. apply tu_claims. Qed.

(** The receipt of a posting whose JSON-only strings are UTF-8 is read back as it was. *)
Lemma posted_text i out d d' : top_up_posted i out d d' → text_posting i = true →
  json_TopUpPostingReceipt out = out.
Proof.
  intros [_ _ _ _ _ _ _ [Hop Hb]] Ht. unfold text_posting, text_binding in Ht. simpl in Ht.
  rewrite !andb_true_iff in Ht. destruct Ht as (H1 & H2 & H3 & H4 & H5 & H6 & _).
  unfold json_TopUpPostingReceipt, json_ProviderPaymentBinding. rewrite Hop, Hb.
  rewrite !json_text_valid by done. destruct out; simpl in *; subst. by destruct (pt_Binding i).
Qed.

Lemma AcceptAndPost_claims i w out w' : typed i → ledger_ok (the_db w) →
  AcceptAndPostProviderTopUp i w = (Ok out, w') → claims_ok (the_db w) →
  claims_ok (the_db w') ∧ rows claims (the_db w) ⊆ rows claims (the_db w') ∧
  ∃ c, rows claims (the_db w') !! ProviderPaymentBinding_ClaimID (pt_Binding i) = Some c ∧
    pc_Fingerprint c = ProviderTopUpInput_Fingerprint i ∧
    pc_PaymentID c = ps_PaymentID (pt_Payment i) ∧
    pc_CommercialOrderID c = pt_CommercialOrderID i ∧
    pc_OrganizationID c = pt_OrganizationID i ∧ ∃ r, pc_Receipt c = Some r ∧
    (out = json_TopUpPostingReceipt r ∨ (out = r ∧ (text_posting i = true → json_TopUpPostingReceipt r = r))).
Proof.
  intros Hty Hok Hr Hcl. pose proof Hcl as [_ Hrec].
  apply AcceptAndPost_run in Hr as (Hv&c&d1&[_ _ Hrows (H1&H2&H3&H4) Hnew]&Hr); [|done..].
  destruct Hnew as [Hl|(Hn&Hcol&->)].
  - rewrite (insert_id _ _ _ Hl) in Hrows. destruct (Hrec _ _ Hl) as [receipt Hc].
    rewrite Hc in Hr. destruct Hr as (->&_&Hr). apply reversals_accepted_claims in Hr.
    rewrite Hrows in Hr. destruct (same_claims_grow _ _ Hr Hcl) as [? ?].
    do 2 (split; [done|]). exists c. rewrite Hr. split; [done|]. do 4 (split; [done|]).
    exists receipt. auto.
  - simpl in Hr. pose proof (posted_text _ _ _ _ Hr) as Htext. apply top_up_posted_claims in Hr. rewrite Hrows, alter_insert_eq in Hr.
    destruct (claims_grow_insert (the_db w) (the_db w') _ (set_claim_receipt out (seed_claim i))
      eq_refl Hn) as [? ?]; [|by eexists|exact Hr|exact Hcl|].
    { intros k x Hx. by eapply (map_find_None _ _ k x Hcol). }
    do 2 (split; [done|]). eexists. rewrite Hr, lookup_insert_eq. split; [done|].
    do 4 (split; [done|]). exists out. auto.
Qed.

Lemma run_claims_grow c w : command_typed c → ledger_ok (the_db w) →
  claims_grow (the_db w) (the_db (run c w).2).
Proof.
  intros Hty Hok. destruct c;
    lazymatch goal with
    | |- claims_grow _ (the_db (run (RunAcceptAndPostProviderTopUp ?i) _).2) =>
      simpl; rewrite void_world; intros Hcl;
      destruct (AcceptAndPostProviderTopUp i w) as [[out|e] w'] eqn:Hr; simpl;
      [by eapply AcceptAndPost_claims in Hr as (?&?&_)|];
      assert (aborts (AcceptAndPostProviderTopUp i)) as Ha
        by (autounfold with repo; solve_aborts);
      apply Ha in Hr; by rewrite Hr
    | |- claims_grow _ (the_db (run ?c _).2) =>
      assert (keeps (on_db claims_grow) (run c)) as Hk;
        [simpl; unfold void, CommitCommercialPurchase, ReleaseCommercialPurchase; solve_keeps
        |apply Hk]
    end.
Qed.

Lemma reachable_claims_ok w : reachable w → claims_ok (the_db w).
Proof.
  induction 1 as [u k|c w Hr IH Hty]; [apply claims_ok_empty|].
  by apply (run_claims_grow c w); [|apply reachable_ledger_ok|].
Qed.

Lemma run_all_claims cs w : reachable w → Forall command_typed cs →
  rows claims (the_db w) ⊆ rows claims (the_db (run_all cs w)).
Proof.
  revert w. induction cs as [|c cs IH]; intros w Hr Hty; [done|]. inversion Hty; subst.
  etrans; [|apply IH; [by apply reach_step|done]].
  apply run_claims_grow; [done|by apply reachable_ledger_ok|by apply reachable_claims_ok].
Qed.

(** ** Reversals on record *)

Lemma lockProviderTopUp_rows p w t w1 : indexed claims (the_db w) →
  lockProviderTopUp p w = (Ok t, w1) → w1 = w ∧ top_up_rows p t (the_db w).
Proof.
  intros Hix Hr. apply lockProviderTopUp_run in Hr as (->&Hs&Hp&c&Hc&Ho&Hor).
  split; [done|]. split; [done|]. split; [done|].
  apply map_find_Some in Hc as [Hc%String.eqb_eq [k Hk]]. by exists k, c.
Qed.

Lemma top_up_rows_lock p t w : indexed claims (the_db w) → top_up_rows p t (the_db w) →
  lockProviderTopUp p w = (Ok t, w).
Proof.
  intros Hix (Hs & (q & Hq & Hpur & Ha) & k & c & Hc & Hcp & Ho & Hor).
  assert (map_find (λ c, pc_PaymentID c =s p) (rows claims (the_db w)) = Some c) as Hf.
  { eapply map_find_unique; [exact Hc|by rewrite Hcp, String.eqb_refl|].
    intros k' c' Hk' Hp'. apply String.eqb_eq in Hp'. destruct (decide (k' = k)) as [->|Hne]; [congruence|].
    exfalso. pose proof (ix_unique _ _ Hix _ _ _ _ Hk' Hc Hne) as Hcol. simpl in Hcol.
    rewrite Hp', Hcp, String.eqb_refl in Hcol. done. }
  unfold lockProviderTopUp, mbind, ST_bind, take, take_pk, gets, table, guard_not. rewrite Hf. simpl.
  simpl in Hq, Hs. rewrite Hq. simpl. rewrite Hpur. simpl. rewrite Hs. simpl.
  by rewrite Ha, Ho, Hor, Z.eqb_refl, !String.eqb_refl.
Qed.

Lemma on_record_replays r out w : claims_ok (the_db w) → on_record r out (the_db w) →
  acceptTopUpReversalTx r w = (Ok out, w).
Proof.
  intros [Hix _] (Hv & (t & Ht & Ho & Hor & Hcu) & x & Hx & <- & Hf & Hval).
  unfold acceptTopUpReversalTx, mbind at 1, ST_bind at 1, check. rewrite Hv. cbv zeta.
  unfold mbind at 1, ST_bind at 1. reversal_cbn. rewrite (top_up_rows_lock _ t) by done.
  unfold mbind, ST_bind, guard_not, take_pk, gets, table. rewrite Ho, Hor, Hcu, !String.eqb_refl.
  cbn [negb orb]. change (reversal_key (normalized_reversal r)) with (reversal_key r).
  rewrite Hx, Hf, Hval, String.eqb_refl. done.
Qed.

(** What a claim is matched by on replay. *)
Definition same_claim (c c' : providerTopUpRow) : Prop :=
  pc_PaymentID c' = pc_PaymentID c ∧ pc_OrganizationID c' = pc_OrganizationID c ∧
  pc_CommercialOrderID c' = pc_CommercialOrderID c.

Lemma on_record_stays r out d d' :
  rows settlements d ⊆ rows settlements d' → rows payments d ⊆ rows payments d' →
  rows receipts d ⊆ rows receipts d' →
  (∀ k c, rows claims d !! k = Some c → ∃ c', rows claims d' !! k = Some c' ∧ same_claim c c') →
  on_record r out d → on_record r out d'.
Proof.
  intros Hs Hp Hrc Hcl (Hv & (t & (H1&(p&H2&H2')&(k&c&H3&H3'&H4&H5))&Ht) & x & Hx & Hx').
  split; [done|]. split.
  - exists t. split; [|done]. split; [by eapply lookup_weaken|]. split.
    + exists p. split; [by eapply lookup_weaken|done].
    + destruct (Hcl k c H3) as (c' & Hc' & E1 & E2 & E3). exists k, c'.
      rewrite E1, E2, E3. done.
  - exists x. split; [by eapply lookup_weaken|done].
Qed.

Lemma on_record_facts r out d d' : facts_grow d d' → rows claims d ⊆ rows claims d' →
  on_record r out d → on_record r out d'.
Proof.
  intros ((_&_&Hs&_)&(Hp&_)&(Hrc&_)&_) Hcl. apply on_record_stays; [done..|].
  intros k c Hc. exists c. split; [by eapply lookup_weaken|done].
Qed.

Lemma accepted_on_record r out t d d' : OrganizationWalletReversal_Validate r = None →
  reversal_accepted r out t d d' → on_record r out d'.
Proof.
  intros Hv [Hset Htop Hcl Hown Hdone]. split; [done|]. cbv zeta in Hdone.
  destruct Hdone as [[-> Hx]|(_&d1&Hs1&_&Hc1&Hp1&Hst)].
  { split; [|destruct Hx as (y & ? & ? & ? & ?); by exists y]. exists t. by split. }
  destruct Hst as [_ _ [_ (y&Hx&?&_&_&_&?)] _ _ Hs' Hp' Hc' (_&_&_&_&Hval)].
  destruct Hs1 as (_&_&_&Hs1&_). split.
  - exists t. split; [|done]. unfold top_up_rows. by rewrite Hs', Hs1, Hp', Hp1, Hc', Hc1.
  - exists y. rewrite Hx, lookup_insert_eq. done.
Qed.

Lemma accepted_keeps_record r out t d d' r0 o : reversal_accepted r out t d d' →
  on_record r0 o d → on_record r0 o d'.
Proof.
  intros [_ _ _ _ Hdone]. cbv zeta in Hdone.
  destruct Hdone as [[-> _]|(_&d1&Hs1&Hr1&Hc1&Hp1&Hst)]; [done|].
  destruct Hst as [_ _ [Hn (y&Hx&_)] _ _ Hs' Hp' Hc' _]. destruct Hs1 as (_&_&_&Hs1&_).
  apply on_record_stays; [by rewrite Hs', Hs1|by rewrite Hp', Hp1| |].
  - rewrite Hx, <- Hr1. by apply insert_subseteq.
  - intros k c Hc. exists c. by rewrite Hc', Hc1.
Qed.

Lemma all_on_record l d d' : reversals_accepted l d d' →
  (∀ r, r ∈ l → ∃ o, on_record r o d') ∧
  (∀ r o, on_record r o d → on_record r o d').
Proof.
  induction 1 as [d|r out t l d d1 d2 Hv _ Ha _ [IH1 IH2]].
  { split; [|done]. intros r Hr. by apply elem_of_nil in Hr. }
  split; [|intros; apply IH2; by eapply accepted_keeps_record].
  intros r' [->|Hin]%elem_of_cons; [|by apply IH1].
  exists out. apply IH2. by eapply accepted_on_record.
Qed.

Lemma each_replays l w : claims_ok (the_db w) →
  (∀ r, r ∈ l → ∃ o, on_record r o (the_db w)) →
  ∃ outs, each acceptTopUpReversalTx l w = (Ok outs, w).
Proof.
  intros Hcl. induction l as [|r l IH]; intros Hon; [by eexists|].
  destruct (Hon r) as [o Ho]; [left|]. destruct IH as [outs He]; [intros; apply Hon; by right|].
  exists (o :: outs). simpl. unfold mbind, ST_bind. by rewrite (on_record_replays r o w Hcl Ho), He.
Qed.

(** ** Postings on record *)

(** A posting has its channel claim, its claim with the receipt, and the
    receipts of the reversals known at the time. *)
Definition posting_on_record (i : ProviderTopUpInput) (out : TopUpPostingReceipt) (d : DB) : Prop :=
  ProviderTopUpInput_Validate i = None ∧ TopUpPostingReceipt_Validate out = None ∧
  (∃ cc, rows channel_claims d !! ProviderPaymentBinding_ClaimID (pt_Binding i) = Some cc ∧
    cc_PaymentID cc = ps_PaymentID (pt_Payment i) ∧ cc_Purpose cc = PaymentPurposeWalletTopUp) ∧
  (∃ c, rows claims d !! ProviderPaymentBinding_ClaimID (pt_Binding i) = Some c ∧
    pc_Fingerprint c = ProviderTopUpInput_Fingerprint i ∧
    pc_PaymentID c = ps_PaymentID (pt_Payment i) ∧
    pc_CommercialOrderID c = pt_CommercialOrderID i ∧
    pc_OrganizationID c = pt_OrganizationID i ∧
    ∃ r, pc_Receipt c = Some r ∧ json_TopUpPostingReceipt r = out) ∧
  (∀ r, r ∈ pt_KnownReversals i → ∃ o, on_record r o d).

Lemma posting_replays i out w : claims_ok (the_db w) → posting_on_record i out (the_db w) →
  AcceptAndPostProviderTopUp i w = (Ok out, w).
Proof.
  intros Hcl (Hv & Hval & (cc & Hcc & Hcp & Hpur) & (c & Hc & E1 & E2 & E3 & E4 & stored & Hrec & Hjson) & Hon).
  destruct (each_replays _ _ Hcl Hon) as [outs He].
  assert (∀ v : channelPaymentClaimRow, pk channel_claims v = ProviderPaymentBinding_ClaimID (pt_Binding i) →
    CreateIgnore channel_claims v w = (Ok false, w)) as Hci1.
  { intros v Hk. unfold CreateIgnore, duplicate, table. rewrite Hk, Hcc. done. }
  assert (∀ v : providerTopUpRow, pk claims v = ProviderPaymentBinding_ClaimID (pt_Binding i) →
    CreateIgnore claims v w = (Ok false, w)) as Hci2.
  { intros v Hk. unfold CreateIgnore, duplicate, table. rewrite Hk, Hc. done. }
  unfold AcceptAndPostProviderTopUp, mbind at 1, ST_bind at 1, check. rewrite Hv.
  unfold Transaction, claimChannelPayment. cbv zeta.
  unfold mbind, ST_bind. rewrite Hci1 by done. unfold take_pk, gets, table, found.
  cbn [cc_ClaimID pc_ClaimID]. rewrite Hcc. unfold mret, ST_ret, guard_not.
  rewrite Hcp, Hpur, !String.eqb_refl. cbn [negb orb]. rewrite Hci2 by done. rewrite Hc.
  cbn [pc_Fingerprint pc_PaymentID pc_CommercialOrderID pc_OrganizationID].
  rewrite E1, E2, E3, E4, !String.eqb_refl. cbn [negb orb]. rewrite Hrec, Hjson, Hval. cbn [negb nil_error].
  by rewrite He.
Qed.

Lemma posting_stays i out d d' : facts_grow d d' → rows claims d ⊆ rows claims d' →
  posting_on_record i out d → posting_on_record i out d'.
Proof.
  intros Hg Hcl (Hv & Hval & (cc & Hcc & Hc') & (c & Hc & E) & Hon). pose proof Hg as (_&_&(_&_&Hgc)&_).
  do 2 (split; [done|]). split; [exists cc; split; [by eapply lookup_weaken|done]|].
  split; [exists c; split; [by eapply lookup_weaken|done]|].
  intros r Hr. destruct (Hon r Hr) as [o Ho]. exists o. by eapply on_record_facts.
Qed.

(** A transaction that took the channel claim ends with it. *)
Lemma AcceptAndPost_channel i w out w' : AcceptAndPostProviderTopUp i w = (Ok out, w') →
  ∃ cc, rows channel_claims (the_db w') !! ProviderPaymentBinding_ClaimID (pt_Binding i) = Some cc ∧
    cc_PaymentID cc = ps_PaymentID (pt_Payment i) ∧ cc_Purpose cc = PaymentPurposeWalletTopUp.
Proof.
  unfold AcceptAndPostProviderTopUp. intros Hr. apply bind_Ok in Hr as (? & ? & _ & Hr).
  apply Transaction_Ok in Hr. apply bind_Ok in Hr as ([] & w1 & Hcl & Hr).
  apply claimChannelPayment_run in Hcl as (_ & cc & Hcc & Hc). exists cc. split; [|done].
  match type of Hr with ?k w1 = _ => assert (keeps (on_db facts_grow) k) as Hk end.
  { unfold post_new_top_up. solve_keeps. }
  specialize (Hk w1). rewrite Hr in Hk. destruct Hk as (_&_&(_&_&Hk)&_). by eapply lookup_weaken.
Qed.

Lemma AcceptAndPost_on_record i w out w' : typed i → text_posting i = true → ledger_ok (the_db w) → claims_ok (the_db w) →
  AcceptAndPostProviderTopUp i w = (Ok out, w') → posting_on_record i out (the_db w').
Proof.
  intros Hty Htx Hok Hcl Hr. destruct (AcceptAndPost_claims _ _ _ _ Hty Hok Hr Hcl) as (_ & _ & Hc).
  assert (∃ c, rows claims (the_db w') !! ProviderPaymentBinding_ClaimID (pt_Binding i) = Some c ∧
    pc_Fingerprint c = ProviderTopUpInput_Fingerprint i ∧ pc_PaymentID c = ps_PaymentID (pt_Payment i) ∧
    pc_CommercialOrderID c = pt_CommercialOrderID i ∧ pc_OrganizationID c = pt_OrganizationID i ∧
    ∃ r, pc_Receipt c = Some r ∧ json_TopUpPostingReceipt r = out) as Hc'.
  { destruct Hc as (c & H1 & H2 & H3 & H4 & H5 & r & Hr' & Ho). exists c. do 5 (split; [done|]).
    exists r. split; [done|]. destruct Ho as [->|[-> Ho]]; auto. }
  clear Hc. rename Hc' into Hc.
  pose proof (AcceptAndPost_channel _ _ _ _ Hr) as Hch.
  apply AcceptAndPost_run in Hr as (Hv&c&d1&_&Hr); [|done..].
  destruct (pc_Receipt c) as [receipt|] eqn:Hrec.
  - destruct Hr as (_ & Hval & Hr). do 4 (split; [done|]). by apply (all_on_record _ _ _ Hr).
  - destruct Hr as [_ Hcm (d2&d3&[_ _ _ _ (_&_&_&Hcl2) _]&Hrv&(Hsl&Hqr&Hqp)) _ _ _ Hval _].
    do 4 (split; [done|]). intros r Hin.
    destruct (proj1 (all_on_record _ _ _ Hrv) r Hin) as [o Ho]. exists o. revert Ho.
    destruct Hsl as (_&_&_&Hqs&_). apply reversals_accepted_claims in Hrv. rewrite Hcl2 in Hrv.
    apply on_record_stays; [by rewrite Hqs|by rewrite Hqp|by rewrite Hqr|].
    intros k x Hx. rewrite Hcm, <- Hrv.
    destruct (decide (k = ProviderPaymentBinding_ClaimID (pt_Binding i))) as [->|Hne].
    + exists (set_claim_receipt out x). rewrite lookup_alter_eq, Hx. done.
    + exists x. rewrite lookup_alter_ne by done. done.
Qed.
End claim_histories.

(** ** The life of a refund hold *)

#[export] Instance hold_step_preorder : PreOrder hold_step.
Proof.
  split; [by left|]. intros h1 h2 h3 [->|(Hs & s & b & -> & Ht & Hb)] H23; [done|].
  right. split; [done|]. destruct H23 as [->|(Hs' & s' & b' & -> & Ht' & Hb')]; [eauto 6|].
  exists s', b'. repeat split; [done|]. intros Hd. by apply Hb', Hb.
Qed.

#[export] Instance holds_evolve_preorder : PreOrder holds_evolve.
Proof.
  split; [intros d k h Hh; exists h; by split; [|left]|].
  intros d1 d2 d3 H12 H23 k h Hh. destruct (H12 k h Hh) as (h2 & Hh2 & S12).
  destruct (H23 k h2 Hh2) as (h3 & Hh3 & S23). exists h3. split; [done|]. by etrans.
Qed.

Lemma same_holds_evolve d d' : rows holds d' = rows holds d → holds_evolve d d'.
Proof. intros Hs k h Hh. exists h. rewrite Hs. by split; [|left]. Qed.

#[export] Hint Extern 0 (Writes (on_db holds_evolve) _) =>
  solve [intros ??; by apply same_holds_evolve] : typeclass_instances.
#[export] Instance holds_evolve_insert : Inserts (on_db holds_evolve) holds.
Proof.
  intros w v Hn _ k h Hh. exists h. read_tables. split; [|by left].
  rewrite lookup_insert_ne; [done|]. congruence.
Qed.

Lemma alter_holds_evolve d d' id f h : rows holds d !! id = Some h → hold_step h (f h) →
  rows holds d' = alter f id (rows holds d) → holds_evolve d d'.
Proof.
  intros Hh Hf He k x Hx. rewrite He. destruct (decide (k = id)) as [->|Hne].
  - rewrite lookup_alter_eq, Hx. simplify_eq. eauto.
  - rewrite lookup_alter_ne by done. exists x. by split; [|left].
Qed.

Lemma accepted_holds_evolve r out t d d' : reversal_accepted r out t d d' → holds_evolve d d'.
Proof.
  intros [_ _ _ _ Hdone]. cbv zeta in Hdone. destruct Hdone as [[-> _]|(_&d1&Hs1&_&_&_&Hst)]; [done|].
  destruct Hs1 as (_&_&_&_&_&Hh1). destruct Hst as [_ _ _ _ Hh _ _ _ _].
  unfold reserved_hold in Hh. rewrite Hh1 in Hh.
  destruct (rv_Kind _ =s _); [|by apply same_holds_evolve].
  destruct (rows holds d !! _) as [h|] eqn:Hl; [|by apply same_holds_evolve].
  destruct (h_State h =s _) eqn:Hs; [|by apply same_holds_evolve]. apply String.eqb_eq in Hs.
  eapply alter_holds_evolve; [exact Hl| |exact Hh]. right. split; [done|].
  exists HoldConfirmed, (h_Dispatched h). by destruct h; auto.
Qed.

Lemma all_holds_evolve l d d' : reversals_accepted l d d' → holds_evolve d d'.
Proof.
  induction 1 as [d|r out t l d d1 d2 _ _ Ha _ IH]; [done|]. etrans; [|exact IH].
  by eapply accepted_holds_evolve.
Qed.

Section hold_histories.
Context `{Env}.

Definition holds_kept (w w' : World) : Prop :=
  ledger_ok (the_db w) → holds_evolve (the_db w) (the_db w').

Lemma kept_intro {A} (m : ST World A) : aborts m →
  (∀ w a w', ledger_ok (the_db w) → m w = (Ok a, w') → holds_evolve (the_db w) (the_db w')) →
  keeps holds_kept m.
Proof.
  intros Ha Hm w Hok. destruct (m w) as [[a|e] w'] eqn:Hr; simpl; [eauto|].
  apply Ha in Hr. by rewrite Hr.
Qed.

Lemma kept_void {A} (m : ST World A) : keeps holds_kept m → keeps holds_kept (void m).
Proof. intros Hm w. rewrite void_world. apply Hm. Qed.

Lemma AcceptReversal_kept r : typed r → keeps holds_kept (AcceptProviderTopUpReversal r).
Proof.
  intros Hty. apply kept_intro; [apply AcceptProviderTopUpReversal_aborts|].
  intros w out w' Hok Hr. apply AcceptReversal_run in Hr as (_ & _ & t & Ha); [|done..].
  by eapply accepted_holds_evolve.
Qed.

Lemma recordProviderReversal_kept p id k n t ref : in_int64 n →
  keeps holds_kept (recordProviderReversal p id k n t ref).
Proof.
  intros Hn w Hok.
  destruct (recordProviderReversal p id k n t ref w) as [[b|e] w'] eqn:Hr; simpl.
  2: { apply recordProviderReversal_aborts in Hr. by rewrite Hr. }
  apply recordProviderReversal_Ok in Hr. destruct b; [|by subst].
  destruct Hr as (o & x & out & Hx & Ho & Hr). assert (typed o) as Hty by (by subst o).
  pose proof (AcceptReversal_kept o Hty w Hok) as Hs. by rewrite Hr in Hs.
Qed.

Lemma kept_record {A} p id k n t ref e (m : bool → ST World A) : in_int64 n →
  (∀ b, keeps (on_db holds_evolve) (m b)) →
  keeps holds_kept (check e;; b ← recordProviderReversal p id k n t ref; m b).
Proof.
  intros Hn Hm w Hok. unfold mbind at 1, ST_bind at 1. destruct e; simpl; [done|].
  pose proof (recordProviderReversal_kept p id k n t ref Hn w Hok) as Hs.
  unfold mbind, ST_bind. destruct (recordProviderReversal _ _ _ _ _ _ w) as [[b|x] w1]; [|done].
  etrans; [exact Hs|apply Hm].
Qed.

Lemma AcceptAndPost_kept i : typed i → keeps holds_kept (AcceptAndPostProviderTopUp i).
Proof.
  intros Hty. apply kept_intro; [autounfold with repo; solve_aborts|].
  intros w out w' Hok Hr. apply AcceptAndPost_run in Hr as (Hv&c&d1&[[Hs _] _ _ _ _]&Hr); [|done..].
  etrans; [apply same_holds_evolve, Hs|]. destruct (pc_Receipt c).
  - destruct Hr as (_&_&Hr). by eapply all_holds_evolve.
  - destruct Hr as [_ _ (d2&d3&[_ _ _ _ (_&_&Hh&_) _]&Hrv&(Hsl&_)) _ _ _ _].
    etrans; [by apply same_holds_evolve|]. etrans; [by eapply all_holds_evolve|].
    apply same_holds_evolve, Hsl.
Qed.

Lemma ApplyTopUpReversal_kept r : typed r → keeps holds_kept (ApplyTopUpReversal r).
Proof.
  intros Hty. apply kept_intro; [apply ApplyTopUpReversal_aborts|].
  intros w out w' Hok Hr. apply ApplyTopUpReversal_run in Hr as (Hv & p & Hp & _ & Hr); [|done..].
  destruct (p_PaymentPurpose p =s _).
  - destruct Hr as (x & w1 & Hr & ->). pose proof (AcceptReversal_kept r Hty w Hok) as Hs.
    by rewrite Hr in Hs.
  - assert (keeps (on_db holds_evolve) (reverse_ordinary_top_up r)) as Hk
      by (unfold reverse_ordinary_top_up; solve_keeps).
    specialize (Hk w). by rewrite Hr in Hk.
Qed.

Lemma AdmitTopUpRefund_kept i : keeps holds_kept (AdmitTopUpRefund i).
Proof.
  apply kept_intro; [autounfold with repo; solve_aborts|]. intros w out w' [Htab _] Hr.
  apply AdmitTopUpRefund_run in Hr as (_&t&h&_&Hh&_&[(->&_)|(Hd&Hs&_&_&He)]); [done| |done].
  eapply alter_holds_evolve; [exact Hh| |exact He]. right. split; [done|].
  exists HoldReserved, true. rewrite <- Hs. by destruct h; auto.
Qed.

Lemma ReleaseTopUpRefundHold_kept i b : typed i → keeps holds_kept (ReleaseTopUpRefundHold i b).
Proof.
  intros Hty. apply kept_intro; [autounfold with repo; solve_aborts|]. intros w out w' Hok Hr.
  apply ReleaseTopUpRefundHold_run in Hr as (h&Hh&_&[[-> _]|(_&_&_&Hs&_&He)]); [done| |done..].
  eapply alter_holds_evolve; [exact Hh| |exact He]. right. split; [done|].
  exists HoldReleased, (h_Dispatched h). by destruct h; auto.
Qed.

Lemma run_holds_kept c : command_typed c → keeps holds_kept (run c).
Proof.
  intros Hty.
  destruct c;
    lazymatch goal with
    | |- keeps _ (run (RunApplyTopUpReversal _)) => by apply kept_void, ApplyTopUpReversal_kept
    | |- keeps _ (run (RunAcceptAndPostProviderTopUp _)) => by apply kept_void, AcceptAndPost_kept
    | |- keeps _ (run (RunAcceptProviderTopUpReversal _)) => by apply kept_void, AcceptReversal_kept
    | |- keeps _ (run (RunAdmitTopUpRefund _)) => apply kept_void, AdmitTopUpRefund_kept
    | |- keeps _ (run (RunReleaseTopUpRefundHold _ _)) => by apply kept_void, ReleaseTopUpRefundHold_kept
    | |- keeps _ (run (RunRecordRefundSettlement _)) => apply kept_record; [done|]; solve_keeps
    | |- keeps _ (run (RunRecordChargebackSettlement _)) => apply kept_record; [done|]; solve_keeps
    | |- keeps _ (run ?c) =>
      assert (keeps (on_db holds_evolve) (run c)) as Hk by
        (simpl; unfold void, CommitCommercialPurchase, ReleaseCommercialPurchase; solve_keeps);
      intros w _; apply Hk
    end.
Qed.

Lemma run_all_holds cs w : reachable w → Forall command_typed cs →
  holds_evolve (the_db w) (the_db (run_all cs w)).
Proof.
  revert w. induction cs as [|c cs IH]; intros w Hr Hty; [done|]. inversion Hty; subst.
  etrans; [|apply IH; [by apply reach_step|done]].
  by apply (run_holds_kept c); [|apply reachable_ledger_ok].
Qed.

(** ** The refund budget *)

Lemma refund_budget t n w : 0 < t_AmountMinor t ≤ max_int64 → in_int64 n →
  checkRefundBudget t n w = (Ok tt, w) →
  provider_reversed (the_db w) (t_PaymentID t) + open_holds (the_db w) (t_PaymentID t) + n ≤
    t_AmountMinor t ∧ 0 ≤ provider_reversed (the_db w) (t_PaymentID t) ∧
  0 ≤ open_holds (the_db w) (t_PaymentID t) ∧ 0 ≤ n.
Proof.
  intros Ht Hn Hr. unfold checkRefundBudget in Hr.
  apply bind_Ok in Hr as (a & w1 & Hs & Hr). apply Sum_Ok in Hs as (-> & Ha & ->).
  apply bind_Ok in Hr as (b & w1 & Hs & Hr). apply Sum_Ok in Hs as (-> & Hb & ->).
  apply guard_not_Ok in Hr as [Hg _].
  change (msum _ (rows receipts (the_db w))) with (provider_reversed (the_db w) (t_PaymentID t)) in *.
  change (msum _ (rows holds (the_db w))) with (open_holds (the_db w) (t_PaymentID t)) in *.
  set (a := provider_reversed _ _) in *. set (b := open_holds _ _) in *. clearbody a b.
  reflect_bools. destruct_and!. i64_norm. repeat split; lia.
Qed.
End hold_histories.
