(* ===== verification/TopUpTheorems.v ===== *)
(** * The provider top-up theorems

    What TopUpLaws adds up to, stated of the operations of
    provider_topup_repository.go: a verified top-up posts once, a reversal is
    accepted once and takes principal before excess, refund holds are granted
    within the budget of their settlement and end once, and a channel trade
    pays for one thing. A worked history of a provider top-up instantiates
    each theorem. *)
From S2P Require Import Prelude GoStd Encoding MoneyTypes ProviderTopUp ServiceMoney Store MoneyStore WalletSpec WalletRepo TopUpRepo ServiceRepo SettlementRepo Ledger WalletLaws TopUpLaws.

(** ** A worked history

    Ten yuan posted to org-1, four of them held, dispatched and refunded, then
    a chargeback of nine: the six left are reversed, three are excess. *)
Definition demo_binding : ProviderPaymentBinding := {|
  pb_Provider := "ALIPAY"; pb_Environment := "PRODUCTION"; pb_MerchantID := "merchant-1";
  pb_AppID := "app-1"; pb_TradeID := "trade-1" |}.

Definition demo_top_up : ProviderTopUpInput := {|
  pt_OperationID := "top-up-1"; pt_OrganizationID := "org-1"; pt_CommercialOrderID := "order-1";
  pt_Currency := WalletCurrencyCNY; pt_AmountMinor := 1000; pt_Binding := demo_binding;
  pt_Payment := {|
    ps_PaymentID := "pay-1"; ps_PaymentPurpose := PaymentPurposeWalletTopUp;
    ps_CommissionTreatment := CommissionNonCommissionable;
    ps_PayerBinding := PayerUnattributedExternal; ps_PayerUserID := "";
    ps_Currency := WalletCurrencyCNY; ps_GrossAmountMinor := 1000;
    ps_DiscountAmountMinor := 0; ps_CommissionableAmountMinor := 0;
    ps_Status := PaymentSettled; ps_SettledAt := demo_start;
    ps_ProviderReference := "trade-1"; ps_Version := 1 |};
  pt_KnownReversals := [] |}.

Definition demo_refund : TopUpRefundInput := {|
  ri_Key := {| rk_PaymentID := "pay-1"; rk_Kind := WalletReversalRefund;
               rk_ReversalID := "refund-1" |};
  ri_OrganizationID := "org-1"; ri_CommercialOrderID := "order-1"; ri_AmountMinor := 400;
  ri_ApprovalID := "approval-1" |}.

Definition demo_top_up_reversal (id kind : string) (n : Z) : OrganizationWalletReversal := {|
  rv_ReversalID := id; rv_PaymentID := "pay-1"; rv_CommercialOrderID := "order-1";
  rv_OrganizationID := "org-1"; rv_Kind := kind; rv_Currency := WalletCurrencyCNY;
  rv_AmountMinor := n; rv_OccurredAt := demo_start + Second; rv_ProviderReference := "ref-2" |}.

Definition demo_refunded := demo_top_up_reversal "refund-1" WalletReversalRefund 400.
Definition demo_charged_back := demo_top_up_reversal "chargeback-1" WalletReversalChargeback 900.

Definition top_up_commands : list command :=
  [RunAcceptAndPostProviderTopUp demo_top_up; RunPrepareTopUpRefund demo_refund;
   RunAdmitTopUpRefund demo_refund; RunAcceptProviderTopUpReversal demo_refunded;
   RunAcceptProviderTopUpReversal demo_charged_back].

Definition top_up_world (n : nat) : World :=
  run_all (H:=demo_env) (List.firstn n top_up_commands) empty_world.

(** ** One channel trade, one payment, one purpose *)

(** What a command that accepts a payment does with a channel trade. *)
Definition channel_use (c : command) : option (string * string * string) :=
  match c with
  | RunAcceptAndPostProviderTopUp i =>
    Some (ProviderPaymentBinding_ClaimID (pt_Binding i), ps_PaymentID (pt_Payment i),
          PaymentPurposeWalletTopUp)
  | RunAcceptServicePayment i =>
    Some (ProviderPaymentBinding_ClaimID (sp_Binding i), ps_PaymentID (sp_Payment i),
          PaymentPurposeServicePurchase)
  | _ => None
  end.

(** A channel trade is claimed for a payment and a purpose. *)
Definition channel_claimed (u : string * string * string) (d : DB) : Prop :=
  ∃ cc, rows channel_claims d !! u.1.1 = Some cc ∧ cc_PaymentID cc = u.1.2 ∧ cc_Purpose cc = u.2.

(** * Lemmas *)

#[export] Instance channel_claims_symmetric : SymmetricIndex channel_claims.
Proof. intros x y. apply String.eqb_sym. Qed.

Section top_up_lemmas.
Context `{Env}.

Lemma run_channel_index c : keeps (on_db (index_stays channel_claims)) (run c).
Proof.
  destruct c; simpl; unfold void, CommitCommercialPurchase, ReleaseCommercialPurchase;
    solve_keeps.
Qed.

Lemma reachable_channel_index w : reachable w → indexed channel_claims (the_db w).
Proof.
  apply (reachable_kept (indexed channel_claims)); [by apply indexed_empty|apply run_channel_index].
Qed.

(** A successful command that uses a channel trade leaves it claimed. *)
Lemma run_claims_channel c u w w' : channel_use c = Some u → run c w = (Ok tt, w') →
  channel_claimed u (the_db w').
Proof.
  destruct c; simpl; try done; intros [= <-] Hr; apply bind_Ok in Hr as (out & w1 & Hr & Hret);
    apply ret_Ok in Hret as [_ ->].
  - by eapply AcceptAndPost_channel.
  - unfold AcceptServicePayment in Hr. apply bind_Ok in Hr as (? & ? & _ & Hr).
    apply Transaction_Ok in Hr. apply bind_Ok in Hr as ([] & w2 & Hcl & Hr).
    apply claimChannelPayment_run in Hcl as (_ & cc & Hcc & Hc). exists cc. split; [|done].
    match type of Hr with ?k w2 = _ => assert (keeps (on_db facts_grow) k) as Hk end.
    { solve_keeps. }
    specialize (Hk w2). rewrite Hr in Hk. destruct Hk as (_&_&(_&_&Hk)&_). by eapply lookup_weaken.
Qed.

Lemma channel_claimed_stays u d d' : facts_grow d d' → channel_claimed u d → channel_claimed u d'.
Proof.
  intros (_&_&(_&_&Hg)&_) (cc & Hcc & Hc). exists cc. split; [by eapply lookup_weaken|done].
Qed.

Lemma reached_by_run c w w' (o : result unit) : reachable w → command_typed c →
  run c w = (o, w') → reachable w'.
Proof. intros Hre Hty Hr. pose proof (reach_step c w Hre Hty) as Hs. by rewrite Hr in Hs. Qed.

Lemma void_run {A} (m : ST World A) w a w' : m w = (Ok a, w') → void m w = (Ok tt, w').
Proof. intros Hm. unfold void, mbind, ST_bind. by rewrite Hm. Qed.
End top_up_lemmas.

(** What an accepted reversal does to the books. *)
Definition reversal_effect (r : OrganizationWalletReversal) (out : TopUpReversalReceipt)
    (t : walletTopUpSettlementRow) (d d' : DB) : Prop :=
  let id := TopUpReversalKey_StorageID (reversal_key r) in
  let left := t_AmountMinor t - reversed_principal d (rv_PaymentID r) in
  rr_ProviderAmountMinor out = rv_AmountMinor r ∧
  rr_WalletPrincipalEffectMinor out = Z.min (rv_AmountMinor r) left ∧
  rr_ExcessProviderMinor out = rv_AmountMinor r - Z.min (rv_AmountMinor r) left ∧
  match reversal_movement (reserved_hold (normalized_reversal r) id d) (rv_AmountMinor r)
          (Z.min (rv_AmountMinor r) left) with
  | Some mv => enabled mv (account d (rv_OrganizationID r)) ∧ moves mv (rv_OrganizationID r) d d'
  | None => idle d d'
  end.

Section top_up_effects.
Context `{Env}.

Lemma reversal_accepted_effect r out t d d' : reversal_accepted r out t d d' →
  rows receipts d !! TopUpReversalKey_StorageID (reversal_key r) = None → reversal_effect r out t d d'.
Proof.
  intros [_ _ _ _ Hdone] Hn. cbv zeta in Hdone.
  destruct Hdone as [(_&x&Hx&_)|(_&d1&Hs&_&_&_&[Hm _ _ _ _ _ _ _ (_&E1&E2&E3&_)])]; [congruence|].
  unfold reversal_effect. cbv zeta. do 3 (split; [done|]).
  assert (reserved_hold (normalized_reversal r) (TopUpReversalKey_StorageID (reversal_key r)) d1 =
    reserved_hold (normalized_reversal r) (TopUpReversalKey_StorageID (reversal_key r)) d) as <-.
  { unfold reserved_hold. destruct Hs as (_&_&_&_&_&Hh). by rewrite Hh. }
  change (rv_AmountMinor (normalized_reversal r)) with (rv_AmountMinor r) in Hm.
  change (rv_OrganizationID (normalized_reversal r)) with (rv_OrganizationID r) in Hm.
  destruct (same_ledger_idle _ _ Hs (rv_OrganizationID r)) as [Hacc _].
  destruct (reversal_movement _ _ _).
  - rewrite Hacc in Hm. destruct Hm. split; [done|]. by eapply moves_same.
  - eapply idle_trans; [by apply same_ledger_idle|done].
Qed.

(** The credit of a first posting, seen from the database before the claim. *)
Lemma posted_moves_first i out d d1 d' : same_ledger d d1 → top_up_posted i out d1 d' →
  ∃ d2 d3, enabled (Credit (pt_AmountMinor i)) (account d (pt_OrganizationID i)) ∧
    moves (Credit (pt_AmountMinor i)) (pt_OrganizationID i) d d2 ∧
    reversals_accepted (pt_KnownReversals i) d2 d3 ∧ idle d3 d' ∧
  tp_GrossCreditMinor out = pt_AmountMinor i ∧
  tp_DebtRepaidMinor out = Z.min (a_debt (account d (pt_OrganizationID i))) (pt_AmountMinor i) ∧
  tp_AvailableAddedMinor out = pt_AmountMinor i - tp_DebtRepaidMinor out.
Proof.
  intros Hs [_ _ (d2&d3&[He Hm _ _ _ _]&Hr&Hq) Hrep Hadd Hg _ _].
  destruct (same_ledger_idle _ _ Hs (pt_OrganizationID i)) as [Hacc _]. rewrite Hacc in *.
  exists d2, d3. split; [done|]. split; [by eapply moves_same|]. split; [done|].
  split; [by apply same_ledger_idle, Hq|]. done.
Qed.
End top_up_effects.

(** * Properties *)

Section top_up_properties.
Context `{Env}.

(** C17. A verified provider top-up is posted once. The first posting of a
    channel trade credits the whole amount, debt first, applies the reversals
    already known, in order, and its receipt says how much repaid debt and how
    much became available; any later one is answered with what the recorded
    receipt reads back as. After it, and after any commands, the same posting
    returns the same receipt and changes nothing, provided its operation and the
    identifiers of its channel trade are valid UTF-8: the receipt is kept as JSON,
    which does not preserve other bytes. *)
Theorem provider_top_up_posted_once (i : ProviderTopUpInput) (w w' : World)
    (out : TopUpPostingReceipt) (cs : list command)
    (Hre : reachable w) (Hty : typed i) (Hcs : Forall command_typed cs)
    (Hr : AcceptAndPostProviderTopUp i w = (Ok out, w')) :
  let d := the_db w in
  match rows claims d !! ProviderPaymentBinding_ClaimID (pt_Binding i) with
  | None => ∃ d1 d2,
      moves (Credit (pt_AmountMinor i)) (pt_OrganizationID i) d d1 ∧
      reversals_accepted (pt_KnownReversals i) d1 d2 ∧ idle d2 (the_db w') ∧
      tp_GrossCreditMinor out = pt_AmountMinor i ∧
      tp_DebtRepaidMinor out = Z.min (a_debt (account d (pt_OrganizationID i))) (pt_AmountMinor i) ∧
      tp_AvailableAddedMinor out = pt_AmountMinor i - tp_DebtRepaidMinor out
  | Some c => (∃ r, pc_Receipt c = Some r ∧ out = json_TopUpPostingReceipt r) ∧
      ∃ d1, idle d d1 ∧ reversals_accepted (pt_KnownReversals i) d1 (the_db w')
  end ∧
  (text_posting i = true → AcceptAndPostProviderTopUp i (run_all cs w') = (Ok out, run_all cs w')).
Proof.
  pose proof (reachable_ledger_ok w Hre) as Hok. pose proof (reachable_claims_ok w Hre) as Hcl.
  assert (reachable w') as Hre' by
    (eapply (reached_by_run (RunAcceptAndPostProviderTopUp i)); [done..|by eapply void_run]).
  split.
  - pose proof Hcl as [_ Hrec]. cbv zeta.
    apply AcceptAndPost_run in Hr as (Hv&c&d1&[[Hs _] _ _ _ Hnew]&Hr); [|done..].
    destruct Hnew as [Hl|(Hn&_&->)].
    + rewrite Hl. destruct (Hrec _ _ Hl) as [x Hx]. rewrite Hx in Hr. destruct Hr as (->&_&Hr).
      split; [by exists x|]. exists d1. split; [by apply same_ledger_idle|done].
    + rewrite Hn. simpl in Hr. eapply posted_moves_first in Hr as (d2&d3&_&?&?&?&?&?&?); [|exact Hs].
      exists d2, d3. done.
  - intros Htx. apply posting_replays; [by apply reachable_claims_ok, run_all_reachable|].
    eapply posting_stays; [apply run_all_facts|by apply run_all_claims|].
    by eapply AcceptAndPost_on_record.
Qed.

(** C18. A provider reversal of a top-up is accepted once. The first acceptance
    takes what is left of the settled principal and records the rest as excess;
    in the wallet it consumes the refund's hold, or takes the principal from
    available funds and then into debt, or does nothing when no principal is
    left. After it, and after any commands, the same reversal returns the same
    receipt and changes nothing. *)
Theorem provider_reversal_accepted_once (r : OrganizationWalletReversal) (w w' : World)
    (out : TopUpReversalReceipt) (cs : list command)
    (Hre : reachable w) (Hty : typed r) (Hcs : Forall command_typed cs)
    (Hr : AcceptProviderTopUpReversal r w = (Ok out, w')) :
  match rows receipts (the_db w) !! TopUpReversalKey_StorageID (reversal_key r) with
  | Some x => tr_Receipt x = out ∧ the_db w' = the_db w
  | None => ∃ t, rows settlements (the_db w) !! rv_PaymentID r = Some t ∧
      reversal_effect r out t (the_db w) (the_db w')
  end ∧
  AcceptProviderTopUpReversal r (run_all cs w') = (Ok out, run_all cs w').
Proof.
  pose proof (reachable_ledger_ok w Hre) as Hok.
  assert (reachable w') as Hre' by
    (eapply (reached_by_run (RunAcceptProviderTopUpReversal r)); [done..|by eapply void_run]).
  apply AcceptReversal_run in Hr as (Hv & _ & t & Ha); [|done..]. split.
  - destruct (rows receipts _ !! _) as [x|] eqn:Hx.
    + destruct Ha as [_ _ _ _ Hdone]. cbv zeta in Hdone.
      destruct Hdone as [(->&y&Hy&Ho&_)|(_&d1&Hs&Hrc&_&_&[_ _ [Hn _] _ _ _ _ _ _])].
      * split; [congruence|done].
      * rewrite Hrc in Hn. congruence.
    + exists t. split; [apply Ha|]. by apply reversal_accepted_effect.
  - assert (on_record r out (the_db (run_all cs w'))) as Hon.
    { eapply on_record_facts; [apply run_all_facts|by apply run_all_claims|].
      by eapply accepted_on_record. }
    unfold AcceptProviderTopUpReversal, mbind, ST_bind, check. rewrite Hv. unfold Transaction.
    by rewrite (on_record_replays r out) by (by try apply reachable_claims_ok, run_all_reachable).
Qed.

(** C19. No settlement is reversed for more than it credited, in any reachable
    database; and of a provider top-up, the principal reversed so far is what
    the provider reported as reversed, capped at the settled amount. *)
Theorem reversals_capped_by_settlement (w : World) (payment : string)
    (t : walletTopUpSettlementRow) (Hre : reachable w)
    (Ht : rows settlements (the_db w) !! payment = Some t) :
  let d := the_db w in
  0 ≤ reversed_of d payment ≤ t_AmountMinor t ∧
  reversed_principal d payment = Z.min (t_AmountMinor t) (provider_reversed d payment) ∧
  (is_top_up d payment → reversed_of d payment = reversed_principal d payment).
Proof. destruct (ro_caps _ (reachable_reversals_ok w Hre) payment t Ht) as (_&?&?&?). done. Qed.

(** A refund hold ends at most once: whatever is run, a hold keeps its
    payment, amount and approval, leaves RESERVED at most once, for CONFIRMED
    or RELEASED, stays dispatched once dispatched, and never changes after. *)
Theorem refund_hold_ends_once (w : World) (cs : list command) (id : string)
    (h : topUpRefundHoldRow) (Hre : reachable w) (Hcs : Forall command_typed cs)
    (Hh : rows holds (the_db w) !! id = Some h) :
  ∃ h', rows holds (the_db (run_all cs w)) !! id = Some h' ∧ hold_step h h' ∧
    (h_State h ≠ HoldReserved → h' = h).
Proof.
  destruct (run_all_holds cs w Hre Hcs id h Hh) as (h' & Hh' & Hs).
  exists h'. do 2 (split; [done|]). by destruct Hs as [->|[Ho _]].
Qed.

(** C20. A new refund hold is granted only without debt and within what is left
    of its settlement: all that was reversed of the payment and all that is on
    hold for it, the new hold included, stay within the settled amount. The
    amount moves from available to reserved, and the hold is open. *)
Theorem refund_hold_within_budget (i : TopUpRefundInput) (w w' : World) (out : TopUpRefundHold)
    (Hre : reachable w) (Hty : typed i)
    (Hnew : rows holds (the_db w) !! TopUpReversalKey_StorageID (ri_Key i) = None)
    (Hr : PrepareTopUpRefund i w = (Ok out, w')) :
  let p := rk_PaymentID (ri_Key i) in
  a_debt (account (the_db w) (ri_OrganizationID i)) = 0 ∧
  moves (Reserve (ri_AmountMinor i)) (ri_OrganizationID i) (the_db w) (the_db w') ∧
  rh_State out = HoldReserved ∧ rh_Dispatched out = false ∧
  open_holds (the_db w') p = open_holds (the_db w) p + ri_AmountMinor i ∧
  ∃ t, rows settlements (the_db w) !! p = Some t ∧
    provider_reversed (the_db w') p + open_holds (the_db w') p ≤ t_AmountMinor t.
Proof.
  pose proof (reachable_ledger_ok w Hre) as Hok. pose proof Hok as [Htab _].
  apply PrepareTopUpRefund_run in Hr as [(_&h&Hh&_)|(_&Hd&_&Hm&_&t&h&Ht&Hb&Hh&Hp&Ha&Hs&Hdi&->&Hrc)];
    [congruence| |done..].
  destruct (ok_settlements _ Htab _ _ Ht) as (Hk&_&Hn).
  apply refund_budget in Hb as (Hb&_&_&_); [|done..]. rewrite <- Hk in Hb.
  set (p := rk_PaymentID (ri_Key i)) in *.
  assert (open_holds (the_db w') p = open_holds (the_db w) p + ri_AmountMinor i) as Ho.
  { unfold open_holds. rewrite Hh, msum_insert, Hp, Hs, Ha, !String.eqb_refl by done. simpl. lia. }
  cbv zeta. rewrite Ho. do 5 (split; [done|]). exists t. split; [done|].
  unfold provider_reversed at 1. rewrite Hrc. fold (provider_reversed (the_db w) p). lia.
Qed.

(** Releasing a refund hold gives its amount back once, debt first; a hold
    that was dispatched is released only on proof that the refund was not
    executed; and releasing it again changes nothing. *)
Theorem refund_hold_released_once (i : TopUpRefundInput) (proof : bool) (w w' : World)
    (out : TopUpRefundHold) (Hre : reachable w) (Hty : typed i)
    (Hr : ReleaseTopUpRefundHold i proof w = (Ok out, w')) :
  ∃ h, rows holds (the_db w) !! TopUpReversalKey_StorageID (ri_Key i) = Some h ∧
    rh_Input (refundHold h) = i ∧
    ((h_State h = HoldReleased ∧ w' = w) ∨
     (h_State h = HoldReserved ∧ (h_Dispatched h = true → proof = true) ∧
      moves (Release (ri_AmountMinor i)) (ri_OrganizationID i) (the_db w) (the_db w') ∧
      rows holds (the_db w') !! TopUpReversalKey_StorageID (ri_Key i) =
        Some (set_hold_state HoldReleased h))).
Proof.
  apply ReleaseTopUpRefundHold_run in Hr as (h&Hh&Hi&[(->&Hs&_)|(_&Hm&_&Hs&Hd&He)]);
    [..|done|by apply reachable_ledger_ok]; exists h; do 2 (split; [done|]).
  - by left.
  - right. rewrite He, lookup_alter_eq, Hh. done.
Qed.

(** C21. A channel trade pays for one thing. Of two accepted payments, in any
    history, that name the same channel trade, or the same payment, both name
    the same trade, the same payment and the same purpose: a top-up is never
    also a service payment. *)
Theorem channel_trade_pays_once (c1 c2 : command) (u1 u2 : string * string * string)
    (w w1 w2 : World) (cs : list command)
    (Hre : reachable w) (Hc1 : command_typed c1) (Hc2 : command_typed c2)
    (Hcs : Forall command_typed cs)
    (Hu1 : channel_use c1 = Some u1) (Hu2 : channel_use c2 = Some u2)
    (Hr1 : run c1 w = (Ok tt, w1)) (Hr2 : run c2 (run_all cs w1) = (Ok tt, w2)) :
  u1.1.1 = u2.1.1 ∨ u1.1.2 = u2.1.2 → u1 = u2.
Proof.
  assert (reachable w1) as Hre1 by exact (reached_by_run _ _ _ _ Hre Hc1 Hr1).
  assert (reachable w2) as Hre2
    by exact (reached_by_run _ _ _ _ (run_all_reachable _ _ Hre1 Hcs) Hc2 Hr2).
  assert (channel_claimed u1 (the_db w2)) as (x1 & Hx1 & Hp1 & Hq1).
  { eapply channel_claimed_stays; [|eapply run_claims_channel; [exact Hu1|exact Hr1]].
    etrans; [apply (run_all_facts cs)|]. pose proof (run_facts_grow c2 (run_all cs w1)) as Hg.
    by rewrite Hr2 in Hg. }
  assert (channel_claimed u2 (the_db w2)) as (x2 & Hx2 & Hp2 & Hq2)
    by (by eapply run_claims_channel).
  destruct u1 as [[k1 p1] q1], u2 as [[k2 p2] q2]. simpl in *. intros Hsame.
  assert (k1 = k2) as <-; [|congruence].
  destruct Hsame as [|<-]; [done|]. destruct (decide (k1 = k2)) as [|Hne]; [done|]. exfalso.
  pose proof (ix_unique _ _ (reachable_channel_index w2 Hre2) _ _ _ _ Hx1 Hx2 Hne) as Hcol.
  simpl in Hcol. rewrite Hp1, Hp2 in Hcol. by rewrite String.eqb_refl in Hcol.
Qed.
End top_up_properties.

(** ** Worked instances *)

Lemma demo_top_up_typed : typed demo_top_up.
Proof. split; [by vm_compute|]. intros r Hr. by apply elem_of_nil in Hr. Qed.

Lemma demo_prepare_typed : Forall command_typed [RunPrepareTopUpRefund demo_refund].
Proof. apply Forall_cons_2; [by vm_compute|apply Forall_nil_2]. Qed.

Lemma demo_refunded_typed :
  Forall command_typed [RunAcceptProviderTopUpReversal demo_refunded].
Proof. apply Forall_cons_2; [by vm_compute|apply Forall_nil_2]. Qed.

Lemma demo_charged_back_typed : typed demo_charged_back.
Proof. by vm_compute. Qed.

Lemma demo_refund_typed : typed demo_refund.
Proof. by vm_compute. Qed.

Lemma top_up_typed : Forall command_typed top_up_commands.
Proof.
  apply Forall_cons_2; [exact demo_top_up_typed|].
  repeat (apply Forall_cons_2; [by vm_compute|]). apply Forall_nil_2.
Qed.

Lemma top_up_reachable n : reachable (H:=demo_env) (top_up_world n).
Proof. apply reachable_all. apply Forall_take, top_up_typed. Qed.

Example top_up_accounts :
  map (λ n, account (the_db (top_up_world n)) "org-1") [1; 2; 4; 5]%nat =
    [Build_Account 1000 0 0 1000 0; Build_Account 600 400 0 1000 0;
     Build_Account 600 0 0 1000 0; Build_Account 0 0 0 1000 0].
Proof. vm_compute. reflexivity. Qed.

Lemma provider_top_up_posted_once_witness :
  ∃ out w', AcceptAndPostProviderTopUp (H:=demo_env) demo_top_up empty_world = (Ok out, w') ∧
    AcceptAndPostProviderTopUp (H:=demo_env) demo_top_up
      (run_all (H:=demo_env) [RunPrepareTopUpRefund demo_refund] w') =
      (Ok out, run_all (H:=demo_env) [RunPrepareTopUpRefund demo_refund] w').
Proof.
  destruct (is_ok_run (AcceptAndPostProviderTopUp (H:=demo_env) demo_top_up empty_world))
    as (out & w' & Hr); [vm_compute; reflexivity|].
  exists out, w'. split; [exact Hr|].
  pose proof (provider_top_up_posted_once (H:=demo_env) demo_top_up empty_world w' out
    [RunPrepareTopUpRefund demo_refund] (reach_start 0 0) demo_top_up_typed demo_prepare_typed Hr) as Hd.
  cbv zeta in Hd. destruct Hd as [_ Hd]. apply Hd. by vm_compute.
Defined.

Lemma demo_no_receipt :
  rows receipts (the_db (top_up_world 4)) !!
    TopUpReversalKey_StorageID (reversal_key demo_charged_back) = None.
Proof. vm_compute. reflexivity. Qed.

Lemma provider_reversal_accepted_once_witness :
  ∃ out w', AcceptProviderTopUpReversal (H:=demo_env) demo_charged_back (top_up_world 4) = (Ok out, w') ∧
    ∃ t, rows settlements (the_db (top_up_world 4)) !! "pay-1" = Some t ∧
      reversal_effect demo_charged_back out t (the_db (top_up_world 4)) (the_db w').
Proof.
  destruct (is_ok_run (AcceptProviderTopUpReversal (H:=demo_env) demo_charged_back (top_up_world 4)))
    as (out & w' & Hr); [vm_compute; reflexivity|].
  exists out, w'. split; [exact Hr|].
  pose proof (provider_reversal_accepted_once (H:=demo_env) demo_charged_back (top_up_world 4)
    w' out [] (top_up_reachable 4) demo_charged_back_typed (Forall_nil_2 _) Hr) as Hd.
  destruct Hd as [Hd _].
  revert Hd. generalize demo_no_receipt. generalize (rows receipts (the_db (top_up_world 4)) !!
    TopUpReversalKey_StorageID (reversal_key demo_charged_back)).
  intros o -> Hd. exact Hd.
Defined.

Definition demo_settled : walletTopUpSettlementRow := {|
  t_PaymentID := "pay-1"; t_CommercialOrderID := "order-1"; t_OrganizationID := "org-1";
  t_Currency := "CNY"; t_AmountMinor := 1000; t_SettledAt := demo_start;
  t_ProviderReference := "trade-1"; t_Version := 1 |}.

Lemma reversals_capped_by_settlement_witness :
  rows settlements (the_db (top_up_world 5)) !! "pay-1" = Some demo_settled ∧
  reversed_of (the_db (top_up_world 5)) "pay-1" ≤ 1000.
Proof.
  assert (rows settlements (the_db (top_up_world 5)) !! "pay-1" = Some demo_settled) as Ht
    by (vm_compute; reflexivity).
  split; [exact Ht|].
  exact (proj2 (proj1 (reversals_capped_by_settlement (H:=demo_env) (top_up_world 5) "pay-1"
    demo_settled (top_up_reachable 5) Ht))).
Defined.

Lemma demo_hold :
  is_Some (rows holds (the_db (top_up_world 3)) !! TopUpReversalKey_StorageID (ri_Key demo_refund)).
Proof. apply is_Some_alt. vm_compute. exact I. Qed.

Lemma refund_hold_ends_once_witness :
  ∃ h h', rows holds (the_db (top_up_world 3)) !! TopUpReversalKey_StorageID (ri_Key demo_refund) = Some h ∧
    rows holds (the_db (run_all (H:=demo_env) [RunAcceptProviderTopUpReversal demo_refunded]
      (top_up_world 3))) !! TopUpReversalKey_StorageID (ri_Key demo_refund) = Some h' ∧ hold_step h h'.
Proof.
  pose proof demo_hold as [h Hh].
  destruct (refund_hold_ends_once (H:=demo_env) (top_up_world 3)
    [RunAcceptProviderTopUpReversal demo_refunded] _ h (top_up_reachable 3)
    demo_refunded_typed Hh) as (h' & Hh' & Hs & _).
  exists h, h'. exact (conj Hh (conj Hh' Hs)).
Defined.

Lemma demo_no_hold :
  rows holds (the_db (top_up_world 1)) !! TopUpReversalKey_StorageID (ri_Key demo_refund) = None.
Proof. vm_compute. reflexivity. Qed.

Lemma refund_hold_within_budget_witness :
  ∃ out w', PrepareTopUpRefund (H:=demo_env) demo_refund (top_up_world 1) = (Ok out, w') ∧
    rh_State out = HoldReserved ∧ open_holds (the_db w') "pay-1" =
      open_holds (the_db (top_up_world 1)) "pay-1" + 400.
Proof.
  destruct (is_ok_run (PrepareTopUpRefund (H:=demo_env) demo_refund (top_up_world 1)))
    as (out & w' & Hr); [vm_compute; reflexivity|].
  destruct (refund_hold_within_budget (H:=demo_env) demo_refund (top_up_world 1) w' out
    (top_up_reachable 1) demo_refund_typed demo_no_hold Hr)
    as (_ & _ & Hs & _ & Ho & _).
  exists out, w'. exact (conj Hr (conj Hs Ho)).
Defined.

Lemma refund_hold_released_once_witness :
  ∃ out w', ReleaseTopUpRefundHold (H:=demo_env) demo_refund true (top_up_world 3) = (Ok out, w') ∧
    ∃ h, rows holds (the_db (top_up_world 3)) !! TopUpReversalKey_StorageID (ri_Key demo_refund) = Some h ∧
      rh_Input (refundHold h) = demo_refund.
Proof.
  destruct (is_ok_run (ReleaseTopUpRefundHold (H:=demo_env) demo_refund true (top_up_world 3)))
    as (out & w' & Hr); [vm_compute; reflexivity|].
  destruct (refund_hold_released_once (H:=demo_env) demo_refund true (top_up_world 3) w' out
    (top_up_reachable 3) demo_refund_typed Hr) as (h & Hh & Hi & _).
  exists out, w'. split; [exact Hr|]. exists h. exact (conj Hh Hi).
Defined.

Lemma demo_posted :
  is_ok (run (H:=demo_env) (RunAcceptAndPostProviderTopUp demo_top_up) empty_world).1 = true.
Proof. vm_compute. reflexivity. Qed.

(** Once the trade paid for the top-up, no service payment is accepted for it. *)
Lemma channel_trade_pays_once_witness :
  ∃ w1, run (H:=demo_env) (RunAcceptAndPostProviderTopUp demo_top_up) empty_world = (Ok tt, w1) ∧
    ∀ i w2, typed i → run (H:=demo_env) (RunAcceptServicePayment i) w1 = (Ok tt, w2) →
      ProviderPaymentBinding_ClaimID demo_binding ≠ ProviderPaymentBinding_ClaimID (sp_Binding i).
Proof.
  destruct (is_ok_run (run (H:=demo_env) (RunAcceptAndPostProviderTopUp demo_top_up) empty_world)
    demo_posted) as ([] & w1 & Hr1).
  exists w1. split; [exact Hr1|]. intros i w2 Hty Hr2 Hsame.
  pose proof (channel_trade_pays_once (H:=demo_env) (RunAcceptAndPostProviderTopUp demo_top_up)
    (RunAcceptServicePayment i) _ _ empty_world w1 w2 [] (reach_start 0 0) demo_top_up_typed Hty
    (Forall_nil_2 _) eq_refl eq_refl Hr1 Hr2 (or_introl Hsame)) as Hu.
  apply (f_equal snd) in Hu. discriminate Hu.
Defined.
