(* ===== verification/ServiceLedger.v ===== *)
(** * The service funds as a whole

    Every command takes the tables of service payments through steps of the
    machine of ServiceMachine, so its invariants hold of every reachable
    database: one open operation per payment, totals that are the sums of the
    effects, amounts within the payment. *)
From S2P Require Import Prelude GoStd Encoding MoneyTypes ProviderTopUp ServiceMoney ServiceValues Store MoneyStore WalletSpec WalletRepo TopUpRepo ServiceRepo ServiceMachine ServiceFunds ServicePlans ServiceLife ServiceRuns SettlementRepo Ledger WalletLaws.

(** What every command does to the service tables, when it prepares and
    confirms operations of [S] only. *)
Definition services_run `{Env} (S : ServiceOperation → Prop) (w w' : World) : Prop :=
  services_wf (the_db w) → rtc (service_step S) (the_db w) (the_db w').

(** The operation a command prepares or confirms, if any. *)
Definition operation_of (c : command) : option ServiceOperation :=
  match c with
  | RunPrepareServiceOperation op => Some op
  | RunAcceptServiceEffect e => Some (se_Operation e)
  | _ => None
  end.
Definition operations_of (cs : list command) : list ServiceOperation := omap operation_of cs.

(** ** A worked history

    The purchase of ServiceValues is paid and its commission of 9.00 shared;
    then half of it is refunded by plan: 4.00 of the commission returned, the
    rest released to the provider, 50.00 refunded, nothing more to return. *)
Definition service_operation (id kind : string) (n : Z) (share : string)
    (plan : option ServiceRefundPlan) (phase : string) : ServiceOperation := {|
  so_RefundPlan := plan; so_RefundPhase := phase; so_OrderID := "order-9"; so_OperationID := id;
  so_Kind := kind; so_AmountMinor := n; so_SourceProofID := "source-1";
  so_OriginalShareID := share |}.
Definition demo_service_effect (op : ServiceOperation) (amounts : option ServiceRefundAmounts)
    : ServiceEffect := {|
  se_RefundAmounts := amounts; se_Operation := op;
  se_ProviderReference := ("wechat:" +:+ so_OperationID op)%string;
  se_OccurredAt := demo_start + Second |}.
Definition carried_out (op : ServiceOperation) (amounts : option ServiceRefundAmounts)
    : list command :=
  [RunPrepareServiceOperation op; RunAdmitServiceOperation op;
   RunAcceptServiceEffect (demo_service_effect op amounts)].

Definition demo_share := service_operation "share-1" ServiceShare 900 "" None "".
Definition planned (id kind : string) (n : Z) (share phase : string) : ServiceOperation :=
  service_operation id kind n share
    match sample_plan with Ok p => Some p | Err _ => None end phase.
Definition demo_pre_return := planned "pre-1" ServiceReturn 400 "share-1" ServiceReturnPre.
Definition demo_release := planned "release-1" ServiceRefundRelease 8100 "" ServiceRefundReleasePhase.
Definition demo_service_refund := planned "refund-1" ServiceRefund 5000 "" ServiceRefundPhase.
Definition demo_post_return := planned "post-1" ServiceReturn 0 "share-1" ServiceReturnPost.

Definition service_commands : list command :=
  RunAcceptServicePayment sample_service_payment :: carried_out demo_share None ++
  carried_out demo_pre_return None ++ carried_out demo_release None ++
  carried_out demo_service_refund (Some sample_refund) ++ carried_out demo_post_return None.
Definition service_world (n : nat) : World :=
  run_all (H:=demo_env) (List.firstn n service_commands) empty_world.

(** * Lemmas *)

(** ** Invariants along the steps *)

Section steps.
Context `{Env} {S : ServiceOperation → Prop}.

Lemma steps_wf d d' : rtc (service_step S) d d' → services_wf d → services_wf d'.
Proof. induction 1; eauto using step_wf. Qed.

(** What every step from well-formed tables keeps, every run keeps. *)
Lemma steps_keep (P : DB → Prop) :
  (∀ d d', service_step S d d' → services_wf d → P d → P d') →
  ∀ d d', rtc (service_step S) d d' → services_wf d → P d → P d'.
Proof. intros HP d d'. induction 1; eauto using step_wf. Qed.

#[export] Instance services_run_frame : Frame (services_run S).
Proof.
  split; [split|].
  - by intros w _.
  - intros w1 w2 w3 H12 H23 Hwf. etrans; [by apply H12|]. apply H23. eapply steps_wf; [|done].
    by apply H12.
  - unfold services_run. by intros w w' ->.
Qed.

Lemma same_services_run w w' : on_db same_services w w' → services_run S w w'.
Proof. intros (?&?&?) _. by apply rtc_once, sv_idle. Qed.

Lemma services_intro {A} (m : ST World A) : aborts m →
  (∀ w a w', services_wf (the_db w) → m w = (Ok a, w') →
     rtc (service_step S) (the_db w) (the_db w')) → keeps (services_run S) m.
Proof.
  intros Ha Hm w Hok. destruct (m w) as [[a|e] w'] eqn:Hr; simpl; [eauto|].
  apply Ha in Hr. by rewrite Hr.
Qed.

Lemma services_step {A} (m : ST World A) : aborts m →
  (∀ w a w', services_wf (the_db w) → m w = (Ok a, w') →
     service_step S (the_db w) (the_db w')) → keeps (services_run S) m.
Proof. intros Ha Hm. apply services_intro; [done|]. eauto using rtc_once. Qed.
End steps.

#[export] Hint Extern 0 (Writes (services_run _) _) =>
  solve [intros ??; by apply same_services_run; repeat split] : typeclass_instances.

Section commands.
Context `{Env} {S : ServiceOperation → Prop}.
Ltac aborts_now := autounfold with repo; solve_aborts.

Lemma ObserveServiceChargeback_services o c : keeps (services_run S) (ObserveServiceChargeback o c).
Proof. apply services_step; [aborts_now|]. intros w a w'. apply Chargeback_step. Qed.
Hint Resolve ObserveServiceChargeback_services : keeps.

Lemma recordServiceChargeback_services c : keeps (services_run S) (recordServiceChargeback c).
Proof. unfold recordServiceChargeback. solve_keeps. Qed.
Hint Resolve recordServiceChargeback_services : keeps.

Lemma AcceptServicePayment_services i : typed i → keeps (services_run S) (AcceptServicePayment i).
Proof. intros Hty. apply services_step; [aborts_now|]. intros w a w'. by apply AcceptServicePayment_step. Qed.
Lemma PrepareServiceOperation_services op : S op → keeps (services_run S) (PrepareServiceOperation op).
Proof. intros Hop. apply services_step; [aborts_now|]. intros w a w'. by apply PrepareServiceOperation_step. Qed.
Lemma AdmitServiceOperation_services op : keeps (services_run S) (AdmitServiceOperation op).
Proof. apply services_step; [aborts_now|]. apply AdmitServiceOperation_step. Qed.
Lemma Abandon_services op p : keeps (services_run S) (AbandonUndispatchedServiceOperation op p).
Proof. apply services_step; [aborts_now|]. apply Abandon_step. Qed.
Lemma ResolveFailed_services f : keeps (services_run S) (ResolveFailedServiceOperation f).
Proof. apply services_step; [aborts_now|]. apply ResolveFailed_step. Qed.
Lemma AcceptServiceEffect_services e : S (se_Operation e) → keeps (services_run S) (AcceptServiceEffect e).
Proof. intros Hop. apply services_step; [aborts_now|]. intros w a w'. by apply AcceptServiceEffect_step. Qed.
Lemma Uncertainty_services i p : keeps (services_run S) (ObserveServiceRefundUncertainty i p).
Proof. apply services_intro; [aborts_now|]. apply Uncertainty_steps. Qed.
Lemma Fee_services i : keeps (services_run S) (ObserveServiceChannelFee i).
Proof. apply services_step; [aborts_now|]. apply Fee_step. Qed.
Lemma Unsplit_services i : keeps (services_run S) (ObserveServiceUnsplit i).
Proof. intros w Hwf. by apply Unsplit_steps. Qed.
Hint Resolve AcceptServicePayment_services PrepareServiceOperation_services
  AdmitServiceOperation_services Abandon_services ResolveFailed_services
  AcceptServiceEffect_services Uncertainty_services Fee_services Unsplit_services : keeps.

Lemma RecordChargebackSettlement_services c : keeps (services_run S) (RecordChargebackSettlement c).
Proof. unfold RecordChargebackSettlement. solve_keeps. Qed.
Hint Resolve RecordChargebackSettlement_services : keeps.

Lemma run_services c : command_typed c → (∀ op, operation_of c = Some op → S op) →
  keeps (services_run S) (run c).
Proof.
  intros Hty Hop. destruct c; simpl in *; unfold void, CommitCommercialPurchase, ReleaseCommercialPurchase;
    solve_keeps.
Qed.

End commands.

Section reachable.
Context `{Env}.

(** Any operation. *)
Definition any_operation : ServiceOperation → Prop := λ _, True.

Lemma empty_services : services_wf empty_db.
Proof. by split. Qed.

Lemma reachable_services w : reachable w → services_wf (the_db w).
Proof.
  induction 1 as [u k|c w _ IH Hty]; [apply empty_services|].
  eapply (steps_wf (S:=any_operation)); [|done]. by apply run_services.
Qed.

(** An invariant of the machine holds of every reachable database. *)
Lemma reachable_keeps (P : DB → Prop) : P empty_db →
  (∀ d d', service_step any_operation d d' → services_wf d → P d → P d') → ∀ w, reachable w → P (the_db w).
Proof.
  intros H0 HP. induction 1 as [u k|c w Hw IH Hty]; [done|].
  eapply (steps_keep P HP); [|by apply reachable_services|done].
  apply run_services; [done|done|]. by apply reachable_services.
Qed.
End reachable.

(** * Properties *)

Section service_properties.
Context `{Env}.

Lemma run_all_services (S : ServiceOperation → Prop) cs w : reachable w → Forall command_typed cs →
  (∀ op, op ∈ operations_of cs → S op) →
  rtc (service_step S) (the_db w) (the_db (run_all cs w)).
Proof.
  revert w. induction cs as [|c cs IH]; intros w Hw Hty Hop; [done|].
  inversion Hty as [|? ? Hc Hcs]; subst.
  assert (∀ op, operation_of c = Some op → S op) as Hop1.
  { intros op Ho. apply Hop. unfold operations_of. simpl. rewrite Ho. by left. }
  etrans; [|apply IH; [by apply reach_step|done|]].
  - apply run_services; [done..|by apply reachable_services].
  - intros op Ho. apply Hop. unfold operations_of. simpl. case_match; [by right|done].
Qed.

(** A reservation stays, and evolves. *)
Lemma reservation_stays cs w id x : reachable w → Forall command_typed cs →
  rows service_reservations (the_db w) !! id = Some x →
  ∃ x', rows service_reservations (the_db (run_all cs w)) !! id = Some x' ∧ reservation_evolves x x'.
Proof.
  intros Hr Hcs. generalize (run_all_services any_operation cs w Hr Hcs (λ _ _, I)).
  generalize (the_db (run_all cs w)), (the_db w). intros d' d Hs. revert x.
  induction Hs as [d|d d1 d' Hs _ IH]; intros x Hx; [by exists x|].
  destruct (step_evolves _ _ _ _ Hs Hx) as (y & Hy & H1). destruct (IH y Hy) as (z & Hz & H2).
  exists z. split; [done|]. by etrans.
Qed.

(** A payment stays, with its identity. *)
Lemma payment_stays cs w o row : reachable w → Forall command_typed cs →
  rows service_payments (the_db w) !! o = Some row →
  ∃ row', rows service_payments (the_db (run_all cs w)) !! o = Some row' ∧ same_identity row row'.
Proof.
  intros Hr Hcs. generalize (run_all_services any_operation cs w Hr Hcs (λ _ _, I)).
  pose proof (reachable_services w Hr) as Hwf. generalize (the_db (run_all cs w)).
  revert Hwf. generalize (the_db w). intros d Hwf d' Hs. revert row Hwf.
  induction Hs as [d|d d1 d' Hs _ IH]; intros row Hwf Hrow; [by exists row|].
  destruct (step_identity _ _ _ _ Hs Hwf Hrow) as (r1 & Hr1 & H1).
  destruct (IH r1) as (r2 & Hr2 & H2); [by eapply step_wf|done|]. exists r2. split; [done|]. by etrans.
Qed.

(** C25. Refinement. Whatever its outcome, a command takes the tables of
    service payments through steps of the machine of service funds: a payment
    accepted, an operation prepared, dispatched, abandoned, failed or
    confirmed, a chargeback, a channel fee, an observation, or a payment put
    under reconciliation, each only where the machine allows it. *)
Theorem service_commands_refine (c : command) (w : World) (Hty : command_typed c)
    (Hwf : services_wf (the_db w)) :
  rtc (service_step (λ op, operation_of c = Some op)) (the_db w) (the_db (run c w).2).
Proof. by apply run_services. Qed.

(** In every reachable database a payment's pending operation is open
    (PREPARED), every open operation is the pending one of its payment, and so
    two open operations are never of one order. *)
Theorem one_operation_at_a_time (w : World) (Hr : reachable w) :
  one_open_operation (the_db w) ∧
  ∀ id1 id2 x1 x2, rows service_reservations (the_db w) !! id1 = Some x1 →
    rows service_reservations (the_db w) !! id2 = Some x2 →
    sres_State x1 = ReservationPrepared → sres_State x2 = ReservationPrepared →
    sres_OrderID x1 = sres_OrderID x2 → id1 = id2.
Proof.
  assert (one_open_operation (the_db w)) as Hoo.
  { revert w Hr. apply (reachable_keeps one_open_operation); [by split|apply step_one_open]. }
  split; [done|]. intros id1 id2 x1 x2 H1 H2 S1 S2 Ho. destruct Hoo as [_ O2].
  destruct (O2 _ _ H1 S1) as (_ & r1 & Hr1 & <-). destruct (O2 _ _ H2 S2) as (_ & r2 & Hr2 & <-).
  congruence.
Qed.

(** C28. In every reachable database the running totals of a payment are the
    sums of its recorded effects: refunds, chargebacks, shares, returns and
    releases (as int64), and the channel fee exactly, fees less returned fees,
    never negative. *)
Theorem totals_are_sums_of_effects (w : World) (o : string) (row : servicePaymentRow)
    (Hr : reachable w) (Hrow : rows service_payments (the_db w) !! o = Some row) :
  payment_accounted (the_db w) o row.
Proof.
  revert w Hr o row Hrow. apply (reachable_keeps accounted); [done|apply step_accounted].
Qed.

(** C27. In every reachable database, for a payment that is not under
    reconciliation: nothing was charged back; refunds stay within the gross
    amount and settled refunds within what the parties share; shares stay
    within it and are the exact sum of the share effects; returns stay within
    the shares; and on a gross basis the platform never keeps more than its
    commission on what stays paid. *)
Theorem funds_stay_within_payment (w : World) (o : string) (row : servicePaymentRow)
    (Hr : reachable w) (Hrow : rows service_payments (the_db w) !! o = Some row)
    (Hre : s_ReconciliationReason row = ""%string) : funds_within (the_db w) o row.
Proof.
  revert w Hr o row Hrow Hre. apply (reachable_keeps all_funds_within); [done|apply step_funds].
Qed.

(** C26. Commission. In every history of commands whose operations have distinct
    fingerprints, for a payment on the channel-net basis that is not under
    reconciliation and has no refund plan under way: if anything was shared
    with the platform, what it keeps is exactly its commission on what was
    settled and not refunded. *)
Theorem commission_kept_exactly (cs : list command) (u c : nat) (o : string)
    (row : servicePaymentRow) (Hcs : Forall command_typed cs)
    (Hcf : collision_free (λ op, op ∈ operations_of cs)) :
  let w := run_all cs {| the_db := empty_db; uuids_used := u; clock_reads := c |} in
  rows service_payments (the_db w) !! o = Some row → s_ReconciliationReason row = ""%string →
  channel_net row = true → s_PendingRefundPlan row = None → commission_kept row.
Proof.
  cbv zeta. intros Hrow Hre Hcn Hpl. set (S := λ op, op ∈ operations_of cs) in *.
  assert (rtc (service_step S) empty_db
    (the_db (run_all cs {| the_db := empty_db; uuids_used := u; clock_reads := c |}))) as Hs.
  { apply (run_all_services S cs {| the_db := empty_db; uuids_used := u; clock_reads := c |});
      [constructor|done..]. }
  apply (steps_keep (λ d, one_open_operation d ∧ all_funds_within d ∧ plans_ok S d)) in Hs
    as (_ & _ & Hok); [..|apply empty_services|].
  - pose proof (po_settled _ _ Hok _ _ Hrow Hre Hcn) as Hset. unfold plan_settled in Hset.
    by rewrite Hpl in Hset.
  - intros d d' Hst Hwf (H1&H2&H3). split; [by eapply step_one_open|].
    split; [by eapply step_funds|by eapply step_plans].
  - by split; [|split].
Qed.

(** C29. Through any commands a reservation keeps the operation it reserves and
    stays dispatched, and once it left PREPARED it never changes. It ends
    abandoned only if it was never dispatched, failed only if it was, and
    confirmed only with the effect of the reserved operation on record. *)
Theorem operation_ends_once (cs : list command) (w : World) (id : string)
    (x : serviceReservationRow) (Hr : reachable w) (Hcs : Forall command_typed cs)
    (Hx : rows service_reservations (the_db w) !! id = Some x) :
  ∃ x', rows service_reservations (the_db (run_all cs w)) !! id = Some x' ∧
    reservation_evolves x x' ∧ reservation_ended (the_db (run_all cs w)) x'.
Proof.
  destruct (reservation_stays cs w id x Hr Hcs Hx) as (x' & Hx' & Hev).
  exists x'. split; [done|]. split; [done|].
  assert (reachable (run_all cs w)) as Hr' by (by apply run_all_reachable).
  eapply (reachable_keeps all_ended); [done|apply step_ended|exact Hr'|exact Hx'].
Qed.

(** Through any commands an accepted payment keeps its order, claim,
    parties, terms, receipt and gross amount, and once under reconciliation it
    stays so. *)
Theorem payment_terms_fixed (cs : list command) (w : World) (o : string)
    (row : servicePaymentRow) (Hr : reachable w) (Hcs : Forall command_typed cs)
    (Hrow : rows service_payments (the_db w) !! o = Some row) :
  ∃ row', rows service_payments (the_db (run_all cs w)) !! o = Some row' ∧ same_identity row row'.
Proof. by apply payment_stays. Qed.
End service_properties.

(** ** Instances *)

Lemma service_typed : Forall command_typed service_commands.
Proof.
  unfold service_commands, carried_out. cbn [app].
  repeat (apply List.Forall_cons; [first [exact I|by vm_compute]|]). apply List.Forall_nil.
Qed.

Lemma service_reachable n : reachable (H:=demo_env) (service_world n).
Proof. apply reachable_all. apply Forall_take, service_typed. Qed.

Lemma service_typed_take n m : Forall command_typed (List.firstn n (List.skipn m service_commands)).
Proof. apply Forall_take, Forall_drop, service_typed. Qed.

Lemma service_commands_refine_witness :
  services_wf (the_db (service_world 3)) ∧
  rtc (service_step (λ op, Some demo_share = Some op)) (the_db (service_world 3))
    (the_db (service_world 4)).
Proof.
  pose proof (reachable_services (H:=demo_env) _ (service_reachable 3)) as Hwf. split; [exact Hwf|].
  exact (service_commands_refine (H:=demo_env)
    (RunAcceptServiceEffect (demo_service_effect demo_share None)) (service_world 3) I Hwf).
Defined.

(** The payment at the end of the history. *)
Lemma service_end : ∃ row, rows service_payments (the_db (service_world 16)) !! "order-9"%string = Some row ∧
  s_ReconciliationReason row = ""%string ∧ channel_net row = true ∧ s_PendingRefundPlan row = None ∧
  s_RefundedMinor row = 5000 ∧ s_SharedMinor row = 900 ∧ s_ReturnedMinor row = 400.
Proof.
  destruct (row_passes (rows service_payments (the_db (service_world 16)) !! "order-9"%string)
    (λ row, (s_ReconciliationReason row =s "") && channel_net row &&
      match s_PendingRefundPlan row with None => true | Some _ => false end &&
      (s_RefundedMinor row =? 5000) && (s_SharedMinor row =? 900) && (s_ReturnedMinor row =? 400)))
    as (row & Hrow & Hn); [vm_compute; reflexivity|].
  rewrite !andb_true_iff, !Z.eqb_eq, String.eqb_eq in Hn. destruct Hn as [[[[[H1 H2] H3] H4] H5] H6].
  exists row. split; [exact Hrow|]. split; [exact H1|]. split; [exact H2|]. clear Hrow.
  split; [by destruct (s_PendingRefundPlan row)|done].
Qed.

(** The share, prepared. *)
Lemma service_prepared : ∃ x,
  rows service_reservations (the_db (service_world 2)) !! "share-1"%string = Some x ∧
  sres_State x = ReservationPrepared.
Proof.
  destruct (row_passes (rows service_reservations (the_db (service_world 2)) !! "share-1"%string)
    (λ x, sres_State x =s ReservationPrepared)) as (x & Hx & Hs); [vm_compute; reflexivity|].
  apply String.eqb_eq in Hs. exists x. split; [exact Hx|exact Hs].
Qed.

Lemma one_operation_at_a_time_witness :
  ∃ x, rows service_reservations (the_db (service_world 2)) !! "share-1"%string = Some x ∧
    sres_State x = ReservationPrepared ∧
    ∀ id y, rows service_reservations (the_db (service_world 2)) !! id = Some y →
      sres_State y = ReservationPrepared → sres_OrderID y = sres_OrderID x → id = "share-1"%string.
Proof.
  destruct service_prepared as (x & Hx & Hs). exists x. split; [exact Hx|]. split; [exact Hs|]. intros id y Hy Hys Ho.
  pose proof (one_operation_at_a_time (H:=demo_env) (service_world 2) (service_reachable 2)) as Hone.
  destruct Hone as [_ Hone]. exact (Hone id "share-1"%string y x Hy Hx Hys Hs Ho).
Defined.

Lemma totals_are_sums_of_effects_witness :
  ∃ row, rows service_payments (the_db (service_world 16)) !! "order-9"%string = Some row ∧
    s_RefundedMinor row = 5000 ∧
    s_RefundedMinor row = wrap64 (effects_total (the_db (service_world 16)) "order-9" ServiceRefund).
Proof.
  destruct service_end as (row & Hrow & _ & _ & _ & Hn & _).
  exists row. split; [exact Hrow|]. split; [exact Hn|].
  pose proof (totals_are_sums_of_effects (H:=demo_env) (service_world 16) "order-9" row
    (service_reachable 16) Hrow) as Hac. destruct Hac as [Hac _ _ _ _ _]. exact Hac.
Defined.

Lemma funds_stay_within_payment_witness :
  ∃ row, rows service_payments (the_db (service_world 16)) !! "order-9"%string = Some row ∧
    funds_within (the_db (service_world 16)) "order-9" row.
Proof.
  destruct service_end as (row & Hrow & Hn & _).
  exists row. split; [exact Hrow|].
  exact (funds_stay_within_payment (H:=demo_env) (service_world 16) "order-9" row
    (service_reachable 16) Hrow Hn).
Defined.

Lemma commission_kept_exactly_witness :
  ∃ row, rows service_payments (the_db (service_world 16)) !! "order-9"%string = Some row ∧
    s_SharedMinor row = 900 ∧ s_ReturnedMinor row = 400 ∧ commission_kept row.
Proof.
  destruct service_end as (row & Hrow & H1 & H2 & H3 & _ & H4 & H5).
  exists row. split; [exact Hrow|]. split; [exact H4|]. split; [exact H5|].
  refine (commission_kept_exactly (H:=demo_env) service_commands 0 0 "order-9" row service_typed
    _ Hrow H1 H2 H3).
  assert (NoDup (operation_fingerprint <$> remove_dups (operations_of service_commands))) as Hnd
      by (apply (bool_decide_unpack _); vm_compute; reflexivity).
  intros op op' Hop Hop' Hf. cbv beta in *. apply elem_of_remove_dups in Hop, Hop'.
  apply list_elem_of_lookup in Hop as [i Hi], Hop' as [j Hj].
  assert (i = j) as ->; [|congruence]. eapply (NoDup_lookup _ _ _ _ Hnd);
    rewrite list_lookup_fmap; [by rewrite Hi|by rewrite Hj, Hf].
Defined.

Lemma operation_ends_once_witness :
  ∃ x x', rows service_reservations (the_db (service_world 2)) !! "share-1"%string = Some x ∧
    sres_State x = ReservationPrepared ∧
    rows service_reservations (the_db (run_all (H:=demo_env)
      (List.firstn 2 (List.skipn 2 service_commands)) (service_world 2))) !! "share-1"%string = Some x' ∧
    reservation_evolves x x'.
Proof.
  destruct service_prepared as (x & Hx & Hs).
  pose proof (operation_ends_once (H:=demo_env) (List.firstn 2 (List.skipn 2 service_commands))
    (service_world 2) "share-1" x (service_reachable 2) (service_typed_take 2 2) Hx) as Hl.
  destruct Hl as (x' & Hx' & Hev & _). exists x, x'. repeat (split; [assumption|]). exact Hev.
Defined.

Lemma payment_terms_fixed_witness :
  ∃ row row', rows service_payments (the_db (service_world 1)) !! "order-9"%string = Some row ∧
    rows service_payments (the_db (run_all (H:=demo_env)
      (List.firstn 15 (List.skipn 1 service_commands)) (service_world 1))) !! "order-9"%string = Some row' ∧
    same_identity row row'.
Proof.
  destruct (row_passes (rows service_payments (the_db (service_world 1)) !! "order-9"%string)
    (λ _, true)) as (row & Hrow & _); [vm_compute; reflexivity|].
  pose proof (payment_terms_fixed (H:=demo_env) (List.firstn 15 (List.skipn 1 service_commands))
    (service_world 1) "order-9" row (service_reachable 1) (service_typed_take 15 1) Hrow) as Hl.
  destruct Hl as (row' & Hrow' & Hid). exists row, row'. repeat (split; [assumption|]). exact Hid.
Defined.
