(* ===== verification/ServiceReplay.v ===== *)
(** * Service requests are answered once

    What the first call of AcceptServicePayment, PrepareServiceOperation and
    AcceptServiceEffect does, and what the same call gets at any later time:
    the recorded receipt, with nothing changed, as long as the identity of the
    receipt is one the code accepts when it reads it back. *)
From S2P Require Import Prelude GoStd Encoding MoneyTypes ProviderTopUp ServiceMoney ServiceValues Store MoneyStore WalletSpec WalletRepo TopUpRepo ServiceRepo ServiceMachine ServiceFunds ServicePlans ServiceLife ServiceRuns SettlementRepo Ledger WalletLaws TopUpLaws TopUpTheorems ServiceLedger.

(** ** Specifications *)

(** What an effect of a kind moves in the columns of an unreconciled payment. *)
Record funds_moved (kind : string) (amount : Z) (row row' : servicePaymentRow) : Prop := {
  fm_shared : s_SharedMinor row' =
    s_SharedMinor row + (if kind =s ServiceShare then amount else 0);
  fm_returned : s_ReturnedMinor row' =
    s_ReturnedMinor row + (if kind =s ServiceReturn then amount else 0);
  fm_refunded : s_RefundedMinor row' =
    s_RefundedMinor row + (if kind =s ServiceRefund then amount else 0);
  fm_released : s_ReleasedMinor row' = s_ReleasedMinor row +
    (if (kind =s ServiceFinish) || (kind =s ServiceRefundRelease) then amount else 0);
  fm_charged : s_ChargedBackMinor row' = s_ChargedBackMinor row;
  fm_automatic : s_AutomaticReleasedMinor row' = s_AutomaticReleasedMinor row;
  fm_commission : kind = ServiceShare → s_SharedMinor row' = commission row';
  fm_finish : kind = ServiceFinish →
    s_SharedMinor row - s_ReturnedMinor row + amount = paid_minor row - reversed_minor row;
  fm_settled : kind ≠ ServiceRefund → s_SettlementRefundedMinor row' = s_SettlementRefundedMinor row;
  fm_idle : s_PendingOperationID row' = ""%string }.

(** * Lemmas *)

(** ** Receipts read back *)

Lemma fingerprint_canonical prefix j :
  isCanonicalWalletIdentifier (fingerprint prefix (Some j)) = true.
Proof.
  apply canonical_identifier_spec. pose proof (slen_fingerprint prefix j) as Hl.
  split; [by intros He; rewrite He in Hl|]. split; [lia|]. apply hex_trimmed, fingerprint_lower.
Qed.

Lemma fingerprint_some prefix j : (fingerprint prefix (Some j) =s "") = false.
Proof.
  pose proof (fingerprint_canonical prefix j) as Hc. apply canonical_identifier_spec in Hc as [Hne _].
  by apply String.eqb_neq.
Qed.

Lemma new_receipt_decodes am rid oid opid kind amt prefix j ref at_ :
  isCanonicalWalletIdentifier oid = true → isCanonicalWalletIdentifier opid = true → 0 ≤ amt →
  valid_utf8 ref = true →
  let r := new_receipt am rid oid opid kind amt (fingerprint prefix (Some j)) ref at_ in
  decodeServiceReceipt r =
    if isCanonicalWalletIdentifier rid && negb (IsZero at_) then Ok r else Err ErrConflict.
Proof.
  intros Ho Hp Ha Hu. cbv zeta. set (r := new_receipt _ _ _ _ _ _ _ _ _).
  assert (json_ServiceReceipt r = r) as Hj.
  { unfold json_ServiceReceipt, r, new_receipt. simpl. by rewrite json_text_valid. }
  assert (ServiceReceipt_Validate r = invalid_if (negb (isCanonicalWalletIdentifier rid)
    || negb (isCanonicalWalletIdentifier oid) || negb (isCanonicalWalletIdentifier opid)
    || (fingerprint prefix (Some j) =s "") || negb (ServiceReceipt_Fingerprint r =s ServiceReceipt_Fingerprint r)
    || IsZero at_ || (amt <? 0))) as Hv by reflexivity.
  unfold decodeServiceReceipt. rewrite Hj, Hv, Ho, Hp, fingerprint_some, String.eqb_refl. simpl.
  assert ((amt <? 0) = false) as -> by (apply Z.ltb_ge; lia). clear.
  destruct (isCanonicalWalletIdentifier rid), (IsZero at_); reflexivity.
Qed.

Lemma operation_fingerprint_some op : ∃ j, operation_fingerprint op = fingerprint "service-purchase:v1:" (Some j).
Proof. by eexists. Qed.

Lemma ServiceOperation_canonical op : ServiceOperation_Validate op = None →
  isCanonicalWalletIdentifier (so_OrderID op) = true ∧
  isCanonicalWalletIdentifier (so_OperationID op) = true ∧ 0 ≤ so_AmountMinor op.
Proof.
  unfold ServiceOperation_Validate. destruct (_ || _) eqn:Hc; [done|]. intros _.
  rewrite !orb_false_iff, !negb_false_iff, Z.ltb_ge in Hc. tauto.
Qed.

(** The receipt of an effect is read back when its identity is short enough. *)
Lemma effect_receipt_decodes i out row x amounts d d' : effect_accepted i out row x amounts d d' →
  valid_utf8 (se_ProviderReference i) = true →
  decodeServiceReceipt out =
    if (slen (so_OperationID (se_Operation i)) <=? 113) && negb (IsZero (sr_OccurredAt out))
    then Ok out else Err ErrConflict.
Proof.
  intros [Hv _ (Ho&_) _ _ _ _ -> _] Hu. apply ServiceEffect_operation in Hv.
  apply ServiceOperation_canonical in Hv as (H1&H2&H3).
  destruct (operation_fingerprint_some (se_Operation i)) as [j ->]. rewrite <- Ho.
  rewrite new_receipt_decodes by done.
  change ("service-effect:" +:+ so_OperationID (se_Operation i))%string
    with ("service-effect" +:+ (":" +:+ so_OperationID (se_Operation i)))%string.
  rewrite canonical_prefixed by done. simpl. change (slen "service-effect") with 14.
  assert ((14 + 1 + slen (so_OperationID (se_Operation i)) <=? 128) =
    (slen (so_OperationID (se_Operation i)) <=? 113)) as -> by lia. done.
Qed.

(** ** Running a request again *)

Section replays.
Context `{Env}.

Lemma lock_forward o row w : rows service_payments (the_db w) !! o = Some row → is_Some (s_Receipt row) →
  lockServicePayment o w = (Ok row, w).
Proof.
  intros Hrow [r Hr]. unfold lockServicePayment, mbind, ST_bind, take_pk, gets, table, found.
  rewrite Hrow. unfold mret, ST_ret, guard_not. by rewrite Hr.
Qed.

Lemma effect_replays i row e out w : ServiceEffect_Validate (normalized_effect i) = None →
  rows service_payments (the_db w) !! so_OrderID (se_Operation i) = Some row →
  is_Some (s_Receipt row) → rows effects (the_db w) !! so_OperationID (se_Operation i) = Some e →
  eff_Fingerprint e = ServiceEffect_Fingerprint (normalized_effect i) →
  decode_effect (eff_Receipt e) = Ok out → AcceptServiceEffect i w = (Ok out, w).
Proof.
  intros Hv Hrow Hrc He Hf Hd. unfold AcceptServiceEffect, Transaction, mbind, ST_bind, check. cbv zeta.
  rewrite Hv. cbn [se_Operation normalized_effect]. rewrite (lock_forward _ _ _ Hrow Hrc).
  unfold take_pk, gets, table. rewrite He. unfold guard_not, lift. rewrite Hf, String.eqb_refl. simpl.
  by rewrite Hd.
Qed.

Lemma payment_record_replays i out r w : payment_on_record (normalized_channel_amounts i) r (the_db w) →
  decodeServiceReceipt r = Ok out → AcceptServicePayment i w = (Ok out, w).
Proof.
  intros [Hv Ht (c & Hc & Hcp & Hcu) (row & Hrow & Hf & Hcl & Hrc)] Hd.
  unfold AcceptServicePayment. cbv zeta. generalize dependent (normalized_channel_amounts i).
  clear i. intros i Hv Ht Hc Hcp Hrow Hf Hcl.
  assert (∀ v : channelPaymentClaimRow, pk channel_claims v = ProviderPaymentBinding_ClaimID (sp_Binding i) →
    CreateIgnore channel_claims v w = (Ok false, w)) as Hci1.
  { intros v Hk. unfold CreateIgnore, duplicate, table. rewrite Hk, Hc. done. }
  assert (∀ v : servicePaymentRow, pk service_payments v = sp_OrderID i →
    CreateIgnore service_payments v w = (Ok false, w)) as Hci2.
  { intros v Hk. unfold CreateIgnore, duplicate, table. rewrite Hk, Hrow. done. }
  unfold Transaction, claimChannelPayment, mbind, ST_bind, check. rewrite Hv. cbv zeta.
  rewrite Hci1 by done. unfold take_pk, gets, table, found. cbn [cc_ClaimID]. rewrite Hc.
  unfold mret, ST_ret, guard_not. rewrite Hcp, Hcu, !String.eqb_refl. cbn [negb orb].
  rewrite Ht, Hci2 by done. rewrite Hrow. cbn [s_Fingerprint s_ClaimID].
  rewrite Hf, Hcl, !String.eqb_refl. cbn [negb orb]. rewrite Hrc. unfold lift. by rewrite Hd.
Qed.

Lemma payment_record_stays i r cs w : reachable w → Forall command_typed cs →
  payment_on_record i r (the_db w) → payment_on_record i r (the_db (run_all cs w)).
Proof.
  intros Hw Hcs [Hv Ht (c & Hc & Hc') (row & Hrow & Hf & Hcl & Hrc)].
  pose proof (run_all_facts cs w) as (_&_&(_&_&Hgc)&_).
  destruct (payment_stays cs w _ row Hw Hcs Hrow) as (row' & Hrow' & Hid).
  destruct Hid as (_&_&Ei&_&_&_&Ef&_&Er&_). split; [done|done| |].
  - exists c. split; [by eapply lookup_weaken|done].
  - exists row'. rewrite Ef, Ei, Er. done.
Qed.

Lemma payment_fingerprint_some i j : json_time (NormalizeTimestamp (ps_SettledAt (sp_Payment i))) = Some j →
  ∃ js, ServicePaymentInput_Fingerprint i = fingerprint "service-purchase:v1:" (Some js).
Proof.
  intros Hj. unfold ServicePaymentInput_Fingerprint, ServiceFingerprint, ServicePaymentInput_json,
    PaymentSettlement_json. simpl. rewrite Hj. simpl. by eexists.
Qed.

(** The receipt of a payment is read back unless its time is the zero time or
    its provider reference is not UTF-8. *)
Lemma payment_receipt_decodes i out d d' : ServicePaymentInput_Validate i = None →
  payment_accepted i out d d' → IsZero (sr_OccurredAt out) = false →
  valid_utf8 (ps_ProviderReference (sp_Payment i)) = true → decodeServiceReceipt out = Ok out.
Proof.
  intros Hv [_ _ -> [j Hj] _] Hz Hu. pose proof (ServicePaymentInput_gross _ Hv) as Hg.
  assert (isCanonicalWalletIdentifier (sp_OrderID i) = true) as Ho.
  { unfold ServicePaymentInput_Validate in Hv. destruct (forallb _ _) eqn:Hc; [|done].
    by apply andb_true_iff in Hc as [Hc _]. }
  destruct (payment_fingerprint_some _ _ Hj) as [js ->]. rewrite new_receipt_decodes by (done || lia).
  simpl in Hz. rewrite Hz, andb_true_r.
  change ("service-payment:" +:+ ?x)%string with ("service-payment" +:+ (":" +:+ x))%string.
  unfold ProviderPaymentBinding_ClaimID, TopUpFingerprint.
  rewrite canonical_prefixed; [|apply fingerprint_canonical|done]. by rewrite slen_fingerprint.
Qed.

(** The receipt of a prepared operation, by the length of its identity. *)
Lemma prepared_receipt_decodes op out row d d' : operation_prepared op out row d d' →
  decodeServiceReceipt out =
    if (slen (so_OperationID op) <=? 108) && negb (IsZero (sr_OccurredAt out))
    then Ok out else Err ErrConflict.
Proof.
  intros [Hv _ _ _ _ [at_ ->] _]. apply ServiceOperation_canonical in Hv as (H1&H2&H3).
  destruct (operation_fingerprint_some op) as [j ->]. rewrite new_receipt_decodes by done.
  change ("service-reservation:" +:+ so_OperationID op)%string
    with ("service-reservation" +:+ (":" +:+ so_OperationID op))%string.
  rewrite canonical_prefixed by done. simpl. change (slen "service-reservation") with 19.
  assert ((19 + 1 + slen (so_OperationID op) <=? 128) = (slen (so_OperationID op) <=? 108)) as -> by lia.
  done.
Qed.

(** The reservation of an operation is read back by the same request. *)
Lemma prepare_replays op row x w : ServiceOperation_Validate op = None →
  rows service_payments (the_db w) !! so_OrderID op = Some row → is_Some (s_Receipt row) →
  rows service_reservations (the_db w) !! so_OperationID op = Some x →
  sres_Fingerprint x = operation_fingerprint op →
  sres_State x ≠ ReservationAbandoned → sres_State x ≠ ReservationFailed →
  ∃ w', PrepareServiceOperation op w = (decodeServiceReceipt (sres_Receipt x), w') ∧
    the_db w' = the_db w ∧ (is_ok (decodeServiceReceipt (sres_Receipt x)) = true → w' = w).
Proof.
  intros Hv Hrow Hrc Hx Hf H1 H2. unfold PrepareServiceOperation, Transaction, mbind, ST_bind, check.
  rewrite Hv, (lock_forward _ _ _ Hrow Hrc). unfold take_pk, gets, table. rewrite Hx.
  unfold guard_not, lift. rewrite Hf, String.eqb_refl, (eqb_ne _ _ H1), (eqb_ne _ _ H2). simpl.
  destruct (decodeServiceReceipt _); simpl; eexists; (split; [reflexivity|]); by split.
Qed.
End replays.

(** * Properties *)

Section replay_properties.
Context `{Env}.

Lemma reached_effect i w w' out : reachable w → AcceptServiceEffect i w = (Ok out, w') → reachable w'.
Proof.
  intros Hw Hr. eapply (reached_by_run (RunAcceptServiceEffect i)); [done|done|by eapply void_run].
Qed.

(** C32. Effects apply once. Accepting a verified effect that is not on record
    checks it against the open, dispatched operation of its order and the funds,
    updates the payment, confirms the operation and records the effect with its
    receipt; one on record changes nothing. At any later time the same call
    returns the same receipt and changes nothing, if its operation identity is
    at most 113 bytes long, its time is not the zero time and its provider
    reference is UTF-8 (a receipt is recorded as JSON and checked when it is
    read back). *)
Theorem service_effect_applied_once (i : ServiceEffect) (w w' : World) (out : ServiceReceipt)
    (cs : list command) (Hre : reachable w) (Hcs : Forall command_typed cs)
    (Hr : AcceptServiceEffect i w = (Ok out, w')) :
  match rows effects (the_db w) !! so_OperationID (se_Operation i) with
  | Some e => w' = w ∧ eff_Fingerprint e = ServiceEffect_Fingerprint (normalized_effect i) ∧
      decode_effect (eff_Receipt e) = Ok out
  | None => ∃ row x amounts,
      effect_accepted (normalized_effect i) out row x amounts (the_db w) (the_db w')
  end ∧
  (slen (so_OperationID (se_Operation i)) ≤ 113 → IsZero (sr_OccurredAt out) = false →
     valid_utf8 (se_ProviderReference i) = true →
     AcceptServiceEffect i (run_all cs w') = (Ok out, run_all cs w')).
Proof.
  pose proof (reachable_services w Hre) as Hwf. pose proof (reached_effect _ _ _ _ Hre Hr) as Hre'.
  pose proof (run_all_facts cs w') as (_&_&_&Hge&_).
  assert (∀ row e, ServiceEffect_Validate (normalized_effect i) = None →
    rows service_payments (the_db w') !! so_OrderID (se_Operation i) = Some row →
    rows effects (the_db w') !! so_OperationID (se_Operation i) = Some e →
    eff_Fingerprint e = ServiceEffect_Fingerprint (normalized_effect i) →
    decode_effect (eff_Receipt e) = Ok out →
    AcceptServiceEffect i (run_all cs w') = (Ok out, run_all cs w')) as Hreplay.
  { intros row e Hv Hrow He Hf Hd. destruct (payment_stays cs w' _ row Hre' Hcs Hrow) as (row' & Hrow' & _).
    eapply effect_replays; [done|exact Hrow'| |by eapply lookup_weaken|done|done].
    eapply pw_receipt, sw_payment; [|exact Hrow'].
    by apply reachable_services, run_all_reachable. }
  apply AcceptServiceEffect_run in Hr as [(->&e&row&Hv&Hrow&He&Hf&Hd)|(row&x&amounts&Ha)]; [| |done].
  - rewrite He. split; [done|]. intros _ _ _. by eapply Hreplay.
  - pose proof Ha as [Hv Hp (Ho&_) _ _ _ Hn _ (Htp&_&Hte)]. change (se_Operation (normalized_effect i))
      with (se_Operation i) in *. rewrite Hn. split; [by do 3 eexists|]. intros Hlen Hz Hu.
    apply (Hreplay (effect_row row (normalized_effect i) amounts)
      (recorded_effect (normalized_effect i) row out)); [done| | |done|].
    + rewrite Htp. unfold put_payment. by rewrite Ho, lookup_insert_eq.
    + rewrite Hte. unfold put_effect. simpl. by rewrite lookup_insert_eq.
    + simpl. apply effect_receipt_decodes in Ha as ->; [|done].
      change (se_Operation (normalized_effect i)) with (se_Operation i). rewrite Hz.
      by assert ((slen (so_OperationID (se_Operation i)) <=? 113) = true) as -> by lia.
Qed.

(** C33. Effects move exactly their amount. An effect accepted for the first time
    on a payment that is not under reconciliation, chargebacks apart, adds its
    amount to the total of its kind (shared, returned, refunded, or released
    for a finish and a release of a refund) and to no other, in exact
    arithmetic; a share brings what was shared to the platform's commission, and
    a finish releases all that stays paid beyond it; only refunds change what is
    settled; and the payment is free for its next operation. *)
Theorem effect_moves_funds (i : ServiceEffect) (w w' : World) (out : ServiceReceipt)
    (row : servicePaymentRow) (Hre : reachable w) (Hr : AcceptServiceEffect i w = (Ok out, w'))
    (Hnew : rows effects (the_db w) !! so_OperationID (se_Operation i) = None)
    (Hrow : rows service_payments (the_db w) !! so_OrderID (se_Operation i) = Some row)
    (Hrec : s_ReconciliationReason row = ""%string)
    (Hk : so_Kind (se_Operation i) ≠ ServiceChargeback) :
  ∃ row', rows service_payments (the_db w') !! so_OrderID (se_Operation i) = Some row' ∧
    funds_moved (so_Kind (se_Operation i)) (so_AmountMinor (se_Operation i)) row row' ∧
    s_ReconciliationReason row' = ""%string.
Proof.
  pose proof (reachable_services w Hre) as Hwf.
  apply AcceptServiceEffect_run in Hr as [(->&e&r&_&_&He&_)|(r&x&amounts&Ha)]; [congruence| |done].
  destruct Ha as [Hv Hp (Ho&_) _ Hal Hacc Hn Hout (Htp&_&Hte)].
  change (se_Operation (normalized_effect i)) with (se_Operation i) in *.
  pose proof (po_row _ _ _ Hp) as Hrow'. rewrite <- Ho, Hrow in Hrow'. injection Hrow' as <-.
  pose proof Hrow as Hkey. rewrite Ho in Hkey. pose proof (sw_payment _ Hwf _ _ Hkey) as Hw.
  assert (funds_within (the_db w) (s_OrderID row) row) as Hfw.
  { eapply (reachable_keeps all_funds_within); [done|apply step_funds|exact Hre|done|done]. }
  assert (confirming (the_db w) (the_db w') row (normalized_effect i) amounts
    (recorded_effect (normalized_effect i) row out)) as Hc.
  { split; try done; [by apply ServiceEffect_operation|by apply Hal|].
    split; [done|]. by rewrite Hout. }
  apply ServiceEffect_operation in Hv. change (se_Operation (normalized_effect i))
    with (se_Operation i) in Hv.
  assert (in_int64 (s_ReleasedMinor row)) as Hri.
  { assert (accounted (the_db w)) as Hac by (eapply (reachable_keeps accounted); [done|apply step_accounted|done]).
    specialize (Hac _ _ Hrow).
    destruct Hac as [_ _ _ _ -> _]. apply wrap64_range. }
  pose proof (confirmed_release _ _ _ _ _ _ Hc) as Hrel. cbn [se_Operation normalized_effect] in Hrel.
  exists (effect_row row (normalized_effect i) amounts). rewrite Htp. unfold put_payment.
  rewrite Ho, lookup_insert_eq. split; [done|].
  destruct (effect_columns row (normalized_effect i) amounts) as (_&C2&C3&C4&C5&C6&_).
  change (se_Operation (normalized_effect i)) with (se_Operation i) in *.
  split; [|by rewrite C6, (eqb_ne _ _ Hk)].
  pose proof (ServiceOperation_ids _ Hv) as (_&_&Hamt).
  split; [| | | |by rewrite C3, (eqb_ne _ _ Hk)|done| | | |done].
  - rewrite C4. destruct (so_Kind (se_Operation i) =s ServiceShare) eqn:E; [|lia].
    apply String.eqb_eq in E. destruct (confirmed_share _ _ _ _ _ _ Hc E) as (_&Hs&_&Ha).
    rewrite C4 in Hs. change (se_Operation (normalized_effect i)) with (se_Operation i) in Hs.
    change (se_Operation (normalized_effect i)) with (se_Operation i) in Ha.
    lia.
  - rewrite C5. destruct (so_Kind (se_Operation i) =s ServiceReturn) eqn:E; [|lia].
    apply String.eqb_eq in E. destruct (confirmed_return _ _ _ _ _ _ Hc E) as (_&Hs).
    rewrite C5 in Hs. change (se_Operation (normalized_effect i)) with (se_Operation i) in Hs.
    exact Hs.
  - rewrite C2. destruct (so_Kind (se_Operation i) =s ServiceRefund) eqn:E; [|lia].
    apply String.eqb_eq in E. destruct (confirmed_refund _ _ _ _ _ _ Hc E) as (_&Hs&_).
    rewrite C2 in Hs. change (se_Operation (normalized_effect i)) with (se_Operation i) in Hs.
    exact Hs.
  - simpl. destruct (_ || _) eqn:E; [|lia]. destruct (Hrel eq_refl) as (Hle&Hmax&_). i64_norm. done.
  - intros E. destruct (confirmed_share _ _ _ _ _ _ Hc E) as (_&->&_).
    destruct (effect_commission _ _ _ _ Hw Hacc) as [_ ->]; [|done]. simpl. by rewrite E.
  - intros E. rewrite E in Hrel. destruct (Hrel eq_refl) as (_&_&Hf). destruct (Hf eq_refl). lia.
  - intros E. by destruct (effect_commission _ _ _ _ Hw Hacc E).
Qed.

Lemma reached_payment i w w' out : reachable w → typed i → AcceptServicePayment i w = (Ok out, w') →
  reachable w'.
Proof.
  intros Hw Hty Hr. eapply (reached_by_run (RunAcceptServicePayment i)); [done|done|by eapply void_run].
Qed.

(** C34. A service payment is accepted once. The first valid request for an order
    creates the payment with its terms, its receipt and nothing moved yet, and
    the payment fact; a request for a payment on record changes no funds and is
    answered with the receipt on record. The same call later returns the same
    receipt and changes nothing, unless the payment settled at the zero time or
    its provider reference is not UTF-8. *)
Theorem service_payment_accepted_once (i : ServicePaymentInput) (w w' : World)
    (out : ServiceReceipt) (cs : list command) (Hre : reachable w) (Hty : typed i)
    (Hcs : Forall command_typed cs) (Hr : AcceptServicePayment i w = (Ok out, w')) :
  match rows service_payments (the_db w) !! sp_OrderID i with
  | Some row => same_services (the_db w) (the_db w') ∧
      ∃ r, s_Receipt row = Some r ∧ decodeServiceReceipt r = Ok out
  | None => payment_accepted (normalized_channel_amounts i) out (the_db w) (the_db w')
  end ∧
  (IsZero (sr_OccurredAt out) = false →
     valid_utf8 (ps_ProviderReference (sp_Payment i)) = true →
     AcceptServicePayment i (run_all cs w') = (Ok out, run_all cs w')).
Proof.
  pose proof (reachable_services w Hre) as Hwf. pose proof (reached_payment _ _ _ _ Hre Hty Hr) as Hre'.
  change (sp_OrderID i) with (sp_OrderID (normalized_channel_amounts i)).
  apply AcceptServicePayment_run in Hr as [(Hs&[row Hrow]&r&Hon&Hd)|[Hacc Hon]]; [| |done].
  - rewrite Hrow. split.
    + split; [done|]. exists r. split; [|done]. destruct Hon as [_ _ _ (row' & Hrow' & _ & _ & Hrc)].
      destruct Hs as (Hs&_). rewrite Hs, Hrow in Hrow'. by injection Hrow' as ->.
    + intros _ _. eapply payment_record_replays; [|done]. by apply payment_record_stays.
  - pose proof Hacc as [Hn _ _ _ _]. rewrite Hn. split; [done|]. intros Hz Hu.
    eapply payment_record_replays; [by apply payment_record_stays|].
    eapply payment_receipt_decodes; [apply Hon|done|done|done].
Qed.

Lemma reached_operation op w w' out : reachable w → PrepareServiceOperation op w = (Ok out, w') →
  reachable w'.
Proof.
  intros Hw Hr. eapply (reached_by_run (RunPrepareServiceOperation op)); [done|done|by eapply void_run].
Qed.

(** A prepared operation can be asked for again at any later time. *)
Lemma prepared_again op out row w w' cs : reachable w' → Forall command_typed cs →
  operation_prepared op out row (the_db w) (the_db w') →
  let w2 := run_all cs w' in
  ∃ x, rows service_reservations (the_db w2) !! so_OperationID op = Some x ∧
    (sres_State x ≠ ReservationAbandoned → sres_State x ≠ ReservationFailed →
     ∃ w'', PrepareServiceOperation op w2 = (decodeServiceReceipt out, w'') ∧
       the_db w'' = the_db w2 ∧ (is_ok (decodeServiceReceipt out) = true → w'' = w2)).
Proof.
  intros Hre' Hcs [Hv [Hrow Ho] _ _ _ _ (Hp&Hs&_)]. cbv zeta.
  assert (∃ row', rows service_payments (the_db w') !! so_OrderID op = Some row') as [row' Hrow'].
  { rewrite Hp. unfold put_payment. rewrite Ho, lookup_insert_eq. by eexists. }
  assert (rows service_reservations (the_db w') !! so_OperationID op =
    Some (prepared_reservation op out)) as Hx.
  { rewrite Hs. unfold put_reservation. simpl. by rewrite lookup_insert_eq. }
  destruct (payment_stays cs w' _ row' Hre' Hcs Hrow') as (row2 & Hrow2 & _).
  destruct (reservation_stays cs w' _ _ Hre' Hcs Hx) as (x & Hx2 & [(_&_&_&Ef&_&Er) _ _]).
  exists x. split; [done|]. intros H1 H2. simpl in Er, Ef. rewrite <- Er.
  eapply prepare_replays; [done|exact Hrow2| |done..].
  eapply pw_receipt, sw_payment; [|exact Hrow2]. by apply reachable_services, run_all_reachable.
Qed.

(** C35. An operation is prepared once. The first request, allowed by the funds
    and the plan, opens the operation on its payment; asked for again while it
    was neither abandoned nor failed, it is answered with the same receipt and
    nothing changes, if its identity is at most 108 bytes long. *)
Theorem operation_prepared_once (op : ServiceOperation) (w w' : World) (out : ServiceReceipt)
    (cs : list command) (Hre : reachable w) (Hcs : Forall command_typed cs)
    (Hr : PrepareServiceOperation op w = (Ok out, w')) :
  let w2 := run_all cs w' in
  match rows service_reservations (the_db w) !! so_OperationID op with
  | Some x => w' = w ∧ sres_Fingerprint x = operation_fingerprint op ∧
      decodeServiceReceipt (sres_Receipt x) = Ok out
  | None => (∃ row, operation_prepared op out row (the_db w) (the_db w')) ∧
      ∃ x, rows service_reservations (the_db w2) !! so_OperationID op = Some x ∧
        (sres_State x ≠ ReservationAbandoned → sres_State x ≠ ReservationFailed →
         slen (so_OperationID op) ≤ 108 → IsZero (sr_OccurredAt out) = false →
         PrepareServiceOperation op w2 = (Ok out, w2))
  end.
Proof.
  pose proof (reachable_services w Hre) as Hwf. pose proof (reached_operation _ _ _ _ Hre Hr) as Hre'.
  cbv zeta. apply PrepareServiceOperation_run in Hr as [(->&x&row&_&_&Hx&Hf&_&Hd)|(row&Hp)]; [| |done].
  - by rewrite Hx.
  - rewrite (op_new _ _ _ _ _ Hp). split; [by eexists|].
    destruct (prepared_again _ _ _ _ _ cs Hre' Hcs Hp) as (x & Hx & Hag). exists x. split; [done|].
    intros H1 H2 Hlen Hz. destruct (Hag H1 H2) as (w2 & Hr & _ & Hw).
    rewrite (prepared_receipt_decodes _ _ _ _ _ Hp), Hz in *.
    assert ((slen (so_OperationID op) <=? 108) = true) as Hle by lia. rewrite Hle in *. simpl in *.
    by rewrite Hr, Hw.
Qed.

(** C36. Long operation identities. The code accepts operation identities of up
    to 128 bytes, but builds receipt identities of up to 128 bytes from them: an
    operation whose identity is longer than 108 bytes is prepared with success,
    and the identical request fails with [ErrConflict] ever after. *)
Theorem long_operation_never_answered_again (op : ServiceOperation) (w w' : World)
    (out : ServiceReceipt) (cs : list command) (Hre : reachable w) (Hcs : Forall command_typed cs)
    (Hnew : rows service_reservations (the_db w) !! so_OperationID op = None)
    (Hlong : 108 < slen (so_OperationID op))
    (Hr : PrepareServiceOperation op w = (Ok out, w')) :
  ∃ w2, PrepareServiceOperation op (run_all cs w') = (Err ErrConflict, w2) ∧
    the_db w2 = the_db (run_all cs w').
Proof.
  pose proof (reachable_services w Hre) as Hwf. pose proof (reached_operation _ _ _ _ Hre Hr) as Hre'.
  apply PrepareServiceOperation_run in Hr as [(->&x&row&_&_&Hx&_)|(row&Hp)]; [congruence| |done].
  destruct (prepared_again _ _ _ _ _ cs Hre' Hcs Hp) as (x & Hx & Hag).
  rewrite (prepared_receipt_decodes _ _ _ _ _ Hp) in Hag.
  assert ((slen (so_OperationID op) <=? 108) = false) as Hle by lia. rewrite Hle in Hag. simpl in Hag.
  pose proof (op_valid _ _ _ _ _ Hp) as Hv.
  assert (∃ row', rows service_payments (the_db w') !! so_OrderID op = Some row') as [row' Hrow'].
  { destruct Hp as [_ [_ Ho] _ _ _ _ (Ht&_)]. rewrite Ht. unfold put_payment.
    rewrite Ho, lookup_insert_eq. by eexists. }
  destruct (payment_stays cs w' _ row' Hre' Hcs Hrow') as (row2 & Hrow2 & _).
  assert (is_Some (s_Receipt row2)) as Hrc2.
  { eapply pw_receipt, sw_payment; [|exact Hrow2]. by apply reachable_services, run_all_reachable. }
  destruct (decide (sres_State x = ReservationAbandoned ∨ sres_State x = ReservationFailed)) as [He|He].
  - unfold PrepareServiceOperation, Transaction, mbind, ST_bind, check.
    rewrite Hv, (lock_forward _ _ _ Hrow2 Hrc2). unfold take_pk, gets, table. rewrite Hx.
    unfold guard_not, lift. destruct (_ ≠s _); [by eexists|].
    destruct He as [-> | ->]; simpl; by eexists.
  - destruct (Hag ltac:(tauto) ltac:(tauto)) as (w2 & H1 & H2 & _). by exists w2.
Qed.
End replay_properties.

(** ** Instances *)

(** The same share, under an identity of 120 bytes. *)
Definition long_share : ServiceOperation :=
  service_operation (String.concat "" (List.repeat "share-0001"%string 12)) ServiceShare 900 "" None "".

Lemma service_effect_applied_once_witness :
  ∃ out w', AcceptServiceEffect (demo_service_effect demo_share None) (service_world 3) = (Ok out, w') ∧
    AcceptServiceEffect (demo_service_effect demo_share None)
      (run_all (H:=demo_env) (List.skipn 4 service_commands) w') =
      (Ok out, run_all (H:=demo_env) (List.skipn 4 service_commands) w').
Proof.
  destruct (ok_run_passes (AcceptServiceEffect (demo_service_effect demo_share None) (service_world 3))
    (λ out, negb (IsZero (sr_OccurredAt out)))) as (out & w' & Hr & Hz); [vm_compute; reflexivity|].
  apply negb_true_iff in Hz. exists out, w'. split; [exact Hr|].
  pose proof (service_effect_applied_once (H:=demo_env) (demo_service_effect demo_share None)
    (service_world 3) w' out (List.skipn 4 service_commands) (service_reachable 3)
    (Forall_drop _ _ _ service_typed) Hr) as Hl. destruct Hl as [_ Hl].
  apply Hl; [by vm_compute|exact Hz|by vm_compute].
Defined.

Lemma effect_moves_funds_witness :
  ∃ out w' row row', AcceptServiceEffect (demo_service_effect demo_share None) (service_world 3) =
      (Ok out, w') ∧
    rows service_payments (the_db w') !! "order-9"%string = Some row' ∧
    funds_moved ServiceShare 900 row row' ∧ s_ReconciliationReason row' = ""%string.
Proof.
  destruct (is_ok_run (AcceptServiceEffect (demo_service_effect demo_share None) (service_world 3)))
    as (out & w' & Hr); [vm_compute; reflexivity|].
  destruct (row_passes (rows service_payments (the_db (service_world 3)) !! "order-9"%string)
    (λ row, s_ReconciliationReason row =s "")) as (row & Hrow & Hn); [vm_compute; reflexivity|].
  apply String.eqb_eq in Hn.
  assert (rows effects (the_db (service_world 3)) !! "share-1"%string = None) as Hnew
    by (vm_compute; reflexivity).
  pose proof (effect_moves_funds (H:=demo_env) (demo_service_effect demo_share None) (service_world 3)
    w' out row (service_reachable 3) Hr Hnew Hrow Hn ltac:(discriminate)) as Hl.
  destruct Hl as (row' & Hrow' & Hm & Hre). exists out, w', row, row'.
  split; [exact Hr|]. split; [exact Hrow'|]. split; [exact Hm|exact Hre].
Defined.

Lemma sample_payment_typed : typed sample_service_payment.
Proof. by vm_compute. Qed.

Lemma service_payment_accepted_once_witness :
  ∃ out w', AcceptServicePayment sample_service_payment empty_world = (Ok out, w') ∧
    payment_accepted (normalized_channel_amounts sample_service_payment) out (the_db empty_world)
      (the_db w') ∧
    AcceptServicePayment sample_service_payment
      (run_all (H:=demo_env) (List.skipn 1 service_commands) w') =
      (Ok out, run_all (H:=demo_env) (List.skipn 1 service_commands) w').
Proof.
  destruct (ok_run_passes (AcceptServicePayment sample_service_payment empty_world)
    (λ out, negb (IsZero (sr_OccurredAt out)))) as (out & w' & Hr & Hz); [vm_compute; reflexivity|].
  apply negb_true_iff in Hz. exists out, w'. split; [exact Hr|].
  pose proof (service_payment_accepted_once (H:=demo_env) sample_service_payment empty_world w' out
    (List.skipn 1 service_commands) (reach_start 0 0) sample_payment_typed
    (Forall_drop _ _ _ service_typed) Hr) as Hl.
  destruct Hl as [Hacc Hl]. split; [exact Hacc|]. apply Hl; [exact Hz|by vm_compute].
Defined.

Lemma operation_prepared_once_witness :
  ∃ out w' row, PrepareServiceOperation (H:=demo_env) demo_share (service_world 1) = (Ok out, w') ∧
    operation_prepared demo_share out row (the_db (service_world 1)) (the_db w').
Proof.
  destruct (is_ok_run (PrepareServiceOperation (H:=demo_env) demo_share (service_world 1)))
    as (out & w' & Hr); [vm_compute; reflexivity|].
  assert (rows service_reservations (the_db (service_world 1)) !! so_OperationID demo_share = None) as Hnew
    by (vm_compute; reflexivity).
  pose proof (operation_prepared_once (H:=demo_env) demo_share (service_world 1) w' out []
    (service_reachable 1) (Forall_nil_2 _) Hr) as Hl. cbv zeta in Hl. rewrite Hnew in Hl.
  destruct Hl as ((row & Hp) & _). exists out, w', row. split; [exact Hr|exact Hp].
Defined.

Lemma long_operation_never_answered_again_witness :
  ∃ out w' w2, PrepareServiceOperation (H:=demo_env) long_share (service_world 1) = (Ok out, w') ∧
    PrepareServiceOperation (H:=demo_env) long_share w' = (Err ErrConflict, w2).
Proof.
  destruct (is_ok_run (PrepareServiceOperation (H:=demo_env) long_share (service_world 1)))
    as (out & w' & Hr); [vm_compute; reflexivity|].
  assert (rows service_reservations (the_db (service_world 1)) !! so_OperationID long_share = None) as Hnew
    by (vm_compute; reflexivity).
  pose proof (long_operation_never_answered_again (H:=demo_env) long_share (service_world 1) w' out []
    (service_reachable 1) (Forall_nil_2 _) Hnew ltac:(by vm_compute) Hr) as Hl.
  destruct Hl as (w2 & Hr2 & _). exists out, w', w2. split; [exact Hr|exact Hr2].
Defined.
