(* ===== verification/ResourceTypes.v ===== *)
(** * Organization resources: requests, receipts and their checks

    Models src/internal/ledger/orgresource: what organizations hold of store
    renewal periods, AI points and data rows. Grants that mint (welcome,
    purchased, trial), reservations by registered owners and their settlement,
    transfers between an organization and its members, and consumer charges:
    inputs, executions, snapshots, normalisation, validation, fingerprints and
    source identities. A Go string enumeration stays a string. *)
From S2P Require Import Prelude GoStd Encoding.

(** ** service.go: resources and principals *)

Definition ResourceStoreRenewalPeriod : string := "store_renewal_period".
Definition ResourceAIPoint : string := "ai_point".
Definition ResourceDataRow : string := "data_row".

Definition PrincipalTenantHuman : string := "tenant_human".
Definition PrincipalTrustedProvisioning : string := "trusted_provisioning".

Record Principal := { pr_ID : string; pr_Kind : string }.

Definition validResourceType (t : string) : bool :=
  (t =s ResourceStoreRenewalPeriod) || (t =s ResourceAIPoint) || (t =s ResourceDataRow).

(** [strconv.FormatInt(z, 10)]. *)
Definition FormatInt (z : Z) : string := pretty z.

(** [value == "" || len(value) > max], of a list of values. *)
Definition too_long_or_empty (values : list (string * Z)) : bool :=
  existsb (λ '(v, maximum), (v =s "") || (slen v >? maximum)) values.

(** ** service.go: the welcome grant *)

Definition OperationGrantWelcomeStoreRenewalPeriod : string :=
  "grant_welcome_store_renewal_period".
Definition SourceOnboardingWelcomeStorePeriod : string := "onboarding_welcome_store_period".

Record GrantWelcomeStoreRenewalPeriodInput := {
  wi_OrganizationID : string;
  wi_OperationID : string;
  wi_Principal : Principal }.

Record WelcomeGrantApproval := {
  wa_OrganizationID : string;
  wa_EvidenceID : string;
  wa_ApprovedAt : Time }.

Record WelcomeGrantExecution := {
  wx_OrganizationID : string;
  wx_OperationID : string;
  wx_OperationType : string;
  wx_ResourceType : string;
  wx_Quantity : Z;
  wx_SourceType : string;
  wx_SourceIdentity : string;
  wx_ApprovalEvidenceID : string;
  wx_ApprovedAt : Time;
  wx_ActorID : string;
  wx_RequestFingerprint : string }.

Record WelcomeGrantSnapshot := {
  wn_OperationID : string;
  wn_OrganizationID : string;
  wn_ResourceType : string;
  wn_Quantity : string;
  wn_BalanceAfter : string;
  wn_SourceType : string;
  wn_SourceIdentity : string;
  wn_EventID : string }.

Definition fingerprintWelcomeGrant (i : WelcomeGrantExecution) : string :=
  fingerprint "" (Some (JObj
    [("operation_type", JStr (wx_OperationType i));
     ("organization_id", JStr (wx_OrganizationID i));
     ("resource_type", JStr (wx_ResourceType i)); ("quantity", JStr "1");
     ("source_type", JStr (wx_SourceType i));
     ("source_identity", JStr (wx_SourceIdentity i))]))%string.

(** ** purchase.go *)

Definition OperationGrantCommercialPurchase : string := "grant_commercial_purchase".
Definition SourceCommercialOrderItem : string := "commercial_order_item".
Definition PrincipalTrustedCommercial : string := "trusted_commercial".

Record PurchasedResourceGrantInput := {
  pg_OrganizationID : string;
  pg_OperationID : string;
  pg_CommercialOrderID : string;
  pg_CommercialOrderItemID : string;
  pg_ResourceType : string;
  pg_Quantity : Z;
  pg_Principal : Principal }.

Record PurchasedResourceGrantExecution := {
  px_OrganizationID : string;
  px_OperationID : string;
  px_OperationType : string;
  px_CommercialOrderID : string;
  px_CommercialOrderItemID : string;
  px_ResourceType : string;
  px_Quantity : Z;
  px_SourceType : string;
  px_SourceIdentity : string;
  px_ActorID : string;
  px_RequestFingerprint : string }.

Record PurchasedResourceGrantSnapshot := {
  pn_OperationID : string;
  pn_OrganizationID : string;
  pn_CommercialOrderID : string;
  pn_CommercialOrderItemID : string;
  pn_ResourceType : string;
  pn_Quantity : string;
  pn_BalanceAfter : string;
  pn_SourceType : string;
  pn_SourceIdentity : string;
  pn_EventID : string }.

(** The snapshot as the JSON of its operation gives it back: only the two
    identities of the order are in no text column beside it. *)
Definition json_PurchasedResourceGrantSnapshot (s : PurchasedResourceGrantSnapshot)
    : PurchasedResourceGrantSnapshot :=
  {| pn_OperationID := pn_OperationID s; pn_OrganizationID := pn_OrganizationID s;
     pn_CommercialOrderID := json_text (pn_CommercialOrderID s);
     pn_CommercialOrderItemID := json_text (pn_CommercialOrderItemID s);
     pn_ResourceType := pn_ResourceType s; pn_Quantity := pn_Quantity s;
     pn_BalanceAfter := pn_BalanceAfter s; pn_SourceType := pn_SourceType s;
     pn_SourceIdentity := pn_SourceIdentity s; pn_EventID := pn_EventID s |}.

Definition normalizePurchasedGrantInput (i : PurchasedResourceGrantInput)
    : PurchasedResourceGrantInput :=
  {| pg_OrganizationID := TrimSpace (pg_OrganizationID i);
     pg_OperationID := TrimSpace (pg_OperationID i);
     pg_CommercialOrderID := TrimSpace (pg_CommercialOrderID i);
     pg_CommercialOrderItemID := TrimSpace (pg_CommercialOrderItemID i);
     pg_ResourceType := pg_ResourceType i; pg_Quantity := pg_Quantity i;
     pg_Principal := {| pr_ID := TrimSpace (pr_ID (pg_Principal i));
                        pr_Kind := pr_Kind (pg_Principal i) |} |}.

Definition validatePurchasedGrantIdentity (i : PurchasedResourceGrantInput) : error :=
  if pr_ID (pg_Principal i) =s "" then Some ErrForbidden
  else if too_long_or_empty [(pg_OrganizationID i, 128); (pg_OperationID i, 128);
            (pg_CommercialOrderID i, 128); (pg_CommercialOrderItemID i, 128)]
          || (pg_Quantity i <=? 0) || negb (validResourceType (pg_ResourceType i))
  then Some ErrInvalidInput else None.

(** [fmt.Sprintf("%d:%s", len(s), s)]. *)
Definition sized (s : string) : string := (pretty (slen s) +:+ ":" +:+ s)%string.
Definition canonical_source (org order item : string) : string :=
  (sized org +:+ sized order +:+ sized item)%string.

Definition CommercialOrderItemSourceIdentity (org order item : string) : string :=
  (SourceCommercialOrderItem +:+ ":" +:+
   hex_encode (sha256 (string_bytes (canonical_source org order item))))%string.

Definition fingerprintPurchasedResourceGrant (i : PurchasedResourceGrantExecution) : string :=
  fingerprint "" (Some (JObj
    [("operation_type", JStr (px_OperationType i));
     ("organization_id", JStr (px_OrganizationID i));
     ("commercial_order_id", JStr (px_CommercialOrderID i));
     ("commercial_order_item_id", JStr (px_CommercialOrderItemID i));
     ("resource_type", JStr (px_ResourceType i)); ("quantity", JInt (px_Quantity i));
     ("source_type", JStr (px_SourceType i));
     ("source_identity", JStr (px_SourceIdentity i))]))%string.

(** ** trial_grant.go *)

Definition OperationGrantLocalAITrial : string := "grant_local_ai_trial".
Definition SourceLocalAITrial : string := "local_ai_trial_v1".
Definition TrialAIGrantQuantity : Z := 10000.
Definition PrincipalTrustedTrialOperator : string := "trusted_trial_operator".

Record TrialAIGrantApproval := {
  ta_OrganizationID : string;
  ta_OperatorID : string;
  ta_EvidenceID : string;
  ta_GrantEnabled : bool }.

Record TrialAIGrantInput := {
  ti_OrganizationID : string;
  ti_OperationID : string;
  ti_Principal : Principal }.

Record TrialAIGrantExecution := {
  tx_OrganizationID : string;
  tx_OperationID : string;
  tx_ActorID : string;
  tx_ApprovalEvidenceID : string;
  tx_SourceIdentity : string;
  tx_RequestFingerprint : string }.

Record TrialAIGrantSnapshot := {
  tn_OperationID : string;
  tn_OrganizationID : string;
  tn_ResourceType : string;
  tn_Quantity : string;
  tn_GrossCredit : string;
  tn_DebtRepaid : string;
  tn_NetCredit : string;
  tn_BalanceAfter : string;
  tn_AllocatedAfter : string;
  tn_ReservedAfter : string;
  tn_ConsumedAfter : string;
  tn_SourceType : string;
  tn_SourceIdentity : string;
  tn_ApprovalEvidenceID : string;
  tn_ActorID : string;
  tn_EventID : string }.

(** [unicode.IsControl]. *)
Definition IsControl (c : Z) : bool := in_range 0 31 c || in_range 127 159 c.

Definition validTrialID (value : string) (maximum : Z) : bool :=
  (value ≠s "") && (value =s TrimSpace value) && (slen value <=? maximum)
  && match runes (String.length value) (string_bytes value) with
     | Some cs => negb (existsb IsControl cs)
     | None => false
     end.

Definition trialDigest (values : list string) : string := fingerprint "" (Some (jstrings values)).

Definition TrialAIGrantSourceIdentity (organizationID : string) : string :=
  trialDigest [SourceLocalAITrial; organizationID; ResourceAIPoint].

Definition trialAIGrantFingerprint (i : TrialAIGrantExecution) : string :=
  trialDigest [OperationGrantLocalAITrial; tx_OrganizationID i; ResourceAIPoint; "10000"%string;
    SourceLocalAITrial; tx_SourceIdentity i; tx_ApprovalEvidenceID i].

Definition TrialAIGrantInput_Validate (i : TrialAIGrantInput) : error :=
  if negb (validTrialID (ti_OrganizationID i) 128) || negb (validTrialID (ti_OperationID i) 128)
  then Some ErrInvalidInput
  else if negb (validTrialID (pr_ID (ti_Principal i)) 192)
          || (pr_Kind (ti_Principal i) ≠s PrincipalTrustedTrialOperator)
  then Some ErrForbidden else None.

Definition TrialAIGrantExecution_Validate (i : TrialAIGrantExecution) : error :=
  if negb (validTrialID (tx_OrganizationID i) 128) || negb (validTrialID (tx_OperationID i) 128)
     || negb (validTrialID (tx_ActorID i) 192) || negb (validTrialID (tx_ApprovalEvidenceID i) 192)
     || (tx_SourceIdentity i ≠s TrialAIGrantSourceIdentity (tx_OrganizationID i))
     || (tx_RequestFingerprint i ≠s trialAIGrantFingerprint i)
  then Some ErrInvalidInput else None.

(** ** reservation.go *)

Definition OperationReserve : string := "reserve".

(** [ReservationState]. *)
Definition ReservationReserved : string := "reserved".
Definition ReservationCommitted : string := "committed".
Definition ReservationReleased : string := "released".
Definition ReservationReconciliationRequired : string := "reconciliation_required".

(** [OwnerAttemptState]. *)
Definition OwnerAttemptNotStarted : string := "not_started".
Definition OwnerAttemptProcessing : string := "processing".
Definition OwnerAttemptOutcomeUnknown : string := "outcome_unknown".
Definition OwnerAttemptSucceededTerminal : string := "succeeded_terminal".
Definition OwnerAttemptFailedTerminal : string := "failed_terminal".
Definition OwnerAttemptCancelledTerminal : string := "cancelled_terminal".

Record ReserveInput := {
  ei_OrganizationID : string;
  ei_OperationID : string;
  ei_OwnerType : string;
  ei_OwnerAttemptID : string;
  ei_BusinessScope : string;
  ei_ResourceType : string;
  ei_Quantity : Z;
  ei_ReservationPurpose : string;
  ei_Principal : Principal }.

Record ReservationExecution := {
  ex_OrganizationID : string;
  ex_OperationID : string;
  ex_OperationType : string;
  ex_OwnerType : string;
  ex_OwnerAttemptID : string;
  ex_BusinessScope : string;
  ex_ResourceType : string;
  ex_Quantity : Z;
  ex_ReservationPurpose : string;
  ex_ActorID : string;
  ex_RequestFingerprint : string }.

Record ReservationSnapshot := {
  en_OperationID : string;
  en_ReservationID : string;
  en_OrganizationID : string;
  en_OwnerType : string;
  en_OwnerAttemptID : string;
  en_BusinessScope : string;
  en_ResourceType : string;
  en_Quantity : string;
  en_ReservationPurpose : string;
  en_State : string;
  en_AvailableAfter : string;
  en_ReservedAfter : string;
  en_ConsumedAfter : string;
  en_EventID : string }.

Definition normalizeReserveInput (i : ReserveInput) : ReserveInput :=
  {| ei_OrganizationID := TrimSpace (ei_OrganizationID i);
     ei_OperationID := TrimSpace (ei_OperationID i);
     ei_OwnerType := TrimSpace (ei_OwnerType i);
     ei_OwnerAttemptID := TrimSpace (ei_OwnerAttemptID i);
     ei_BusinessScope := TrimSpace (ei_BusinessScope i);
     ei_ResourceType := ei_ResourceType i; ei_Quantity := ei_Quantity i;
     ei_ReservationPurpose := TrimSpace (ei_ReservationPurpose i);
     ei_Principal := {| pr_ID := TrimSpace (pr_ID (ei_Principal i));
                        pr_Kind := pr_Kind (ei_Principal i) |} |}.

Definition validateReserveIdentity (i : ReserveInput) : error :=
  if pr_ID (ei_Principal i) =s "" then Some ErrForbidden
  else if too_long_or_empty [(ei_OrganizationID i, 128); (ei_OperationID i, 128);
            (ei_OwnerType i, 96); (ei_OwnerAttemptID i, 192); (ei_BusinessScope i, 256);
            (ei_ReservationPurpose i, 96)]
          || (ei_Quantity i <=? 0) || negb (validResourceType (ei_ResourceType i))
  then Some ErrInvalidInput else None.

Definition fingerprintReservation (i : ReservationExecution) : string :=
  fingerprint "" (Some (JObj
    [("operation_type", JStr (ex_OperationType i));
     ("organization_id", JStr (ex_OrganizationID i)); ("owner_type", JStr (ex_OwnerType i));
     ("owner_attempt_id", JStr (ex_OwnerAttemptID i));
     ("business_scope", JStr (ex_BusinessScope i)); ("resource_type", JStr (ex_ResourceType i));
     ("quantity", JInt (ex_Quantity i));
     ("reservation_purpose", JStr (ex_ReservationPurpose i))]))%string.

(** ** settlement.go *)

Definition OperationSettleReservation : string := "settle_reservation".
Definition SettlementCommit : string := "commit".
Definition SettlementRelease : string := "release".

Record SettlementInput := {
  li_OrganizationID : string;
  li_OperationID : string;
  li_ReservationID : string;
  li_Principal : Principal }.

Record SettlementExecution := {
  lx_OrganizationID : string;
  lx_OperationID : string;
  lx_OperationType : string;
  lx_ReservationID : string;
  lx_ActorID : string;
  lx_RequestFingerprint : string }.

Record SettlementSnapshot := {
  ln_OperationID : string;
  ln_ReservationID : string;
  ln_OrganizationID : string;
  ln_OwnerType : string;
  ln_OwnerAttemptID : string;
  ln_BusinessScope : string;
  ln_ResourceType : string;
  ln_Quantity : string;
  ln_ReservationPurpose : string;
  ln_Decision : string;
  ln_OwnerTerminalState : string;
  ln_OwnerEvidenceID : string;
  ln_GrossCredit : string;
  ln_DebtRepaid : string;
  ln_NetCredit : string;
  ln_AvailableAfter : string;
  ln_ReservedAfter : string;
  ln_ConsumedAfter : string;
  ln_EventID : string }.

Definition fingerprintSettlement (i : SettlementExecution) : string :=
  fingerprint "" (Some (JObj
    [("operation_type", JStr (lx_OperationType i));
     ("organization_id", JStr (lx_OrganizationID i));
     ("reservation_id", JStr (lx_ReservationID i))]))%string.

(** ** member_limit.go, member_allocation.go *)

Definition validLimitIdentity (s : string) : bool :=
  (s ≠s "") && (TrimSpace s =s s) && (slen s <=? 128).

Definition MemberResourceAllocate : string := "allocate_member_resource".
Definition MemberResourceReclaim : string := "reclaim_member_resource".

Record MemberResourceTransfer := {
  mt_OrganizationID : string;
  mt_MemberID : string;
  mt_ActorID : string;
  mt_OperationID : string;
  mt_ResourceType : string;
  mt_Action : string;
  mt_Quantity : Z;
  mt_ExpectedVersion : Z;
  mt_QuoteID : string }.

Record MemberResourcePosition := {
  mp_OrganizationID : string;
  mp_MemberID : string;
  mp_ResourceType : string;
  mp_Free : Z;
  mp_Reserved : Z;
  mp_Consumed : Z;
  mp_Version : Z;
  mp_UpdatedAt : Time }.

Record MemberResourceTransferResult := {
  mr_Position : MemberResourcePosition;
  mr_Unallocated : Z;
  mr_Allocated : Z;
  mr_GrossCredit : Z;
  mr_DebtRepaid : Z;
  mr_NetCredit : Z }.

Definition IsMemberAllocatedResource (t : string) : bool :=
  (t =s ResourceStoreRenewalPeriod) || (t =s ResourceDataRow).

Definition ValidMemberResourcePositionIdentity (org member resource : string) : bool :=
  validLimitIdentity org && validLimitIdentity member && IsMemberAllocatedResource resource.

Definition ValidMemberResourceTransfer (c : MemberResourceTransfer) : bool :=
  validLimitIdentity (mt_OrganizationID c) && validLimitIdentity (mt_MemberID c)
  && validLimitIdentity (mt_ActorID c) && validLimitIdentity (mt_OperationID c)
  && ((mt_QuoteID c =s "") || validLimitIdentity (mt_QuoteID c))
  && IsMemberAllocatedResource (mt_ResourceType c)
  && ((mt_Action c =s MemberResourceAllocate) || (mt_Action c =s MemberResourceReclaim))
  && (mt_Quantity c >? 0) && (mt_ExpectedVersion c >=? 0).

(** [hex(sha256(json.Marshal(c)))], taken in [Transfer]. *)
Definition transferFingerprint (c : MemberResourceTransfer) : string :=
  fingerprint "" (Some (JObj
    [("OrganizationID", JStr (mt_OrganizationID c)); ("MemberID", JStr (mt_MemberID c));
     ("ActorID", JStr (mt_ActorID c)); ("OperationID", JStr (mt_OperationID c));
     ("ResourceType", JStr (mt_ResourceType c)); ("Action", JStr (mt_Action c));
     ("Quantity", JInt (mt_Quantity c)); ("ExpectedVersion", JInt (mt_ExpectedVersion c));
     ("QuoteID", JStr (mt_QuoteID c))]))%string.

(** ** consumer_charge.go *)

Definition ConsumerStoreService : string := "store_service_v1".
Definition ConsumerProductAcquisition : string := "product_acquisition_v1".
Definition ConsumerAmazonData : string := "amazon_data_v1".
Definition FundingEnterprise : string := "enterprise_unallocated".
Definition FundingMember : string := "member_allocated".
Definition ConsumerEffectUnknown : string := "unknown".
Definition ConsumerEffectSucceeded : string := "succeeded".
Definition ConsumerEffectFailed : string := "failed_fenced".

Record ConsumerChargeIdentity := {
  ci_OrganizationID : string;
  ci_Consumer : string;
  ci_OperationID : string }.

Record ConsumerChargeIntent := {
  ct_Identity : ConsumerChargeIdentity;
  ct_ActorID : string;
  ct_MemberID : string;
  ct_Funding : string;
  ct_ResourceType : string;
  ct_Quantity : Z;
  ct_Fingerprint : string;
  ct_BusinessScope : string }.

Record ConsumerChargeReceipt := {
  cr_Intent : ConsumerChargeIntent;
  cr_ReservationID : string;
  cr_State : string;
  cr_OwnerEvidenceID : string;
  cr_CreatedAt : Time;
  cr_BalanceAfter : Z }.

Record ConsumerChargeProof := {
  cp_Intent : ConsumerChargeIntent;
  cp_ReservationID : string;
  cp_State : string;
  cp_EvidenceID : string }.

#[export] Instance ConsumerChargeIdentity_eq_dec : EqDecision ConsumerChargeIdentity.
Proof. solve_decision. Defined.
#[export] Instance ConsumerChargeIntent_eq_dec : EqDecision ConsumerChargeIntent.
Proof. solve_decision. Defined.

Definition validResourceConsumer (c : string) : bool :=
  (c =s ConsumerProductAcquisition) || (c =s ConsumerStoreService) || (c =s ConsumerAmazonData).

Definition ValidConsumerChargeIdentity (i : ConsumerChargeIdentity) : bool :=
  validLimitIdentity (ci_OrganizationID i) && validLimitIdentity (ci_OperationID i)
  && validResourceConsumer (ci_Consumer i).

(** No NUL byte and no line break. *)
Definition validChargeEvidence (v : string) : bool :=
  (v ≠s "") && (TrimSpace v =s v) && (slen v <=? 256)
  && string_forallb (λ c, negb (existsb (Z.eqb (byte_val c)) [0; 13; 10])) v.

(** Decodes from hexadecimal and is its own lower case: lower-case digits only. *)
Definition ValidConsumerChargeIntent (i : ConsumerChargeIntent) : bool :=
  if negb (ValidConsumerChargeIdentity (ct_Identity i)) || negb (validLimitIdentity (ct_ActorID i))
     || negb (validLimitIdentity (ct_MemberID i)) || negb (slen (ct_Fingerprint i) =? 64)
     || negb (string_forallb is_lower_hex (ct_Fingerprint i))
     || negb (validChargeEvidence (ct_BusinessScope i))
     || ((ct_Funding i ≠s FundingEnterprise) && (ct_Funding i ≠s FundingMember))
  then false
  else
    let consumer := ci_Consumer (ct_Identity i) in
    if (consumer =s ConsumerProductAcquisition) || (consumer =s ConsumerAmazonData) then
      (ct_ResourceType i =s ResourceDataRow) && (ct_Quantity i =? 1)
    else if consumer =s ConsumerStoreService then
      (ct_ResourceType i =s ResourceStoreRenewalPeriod) && (ct_Quantity i >? 0)
    else false.

Definition json_identity (i : ConsumerChargeIdentity) : json := JObj
  [("OrganizationID", JStr (ci_OrganizationID i)); ("Consumer", JStr (ci_Consumer i));
   ("OperationID", JStr (ci_OperationID i))]%string.

(** [chargeOperationKey] and [chargeFingerprint] of consumer_charge_repository.go. *)
Definition chargeOperationKey (prefix : string) (i : ConsumerChargeIdentity) : string :=
  (prefix +:+ fingerprint "" (Some (json_identity i)))%string.

Definition chargeFingerprint (i : ConsumerChargeIntent) : string :=
  fingerprint "" (Some (JObj
    [("Identity", json_identity (ct_Identity i)); ("ActorID", JStr (ct_ActorID i));
     ("MemberID", JStr (ct_MemberID i)); ("Funding", JStr (ct_Funding i));
     ("ResourceType", JStr (ct_ResourceType i)); ("Quantity", JInt (ct_Quantity i));
     ("Fingerprint", JStr (ct_Fingerprint i));
     ("BusinessScope", JStr (ct_BusinessScope i))]))%string.
