(* ===== verification/GenerationFacts.v ===== *)
(** * Image generations: intents, facts and receipts

    Models src/internal/imageagent/generation_fact.go and generation_route.go:
    the fact an image generation leaves (its intent, the reservation of points
    bound to it, how far it got, its success and its settlement), the methods
    that move it on, and its validation. What the file takes from other code is a
    class: which result addresses are safe to fetch, and the hash of the empty
    asset catalogue. *)
From S2P Require Import Prelude GoStd Encoding Cursors.

(** ** Months

    [AIPointMonthStart] of member_limit.go: the first instant of the month. *)
Definition AIPointMonthStart (now : Time) : Time :=
  let day := now / Second / 86400 in
  let '(y, yd) := year_day day in
  Date y (month_day (month_lengths y) 1 yd).1 1 0 0 0 0.
(** Conversion unfolds the calendar last. *)
#[global] Strategy 1000 [AIPointMonthStart].

(** ** Values *)

Record SlotExternalEffectIdentity := {
  si_TenantID : string;
  si_OwnerUserID : string;
  si_RunID : string;
  si_PlanRevision : Z;
  si_SlotID : string;
  si_Attempt : Z }.

Record GenerationIntent := {
  gi_Identity : SlotExternalEffectIdentity;
  gi_MemberID : string;
  gi_CatalogHash : string;
  gi_SourceDigest : string;
  gi_PromptVersion : string;
  gi_RouteReference : string;
  gi_CredentialReference : string;
  gi_ConfigurationVersion : string;
  gi_Provider : string;
  gi_Model : string;
  gi_Protocol : string;
  gi_Resolution : string;
  gi_Quality : string;
  gi_PriceVersion : string;
  gi_Points : Z;
  gi_LimitVersion : Z;
  gi_MonthStart : Time;
  gi_InputProtocol : string;
  gi_InputDigest : string }.

Record GenerationReservationReceipt := {
  gr_IntentID : string;
  gr_Fingerprint : string;
  gr_OrganizationID : string;
  gr_MemberID : string;
  gr_OperationID : string;
  gr_ReservationID : string;
  gr_ResourceType : string;
  gr_Points : Z;
  gr_PriceVersion : string;
  gr_LimitVersion : Z;
  gr_MonthStart : Time }.

Record GenerationSuccess := {
  gs_ResponseID : string;
  gs_RequestID : string;
  gs_ResultDigest : string;
  gs_ResultURL : string;
  gs_ResultUnavailable : string;
  gs_UsageKnown : bool;
  gs_InputTokens : Z;
  gs_OutputTokens : Z;
  gs_TotalTokens : Z }.

Record GenerationSettlementReceipt := {
  gt_IntentID : string;
  gt_Fingerprint : string;
  gt_OperationID : string;
  gt_ReservationID : string;
  gt_State : string;
  gt_ProofDigest : string;
  gt_Points : Z }.

Definition GenerationPrepared : string := "prepared".
Definition GenerationDispatchStarted : string := "dispatch_started".
Definition GenerationUnknown : string := "unknown".
Definition GenerationNoEffect : string := "no_generation".
Definition GenerationSucceeded : string := "provider_succeeded".

Record GenerationFact := {
  gf_Version : Z;
  gf_Intent : GenerationIntent;
  gf_IntentID : string;
  gf_Fingerprint : string;
  gf_State : string;
  gf_Reservation : GenerationReservationReceipt;
  gf_Success : GenerationSuccess;
  gf_Settlement : GenerationSettlementReceipt }.

#[export] Instance SlotExternalEffectIdentity_eq_dec : EqDecision SlotExternalEffectIdentity.
Proof. solve_decision. Defined.
#[export] Instance GenerationIntent_eq_dec : EqDecision GenerationIntent.
Proof. solve_decision. Defined.
#[export] Instance GenerationReservationReceipt_eq_dec : EqDecision GenerationReservationReceipt.
Proof. solve_decision. Defined.
#[export] Instance GenerationSuccess_eq_dec : EqDecision GenerationSuccess.
Proof. solve_decision. Defined.
#[export] Instance GenerationSettlementReceipt_eq_dec : EqDecision GenerationSettlementReceipt.
Proof. solve_decision. Defined.

(** The zero values. *)
Definition no_reservation : GenerationReservationReceipt :=
  {| gr_IntentID := ""; gr_Fingerprint := ""; gr_OrganizationID := ""; gr_MemberID := "";
     gr_OperationID := ""; gr_ReservationID := ""; gr_ResourceType := ""; gr_Points := 0;
     gr_PriceVersion := ""; gr_LimitVersion := 0; gr_MonthStart := zero_time |}%string.
Definition no_success : GenerationSuccess :=
  {| gs_ResponseID := ""; gs_RequestID := ""; gs_ResultDigest := ""; gs_ResultURL := "";
     gs_ResultUnavailable := ""; gs_UsageKnown := false; gs_InputTokens := 0; gs_OutputTokens := 0;
     gs_TotalTokens := 0 |}%string.
Definition no_settlement : GenerationSettlementReceipt :=
  {| gt_IntentID := ""; gt_Fingerprint := ""; gt_OperationID := ""; gt_ReservationID := "";
     gt_State := ""; gt_ProofDigest := ""; gt_Points := 0 |}%string.

(** ** Digests *)

(** What [json.Marshal] rejects is hashed as no bytes. *)
Definition generationHash (j : option json) : string :=
  match j with Some j => fingerprint "" (Some j) | None => hex_encode (sha256 []) end.

Definition generationDigest (v : string) : bool := (slen v =? 64) && string_forallb is_lower_hex v.

Definition validGenerationCatalogHash (v : string) : bool :=
  match strip_prefix "catalog-v1:" v with
  | Some d => generationDigest d
  | None => match strip_prefix "catalog-v2:" v with Some d => generationDigest d | None => false end
  end.

Definition SlotExternalEffectIdentity_json (i : SlotExternalEffectIdentity) : json := JObj
  [("TenantID", JStr (si_TenantID i)); ("OwnerUserID", JStr (si_OwnerUserID i));
   ("RunID", JStr (si_RunID i)); ("PlanRevision", JInt (si_PlanRevision i));
   ("SlotID", JStr (si_SlotID i)); ("Attempt", JInt (si_Attempt i))]%string.

(** The member of an object that [omitempty] leaves out. *)
Definition omitempty (name v : string) : list (string * json) :=
  if v =s "" then [] else [(name, JStr v)].

Definition GenerationIntent_json (i : GenerationIntent) : option json :=
  month ← json_time (gi_MonthStart i);
  Some (JObj ([("Identity", SlotExternalEffectIdentity_json (gi_Identity i));
   ("MemberID", JStr (gi_MemberID i)); ("CatalogHash", JStr (gi_CatalogHash i));
   ("SourceDigest", JStr (gi_SourceDigest i)); ("PromptVersion", JStr (gi_PromptVersion i));
   ("RouteReference", JStr (gi_RouteReference i));
   ("CredentialReference", JStr (gi_CredentialReference i));
   ("ConfigurationVersion", JStr (gi_ConfigurationVersion i)); ("Provider", JStr (gi_Provider i));
   ("Model", JStr (gi_Model i)); ("Protocol", JStr (gi_Protocol i));
   ("Resolution", JStr (gi_Resolution i)); ("Quality", JStr (gi_Quality i));
   ("PriceVersion", JStr (gi_PriceVersion i)); ("Points", JInt (gi_Points i));
   ("LimitVersion", JInt (gi_LimitVersion i)); ("MonthStart", month)]%string
   ++ omitempty "InputProtocol" (gi_InputProtocol i) ++ omitempty "InputDigest" (gi_InputDigest i))).

Definition GenerationSuccess_json (s : GenerationSuccess) : json := JObj
  [("ResponseID", JStr (gs_ResponseID s)); ("RequestID", JStr (gs_RequestID s));
   ("ResultDigest", JStr (gs_ResultDigest s)); ("ResultURL", JStr (gs_ResultURL s));
   ("ResultUnavailable", JStr (gs_ResultUnavailable s)); ("UsageKnown", JBool (gs_UsageKnown s));
   ("InputTokens", JInt (gs_InputTokens s)); ("OutputTokens", JInt (gs_OutputTokens s));
   ("TotalTokens", JInt (gs_TotalTokens s))]%string.

Definition GenerationFact_TerminalProofDigest (f : GenerationFact) : string :=
  if (gf_State f ≠s GenerationSucceeded) && (gf_State f ≠s GenerationNoEffect) then ""
  else generationHash (Some (JObj
    [("Fingerprint", JStr (gf_Fingerprint f)); ("State", JStr (gf_State f));
     ("Success", GenerationSuccess_json (gf_Success f))]))%string.

(** ** Routes *)

Definition GenerationRouteQuality (provider model protocol : string) : string :=
  if (provider =s "grsai") && (protocol =s "grsai-json-sync-v1") && (model =s "gpt-image-2-vip")
  then "medium"
  else if (provider =s "grsai") && (protocol =s "grsai-json-sync-v1") && (model =s "gpt-image-2.5")
  then "auto"
  else if (provider =s "bailian") && (protocol =s "dashscope-image-sync-v1")
    && ((model =s "qwen-image-3.0") || (model =s "qwen-image-3.0-pro"))
  then "auto" else "".

Definition validGenerationRoute (provider model protocol : string) : bool :=
  GenerationRouteQuality provider model protocol ≠s "".

(** ** Receipts that match a fact *)

Definition valid_reservation_id (id : string) : bool :=
  (id ≠s "") && (TrimSpace id =s id) && (slen id <=? 128).

Definition matchesReceipt (f : GenerationFact) (r : GenerationReservationReceipt) : bool :=
  let i := gf_Intent f in
  (gr_IntentID r =s gf_IntentID f) && (gr_Fingerprint r =s gf_Fingerprint f)
  && (gr_OrganizationID r =s si_TenantID (gi_Identity i)) && (gr_MemberID r =s gi_MemberID i)
  && (gr_OperationID r =s ("image-reserve:" +:+ gf_IntentID f))
  && valid_reservation_id (gr_ReservationID r) && (gr_ResourceType r =s "ai_point")
  && (gr_Points r =? gi_Points i) && (gr_PriceVersion r =s gi_PriceVersion i)
  && (gr_LimitVersion r =? gi_LimitVersion i) && (gr_MonthStart r =? gi_MonthStart i).

Definition matchesSettlement (f : GenerationFact) (r : GenerationSettlementReceipt) : bool :=
  let bound := gr_ReservationID (gf_Reservation f) in
  if (gt_IntentID r ≠s gf_IntentID f) || (gt_Fingerprint r ≠s gf_Fingerprint f)
     || (gt_OperationID r ≠s ("image-finalize:" +:+ gf_IntentID f))
     || negb (gt_Points r =? gi_Points (gf_Intent f)) || (gt_ProofDigest r =s "")
     || (gt_ProofDigest r ≠s GenerationFact_TerminalProofDigest f) then false
  else if gf_State f =s GenerationSucceeded then
    (gt_State r =s "committed") && (gt_ReservationID r =s bound)
  else if gf_State f ≠s GenerationNoEffect then false
  else if bound ≠s "" then (gt_State r =s "released") && (gt_ReservationID r =s bound)
  else ((gt_State r =s "no_reservation") && (gt_ReservationID r =s ""))
    || ((gt_State r =s "released") && valid_reservation_id (gt_ReservationID r)).

Definition ImageSetSchema : string := "product-image-set-v1".
Definition ArtworkSchema : string := "pod-artwork-v1".

(** ** Facts *)

(** [validGenerationResultURL], and the hash of the manifest of
    [NormalizeAssetCatalog(AssetCatalog{})]. *)
Class GenerationAssets := {
  validGenerationResultURL : string → bool;
  empty_catalog_hash : string }.

Section facts.
Context `{GenerationAssets}.

Definition validGenerationSuccess (s : GenerationSuccess) : bool :=
  (if gs_ResultURL s ≠s "" then (gs_ResultUnavailable s =s "") && validGenerationResultURL (gs_ResultURL s)
   else gs_ResultUnavailable s =s "invalid_result")
  && (gs_ResponseID s ≠s "") && (TrimSpace (gs_ResponseID s) =s gs_ResponseID s)
  && (slen (gs_ResponseID s) <=? 192) && (slen (gs_RequestID s) <=? 192)
  && (TrimSpace (gs_RequestID s) =s gs_RequestID s) && generationDigest (gs_ResultDigest s)
  && (if gs_UsageKnown s then (gs_InputTokens s >=? 0) && (gs_OutputTokens s >=? 0)
        && (gs_TotalTokens s >? 0) && (gs_InputTokens s <=? gs_TotalTokens s)
        && (gs_OutputTokens s =? (gs_TotalTokens s -! gs_InputTokens s))
      else (gs_InputTokens s =? 0) && (gs_OutputTokens s =? 0) && (gs_TotalTokens s =? 0)).

Definition WithResultLocator (s : GenerationSuccess) (raw unavailable : string) : GenerationSuccess :=
  let ok := (unavailable =s "") && validGenerationResultURL raw in
  {| gs_ResponseID := gs_ResponseID s; gs_RequestID := gs_RequestID s;
     gs_ResultDigest := gs_ResultDigest s; gs_ResultURL := if ok then raw else "";
     gs_ResultUnavailable := if ok then "" else "invalid_result"; gs_UsageKnown := gs_UsageKnown s;
     gs_InputTokens := gs_InputTokens s; gs_OutputTokens := gs_OutputTokens s;
     gs_TotalTokens := gs_TotalTokens s |}%string.

(** The version of the inputs of an intent. *)
Definition input_version (i : GenerationIntent) : result Z :=
  if (gi_InputProtocol i ≠s "") || (gi_InputDigest i ≠s "") then
    if negb (generationDigest (gi_InputDigest i)) then Err ErrGenerationInvalid
    else if gi_InputProtocol i =s ImageSetSchema then
      if gi_PromptVersion i =s ArtworkSchema then Err ErrGenerationInvalid else Ok 2
    else if gi_InputProtocol i =s ArtworkSchema then
      if (gi_CatalogHash i ≠s empty_catalog_hash) || (gi_SourceDigest i ≠s gi_InputDigest i)
         || (gi_PromptVersion i ≠s ArtworkSchema) then Err ErrGenerationInvalid else Ok 3
    else Err ErrGenerationInvalid
  else if gi_PromptVersion i =s ArtworkSchema then Err ErrGenerationInvalid else Ok 1.

Definition NewGenerationFact (i : GenerationIntent) : result GenerationFact :=
  let id := gi_Identity i in
  if existsb (λ v, (TrimSpace v ≠s v) || (v =s "") || (slen v >? 192))
      [si_TenantID id; si_OwnerUserID id; si_RunID id; si_SlotID id; gi_MemberID i;
       gi_PromptVersion i; gi_RouteReference i; gi_CredentialReference i;
       gi_ConfigurationVersion i; gi_PriceVersion i] then Err ErrGenerationInvalid
  else if (si_PlanRevision id <=? 0) || (si_Attempt id <=? 0) || (gi_Points i <=? 0)
     || (gi_LimitVersion i <=? 0) || negb (validGenerationCatalogHash (gi_CatalogHash i))
     || negb (generationDigest (gi_SourceDigest i))
     || negb (validGenerationRoute (gi_Provider i) (gi_Model i) (gi_Protocol i))
     || (gi_Resolution i ≠s "1024x1024")
     || (gi_Quality i ≠s GenerationRouteQuality (gi_Provider i) (gi_Model i) (gi_Protocol i))
     || IsZero (gi_MonthStart i)
     || negb (gi_MonthStart i =? AIPointMonthStart (gi_MonthStart i)) then Err ErrGenerationInvalid
  else version ← input_version i;
    Ok {| gf_Version := version; gf_Intent := i;
          gf_IntentID := generationHash (Some (SlotExternalEffectIdentity_json id));
          gf_Fingerprint := generationHash (GenerationIntent_json i);
          gf_State := GenerationPrepared; gf_Reservation := no_reservation;
          gf_Success := no_success; gf_Settlement := no_settlement |}.

(** How far the generation got, and what it may carry there. *)
Definition state_consistent (f : GenerationFact) : bool :=
  if (gf_State f =s GenerationPrepared) || (gf_State f =s GenerationNoEffect) then
    bool_decide (gf_Success f = no_success)
  else if (gf_State f =s GenerationDispatchStarted) || (gf_State f =s GenerationUnknown) then
    (gr_ReservationID (gf_Reservation f) ≠s "") && bool_decide (gf_Success f = no_success)
  else if gf_State f =s GenerationSucceeded then
    (gr_ReservationID (gf_Reservation f) ≠s "") && validGenerationSuccess (gf_Success f)
  else false.

Definition GenerationFact_Validate (f : GenerationFact) : error :=
  match NewGenerationFact (gf_Intent f) with
  | Err _ => Some ErrGenerationInvalid
  | Ok base =>
    if negb (gf_Version f =? gf_Version base) || (gf_IntentID f ≠s gf_IntentID base)
       || (gf_Fingerprint f ≠s gf_Fingerprint base) then Some ErrGenerationInvalid
    else if negb (bool_decide (gf_Reservation f = no_reservation))
       && negb (matchesReceipt f (gf_Reservation f)) then Some ErrGenerationInvalid
    else if negb (state_consistent f) then Some ErrGenerationInvalid
    else if negb (bool_decide (gf_Settlement f = no_settlement))
       && negb (matchesSettlement f (gf_Settlement f)) then Some ErrGenerationInvalid
    else None
  end.

(** ** Moving a fact on *)

Definition with_reservation (r : GenerationReservationReceipt) (f : GenerationFact) : GenerationFact :=
  {| gf_Version := gf_Version f; gf_Intent := gf_Intent f; gf_IntentID := gf_IntentID f;
     gf_Fingerprint := gf_Fingerprint f; gf_State := gf_State f; gf_Reservation := r;
     gf_Success := gf_Success f; gf_Settlement := gf_Settlement f |}.
Definition with_fact_state (s : string) (success : GenerationSuccess) (f : GenerationFact) : GenerationFact :=
  {| gf_Version := gf_Version f; gf_Intent := gf_Intent f; gf_IntentID := gf_IntentID f;
     gf_Fingerprint := gf_Fingerprint f; gf_State := s; gf_Reservation := gf_Reservation f;
     gf_Success := success; gf_Settlement := gf_Settlement f |}.
Definition with_settlement (r : GenerationSettlementReceipt) (f : GenerationFact) : GenerationFact :=
  {| gf_Version := gf_Version f; gf_Intent := gf_Intent f; gf_IntentID := gf_IntentID f;
     gf_Fingerprint := gf_Fingerprint f; gf_State := gf_State f;
     gf_Reservation := gf_Reservation f; gf_Success := gf_Success f; gf_Settlement := r |}.

Definition valid_fact (f : GenerationFact) : result () :=
  match GenerationFact_Validate f with Some e => Err e | None => Ok tt end.

Definition BindReservation_fact (f : GenerationFact) (receipt : GenerationReservationReceipt)
    : result GenerationFact :=
  _ ← valid_fact f;
  if negb (matchesReceipt f receipt) then Err ErrRevisionConflict
  else if gr_ReservationID (gf_Reservation f) ≠s "" then
    if bool_decide (gf_Reservation f = receipt) then Ok f else Err ErrRevisionConflict
  else if gf_State f ≠s GenerationPrepared then Err ErrRevisionConflict
  else Ok (with_reservation receipt f).

(** Whether this call is the one that may dispatch. *)
Definition BeginDispatch (f : GenerationFact) : result (GenerationFact * bool) :=
  _ ← valid_fact f;
  if gf_State f ≠s GenerationPrepared then Ok (f, false)
  else if gr_ReservationID (gf_Reservation f) =s "" then Err ErrRevisionConflict
  else Ok (with_fact_state GenerationDispatchStarted (gf_Success f) f, true).

Definition RecordNoGeneration (f : GenerationFact) : result GenerationFact :=
  _ ← valid_fact f;
  if (gf_State f ≠s GenerationPrepared) && (gf_State f ≠s GenerationNoEffect)
  then Err ErrRevisionConflict
  else Ok (with_fact_state GenerationNoEffect (gf_Success f) f).

Definition MarkUnknown (f : GenerationFact) : result GenerationFact :=
  _ ← valid_fact f;
  if gf_State f =s GenerationSucceeded then Ok f
  else if (gf_State f ≠s GenerationDispatchStarted) && (gf_State f ≠s GenerationUnknown)
  then Err ErrRevisionConflict
  else Ok (with_fact_state GenerationUnknown (gf_Success f) f).

Definition RecordSuccess (f : GenerationFact) (success : GenerationSuccess) : result GenerationFact :=
  _ ← valid_fact f;
  if negb (validGenerationSuccess success) then Err ErrGenerationInvalid
  else if gf_State f =s GenerationSucceeded then
    if bool_decide (gf_Success f = success) then Ok f else Err ErrRevisionConflict
  else if (gf_State f ≠s GenerationDispatchStarted) && (gf_State f ≠s GenerationUnknown)
  then Err ErrRevisionConflict
  else Ok (with_fact_state GenerationSucceeded success f).

Definition BindSettlement (f : GenerationFact) (receipt : GenerationSettlementReceipt)
    : result GenerationFact :=
  _ ← valid_fact f;
  if negb (matchesSettlement f receipt) then Err ErrRevisionConflict
  else if negb (bool_decide (gf_Settlement f = no_settlement))
     && negb (bool_decide (gf_Settlement f = receipt)) then Err ErrRevisionConflict
  else Ok (with_settlement receipt f).
End facts.
