(* ===== verification/GenerationLife.v ===== *)
(** * The life of an image generation fact

    Facts change only through the methods of GenerationFacts. What every method
    keeps: the fact stays valid and is about the same intent, an outcome is
    final, and what was recorded with it stays. *)
From S2P Require Import Prelude GoStd Encoding GenerationFacts.

Section life.
Context `{GenerationAssets}.
Implicit Types (f : GenerationFact).

(** One method moves a fact on. *)
Inductive fact_step f : GenerationFact → Prop :=
  | step_reservation r f' : BindReservation_fact f r = Ok f' → fact_step f f'
  | step_dispatch f' first : BeginDispatch f = Ok (f', first) → fact_step f f'
  | step_no_generation f' : RecordNoGeneration f = Ok f' → fact_step f f'
  | step_unknown f' : MarkUnknown f = Ok f' → fact_step f f'
  | step_success s f' : RecordSuccess f s = Ok f' → fact_step f f'
  | step_settlement r f' : BindSettlement f r = Ok f' → fact_step f f'.

(** The provider's outcome is known. *)
Definition decided f : bool := (gf_State f =s GenerationSucceeded) || (gf_State f =s GenerationNoEffect).

(** Validity, in terms of the parts. *)
Record fact_ok f : Prop := {
  fo_base : ∃ base, NewGenerationFact (gf_Intent f) = Ok base ∧ gf_Version f = gf_Version base ∧
    gf_IntentID f = gf_IntentID base ∧ gf_Fingerprint f = gf_Fingerprint base;
  fo_reservation : gf_Reservation f = no_reservation ∨ matchesReceipt f (gf_Reservation f) = true;
  fo_state : state_consistent f = true;
  fo_settlement : gf_Settlement f = no_settlement ∨ matchesSettlement f (gf_Settlement f) = true }.

(** What a step keeps. *)
Record fact_kept f f' : Prop := {
  fk_intent : gf_Intent f' = gf_Intent f ∧ gf_IntentID f' = gf_IntentID f ∧
    gf_Fingerprint f' = gf_Fingerprint f;
  fk_reservation : gr_ReservationID (gf_Reservation f) ≠ ""%string → gf_Reservation f' = gf_Reservation f;
  fk_decided : decided f = true → gf_State f' = gf_State f ∧ gf_Success f' = gf_Success f;
  fk_dispatched : gf_State f ≠ GenerationPrepared → gf_State f' ≠ GenerationPrepared;
  fk_settlement : gf_Settlement f ≠ no_settlement → gf_Settlement f' = gf_Settlement f }.

(** * Lemmas *)

Lemma NewGenerationFact_Ok i f : NewGenerationFact i = Ok f →
  gf_Intent f = i ∧ gf_State f = GenerationPrepared ∧ gf_Reservation f = no_reservation ∧
  gf_Success f = no_success ∧ gf_Settlement f = no_settlement.
Proof.
  unfold NewGenerationFact, mbind, result_bind. intros Hn. repeat case_match; simplify_eq. by repeat split.
Qed.

Lemma Validate_ok f : GenerationFact_Validate f = None ↔ fact_ok f.
Proof.
  unfold GenerationFact_Validate. split.
  - intros Hv. destruct (NewGenerationFact (gf_Intent f)) as [base|] eqn:Hb; [|done].
    destruct (_ || _) eqn:E1 in Hv; [done|]. destruct (_ && _) eqn:E2 in Hv; [done|].
    destruct (state_consistent f) eqn:E3; [|done]. simpl in Hv. destruct (_ && _) eqn:E4 in Hv; [done|].
    apply andb_false_iff in E2. apply andb_false_iff in E4. reflect_bools.
    split; [exists base; tauto|..]; tauto.
  - intros [(base & -> & -> & -> & ->) Hr Hs He]. rewrite Z.eqb_refl, !String.eqb_refl, Hs. simpl.
    destruct Hr as [-> | ->]; [rewrite bool_decide_true by done|rewrite andb_false_r];
      (destruct He as [-> | ->]; [rewrite bool_decide_true by done|rewrite andb_false_r]; done).
Qed.

Lemma valid_fact_ok f u : valid_fact f = Ok u → fact_ok f.
Proof. unfold valid_fact. intros Hv. apply Validate_ok. by destruct (GenerationFact_Validate f). Qed.

Lemma new_fact_ok i f : NewGenerationFact i = Ok f → fact_ok f.
Proof.
  intros Hn. pose proof (NewGenerationFact_Ok i f Hn) as (Hi & Hs & Hr & Hg & He). split; auto.
  - rewrite Hi. exists f. by rewrite Hn.
  - unfold state_consistent. by rewrite Hs, Hg.
Qed.

(** No settlement matches a fact without an outcome. *)
Lemma undecided_settlement f : fact_ok f → decided f = false → gf_Settlement f = no_settlement.
Proof.
  intros [_ _ _ [He|Hm]] Hd; [done|]. exfalso. unfold matchesSettlement, GenerationFact_TerminalProofDigest in Hm.
  unfold decided in Hd. apply orb_false_iff in Hd as [H1 H2]. rewrite H1, H2 in Hm.
  destruct (_ || _) eqn:E in Hm; [done|]. reflect_bools. naive_solver.
Qed.

(** A fact without an outcome moves on to one that is consistent. *)
Lemma moved_ok f s success r : fact_ok f → decided f = false →
  r = gf_Reservation f ∨ matchesReceipt f r = true →
  let f' := with_fact_state s success (with_reservation r f) in
  state_consistent f' = true → s ≠ GenerationPrepared ∨ gf_State f = GenerationPrepared →
  r = gf_Reservation f ∨ gr_ReservationID (gf_Reservation f) = ""%string →
  fact_ok f' ∧ fact_kept f f'.
Proof.
  intros Hf Hd Hr f' Hs Hp Hrb. pose proof (undecided_settlement f Hf Hd) as He. destruct Hf as [Hb Hfr _ _].
  split; split; simpl; auto; try tauto; try congruence.
  - destruct Hr as [-> |Hr]; [|right]; done.
Qed.

Lemma prepared_undecided f : gf_State f = GenerationPrepared → decided f = false.
Proof. unfold decided. by intros ->. Qed.
Lemma dispatched_undecided f : gf_State f = GenerationDispatchStarted ∨ gf_State f = GenerationUnknown →
  decided f = false.
Proof. unfold decided. by intros [-> | ->]. Qed.

Lemma kept_refl f : fact_kept f f.
Proof. by split. Qed.
Lemma kept_trans f1 f2 f3 : fact_kept f1 f2 → fact_kept f2 f3 → fact_kept f1 f3.
Proof.
  intros [[A1 [A2 A3]] A4 A5 A6 A7] [[B1 [B2 B3]] B4 B5 B6 B7]. split.
  - by rewrite B1, B2, B3.
  - intros Hr. rewrite B4; [auto|]. by rewrite A4.
  - intros Hd. destruct (A5 Hd) as [S1 G1]. destruct B5 as [S2 G2]; [|split; congruence].
    unfold decided in *. by rewrite S1.
  - auto.
  - intros Hs. rewrite B7; [auto|]. by rewrite A7.
Qed.

(** ** Steps *)

Ltac run_method Hr :=
  unfold mbind, result_bind in Hr; destruct (valid_fact _) as [?|] eqn:Hok; [|done];
  apply valid_fact_ok in Hok; repeat (case_match; try done); simplify_eq; reflect_bools.

Lemma BindReservation_step f r f' : BindReservation_fact f r = Ok f' → fact_ok f' ∧ fact_kept f f'.
Proof.
  unfold BindReservation_fact. intros Hr. run_method Hr; [by split; [|apply kept_refl]|].
  apply (moved_ok f (gf_State f) (gf_Success f) r); auto using prepared_undecided.
  pose proof (fo_state _ Hok) as Hs. rename select (gf_State f = _) into Hst. unfold state_consistent in *.
  simpl. by rewrite Hst in Hs |- *.
Qed.

Lemma BeginDispatch_step f f' first : BeginDispatch f = Ok (f', first) →
  fact_ok f' ∧ fact_kept f f' ∧ gf_State f' ≠ GenerationPrepared ∧
  (first = true → gf_State f = GenerationPrepared).
Proof.
  unfold BeginDispatch. intros Hr. run_method Hr.
  - split; [done|]. split; [apply kept_refl|done].
  - rename select (gf_State f = _) into Hst. rename select (gr_ReservationID _ ≠ _) into Hb.
    destruct (moved_ok f GenerationDispatchStarted (gf_Success f) (gf_Reservation f)); auto using prepared_undecided.
    + pose proof (fo_state _ Hok) as Hs. unfold state_consistent in *. rewrite Hst in Hs. simpl in *.
      rewrite Hs, andb_true_r. by apply negb_true_iff, String.eqb_neq.
Qed.

Lemma RecordNoGeneration_step f f' : RecordNoGeneration f = Ok f' → fact_ok f' ∧ fact_kept f f'.
Proof.
  unfold RecordNoGeneration. intros Hr. run_method Hr.
  destruct (decide (gf_State f = GenerationNoEffect)) as [Hn|Hn].
  - replace (with_fact_state _ _ f) with f by (destruct f; simpl in *; by subst). by split; [|apply kept_refl].
  - assert (gf_State f = GenerationPrepared) as Hst by naive_solver.
    apply (moved_ok f GenerationNoEffect (gf_Success f) (gf_Reservation f)); auto using prepared_undecided.
    + pose proof (fo_state _ Hok) as Hs. unfold state_consistent in *. by rewrite Hst in Hs.
Qed.

Lemma MarkUnknown_step f f' : MarkUnknown f = Ok f' → fact_ok f' ∧ fact_kept f f'.
Proof.
  unfold MarkUnknown. intros Hr. run_method Hr; [by split; [|apply kept_refl]|].
  assert (gf_State f = GenerationDispatchStarted ∨ gf_State f = GenerationUnknown) as Hst by naive_solver.
  apply (moved_ok f GenerationUnknown (gf_Success f) (gf_Reservation f)); auto using dispatched_undecided.
  - pose proof (fo_state _ Hok) as Hs. unfold state_consistent in *. by destruct Hst as [Hst|Hst]; rewrite Hst in Hs.
Qed.

Lemma RecordSuccess_step f s f' : RecordSuccess f s = Ok f' → fact_ok f' ∧ fact_kept f f'.
Proof.
  unfold RecordSuccess. intros Hr. run_method Hr; [by split; [|apply kept_refl]|].
  assert (gf_State f = GenerationDispatchStarted ∨ gf_State f = GenerationUnknown) as Hst by naive_solver.
  apply (moved_ok f GenerationSucceeded s (gf_Reservation f)); auto using dispatched_undecided.
  - pose proof (fo_state _ Hok) as Hs. unfold state_consistent in *.
    destruct Hst as [Hst|Hst]; rewrite Hst in Hs; simpl in *; apply andb_true_iff in Hs as [-> _]; done.
Qed.

Lemma BindSettlement_step f r f' : BindSettlement f r = Ok f' → fact_ok f' ∧ fact_kept f f'.
Proof.
  unfold BindSettlement. intros Hr. run_method Hr. destruct Hok as [Hb Hfr Hs He].
  split; split; simpl; auto; try done. intros Hn. naive_solver.
Qed.

Lemma fact_step_kept f f' : fact_step f f' → fact_ok f' ∧ fact_kept f f'.
Proof.
  intros [r g Hr|g b Hr|g Hr|g Hr|s g Hr|r g Hr].
  - by eapply BindReservation_step.
  - by apply BeginDispatch_step in Hr as (? & ? & _).
  - by apply RecordNoGeneration_step.
  - by apply MarkUnknown_step.
  - by eapply RecordSuccess_step.
  - by eapply BindSettlement_step.
Qed.

Lemma fact_steps_kept f f' : rtc fact_step f f' → fact_kept f f'.
Proof.
  induction 1 as [f|f1 f2 f3 H12 _ IH]; [apply kept_refl|]. eapply kept_trans; [|exact IH].
  by apply fact_step_kept.
Qed.

Lemma fact_steps_ok f f' : fact_ok f → rtc fact_step f f' → fact_ok f'.
Proof.
  intros Hf. induction 1 as [f|f1 f2 f3 H12 _ IH]; [done|]. apply IH. by apply fact_step_kept in H12 as [? _].
Qed.
End life.

(** * What holds of a fact *)

(** C13. An image generation keeps its word. However the methods of a fact are
    called on it from its intent on, the fact stays valid and is about the intent
    it was made for; once a reservation is bound to it, an outcome or a settlement
    is recorded in it, that does not change; and once one call of [BeginDispatch]
    said that the provider may be called, no later call ever says so again. *)
Theorem generation_dispatched_once `{GenerationAssets} i f0 f :
  NewGenerationFact i = Ok f0 → rtc fact_step f0 f →
  GenerationFact_Validate f = None ∧ gf_Intent f = i ∧
  (∀ f', rtc fact_step f f' → fact_kept f f') ∧
  (∀ f1 f2, BeginDispatch f = Ok (f1, true) → rtc fact_step f1 f2 → ∀ f3, BeginDispatch f2 ≠ Ok (f3, true)).
Proof.
  intros Hn Hf. pose proof (fact_steps_ok _ _ (new_fact_ok _ _ Hn) Hf) as Hok.
  split; [by apply Validate_ok|]. split; [|split].
  - destruct (fact_steps_kept _ _ Hf) as [[-> _] _ _ _ _]. by apply (NewGenerationFact_Ok i).
  - apply fact_steps_kept.
  - intros f1 f2 (_ & _ & Hs & _)%BeginDispatch_step Hl f3 (_ & _ & _ & Hp)%BeginDispatch_step.
    by apply (fk_dispatched _ _ (fact_steps_kept _ _ Hl) Hs), Hp.
Qed.
