(* ===== verification/PointTypes.v ===== *)
(** * AI points: limits, prices and model invocations

    Models member_limit.go of src/internal/ledger/orgresource (a member's monthly
    limit), model_point_pricing.go of src/internal/aicapability (what a model
    invocation costs in points) and the parts of model_invocation_repository.go of
    src/internal/integration/orgresource that are functions of an invocation
    record: its scope, keys, fingerprint and terminal usage. *)
From S2P Require Import Prelude GoStd Encoding Cursors ResourceTypes GenerationFacts.

(** ** member_limit.go *)

Record MemberLimitSnapshot := {
  ms_OrganizationID : string;
  ms_MemberID : string;
  ms_MonthlyLimit : Z;
  ms_Version : Z;
  ms_MonthStart : Time;
  ms_Reserved : Z;
  ms_Consumed : Z }.

Record SetMemberLimitExecution := {
  sl_OrganizationID : string;
  sl_MemberID : string;
  sl_OperationID : string;
  sl_ActorID : string;
  sl_ExpectedVersion : Z;
  sl_Target : Z }.

Definition ValidMemberLimitCommand (i : SetMemberLimitExecution) : bool :=
  validLimitIdentity (sl_OrganizationID i) && validLimitIdentity (sl_MemberID i)
  && validLimitIdentity (sl_OperationID i) && validLimitIdentity (sl_ActorID i)
  && (sl_ExpectedVersion i >=? 0) && (sl_Target i >=? 0).

(** The fingerprint of [SetMonthlyLimit]: the digest of the command. *)
Definition limitFingerprint (i : SetMemberLimitExecution) : string :=
  fingerprint "" (Some (JObj
    [("OrganizationID", JStr (sl_OrganizationID i)); ("MemberID", JStr (sl_MemberID i));
     ("OperationID", JStr (sl_OperationID i)); ("ActorID", JStr (sl_ActorID i));
     ("ExpectedVersion", JInt (sl_ExpectedVersion i)); ("Target", JInt (sl_Target i))]))%string.

(** ** model_point_pricing.go *)

Record ModelPointTariff := {
  mp_PriceVersion : string;
  mp_InputPointsPerMillionTokens : Z;
  mp_OutputPointsPerMillionTokens : Z }.

(** No NUL byte and no line break. *)
Definition single_line (v : string) : bool :=
  string_forallb (λ c, negb (existsb (Z.eqb (byte_val c)) [0; 13; 10])) v.

Definition ModelPointTariff_Valid (p : ModelPointTariff) : bool :=
  (mp_PriceVersion p ≠s "") && (TrimSpace (mp_PriceVersion p) =s mp_PriceVersion p)
  && (slen (mp_PriceVersion p) <=? 128) && single_line (mp_PriceVersion p)
  && (mp_InputPointsPerMillionTokens p >? 0) && (mp_OutputPointsPerMillionTokens p >? 0).

(** Exact integers ([math/big]); a quantity that does not fit is an error. *)
Definition ModelPointTariff_Points (p : ModelPointTariff) (prompt completion : Z) : result Z :=
  if negb (ModelPointTariff_Valid p) || (prompt <? 0) || (completion <? 0) then Err ErrInternal
  else
    let sum := (prompt * mp_InputPointsPerMillionTokens p
      + completion * mp_OutputPointsPerMillionTokens p + 999999) / 1000000 in
    if (min_int64 <=? sum) && (sum <=? max_int64) then Ok sum else Err ErrInternal.

(** ** Invocation records

    [InvocationRecord] of invocation.go. [ReviewScore] is held as the text
    [json.Marshal] writes for it, [ReviewReasons] with the nil slice apart. *)
Record InvocationRecord := {
  ir_PointTariff : ModelPointTariff;
  ir_MaximumPromptTokens : Z;
  ir_MaximumCompletionTokens : Z;
  ir_InvocationID : string;
  ir_ParentInvocationID : string;
  ir_AgentRunID : string;
  ir_TenantID : string;
  ir_UserID : string;
  ir_MemberID : string;
  ir_BusinessTaskID : string;
  ir_TraceID : string;
  ir_Capability : string;
  ir_Operation : string;
  ir_RouteMode : string;
  ir_RouteOutcome : string;
  ir_CacheStatus : string;
  ir_ProviderID : string;
  ir_ModelID : string;
  ir_RequestedRoutingKey : string;
  ir_RoutingKey : string;
  ir_CredentialReference : string;
  ir_PolicyVersion : string;
  ir_ConfigurationVersion : string;
  ir_PromptKey : string;
  ir_PromptVersion : string;
  ir_PromptScope : string;
  ir_PromptHash : string;
  ir_StartedAt : Time;
  ir_FinishedAt : Time;
  ir_LatencyMilliseconds : Z;
  ir_Attempt : Z;
  ir_FallbackIndex : Z;
  ir_PromptTokens : Z;
  ir_CompletionTokens : Z;
  ir_TotalTokens : Z;
  ir_ImageCount : Z;
  ir_EstimatedCostMicros : Z;
  ir_EstimatedCostKnown : bool;
  ir_UsageKnown : bool;
  ir_Currency : string;
  ir_Outcome : string;
  ir_ErrorCategory : string;
  ir_RouteErrorCategory : string;
  ir_ErrorCode : string;
  ir_ProviderRequestID : string;
  ir_UpstreamJobID : string;
  ir_InputHash : string;
  ir_OutputHash : string;
  ir_ReviewScore : string;
  ir_ReviewNeedsHumanReview : bool;
  ir_ReviewReasons : option (list string) }.

Definition InvocationDispatched : string := "dispatched".
Definition InvocationSucceeded : string := "succeeded".
Definition InvocationFailed : string := "failed".
Definition InvocationUsageObservedFailed : string := "usage_observed_failed".

Definition CapabilityAIWorkbenchChatPlanning : string := "aiworkbench.chat_planning".
Definition OperationProductAgentDecision : string := "product_agent_decision".
Definition OperationProductContentDecision : string := "product.content.decision".
Definition OperationListingMaterialsDecision : string := "listing.materials.decision".
Definition OperationProductSelectionDecision : string := "product.selection.decision".
Definition OperationShopDiagnosisDecision : string := "shop.operations-diagnosis.decision".
Definition OperationAIWorkbenchChatPlan : string := "aiworkbench_chat_plan".

Definition ModelPointTariff_json (p : ModelPointTariff) : json := JObj
  [("priceVersion", JStr (mp_PriceVersion p));
   ("inputPointsPerMillionTokens", JInt (mp_InputPointsPerMillionTokens p));
   ("outputPointsPerMillionTokens", JInt (mp_OutputPointsPerMillionTokens p))]%string.

Definition InvocationRecord_json (f : InvocationRecord) : option json :=
  started ← json_time (ir_StartedAt f);
  finished ← json_time (ir_FinishedAt f);
  Some (JObj
  [("PointTariff", ModelPointTariff_json (ir_PointTariff f));
   ("MaximumPromptTokens", JInt (ir_MaximumPromptTokens f));
   ("MaximumCompletionTokens", JInt (ir_MaximumCompletionTokens f));
   ("InvocationID", JStr (ir_InvocationID f));
   ("ParentInvocationID", JStr (ir_ParentInvocationID f));
   ("AgentRunID", JStr (ir_AgentRunID f)); ("TenantID", JStr (ir_TenantID f));
   ("UserID", JStr (ir_UserID f)); ("MemberID", JStr (ir_MemberID f));
   ("BusinessTaskID", JStr (ir_BusinessTaskID f)); ("TraceID", JStr (ir_TraceID f));
   ("Capability", JStr (ir_Capability f)); ("Operation", JStr (ir_Operation f));
   ("RouteMode", JStr (ir_RouteMode f)); ("RouteOutcome", JStr (ir_RouteOutcome f));
   ("CacheStatus", JStr (ir_CacheStatus f)); ("ProviderID", JStr (ir_ProviderID f));
   ("ModelID", JStr (ir_ModelID f)); ("RequestedRoutingKey", JStr (ir_RequestedRoutingKey f));
   ("RoutingKey", JStr (ir_RoutingKey f)); ("CredentialReference", JStr (ir_CredentialReference f));
   ("PolicyVersion", JStr (ir_PolicyVersion f));
   ("ConfigurationVersion", JStr (ir_ConfigurationVersion f)); ("PromptKey", JStr (ir_PromptKey f));
   ("PromptVersion", JStr (ir_PromptVersion f)); ("PromptScope", JStr (ir_PromptScope f));
   ("PromptHash", JStr (ir_PromptHash f)); ("StartedAt", started); ("FinishedAt", finished);
   ("LatencyMilliseconds", JInt (ir_LatencyMilliseconds f)); ("Attempt", JInt (ir_Attempt f));
   ("FallbackIndex", JInt (ir_FallbackIndex f)); ("PromptTokens", JInt (ir_PromptTokens f));
   ("CompletionTokens", JInt (ir_CompletionTokens f)); ("TotalTokens", JInt (ir_TotalTokens f));
   ("ImageCount", JInt (ir_ImageCount f)); ("EstimatedCostMicros", JInt (ir_EstimatedCostMicros f));
   ("EstimatedCostKnown", JBool (ir_EstimatedCostKnown f)); ("UsageKnown", JBool (ir_UsageKnown f));
   ("Currency", JStr (ir_Currency f)); ("Outcome", JStr (ir_Outcome f));
   ("ErrorCategory", JStr (ir_ErrorCategory f));
   ("RouteErrorCategory", JStr (ir_RouteErrorCategory f)); ("ErrorCode", JStr (ir_ErrorCode f));
   ("ProviderRequestID", JStr (ir_ProviderRequestID f)); ("UpstreamJobID", JStr (ir_UpstreamJobID f));
   ("InputHash", JStr (ir_InputHash f)); ("OutputHash", JStr (ir_OutputHash f));
   ("ReviewScore", JRaw (ir_ReviewScore f));
   ("ReviewNeedsHumanReview", JBool (ir_ReviewNeedsHumanReview f));
   ("ReviewReasons", match ir_ReviewReasons f with
     | None => JNull | Some l => JArr (JStr <$> l) end)]%string).

(** ** model_invocation_repository.go *)

Definition modelPointOwner : string := "model_invocation_v1".

Record modelPointReceipt := {
  mr_ReservationID : string;
  mr_MemberID : string;
  mr_Fingerprint : string;
  mr_PriceVersion : string;
  mr_Quantity : Z;
  mr_LimitVersion : Z;
  mr_Month : Time }.

Definition modelPointHash : option json → string := generationHash.

Definition modelPointKey (kind id : string) : string :=
  ("model-point-" +:+ kind +:+ ":" +:+ modelPointHash (Some (JStr id)))%string.

Definition with_times (started finished : Time) (f : InvocationRecord) : InvocationRecord :=
  {| ir_PointTariff := ir_PointTariff f; ir_MaximumPromptTokens := ir_MaximumPromptTokens f;
     ir_MaximumCompletionTokens := ir_MaximumCompletionTokens f; ir_InvocationID := ir_InvocationID f;
     ir_ParentInvocationID := ir_ParentInvocationID f; ir_AgentRunID := ir_AgentRunID f;
     ir_TenantID := ir_TenantID f; ir_UserID := ir_UserID f; ir_MemberID := ir_MemberID f;
     ir_BusinessTaskID := ir_BusinessTaskID f; ir_TraceID := ir_TraceID f;
     ir_Capability := ir_Capability f; ir_Operation := ir_Operation f; ir_RouteMode := ir_RouteMode f;
     ir_RouteOutcome := ir_RouteOutcome f; ir_CacheStatus := ir_CacheStatus f;
     ir_ProviderID := ir_ProviderID f; ir_ModelID := ir_ModelID f;
     ir_RequestedRoutingKey := ir_RequestedRoutingKey f; ir_RoutingKey := ir_RoutingKey f;
     ir_CredentialReference := ir_CredentialReference f; ir_PolicyVersion := ir_PolicyVersion f;
     ir_ConfigurationVersion := ir_ConfigurationVersion f; ir_PromptKey := ir_PromptKey f;
     ir_PromptVersion := ir_PromptVersion f; ir_PromptScope := ir_PromptScope f;
     ir_PromptHash := ir_PromptHash f; ir_StartedAt := started; ir_FinishedAt := finished;
     ir_LatencyMilliseconds := ir_LatencyMilliseconds f; ir_Attempt := ir_Attempt f;
     ir_FallbackIndex := ir_FallbackIndex f; ir_PromptTokens := ir_PromptTokens f;
     ir_CompletionTokens := ir_CompletionTokens f; ir_TotalTokens := ir_TotalTokens f;
     ir_ImageCount := ir_ImageCount f; ir_EstimatedCostMicros := ir_EstimatedCostMicros f;
     ir_EstimatedCostKnown := ir_EstimatedCostKnown f; ir_UsageKnown := ir_UsageKnown f;
     ir_Currency := ir_Currency f; ir_Outcome := ir_Outcome f; ir_ErrorCategory := ir_ErrorCategory f;
     ir_RouteErrorCategory := ir_RouteErrorCategory f; ir_ErrorCode := ir_ErrorCode f;
     ir_ProviderRequestID := ir_ProviderRequestID f; ir_UpstreamJobID := ir_UpstreamJobID f;
     ir_InputHash := ir_InputHash f; ir_OutputHash := ir_OutputHash f;
     ir_ReviewScore := ir_ReviewScore f; ir_ReviewNeedsHumanReview := ir_ReviewNeedsHumanReview f;
     ir_ReviewReasons := ir_ReviewReasons f |}.

(** The record as it was dispatched: what the provider reported is left out. *)
Definition as_dispatched (f : InvocationRecord) : InvocationRecord :=
  {| ir_PointTariff := ir_PointTariff f; ir_MaximumPromptTokens := ir_MaximumPromptTokens f;
     ir_MaximumCompletionTokens := ir_MaximumCompletionTokens f; ir_InvocationID := ir_InvocationID f;
     ir_ParentInvocationID := ir_ParentInvocationID f; ir_AgentRunID := ir_AgentRunID f;
     ir_TenantID := ir_TenantID f; ir_UserID := ir_UserID f; ir_MemberID := ir_MemberID f;
     ir_BusinessTaskID := ir_BusinessTaskID f; ir_TraceID := ir_TraceID f;
     ir_Capability := ir_Capability f; ir_Operation := ir_Operation f; ir_RouteMode := ir_RouteMode f;
     ir_RouteOutcome := ir_RouteOutcome f; ir_CacheStatus := ir_CacheStatus f;
     ir_ProviderID := ir_ProviderID f; ir_ModelID := ir_ModelID f;
     ir_RequestedRoutingKey := ir_RequestedRoutingKey f; ir_RoutingKey := ir_RoutingKey f;
     ir_CredentialReference := ir_CredentialReference f; ir_PolicyVersion := ir_PolicyVersion f;
     ir_ConfigurationVersion := ir_ConfigurationVersion f; ir_PromptKey := ir_PromptKey f;
     ir_PromptVersion := ir_PromptVersion f; ir_PromptScope := ir_PromptScope f;
     ir_PromptHash := ir_PromptHash f; ir_StartedAt := Truncate (ir_StartedAt f) Microsecond;
     ir_FinishedAt := zero_time; ir_LatencyMilliseconds := 0; ir_Attempt := ir_Attempt f;
     ir_FallbackIndex := ir_FallbackIndex f; ir_PromptTokens := 0; ir_CompletionTokens := 0;
     ir_TotalTokens := 0; ir_ImageCount := 0; ir_EstimatedCostMicros := 0;
     ir_EstimatedCostKnown := false; ir_UsageKnown := false; ir_Currency := ir_Currency f;
     ir_Outcome := InvocationDispatched; ir_ErrorCategory := ""; ir_RouteErrorCategory := "";
     ir_ErrorCode := ""; ir_ProviderRequestID := ""; ir_UpstreamJobID := "";
     ir_InputHash := ir_InputHash f; ir_OutputHash := ""; ir_ReviewScore := "0";
     ir_ReviewNeedsHumanReview := false; ir_ReviewReasons := None |}%string.

Definition modelPointFingerprint (f : InvocationRecord) : string :=
  modelPointHash (InvocationRecord_json (as_dispatched f)).

(** The digest a finalization carries. *)
Definition modelPointProof (f : InvocationRecord) : string :=
  modelPointHash (InvocationRecord_json (with_times (Truncate (ir_StartedAt f) Microsecond)
    (Truncate (ir_FinishedAt f) Microsecond) f)).

Definition modelPointBusinessScope (f : InvocationRecord) : string :=
  if existsb (String.eqb (ir_Operation f)) [OperationProductAgentDecision;
      OperationProductContentDecision; OperationListingMaterialsDecision;
      OperationProductSelectionDecision; OperationShopDiagnosisDecision]
  then ir_AgentRunID f
  else if (ir_Operation f =s OperationAIWorkbenchChatPlan)
    && (ir_AgentRunID f =s "") && (ir_BusinessTaskID f =s "")
    && (ir_Capability f =s CapabilityAIWorkbenchChatPlanning) && (ir_InvocationID f ≠s "")
  then ("chat-plan:" +:+ ir_InvocationID f)%string
  else "".

(** The checks of [readFact]. *)
Definition valid_invocation (org id : string) (f : InvocationRecord) : bool :=
  (ir_TenantID f =s org) && (ir_InvocationID f =s id) && (modelPointBusinessScope f ≠s "")
  && (ir_MemberID f ≠s "") && (ir_UserID f ≠s "") && (ir_InputHash f ≠s "")
  && negb (IsZero (ir_StartedAt f)) && ModelPointTariff_Valid (ir_PointTariff f)
  && (ir_MaximumPromptTokens f >? 0) && (ir_MaximumCompletionTokens f >? 0)
  && (ir_MaximumPromptTokens f <=? (max_int64 -! ir_MaximumCompletionTokens f))
  && match ModelPointTariff_Points (ir_PointTariff f) (ir_MaximumPromptTokens f)
       (ir_MaximumCompletionTokens f) with Ok _ => true | Err _ => false end.

(** [quantity, _ := fact.PointTariff.Points(...)] of the maximum usage. *)
Definition maximum_points (f : InvocationRecord) : Z :=
  match ModelPointTariff_Points (ir_PointTariff f) (ir_MaximumPromptTokens f)
    (ir_MaximumCompletionTokens f) with Ok q => q | Err _ => 0 end.

(** The points used, and whether nothing was dispatched. *)
Definition modelPointTerminal (f : InvocationRecord) : result (Z * bool) :=
  if IsZero (ir_FinishedAt f) || (ir_FinishedAt f <? ir_StartedAt f) then Err ErrOwnerNotTerminal
  else if (ir_Outcome f =s InvocationFailed) && ir_UsageKnown f && (ir_PromptTokens f =? 0)
    && (ir_CompletionTokens f =? 0) && (ir_TotalTokens f =? 0)
    && ((ir_ErrorCode f =s "reservation_failed_before_dispatch")
        || (ir_ErrorCode f =s "rejected_before_dispatch")) then Ok (0, true)
  else if ((ir_Outcome f ≠s InvocationSucceeded) && (ir_Outcome f ≠s InvocationUsageObservedFailed))
    || negb (ir_UsageKnown f) then Err ErrOwnerNotTerminal
  else if (ir_PromptTokens f <? 0) || (ir_CompletionTokens f <? 0) || (ir_TotalTokens f <=? 0)
    || (ir_PromptTokens f >? ir_MaximumPromptTokens f)
    || (ir_CompletionTokens f >? ir_MaximumCompletionTokens f)
    || negb (ir_TotalTokens f =? (ir_PromptTokens f +! ir_CompletionTokens f))
  then Err ErrInvalidOwnerProof
  else points ← ModelPointTariff_Points (ir_PointTariff f) (ir_PromptTokens f) (ir_CompletionTokens f);
    Ok (points, false).

(** * Lemmas *)

Lemma Points_Ok p a b z : ModelPointTariff_Points p a b = Ok z →
  ModelPointTariff_Valid p = true ∧ 0 ≤ a ∧ 0 ≤ b ∧ 0 ≤ z ≤ max_int64 ∧
  z = (a * mp_InputPointsPerMillionTokens p + b * mp_OutputPointsPerMillionTokens p + 999999) / 1000000.
Proof.
  unfold ModelPointTariff_Points. intros Hp. repeat case_match; try done. simplify_eq. reflect_bools.
  destruct H as [[Hv Ha] Hb]. split; [done|]. do 2 (split; [done|]). split; [|done]. split; [|lia].
  apply Z.div_pos; [|done]. unfold ModelPointTariff_Valid in Hv. reflect_bools. nia.
Qed.

Lemma tariff_positive p : ModelPointTariff_Valid p = true →
  0 < mp_InputPointsPerMillionTokens p ∧ 0 < mp_OutputPointsPerMillionTokens p.
Proof. unfold ModelPointTariff_Valid. intros Hv. reflect_bools. lia. Qed.

(** More tokens cost as much or more; some tokens cost something. *)
Lemma Points_mono p a b a' b' z z' : ModelPointTariff_Points p a b = Ok z →
  ModelPointTariff_Points p a' b' = Ok z' → a ≤ a' → b ≤ b' → z ≤ z'.
Proof.
  intros (Hv & Ha & Hb & _ & ->)%Points_Ok (_ & _ & _ & _ & ->)%Points_Ok ??.
  apply tariff_positive in Hv. apply Z.div_le_mono; [done|]. nia.
Qed.
Lemma Points_positive p a b z : ModelPointTariff_Points p a b = Ok z → 0 < a ∨ 0 < b → 0 < z.
Proof.
  intros (Hv & Ha & Hb & _ & ->)%Points_Ok Hab. apply tariff_positive in Hv.
  apply Z.div_str_pos. split; [done|]. nia.
Qed.

(** What an invocation reserves at most. *)
Lemma maximum_points_Ok org id f : valid_invocation org id f = true →
  ModelPointTariff_Points (ir_PointTariff f) (ir_MaximumPromptTokens f) (ir_MaximumCompletionTokens f) =
    Ok (maximum_points f) ∧ 0 < maximum_points f ≤ max_int64.
Proof.
  unfold valid_invocation, maximum_points. intros Hv. destruct (ModelPointTariff_Points _ _ _) as [q|e] eqn:Hq.
  - split; [done|]. reflect_bools. assert (0 < q); [|by pose proof (Points_Ok _ _ _ _ Hq); lia].
    eapply Points_positive; [exact Hq|]. left. apply Hv.
  - by rewrite andb_false_r in Hv.
Qed.

(** What was used is within it, and nothing when nothing was dispatched. *)
Lemma modelPointTerminal_within org id f actual noDispatch : valid_invocation org id f = true →
  modelPointTerminal f = Ok (actual, noDispatch) →
  0 ≤ actual ≤ maximum_points f ∧ (if noDispatch then actual = 0 else 0 < actual).
Proof.
  intros Hv Ht. destruct (maximum_points_Ok _ _ _ Hv) as [Hmax Hpos].
  unfold modelPointTerminal in Ht. do 2 (case_match; [by simplify_eq/=; lia|]).
  case_match; [done|]. case_match eqn:Hused; [done|].
  unfold mbind, result_bind in Ht. destruct (ModelPointTariff_Points _ (ir_PromptTokens f) _) as [z|] eqn:Hz;
    [|done]. simplify_eq. reflect_bools.
  assert (0 < ir_PromptTokens f ∨ 0 < ir_CompletionTokens f) as Hsome.
  { destruct (decide (0 < ir_PromptTokens f)); [by left|]. right. apply Z.nle_gt. intros Hc.
    replace (ir_PromptTokens f) with 0 in * by lia. replace (ir_CompletionTokens f) with 0 in * by lia.
    change (0 +! 0) with 0 in *. lia. }
  pose proof (Points_positive _ _ _ _ Hz Hsome).
  split; [|done]. split; [lia|]. eapply Points_mono; [exact Hz|exact Hmax|..]; lia.
Qed.
