(* ===== verification/ResourceStore.v ===== *)
(** * The tables of organization resources

    Models the rows of src/internal/integration/orgresource/schema.go that hold
    balances: buckets, debts, operations with their immutable results, source
    claims, reservations, events, audit logs and member positions, with their
    keys and unique indexes, and the limits and monthly counters of members' AI
    points, as a database for the statements of Store. Columns that gorm fills by
    itself ([autoCreateTime], [autoUpdateTime]) and the code never reads are left
    out. The state of the domains that own reservations is a type parameter. *)
From S2P Require Import Prelude GoStd Encoding Store ResourceTypes GenerationFacts PointTypes.

(** ** Rows *)

Record organizationResourceBucketRow := {
  b_OrganizationID : string;
  b_ResourceType : string;
  b_Available : Z;
  b_Allocated : Z;
  b_Reserved : Z;
  b_Consumed : Z;
  b_UpdatedAt : Time }.

Record organizationResourceDebtRow := {
  db_OrganizationID : string;
  db_ResourceType : string;
  db_Amount : Z }.

(** What the JSON columns hold: [ImmutableResult] the result of the operation's
    kind, [Payload] of an audit log what was done. A string comes back from JSON
    as [json_text]; the strings of these results are in text columns of the same
    rows too, so they are UTF-8 already, those of a purchased grant apart. *)
Inductive resourceResult : Type :=
  | NoResult
  | WelcomeResult (s : WelcomeGrantSnapshot)
  | WelcomeAudit (resource quantity balance source_type source_identity : string)
  | PurchasedResult (s : PurchasedResourceGrantSnapshot)
  | TrialResult (s : TrialAIGrantSnapshot)
  | ReservationResult (s : ReservationSnapshot)
  | SettlementResult (s : SettlementSnapshot)
  | TransferResult (r : MemberResourceTransferResult)
  | ChargeResult (r : ConsumerChargeReceipt)
  | LimitResult (s : MemberLimitSnapshot)
  | GenerationReserved (r : GenerationReservationReceipt)
  | GenerationSettled (r : GenerationSettlementReceipt)
  | ModelPointReserved (r : modelPointReceipt)
  | ModelPointSettled (state proof : string) (points : Z).

Record organizationResourceOperationRow := {
  op_OrganizationID : string;
  op_OperationID : string;
  op_OperationType : string;
  op_RequestFingerprint : string;
  op_State : string;
  op_FailureCode : string;
  op_ImmutableResult : resourceResult;
  op_ApprovalEvidenceID : string;
  op_CompletedAt : option Time }.

Record organizationResourceSourceClaimRow := {
  sc_SourceType : string;
  sc_SourceIdentity : string;
  sc_ResourceType : string;
  sc_OrganizationID : string;
  sc_OperationID : string;
  sc_RequestFingerprint : string }.

Record organizationResourceEventRow := {
  ev_EventID : string;
  ev_OrganizationID : string;
  ev_OperationID : string;
  ev_ReservationID : option string;
  ev_ResourceType : string;
  ev_Quantity : Z;
  ev_AvailableDelta : Z;
  ev_AllocatedDelta : Z;
  ev_ReservedDelta : Z;
  ev_ConsumedDelta : Z;
  ev_Reason : string;
  ev_SourceType : string;
  ev_SourceIdentity : string;
  ev_BalanceAfter : Z;
  ev_AvailableAfter : Z;
  ev_AllocatedAfter : Z;
  ev_ReservedAfter : Z;
  ev_ConsumedAfter : Z;
  ev_GrossCredit : Z;
  ev_DebtRepaid : Z;
  ev_NetCredit : Z }.

Record organizationResourceReservationRow := {
  rr_ChargeBalanceAfter : Z;
  rr_ChargeProtocol : string;
  rr_ChargeActorID : string;
  rr_ChargeFunding : string;
  rr_ChargeEvidenceID : string;
  rr_NextCheckAt : option Time;
  rr_MemberID : string;
  rr_MemberMonthStart : option Time;
  rr_MemberLimitVersion : Z;
  rr_PriceVersion : string;
  rr_OrganizationID : string;
  rr_ReservationID : string;
  rr_OperationID : string;
  rr_SettlementOperationID : option string;
  rr_OwnerType : string;
  rr_OwnerAttemptID : string;
  rr_BusinessScope : string;
  rr_ResourceType : string;
  rr_ReservationPurpose : string;
  rr_Quantity : Z;
  rr_State : string;
  rr_RequestFingerprint : string;
  rr_CreatedAt : Time;
  rr_SettledAt : option Time }.

Record organizationResourceAuditLogRow := {
  al_ID : Z;
  al_OrganizationID : string;
  al_OperationID : string;
  al_Action : string;
  al_ActorID : string;
  al_ApprovalEvidenceID : string;
  al_Payload : resourceResult }.

Record memberResourcePositionRow := {
  po_OrganizationID : string;
  po_MemberID : string;
  po_ResourceType : string;
  po_Free : Z;
  po_Reserved : Z;
  po_Consumed : Z;
  po_Version : Z;
  po_UpdatedAt : Time }.

Record memberAIPointLimitRow := {
  lm_OrganizationID : string;
  lm_MemberID : string;
  lm_MonthlyLimit : Z;
  lm_Version : Z;
  lm_UpdatedBy : string;
  lm_UpdatedAt : Time }.

Record memberAIPointMonthRow := {
  mo_OrganizationID : string;
  mo_MemberID : string;
  mo_MonthStart : Time;
  mo_Reserved : Z;
  mo_Consumed : Z }.

(** ** The database *)

(** [rd_owners]: whatever the domains that own reservations keep. *)
Record ResourceDB (O : Type) := {
  rd_buckets : gmap (string * string) organizationResourceBucketRow;
  rd_debts : gmap (string * string) organizationResourceDebtRow;
  rd_operations : gmap (string * string) organizationResourceOperationRow;
  rd_source_claims : gmap (string * string) organizationResourceSourceClaimRow;
  rd_reservations : gmap (string * string) organizationResourceReservationRow;
  rd_events : gmap (string * string) organizationResourceEventRow;
  rd_audit_logs : gmap Z organizationResourceAuditLogRow;
  rd_positions : gmap (string * string * string) memberResourcePositionRow;
  rd_limits : gmap (string * string) memberAIPointLimitRow;
  rd_months : gmap (string * string * Time) memberAIPointMonthRow;
  rd_owners : O }.
Arguments Build_ResourceDB {O}.
Arguments rd_buckets {O}.
Arguments rd_debts {O}.
Arguments rd_operations {O}.
Arguments rd_source_claims {O}.
Arguments rd_reservations {O}.
Arguments rd_events {O}.
Arguments rd_audit_logs {O}.
Arguments rd_positions {O}.
Arguments rd_limits {O}.
Arguments rd_months {O}.
Arguments rd_owners {O}.

Section tables.
Context {O : Type}.
Notation DB := (ResourceDB O).

Definition buckets : TableOf DB (string * string) organizationResourceBucketRow := {|
  rows := rd_buckets;
  put_rows m d := Build_ResourceDB m (rd_debts d) (rd_operations d) (rd_source_claims d)
    (rd_reservations d) (rd_events d) (rd_audit_logs d) (rd_positions d)
    (rd_limits d) (rd_months d) (rd_owners d);
  pk b := (b_OrganizationID b, b_ResourceType b); collides := no_collision |}.
Definition debts : TableOf DB (string * string) organizationResourceDebtRow := {|
  rows := rd_debts;
  put_rows m d := Build_ResourceDB (rd_buckets d) m (rd_operations d) (rd_source_claims d)
    (rd_reservations d) (rd_events d) (rd_audit_logs d) (rd_positions d)
    (rd_limits d) (rd_months d) (rd_owners d);
  pk x := (db_OrganizationID x, db_ResourceType x); collides := no_collision |}.
Definition operations : TableOf DB (string * string) organizationResourceOperationRow := {|
  rows := rd_operations;
  put_rows m d := Build_ResourceDB (rd_buckets d) (rd_debts d) m (rd_source_claims d)
    (rd_reservations d) (rd_events d) (rd_audit_logs d) (rd_positions d)
    (rd_limits d) (rd_months d) (rd_owners d);
  pk x := (op_OrganizationID x, op_OperationID x); collides := no_collision |}.
Definition source_claims : TableOf DB (string * string) organizationResourceSourceClaimRow := {|
  rows := rd_source_claims;
  put_rows m d := Build_ResourceDB (rd_buckets d) (rd_debts d) (rd_operations d) m
    (rd_reservations d) (rd_events d) (rd_audit_logs d) (rd_positions d)
    (rd_limits d) (rd_months d) (rd_owners d);
  pk x := (sc_SourceType x, sc_SourceIdentity x); collides := no_collision |}.
(** Unique: the owner attempt, resource and purpose in an organization. *)
Definition resource_reservations :
    TableOf DB (string * string) organizationResourceReservationRow := {|
  rows := rd_reservations;
  put_rows m d := Build_ResourceDB (rd_buckets d) (rd_debts d) (rd_operations d)
    (rd_source_claims d) m (rd_events d) (rd_audit_logs d) (rd_positions d)
    (rd_limits d) (rd_months d) (rd_owners d);
  pk x := (rr_OrganizationID x, rr_ReservationID x);
  collides a b := (rr_OrganizationID a =s rr_OrganizationID b)
    && (rr_OwnerType a =s rr_OwnerType b) && (rr_OwnerAttemptID a =s rr_OwnerAttemptID b)
    && (rr_ResourceType a =s rr_ResourceType b)
    && (rr_ReservationPurpose a =s rr_ReservationPurpose b) |}.
Definition events : TableOf DB (string * string) organizationResourceEventRow := {|
  rows := rd_events;
  put_rows m d := Build_ResourceDB (rd_buckets d) (rd_debts d) (rd_operations d)
    (rd_source_claims d) (rd_reservations d) m (rd_audit_logs d) (rd_positions d)
    (rd_limits d) (rd_months d) (rd_owners d);
  pk x := (ev_EventID x, ev_OrganizationID x); collides := no_collision |}.
Definition audit_logs : TableOf DB Z organizationResourceAuditLogRow := {|
  rows := rd_audit_logs;
  put_rows m d := Build_ResourceDB (rd_buckets d) (rd_debts d) (rd_operations d)
    (rd_source_claims d) (rd_reservations d) (rd_events d) m (rd_positions d)
    (rd_limits d) (rd_months d) (rd_owners d);
  pk := al_ID; collides := no_collision |}.
Definition positions : TableOf DB (string * string * string) memberResourcePositionRow := {|
  rows := rd_positions;
  put_rows m d := Build_ResourceDB (rd_buckets d) (rd_debts d) (rd_operations d)
    (rd_source_claims d) (rd_reservations d) (rd_events d) (rd_audit_logs d) m
    (rd_limits d) (rd_months d) (rd_owners d);
  pk x := (po_OrganizationID x, po_MemberID x, po_ResourceType x); collides := no_collision |}.

Definition limits : TableOf DB (string * string) memberAIPointLimitRow := {|
  rows := rd_limits;
  put_rows m d := Build_ResourceDB (rd_buckets d) (rd_debts d) (rd_operations d)
    (rd_source_claims d) (rd_reservations d) (rd_events d) (rd_audit_logs d) (rd_positions d)
    m (rd_months d) (rd_owners d);
  pk x := (lm_OrganizationID x, lm_MemberID x); collides := no_collision |}.
Definition months : TableOf DB (string * string * Time) memberAIPointMonthRow := {|
  rows := rd_months;
  put_rows m d := Build_ResourceDB (rd_buckets d) (rd_debts d) (rd_operations d)
    (rd_source_claims d) (rd_reservations d) (rd_events d) (rd_audit_logs d) (rd_positions d)
    (rd_limits d) m (rd_owners d);
  pk x := (mo_OrganizationID x, mo_MemberID x, mo_MonthStart x); collides := no_collision |}.

Definition put_owners (o : O) (d : DB) : DB :=
  Build_ResourceDB (rd_buckets d) (rd_debts d) (rd_operations d) (rd_source_claims d)
    (rd_reservations d) (rd_events d) (rd_audit_logs d) (rd_positions d)
    (rd_limits d) (rd_months d) o.

(** An audit log entry takes the next number of the sequence. *)
Definition CreateAuditLog (org op action actor evidence : string) (payload : resourceResult)
    : ST (WorldOf DB) unit :=
  n ← Count audit_logs (λ _, true);
  Create audit_logs {| al_ID := n + 1; al_OrganizationID := org; al_OperationID := op;
    al_Action := action; al_ActorID := actor; al_ApprovalEvidenceID := evidence;
    al_Payload := payload |}.
End tables.

(** * Lemmas *)

Ltac solve_resource_table := split; [done|done|by intros []].
#[export] Instance buckets_lawful {O} : LawfulTable (@buckets O). Proof. solve_resource_table. Qed.
#[export] Instance debts_lawful {O} : LawfulTable (@debts O). Proof. solve_resource_table. Qed.
#[export] Instance operations_lawful {O} : LawfulTable (@operations O).
Proof. solve_resource_table. Qed.
#[export] Instance source_claims_lawful {O} : LawfulTable (@source_claims O).
Proof. solve_resource_table. Qed.
#[export] Instance resource_reservations_lawful {O} : LawfulTable (@resource_reservations O).
Proof. solve_resource_table. Qed.
#[export] Instance events_lawful {O} : LawfulTable (@events O). Proof. solve_resource_table. Qed.
#[export] Instance audit_logs_lawful {O} : LawfulTable (@audit_logs O).
Proof. solve_resource_table. Qed.
#[export] Instance positions_lawful {O} : LawfulTable (@positions O).
Proof. solve_resource_table. Qed.
#[export] Instance limits_lawful {O} : LawfulTable (@limits O). Proof. solve_resource_table. Qed.
#[export] Instance months_lawful {O} : LawfulTable (@months O). Proof. solve_resource_table. Qed.
