(* ===== verification/ResourceRepo.v ===== *)
(** * Organization resources: grants, reservations and settlements

    Models the use cases of src/internal/ledger/orgresource/{service,purchase,
    trial_grant,reservation,settlement}.go over their repositories of
    src/internal/integration/orgresource: gorm_repository.go, debt.go,
    purchase_repository.go, trial_grant_repository.go, reservation_repository.go,
    settlement_repository.go and transaction.go. A result is its snapshot and
    whether it was replayed; (result, found, err) is an [option] in the monad. The
    runner retries transient failures of the database, which a transaction that
    is one atomic step has none of; what is kept of it is that a failed
    transaction is followed by a read of the durable result ([or_replay]). The
    domains that own reservations are an interface: they decide what their tables
    hold, and their methods work on these alone. *)
From S2P Require Import Prelude GoStd Encoding ResourceTypes Store ResourceStore.

(** ** The owners of reservations and the authorities *)

Record OwnerAttemptIdentity := {
  oi_OrganizationID : string;
  oi_OwnerType : string;
  oi_OwnerAttemptID : string }.

Record OwnerAttemptSnapshot := {
  os_OrganizationID : string;
  os_OwnerType : string;
  os_OwnerAttemptID : string;
  os_BusinessScope : string;
  os_State : string;
  os_ReservationID : string;
  os_ResourceType : string;
  os_ReservationPurpose : string }.

Record OwnerReservationBinding := {
  ob_OrganizationID : string;
  ob_OwnerType : string;
  ob_OwnerAttemptID : string;
  ob_ReservationID : string;
  ob_ResourceType : string;
  ob_ReservationPurpose : string }.

Record OwnerTerminalProof := {
  ot_OrganizationID : string;
  ot_OwnerType : string;
  ot_OwnerAttemptID : string;
  ot_BusinessScope : string;
  ot_ReservationID : string;
  ot_ResourceType : string;
  ot_ReservationPurpose : string;
  ot_State : string;
  ot_EvidenceID : string }.

(** The registered owners, over the state [O] of their domains:
    [TransactionalReservationOwnerStore] by owner type, and
    [ConsumerChargeOwner] by consumer. *)
Class ResourceOwners (O : Type) := {
  owner_registered : string → bool;
  LockOwnerAttempt : OwnerAttemptIdentity → O → result OwnerAttemptSnapshot;
  BindReservation : OwnerReservationBinding → O → result O;
  LockTerminalProof : OwnerReservationBinding → O → result OwnerTerminalProof;
  consumer_registered : string → bool;
  ReadChargeIntent : ConsumerChargeIdentity → O → result ConsumerChargeIntent;
  ReadChargeProof : ConsumerChargeReceipt → O → result ConsumerChargeProof }.

(** Who may do what; a purchase and a reservation are allowed up to a quantity. *)
Class ResourceAuthorities := {
  AuthorizeWelcomeGrant : Principal → error;
  VerifyWelcomeGrantEligibility : string → result WelcomeGrantApproval;
  AuthorizePurchasedGrant : Principal → string → result Z;
  AuthorizeTrialAIGrant : Principal → string → result TrialAIGrantApproval;
  AuthorizeReservation : Principal → string → string → result Z;
  AuthorizeSettlement : Principal → error;
  AuthorizeMemberResourceTransfer : Principal → MemberResourceTransfer → error }.

(** [TrustedCommercialGrantAuthorizer]. *)
Definition TrustedCommercialGrant (principal : Principal) (resourceType : string) : result Z :=
  if (pr_Kind principal ≠s PrincipalTrustedCommercial)
     || (TrimSpace (pr_ID principal) ≠s "commercial-billing") || negb (validResourceType resourceType)
  then Err ErrForbidden else Ok 1000000000.

Section repositories.
Context {O : Type} `{Env} `{ResourceOwners O} `{ResourceAuthorities}.
Notation W := (WorldOf (ResourceDB O)).

(** ** Shared steps *)

(** [if result, found, err := m; err != nil || found { return result, err }]. *)
Definition or_else {A} (m : ST W (option A)) (rest : ST W A) : ST W A :=
  r ← m; match r with Some a => mret a | None => rest end.

(** After a failed transaction the durable result is read back. *)
Definition or_replay {A} (replay : ST W (option A)) (m : ST W A) : ST W A := λ w,
  match m w with
  | (Ok a, w') => (Ok a, w')
  | (Err e, w') => match replay w' with
                   | (Ok (Some a), w'') => (Ok a, w'')
                   | (_, w'') => (Err e, w'')
                   end
  end.

Definition with_balances (available allocated reserved consumed : Z) (at_ : Time)
    (b : organizationResourceBucketRow) : organizationResourceBucketRow :=
  {| b_OrganizationID := b_OrganizationID b; b_ResourceType := b_ResourceType b;
     b_Available := available; b_Allocated := allocated; b_Reserved := reserved;
     b_Consumed := consumed; b_UpdatedAt := at_ |}.
(** UPDATE of [available] alone. *)
Definition with_available (available : Z) (at_ : Time) (b : organizationResourceBucketRow) :=
  with_balances available (b_Allocated b) (b_Reserved b) (b_Consumed b) at_ b.

(** The bucket, created empty when there is none, and locked. *)
Definition lockBucket (org resource : string) : ST W organizationResourceBucketRow :=
  created ← Now;
  CreateIgnore buckets {| b_OrganizationID := org; b_ResourceType := resource; b_Available := 0;
    b_Allocated := 0; b_Reserved := 0; b_Consumed := 0; b_UpdatedAt := created |};;
  row ← take_pk buckets (org, resource); found ErrRecordNotFound row.

(** *** debt.go *)

Record positiveCreditAllocation := {
  pc_gross : Z;
  pc_debtRepaid : Z;
  pc_net : Z;
  pc_availableAfter : Z }.

Definition no_credit : positiveCreditAllocation :=
  {| pc_gross := 0; pc_debtRepaid := 0; pc_net := 0; pc_availableAfter := 0 |}.

Definition with_amount (amount : Z) (x : organizationResourceDebtRow) : organizationResourceDebtRow :=
  {| db_OrganizationID := db_OrganizationID x; db_ResourceType := db_ResourceType x;
     db_Amount := amount |}.

Definition applyPositiveCredit (org resource : string) (gross availableBefore : Z)
    : ST W positiveCreditAllocation :=
  CreateIgnore debts
    {| db_OrganizationID := org; db_ResourceType := resource; db_Amount := 0 |};;
  debt ← take_pk debts (org, resource); debt ← found ErrRecordNotFound debt;
  let debtRepaid := Z.min (db_Amount debt) gross in
  let net := gross -! debtRepaid in
  let availableAfter := availableBefore +! net in
  guard_not (availableAfter <? availableBefore) ErrInvalidInput;;
  updated ← UpdateWhere debts (org, resource) (λ _, true)
    (with_amount (db_Amount debt -! debtRepaid));
  guard_not (negb updated) ErrInternal;;
  mret {| pc_gross := gross; pc_debtRepaid := debtRepaid; pc_net := net;
          pc_availableAfter := availableAfter |}.

(** The rows of a grant: operation, claim of the source, balance, event, audit. *)
Definition persistGrant (operation : organizationResourceOperationRow)
    (claim : organizationResourceSourceClaimRow) (availableAfter : Z) (now : Time)
    (event : organizationResourceEventRow) (actor : string) (payload : resourceResult) : ST W unit :=
  Create operations operation;;
  Create source_claims claim;;
  Update buckets (ev_OrganizationID event, ev_ResourceType event)
    (with_available availableAfter now);;
  Create events event;;
  CreateAuditLog (op_OrganizationID operation) (op_OperationID operation)
    (op_OperationType operation) actor (op_ApprovalEvidenceID operation) payload.

(** ** The welcome grant *)

Notation WelcomeGrantResult := (WelcomeGrantSnapshot * bool)%type.

Definition resultFromOperation (row : organizationResourceOperationRow)
    : ST W WelcomeGrantResult :=
  guard_not (op_State row ≠s "succeeded") ErrInternal;;
  match op_ImmutableResult row with
  | WelcomeResult snapshot => mret (snapshot, true)
  | _ => fail ErrInternal
  end.

Definition lookupOperation (org operation fingerprint : string)
    : ST W (option WelcomeGrantResult) :=
  row ← take_pk operations (org, operation);
  match row with
  | None => mret None
  | Some row =>
    guard_not (op_RequestFingerprint row ≠s fingerprint) ErrIdempotencyKeyConflict;;
    r ← resultFromOperation row; mret (Some r)
  end.

Definition lookupSource (i : WelcomeGrantExecution) : ST W (option WelcomeGrantResult) :=
  claim ← take_pk source_claims (wx_SourceType i, wx_SourceIdentity i);
  match claim with
  | None => mret None
  | Some claim =>
    guard_not ((sc_OrganizationID claim ≠s wx_OrganizationID i)
      || (sc_RequestFingerprint claim ≠s wx_RequestFingerprint i)) ErrIdempotencyKeyConflict;;
    r ← lookupOperation (sc_OrganizationID claim) (sc_OperationID claim)
      (sc_RequestFingerprint claim);
    match r with
    | None => fail ErrInternal
    | Some (snapshot, _) => mret (Some (snapshot, true))
    end
  end.

Definition ReplayWelcomeGrant (i : WelcomeGrantExecution) : ST W (option WelcomeGrantResult) :=
  r ← lookupOperation (wx_OrganizationID i) (wx_OperationID i) (wx_RequestFingerprint i);
  match r with Some r => mret (Some r) | None => lookupSource i end.

(** The event of the grant leaves [AllocatedAfter] at zero. *)
Definition welcome_event (i : WelcomeGrantExecution) (bucket : organizationResourceBucketRow)
    (credit : positiveCreditAllocation) (eventID : string) : organizationResourceEventRow :=
  {| ev_EventID := eventID; ev_OrganizationID := wx_OrganizationID i;
     ev_OperationID := wx_OperationID i; ev_ReservationID := None;
     ev_ResourceType := wx_ResourceType i; ev_Quantity := wx_Quantity i;
     ev_AvailableDelta := pc_net credit; ev_AllocatedDelta := 0; ev_ReservedDelta := 0;
     ev_ConsumedDelta := 0; ev_Reason := wx_SourceType i; ev_SourceType := wx_SourceType i;
     ev_SourceIdentity := wx_SourceIdentity i; ev_BalanceAfter := pc_availableAfter credit;
     ev_AvailableAfter := pc_availableAfter credit; ev_AllocatedAfter := 0;
     ev_ReservedAfter := b_Reserved bucket; ev_ConsumedAfter := b_Consumed bucket;
     ev_GrossCredit := pc_gross credit; ev_DebtRepaid := pc_debtRepaid credit;
     ev_NetCredit := pc_net credit |}.

Definition mintWelcome (i : WelcomeGrantExecution) (bucket : organizationResourceBucketRow)
    : ST W WelcomeGrantResult :=
  now ← Now;
  credit ← applyPositiveCredit (wx_OrganizationID i) (wx_ResourceType i) (wx_Quantity i)
    (b_Available bucket);
  eventID ← NewString;
  let snapshot := {| wn_OperationID := wx_OperationID i; wn_OrganizationID := wx_OrganizationID i;
    wn_ResourceType := wx_ResourceType i; wn_Quantity := FormatInt (wx_Quantity i);
    wn_BalanceAfter := FormatInt (pc_availableAfter credit); wn_SourceType := wx_SourceType i;
    wn_SourceIdentity := wx_SourceIdentity i; wn_EventID := eventID |} in
  persistGrant
    {| op_OrganizationID := wx_OrganizationID i; op_OperationID := wx_OperationID i;
       op_OperationType := wx_OperationType i; op_RequestFingerprint := wx_RequestFingerprint i;
       op_State := "succeeded"; op_FailureCode := ""; op_ImmutableResult := WelcomeResult snapshot;
       op_ApprovalEvidenceID := wx_ApprovalEvidenceID i; op_CompletedAt := Some now |}
    {| sc_SourceType := wx_SourceType i; sc_SourceIdentity := wx_SourceIdentity i;
       sc_ResourceType := wx_ResourceType i; sc_OrganizationID := wx_OrganizationID i;
       sc_OperationID := wx_OperationID i; sc_RequestFingerprint := wx_RequestFingerprint i |}
    (pc_availableAfter credit) now (welcome_event i bucket credit eventID) (wx_ActorID i)
    (WelcomeAudit (wx_ResourceType i) (FormatInt (wx_Quantity i))
      (FormatInt (pc_availableAfter credit)) (wx_SourceType i) (wx_SourceIdentity i));;
  mret (snapshot, false).

Definition ExecuteWelcomeGrant (i : WelcomeGrantExecution) : ST W WelcomeGrantResult :=
  or_else (ReplayWelcomeGrant i)
    (or_replay (r ← ReplayWelcomeGrant i; mret ((λ r, (r.1, true)) <$> r)) (Transaction (
      or_else (lookupOperation (wx_OrganizationID i) (wx_OperationID i) (wx_RequestFingerprint i)) (
      or_else (lookupSource i) (
      bucket ← lockBucket (wx_OrganizationID i) (wx_ResourceType i);
      or_else (lookupSource i) (mintWelcome i bucket)))))).

(** The execution the service makes of the request. *)
Definition welcome_execution (org operation actor : string) : WelcomeGrantExecution :=
  let x fp := {| wx_OrganizationID := org; wx_OperationID := operation;
    wx_OperationType := OperationGrantWelcomeStoreRenewalPeriod;
    wx_ResourceType := ResourceStoreRenewalPeriod; wx_Quantity := 1;
    wx_SourceType := SourceOnboardingWelcomeStorePeriod; wx_SourceIdentity := org;
    wx_ApprovalEvidenceID := ""; wx_ApprovedAt := zero_time; wx_ActorID := actor;
    wx_RequestFingerprint := fp |}%string in
  x (fingerprintWelcomeGrant (x ""%string)).

Definition with_approval (evidence : string) (at_ : Time) (i : WelcomeGrantExecution) :=
  {| wx_OrganizationID := wx_OrganizationID i; wx_OperationID := wx_OperationID i;
     wx_OperationType := wx_OperationType i; wx_ResourceType := wx_ResourceType i;
     wx_Quantity := wx_Quantity i; wx_SourceType := wx_SourceType i;
     wx_SourceIdentity := wx_SourceIdentity i; wx_ApprovalEvidenceID := evidence;
     wx_ApprovedAt := at_; wx_ActorID := wx_ActorID i;
     wx_RequestFingerprint := wx_RequestFingerprint i |}.

Definition GrantWelcomeStoreRenewalPeriod (i : GrantWelcomeStoreRenewalPeriodInput)
    : ST W WelcomeGrantResult :=
  guard_not (blank (pr_ID (wi_Principal i))) ErrForbidden;;
  guard_not (negb (nil_error (AuthorizeWelcomeGrant (wi_Principal i)))) ErrForbidden;;
  let org := TrimSpace (wi_OrganizationID i) in
  let operation := TrimSpace (wi_OperationID i) in
  guard_not (too_long_or_empty [(org, 128); (operation, 128)]) ErrInvalidInput;;
  let x := welcome_execution org operation (TrimSpace (pr_ID (wi_Principal i))) in
  replayed ← ReplayWelcomeGrant x;
  match replayed with
  | Some (snapshot, _) => mret (snapshot, true)
  | None =>
    approval ← lift (VerifyWelcomeGrantEligibility org);
    let evidence := TrimSpace (wa_EvidenceID approval) in
    guard_not ((TrimSpace (wa_OrganizationID approval) ≠s org)
      || too_long_or_empty [(evidence, 192)]) ErrWelcomeGrantNotApproved;;
    ExecuteWelcomeGrant (with_approval evidence (wa_ApprovedAt approval) x)
  end.

(** ** Purchased grants *)

Notation PurchasedGrantResult := (PurchasedResourceGrantSnapshot * bool)%type.

Definition purchasedGrantResultFromOperation (org operation fingerprint : string)
    : ST W (option PurchasedGrantResult) :=
  row ← take_pk operations (org, operation);
  match row with
  | None => mret None
  | Some row =>
    guard_not (op_RequestFingerprint row ≠s fingerprint) ErrIdempotencyKeyConflict;;
    guard_not (op_State row ≠s "succeeded") ErrConcurrencyRetry;;
    match op_ImmutableResult row with
    | NoResult => fail ErrConcurrencyRetry
    | PurchasedResult snapshot => mret (Some (json_PurchasedResourceGrantSnapshot snapshot, true))
    | _ => fail ErrInternal
    end
  end.

(** The claim of the source is looked up with its resource type. *)
Definition replayPurchasedGrantOnce (i : PurchasedResourceGrantExecution)
    : ST W (option PurchasedGrantResult) :=
  row ← take_pk operations (px_OrganizationID i, px_OperationID i);
  match row with
  | None =>
    claim ← take_pk_and source_claims (px_SourceType i, px_SourceIdentity i)
      (λ c, sc_ResourceType c =s px_ResourceType i);
    match claim with
    | None => mret None
    | Some claim =>
      guard_not ((sc_OrganizationID claim ≠s px_OrganizationID i)
        || (sc_RequestFingerprint claim ≠s px_RequestFingerprint i)) ErrIdempotencyKeyConflict;;
      purchasedGrantResultFromOperation (sc_OrganizationID claim) (sc_OperationID claim)
        (px_RequestFingerprint i)
    end
  | Some row =>
    guard_not ((op_RequestFingerprint row ≠s px_RequestFingerprint i)
      || (op_OperationType row ≠s OperationGrantCommercialPurchase)) ErrIdempotencyKeyConflict;;
    purchasedGrantResultFromOperation (op_OrganizationID row) (op_OperationID row)
      (px_RequestFingerprint i)
  end.

Definition ReplayPurchasedResourceGrant : PurchasedResourceGrantExecution →
    ST W (option PurchasedGrantResult) := replayPurchasedGrantOnce.

Definition purchase_event (i : PurchasedResourceGrantExecution)
    (bucket : organizationResourceBucketRow) (credit : positiveCreditAllocation)
    (eventID : string) : organizationResourceEventRow :=
  {| ev_EventID := eventID; ev_OrganizationID := px_OrganizationID i;
     ev_OperationID := px_OperationID i; ev_ReservationID := None;
     ev_ResourceType := px_ResourceType i; ev_Quantity := px_Quantity i;
     ev_AvailableDelta := pc_net credit; ev_AllocatedDelta := 0; ev_ReservedDelta := 0;
     ev_ConsumedDelta := 0; ev_Reason := px_OperationType i; ev_SourceType := px_SourceType i;
     ev_SourceIdentity := px_SourceIdentity i; ev_BalanceAfter := pc_availableAfter credit;
     ev_AvailableAfter := pc_availableAfter credit; ev_AllocatedAfter := b_Allocated bucket;
     ev_ReservedAfter := b_Reserved bucket; ev_ConsumedAfter := b_Consumed bucket;
     ev_GrossCredit := pc_gross credit; ev_DebtRepaid := pc_debtRepaid credit;
     ev_NetCredit := pc_net credit |}.

Definition mintPurchase (i : PurchasedResourceGrantExecution)
    (bucket : organizationResourceBucketRow) : ST W PurchasedGrantResult :=
  _ ← Now;
  credit ← applyPositiveCredit (px_OrganizationID i) (px_ResourceType i) (px_Quantity i)
    (b_Available bucket);
  now ← Now;
  eventID ← NewString;
  let snapshot := {| pn_OperationID := px_OperationID i; pn_OrganizationID := px_OrganizationID i;
    pn_CommercialOrderID := px_CommercialOrderID i;
    pn_CommercialOrderItemID := px_CommercialOrderItemID i; pn_ResourceType := px_ResourceType i;
    pn_Quantity := FormatInt (px_Quantity i);
    pn_BalanceAfter := FormatInt (pc_availableAfter credit); pn_SourceType := px_SourceType i;
    pn_SourceIdentity := px_SourceIdentity i; pn_EventID := eventID |} in
  persistGrant
    {| op_OrganizationID := px_OrganizationID i; op_OperationID := px_OperationID i;
       op_OperationType := px_OperationType i; op_RequestFingerprint := px_RequestFingerprint i;
       op_State := "succeeded"; op_FailureCode := ""; op_ImmutableResult := PurchasedResult snapshot;
       op_ApprovalEvidenceID := ""; op_CompletedAt := Some now |}
    {| sc_SourceType := px_SourceType i; sc_SourceIdentity := px_SourceIdentity i;
       sc_ResourceType := px_ResourceType i; sc_OrganizationID := px_OrganizationID i;
       sc_OperationID := px_OperationID i; sc_RequestFingerprint := px_RequestFingerprint i |}
    (pc_availableAfter credit) now (purchase_event i bucket credit eventID) (px_ActorID i)
    (PurchasedResult snapshot);;
  mret (snapshot, false).

Definition ExecutePurchasedResourceGrant (i : PurchasedResourceGrantExecution)
    : ST W PurchasedGrantResult :=
  or_else (ReplayPurchasedResourceGrant i)
    (or_replay (r ← ReplayPurchasedResourceGrant i; mret ((λ r, (r.1, true)) <$> r)) (Transaction (
      or_else (replayPurchasedGrantOnce i) (
      bucket ← lockBucket (px_OrganizationID i) (px_ResourceType i);
      or_else (replayPurchasedGrantOnce i) (mintPurchase i bucket))))).

Definition purchase_execution (i : PurchasedResourceGrantInput) : PurchasedResourceGrantExecution :=
  let x fp := {| px_OrganizationID := pg_OrganizationID i; px_OperationID := pg_OperationID i;
    px_OperationType := OperationGrantCommercialPurchase;
    px_CommercialOrderID := pg_CommercialOrderID i;
    px_CommercialOrderItemID := pg_CommercialOrderItemID i; px_ResourceType := pg_ResourceType i;
    px_Quantity := pg_Quantity i; px_SourceType := SourceCommercialOrderItem;
    px_SourceIdentity := CommercialOrderItemSourceIdentity (pg_OrganizationID i)
      (pg_CommercialOrderID i) (pg_CommercialOrderItemID i);
    px_ActorID := pr_ID (pg_Principal i); px_RequestFingerprint := fp |} in
  x (fingerprintPurchasedResourceGrant (x ""%string)).

(** Authority gates a replay; the mutable quantity policy does not. *)
Definition GrantPurchasedResource (i : PurchasedResourceGrantInput) : ST W PurchasedGrantResult :=
  let i := normalizePurchasedGrantInput i in
  check (validatePurchasedGrantIdentity i);;
  maximum ← or_error ErrForbidden (lift (AuthorizePurchasedGrant (pg_Principal i) (pg_ResourceType i)));
  let x := purchase_execution i in
  replayed ← ReplayPurchasedResourceGrant x;
  match replayed with
  | Some (snapshot, _) => mret (snapshot, true)
  | None =>
    guard_not ((maximum <=? 0) || (pg_Quantity i >? maximum)) ErrInvalidInput;;
    ExecutePurchasedResourceGrant x
  end.

(** ** The trial grant *)

Notation TrialGrantResult := (TrialAIGrantSnapshot * bool)%type.

Definition trial_result (i : TrialAIGrantExecution) (row : organizationResourceOperationRow)
    : ST W (option TrialGrantResult) :=
  guard_not ((op_OperationType row ≠s OperationGrantLocalAITrial)
    || (op_RequestFingerprint row ≠s tx_RequestFingerprint i)
    || (op_ApprovalEvidenceID row ≠s tx_ApprovalEvidenceID i)) ErrIdempotencyKeyConflict;;
  guard_not (op_State row ≠s "succeeded") ErrConcurrencyRetry;;
  match op_ImmutableResult row with
  | NoResult => fail ErrConcurrencyRetry
  | TrialResult s =>
    guard_not ((tn_OrganizationID s ≠s tx_OrganizationID i)
      || (tn_OperationID s ≠s op_OperationID row) || (tn_ResourceType s ≠s ResourceAIPoint)
      || (tn_Quantity s ≠s "10000") || (tn_SourceType s ≠s SourceLocalAITrial)
      || (tn_SourceIdentity s ≠s tx_SourceIdentity i)
      || (tn_ApprovalEvidenceID s ≠s tx_ApprovalEvidenceID i) || (tn_EventID s =s "")) ErrInternal;;
    mret (Some (s, true))
  | _ => fail ErrInternal
  end.

Definition replayTrialAIGrantOnce (i : TrialAIGrantExecution) : ST W (option TrialGrantResult) :=
  row ← take_pk operations (tx_OrganizationID i, tx_OperationID i);
  match row with
  | Some row => trial_result i row
  | None =>
    claim ← take_pk source_claims (SourceLocalAITrial, tx_SourceIdentity i);
    match claim with
    | None => mret None
    | Some claim =>
      guard_not ((sc_OrganizationID claim ≠s tx_OrganizationID i)
        || (sc_ResourceType claim ≠s ResourceAIPoint)
        || (sc_RequestFingerprint claim ≠s tx_RequestFingerprint i)) ErrIdempotencyKeyConflict;;
      row ← take_pk operations (sc_OrganizationID claim, sc_OperationID claim);
      row ← found ErrRecordNotFound row;
      trial_result i row
    end
  end.

Definition ReplayTrialAIGrant (i : TrialAIGrantExecution) : ST W (option TrialGrantResult) :=
  check (TrialAIGrantExecution_Validate i);;
  replayTrialAIGrantOnce i.

Definition trial_event (i : TrialAIGrantExecution) (bucket : organizationResourceBucketRow)
    (credit : positiveCreditAllocation) (eventID : string) : organizationResourceEventRow :=
  {| ev_EventID := eventID; ev_OrganizationID := tx_OrganizationID i;
     ev_OperationID := tx_OperationID i; ev_ReservationID := None;
     ev_ResourceType := ResourceAIPoint; ev_Quantity := TrialAIGrantQuantity;
     ev_AvailableDelta := pc_net credit; ev_AllocatedDelta := 0; ev_ReservedDelta := 0;
     ev_ConsumedDelta := 0; ev_Reason := OperationGrantLocalAITrial;
     ev_SourceType := SourceLocalAITrial; ev_SourceIdentity := tx_SourceIdentity i;
     ev_BalanceAfter := pc_availableAfter credit; ev_AvailableAfter := pc_availableAfter credit;
     ev_AllocatedAfter := b_Allocated bucket; ev_ReservedAfter := b_Reserved bucket;
     ev_ConsumedAfter := b_Consumed bucket; ev_GrossCredit := pc_gross credit;
     ev_DebtRepaid := pc_debtRepaid credit; ev_NetCredit := pc_net credit |}.

Definition trial_snapshot (i : TrialAIGrantExecution) (bucket : organizationResourceBucketRow)
    (credit : positiveCreditAllocation) (eventID : string) : TrialAIGrantSnapshot :=
  {| tn_OperationID := tx_OperationID i; tn_OrganizationID := tx_OrganizationID i;
     tn_ResourceType := ResourceAIPoint; tn_Quantity := "10000";
     tn_GrossCredit := FormatInt (pc_gross credit); tn_DebtRepaid := FormatInt (pc_debtRepaid credit);
     tn_NetCredit := FormatInt (pc_net credit); tn_BalanceAfter := FormatInt (pc_availableAfter credit);
     tn_AllocatedAfter := FormatInt (b_Allocated bucket);
     tn_ReservedAfter := FormatInt (b_Reserved bucket);
     tn_ConsumedAfter := FormatInt (b_Consumed bucket); tn_SourceType := SourceLocalAITrial;
     tn_SourceIdentity := tx_SourceIdentity i; tn_ApprovalEvidenceID := tx_ApprovalEvidenceID i;
     tn_ActorID := tx_ActorID i; tn_EventID := eventID |}.

Definition mintTrial (i : TrialAIGrantExecution) (bucket : organizationResourceBucketRow)
    : ST W TrialGrantResult :=
  now ← Now;
  credit ← applyPositiveCredit (tx_OrganizationID i) ResourceAIPoint TrialAIGrantQuantity
    (b_Available bucket);
  eventID ← NewString;
  let snapshot := trial_snapshot i bucket credit eventID in
  persistGrant
    {| op_OrganizationID := tx_OrganizationID i; op_OperationID := tx_OperationID i;
       op_OperationType := OperationGrantLocalAITrial;
       op_RequestFingerprint := tx_RequestFingerprint i; op_State := "succeeded";
       op_FailureCode := "";
       op_ImmutableResult := TrialResult snapshot;
       op_ApprovalEvidenceID := tx_ApprovalEvidenceID i; op_CompletedAt := Some now |}
    {| sc_SourceType := SourceLocalAITrial; sc_SourceIdentity := tx_SourceIdentity i;
       sc_ResourceType := ResourceAIPoint; sc_OrganizationID := tx_OrganizationID i;
       sc_OperationID := tx_OperationID i; sc_RequestFingerprint := tx_RequestFingerprint i |}
    (pc_availableAfter credit) now (trial_event i bucket credit eventID) (tx_ActorID i)
    (TrialResult snapshot);;
  mret (snapshot, false).

Definition executeTrialAIGrantTransaction (i : TrialAIGrantExecution) : ST W TrialGrantResult :=
  or_else (replayTrialAIGrantOnce i) (
  bucket ← lockBucket (tx_OrganizationID i) ResourceAIPoint;
  or_else (replayTrialAIGrantOnce i) (mintTrial i bucket)).

Definition ExecuteTrialAIGrant (i : TrialAIGrantExecution) : ST W TrialGrantResult :=
  or_else (ReplayTrialAIGrant i)
    (or_replay (ReplayTrialAIGrant i) (Transaction (executeTrialAIGrantTransaction i))).

Definition trial_execution (i : TrialAIGrantInput) (evidence : string) : TrialAIGrantExecution :=
  let x fp := {| tx_OrganizationID := ti_OrganizationID i; tx_OperationID := ti_OperationID i;
    tx_ActorID := pr_ID (ti_Principal i); tx_ApprovalEvidenceID := evidence;
    tx_SourceIdentity := TrialAIGrantSourceIdentity (ti_OrganizationID i);
    tx_RequestFingerprint := fp |} in
  x (trialAIGrantFingerprint (x ""%string)).

(** [prepare]. *)
Definition prepareTrial (i : TrialAIGrantInput) (grant : bool) : ST W TrialAIGrantExecution :=
  check (TrialAIGrantInput_Validate i);;
  approval ← or_error ErrForbidden (lift (AuthorizeTrialAIGrant (ti_Principal i) (ti_OrganizationID i)));
  guard_not ((ta_OrganizationID approval ≠s ti_OrganizationID i)
    || (ta_OperatorID approval ≠s pr_ID (ti_Principal i))
    || negb (validTrialID (ta_EvidenceID approval) 192)
    || (grant && negb (ta_GrantEnabled approval))) ErrForbidden;;
  mret (trial_execution i (ta_EvidenceID approval)).

(** [Inspect] and [Grant] of [TrialAIGrantService]. *)
Definition InspectTrial (i : TrialAIGrantInput) : ST W (option TrialGrantResult) :=
  x ← prepareTrial i false; ReplayTrialAIGrant x.

Definition GrantTrial (i : TrialAIGrantInput) : ST W TrialGrantResult :=
  x ← prepareTrial i true;
  or_else (ReplayTrialAIGrant x) (ExecuteTrialAIGrant x).

(** ** Reservations *)

Notation ReservationResultT := (ReservationSnapshot * bool)%type.

(** UPDATE of the owners' tables by an owner adapter. *)
Definition on_owners (f : O → result O) : ST W unit := λ w,
  match f (rd_owners (the_db w)) with
  | Ok o => (Ok tt, set_db (put_owners o) w)
  | Err e => (Err e, w)
  end.
Definition ask_owners {A} (f : O → result A) : ST W A := λ w, (f (rd_owners (the_db w)), w).

Definition reservationResultFromOperation (row : organizationResourceOperationRow)
    : ST W ReservationResultT :=
  guard_not (op_State row ≠s "succeeded") ErrInternal;;
  match op_ImmutableResult row with
  | ReservationResult snapshot => mret (snapshot, true)
  | _ => fail ErrInternal
  end.

Definition lookupReserveOperation (org operation fingerprint : string)
    : ST W (option ReservationResultT) :=
  row ← take_pk operations (org, operation);
  match row with
  | None => mret None
  | Some row =>
    guard_not ((op_RequestFingerprint row ≠s fingerprint)
      || (op_OperationType row ≠s OperationReserve)) ErrIdempotencyKeyConflict;;
    r ← reservationResultFromOperation row; mret (Some r)
  end.

Definition lookupReservationIdentity (i : ReservationExecution) : ST W (option ReservationResultT) :=
  row ← take resource_reservations (λ r, (rr_OrganizationID r =s ex_OrganizationID i)
    && (rr_OwnerType r =s ex_OwnerType i) && (rr_OwnerAttemptID r =s ex_OwnerAttemptID i)
    && (rr_ResourceType r =s ex_ResourceType i)
    && (rr_ReservationPurpose r =s ex_ReservationPurpose i));
  match row with
  | None => mret None
  | Some row =>
    guard_not ((rr_RequestFingerprint row ≠s ex_RequestFingerprint i)
      || (rr_BusinessScope row ≠s ex_BusinessScope i)
      || negb (rr_Quantity row =? ex_Quantity i)) ErrIdempotencyKeyConflict;;
    operation ← take_pk operations (rr_OrganizationID row, rr_OperationID row);
    operation ← found ErrRecordNotFound operation;
    r ← reservationResultFromOperation operation; mret (Some r)
  end.

Definition ReplayReservation (i : ReservationExecution) : ST W (option ReservationResultT) :=
  r ← lookupReserveOperation (ex_OrganizationID i) (ex_OperationID i) (ex_RequestFingerprint i);
  match r with Some r => mret (Some r) | None => lookupReservationIdentity i end.

Definition lookupBoundReservation (owner : OwnerAttemptSnapshot) (i : ReservationExecution)
    : ST W ReservationResultT :=
  row ← take_pk resource_reservations (os_OrganizationID owner, os_ReservationID owner);
  row ← found ErrRecordNotFound row;
  guard_not ((rr_OwnerType row ≠s ex_OwnerType i) || (rr_OwnerAttemptID row ≠s ex_OwnerAttemptID i)
    || (rr_BusinessScope row ≠s ex_BusinessScope i) || (rr_ResourceType row ≠s ex_ResourceType i)
    || (rr_ReservationPurpose row ≠s ex_ReservationPurpose i)
    || negb (rr_Quantity row =? ex_Quantity i)
    || (rr_RequestFingerprint row ≠s ex_RequestFingerprint i)
    || (os_ResourceType owner ≠s ex_ResourceType i)
    || (os_ReservationPurpose owner ≠s ex_ReservationPurpose i)) ErrIdempotencyKeyConflict;;
  operation ← take_pk operations (rr_OrganizationID row, rr_OperationID row);
  operation ← found ErrRecordNotFound operation;
  reservationResultFromOperation operation.

Definition validateLockedOwner (i : ReservationExecution) (owner : OwnerAttemptSnapshot) : error :=
  if (os_OrganizationID owner ≠s ex_OrganizationID i) || (os_OwnerType owner ≠s ex_OwnerType i)
     || (os_OwnerAttemptID owner ≠s ex_OwnerAttemptID i)
     || (os_BusinessScope owner ≠s ex_BusinessScope i)
  then Some ErrOwnerScopeMismatch else None.

Definition ownerMatchesBinding (owner : OwnerAttemptSnapshot) (b : OwnerReservationBinding) : bool :=
  (os_OrganizationID owner =s ob_OrganizationID b) && (os_OwnerType owner =s ob_OwnerType b)
  && (os_OwnerAttemptID owner =s ob_OwnerAttemptID b)
  && (os_ReservationID owner =s ob_ReservationID b)
  && (os_ResourceType owner =s ob_ResourceType b)
  && (os_ReservationPurpose owner =s ob_ReservationPurpose b).

Definition owner_identity (i : ReservationExecution) : OwnerAttemptIdentity :=
  {| oi_OrganizationID := ex_OrganizationID i; oi_OwnerType := ex_OwnerType i;
     oi_OwnerAttemptID := ex_OwnerAttemptID i |}.

Definition reservation_row (i : ReservationExecution) (reservationID : string) (created : Time)
    : organizationResourceReservationRow :=
  {| rr_ChargeBalanceAfter := 0; rr_ChargeProtocol := ""; rr_ChargeActorID := "";
     rr_ChargeFunding := ""; rr_ChargeEvidenceID := ""; rr_NextCheckAt := None; rr_MemberID := "";
     rr_MemberMonthStart := None; rr_MemberLimitVersion := 0; rr_PriceVersion := "";
     rr_OrganizationID := ex_OrganizationID i; rr_ReservationID := reservationID;
     rr_OperationID := ex_OperationID i; rr_SettlementOperationID := None;
     rr_OwnerType := ex_OwnerType i; rr_OwnerAttemptID := ex_OwnerAttemptID i;
     rr_BusinessScope := ex_BusinessScope i; rr_ResourceType := ex_ResourceType i;
     rr_ReservationPurpose := ex_ReservationPurpose i; rr_Quantity := ex_Quantity i;
     rr_State := ReservationReserved; rr_RequestFingerprint := ex_RequestFingerprint i;
     rr_CreatedAt := created; rr_SettledAt := None |}%string.

Definition reservation_binding (i : ReservationExecution) (reservationID : string)
    : OwnerReservationBinding :=
  {| ob_OrganizationID := ex_OrganizationID i; ob_OwnerType := ex_OwnerType i;
     ob_OwnerAttemptID := ex_OwnerAttemptID i; ob_ReservationID := reservationID;
     ob_ResourceType := ex_ResourceType i; ob_ReservationPurpose := ex_ReservationPurpose i |}.

(** The event leaves [AllocatedAfter] at zero. *)
Definition reservation_event (i : ReservationExecution) (bucket : organizationResourceBucketRow)
    (reservationID eventID : string) (availableAfter reservedAfter : Z)
    : organizationResourceEventRow :=
  {| ev_EventID := eventID; ev_OrganizationID := ex_OrganizationID i;
     ev_OperationID := ex_OperationID i; ev_ReservationID := Some reservationID;
     ev_ResourceType := ex_ResourceType i; ev_Quantity := ex_Quantity i;
     ev_AvailableDelta := -! ex_Quantity i; ev_AllocatedDelta := 0;
     ev_ReservedDelta := ex_Quantity i; ev_ConsumedDelta := 0; ev_Reason := OperationReserve;
     ev_SourceType := ex_OwnerType i; ev_SourceIdentity := ex_OwnerAttemptID i;
     ev_BalanceAfter := availableAfter; ev_AvailableAfter := availableAfter;
     ev_AllocatedAfter := 0; ev_ReservedAfter := reservedAfter;
     ev_ConsumedAfter := b_Consumed bucket; ev_GrossCredit := 0; ev_DebtRepaid := 0;
     ev_NetCredit := 0 |}.

(** The reservation of a locked, unbound owner attempt. *)
Definition placeReservation (i : ReservationExecution) (bucket : organizationResourceBucketRow)
    : ST W ReservationResultT :=
  now ← Now;
  reservationID ← NewString;
  eventID ← NewString;
  let availableAfter := b_Available bucket -! ex_Quantity i in
  let reservedAfter := b_Reserved bucket +! ex_Quantity i in
  guard_not (reservedAfter <? b_Reserved bucket) ErrInvalidInput;;
  let snapshot := {| en_OperationID := ex_OperationID i; en_ReservationID := reservationID;
    en_OrganizationID := ex_OrganizationID i; en_OwnerType := ex_OwnerType i;
    en_OwnerAttemptID := ex_OwnerAttemptID i; en_BusinessScope := ex_BusinessScope i;
    en_ResourceType := ex_ResourceType i; en_Quantity := FormatInt (ex_Quantity i);
    en_ReservationPurpose := ex_ReservationPurpose i; en_State := ReservationReserved;
    en_AvailableAfter := FormatInt availableAfter; en_ReservedAfter := FormatInt reservedAfter;
    en_ConsumedAfter := FormatInt (b_Consumed bucket); en_EventID := eventID |} in
  Create operations {| op_OrganizationID := ex_OrganizationID i; op_OperationID := ex_OperationID i;
    op_OperationType := ex_OperationType i; op_RequestFingerprint := ex_RequestFingerprint i;
    op_State := "succeeded"; op_FailureCode := ""; op_ImmutableResult := ReservationResult snapshot;
    op_ApprovalEvidenceID := ""; op_CompletedAt := Some now |};;
  created ← Now;
  Create resource_reservations (reservation_row i reservationID created);;
  let binding := reservation_binding i reservationID in
  on_owners (BindReservation binding);;
  bound ← ask_owners (LockOwnerAttempt (owner_identity i));
  guard_not (negb (ownerMatchesBinding bound binding)) ErrInternal;;
  updated ← UpdateWhere buckets (ex_OrganizationID i, ex_ResourceType i)
    (λ b, b_Available b >=? ex_Quantity i)
    (λ b, with_balances availableAfter (b_Allocated b) reservedAfter (b_Consumed b) now b);
  guard_not (negb updated) ErrInsufficientBalance;;
  Create events (reservation_event i bucket reservationID eventID availableAfter reservedAfter);;
  CreateAuditLog (ex_OrganizationID i) (ex_OperationID i) OperationReserve (ex_ActorID i) ""
    (ReservationResult snapshot);;
  mret (snapshot, false).

Definition reserveTransaction (i : ReservationExecution) : ST W ReservationResultT :=
  or_else (lookupReserveOperation (ex_OrganizationID i) (ex_OperationID i)
    (ex_RequestFingerprint i)) (
  or_else (lookupReservationIdentity i) (
  owner ← ask_owners (λ o, match LockOwnerAttempt (owner_identity i) o with
    | Err ErrRecordNotFound => Err ErrOwnerScopeMismatch | r => r end);
  check (validateLockedOwner i owner);;
  or_else (lookupReservationIdentity i) (
  if os_ReservationID owner ≠s "" then lookupBoundReservation owner i
  else
    guard_not (os_State owner ≠s OwnerAttemptNotStarted) ErrOwnerNotReservable;;
    bucket ← take_pk buckets (ex_OrganizationID i, ex_ResourceType i);
    bucket ← found ErrInsufficientBalance bucket;
    guard_not (b_Available bucket <? ex_Quantity i) ErrInsufficientBalance;;
    placeReservation i bucket))).

Definition ExecuteReservation (i : ReservationExecution) : ST W ReservationResultT :=
  guard_not (negb (owner_registered (ex_OwnerType i))) ErrReservationOwnerNotRegistered;;
  or_else (ReplayReservation i)
    (or_replay (r ← ReplayReservation i; mret ((λ r, (r.1, true)) <$> r))
      (Transaction (reserveTransaction i))).

Definition reservation_execution (i : ReserveInput) : ReservationExecution :=
  let x fp := {| ex_OrganizationID := ei_OrganizationID i; ex_OperationID := ei_OperationID i;
    ex_OperationType := OperationReserve; ex_OwnerType := ei_OwnerType i;
    ex_OwnerAttemptID := ei_OwnerAttemptID i; ex_BusinessScope := ei_BusinessScope i;
    ex_ResourceType := ei_ResourceType i; ex_Quantity := ei_Quantity i;
    ex_ReservationPurpose := ei_ReservationPurpose i; ex_ActorID := pr_ID (ei_Principal i);
    ex_RequestFingerprint := fp |} in
  x (fingerprintReservation (x ""%string)).

Definition Reserve (i : ReserveInput) : ST W ReservationResultT :=
  let i := normalizeReserveInput i in
  check (validateReserveIdentity i);;
  maximum ← or_error ErrForbidden
    (lift (AuthorizeReservation (ei_Principal i) (ei_OwnerType i) (ei_ResourceType i)));
  let x := reservation_execution i in
  replayed ← ReplayReservation x;
  match replayed with
  | Some (snapshot, _) => mret (snapshot, true)
  | None =>
    guard_not ((maximum <=? 0) || (ei_Quantity i >? maximum)) ErrInvalidInput;;
    ExecuteReservation x
  end.

(** ** Settlements *)

Notation SettlementResultT := (SettlementSnapshot * bool)%type.

Definition settlementResultFromOperation (row : organizationResourceOperationRow)
    : ST W SettlementResultT :=
  guard_not (op_State row ≠s "succeeded") ErrInternal;;
  match op_ImmutableResult row with
  | SettlementResult snapshot => mret (snapshot, true)
  | _ => fail ErrInternal
  end.

Definition lookupSettlementOperation (org operation fingerprint : string)
    : ST W (option SettlementResultT) :=
  row ← take_pk operations (org, operation);
  match row with
  | None => mret None
  | Some row =>
    guard_not ((op_OperationType row ≠s OperationSettleReservation)
      || (op_RequestFingerprint row ≠s fingerprint)) ErrIdempotencyKeyConflict;;
    r ← settlementResultFromOperation row; mret (Some r)
  end.

Definition settlementResultFromReservation (reservation : organizationResourceReservationRow)
    (fingerprint : string) : ST W (option SettlementResultT) :=
  match rr_SettlementOperationID reservation with
  | None => mret None
  | Some operation =>
    row ← take_pk operations (rr_OrganizationID reservation, operation);
    row ← found ErrRecordNotFound row;
    guard_not ((op_RequestFingerprint row ≠s fingerprint)
      || (op_OperationType row ≠s OperationSettleReservation)) ErrIdempotencyKeyConflict;;
    r ← settlementResultFromOperation row; mret (Some r)
  end.

Definition ReplaySettlement (i : SettlementExecution) : ST W (option SettlementResultT) :=
  r ← lookupSettlementOperation (lx_OrganizationID i) (lx_OperationID i) (lx_RequestFingerprint i);
  match r with
  | Some r => mret (Some r)
  | None =>
    reservation ← take_pk resource_reservations (lx_OrganizationID i, lx_ReservationID i);
    match reservation with
    | None => mret None
    | Some reservation => settlementResultFromReservation reservation (lx_RequestFingerprint i)
    end
  end.

Definition loadReservation (org reservationID : string) : ST W organizationResourceReservationRow :=
  row ← take_pk resource_reservations (org, reservationID); found ErrReservationNotFound row.

Definition bindingFromReservation (r : organizationResourceReservationRow) : OwnerReservationBinding :=
  {| ob_OrganizationID := rr_OrganizationID r; ob_OwnerType := rr_OwnerType r;
     ob_OwnerAttemptID := rr_OwnerAttemptID r; ob_ReservationID := rr_ReservationID r;
     ob_ResourceType := rr_ResourceType r; ob_ReservationPurpose := rr_ReservationPurpose r |}.

(** The decision is the owner's terminal state, proven for this reservation. *)
Definition validateTerminalProof (r : organizationResourceReservationRow) (proof : OwnerTerminalProof)
    : result string :=
  if (ot_OrganizationID proof ≠s rr_OrganizationID r) || (ot_OwnerType proof ≠s rr_OwnerType r)
     || (ot_OwnerAttemptID proof ≠s rr_OwnerAttemptID r)
     || (ot_BusinessScope proof ≠s rr_BusinessScope r)
     || (ot_ReservationID proof ≠s rr_ReservationID r)
     || (ot_ResourceType proof ≠s rr_ResourceType r)
     || (ot_ReservationPurpose proof ≠s rr_ReservationPurpose r)
  then Err ErrOwnerScopeMismatch
  else
    decision ← (if ot_State proof =s OwnerAttemptSucceededTerminal then Ok SettlementCommit
                else if (ot_State proof =s OwnerAttemptFailedTerminal)
                        || (ot_State proof =s OwnerAttemptCancelledTerminal)
                then Ok SettlementRelease else Err ErrOwnerNotTerminal);
    if blank (ot_EvidenceID proof) || (slen (TrimSpace (ot_EvidenceID proof)) >? 192)
    then Err ErrInvalidOwnerProof else Ok decision.

Definition sameReservationIdentity (l r : organizationResourceReservationRow) : bool :=
  (rr_OrganizationID l =s rr_OrganizationID r) && (rr_ReservationID l =s rr_ReservationID r)
  && (rr_OperationID l =s rr_OperationID r) && (rr_OwnerType l =s rr_OwnerType r)
  && (rr_OwnerAttemptID l =s rr_OwnerAttemptID r) && (rr_BusinessScope l =s rr_BusinessScope r)
  && (rr_ResourceType l =s rr_ResourceType r)
  && (rr_ReservationPurpose l =s rr_ReservationPurpose r) && (rr_Quantity l =? rr_Quantity r)
  && (rr_RequestFingerprint l =s rr_RequestFingerprint r).

Record calculatedSettlement := {
  cs_decision : string;
  cs_availableAfter : Z;
  cs_reservedAfter : Z;
  cs_consumedAfter : Z;
  cs_grossCredit : Z;
  cs_debtRepaid : Z;
  cs_netCredit : Z }.

Definition calculateSettlement (r : organizationResourceReservationRow)
    (bucket : organizationResourceBucketRow) (decision : string) : ST W calculatedSettlement :=
  let reservedAfter := b_Reserved bucket -! rr_Quantity r in
  if decision =s SettlementCommit then
    let consumedAfter := b_Consumed bucket +! rr_Quantity r in
    guard_not (consumedAfter <? b_Consumed bucket) ErrInvalidInput;;
    mret {| cs_decision := decision; cs_availableAfter := b_Available bucket;
      cs_reservedAfter := reservedAfter; cs_consumedAfter := consumedAfter; cs_grossCredit := 0;
      cs_debtRepaid := 0; cs_netCredit := 0 |}
  else
    _ ← Now;
    credit ← applyPositiveCredit (rr_OrganizationID r) (rr_ResourceType r) (rr_Quantity r)
      (b_Available bucket);
    mret {| cs_decision := decision; cs_availableAfter := pc_availableAfter credit;
      cs_reservedAfter := reservedAfter; cs_consumedAfter := b_Consumed bucket;
      cs_grossCredit := pc_gross credit; cs_debtRepaid := pc_debtRepaid credit;
      cs_netCredit := pc_net credit |}.

(** A reservation in another state, or settled. *)
Definition with_state (state : string) (settlement : option string) (settled : option Time)
    (r : organizationResourceReservationRow) : organizationResourceReservationRow :=
  {| rr_ChargeBalanceAfter := rr_ChargeBalanceAfter r; rr_ChargeProtocol := rr_ChargeProtocol r;
     rr_ChargeActorID := rr_ChargeActorID r; rr_ChargeFunding := rr_ChargeFunding r;
     rr_ChargeEvidenceID := rr_ChargeEvidenceID r; rr_NextCheckAt := rr_NextCheckAt r;
     rr_MemberMonthStart := rr_MemberMonthStart r; rr_MemberLimitVersion := rr_MemberLimitVersion r;
     rr_PriceVersion := rr_PriceVersion r;
     rr_MemberID := rr_MemberID r; rr_OrganizationID := rr_OrganizationID r;
     rr_ReservationID := rr_ReservationID r; rr_OperationID := rr_OperationID r;
     rr_SettlementOperationID := settlement; rr_OwnerType := rr_OwnerType r;
     rr_OwnerAttemptID := rr_OwnerAttemptID r; rr_BusinessScope := rr_BusinessScope r;
     rr_ResourceType := rr_ResourceType r; rr_ReservationPurpose := rr_ReservationPurpose r;
     rr_Quantity := rr_Quantity r; rr_State := state;
     rr_RequestFingerprint := rr_RequestFingerprint r; rr_CreatedAt := rr_CreatedAt r;
     rr_SettledAt := settled |}.

(** [state IN ('reserved', 'reconciliation_required')]. *)
Definition open_reservation (r : organizationResourceReservationRow) : bool :=
  (rr_State r =s ReservationReserved) || (rr_State r =s ReservationReconciliationRequired).

(** The event leaves [AllocatedAfter] at zero. *)
Definition settlement_event (i : SettlementExecution) (r : organizationResourceReservationRow)
    (s : calculatedSettlement) (eventID : string) : organizationResourceEventRow :=
  {| ev_EventID := eventID; ev_OrganizationID := rr_OrganizationID r;
     ev_OperationID := lx_OperationID i; ev_ReservationID := Some (rr_ReservationID r);
     ev_ResourceType := rr_ResourceType r; ev_Quantity := rr_Quantity r;
     ev_AvailableDelta := (if cs_decision s =s SettlementCommit then 0 else cs_netCredit s);
     ev_AllocatedDelta := 0; ev_ReservedDelta := -! rr_Quantity r;
     ev_ConsumedDelta := (if cs_decision s =s SettlementCommit then rr_Quantity r else 0);
     ev_Reason := cs_decision s; ev_SourceType := rr_OwnerType r;
     ev_SourceIdentity := rr_OwnerAttemptID r; ev_BalanceAfter := cs_availableAfter s;
     ev_AvailableAfter := cs_availableAfter s; ev_AllocatedAfter := 0;
     ev_ReservedAfter := cs_reservedAfter s; ev_ConsumedAfter := cs_consumedAfter s;
     ev_GrossCredit := cs_grossCredit s; ev_DebtRepaid := cs_debtRepaid s;
     ev_NetCredit := cs_netCredit s |}.

Definition settlement_snapshot (i : SettlementExecution) (r : organizationResourceReservationRow)
    (proof : OwnerTerminalProof) (s : calculatedSettlement) (eventID : string) : SettlementSnapshot :=
  {| ln_OperationID := lx_OperationID i; ln_ReservationID := rr_ReservationID r;
     ln_OrganizationID := rr_OrganizationID r; ln_OwnerType := rr_OwnerType r;
     ln_OwnerAttemptID := rr_OwnerAttemptID r; ln_BusinessScope := rr_BusinessScope r;
     ln_ResourceType := rr_ResourceType r; ln_Quantity := FormatInt (rr_Quantity r);
     ln_ReservationPurpose := rr_ReservationPurpose r; ln_Decision := cs_decision s;
     ln_OwnerTerminalState := ot_State proof; ln_OwnerEvidenceID := ot_EvidenceID proof;
     ln_GrossCredit := FormatInt (cs_grossCredit s); ln_DebtRepaid := FormatInt (cs_debtRepaid s);
     ln_NetCredit := FormatInt (cs_netCredit s);
     ln_AvailableAfter := FormatInt (cs_availableAfter s);
     ln_ReservedAfter := FormatInt (cs_reservedAfter s);
     ln_ConsumedAfter := FormatInt (cs_consumedAfter s); ln_EventID := eventID |}.

Definition persistSettlement (i : SettlementExecution) (r : organizationResourceReservationRow)
    (proof : OwnerTerminalProof) (s : calculatedSettlement) : ST W SettlementResultT :=
  now ← Now;
  eventID ← NewString;
  let snapshot := settlement_snapshot i r proof s eventID in
  Create operations {| op_OrganizationID := lx_OrganizationID i; op_OperationID := lx_OperationID i;
    op_OperationType := lx_OperationType i; op_RequestFingerprint := lx_RequestFingerprint i;
    op_State := "succeeded"; op_FailureCode := ""; op_ImmutableResult := SettlementResult snapshot;
    op_ApprovalEvidenceID := ot_EvidenceID proof; op_CompletedAt := Some now |};;
  let state := if cs_decision s =s SettlementRelease then ReservationReleased
               else ReservationCommitted in
  updated ← UpdateWhere resource_reservations (rr_OrganizationID r, rr_ReservationID r)
    open_reservation (with_state state (Some (lx_OperationID i)) (Some now));
  guard_not (negb updated) ErrIdempotencyKeyConflict;;
  updated ← UpdateWhere buckets (rr_OrganizationID r, rr_ResourceType r)
    (λ b, b_Reserved b >=? rr_Quantity r)
    (λ b, with_balances (cs_availableAfter s) (b_Allocated b) (cs_reservedAfter s)
      (cs_consumedAfter s) now b);
  guard_not (negb updated) ErrInternal;;
  Create events (settlement_event i r s eventID);;
  CreateAuditLog (rr_OrganizationID r) (lx_OperationID i)
    (lx_OperationType i +:+ ":" +:+ cs_decision s)%string (lx_ActorID i) (ot_EvidenceID proof)
    (SettlementResult snapshot);;
  mret (snapshot, false).

Definition settleTransaction (i : SettlementExecution) (seed : organizationResourceReservationRow)
    : ST W SettlementResultT :=
  or_else (lookupSettlementOperation (lx_OrganizationID i) (lx_OperationID i)
    (lx_RequestFingerprint i)) (
  proof ← ask_owners (LockTerminalProof (bindingFromReservation seed));
  reservation ← loadReservation (lx_OrganizationID i) (lx_ReservationID i);
  or_else (settlementResultFromReservation reservation (lx_RequestFingerprint i)) (
  guard_not (negb (sameReservationIdentity seed reservation)) ErrIdempotencyKeyConflict;;
  decision ← lift (validateTerminalProof reservation proof);
  bucket ← take_pk buckets (rr_OrganizationID reservation, rr_ResourceType reservation);
  bucket ← found ErrRecordNotFound bucket;
  guard_not (b_Reserved bucket <? rr_Quantity reservation) ErrInternal;;
  settlement ← calculateSettlement reservation bucket decision;
  persistSettlement i reservation proof settlement)).

Definition ExecuteSettlement (i : SettlementExecution) : ST W SettlementResultT :=
  or_else (ReplaySettlement i) (
  seed ← loadReservation (lx_OrganizationID i) (lx_ReservationID i);
  guard_not (negb (owner_registered (rr_OwnerType seed))) ErrReservationOwnerNotRegistered;;
  or_replay (r ← ReplaySettlement i; mret ((λ r, (r.1, true)) <$> r))
    (Transaction (settleTransaction i seed))).

Definition settlement_execution (org operation reservation actor : string) : SettlementExecution :=
  let x fp := {| lx_OrganizationID := org; lx_OperationID := operation;
    lx_OperationType := OperationSettleReservation; lx_ReservationID := reservation;
    lx_ActorID := actor; lx_RequestFingerprint := fp |} in
  x (fingerprintSettlement (x ""%string)).

(** No outcome comes from the caller. *)
Definition Settle (i : SettlementInput) : ST W SettlementResultT :=
  let org := TrimSpace (li_OrganizationID i) in
  let operation := TrimSpace (li_OperationID i) in
  let reservation := TrimSpace (li_ReservationID i) in
  let actor := TrimSpace (pr_ID (li_Principal i)) in
  guard_not (actor =s "") ErrForbidden;;
  guard_not (too_long_or_empty [(org, 128); (operation, 128); (reservation, 128)]) ErrInvalidInput;;
  guard_not (negb (nil_error (AuthorizeSettlement
    {| pr_ID := actor; pr_Kind := pr_Kind (li_Principal i) |}))) ErrForbidden;;
  let x := settlement_execution org operation reservation actor in
  replayed ← ReplaySettlement x;
  match replayed with
  | Some (snapshot, _) => mret (snapshot, true)
  | None => ExecuteSettlement x
  end.
End repositories.
