(* ===== verification/ResourceCharges.v ===== *)
(** * Organization resources: members' shares and consumer charges

    Models src/internal/integration/orgresource/member_allocation_repository.go
    (with [lockFixedResourceOperation] of member_limit_repository.go),
    consumer_charge_repository.go and balance_read.go, under the services of
    src/internal/ledger/orgresource/{member_allocation,consumer_charge}.go:
    resources move between an organization and its members, consumers reserve
    what they use and settle it on proof, and balances are read. A receipt that
    Go returns beside an error is not kept. *)
From S2P Require Import Prelude GoStd Encoding ResourceTypes Store ResourceStore ResourceRepo.

Definition consumerChargeProtocol : string := "consumer_charge_v1".

(** [registered]: the consumers of [ConsumerChargeService.owners]. *)
Definition registered_consumers {O : Type} `{ResourceOwners O} : list string :=
  List.filter consumer_registered
    [ConsumerStoreService; ConsumerProductAcquisition; ConsumerAmazonData].

(** ORDER BY next_check_at, created_at, reservation_id. *)
Definition due_before `{Collation} (a b : organizationResourceReservationRow) : Prop :=
  let t r := default 0 (rr_NextCheckAt r) in
  t a < t b ∨ (t a = t b ∧ (rr_CreatedAt a < rr_CreatedAt b ∨
    (rr_CreatedAt a = rr_CreatedAt b ∧ id_before (rr_ReservationID b) (rr_ReservationID a) = false))).
#[export] Instance due_before_dec `{Collation} : RelDecision due_before.
Proof. unfold RelDecision, due_before. intros a b. apply _. Defined.

Section charges.
Context {O : Type} `{Env} `{Collation} `{ResourceOwners O} `{ResourceAuthorities}.
Notation W := (WorldOf (ResourceDB O)).

(** ** Locking a fixed operation and a member's position *)

Definition lockFixedResourceOperation (org key kind fingerprint : string)
    : ST W organizationResourceOperationRow :=
  CreateIgnore operations {| op_OrganizationID := org; op_OperationID := key;
    op_OperationType := kind; op_RequestFingerprint := fingerprint; op_State := "processing";
    op_FailureCode := "";
    op_ImmutableResult := NoResult; op_ApprovalEvidenceID := ""; op_CompletedAt := None |};;
  row ← take_pk operations (org, key); row ← found ErrRecordNotFound row;
  guard_not ((op_OperationType row ≠s kind) || (op_RequestFingerprint row ≠s fingerprint))
    ErrIdempotencyKeyConflict;;
  mret row.

(** gorm stamps [UpdatedAt] itself, here and when it saves. *)
Definition lockMemberResourcePosition (org member resource : string)
    : ST W memberResourcePositionRow :=
  created ← Now;
  CreateIgnore positions {| po_OrganizationID := org; po_MemberID := member;
    po_ResourceType := resource; po_Free := 0; po_Reserved := 0; po_Consumed := 0;
    po_Version := 0; po_UpdatedAt := created |};;
  row ← take_pk positions (org, member, resource); found ErrRecordNotFound row.

Definition memberResourcePosition (row : memberResourcePositionRow) : MemberResourcePosition :=
  {| mp_OrganizationID := po_OrganizationID row; mp_MemberID := po_MemberID row;
     mp_ResourceType := po_ResourceType row; mp_Free := po_Free row;
     mp_Reserved := po_Reserved row; mp_Consumed := po_Consumed row;
     mp_Version := po_Version row; mp_UpdatedAt := po_UpdatedAt row |}.

(** The position with new amounts, in its next version. *)
Definition next_position (free reserved consumed : Z) (updated : Time)
    (p : memberResourcePositionRow) : memberResourcePositionRow :=
  {| po_OrganizationID := po_OrganizationID p; po_MemberID := po_MemberID p;
     po_ResourceType := po_ResourceType p; po_Free := free; po_Reserved := reserved;
     po_Consumed := consumed; po_Version := po_Version p +! 1; po_UpdatedAt := updated |}.

(** An operation that succeeded. *)
Definition completed (result : resourceResult) (evidence : string) (now : Time)
    (op : organizationResourceOperationRow) : organizationResourceOperationRow :=
  {| op_OrganizationID := op_OrganizationID op; op_OperationID := op_OperationID op;
     op_OperationType := op_OperationType op; op_RequestFingerprint := op_RequestFingerprint op;
     op_State := "succeeded"; op_FailureCode := op_FailureCode op; op_ImmutableResult := result;
     op_ApprovalEvidenceID := evidence;
     op_CompletedAt := Some now |}.

(** The debt of a resource, zero when there is no row. *)
Definition outstanding (org resource : string) : ST W Z :=
  debt ← take_pk debts (org, resource); mret (match debt with Some d => db_Amount d | None => 0 end).

(** ** Transfers between the organization and a member *)

Notation TransferResultT := (MemberResourceTransferResult * bool)%type.

(** What a transfer makes of the balances: the bucket's available and allocated
    and the member's free amount, with the credit of what came back. *)
Record transferred := {
  tr_Available : Z;
  tr_Allocated : Z;
  tr_Free : Z;
  tr_AvailableDelta : Z;
  tr_AllocatedDelta : Z;
  tr_Credit : positiveCreditAllocation }.

Definition allocate (c : MemberResourceTransfer) (bucket : organizationResourceBucketRow)
    (position : memberResourcePositionRow) : ST W transferred :=
  debt ← outstanding (mt_OrganizationID c) (mt_ResourceType c);
  guard_not (debt >? 0) ErrResourceDebtOutstanding;;
  guard_not (b_Available bucket <? mt_Quantity c) ErrInsufficientBalance;;
  guard_not ((po_Free position >? (max_int64 -! mt_Quantity c))
    || (b_Allocated bucket >? (max_int64 -! mt_Quantity c))) ErrInvalidInput;;
  mret {| tr_Available := b_Available bucket -! mt_Quantity c;
    tr_Allocated := b_Allocated bucket +! mt_Quantity c;
    tr_Free := po_Free position +! mt_Quantity c; tr_AvailableDelta := -! mt_Quantity c;
    tr_AllocatedDelta := mt_Quantity c; tr_Credit := no_credit |}.

Definition reclaim (c : MemberResourceTransfer) (bucket : organizationResourceBucketRow)
    (position : memberResourcePositionRow) : ST W transferred :=
  guard_not (po_Free position <? mt_Quantity c) ErrInsufficientBalance;;
  guard_not (b_Allocated bucket <? mt_Quantity c) ErrInternal;;
  credit ← applyPositiveCredit (mt_OrganizationID c) (mt_ResourceType c) (mt_Quantity c)
    (b_Available bucket);
  mret {| tr_Available := pc_availableAfter credit;
    tr_Allocated := b_Allocated bucket -! mt_Quantity c;
    tr_Free := po_Free position -! mt_Quantity c; tr_AvailableDelta := pc_net credit;
    tr_AllocatedDelta := -! mt_Quantity c; tr_Credit := credit |}.

Definition transferAmounts (c : MemberResourceTransfer) (bucket : organizationResourceBucketRow)
    (position : memberResourcePositionRow) : ST W transferred :=
  if mt_Action c =s MemberResourceAllocate then allocate c bucket position
  else reclaim c bucket position.

Definition transfer_event (c : MemberResourceTransfer) (bucket : organizationResourceBucketRow)
    (t : transferred) (eventID : string) : organizationResourceEventRow :=
  {| ev_EventID := eventID; ev_OrganizationID := mt_OrganizationID c;
     ev_OperationID := mt_OperationID c; ev_ReservationID := None;
     ev_ResourceType := mt_ResourceType c; ev_Quantity := mt_Quantity c;
     ev_AvailableDelta := tr_AvailableDelta t; ev_AllocatedDelta := tr_AllocatedDelta t;
     ev_ReservedDelta := 0; ev_ConsumedDelta := 0; ev_Reason := mt_Action c;
     ev_SourceType := "member_resource_position"; ev_SourceIdentity := mt_MemberID c;
     ev_BalanceAfter := tr_Available t; ev_AvailableAfter := tr_Available t;
     ev_AllocatedAfter := tr_Allocated t; ev_ReservedAfter := b_Reserved bucket;
     ev_ConsumedAfter := b_Consumed bucket; ev_GrossCredit := pc_gross (tr_Credit t);
     ev_DebtRepaid := pc_debtRepaid (tr_Credit t); ev_NetCredit := pc_net (tr_Credit t) |}.

Definition transferNew (c : MemberResourceTransfer) (bucket : organizationResourceBucketRow)
    (position : memberResourcePositionRow) : ST W TransferResultT :=
  guard_not (negb (po_Version position =? mt_ExpectedVersion c)
    || (po_Version position =? max_int64)) ErrMemberResourceVersionConflict;;
  now ← Now;
  t ← transferAmounts c bucket position;
  updated ← Now;
  let position := next_position (tr_Free t) (po_Reserved position) (po_Consumed position) updated
    position in
  Save positions position;;
  Update buckets (mt_OrganizationID c, mt_ResourceType c)
    (λ b, with_balances (tr_Available t) (tr_Allocated t) (b_Reserved b) (b_Consumed b) now b);;
  let result := {| mr_Position := memberResourcePosition position; mr_Unallocated := tr_Available t;
    mr_Allocated := tr_Allocated t; mr_GrossCredit := pc_gross (tr_Credit t);
    mr_DebtRepaid := pc_debtRepaid (tr_Credit t); mr_NetCredit := pc_net (tr_Credit t) |} in
  Update operations (mt_OrganizationID c, mt_OperationID c)
    (λ op, completed (TransferResult result) (op_ApprovalEvidenceID op) now op);;
  eventID ← NewString;
  Create events (transfer_event c bucket t eventID);;
  CreateAuditLog (mt_OrganizationID c) (mt_OperationID c) (mt_Action c) (mt_ActorID c) ""
    (TransferResult result);;
  mret (result, false).

(** The recorded receipt is answered before version and debt are looked at. *)
Definition transferTransaction (c : MemberResourceTransfer) : ST W TransferResultT :=
  bucket ← take_pk buckets (mt_OrganizationID c, mt_ResourceType c);
  bucket ← found ErrInsufficientBalance bucket;
  position ← lockMemberResourcePosition (mt_OrganizationID c) (mt_MemberID c) (mt_ResourceType c);
  op ← lockFixedResourceOperation (mt_OrganizationID c) (mt_OperationID c) (mt_Action c)
    (transferFingerprint c);
  if op_State op =s "succeeded" then
    match op_ImmutableResult op with
    | TransferResult result => mret (result, true)
    | _ => fail ErrInternal
    end
  else
    guard_not (op_State op ≠s "processing") ErrIdempotencyKeyConflict;;
    transferNew c bucket position.

(** [Transfer] of the repository and of [MemberAllocationService]. *)
Definition Transfer (c : MemberResourceTransfer) : ST W TransferResultT :=
  guard_not (negb (ValidMemberResourceTransfer c)) ErrInvalidInput;;
  Transaction (transferTransaction c).

Definition TransferResource (principal : Principal) (c : MemberResourceTransfer)
    : ST W TransferResultT :=
  guard_not ((pr_Kind principal ≠s PrincipalTenantHuman) || (pr_ID principal ≠s mt_ActorID c)
    || negb (ValidMemberResourceTransfer c)) ErrInvalidInput;;
  check (AuthorizeMemberResourceTransfer principal c);;
  Transfer c.

(** [ReadPosition]: a member without a row holds nothing. *)
Definition ReadPosition (org member resource : string) : ST W MemberResourcePosition :=
  guard_not (negb (ValidMemberResourcePositionIdentity org member resource)) ErrInvalidInput;;
  row ← take_pk positions (org, member, resource);
  mret (memberResourcePosition (default {| po_OrganizationID := org; po_MemberID := member;
    po_ResourceType := resource; po_Free := 0; po_Reserved := 0; po_Consumed := 0;
    po_Version := 0; po_UpdatedAt := zero_time |} row)).

(** ** Consumer charges *)

Definition member_funded (i : ConsumerChargeIntent) : bool := ct_Funding i =s FundingMember.

Definition readConsumerReservation (i : ConsumerChargeIdentity)
    : ST W (option organizationResourceReservationRow) :=
  take resource_reservations (λ r, (rr_OrganizationID r =s ci_OrganizationID i)
    && (rr_OwnerType r =s ci_Consumer i) && (rr_OwnerAttemptID r =s ci_OperationID i)
    && (rr_ChargeProtocol r =s consumerChargeProtocol)).

Definition consumerChargeReceipt (r : organizationResourceReservationRow) : ConsumerChargeReceipt :=
  {| cr_Intent := {|
       ct_Identity := {| ci_OrganizationID := rr_OrganizationID r; ci_Consumer := rr_OwnerType r;
                         ci_OperationID := rr_OwnerAttemptID r |};
       ct_ActorID := rr_ChargeActorID r; ct_MemberID := rr_MemberID r;
       ct_Funding := rr_ChargeFunding r; ct_ResourceType := rr_ResourceType r;
       ct_Quantity := rr_Quantity r; ct_Fingerprint := rr_RequestFingerprint r;
       ct_BusinessScope := rr_BusinessScope r |};
     cr_ReservationID := rr_ReservationID r; cr_State := rr_State r;
     cr_OwnerEvidenceID := rr_ChargeEvidenceID r; cr_CreatedAt := rr_CreatedAt r;
     cr_BalanceAfter := rr_ChargeBalanceAfter r |}.

Definition updateConsumerBucket (b : organizationResourceBucketRow) (now : Time) : ST W unit :=
  updated ← UpdateWhere buckets (b_OrganizationID b, b_ResourceType b) (λ _, true)
    (with_balances (b_Available b) (b_Allocated b) (b_Reserved b) (b_Consumed b) now);
  guard_not (negb updated) ErrConcurrencyRetry.

Definition completeChargeOperation (op : organizationResourceOperationRow)
    (receipt : ConsumerChargeReceipt) (now : Time) : ST W unit :=
  updated ← UpdateWhere operations (op_OrganizationID op, op_OperationID op)
    (λ o, op_State o =s "processing")
    (completed (ChargeResult receipt) (cr_OwnerEvidenceID receipt) now);
  guard_not (negb updated) ErrConcurrencyRetry.

Definition charge_event (row : organizationResourceReservationRow)
    (bucket : organizationResourceBucketRow) (operationID reason : string)
    (availableDelta allocatedDelta reservedDelta consumedDelta : Z)
    (credit : positiveCreditAllocation) (eventID : string) : organizationResourceEventRow :=
  {| ev_EventID := eventID; ev_OrganizationID := rr_OrganizationID row;
     ev_OperationID := operationID; ev_ReservationID := Some (rr_ReservationID row);
     ev_ResourceType := rr_ResourceType row; ev_Quantity := rr_Quantity row;
     ev_AvailableDelta := availableDelta; ev_AllocatedDelta := allocatedDelta;
     ev_ReservedDelta := reservedDelta; ev_ConsumedDelta := consumedDelta; ev_Reason := reason;
     ev_SourceType := rr_OwnerType row; ev_SourceIdentity := rr_OwnerAttemptID row;
     ev_BalanceAfter := b_Available bucket; ev_AvailableAfter := b_Available bucket;
     ev_AllocatedAfter := b_Allocated bucket; ev_ReservedAfter := b_Reserved bucket;
     ev_ConsumedAfter := b_Consumed bucket; ev_GrossCredit := pc_gross credit;
     ev_DebtRepaid := pc_debtRepaid credit; ev_NetCredit := pc_net credit |}.

Definition createConsumerEvent (row : organizationResourceReservationRow)
    (bucket : organizationResourceBucketRow) (operationID reason : string)
    (availableDelta allocatedDelta reservedDelta consumedDelta : Z)
    (credit : positiveCreditAllocation) : ST W unit :=
  eventID ← NewString;
  Create events (charge_event row bucket operationID reason availableDelta allocatedDelta
    reservedDelta consumedDelta credit eventID);;
  CreateAuditLog (rr_OrganizationID row) operationID reason (rr_ChargeActorID row) ""
    (ChargeResult (consumerChargeReceipt row)).

(** [GormConsumerChargeRepository.Read]. *)
Definition ReadCharge (i : ConsumerChargeIdentity) : ST W ConsumerChargeReceipt :=
  guard_not (negb (ValidConsumerChargeIdentity i)) ErrInvalidInput;;
  row ← readConsumerReservation i;
  row ← found ErrReservationNotFound row;
  mret (consumerChargeReceipt row).

(** The row of a new charge. *)
Definition charge_row (i : ConsumerChargeIntent) (operationID reservationID : string)
    (balanceAfter : Z) (now : Time) : organizationResourceReservationRow :=
  {| rr_ChargeBalanceAfter := balanceAfter; rr_ChargeProtocol := consumerChargeProtocol;
     rr_ChargeActorID := ct_ActorID i; rr_ChargeFunding := ct_Funding i;
     rr_ChargeEvidenceID := ""; rr_NextCheckAt := Some now; rr_MemberID := ct_MemberID i;
     rr_MemberMonthStart := None; rr_MemberLimitVersion := 0; rr_PriceVersion := "";
     rr_OrganizationID := ci_OrganizationID (ct_Identity i); rr_ReservationID := reservationID;
     rr_OperationID := operationID; rr_SettlementOperationID := None;
     rr_OwnerType := ci_Consumer (ct_Identity i);
     rr_OwnerAttemptID := ci_OperationID (ct_Identity i); rr_BusinessScope := ct_BusinessScope i;
     rr_ResourceType := ct_ResourceType i; rr_ReservationPurpose := consumerChargeProtocol;
     rr_Quantity := ct_Quantity i; rr_State := ReservationReserved;
     rr_RequestFingerprint := ct_Fingerprint i; rr_CreatedAt := now; rr_SettledAt := None |}%string.

(** The bucket once the funding has paid. *)
Definition fund_from_member (i : ConsumerChargeIntent) (bucket : organizationResourceBucketRow)
    (position : memberResourcePositionRow) : ST W (organizationResourceBucketRow * Z) :=
  guard_not (po_Free position <? ct_Quantity i) ErrInsufficientBalance;;
  guard_not (b_Allocated bucket <? ct_Quantity i) ErrInternal;;
  guard_not ((po_Reserved position >? (max_int64 -! ct_Quantity i))
    || (po_Version position =? max_int64)) ErrInvalidInput;;
  updated ← Now;
  let position := next_position (po_Free position -! ct_Quantity i)
    (po_Reserved position +! ct_Quantity i) (po_Consumed position) updated position in
  Save positions position;;
  mret (with_balances (b_Available bucket) (b_Allocated bucket -! ct_Quantity i)
          (b_Reserved bucket +! ct_Quantity i) (b_Consumed bucket) (b_UpdatedAt bucket) bucket,
        po_Free position).

Definition fund_from_bucket (i : ConsumerChargeIntent) (bucket : organizationResourceBucketRow)
    : ST W (organizationResourceBucketRow * Z) :=
  guard_not (b_Available bucket <? ct_Quantity i) ErrInsufficientBalance;;
  let bucket := with_balances (b_Available bucket -! ct_Quantity i) (b_Allocated bucket)
    (b_Reserved bucket +! ct_Quantity i) (b_Consumed bucket) (b_UpdatedAt bucket) bucket in
  mret (bucket, b_Available bucket).

Definition fund_charge (i : ConsumerChargeIntent) (bucket : organizationResourceBucketRow)
    (position : option memberResourcePositionRow) : ST W (organizationResourceBucketRow * Z) :=
  match position with
  | Some position => fund_from_member i bucket position
  | None => fund_from_bucket i bucket
  end.

Definition reserveNewCharge (i : ConsumerChargeIntent) (bucket : organizationResourceBucketRow)
    (position : option memberResourcePositionRow) (op : organizationResourceOperationRow)
    : ST W ConsumerChargeReceipt :=
  debt ← outstanding (ci_OrganizationID (ct_Identity i)) (ct_ResourceType i);
  guard_not (debt >? 0) ErrResourceDebtOutstanding;;
  guard_not (b_Reserved bucket >? (max_int64 -! ct_Quantity i)) ErrInvalidInput;;
  now ← Now;
  '(bucket, balanceAfter) ← fund_charge i bucket position;
  reservationID ← NewString;
  let row := charge_row i (op_OperationID op) reservationID balanceAfter now in
  Create resource_reservations row;;
  updateConsumerBucket bucket now;;
  let receipt := consumerChargeReceipt row in
  completeChargeOperation op receipt now;;
  createConsumerEvent row bucket (op_OperationID op) "reserve"
    (if member_funded i then 0 else -! ct_Quantity i)
    (if member_funded i then -! ct_Quantity i else 0) (ct_Quantity i) 0 no_credit;;
  mret receipt.

(** The position of the member who pays, locked, when one does. *)
Definition lock_funding (i : ConsumerChargeIntent) : ST W (option memberResourcePositionRow) :=
  if member_funded i then
    position ← lockMemberResourcePosition (ci_OrganizationID (ct_Identity i)) (ct_MemberID i)
      (ct_ResourceType i);
    mret (Some position)
  else mret None.

Definition reserveChargeTransaction (i : ConsumerChargeIntent) : ST W ConsumerChargeReceipt :=
  bucket ← take_pk buckets (ci_OrganizationID (ct_Identity i), ct_ResourceType i);
  bucket ← found ErrInsufficientBalance bucket;
  position ← lock_funding i;
  op ← lockFixedResourceOperation (ci_OrganizationID (ct_Identity i))
    (chargeOperationKey "consumer-reserve:" (ct_Identity i)) "reserve_consumer_resource"
    (chargeFingerprint i);
  if op_State op =s "succeeded" then
    row ← readConsumerReservation (ct_Identity i);
    row ← found ErrRecordNotFound row;
    guard_not (negb (bool_decide (cr_Intent (consumerChargeReceipt row) = i)))
      ErrIdempotencyKeyConflict;;
    mret (consumerChargeReceipt row)
  else
    guard_not (op_State op ≠s "processing") ErrIdempotencyKeyConflict;;
    reserveNewCharge i bucket position op.

(** After a failed transaction, the charge on record when it passes [P]. *)
Definition or_charge (i : ConsumerChargeIdentity) (P : ConsumerChargeReceipt → bool)
    (m : ST W ConsumerChargeReceipt) : ST W ConsumerChargeReceipt :=
  or_replay (read ← ReadCharge i; mret (if P read then Some read else None)) m.

(** [GormConsumerChargeRepository.Reserve]. *)
Definition ReserveCharge (i : ConsumerChargeIntent) : ST W ConsumerChargeReceipt :=
  guard_not (negb (ValidConsumerChargeIntent i)) ErrInvalidInput;;
  or_charge (ct_Identity i) (λ read, bool_decide (cr_Intent read = i))
    (Transaction (reserveChargeTransaction i)).

(** *** Settling a charge *)

(** A charge with its outcome. *)
Definition settled_row (state evidence operationID : string) (balanceAfter : Z) (now : Time)
    (r : organizationResourceReservationRow) : organizationResourceReservationRow :=
  {| rr_ChargeBalanceAfter := balanceAfter; rr_ChargeProtocol := rr_ChargeProtocol r;
     rr_ChargeActorID := rr_ChargeActorID r; rr_ChargeFunding := rr_ChargeFunding r;
     rr_ChargeEvidenceID := evidence; rr_NextCheckAt := None; rr_MemberID := rr_MemberID r;
     rr_MemberMonthStart := rr_MemberMonthStart r; rr_MemberLimitVersion := rr_MemberLimitVersion r;
     rr_PriceVersion := rr_PriceVersion r;
     rr_OrganizationID := rr_OrganizationID r; rr_ReservationID := rr_ReservationID r;
     rr_OperationID := rr_OperationID r; rr_SettlementOperationID := Some operationID;
     rr_OwnerType := rr_OwnerType r; rr_OwnerAttemptID := rr_OwnerAttemptID r;
     rr_BusinessScope := rr_BusinessScope r; rr_ResourceType := rr_ResourceType r;
     rr_ReservationPurpose := rr_ReservationPurpose r; rr_Quantity := rr_Quantity r;
     rr_State := state; rr_RequestFingerprint := rr_RequestFingerprint r;
     rr_CreatedAt := rr_CreatedAt r; rr_SettledAt := Some now |}.

(** The bucket after the outcome, with the credit of what comes back. *)
Definition settle_bucket (i : ConsumerChargeIntent) (succeeded : bool)
    (bucket : organizationResourceBucketRow)
    : ST W (organizationResourceBucketRow * positiveCreditAllocation) :=
  let reserved := b_Reserved bucket -! ct_Quantity i in
  if succeeded then
    guard_not (b_Consumed bucket >? (max_int64 -! ct_Quantity i)) ErrInvalidInput;;
    mret (with_balances (b_Available bucket) (b_Allocated bucket) reserved
      (b_Consumed bucket +! ct_Quantity i) (b_UpdatedAt bucket) bucket, no_credit)
  else
    credit ← applyPositiveCredit (ci_OrganizationID (ct_Identity i)) (ct_ResourceType i)
      (ct_Quantity i) (if member_funded i then b_Allocated bucket else b_Available bucket);
    mret (with_balances
      (if member_funded i then b_Available bucket else pc_availableAfter credit)
      (if member_funded i then pc_availableAfter credit else b_Allocated bucket)
      reserved (b_Consumed bucket) (b_UpdatedAt bucket) bucket, credit).

(** The member's position after the outcome; its free amount. *)
Definition settle_position (i : ConsumerChargeIntent) (succeeded : bool)
    (credit : positiveCreditAllocation) (position : memberResourcePositionRow) : ST W Z :=
  guard_not ((po_Reserved position <? ct_Quantity i) || (po_Version position =? max_int64)) ErrInternal;;
  guard_not (if succeeded then po_Consumed position >? (max_int64 -! ct_Quantity i)
             else po_Free position >? (max_int64 -! pc_net credit)) ErrInvalidInput;;
  updated ← Now;
  let free := if succeeded then po_Free position else po_Free position +! pc_net credit in
  Save positions (next_position free (po_Reserved position -! ct_Quantity i)
    (if succeeded then po_Consumed position +! ct_Quantity i else po_Consumed position) updated
    position);;
  mret free.

(** What the payer has after the outcome. *)
Definition settle_payer (i : ConsumerChargeIntent) (succeeded : bool)
    (credit : positiveCreditAllocation) (bucket : organizationResourceBucketRow)
    (position : option memberResourcePositionRow) : ST W Z :=
  match position with
  | Some position => settle_position i succeeded credit position
  | None => mret (b_Available bucket)
  end.

Definition settleNewCharge (i : ConsumerChargeIntent) (proof : ConsumerChargeProof)
    (bucket : organizationResourceBucketRow) (position : option memberResourcePositionRow)
    (op : organizationResourceOperationRow) (row : organizationResourceReservationRow)
    : ST W ConsumerChargeReceipt :=
  guard_not (rr_State row ≠s ReservationReserved) ErrIdempotencyKeyConflict;;
  guard_not (b_Reserved bucket <? ct_Quantity i) ErrInternal;;
  now ← Now;
  let succeeded := cp_State proof =s ConsumerEffectSucceeded in
  '(bucket, credit) ← settle_bucket i succeeded bucket;
  balanceAfter ← settle_payer i succeeded credit bucket position;
  let row := settled_row (if succeeded then ReservationCommitted else ReservationReleased)
    (cp_EvidenceID proof) (op_OperationID op) balanceAfter now row in
  Save resource_reservations row;;
  updateConsumerBucket bucket now;;
  let receipt := consumerChargeReceipt row in
  completeChargeOperation op receipt now;;
  createConsumerEvent row bucket (op_OperationID op) (rr_State row)
    (if member_funded i then 0 else pc_net credit) (if member_funded i then pc_net credit else 0)
    (-! ct_Quantity i) (if succeeded then ct_Quantity i else 0) credit;;
  mret receipt.

Definition settleChargeTransaction (original : ConsumerChargeReceipt) (proof : ConsumerChargeProof)
    : ST W ConsumerChargeReceipt :=
  let i := cr_Intent original in
  bucket ← take_pk buckets (ci_OrganizationID (ct_Identity i), ct_ResourceType i);
  bucket ← found ErrRecordNotFound bucket;
  position ← lock_funding i;
  op ← lockFixedResourceOperation (ci_OrganizationID (ct_Identity i))
    (chargeOperationKey "consumer-settle:" (ct_Identity i)) "settle_consumer_resource"
    (chargeFingerprint i);
  row ← readConsumerReservation (ct_Identity i);
  row ← found ErrRecordNotFound row;
  let receipt := consumerChargeReceipt row in
  guard_not (negb (bool_decide (cr_Intent receipt = i))
    || (cr_ReservationID receipt ≠s cr_ReservationID original)) ErrIdempotencyKeyConflict;;
  if op_State op =s "succeeded" then mret receipt
  else settleNewCharge i proof bucket position op row.

Definition charge_finished (r : ConsumerChargeReceipt) : bool :=
  (cr_State r =s ReservationCommitted) || (cr_State r =s ReservationReleased).

(** [GormConsumerChargeRepository.Settle]. *)
Definition SettleCharge (original : ConsumerChargeReceipt) (proof : ConsumerChargeProof)
    : ST W ConsumerChargeReceipt :=
  let i := cr_Intent original in
  guard_not (negb (ValidConsumerChargeIntent i) || negb (bool_decide (cp_Intent proof = i))
    || (cp_ReservationID proof ≠s cr_ReservationID original)) ErrIdempotencyKeyConflict;;
  guard_not (((cp_State proof ≠s ConsumerEffectSucceeded) && (cp_State proof ≠s ConsumerEffectFailed))
    || (cp_EvidenceID proof =s "") || (slen (cp_EvidenceID proof) >? 256)) ErrConsumerChargeUnknown;;
  or_charge (ct_Identity i) (λ read, bool_decide (cr_Intent read = i)
      && (cr_ReservationID read =s cr_ReservationID original) && charge_finished read)
    (Transaction (settleChargeTransaction original proof)).

(** *** Recovery *)

Definition with_next_check (t : Time) (r : organizationResourceReservationRow)
    : organizationResourceReservationRow :=
  {| rr_ChargeBalanceAfter := rr_ChargeBalanceAfter r; rr_ChargeProtocol := rr_ChargeProtocol r;
     rr_ChargeActorID := rr_ChargeActorID r; rr_ChargeFunding := rr_ChargeFunding r;
     rr_ChargeEvidenceID := rr_ChargeEvidenceID r; rr_NextCheckAt := Some t;
     rr_MemberMonthStart := rr_MemberMonthStart r; rr_MemberLimitVersion := rr_MemberLimitVersion r;
     rr_PriceVersion := rr_PriceVersion r;
     rr_MemberID := rr_MemberID r; rr_OrganizationID := rr_OrganizationID r;
     rr_ReservationID := rr_ReservationID r; rr_OperationID := rr_OperationID r;
     rr_SettlementOperationID := rr_SettlementOperationID r; rr_OwnerType := rr_OwnerType r;
     rr_OwnerAttemptID := rr_OwnerAttemptID r; rr_BusinessScope := rr_BusinessScope r;
     rr_ResourceType := rr_ResourceType r; rr_ReservationPurpose := rr_ReservationPurpose r;
     rr_Quantity := rr_Quantity r; rr_State := rr_State r;
     rr_RequestFingerprint := rr_RequestFingerprint r; rr_CreatedAt := rr_CreatedAt r;
     rr_SettledAt := rr_SettledAt r |}.

(** The open charges of [consumers] due for a check, the longest due first. *)
Definition due_charge (consumers : list string) (now : Time)
    (r : organizationResourceReservationRow) : bool :=
  (rr_ChargeProtocol r =s consumerChargeProtocol)
  && existsb (String.eqb (rr_OwnerType r)) consumers && (rr_State r =s ReservationReserved)
  && match rr_NextCheckAt r with Some t => t <=? now | None => false end.

Definition claim_one (next : Time) (row : organizationResourceReservationRow)
    : ST W ConsumerChargeIdentity :=
  updated ← UpdateWhere resource_reservations (rr_OrganizationID row, rr_ReservationID row)
    (λ r, rr_State r =s ReservationReserved) (with_next_check next);
  guard_not (negb updated) ErrConcurrencyRetry;;
  mret (ct_Identity (cr_Intent (consumerChargeReceipt row))).

Definition ClaimDue (consumers : list string) : ST W (list ConsumerChargeIdentity) :=
  guard_not ((Z.of_nat (length consumers) <? 1) || (Z.of_nat (length consumers) >? 3)) ErrInvalidInput;;
  guard_not (existsb (λ c, negb (validResourceConsumer c)) consumers)
    ErrReservationOwnerNotRegistered;;
  Transaction (
    now ← Now;
    rows ← Find resource_reservations (due_charge consumers now);
    each (claim_one (now + 30 * Second)) (List.firstn 25 (merge_sort due_before rows))).

(** ** [ConsumerChargeService] *)

Definition ConsumerChargeService_Reserve (i : ConsumerChargeIdentity) : ST W ConsumerChargeReceipt :=
  guard_not (negb (ValidConsumerChargeIdentity i)) ErrInvalidInput;;
  guard_not (negb (consumer_registered (ci_Consumer i))) ErrReservationOwnerNotRegistered;;
  intent ← ask_owners (ReadChargeIntent i);
  guard_not (negb (bool_decide (ct_Identity intent = i)) || negb (ValidConsumerChargeIntent intent))
    ErrOwnerScopeMismatch;;
  ReserveCharge intent.

Definition ConsumerChargeService_Lookup (i : ConsumerChargeIdentity) : ST W ConsumerChargeReceipt :=
  guard_not (negb (ValidConsumerChargeIdentity i)) ErrInvalidInput;;
  guard_not (negb (consumer_registered (ci_Consumer i))) ErrReservationOwnerNotRegistered;;
  receipt ← ReadCharge i;
  guard_not (negb (bool_decide (ct_Identity (cr_Intent receipt) = i))
    || negb (ValidConsumerChargeIntent (cr_Intent receipt))) ErrOwnerScopeMismatch;;
  mret receipt.

Definition Reconcile (i : ConsumerChargeIdentity) : ST W ConsumerChargeReceipt :=
  receipt ← ConsumerChargeService_Lookup i;
  if charge_finished receipt then mret receipt
  else
    proof ← ask_owners (ReadChargeProof receipt);
    guard_not (negb (bool_decide (cp_Intent proof = cr_Intent receipt))
      || (cp_ReservationID proof ≠s cr_ReservationID receipt)) ErrIdempotencyKeyConflict;;
    guard_not (cp_State proof =s ConsumerEffectUnknown) ErrConsumerChargeUnknown;;
    guard_not (((cp_State proof ≠s ConsumerEffectSucceeded)
        && (cp_State proof ≠s ConsumerEffectFailed))
      || negb (validChargeEvidence (cp_EvidenceID proof))) ErrConsumerChargeUnknown;;
    SettleCharge receipt proof.

(** What a call comes to, errors included. *)
Definition attempt {A} (m : ST W A) : ST W (result A) := λ w, let '(r, w') := m w in (Ok r, w').

Fixpoint reconcile_all (l : list ConsumerChargeIdentity) : ST W (Z * list goerr) :=
  match l with
  | [] => mret (0, [])
  | i :: l' =>
    r ← attempt (Reconcile i);
    '(settled, failures) ← reconcile_all l';
    mret (match r with
          | Ok receipt => (if charge_finished receipt then settled + 1 else settled, failures)
          | Err ErrConsumerChargeUnknown => (settled, failures)
          | Err e => (settled, e :: failures)
          end)
  end.

(** The number of charges settled, and the errors that are joined. *)
Definition RecoverDue : ST W (Z * list goerr) :=
  identities ← ClaimDue registered_consumers;
  reconcile_all identities.

(** ** Reading balances *)

Record Balance := {
  bl_ResourceType : string;
  bl_Unit : string;
  bl_Recorded : option (string * string * string * string * string * Time) }.

(** [Available, Allocated, Reserved, Consumed, Debt, UpdatedAt] of a recorded
    balance. The stored instant must be set and in years 1 to 9999. *)
Definition read_balance (resource unit_ : string) (bucket : option organizationResourceBucketRow)
    (debt : option organizationResourceDebtRow) : result Balance :=
  match bucket with
  | None =>
    match debt with
    | Some _ => Err ErrBalanceUnavailable
    | None => Ok {| bl_ResourceType := resource; bl_Unit := unit_; bl_Recorded := None |}
    end
  | Some b =>
    let owed := match debt with Some d => db_Amount d | None => 0 end in
    if (b_Allocated b <? 0) || ((resource =s ResourceAIPoint) && negb (b_Allocated b =? 0))
       || (b_Available b <? 0) || (b_Reserved b <? 0) || (b_Consumed b <? 0)
       || IsZero (b_UpdatedAt b) || (year_of (b_UpdatedAt b) <? 1)
       || (year_of (b_UpdatedAt b) >? 9999) || (owed <? 0)
       || ((owed >? 0) && (b_Available b >? 0))
    then Err ErrBalanceUnavailable
    else Ok {| bl_ResourceType := resource; bl_Unit := unit_;
      bl_Recorded := Some (FormatInt (b_Available b), FormatInt (b_Allocated b),
        FormatInt (b_Reserved b), FormatInt (b_Consumed b), FormatInt owed, b_UpdatedAt b) |}
  end.

Definition read_one (org : string) (r : string * string) : ST W Balance :=
  b ← take_pk buckets (org, r.1); d ← take_pk debts (org, r.1);
  lift (read_balance r.1 r.2 b d).

(** The three balances and when they were read. *)
Definition ReadBalances (org : string) : ST W (list Balance * Time) :=
  guard_not ((org =s "") || (slen org >? 128) || (TrimSpace org ≠s org)) ErrInvalidInput;;
  l ← each (read_one org) [(ResourceStoreRenewalPeriod, "period"); (ResourceAIPoint, "point");
                           (ResourceDataRow, "row")]%string;
  observed ← Now;
  mret (l, observed).
End charges.
