(* ===== verification/ResourcePoints.v ===== *)
(** * Organization resources: AI points

    Models member_limit_repository.go, image_generation_repository.go and
    model_invocation_repository.go of src/internal/integration/orgresource, and the
    service of member_limit.go in src/internal/ledger/orgresource: an
    administrator limits what a member may use of the organization's AI points in
    a month; image generations and model invocations reserve points within the
    limit and the balance, and are finalized on the facts their owners recorded.
    Those owners are an interface. *)
From S2P Require Import Prelude GoStd Encoding Cursors GenerationFacts ResourceTypes PointTypes Store ResourceStore ResourceRepo ResourceCharges.

Definition imagePointOwner : string := "image_generation_v1".
Definition imagePointPurpose : string := "single_source_edit".

(** [ImageGenerationFactReader], [ModelInvocationFactReader], and who may use or
    set points. *)
Class PointOwners (O : Type) := {
  ReadGenerationFact : SlotExternalEffectIdentity → O → result GenerationFact;
  ReadModelInvocation : string → string → O → result InvocationRecord;
  AuthorizeImageGeneration : GenerationIntent → error;
  AuthorizeModelInvocation : InvocationRecord → error;
  AuthorizeMemberLimitRead : Principal → string → string → error;
  AuthorizeMemberLimitWrite : Principal → string → string → error }.

Section points.
Context {O : Type} `{Env} `{Collation} `{GenerationAssets} `{PointOwners O}.
Notation W := (WorldOf (ResourceDB O)).

(** ** Limits *)

Definition lockMemberMonth (org member : string) (month : Time) : ST W memberAIPointMonthRow :=
  CreateIgnore months {| mo_OrganizationID := org; mo_MemberID := member; mo_MonthStart := month;
    mo_Reserved := 0; mo_Consumed := 0 |};;
  row ← take_pk months (org, member, month); found ErrRecordNotFound row.

Definition limitSnapshot (config : memberAIPointLimitRow) (counter : memberAIPointMonthRow)
    : MemberLimitSnapshot :=
  {| ms_OrganizationID := lm_OrganizationID config; ms_MemberID := lm_MemberID config;
     ms_MonthlyLimit := lm_MonthlyLimit config; ms_Version := lm_Version config;
     ms_MonthStart := mo_MonthStart counter; ms_Reserved := mo_Reserved counter;
     ms_Consumed := mo_Consumed counter |}.

Definition with_limit (target : Z) (actor : string) (updated : Time) (c : memberAIPointLimitRow)
    : memberAIPointLimitRow :=
  {| lm_OrganizationID := lm_OrganizationID c; lm_MemberID := lm_MemberID c;
     lm_MonthlyLimit := target; lm_Version := lm_Version c +! 1; lm_UpdatedBy := actor;
     lm_UpdatedAt := updated |}.

(** A limit below what the month already uses is refused. *)
Definition setNewLimit (i : SetMemberLimitExecution) : ST W MemberLimitSnapshot :=
  let org := sl_OrganizationID i in
  now ← Now;
  CreateIgnore limits {| lm_OrganizationID := org; lm_MemberID := sl_MemberID i;
    lm_MonthlyLimit := 0; lm_Version := 0; lm_UpdatedBy := sl_ActorID i; lm_UpdatedAt := now |};;
  config ← take_pk limits (org, sl_MemberID i); config ← found ErrRecordNotFound config;
  guard_not (negb (lm_Version config =? sl_ExpectedVersion i) || (lm_Version config =? max_int64))
    ErrMemberLimitVersionConflict;;
  counter ← lockMemberMonth org (sl_MemberID i) (AIPointMonthStart now);
  guard_not ((mo_Consumed counter >? sl_Target i)
    || (mo_Reserved counter >? (sl_Target i -! mo_Consumed counter))) ErrMemberLimitExceeded;;
  updated ← Now;
  let config := with_limit (sl_Target i) (sl_ActorID i) updated config in
  Save limits config;;
  let snapshot := limitSnapshot config counter in
  Update operations (org, sl_OperationID i)
    (λ op, completed (LimitResult snapshot) (op_ApprovalEvidenceID op) now op);;
  CreateAuditLog org (sl_OperationID i) "set_member_ai_point_limit" (sl_ActorID i) ""
    (LimitResult snapshot);;
  mret snapshot.

(** The recorded snapshot is answered before the month is looked at. *)
Definition setLimitTransaction (i : SetMemberLimitExecution) : ST W MemberLimitSnapshot :=
  op ← lockFixedResourceOperation (sl_OrganizationID i) (sl_OperationID i)
    "set_member_ai_point_limit" (limitFingerprint i);
  if op_State op =s "succeeded" then
    match op_ImmutableResult op with LimitResult s => mret s | _ => fail ErrInternal end
  else
    guard_not (op_State op ≠s "processing") ErrIdempotencyKeyConflict;;
    setNewLimit i.

(** [GormMemberLimitRepository.SetMonthlyLimit]. *)
Definition SetLimit (i : SetMemberLimitExecution) : ST W MemberLimitSnapshot :=
  guard_not (negb (ValidMemberLimitCommand i)) ErrInvalidInput;;
  Transaction (setLimitTransaction i).

Definition ReadLimit (org member : string) : ST W MemberLimitSnapshot :=
  Transaction (
    config ← take_pk limits (org, member); config ← found ErrMemberLimitUnavailable config;
    now ← Now;
    counter ← take_pk months (org, member, AIPointMonthStart now);
    mret (limitSnapshot config (match counter with
      | Some counter => counter
      | None => {| mo_OrganizationID := org; mo_MemberID := member;
                   mo_MonthStart := AIPointMonthStart now; mo_Reserved := 0; mo_Consumed := 0 |}
      end))).

(** [MemberLimitService]. *)
Definition SetMonthlyLimit (p : Principal) (i : SetMemberLimitExecution) : ST W MemberLimitSnapshot :=
  guard_not ((sl_ActorID i ≠s pr_ID p) || (pr_Kind p ≠s PrincipalTenantHuman)
    || negb (ValidMemberLimitCommand i)) ErrInvalidInput;;
  check (AuthorizeMemberLimitWrite p (sl_OrganizationID i) (sl_MemberID i));;
  SetLimit i.

Definition ReadMonthlyLimit (p : Principal) (org member : string) : ST W MemberLimitSnapshot :=
  guard_not (negb (validLimitIdentity org) || negb (validLimitIdentity member)
    || (pr_Kind p ≠s PrincipalTenantHuman)) ErrInvalidInput;;
  check (AuthorizeMemberLimitRead p org member);;
  ReadLimit org member.

(** ** What image generations and model invocations share *)

Definition with_month (reserved consumed : Z) (c : memberAIPointMonthRow) : memberAIPointMonthRow :=
  {| mo_OrganizationID := mo_OrganizationID c; mo_MemberID := mo_MemberID c;
     mo_MonthStart := mo_MonthStart c; mo_Reserved := reserved; mo_Consumed := consumed |}.

(** The limit does not leave [points] to use. *)
Definition over_limit (config : memberAIPointLimitRow) (counter : memberAIPointMonthRow) (points : Z)
    : bool :=
  (lm_MonthlyLimit config <? mo_Consumed counter)
  || ((lm_MonthlyLimit config -! mo_Consumed counter) <? mo_Reserved counter)
  || (((lm_MonthlyLimit config -! mo_Consumed counter) -! mo_Reserved counter) <? points).

(** The bucket of AI points, with at least [points] available. *)
Definition lockPointBucket (org : string) (points : Z) : ST W organizationResourceBucketRow :=
  bucket ← take_pk buckets (org, ResourceAIPoint); bucket ← found ErrInsufficientBalance bucket;
  guard_not (b_Available bucket <? points) ErrInsufficientBalance;;
  guard_not (b_Reserved bucket >? (max_int64 -! points)) ErrInvalidInput;;
  mret bucket.

Definition completeImageOperation (op : organizationResourceOperationRow) (result : resourceResult)
    (now : Time) : ST W unit :=
  updated ← UpdateWhere operations (op_OrganizationID op, op_OperationID op)
    (λ o, op_State o =s "processing")
    (λ o, completed result (op_ApprovalEvidenceID o) now o);
  guard_not (negb updated) ErrIdempotencyKeyConflict.

(** The allocated balance is not written. *)
Definition saveImageBucket (b : organizationResourceBucketRow) (now : Time) : ST W unit :=
  updated ← UpdateWhere buckets (b_OrganizationID b, b_ResourceType b) (λ _, true)
    (λ o, with_balances (b_Available b) (b_Allocated o) (b_Reserved b) (b_Consumed b) now o);
  guard_not (negb updated) ErrInvalidOwnerProof.

(** An operation that is closed without a result. *)
Definition failed_operation (code : string) (now : Time) (op : organizationResourceOperationRow)
    : organizationResourceOperationRow :=
  {| op_OrganizationID := op_OrganizationID op; op_OperationID := op_OperationID op;
     op_OperationType := op_OperationType op; op_RequestFingerprint := op_RequestFingerprint op;
     op_State := "failed"; op_FailureCode := code; op_ImmutableResult := op_ImmutableResult op;
     op_ApprovalEvidenceID := op_ApprovalEvidenceID op; op_CompletedAt := Some now |}.

(** ** Image generations *)

Definition readImageFact (id : SlotExternalEffectIdentity) : ST W GenerationFact :=
  fact ← ask_owners (ReadGenerationFact id);
  guard_not (negb (nil_error (GenerationFact_Validate fact))
    || negb (bool_decide (gi_Identity (gf_Intent fact) = id))) ErrInvalidOwnerProof;;
  mret fact.

Definition imageReserveKey (f : GenerationFact) : string := ("image-reserve:" +:+ gf_IntentID f)%string.
Definition imageFinalizeKey (f : GenerationFact) : string := ("image-finalize:" +:+ gf_IntentID f)%string.

Definition image_receipt (org : string) (f : GenerationFact) (reservationID : string)
    : GenerationReservationReceipt :=
  let i := gf_Intent f in
  {| gr_IntentID := gf_IntentID f; gr_Fingerprint := gf_Fingerprint f; gr_OrganizationID := org;
     gr_MemberID := gi_MemberID i; gr_OperationID := imageReserveKey f;
     gr_ReservationID := reservationID; gr_ResourceType := ResourceAIPoint;
     gr_Points := gi_Points i; gr_PriceVersion := gi_PriceVersion i;
     gr_LimitVersion := gi_LimitVersion i; gr_MonthStart := gi_MonthStart i |}.

Definition image_row (id : SlotExternalEffectIdentity) (f : GenerationFact) (reservationID : string)
    (created : Time) : organizationResourceReservationRow :=
  let i := gf_Intent f in
  {| rr_ChargeBalanceAfter := 0; rr_ChargeProtocol := ""; rr_ChargeActorID := "";
     rr_ChargeFunding := ""; rr_ChargeEvidenceID := ""; rr_NextCheckAt := None;
     rr_MemberID := gi_MemberID i; rr_MemberMonthStart := Some (gi_MonthStart i);
     rr_MemberLimitVersion := gi_LimitVersion i; rr_PriceVersion := gi_PriceVersion i;
     rr_OrganizationID := si_TenantID id; rr_ReservationID := reservationID;
     rr_OperationID := imageReserveKey f; rr_SettlementOperationID := None;
     rr_OwnerType := imagePointOwner; rr_OwnerAttemptID := gf_IntentID f;
     rr_BusinessScope := si_RunID id; rr_ResourceType := ResourceAIPoint;
     rr_ReservationPurpose := imagePointPurpose; rr_Quantity := gi_Points i;
     rr_State := ReservationReserved; rr_RequestFingerprint := gf_Fingerprint f;
     rr_CreatedAt := created; rr_SettledAt := None |}%string.

(** An event of points; image generations leave its [AllocatedAfter] at zero. *)
Definition point_event_row (r : organizationResourceReservationRow) (b : organizationResourceBucketRow)
    (operation reason : string) (available reserved consumed : Z) (allocatedAfter : Z)
    (gross debtRepaid net : Z) (eventID : string) : organizationResourceEventRow :=
  {| ev_EventID := eventID; ev_OrganizationID := rr_OrganizationID r; ev_OperationID := operation;
     ev_ReservationID := Some (rr_ReservationID r); ev_ResourceType := rr_ResourceType r;
     ev_Quantity := rr_Quantity r; ev_AvailableDelta := available; ev_AllocatedDelta := 0;
     ev_ReservedDelta := reserved; ev_ConsumedDelta := consumed; ev_Reason := reason;
     ev_SourceType := rr_OwnerType r; ev_SourceIdentity := rr_OwnerAttemptID r;
     ev_BalanceAfter := b_Available b; ev_AvailableAfter := b_Available b;
     ev_AllocatedAfter := allocatedAfter; ev_ReservedAfter := b_Reserved b;
     ev_ConsumedAfter := b_Consumed b; ev_GrossCredit := gross; ev_DebtRepaid := debtRepaid;
     ev_NetCredit := net |}.

Definition reserveNewImage (id : SlotExternalEffectIdentity) (f : GenerationFact)
    (op : organizationResourceOperationRow) : ST W GenerationReservationReceipt :=
  let org := si_TenantID id in
  let i := gf_Intent f in
  now ← Now;
  guard_not (negb (AIPointMonthStart now =? gi_MonthStart i)) ErrMemberLimitVersionConflict;;
  config ← take_pk limits (org, gi_MemberID i); config ← found ErrMemberLimitUnavailable config;
  guard_not (negb (lm_Version config =? gi_LimitVersion i)) ErrMemberLimitVersionConflict;;
  counter ← lockMemberMonth org (gi_MemberID i) (gi_MonthStart i);
  guard_not (over_limit config counter (gi_Points i)) ErrMemberLimitExceeded;;
  bucket ← lockPointBucket org (gi_Points i);
  reservationID ← NewString;
  created ← Now;
  let row := image_row id f reservationID created in
  Create resource_reservations row;;
  Save months (with_month (mo_Reserved counter +! gi_Points i) (mo_Consumed counter) counter);;
  let bucket := with_balances (b_Available bucket -! gi_Points i) (b_Allocated bucket)
    (b_Reserved bucket +! gi_Points i) (b_Consumed bucket) (b_UpdatedAt bucket) bucket in
  saveImageBucket bucket now;;
  let receipt := image_receipt org f reservationID in
  completeImageOperation op (GenerationReserved receipt) now;;
  eventID ← NewString;
  Create events (point_event_row row bucket (op_OperationID op) OperationReserve
    (-! gi_Points i) (gi_Points i) 0 0 0 0 0 eventID);;
  CreateAuditLog org (op_OperationID op) "image_generation_reserve" (si_OwnerUserID id) ""
    (GenerationReserved receipt);;
  mret receipt.

Definition reserveImageTransaction (id : SlotExternalEffectIdentity) (f : GenerationFact)
    : ST W GenerationReservationReceipt :=
  op ← lockFixedResourceOperation (si_TenantID id) (imageReserveKey f) "image_generation_reserve"
    (gf_Fingerprint f);
  if op_State op =s "succeeded" then
    match op_ImmutableResult op with GenerationReserved r => mret r | _ => fail ErrInternal end
  else
    guard_not ((op_State op ≠s "processing") || (gf_State f ≠s GenerationPrepared))
      ErrOwnerNotReservable;;
    reserveNewImage id f op.

Definition ReserveImageGeneration (id : SlotExternalEffectIdentity)
    : ST W GenerationReservationReceipt :=
  fact ← readImageFact id;
  check (AuthorizeImageGeneration (gf_Intent fact));;
  receipt ← Transaction (reserveImageTransaction id fact);
  guard_not (match BindReservation_fact fact receipt with Ok _ => false | Err _ => true end
    && negb (bool_decide (gf_Reservation fact = receipt))) ErrInvalidOwnerProof;;
  mret receipt.

Definition matchesImageReservation (f : GenerationFact) (r : organizationResourceReservationRow) : bool :=
  let i := gf_Intent f in
  (rr_OwnerType r =s imagePointOwner) && (rr_OwnerAttemptID r =s gf_IntentID f)
  && (rr_OperationID r =s imageReserveKey f) && (rr_OrganizationID r =s si_TenantID (gi_Identity i))
  && (rr_BusinessScope r =s si_RunID (gi_Identity i)) && (rr_ResourceType r =s ResourceAIPoint)
  && (rr_ReservationPurpose r =s imagePointPurpose) && (rr_Quantity r =? gi_Points i)
  && (rr_RequestFingerprint r =s gf_Fingerprint f) && (rr_MemberID r =s gi_MemberID i)
  && bool_decide (rr_MemberMonthStart r = Some (gi_MonthStart i))
  && (rr_MemberLimitVersion r =? gi_LimitVersion i) && (rr_PriceVersion r =s gi_PriceVersion i).

(** The receipt of a settlement in the state it comes to. *)
Definition image_settlement (f : GenerationFact) (proof state reservationID : string)
    : GenerationSettlementReceipt :=
  {| gt_IntentID := gf_IntentID f; gt_Fingerprint := gf_Fingerprint f;
     gt_OperationID := imageFinalizeKey f; gt_ReservationID := reservationID; gt_State := state;
     gt_ProofDigest := proof; gt_Points := gi_Points (gf_Intent f) |}.

(** Nothing was reserved: a reservation that arrives late finds its operation
    closed. *)
Definition closeUnreservedImage (org : string) (f : GenerationFact) (proof : string)
    (reserveOp : organizationResourceOperationRow) (now : Time) : ST W GenerationSettlementReceipt :=
  guard_not (gf_State f ≠s GenerationNoEffect) ErrInvalidOwnerProof;;
  Update operations (org, op_OperationID reserveOp) (failed_operation "image_no_generation" now);;
  mret (image_settlement f proof "no_reservation" "").

(** The reservation on record, and the month it counts in. *)
Definition imageReservationOf (org : string) (f : GenerationFact)
    (reserveOp : organizationResourceOperationRow)
    : ST W (organizationResourceReservationRow * memberAIPointMonthRow) :=
  guard_not (op_State reserveOp ≠s "succeeded") ErrIdempotencyKeyConflict;;
  receipt ← match op_ImmutableResult reserveOp with GenerationReserved r => mret r | _ => fail ErrInternal end;
  row ← take_pk resource_reservations (org, gr_ReservationID receipt);
  row ← found ErrRecordNotFound row;
  guard_not (negb (matchesImageReservation f row) || (rr_State row ≠s ReservationReserved))
    ErrInvalidOwnerProof;;
  guard_not ((gf_State f =s GenerationSucceeded) && negb (bool_decide (gf_Reservation f = receipt)))
    ErrInvalidOwnerProof;;
  counter ← lockMemberMonth org (rr_MemberID row) (default zero_time (rr_MemberMonthStart row));
  guard_not (mo_Reserved counter <? rr_Quantity row) ErrInvalidOwnerProof;;
  mret (row, counter).

Definition settleImage (org : string) (f : GenerationFact) (proof : string)
    (reserveOp finalOp : organizationResourceOperationRow) (now : Time)
    : ST W GenerationSettlementReceipt :=
  '(row, counter) ← imageReservationOf org f reserveOp;
  bucket ← take_pk buckets (org, ResourceAIPoint); bucket ← found ErrRecordNotFound bucket;
  guard_not (b_Reserved bucket <? rr_Quantity row) ErrInvalidOwnerProof;;
  let succeeded := gf_State f =s GenerationSucceeded in
  guard_not (succeeded && (mo_Consumed counter >? (max_int64 -! rr_Quantity row))) ErrInvalidInput;;
  let decision := if succeeded then SettlementCommit else SettlementRelease in
  let state := if succeeded then ReservationCommitted else ReservationReleased in
  settlement ← calculateSettlement row bucket decision;
  Save months (with_month (mo_Reserved counter -! rr_Quantity row)
    (if succeeded then mo_Consumed counter +! rr_Quantity row else mo_Consumed counter) counter);;
  let bucket := with_balances (cs_availableAfter settlement) (b_Allocated bucket)
    (cs_reservedAfter settlement) (cs_consumedAfter settlement) (b_UpdatedAt bucket) bucket in
  saveImageBucket bucket now;;
  Update resource_reservations (org, rr_ReservationID row)
    (with_state state (Some (op_OperationID finalOp)) (Some now));;
  eventID ← NewString;
  Create events (point_event_row row bucket (op_OperationID finalOp) decision
    (cs_netCredit settlement) (-! rr_Quantity row) (if succeeded then rr_Quantity row else 0) 0
    (cs_grossCredit settlement) (cs_debtRepaid settlement) (cs_netCredit settlement) eventID);;
  mret (image_settlement f proof state (rr_ReservationID row)).

Definition finalizeImageTransaction (id : SlotExternalEffectIdentity) (f : GenerationFact)
    : ST W GenerationSettlementReceipt :=
  let org := si_TenantID id in
  let proof := GenerationFact_TerminalProofDigest f in
  reserveOp ← lockFixedResourceOperation org (imageReserveKey f) "image_generation_reserve"
    (gf_Fingerprint f);
  finalOp ← lockFixedResourceOperation org (imageFinalizeKey f) "image_generation_finalize" proof;
  if op_State finalOp =s "succeeded" then
    match op_ImmutableResult finalOp with GenerationSettled r => mret r | _ => fail ErrInternal end
  else
    guard_not (op_State finalOp ≠s "processing") ErrIdempotencyKeyConflict;;
    now ← Now;
    result ← (if op_State reserveOp =s "processing"
              then closeUnreservedImage org f proof reserveOp now
              else settleImage org f proof reserveOp finalOp now);
    completeImageOperation finalOp (GenerationSettled result) now;;
    CreateAuditLog org (op_OperationID finalOp)
      ("image_generation_finalize:" +:+ gt_State result)%string (si_OwnerUserID id) proof
      (GenerationSettled result);;
    mret result.

Definition FinalizeImageGeneration (id : SlotExternalEffectIdentity)
    : ST W GenerationSettlementReceipt :=
  fact ← readImageFact id;
  guard_not ((gf_State fact ≠s GenerationSucceeded) && (gf_State fact ≠s GenerationNoEffect))
    ErrOwnerNotTerminal;;
  Transaction (finalizeImageTransaction id fact).

(** ** Model invocations *)

Definition readInvocation (org id : string) : ST W InvocationRecord :=
  fact ← ask_owners (ReadModelInvocation org id);
  guard_not (negb (valid_invocation org id fact)) ErrInvalidOwnerProof;;
  mret fact.

Definition model_receipt (f : InvocationRecord) (reservationID : string) (version : Z)
    : modelPointReceipt :=
  {| mr_ReservationID := reservationID; mr_MemberID := ir_MemberID f;
     mr_Fingerprint := modelPointFingerprint f; mr_PriceVersion := mp_PriceVersion (ir_PointTariff f);
     mr_Quantity := maximum_points f; mr_LimitVersion := version;
     mr_Month := AIPointMonthStart (ir_StartedAt f) |}.

Definition model_row (f : InvocationRecord) (receipt : modelPointReceipt) (now : Time)
    : organizationResourceReservationRow :=
  {| rr_ChargeBalanceAfter := 0; rr_ChargeProtocol := ""; rr_ChargeActorID := ir_UserID f;
     rr_ChargeFunding := ""; rr_ChargeEvidenceID := ""; rr_NextCheckAt := Some now;
     rr_MemberID := ir_MemberID f; rr_MemberMonthStart := Some (mr_Month receipt);
     rr_MemberLimitVersion := mr_LimitVersion receipt; rr_PriceVersion := mr_PriceVersion receipt;
     rr_OrganizationID := ir_TenantID f; rr_ReservationID := mr_ReservationID receipt;
     rr_OperationID := modelPointKey "reserve" (ir_InvocationID f);
     rr_SettlementOperationID := None; rr_OwnerType := modelPointOwner;
     rr_OwnerAttemptID := ir_InvocationID f; rr_BusinessScope := modelPointBusinessScope f;
     rr_ResourceType := ResourceAIPoint; rr_ReservationPurpose := modelPointOwner;
     rr_Quantity := mr_Quantity receipt; rr_State := ReservationReserved;
     rr_RequestFingerprint := mr_Fingerprint receipt; rr_CreatedAt := now;
     rr_SettledAt := None |}%string.

Definition matchesModelPointReceipt (f : InvocationRecord) (receipt : modelPointReceipt)
    (r : organizationResourceReservationRow) : bool :=
  let month := AIPointMonthStart (ir_StartedAt f) in
  (mr_ReservationID receipt ≠s "") && (mr_MemberID receipt =s ir_MemberID f)
  && (mr_Fingerprint receipt =s modelPointFingerprint f)
  && (mr_PriceVersion receipt =s mp_PriceVersion (ir_PointTariff f))
  && (mr_Quantity receipt =? maximum_points f) && (mr_LimitVersion receipt >? 0)
  && (mr_Month receipt =? month) && (rr_OrganizationID r =s ir_TenantID f)
  && (rr_OwnerType r =s modelPointOwner) && (rr_OwnerAttemptID r =s ir_InvocationID f)
  && (rr_BusinessScope r =s modelPointBusinessScope f) && (rr_ResourceType r =s ResourceAIPoint)
  && (rr_ReservationPurpose r =s modelPointOwner) && (rr_Quantity r =? maximum_points f)
  && (rr_RequestFingerprint r =s modelPointFingerprint f) && (rr_MemberID r =s mr_MemberID receipt)
  && bool_decide (rr_MemberMonthStart r = Some month)
  && (rr_MemberLimitVersion r =? mr_LimitVersion receipt)
  && (rr_PriceVersion r =s mr_PriceVersion receipt) && (rr_ChargeActorID r =s ir_UserID f).

(** The event and the audit log of a model invocation. *)
Definition writeModelPointEvent (row : organizationResourceReservationRow)
    (bucket : organizationResourceBucketRow) (op reason : string) (available reserved consumed : Z)
    (credit : positiveCreditAllocation) (payload : resourceResult) : ST W unit :=
  eventID ← NewString;
  Create events (point_event_row row bucket op reason available reserved consumed
    (b_Allocated bucket) (pc_gross credit) (pc_debtRepaid credit) (pc_net credit) eventID);;
  CreateAuditLog (rr_OrganizationID row) op reason (rr_ChargeActorID row) "" payload.

Definition reserveNewInvocation (f : InvocationRecord) (op : organizationResourceOperationRow)
    : ST W unit :=
  let org := ir_TenantID f in
  let quantity := maximum_points f in
  now ← Now;
  let month := AIPointMonthStart (ir_StartedAt f) in
  guard_not (negb (month =? AIPointMonthStart now)) ErrMemberLimitVersionConflict;;
  limit ← take_pk limits (org, ir_MemberID f); limit ← found ErrMemberLimitUnavailable limit;
  counter ← lockMemberMonth org (ir_MemberID f) month;
  guard_not (over_limit limit counter quantity) ErrMemberLimitExceeded;;
  bucket ← lockPointBucket org quantity;
  reservationID ← NewString;
  let receipt := model_receipt f reservationID (lm_Version limit) in
  let row := model_row f receipt now in
  Create resource_reservations row;;
  Save months (with_month (mo_Reserved counter +! quantity) (mo_Consumed counter) counter);;
  let bucket := with_balances (b_Available bucket -! quantity) (b_Allocated bucket)
    (b_Reserved bucket +! quantity) (b_Consumed bucket) (b_UpdatedAt bucket) bucket in
  updateConsumerBucket bucket now;;
  completeImageOperation op (ModelPointReserved receipt) now;;
  writeModelPointEvent row bucket (op_OperationID op) "model_point_reserve" (-! quantity) quantity 0
    no_credit (ModelPointReserved receipt).

Definition reserveInvocationTransaction (f : InvocationRecord) : ST W unit :=
  let org := ir_TenantID f in
  op ← lockFixedResourceOperation org (modelPointKey "reserve" (ir_InvocationID f))
    "model_point_reserve" (modelPointFingerprint f);
  if op_State op =s "succeeded" then
    receipt ← match op_ImmutableResult op with
      | ModelPointReserved r => mret r | _ => fail ErrInvalidOwnerProof end;
    row ← take_pk resource_reservations (org, mr_ReservationID receipt);
    row ← found ErrRecordNotFound row;
    guard_not (negb (matchesModelPointReceipt f receipt row)) ErrInvalidOwnerProof
  else
    guard_not ((op_State op ≠s "processing") || (ir_Outcome f ≠s InvocationDispatched))
      ErrOwnerNotReservable;;
    reserveNewInvocation f op.

Definition ReserveAIInvocationUsage (org member id : string) (maximumTokens : Z) (at_ : Time)
    : ST W unit :=
  fact ← readInvocation org id;
  guard_not ((ir_MemberID fact ≠s member)
    || negb (maximumTokens =? (ir_MaximumPromptTokens fact +! ir_MaximumCompletionTokens fact))
    || negb (Truncate at_ Microsecond =? Truncate (ir_StartedAt fact) Microsecond))
    ErrInvalidOwnerProof;;
  check (AuthorizeModelInvocation fact);;
  Transaction (reserveInvocationTransaction fact).

(** A reservation that is finalized: settled, with its proof, and no longer due. *)
Definition finalized_row (state operation proof : string) (now : Time)
    (r : organizationResourceReservationRow) : organizationResourceReservationRow :=
  {| rr_ChargeBalanceAfter := rr_ChargeBalanceAfter r; rr_ChargeProtocol := rr_ChargeProtocol r;
     rr_ChargeActorID := rr_ChargeActorID r; rr_ChargeFunding := rr_ChargeFunding r;
     rr_ChargeEvidenceID := proof; rr_NextCheckAt := None; rr_MemberID := rr_MemberID r;
     rr_MemberMonthStart := rr_MemberMonthStart r; rr_MemberLimitVersion := rr_MemberLimitVersion r;
     rr_PriceVersion := rr_PriceVersion r; rr_OrganizationID := rr_OrganizationID r;
     rr_ReservationID := rr_ReservationID r; rr_OperationID := rr_OperationID r;
     rr_SettlementOperationID := Some operation; rr_OwnerType := rr_OwnerType r;
     rr_OwnerAttemptID := rr_OwnerAttemptID r; rr_BusinessScope := rr_BusinessScope r;
     rr_ResourceType := rr_ResourceType r; rr_ReservationPurpose := rr_ReservationPurpose r;
     rr_Quantity := rr_Quantity r; rr_State := state;
     rr_RequestFingerprint := rr_RequestFingerprint r; rr_CreatedAt := rr_CreatedAt r;
     rr_SettledAt := Some now |}.

(** The reservation of an invocation, and the month it counts in. *)
Definition invocationReservationOf (f : InvocationRecord) (actual : Z)
    (reserve : organizationResourceOperationRow)
    : ST W (organizationResourceReservationRow * memberAIPointMonthRow) :=
  let org := ir_TenantID f in
  guard_not (op_State reserve ≠s "succeeded") ErrIdempotencyKeyConflict;;
  receipt ← match op_ImmutableResult reserve with
    | ModelPointReserved r => mret r | _ => fail ErrInvalidOwnerProof end;
  row ← take_pk resource_reservations (org, mr_ReservationID receipt);
  row ← found ErrRecordNotFound row;
  guard_not (negb (matchesModelPointReceipt f receipt row) || negb (open_reservation row)
    || (actual >? maximum_points f)) ErrInvalidOwnerProof;;
  counter ← lockMemberMonth org (rr_MemberID row) (mr_Month receipt);
  mret (row, counter).

(** What was reserved and not used comes back, debt first. *)
Definition unused_credit (org : string) (quantity actual available : Z)
    : ST W positiveCreditAllocation :=
  if quantity >? actual
  then applyPositiveCredit org ResourceAIPoint (quantity -! actual) available
  else mret {| pc_gross := 0; pc_debtRepaid := 0; pc_net := 0; pc_availableAfter := available |}.

Definition settleInvocation (f : InvocationRecord) (actual : Z) (state proof : string)
    (payload : resourceResult) (reserve final : organizationResourceOperationRow) (now : Time)
    : ST W unit :=
  let org := ir_TenantID f in
  let quantity := maximum_points f in
  '(row, counter) ← invocationReservationOf f actual reserve;
  bucket ← take_pk buckets (org, ResourceAIPoint); bucket ← found ErrRecordNotFound bucket;
  guard_not ((mo_Reserved counter <? quantity) || (b_Reserved bucket <? quantity)
    || (mo_Consumed counter >? (max_int64 -! actual)) || (b_Consumed bucket >? (max_int64 -! actual)))
    ErrInvalidOwnerProof;;
  credit ← unused_credit org quantity actual (b_Available bucket);
  Save months (with_month (mo_Reserved counter -! quantity) (mo_Consumed counter +! actual) counter);;
  let bucket := with_balances (pc_availableAfter credit) (b_Allocated bucket)
    (b_Reserved bucket -! quantity) (b_Consumed bucket +! actual) (b_UpdatedAt bucket) bucket in
  updateConsumerBucket bucket now;;
  Update resource_reservations (org, rr_ReservationID row)
    (finalized_row state (op_OperationID final) proof now);;
  writeModelPointEvent row bucket (op_OperationID final) ("model_point_" +:+ state)%string
    (pc_net credit) (-! quantity) actual credit payload.

Definition finalizeInvocationTransaction (f : InvocationRecord) (actual : Z) (noDispatch : bool)
    : ST W unit :=
  let org := ir_TenantID f in
  let proof := modelPointProof f in
  reserve ← lockFixedResourceOperation org (modelPointKey "reserve" (ir_InvocationID f))
    "model_point_reserve" (modelPointFingerprint f);
  final ← lockFixedResourceOperation org (modelPointKey "finalize" (ir_InvocationID f))
    "model_point_finalize" proof;
  if op_State final =s "succeeded" then mret tt
  else
    guard_not (op_State final ≠s "processing") ErrIdempotencyKeyConflict;;
    now ← Now;
    let state := if noDispatch then ReservationReleased else ReservationCommitted in
    let payload := ModelPointSettled state proof actual in
    (if op_State reserve =s "processing" then
       guard_not (negb noDispatch) ErrInvalidOwnerProof;;
       _ ← UpdateWhere operations (org, op_OperationID reserve) (λ o, op_State o =s "processing")
         (failed_operation "model_not_dispatched" now);
       mret tt
     else settleInvocation f actual state proof payload reserve final now);;
    completeImageOperation final payload now.

(** [finalize]. *)
Definition finalizeInvocation (f : InvocationRecord) : ST W unit :=
  '(actual, noDispatch) ← lift (modelPointTerminal f);
  Transaction (finalizeInvocationTransaction f actual noDispatch).

Definition SettleAIInvocationUsage (org member id : string) (total : Z) (at_ : Time) : ST W unit :=
  fact ← readInvocation org id;
  guard_not ((ir_MemberID fact ≠s member) || negb (total =? ir_TotalTokens fact)
    || negb (Truncate at_ Microsecond =? Truncate (ir_FinishedAt fact) Microsecond))
    ErrInvalidOwnerProof;;
  finalizeInvocation fact.

Definition ReleaseAIInvocationUsage (org id : string) : ST W unit :=
  fact ← readInvocation org id;
  '(_, noDispatch) ← lift (modelPointTerminal fact);
  guard_not (negb noDispatch) ErrInvalidOwnerProof;;
  finalizeInvocation fact.

(** *** Recovery *)

Definition due_invocation (now : Time) (r : organizationResourceReservationRow) : bool :=
  (rr_OwnerType r =s modelPointOwner) && (rr_ReservationPurpose r =s modelPointOwner)
  && open_reservation r && match rr_NextCheckAt r with Some t => t <=? now | None => false end.

Definition postpone (next : Time) (row : organizationResourceReservationRow) : ST W unit :=
  Update resource_reservations (rr_OrganizationID row, rr_ReservationID row) (with_next_check next).

Definition claimDueInvocations : ST W (list organizationResourceReservationRow) :=
  Transaction (
    now ← Now;
    rows ← Find resource_reservations (due_invocation now);
    let rows := List.firstn 50 (merge_sort due_before rows) in
    each (postpone (now + 30 * Second)) rows;;
    mret rows).

Fixpoint finalize_all (l : list organizationResourceReservationRow) : ST W (Z * list goerr) :=
  match l with
  | [] => mret (0, [])
  | row :: l' =>
    r ← attempt (fact ← readInvocation (rr_OrganizationID row) (rr_OwnerAttemptID row);
                 finalizeInvocation fact);
    '(completed, failures) ← finalize_all l';
    mret (match r with
          | Ok _ => (completed + 1, failures)
          | Err ErrOwnerNotTerminal => (completed, failures)
          | Err e => (completed, e :: failures)
          end)
  end.

Definition RecoverDueInvocations : ST W (Z * list goerr) :=
  rows ← claimDueInvocations;
  finalize_all rows.
End points.
