(* ===== verification/ResourceBooks.v ===== *)
(** * The books of organization resources

    What the tables of resources say about an account (an organization and a
    resource type), about a member's share of it and about a member's month of
    AI points, and the specification of the ledger: a database moves to the next
    one either quietly, with no balance changed, or by posting one event, which
    moves balances, debt, reservations, members' shares and months by exactly its
    deltas. The books balance in every database that postings reach from one
    without history. *)
From S2P Require Import Prelude GoStd Encoding GenerationFacts ResourceTypes PointTypes Store ResourceStore ResourceRepo ResourceCharges ResourcePoints.

(** ** Sums over a table *)

Section tally.
Context {K V : Type} `{Countable K}.
Implicit Types (P : V → bool) (f : V → Z) (m : gmap K V).

Definition tally P f m : Z := msum (λ v, if P v then f v else 0) m.

Definition term P f (o : option V) : Z :=
  match o with Some v => if P v then f v else 0 | None => 0 end.

Lemma tally_put P f m k v : tally P f (<[k:=v]> m) = tally P f m - term P f (m !! k) + term P f (Some v).
Proof.
  unfold tally, term. destruct (m !! k) as [v0|] eqn:Hk.
  - by rewrite (msum_update _ m k v0 v).
  - rewrite msum_insert by done. lia.
Qed.

Lemma tally_nonneg P f m : (∀ k v, m !! k = Some v → P v = true → 0 ≤ f v) → 0 ≤ tally P f m.
Proof. intros Hf. apply msum_nonneg. intros k v Hk. destruct (P v) eqn:HP; [eauto|done]. Qed.

(** A row is within the sum of its kind. *)
Lemma tally_le P f m k v : (∀ k v, m !! k = Some v → P v = true → 0 ≤ f v) →
  m !! k = Some v → P v = true → f v ≤ tally P f m.
Proof.
  intros Hf Hk HP. pose proof (msum_lookup_le (λ v, if P v then f v else 0) m k v) as Hl.
  simpl in Hl. rewrite HP in Hl. apply Hl; [|done]. intros k' v' Hk'.
  destruct (P v') eqn:?; [eauto|done].
Qed.

(** The value of a row, zero when there is none. *)
Definition cell f m (k : K) : Z := match m !! k with Some v => f v | None => 0 end.

Lemma cell_put f m k k' v : cell f (<[k:=v]> m) k' = if decide (k' = k) then f v else cell f m k'.
Proof.
  unfold cell. destruct (decide (k' = k)) as [->|Hne]; [by rewrite lookup_insert_eq|].
  by rewrite lookup_insert_ne.
Qed.
Lemma cell_at f m k v : m !! k = Some v → cell f m k = f v.
Proof. unfold cell. by intros ->. Qed.
End tally.

(** ** Accounts and shares *)

(** An organization and a resource type; a member's share of it. *)
Abbreviation account := (string * string)%type.
Abbreviation share_key := (string * string * string)%type.
(** A member's month. *)
Abbreviation month_key := (string * string * Time)%type.

Definition event_account (e : organizationResourceEventRow) : account :=
  (ev_OrganizationID e, ev_ResourceType e).
Definition reservation_account (r : organizationResourceReservationRow) : account :=
  (rr_OrganizationID r, rr_ResourceType r).
Definition position_account (p : memberResourcePositionRow) : account :=
  (po_OrganizationID p, po_ResourceType p).
Definition share_of (r : organizationResourceReservationRow) : share_key :=
  (rr_OrganizationID r, rr_MemberID r, rr_ResourceType r).

(** A charge paid out of a member's share. *)
Definition member_charge (r : organizationResourceReservationRow) : bool :=
  (rr_ChargeProtocol r =s consumerChargeProtocol) && (rr_ChargeFunding r =s FundingMember).
Definition committed (r : organizationResourceReservationRow) : bool :=
  rr_State r =s ReservationCommitted.

(** Points that an image generation or a model invocation reserved: they count in
    a month of the member, and what is consumed may be less than was reserved. *)
Definition point_owner (t : string) : bool := (t =s imagePointOwner) || (t =s modelPointOwner).
Definition pointed (r : organizationResourceReservationRow) : bool := point_owner (rr_OwnerType r).
Definition month_of (r : organizationResourceReservationRow) : option month_key :=
  (λ t, (rr_OrganizationID r, rr_MemberID r, t)) <$> rr_MemberMonthStart r.
Definition month_account (x : memberAIPointMonthRow) : account :=
  (mo_OrganizationID x, ResourceAIPoint).
(** Committed, and consumed as reserved. *)
Definition committed_whole (r : organizationResourceReservationRow) : bool :=
  committed r && negb (pointed r).

(** Events that mint: the other ones only move what there is. *)
Definition is_grant (e : organizationResourceEventRow) : bool :=
  (ev_Reason e =s SourceOnboardingWelcomeStorePeriod)
  || (ev_Reason e =s OperationGrantCommercialPurchase)
  || (ev_Reason e =s OperationGrantLocalAITrial).

Section books.
Context {O : Type}.
Notation DB := (ResourceDB O).
Implicit Types (d : DB) (k : account) (p : share_key).

Definition balance (f : organizationResourceBucketRow → Z) d k : Z := cell f (rd_buckets d) k.
Definition owed d k : Z := cell db_Amount (rd_debts d) k.
Definition share (f : memberResourcePositionRow → Z) d p : Z := cell f (rd_positions d) p.

(** Sums by account: of events, of reservations of a kind, of members' shares. *)
Definition of_events (f : organizationResourceEventRow → Z) d k : Z :=
  tally (λ e, bool_decide (event_account e = k)) f (rd_events d).
Definition held (P : organizationResourceReservationRow → bool) d k : Z :=
  tally (λ r, P r && bool_decide (reservation_account r = k)) rr_Quantity (rd_reservations d).
Definition of_shares (f : memberResourcePositionRow → Z) d k : Z :=
  tally (λ x, bool_decide (position_account x = k)) f (rd_positions d).
(** What a member's charges of a kind hold of its share. *)
Definition charged (P : organizationResourceReservationRow → bool) d p : Z :=
  tally (λ r, P r && member_charge r && bool_decide (share_of r = p)) rr_Quantity
    (rd_reservations d).

Definition month (f : memberAIPointMonthRow → Z) d (m : month_key) : Z := cell f (rd_months d) m.
Definition of_months (f : memberAIPointMonthRow → Z) d k : Z :=
  tally (λ x, bool_decide (month_account x = k)) f (rd_months d).
(** What open reservations hold of a month. *)
Definition pledged d (m : month_key) : Z :=
  tally (λ r, open_reservation r && pointed r && bool_decide (month_of r = Some m)) rr_Quantity
    (rd_reservations d).
(** What was consumed: reservations as a whole, and points by the month. *)
Definition spent d k : Z := held committed_whole d k + of_months mo_Consumed d k.

(** What is minted: the gross credit of grants. *)
Definition minted (e : organizationResourceEventRow) : Z :=
  if is_grant e then ev_GrossCredit e else 0.

(** *** The specification

    [at_account k k' x]: [x] in the account [k], nothing elsewhere. *)
Definition at_account k k' (x : Z) : Z := if decide (k' = k) then x else 0.

(** Every unit is accounted for. *)
Definition event_balanced (e : organizationResourceEventRow) : Prop :=
  ev_AvailableDelta e + ev_AllocatedDelta e + ev_ReservedDelta e + ev_ConsumedDelta e
    + ev_DebtRepaid e = minted e.

(** One event is posted. *)
Record posts (e : organizationResourceEventRow) d d' : Prop := {
  post_events : rd_events d' = <[pk (@events O) e := e]> (rd_events d);
  post_fresh : rd_events d !! pk (@events O) e = None;
  post_available k : balance b_Available d' k =
    balance b_Available d k + at_account (event_account e) k (ev_AvailableDelta e);
  post_allocated k : balance b_Allocated d' k =
    balance b_Allocated d k + at_account (event_account e) k (ev_AllocatedDelta e);
  post_reserved k : balance b_Reserved d' k =
    balance b_Reserved d k + at_account (event_account e) k (ev_ReservedDelta e);
  post_consumed k : balance b_Consumed d' k =
    balance b_Consumed d k + at_account (event_account e) k (ev_ConsumedDelta e);
  post_owed k : owed d' k = owed d k - at_account (event_account e) k (ev_DebtRepaid e);
  post_open k : held open_reservation d' k =
    held open_reservation d k + at_account (event_account e) k (ev_ReservedDelta e);
  post_committed k : spent d' k = spent d k + at_account (event_account e) k (ev_ConsumedDelta e);
  post_shares k : of_shares po_Free d' k =
    of_shares po_Free d k + at_account (event_account e) k (ev_AllocatedDelta e);
  post_member_open p : share po_Reserved d' p - charged open_reservation d' p =
    share po_Reserved d p - charged open_reservation d p;
  post_member_committed p : share po_Consumed d' p - charged committed d' p =
    share po_Consumed d p - charged committed d p;
  post_months m : month mo_Reserved d' m - pledged d' m = month mo_Reserved d m - pledged d m;
  post_balanced : event_balanced e;
  post_after : ev_AvailableAfter e = balance b_Available d' (event_account e) ∧
    ev_ReservedAfter e = balance b_Reserved d' (event_account e) ∧
    ev_ConsumedAfter e = balance b_Consumed d' (event_account e) }.

(** Nothing that counts changes. *)
Record quiet d d' : Prop := {
  quiet_events : rd_events d' = rd_events d;
  quiet_balance k : balance b_Available d' k = balance b_Available d k ∧
    balance b_Allocated d' k = balance b_Allocated d k ∧
    balance b_Reserved d' k = balance b_Reserved d k ∧
    balance b_Consumed d' k = balance b_Consumed d k;
  quiet_owed k : owed d' k = owed d k;
  quiet_open k : held open_reservation d' k = held open_reservation d k;
  quiet_committed k : spent d' k = spent d k;
  quiet_shares k : of_shares po_Free d' k = of_shares po_Free d k;
  quiet_member p : share po_Reserved d' p = share po_Reserved d p ∧
    share po_Consumed d' p = share po_Consumed d p ∧
    charged open_reservation d' p = charged open_reservation d p ∧
    charged committed d' p = charged committed d p;
  quiet_months m : month mo_Reserved d' m = month mo_Reserved d m ∧ pledged d' m = pledged d m }.

Inductive ledger_step : list organizationResourceEventRow → DB → DB → Prop :=
  | step_quiet d d' : quiet d d' → ledger_step [] d d'
  | step_post e d d' : posts e d d' → ledger_step [e] d d'
  | step_app l l' d1 d2 d3 : ledger_step l d1 d2 → ledger_step l' d2 d3 → ledger_step (l ++ l') d1 d3.

(** *** The books

    [start]: the debts at the beginning. *)
Record Balanced (start : account → Z) d : Prop := {
  books_available k : balance b_Available d k = of_events ev_AvailableDelta d k;
  books_allocated k : balance b_Allocated d k = of_events ev_AllocatedDelta d k;
  books_reserved k : balance b_Reserved d k = of_events ev_ReservedDelta d k;
  books_consumed k : balance b_Consumed d k = of_events ev_ConsumedDelta d k;
  books_owed k : owed d k + of_events ev_DebtRepaid d k = start k;
  books_minted k : balance b_Available d k + balance b_Allocated d k + balance b_Reserved d k
    + balance b_Consumed d k + of_events ev_DebtRepaid d k = of_events minted d k;
  books_open k : balance b_Reserved d k = held open_reservation d k;
  books_committed k : balance b_Consumed d k = spent d k;
  books_shares k : balance b_Allocated d k = of_shares po_Free d k;
  books_member_open p : share po_Reserved d p = charged open_reservation d p;
  books_member_committed p : share po_Consumed d p = charged committed d p;
  books_months m : month mo_Reserved d m = pledged d m }.

Lemma of_events_put f d d' e k : rd_events d' = <[pk (@events O) e := e]> (rd_events d) →
  rd_events d !! pk (@events O) e = None →
  of_events f d' k = of_events f d k + at_account (event_account e) k (f e).
Proof.
  intros He Hf. unfold of_events. rewrite He, tally_put, Hf. unfold term, at_account.
  case_bool_decide; case_decide; subst; try congruence; lia.
Qed.

Lemma posts_balanced start e d d' : posts e d d' → Balanced start d → Balanced start d'.
Proof.
  intros Hp Hb. pose proof (λ f x, of_events_put f d d' e x (post_events _ _ _ Hp) (post_fresh _ _ _ Hp)) as Hev.
  destruct Hp as [_ _ Ha Hl Hr Hc Ho Hop Hcm Hs Hmo Hmc Hmn Hbal _], Hb. unfold event_balanced in Hbal.
  split; intros x; rewrite ?Ha, ?Hl, ?Hr, ?Hc, ?Ho, ?Hop, ?Hcm, ?Hs, ?Hev.
  - specialize (books_available0 x). lia.
  - specialize (books_allocated0 x). lia.
  - specialize (books_reserved0 x). lia.
  - specialize (books_consumed0 x). lia.
  - specialize (books_owed0 x). lia.
  - specialize (books_minted0 x). unfold at_account. case_decide; lia.
  - specialize (books_open0 x). lia.
  - specialize (books_committed0 x). lia.
  - specialize (books_shares0 x). lia.
  - specialize (Hmo x). specialize (books_member_open0 x). lia.
  - specialize (Hmc x). specialize (books_member_committed0 x). lia.
  - specialize (Hmn x). specialize (books_months0 x). lia.
Qed.

Lemma quiet_balanced start d d' : quiet d d' → Balanced start d → Balanced start d'.
Proof.
  intros [He Hb Ho Hop Hc Hs Hm Hn] B. assert (∀ f k, of_events f d' k = of_events f d k) as Hev.
  { intros f k. unfold of_events. by rewrite He. }
  assert (∀ x, balance b_Available d' x = balance b_Available d x) as H1 by apply Hb.
  assert (∀ x, balance b_Allocated d' x = balance b_Allocated d x) as H2 by apply Hb.
  assert (∀ x, balance b_Reserved d' x = balance b_Reserved d x) as H3 by apply Hb.
  assert (∀ x, balance b_Consumed d' x = balance b_Consumed d x) as H4 by apply Hb.
  split; intros x; rewrite ?H1, ?H2, ?H3, ?H4, ?Hev, ?Ho, ?Hop, ?Hc, ?Hs; try apply B.
  - destruct (Hm x) as (-> & _ & -> & _). apply B.
  - destruct (Hm x) as (_ & -> & _ & ->). apply B.
  - destruct (Hn x) as [-> ->]. apply B.
Qed.

Lemma ledger_step_balanced start l d d' : ledger_step l d d' → Balanced start d → Balanced start d'.
Proof. induction 1; eauto using posts_balanced, quiet_balanced. Qed.
End books.
