(* ===== verification/ResourceInv.v ===== *)
(** * Invariants of the resource tables

    [Sound]: every row is well formed and its amounts are within an int64.
    [Traced]: every row is explained by an operation that succeeded. [kept]:
    history is never rewritten. [evolves] puts them together with the steps of
    ResourceBooks; it composes, and quiet statements respect it. *)
From S2P Require Import Prelude GoStd Encoding Cursors GenerationFacts ResourceTypes PointTypes Store ResourceStore ResourceRepo ResourceCharges ResourcePoints ResourceBooks.

Definition amount (z : Z) : Prop := 0 ≤ z ≤ max_int64.

Section invariants.
Context {O : Type}.
Notation DB := (ResourceDB O).
Implicit Types (d : DB) (k : account) (p : share_key).

(** ** Well-formed rows *)

Record good_bucket k (b : organizationResourceBucketRow) : Prop := {
  gb_key : k = (b_OrganizationID b, b_ResourceType b);
  gb_type : validResourceType (b_ResourceType b) = true;
  gb_available : amount (b_Available b);
  gb_allocated : amount (b_Allocated b);
  gb_reserved : amount (b_Reserved b);
  gb_consumed : amount (b_Consumed b);
  gb_points : b_ResourceType b = ResourceAIPoint → b_Allocated b = 0 }.

Record good_debt k (x : organizationResourceDebtRow) : Prop := {
  gd_key : k = (db_OrganizationID x, db_ResourceType x);
  gd_amount : amount (db_Amount x) }.

Record good_share p (x : memberResourcePositionRow) : Prop := {
  gs_key : p = (po_OrganizationID x, po_MemberID x, po_ResourceType x);
  gs_type : IsMemberAllocatedResource (po_ResourceType x) = true;
  gs_free : amount (po_Free x);
  gs_reserved : amount (po_Reserved x);
  gs_consumed : amount (po_Consumed x);
  gs_version : amount (po_Version x) }.

Record good_reservation (k : string * string) (r : organizationResourceReservationRow) : Prop := {
  gr_key : k = (rr_OrganizationID r, rr_ReservationID r);
  gr_quantity : 0 < rr_Quantity r ≤ max_int64;
  gr_state : rr_State r = ReservationReserved ∨ rr_State r = ReservationCommitted ∨
             rr_State r = ReservationReleased;
  gr_settled : rr_SettlementOperationID r = None ↔ open_reservation r = true;
  gr_charge : rr_ChargeProtocol r = consumerChargeProtocol →
    ValidConsumerChargeIntent (cr_Intent (consumerChargeReceipt r)) = true;
  gr_pointed : pointed r = true → is_Some (rr_MemberMonthStart r) ∧
    rr_ResourceType r = ResourceAIPoint ∧ rr_ChargeProtocol r ≠ consumerChargeProtocol }.

Record good_month (m : month_key) (x : memberAIPointMonthRow) : Prop := {
  gm_key : m = (mo_OrganizationID x, mo_MemberID x, mo_MonthStart x);
  gm_reserved : amount (mo_Reserved x);
  gm_consumed : amount (mo_Consumed x) }.

Record Sound d : Prop := {
  snd_buckets : map_Forall good_bucket (rd_buckets d);
  snd_debts : map_Forall good_debt (rd_debts d);
  snd_debtors k : is_Some (rd_debts d !! k) → is_Some (rd_buckets d !! k);
  snd_idle k : 0 < owed d k → balance b_Available d k = 0;
  snd_shares : map_Forall good_share (rd_positions d);
  snd_reservations : map_Forall good_reservation (rd_reservations d);
  snd_months : map_Forall good_month (rd_months d) }.

(** ** Where rows come from *)

(** The operation a finalization is the second part of: it was closed, or
    succeeded, before. *)
Definition reserve_key_of (o : organizationResourceOperationRow) : option string :=
  if op_OperationType o =s "image_generation_finalize" then
    (String.append "image-reserve:") <$> strip_prefix "image-finalize:" (op_OperationID o)
  else if op_OperationType o =s "model_point_finalize" then
    (String.append "model-point-reserve:") <$> strip_prefix "model-point-finalize:" (op_OperationID o)
  else None.

(** An operation that reserves points and was closed without a reservation. *)
Definition closable (kind : string) : bool :=
  (kind =s "image_generation_reserve") || (kind =s "model_point_reserve").
Definition closed_reserve (o : organizationResourceOperationRow) : Prop :=
  op_State o = "failed"%string ∧ closable (op_OperationType o) = true.

(** An administrator set the limit [z] for a member. *)
Definition limit_set d (org member : string) (z : Z) : Prop :=
  ∃ k o s, rd_operations d !! k = Some o ∧ op_OperationType o = "set_member_ai_point_limit"%string ∧
    op_State o = "succeeded"%string ∧ op_ImmutableResult o = LimitResult s ∧ ms_OrganizationID s = org ∧ ms_MemberID s = member ∧ ms_MonthlyLimit s = z.

(** An event that takes out of what is reserved settles its reservation. *)
Definition settles (e : organizationResourceEventRow) : Prop := ev_ReservedDelta e < 0.

(** What a member uses of a month is within a limit that was set. *)
Definition limited d (m : memberAIPointMonthRow) : Prop :=
  0 < mo_Reserved m + mo_Consumed m → ∃ z,
    limit_set d (mo_OrganizationID m) (mo_MemberID m) z ∧ mo_Reserved m + mo_Consumed m ≤ z.

Record Traced d : Prop := {
  trc_operations : map_Forall (λ k o, k = (op_OrganizationID o, op_OperationID o) ∧
    (op_State o = "succeeded"%string ∨ closed_reserve o)) (rd_operations d);
  trc_finalized k o key : rd_operations d !! k = Some o → reserve_key_of o = Some key →
    is_Some (rd_operations d !! (op_OrganizationID o, key));
  trc_limits : map_Forall (λ k l, k = (lm_OrganizationID l, lm_MemberID l) ∧
    amount (lm_MonthlyLimit l) ∧ limit_set d (lm_OrganizationID l) (lm_MemberID l) (lm_MonthlyLimit l)) (rd_limits d);
  trc_months : map_Forall (λ _ m, limited d m) (rd_months d);
  trc_events : map_Forall (λ k e, k = (ev_EventID e, ev_OrganizationID e) ∧
    is_Some (rd_operations d !! (ev_OrganizationID e, ev_OperationID e))) (rd_events d);
  trc_once k1 e1 k2 e2 : rd_events d !! k1 = Some e1 → rd_events d !! k2 = Some e2 →
    ev_OrganizationID e1 = ev_OrganizationID e2 → ev_OperationID e1 = ev_OperationID e2 → k1 = k2;
  trc_claims : map_Forall (λ k c, k = (sc_SourceType c, sc_SourceIdentity c) ∧
    is_Some (rd_operations d !! (sc_OrganizationID c, sc_OperationID c))) (rd_source_claims d);
  trc_grants k e : rd_events d !! k = Some e → is_grant e = true →
    ∃ c, rd_source_claims d !! (ev_SourceType e, ev_SourceIdentity e) = Some c ∧
      sc_OrganizationID c = ev_OrganizationID e ∧ sc_OperationID c = ev_OperationID e;
  trc_reservations : map_Forall (λ _ r,
    is_Some (rd_operations d !! (rr_OrganizationID r, rr_OperationID r))) (rd_reservations d);
  trc_placed k1 r1 k2 r2 : rd_reservations d !! k1 = Some r1 → rd_reservations d !! k2 = Some r2 →
    rr_OrganizationID r1 = rr_OrganizationID r2 → rr_OperationID r1 = rr_OperationID r2 → k1 = k2;
  trc_settlements k e : rd_events d !! k = Some e → settles e →
    ∃ id r, ev_ReservationID e = Some id ∧
      rd_reservations d !! (ev_OrganizationID e, id) = Some r ∧
      rr_SettlementOperationID r = Some (ev_OperationID e);
  trc_charges k r : rd_reservations d !! k = Some r →
    rr_ChargeProtocol r = consumerChargeProtocol →
    rr_OperationID r = chargeOperationKey "consumer-reserve:"
      (ct_Identity (cr_Intent (consumerChargeReceipt r))) }.

(** ** History *)

(** What a reservation keeps for good. *)
Definition reservation_terms (r : organizationResourceReservationRow) :=
  (rr_OrganizationID r, rr_ReservationID r, rr_OperationID r, rr_OwnerType r, rr_OwnerAttemptID r,
   rr_BusinessScope r, rr_ResourceType r, rr_ReservationPurpose r, rr_Quantity r,
   (rr_RequestFingerprint r, rr_ChargeProtocol r, rr_ChargeActorID r, rr_ChargeFunding r,
    rr_MemberID r, rr_MemberMonthStart r, rr_CreatedAt r)).

Definition reservation_kept (r r' : organizationResourceReservationRow) : Prop :=
  reservation_terms r' = reservation_terms r ∧ (open_reservation r = false → r' = r).

Record kept d d' : Prop := {
  kept_operations : rd_operations d ⊆ rd_operations d';
  kept_events : rd_events d ⊆ rd_events d';
  kept_claims : rd_source_claims d ⊆ rd_source_claims d';
  kept_reservations k r : rd_reservations d !! k = Some r →
    ∃ r', rd_reservations d' !! k = Some r' ∧ reservation_kept r r' }.

#[export] Instance kept_preorder : PreOrder kept.
Proof.
  split.
  - intros d. split; [done..|]. intros k r Hk. exists r. by split.
  - intros d1 d2 d3 [] []. split; [by etrans..|]. intros k r Hr.
    destruct (kept_reservations0 k r Hr) as (r2 & H2 & Ht2 & Hc2).
    destruct (kept_reservations1 k r2 H2) as (r3 & H3 & Ht3 & Hc3). exists r3.
    split; [done|]. split; [congruence|]. intros Ho. rewrite Hc2 in * by done. by apply Hc3.
Qed.

(** ** Evolution *)

Record evolved d d' : Prop := {
  ev_sound : Sound d';
  ev_traced : Traced d';
  ev_kept : kept d d';
  ev_steps : ∃ l, ledger_step l d d' }.

Definition evolves d d' : Prop := Sound d → Traced d → evolved d d'.

Lemma quiet_refl d : quiet d d.
Proof. by split. Qed.

#[export] Instance evolves_preorder : PreOrder evolves.
Proof.
  split.
  - intros d Hs Ht. split; [done|done|reflexivity|]. exists []. constructor. apply quiet_refl.
  - intros d1 d2 d3 H1 H2 Hs Ht. destruct (H1 Hs Ht) as [Hs2 Ht2 Hk2 [l2 Hl2]].
    destruct (H2 Hs2 Ht2) as [Hs3 Ht3 Hk3 [l3 Hl3]].
    split; [done|done|by etrans|]. exists (l2 ++ l3). by econstructor.
Qed.
End invariants.

(** A transaction evolves the tables when its body does, on success. *)
Lemma keeps_Transaction_Ok {D A} (R : D → D → Prop) `{!PreOrder R} (m : ST (WorldOf D) A) :
  (∀ w a w', m w = (Ok a, w') → R (the_db w) (the_db w')) → keeps (on_db R) (Transaction m).
Proof.
  intros Hm w. unfold Transaction, on_db. specialize (Hm w). destruct (m w) as [[a|e] w'] eqn:E; simpl.
  - by eapply Hm.
  - reflexivity.
Qed.

Lemma keeps_Ok {D A} (R : D → D → Prop) (m : ST (WorldOf D) A) w a w' :
  keeps (on_db R) m → m w = (Ok a, w') → R (the_db w) (the_db w').
Proof. intros Hm E. specialize (Hm w). by rewrite E in Hm. Qed.
