(* ===== verification/ResourceMoves.v ===== *)
(** * Moves of the resource tables

    What a transaction does to each table, and the lemma that puts the moves of
    one event together: the event is posted and every invariant is kept. *)
From S2P Require Import Prelude GoStd Encoding GenerationFacts ResourceTypes PointTypes Store ResourceStore ResourceRepo ResourceCharges ResourcePoints ResourceBooks ResourceInv.

Section moves.
Context {O : Type}.
Notation DB := (ResourceDB O).
Implicit Types (d : DB) (k : account) (p : share_key).

Definition reservation_key (r : organizationResourceReservationRow) : string * string :=
  (rr_OrganizationID r, rr_ReservationID r).
Definition operation_of (e : organizationResourceEventRow) : string * string :=
  (ev_OrganizationID e, ev_OperationID e).

(** The debt of the account is unchanged or partly repaid. *)
Inductive debt_move d d' k (repaid : Z) : Prop :=
  | debt_same : rd_debts d' = rd_debts d → repaid = 0 → debt_move d d' k repaid
  | debt_paid : rd_debts d' = <[k := {| db_OrganizationID := k.1; db_ResourceType := k.2;
        db_Amount := owed d k - repaid |}]> (rd_debts d) →
      0 ≤ repaid ≤ owed d k → debt_move d d' k repaid.

(** No share moves, or one does. *)
Inductive share_move d d' (e : organizationResourceEventRow) : Prop :=
  | share_same : rd_positions d' = rd_positions d → ev_AllocatedDelta e = 0 → share_move d d' e
  | share_moved p x x' : rd_positions d !! p = Some x → rd_positions d' = <[p := x']> (rd_positions d) →
      position_account x = event_account e → position_account x' = position_account x →
      good_share p x' → po_Free x' = po_Free x + ev_AllocatedDelta e → share_move d d' e.

(** The month a reservation of points counts in moves with it. *)
Definition month_effect d d' (r : organizationResourceReservationRow) (reserved consumed : Z) : Prop :=
  if pointed r then ∃ m x', month_of r = Some m ∧ rd_months d' = <[m := x']> (rd_months d) ∧
    good_month m x' ∧ mo_Reserved x' = month mo_Reserved d m + reserved ∧
    mo_Consumed x' = month mo_Consumed d m + consumed ∧ limited d x'
  else rd_months d' = rd_months d.

(** No reservation moves, one is placed or an open one is closed. *)
Inductive reservation_move d d' (e : organizationResourceEventRow) : Prop :=
  | reservation_same : rd_reservations d' = rd_reservations d →
      rd_months d' = rd_months d → ev_ReservedDelta e = 0 → ev_ConsumedDelta e = 0 →
      reservation_move d d' e
  | reservation_placed r : rd_reservations d !! reservation_key r = None →
      rd_reservations d' = <[reservation_key r := r]> (rd_reservations d) →
      good_reservation (reservation_key r) r → rr_State r = ReservationReserved →
      reservation_account r = event_account e → rr_OperationID r = ev_OperationID e →
      ev_ReservedDelta e = rr_Quantity r → ev_ConsumedDelta e = 0 →
      (rr_ChargeProtocol r = consumerChargeProtocol → rr_OperationID r =
        chargeOperationKey "consumer-reserve:" (ct_Identity (cr_Intent (consumerChargeReceipt r)))) →
      month_effect d d' r (rr_Quantity r) 0 → reservation_move d d' e
  | reservation_closed r r' : rd_reservations d !! reservation_key r = Some r →
      rd_reservations d' = <[reservation_key r := r']> (rd_reservations d) →
      reservation_terms r' = reservation_terms r → open_reservation r = true →
      good_reservation (reservation_key r) r' → open_reservation r' = false →
      reservation_account r = event_account e → ev_ReservationID e = Some (rr_ReservationID r) →
      rr_SettlementOperationID r' = Some (ev_OperationID e) →
      ev_ReservedDelta e = - rr_Quantity r →
      (pointed r = false → ev_ConsumedDelta e = if committed r' then rr_Quantity r else 0) →
      month_effect d d' r (- rr_Quantity r) (ev_ConsumedDelta e) → reservation_move d d' e.

(** A grant claims its source; nothing else does. *)
Inductive claim_move d d' (e : organizationResourceEventRow) : Prop :=
  | claim_same : rd_source_claims d' = rd_source_claims d → is_grant e = false → claim_move d d' e
  | claim_made c : rd_source_claims d !! (ev_SourceType e, ev_SourceIdentity e) = None →
      rd_source_claims d' = <[(ev_SourceType e, ev_SourceIdentity e) := c]> (rd_source_claims d) →
      sc_SourceType c = ev_SourceType e → sc_SourceIdentity c = ev_SourceIdentity e →
      sc_OrganizationID c = ev_OrganizationID e → sc_OperationID c = ev_OperationID e →
      claim_move d d' e.

(** Everything an event of an operation does. *)
Record move (e : organizationResourceEventRow) d d' : Prop := {
  mv_bucket : ∃ b b', rd_buckets d !! event_account e = Some b ∧
    rd_buckets d' = <[event_account e := b']> (rd_buckets d) ∧ good_bucket (event_account e) b' ∧
    b_Available b' = b_Available b + ev_AvailableDelta e ∧
    b_Allocated b' = b_Allocated b + ev_AllocatedDelta e ∧
    b_Reserved b' = b_Reserved b + ev_ReservedDelta e ∧
    b_Consumed b' = b_Consumed b + ev_ConsumedDelta e ∧
    ev_AvailableAfter e = b_Available b' ∧ ev_ReservedAfter e = b_Reserved b' ∧
    ev_ConsumedAfter e = b_Consumed b' ∧
    (0 < owed d (event_account e) - ev_DebtRepaid e → b_Available b' = 0);
  mv_operation : ∃ o, rd_operations d !! operation_of e = None ∧
    rd_operations d' = <[operation_of e := o]> (rd_operations d) ∧
    (op_OrganizationID o, op_OperationID o) = operation_of e ∧ op_State o = "succeeded"%string ∧
    (∀ key, reserve_key_of o = Some key → is_Some (rd_operations d !! (op_OrganizationID o, key)));
  mv_event : rd_events d !! (ev_EventID e, ev_OrganizationID e) = None ∧
    rd_events d' = <[(ev_EventID e, ev_OrganizationID e) := e]> (rd_events d);
  mv_debt : debt_move d d' (event_account e) (ev_DebtRepaid e);
  mv_share : share_move d d' e;
  mv_reservation : reservation_move d d' e;
  mv_claim : claim_move d d' e;
  mv_limits : rd_limits d' = rd_limits d;
  mv_member : ∀ p, share po_Reserved d' p - charged open_reservation d' p =
      share po_Reserved d p - charged open_reservation d p ∧
    share po_Consumed d' p - charged committed d' p =
      share po_Consumed d p - charged committed d p;
  mv_balanced : event_balanced e }.

(** ** What each move adds up to *)

Lemma unpointed_effect d d' r dr dc : pointed r = false → rd_months d' = rd_months d →
  month_effect d d' r dr dc.
Proof. unfold month_effect. by intros ->. Qed.

Lemma debt_move_owed d d' k repaid x : debt_move d d' k repaid →
  owed d' x = owed d x - at_account k x repaid.
Proof.
  unfold owed, at_account. intros [-> ->| -> _]; [case_decide; lia|].
  rewrite cell_put. case_decide; subst; simpl; unfold owed; lia.
Qed.

Lemma share_move_sum d d' e x : Sound d → share_move d d' e →
  of_shares po_Free d' x = of_shares po_Free d x + at_account (event_account e) x (ev_AllocatedDelta e).
Proof.
  unfold of_shares, at_account. intros Hs [-> ->|p y y' Hy -> Ha Ha' _ Hf]; [case_decide; lia|].
  rewrite tally_put, Hy. unfold term. rewrite Ha', Ha, Hf.
  case_bool_decide; case_decide; subst; try congruence; lia.
Qed.

Lemma reserved_is_open r : rr_State r = ReservationReserved → open_reservation r = true.
Proof. unfold open_reservation. by intros ->. Qed.
Lemma reserved_not_committed r : rr_State r = ReservationReserved → committed r = false.
Proof. unfold committed. by intros ->. Qed.
Lemma open_not_committed k r : good_reservation k r → open_reservation r = true → committed r = false.
Proof.
  intros [_ _ Hst _ _ _]. unfold open_reservation, committed. intros Ho.
  destruct Hst as [->|[He| ->]]; [done| |done]. by rewrite He in Ho.
Qed.

Lemma terms_fixed r r' : reservation_terms r' = reservation_terms r →
  rr_Quantity r' = rr_Quantity r ∧ reservation_account r' = reservation_account r ∧
  reservation_key r' = reservation_key r ∧ share_of r' = share_of r ∧
  member_charge r' = member_charge r ∧ rr_ChargeProtocol r' = rr_ChargeProtocol r ∧
  rr_OperationID r' = rr_OperationID r ∧ rr_OrganizationID r' = rr_OrganizationID r ∧
  cr_Intent (consumerChargeReceipt r') = cr_Intent (consumerChargeReceipt r) ∧
  pointed r' = pointed r ∧ month_of r' = month_of r ∧ rr_ResourceType r' = rr_ResourceType r ∧
  rr_MemberMonthStart r' = rr_MemberMonthStart r ∧ rr_CreatedAt r' = rr_CreatedAt r.
Proof.
  unfold reservation_terms, reservation_account, reservation_key, share_of, member_charge,
    consumerChargeReceipt, pointed, month_of. intros He. simplify_eq. simpl. repeat split; try congruence.
  destruct (rr_MemberMonthStart r), (rr_MemberMonthStart r'); simpl; congruence.
Qed.

Lemma reservation_move_open d d' e x : Sound d → reservation_move d d' e →
  held open_reservation d' x = held open_reservation d x
    + at_account (event_account e) x (ev_ReservedDelta e).
Proof.
  unfold held, at_account.
  intros Hs [-> _ -> _|r Hn -> _ Hst Ha _ -> _ _ _|r r' Hr -> Ht Ho Hg' Ho' Ha _ _ -> _ _].
  - case_decide; lia.
  - rewrite !tally_put, Hn. unfold term. rewrite (reserved_is_open r), Ha by done. simpl.
    case_bool_decide; case_decide; subst; try congruence; lia.
  - rewrite !tally_put, Hr. unfold term.
    destruct (terms_fixed r r' Ht) as (-> & -> & _). rewrite Ho, Ho', Ha.
    simpl. case_bool_decide; case_decide; subst; try congruence; simpl; lia.
Qed.

(** A month that changes. *)
Lemma of_months_put d d' m x' k : Sound d → good_month m x' →
  rd_months d' = <[m := x']> (rd_months d) → of_months mo_Consumed d' k =
    of_months mo_Consumed d k + at_account (m.1.1, ResourceAIPoint) k (mo_Consumed x' - month mo_Consumed d m).
Proof.
  unfold of_months, at_account, month, cell. intros Hs Hg ->. rewrite tally_put. unfold term, month_account.
  assert (term (λ x, bool_decide ((mo_OrganizationID x, ResourceAIPoint) = k)) mo_Consumed (rd_months d !! m) =
    if decide (k = (m.1.1, ResourceAIPoint)) then match rd_months d !! m with
      Some x => mo_Consumed x | None => 0 end else 0) as Hold.
  { unfold term. destruct (rd_months d !! m) as [x|] eqn:Hx; [|by case_decide].
    rewrite (gm_key _ _ (snd_months _ Hs _ _ Hx)). simpl. by case_bool_decide; case_decide; subst. }
  unfold term in Hold. rewrite Hold, (gm_key _ _ Hg). clear Hold. simpl.
  case_bool_decide; case_decide; subst; try congruence; lia.
Qed.

Lemma pointed_account k m r : good_reservation k r → pointed r = true → month_of r = Some m →
  reservation_account r = (m.1.1, ResourceAIPoint).
Proof.
  unfold month_of, reservation_account. intros Hg Hp Hm. destruct (gr_pointed _ _ Hg Hp) as ([t Ht] & -> & _).
  rewrite Ht in Hm. by simplify_eq/=.
Qed.

Lemma month_effect_consumed d d' k r dr dc x : Sound d → good_reservation k r → month_effect d d' r dr dc →
  of_months mo_Consumed d' x = of_months mo_Consumed d x
    + (if pointed r then at_account (reservation_account r) x dc else 0).
Proof.
  unfold month_effect. intros Hs Hg He. destruct (pointed r) eqn:Hp.
  - destruct He as (m & x' & Hm & Hd & Hgm & _ & Hc & _).
    rewrite (of_months_put d d' m x' x Hs Hgm Hd), (pointed_account k m r Hg Hp Hm).
    do 2 f_equal. lia.
  - unfold of_months. rewrite He. lia.
Qed.

Lemma reservation_move_spent d d' e x : Sound d → reservation_move d d' e →
  spent d' x = spent d x + at_account (event_account e) x (ev_ConsumedDelta e).
Proof.
  intros Hs [Hr Hm _ ->|r Hn Hr Hg Hst Ha _ _ -> _ He|r r' Hr Hr' Ht Ho Hg' Ho' Ha _ _ _ Hc He];
    unfold spent, held.
  - unfold of_months. rewrite Hr, Hm. unfold at_account. case_decide; lia.
  - rewrite (month_effect_consumed _ _ _ _ _ _ x Hs Hg He), Hr, tally_put, Hn. unfold term, committed_whole.
    rewrite (reserved_not_committed r), Ha by done. simpl. unfold at_account.
    destruct (pointed r); case_decide; lia.
  - pose proof (snd_reservations _ Hs _ _ Hr) as Hg.
    rewrite (month_effect_consumed _ _ _ _ _ _ x Hs Hg He), Hr', tally_put, Hr. unfold term, committed_whole.
    destruct (terms_fixed r r' Ht) as (-> & -> & _ & _ & _ & _ & _ & _ & _ & -> & _).
    rewrite (open_not_committed _ r Hg Ho), Ha. unfold at_account. simpl.
    destruct (pointed r); [rewrite andb_false_r; simpl; lia|]. rewrite Hc by done.
    case_bool_decide; case_decide; subst; try congruence; destruct (committed r'); simpl; lia.
Qed.

(** What a month has reserved changes with what is pledged of it. *)
Lemma reservation_move_months d d' e m : Sound d → reservation_move d d' e →
  month mo_Reserved d' m - pledged d' m = month mo_Reserved d m - pledged d m.
Proof.
  intros Hs Hmv. unfold pledged, month.
  assert (∀ r x' q m0, month_of r = Some m0 → rd_months d' = <[m0 := x']> (rd_months d) →
    mo_Reserved x' = cell mo_Reserved (rd_months d) m0 + q → cell mo_Reserved (rd_months d') m =
      cell mo_Reserved (rd_months d) m + if bool_decide (month_of r = Some m) then q else 0) as Hcell.
  { intros r x' q m0 -> -> Hx. rewrite cell_put. case_decide; case_bool_decide; subst; simplify_eq; lia. }
  destruct Hmv as [-> -> _ _|r Hn -> Hg Hst _ _ _ _ _ He|r r' Hr -> Ht Ho _ Ho' _ _ _ _ _ He]; [done|..];
    rewrite tally_put; unfold month_effect in He.
  - rewrite Hn. unfold term. rewrite (reserved_is_open r) by done. destruct (pointed r); simpl.
    + destruct He as (m0 & x' & Hm & Hd & _ & Hx & _). rewrite (Hcell r x' _ m0 Hm Hd Hx).
      case_bool_decide; lia.
    + rewrite He. lia.
  - rewrite Hr. unfold term. destruct (terms_fixed r r' Ht) as (-> & _ & _ & _ & _ & _ & _ & _ & _ & -> & -> & _).
    rewrite Ho, Ho'. destruct (pointed r); simpl.
    + destruct He as (m0 & x' & Hm & Hd & _ & Hx & _). rewrite (Hcell r x' _ m0 Hm Hd Hx).
      case_bool_decide; lia.
    + rewrite He. lia.
Qed.

(** ** The moves of one event *)

Lemma move_posts e d d' : Sound d → move e d d' → posts e d d'.
Proof.
  intros Hs [(b & b' & Hb & Hb' & _ & H1 & H2 & H3 & H4 & A1 & A2 & A3 & _) _ [Hf He] Hd Hsh Hr _ _ Hm Hbal].
  assert (∀ f x, balance f d' x =
    balance f d x + at_account (event_account e) x (f b' - f b)) as Hbk.
  { intros f x. unfold balance, at_account. rewrite Hb', cell_put.
    case_decide as Hx; [subst x; rewrite (cell_at f _ _ b Hb)|]; lia. }
  assert (∀ f, balance f d' (event_account e) = f b') as Hat.
  { intros f. unfold balance. by rewrite Hb', cell_put, decide_True. }
  split; [done|done|..].
  - intros x. rewrite Hbk. do 2 f_equal. lia.
  - intros x. rewrite Hbk. do 2 f_equal. lia.
  - intros x. rewrite Hbk. do 2 f_equal. lia.
  - intros x. rewrite Hbk. do 2 f_equal. lia.
  - intros x. by apply debt_move_owed.
  - intros x. by apply reservation_move_open.
  - intros x. by apply reservation_move_spent.
  - intros x. by apply share_move_sum.
  - intros p. apply Hm.
  - intros p. apply Hm.
  - intros m. by eapply reservation_move_months.
  - exact Hbal.
  - rewrite !Hat. auto.
Qed.

Lemma move_sound e d d' : Sound d → move e d d' → Sound d'.
Proof.
  intros Hs Hm. pose proof (move_posts _ _ _ Hs Hm) as Hp. destruct Hs as [Sb Sd Sdb Si Ss Sr Sm].
  destruct Hm as [(b & b' & Hb & Hb' & Hg & H1 & _ & _ & _ & _ & _ & _ & Hid) _ _ Hd Hsh Hr _ _ _ _].
  assert (∀ k, is_Some (rd_buckets d !! k) → is_Some (rd_buckets d' !! k)) as Hdom.
  { intros k. rewrite Hb', lookup_insert_is_Some'. auto. }
  split.
  - rewrite Hb'. by apply map_Forall_insert_2.
  - destruct Hd as [-> _| -> Hre]; [done|]. apply map_Forall_insert_2; [|done].
    split; [by destruct (event_account e)|]. simpl. unfold amount.
    enough (owed d (event_account e) ≤ max_int64) by lia.
    unfold owed, cell. destruct (rd_debts d !! _) as [x|] eqn:Hx; [|unfold max_int64; lia].
    apply (Sd _ _ Hx).
  - intros k. destruct Hd as [-> _| -> _]; [auto|]. rewrite lookup_insert_is_Some'. intros [<-|Hk]; [|auto].
    apply Hdom. eauto.
  - intros k. rewrite (post_owed _ _ _ Hp k). unfold balance, at_account. rewrite Hb', cell_put.
    case_decide; subst; [auto|]. rewrite Z.sub_0_r. apply Si.
  - destruct Hsh as [-> _|p x x' Hx -> _ _ Hgs _]; [done|]. by apply map_Forall_insert_2.
  - destruct Hr as [-> _ _ _|r _ -> Hgr _ _ _ _ _ _ _|r r' _ -> _ _ Hgr _ _ _ _ _ _ _]; [done|..];
      by apply map_Forall_insert_2.
  - destruct Hr as [_ -> _ _|r _ _ _ _ _ _ _ _ _ He|r r' _ _ _ _ _ _ _ _ _ _ _ He]; [done|..];
      (unfold month_effect in He; destruct (pointed r); [|by rewrite He];
       destruct He as (m & x' & _ & -> & Hgm & _); by apply map_Forall_insert_2).
Qed.

Lemma move_kept e d d' : Sound d → move e d d' → kept d d'.
Proof.
  intros Hs [_ (o & Ho & Ho' & _) [Hf He] _ _ Hr Hc _ _ _]. split.
  - rewrite Ho'. by apply insert_subseteq.
  - rewrite He. by apply insert_subseteq.
  - destruct Hc as [-> _|c Hn -> _ _ _ _]; [done|]. by apply insert_subseteq.
  - intros k r Hk. destruct Hr as [-> _ _ _|r1 Hn -> _ _ _ _ _ _ _ _|r1 r' H1 -> Ht Hop _ _ _ _ _ _ _ _].
    + exists r. by repeat split.
    + exists r. split; [|by split]. rewrite lookup_insert_ne; [done|]. intros <-. congruence.
    + destruct (decide (k = reservation_key r1)) as [->|Hne].
      * assert (r = r1) as -> by congruence. exists r'. split; [apply lookup_insert_eq|].
        split; [done|congruence].
      * exists r. split; [by rewrite lookup_insert_ne|by split].
Qed.

Lemma kept_settled k r d d' : Sound d → kept d d' → rd_reservations d !! k = Some r →
  is_Some (rr_SettlementOperationID r) → rd_reservations d' !! k = Some r.
Proof.
  intros Hs Hk Hr [op Hop]. destruct (kept_reservations _ _ Hk k r Hr) as (r' & Hr' & _ & Hc).
  rewrite Hr'. f_equal. apply Hc. apply not_true_iff_false. intros Ho.
  apply (gr_settled _ _ (snd_reservations _ Hs _ _ Hr)) in Ho. congruence.
Qed.

Lemma limit_set_kept d d' org member z : rd_operations d ⊆ rd_operations d' →
  limit_set d org member z → limit_set d' org member z.
Proof. intros Hk (k & o & s & Ho & Hs). exists k, o, s. split; [by eapply lookup_weaken|done]. Qed.

Lemma move_traced_events e d d' : Sound d → Traced d → move e d d' →
  map_Forall (λ k e, k = (ev_EventID e, ev_OrganizationID e) ∧
    is_Some (rd_operations d' !! operation_of e)) (rd_events d') ∧
  (∀ k1 e1 k2 e2, rd_events d' !! k1 = Some e1 → rd_events d' !! k2 = Some e2 →
    ev_OrganizationID e1 = ev_OrganizationID e2 → ev_OperationID e1 = ev_OperationID e2 → k1 = k2).
Proof.
  intros Hs Ht Hm. destruct (move_kept _ _ _ Hs Hm) as [Hko _ _ _].
  destruct Hm as [_ (o & Ho & Ho' & _) [Hf He] _ _ _ _ _ _ _].
  assert (∀ k2 e2, rd_events d !! k2 = Some e2 → operation_of e2 ≠ operation_of e) as Hfresh.
  { intros k2 e2 H2 Heq. destruct (trc_events _ Ht _ _ H2) as [_ [o2 Ho2]].
    unfold operation_of in *. congruence. }
  split.
  - rewrite He. apply map_Forall_insert_2.
    + split; [done|]. rewrite Ho', lookup_insert_eq. eauto.
    + intros k2 e2 H2. destruct (trc_events _ Ht _ _ H2) as [Hk2 [o2 Ho2]]. split; [done|].
      exists o2. by eapply lookup_weaken.
  - intros k1 e1 k2 e2. rewrite He, !lookup_insert_Some.
    intros [[<- <-]|[_ H1]] [[<- <-]|[_ H2]] Horg Hop.
    + done.
    + exfalso. apply (Hfresh _ _ H2). unfold operation_of. congruence.
    + exfalso. apply (Hfresh _ _ H1). unfold operation_of. congruence.
    + by apply (trc_once _ Ht k1 e1 k2 e2).
Qed.

(** A reservation is placed by an operation of its own. *)
Lemma move_placed e d d' : Traced d → rd_operations d !! operation_of e = None →
  reservation_move d d' e → ∀ k1 r1 k2 r2, rd_reservations d' !! k1 = Some r1 →
  rd_reservations d' !! k2 = Some r2 → rr_OrganizationID r1 = rr_OrganizationID r2 →
  rr_OperationID r1 = rr_OperationID r2 → k1 = k2.
Proof.
  intros Ht Hn Hr k1 r1 k2 r2. destruct Hr as [-> _ _ _|r _ -> _ _ Ha Hid _ _ _ _|r r' Hr -> Hte _ _ _ _ _ _ _ _ _].
  - apply Ht.
  - assert (∀ k x, rd_reservations d !! k = Some x → rr_OrganizationID x = rr_OrganizationID r →
      rr_OperationID x = rr_OperationID r → False) as Hfresh.
    { intros k x Hx E1 E2. destruct (trc_reservations _ Ht _ _ Hx) as [o Ho].
      unfold reservation_account, event_account, operation_of in *. congruence. }
    rewrite !lookup_insert_Some. intros [[<- <-]|[_ H1]] [[<- <-]|[_ H2]] E1 E2; [done|..].
    + exfalso. by apply (Hfresh _ _ H2).
    + exfalso. by apply (Hfresh _ _ H1).
    + by apply (trc_placed _ Ht _ r1 _ r2).
  - destruct (terms_fixed r r' Hte) as (_&_&_&_&_&_& Eo & Eg & _).
    rewrite !lookup_insert_Some. intros [[<- <-]|[_ H1]] [[<- <-]|[_ H2]] E1 E2; [done|..].
    + apply (trc_placed _ Ht _ r _ r2); congruence.
    + apply (trc_placed _ Ht _ r1 _ r); congruence.
    + by apply (trc_placed _ Ht _ r1 _ r2).
Qed.

Lemma move_traced e d d' : Sound d → Traced d → move e d d' → Traced d'.
Proof.
  intros Hs Ht Hm. destruct (move_traced_events _ _ _ Hs Ht Hm) as [Hev Honce].
  pose proof (move_kept _ _ _ Hs Hm) as Hk.
  assert (∀ k, is_Some (rd_operations d !! k) → is_Some (rd_operations d' !! k)) as Hop.
  { intros k [x Hx]. exists x. by apply (lookup_weaken _ _ _ _ Hx), Hk. }
  destruct Hm as [_ (o & Ho & Ho' & Hko & Hso & Hpair) [Hf He] _ _ Hr Hc Hli _ _].
  assert (is_Some (rd_operations d' !! operation_of e)) as Hnew.
  { rewrite Ho', lookup_insert_eq. eauto. }
  assert (∀ org member z, limit_set d org member z → limit_set d' org member z) as Hset.
  { intros org member z. apply limit_set_kept, Hk. }
  split; [| | | | exact Hev | exact Honce |..].
  - rewrite Ho'. apply map_Forall_insert_2; [rewrite Hko; auto|apply Ht].
  - intros k o2 key. rewrite Ho' at 1. rewrite lookup_insert_Some. intros [[<- <-]|[_ Ho2]] Hkey.
    + by apply Hop, Hpair.
    + by eapply Hop, trc_finalized.
  - rewrite Hli. intros k l Hl. destruct (trc_limits _ Ht _ _ Hl) as (? & ? & ?). auto.
  - assert (∀ x, limited d x → limited d' x) as Hlim.
    { intros x Hx Hpos. destruct (Hx Hpos) as (z & ? & ?). eauto. }
    destruct Hr as [_ -> _ _|r _ _ _ _ _ _ _ _ _ Hm|r r' _ _ _ _ _ _ _ _ _ _ _ Hm];
      [intros k x Hx; by apply Hlim, (trc_months _ Ht k)|..];
      (unfold month_effect in Hm; destruct (pointed r);
       [destruct Hm as (m & x' & _ & -> & _ & _ & _ & Hx'); apply map_Forall_insert_2; [by apply Hlim|]
       |rewrite Hm]; intros k x Hx; by apply Hlim, (trc_months _ Ht k)).
  - destruct Hc as [-> _|c _ -> H1 H2 H3 H4].
    + intros k c Hc. destruct (trc_claims _ Ht _ _ Hc) as [??]. auto.
    + apply map_Forall_insert_2.
      * rewrite H1, H2, H3, H4. by split.
      * intros k c' Hc'. destruct (trc_claims _ Ht _ _ Hc') as [??]. auto.
  - intros k e'. rewrite He, lookup_insert_Some. intros [[<- <-]|[_ He']] Hg.
    + destruct Hc as [_ Hn|c _ -> _ _ H3 H4]; [congruence|]. exists c. by rewrite lookup_insert_eq.
    + destruct (trc_grants _ Ht _ _ He' Hg) as (c & Hc' & ?). exists c. split; [|done].
      by apply (lookup_weaken _ _ _ _ Hc'), Hk.
  - destruct Hr as [-> _ _ _|r _ -> _ _ Ha Hid _ _ _ _|r r' Hr -> Hte _ _ _ _ _ _ _ _ _].
    + intros k r Hr. apply Hop, (trc_reservations _ Ht _ _ Hr).
    + apply map_Forall_insert_2.
      * unfold reservation_account, event_account in Ha. unfold operation_of in Hnew.
        assert (rr_OrganizationID r = ev_OrganizationID e) as -> by congruence. by rewrite Hid.
      * intros k r' Hr'. apply Hop, (trc_reservations _ Ht _ _ Hr').
    + apply map_Forall_insert_2.
      * destruct (terms_fixed r r' Hte) as (_&_&_&_&_&_& -> & -> &_).
        apply Hop, (trc_reservations _ Ht _ _ Hr).
      * intros k r2 Hr2. apply Hop, (trc_reservations _ Ht _ _ Hr2).
  - by eapply move_placed.
  - intros k e'. rewrite He, lookup_insert_Some. intros [[<- <-]|[_ He']] Hse.
    + unfold settles in Hse.
      destruct Hr as [_ _ Hz _|r _ _ Hg _ _ _ Hz _ _ _|r r' _ -> _ _ _ _ Ha Hid Hse' _ _ _].
      * lia.
      * pose proof (gr_quantity _ _ Hg). lia.
      * exists (rr_ReservationID r), r'. split; [done|]. split; [|done].
        unfold reservation_account, event_account in Ha. simplify_eq.
        unfold reservation_key. replace (ev_OrganizationID e) with (rr_OrganizationID r) by congruence.
        apply lookup_insert_eq.
    + destruct (trc_settlements _ Ht _ _ He' Hse) as (id & r & Hid & Hr' & Hst).
      exists id, r. split; [done|]. split; [|done]. by eapply kept_settled.
  - intros k r'. destruct Hr as [-> _ _ _|r _ -> _ _ _ _ _ _ Hch _|r r1 Hr -> Hte _ _ _ _ _ _ _ _ _].
    + apply Ht.
    + rewrite lookup_insert_Some. intros [[_ <-]|[_ Hr']]; [done|by apply (trc_charges _ Ht k)].
    + rewrite lookup_insert_Some. intros [[_ <-]|[_ Hr']]; [|by apply (trc_charges _ Ht k)].
      destruct (terms_fixed r r1 Hte) as (_&_&_&_&_& -> & -> & _ & -> & _). by apply (trc_charges _ Ht _ _ Hr).
Qed.

Lemma move_evolves e d d' : (Sound d → Traced d → move e d d') → evolves d d'.
Proof.
  intros Hm Hs Ht. specialize (Hm Hs Ht). split.
  - by eapply move_sound.
  - by eapply move_traced.
  - by eapply move_kept.
  - exists [e]. constructor. by eapply move_posts.
Qed.
End moves.
