(* ===== verification/ResourceSteps.v ===== *)
(** * Grants, reservations and settlements evolve the resource tables

    Each transaction of ResourceRepo is one move of ResourceMoves, or quiet; so
    every request, in whatever order requests come, keeps the invariants of the
    tables and moves them by steps of the ledger. *)
From S2P Require Import Prelude GoStd Encoding GenerationFacts ResourceTypes PointTypes Store ResourceStore ResourceRepo ResourceCharges ResourcePoints ResourceBooks ResourceInv ResourceMoves.

(** Rewrites with what statements said about the tables. *)
Ltac db_eqs := cbn; repeat (match goal with
  | H : the_db ?w = _ |- context [the_db ?w] => rewrite H
  end; cbn).

Ltac simpl_db := cbn [rd_buckets rd_debts rd_operations rd_source_claims rd_reservations rd_events
  rd_audit_logs rd_positions rd_limits rd_months rd_owners] in *.

Section quiet_steps.
Context {O : Type}.
Implicit Types (d : ResourceDB O).

(** Only tables that nothing is stated of differ. *)
Lemma evolves_unchanged d d' : rd_buckets d' = rd_buckets d → rd_debts d' = rd_debts d →
  rd_operations d' = rd_operations d → rd_source_claims d' = rd_source_claims d →
  rd_reservations d' = rd_reservations d → rd_events d' = rd_events d →
  rd_positions d' = rd_positions d → rd_limits d' = rd_limits d → rd_months d' = rd_months d →
  evolves d d'.
Proof.
  intros H1 H2 H3 H4 H5 H6 H7 H8 H9 Hs Ht. destruct d as [a1 a2 a3 a4 a5 a6 a7 a8 a9 a10 a11], d'; simpl in *; subst.
  split.
  - by destruct Hs.
  - by destruct Ht.
  - split; try done. intros k r Hr. exists r. by repeat split.
  - exists []. constructor. by split.
Qed.

(** An empty bucket is opened. *)
Lemma evolves_new_bucket d d' k b : rd_buckets d !! k = None → good_bucket k b →
  b_Available b = 0 → b_Allocated b = 0 → b_Reserved b = 0 → b_Consumed b = 0 →
  rd_buckets d' = <[k:=b]> (rd_buckets d) → rd_debts d' = rd_debts d →
  rd_operations d' = rd_operations d → rd_source_claims d' = rd_source_claims d →
  rd_reservations d' = rd_reservations d → rd_events d' = rd_events d →
  rd_positions d' = rd_positions d → rd_limits d' = rd_limits d → rd_months d' = rd_months d →
  evolves d d'.
Proof.
  intros Hn Hg Z1 Z2 Z3 Z4 H1 H2 H3 H4 H5 H6 H7 H8 H9 Hs Ht.
  assert (∀ f x, f b = 0 → balance f d' x = balance f d x) as Hb.
  { intros f x Hz. unfold balance. rewrite H1, cell_put. case_decide; subst; [|done].
    unfold cell. rewrite Hn. done. }
  destruct d as [a1 a2 a3 a4 a5 a6 a7 a8 a9 a10 a11], d' as [c1 c2 c3 c4 c5 c6 c7 c8 c9 c10 c11]; simpl in *; subst.
  split.
  - destruct Hs as [Sb Sd Sdb Si Ss Sr Sm]. split; simpl in *; try done.
    + by apply map_Forall_insert_2.
    + intros x Hx. rewrite lookup_insert_is_Some'. auto.
    + intros x Ho. rewrite Hb by done. by apply Si.
  - by destruct Ht.
  - split; try done. intros x r Hr. exists r. by repeat split.
  - exists []. constructor. split; try done. intros x. by rewrite !Hb.
Qed.

(** An empty share is opened. *)
Lemma evolves_new_share d d' p x : rd_positions d !! p = None → good_share p x →
  po_Free x = 0 → po_Reserved x = 0 → po_Consumed x = 0 →
  rd_positions d' = <[p:=x]> (rd_positions d) → rd_buckets d' = rd_buckets d →
  rd_debts d' = rd_debts d → rd_operations d' = rd_operations d →
  rd_source_claims d' = rd_source_claims d → rd_reservations d' = rd_reservations d →
  rd_events d' = rd_events d → rd_limits d' = rd_limits d → rd_months d' = rd_months d →
  evolves d d'.
Proof.
  intros Hn Hg Z1 Z2 Z3 H1 H2 H3 H4 H5 H6 H7 H8 H9 Hs Ht.
  assert (∀ f q, f x = 0 → share f d' q = share f d q) as Hb.
  { intros f q Hz. unfold share. rewrite H1, cell_put. case_decide; subst; [|done].
    unfold cell. rewrite Hn. done. }
  assert (∀ k, of_shares po_Free d' k = of_shares po_Free d k) as Hf.
  { intros k. unfold of_shares. rewrite H1, tally_put, Hn. unfold term. rewrite Z1. case_bool_decide; lia. }
  destruct d as [a1 a2 a3 a4 a5 a6 a7 a8 a9 a10 a11], d' as [c1 c2 c3 c4 c5 c6 c7 c8 c9 c10 c11]; simpl in *; subst.
  split.
  - destruct Hs as [Sb Sd Sdb Si Ss Sr Sm]. split; simpl in *; try done. by apply map_Forall_insert_2.
  - by destruct Ht.
  - split; try done. intros k r Hr. exists r. by repeat split.
  - exists []. constructor. split; try done. intros q. by rewrite !Hb.
Qed.

(** An empty month is opened. *)
Lemma evolves_new_month d d' m x : rd_months d !! m = None → good_month m x →
  mo_Reserved x = 0 → mo_Consumed x = 0 → d' = put_rows months (<[m:=x]> (rd_months d)) d →
  evolves d d'.
Proof.
  intros Hn Hg Z1 Z2 -> Hs Ht.
  assert (∀ f q, f x = 0 → month f (put_rows months (<[m:=x]> (rd_months d)) d) q = month f d q) as Hb.
  { intros f q Hz. unfold month. simpl. rewrite cell_put. case_decide; subst; [|done].
    unfold cell. rewrite Hn. done. }
  assert (∀ k, spent (put_rows months (<[m:=x]> (rd_months d)) d) k = spent d k) as Hf.
  { intros k. unfold spent, of_months. simpl. rewrite tally_put, Hn. unfold term. rewrite Z2.
    case_bool_decide; unfold held; simpl; lia. }
  split.
  - destruct Hs as [Sb Sd Sdb Si Ss Sr Sm]. split; simpl in *; try done. by apply map_Forall_insert_2.
  - destruct Ht as [T1 Tf Tl Tmn T2 T3 T4 T5 T6 T9 T7 T8]. split; simpl in *; try done.
    apply map_Forall_insert_2; [|done]. intros Hpos. lia.
  - split; try done. intros k r Hr. exists r. by repeat split.
  - exists []. constructor. split; try done. intros q. by rewrite !Hb.
Qed.

(** An open reservation changes in what no sum and no invariant looks at. *)
Lemma evolves_open_reservation d d' k r r' : rd_reservations d !! k = Some r →
  reservation_terms r' = reservation_terms r → rr_State r' = rr_State r →
  rr_SettlementOperationID r' = rr_SettlementOperationID r → open_reservation r = true →
  rd_reservations d' = <[k:=r']> (rd_reservations d) → rd_buckets d' = rd_buckets d →
  rd_debts d' = rd_debts d → rd_operations d' = rd_operations d →
  rd_source_claims d' = rd_source_claims d → rd_positions d' = rd_positions d →
  rd_events d' = rd_events d → rd_limits d' = rd_limits d → rd_months d' = rd_months d →
  evolves d d'.
Proof.
  intros Hr Ht Hst Hset Ho H1 H2 H3 H4 H5 H6 H7 H8 H9 Hs Htr.
  destruct (terms_fixed r r' Ht) as (Tq & Ta & Tk & Tsh & Tm & Tp & Tid & Torg & Ti & Tpt & Tmo & Tty & Tms & _).
  assert (open_reservation r' = open_reservation r) as Hop by (unfold open_reservation; by rewrite Hst).
  assert (committed r' = committed r) as Hcm by (unfold committed; by rewrite Hst).
  assert (∀ (P : organizationResourceReservationRow → bool), P r' = P r →
    tally P rr_Quantity (rd_reservations d') = tally P rr_Quantity (rd_reservations d)) as Hta.
  { intros P HP. rewrite H1, tally_put, Hr. unfold term. rewrite HP, Tq. lia. }
  destruct d as [a1 a2 a3 a4 a5 a6 a7 a8 a9 a10 a11], d' as [c1 c2 c3 c4 c5 c6 c7 c8 c9 c10 c11]; simpl_db; subst.
  split.
  - destruct Hs as [Sb Sd Sdb Si Ss Sr Sm]. split; simpl_db; try done.
    apply map_Forall_insert_2; [|done]. destruct (Sr _ _ Hr) as [G1 G2 G3 G4 G5 G6].
    split.
    + rewrite G1. unfold reservation_key in Tk. congruence.
    + by rewrite Tq.
    + by rewrite Hst.
    + by rewrite Hset, Hop.
    + by rewrite Tp, Ti.
    + by rewrite Tp, Tpt, Tty, Tms.
  - destruct Htr as [T1 Tf Tl Tmn T2 T3 T4 T5 T6 T9 T7 T8]. split; simpl_db; try done.
    + apply map_Forall_insert_2; [|done]. rewrite Torg, Tid. by apply (T6 _ _ Hr).
    + intros k1 r1 k2 r2. rewrite !lookup_insert_Some.
      intros [[<- <-]|[_ H1]] [[<- <-]|[_ H2]] E1 E2; [done|..].
      * apply (T9 _ r _ r2); congruence.
      * apply (T9 _ r1 _ r); congruence.
      * by apply (T9 _ r1 _ r2).
    + intros k' e He Hse. destruct (T7 k' e He Hse) as (id & r2 & ? & Hr2 & Hs2). exists id.
      destruct (decide ((ev_OrganizationID e, id) = k)) as [<-|Hne].
      * exists r'. rewrite lookup_insert_eq. split; [done|]. split; [done|]. congruence.
      * exists r2. by rewrite lookup_insert_ne.
    + intros k' r2. rewrite lookup_insert_Some. intros [[_ <-]|[_ Hr2]]; [|by apply (T8 k')].
      rewrite Tp, Tid, Ti. by apply (T8 k).
  - split; try done. intros k' r2 Hr2. simpl_db.
    destruct (decide (k' = k)) as [->|Hne].
    + assert (r2 = r) as -> by congruence. exists r'. rewrite lookup_insert_eq.
      split; [done|]. split; [done|congruence].
    + exists r2. rewrite lookup_insert_ne by done. by repeat split.
  - exists []. constructor. split; try done; unfold spent, of_months, held, charged, month, pledged,
      committed_whole; simpl_db; intros; rewrite ?Hta; rewrite ?Hop, ?Hcm, ?Ta, ?Tm, ?Tsh, ?Tpt, ?Tmo; done.
Qed.
End quiet_steps.

(** ** The shared statements *)

Section statements.
Context {O : Type} `{Env}.
Notation W := (WorldOf (ResourceDB O)).
Implicit Types (w : W).

Lemma CreateAuditLog_Ok org op action actor evidence payload w u w' :
  CreateAuditLog org op action actor evidence payload w = (Ok u, w') →
  ∃ m, the_db w' = put_rows audit_logs m (the_db w).
Proof. unfold CreateAuditLog. intros Hr. inv_run. eauto. Qed.

Lemma valid_bucket org resource t : validResourceType resource = true →
  good_bucket (org, resource) {| b_OrganizationID := org; b_ResourceType := resource; b_Available := 0;
    b_Allocated := 0; b_Reserved := 0; b_Consumed := 0; b_UpdatedAt := t |}.
Proof. intros Hv. split; try exact Hv; try done; simpl; unfold amount, max_int64; lia. Qed.

(** Locking a bucket changes nothing that counts. *)
Lemma lockBucket_Ok org resource w b w' : validResourceType resource = true →
  lockBucket org resource w = (Ok b, w') →
  evolves (the_db w) (the_db w') ∧ rd_buckets (the_db w') !! (org, resource) = Some b.
Proof.
  unfold lockBucket. intros Hv Hr. inv_run.
  match goal with H : CreateIgnore _ _ _ = _ |- _ => apply CreateIgnore_Ok in H as
    [(-> & -> & _)|(-> & Hn & _ & ->)] end; (split; [|done]); db_eqs.
  - apply evolves_preorder.
  - cbn in Hn. match goal with H : the_db _ = the_db _ |- _ => rewrite H in Hn end.
    eapply evolves_new_bucket; [exact Hn|by apply valid_bucket|done..].
Qed.

(** What a credit repays, and what is left of it. *)
Record credited (d : ResourceDB O) k gross before (c : positiveCreditAllocation) : Prop := {
  crd_gross : pc_gross c = gross;
  crd_repaid : pc_debtRepaid c = Z.min (owed d k) gross;
  crd_net : pc_net c = gross - pc_debtRepaid c;
  crd_after : pc_availableAfter c = before + pc_net c;
  crd_fits : pc_availableAfter c ≤ max_int64;
  crd_owed : 0 ≤ owed d k }.

Lemma owed_nonneg (d : ResourceDB O) k : Sound d → 0 ≤ owed d k.
Proof.
  intros Hs. unfold owed, cell. destruct (_ !! k) as [x|] eqn:Hx; [|done].
  apply (snd_debts _ Hs _ _ Hx).
Qed.

Lemma wrap_overflow a b : 0 ≤ a ≤ max_int64 → 0 ≤ b ≤ max_int64 → (wrap64 (a + b) <? a) = false →
  wrap64 (a + b) = a + b ∧ a + b ≤ max_int64.
Proof.
  intros Ha Hb Hw. reflect_bools. assert (a + b ≤ max_int64); [|split; [apply wrap64_id; i64_bounds|done]].
  apply Z.nlt_ge. intros Hgt. revert Hw. unfold wrap64, max_int64 in *.
  pose proof (Z.mod_unique (a + b + 9223372036854775808) 18446744073709551616 1
    (a + b - 9223372036854775808)). lia.
Qed.

Lemma applyPositiveCredit_Ok org resource gross before w c w' : Sound (the_db w) →
  0 < gross ≤ max_int64 → amount before →
  applyPositiveCredit org resource gross before w = (Ok c, w') →
  credited (the_db w) (org, resource) gross before c ∧
  the_db w' = put_rows debts (<[(org, resource) := {| db_OrganizationID := org;
    db_ResourceType := resource; db_Amount := owed (the_db w) (org, resource) - pc_debtRepaid c |}]>
    (rd_debts (the_db w))) (the_db w).
Proof.
  unfold applyPositiveCredit. intros Hs Hg Hb Hr.
  pose proof (owed_nonneg _ (org, resource) Hs) as Ho0. inv_run.
  match goal with H : Some ?x = rows debts _ !! _, H' : (_ <? before) = false |- _ =>
    symmetry in H; rename H into Hx, H' into Hov; rename x into debt end.
  match goal with H : UpdateWhere _ _ _ _ _ = _ |- _ => apply UpdateWhere_Ok in H as
    [[-> ->]|(-> & v & Hv & _ & ->)]; [done|] end.
  assert (v = debt) as -> by congruence.
  assert (db_Amount debt = owed (the_db w) (org, resource) ∧ amount (db_Amount debt) ∧
    db_OrganizationID debt = org ∧ db_ResourceType debt = resource ∧
    ∀ y, the_db (write debts (<[(org, resource) := y]> (rows debts (the_db x0))) x0) =
      put_rows debts (<[(org, resource) := y]> (rd_debts (the_db w))) (the_db w))
    as (Ha & Hr & Hk1 & Hk2 & Hw).
  { match goal with H : CreateIgnore _ _ _ = _ |- _ => apply CreateIgnore_Ok in H as
      [(-> & -> & _)|(-> & Hn & _ & ->)] end.
    - cbn in Hx. unfold owed, cell. rewrite Hx. destruct (snd_debts _ Hs _ _ Hx) as [Hk Ham].
      by simplify_eq.
    - cbn in Hx, Hn. rewrite lookup_insert_eq in Hx. simplify_eq. unfold owed, cell. rewrite Hn. simpl.
      repeat split; unfold amount, max_int64; try lia. intros y. by rewrite insert_insert_eq. }
  unfold amount in *. rewrite Ha in *.
  assert (gross -! Z.min (owed (the_db w) (org, resource)) gross =
    gross - Z.min (owed (the_db w) (org, resource)) gross) as Hnet by i64.
  rewrite Hnet in *. apply wrap_overflow in Hov as [Hov Hfit]; [|lia..].
  split.
  - split; simpl; lia.
  - rewrite Hw. unfold with_amount. rewrite Hk1, Hk2. do 3 f_equal. cbn. i64.
Qed.
End statements.

(** An operation that is no second part. *)
Lemma no_reserve_key o : op_OperationType o ≠ "image_generation_finalize"%string →
  op_OperationType o ≠ "model_point_finalize"%string → reserve_key_of o = None.
Proof. unfold reserve_key_of. by intros ->%String.eqb_neq ->%String.eqb_neq. Qed.

(** ** Grants *)

Section grants.
Context {O : Type} `{Env}.
Notation W := (WorldOf (ResourceDB O)).
Implicit Types (w : W).

(** The event of a grant of [q] to a bucket. *)
Record grants_to (org resource : string) (q : Z) (b : organizationResourceBucketRow)
    (c : positiveCreditAllocation) (e : organizationResourceEventRow) : Prop := {
  gt_account : event_account e = (org, resource);
  gt_grant : is_grant e = true;
  gt_deltas : ev_AvailableDelta e = pc_net c ∧ ev_AllocatedDelta e = 0 ∧ ev_ReservedDelta e = 0 ∧
    ev_ConsumedDelta e = 0;
  gt_after : ev_AvailableAfter e = pc_availableAfter c ∧ ev_ReservedAfter e = b_Reserved b ∧
    ev_ConsumedAfter e = b_Consumed b;
  gt_credit : ev_GrossCredit e = pc_gross c ∧ ev_DebtRepaid e = pc_debtRepaid c }.

Lemma credited_idle (d : ResourceDB O) k gross c : Sound d → 0 < gross →
  credited d k gross (balance b_Available d k) c →
  0 < owed d k - pc_debtRepaid c → balance b_Available d k + pc_net c = 0.
Proof. intros Hs Hg [H1 H2 H3 H4 H5 H6] Ho. pose proof (snd_idle _ Hs k). lia. Qed.

Lemma same_members (d d' : ResourceDB O) : rd_positions d' = rd_positions d →
  rd_reservations d' = rd_reservations d → ∀ p,
  share po_Reserved d' p - charged open_reservation d' p =
    share po_Reserved d p - charged open_reservation d p ∧
  share po_Consumed d' p - charged committed d' p = share po_Consumed d p - charged committed d p.
Proof. unfold share, charged. intros -> -> p. done. Qed.

Lemma persistGrant_move w w1 w2 w3 org resource q b c op claim now e actor payload u :
  rd_buckets (the_db w) !! (org, resource) = Some b → 0 < q ≤ max_int64 →
  applyPositiveCredit org resource q (b_Available b) w = (Ok c, w1) →
  persistGrant op claim (pc_availableAfter c) now e actor payload w2 = (Ok u, w3) →
  the_db w2 = the_db w1 →
  grants_to org resource q b c e →
  (op_OrganizationID op, op_OperationID op) = operation_of e → op_State op = "succeeded"%string →
  reserve_key_of op = None → sc_SourceType claim = ev_SourceType e → sc_SourceIdentity claim = ev_SourceIdentity e →
  sc_OrganizationID claim = ev_OrganizationID e → sc_OperationID claim = ev_OperationID e →
  Sound (the_db w) → move e (the_db w) (the_db w3).
Proof.
  intros Hb Hq Hc Hp H12 He Hop Hst Hkey S1 S2 S3 S4 Hs.
  pose proof (snd_buckets _ Hs _ _ Hb) as Hgb. pose proof (cell_at b_Available _ _ _ Hb) as Hav.
  apply (applyPositiveCredit_Ok _ _ _ _ _ _ _ Hs Hq) in Hc as [Hcr H01]; [|apply Hgb].
  destruct He as [Ga Gg (Gd1 & Gd2 & Gd3 & Gd4) (Ga1 & Ga2 & Ga3) (Gc1 & Gc2)].
  unfold event_account in Ga. injection Ga as Ga1' Ga2'.
  pose proof (credited_idle _ (org, resource) q c Hs) as Hid.
  unfold balance in Hid. rewrite Hav in Hid. specialize (Hid ltac:(lia) Hcr).
  destruct Hcr as [C1 C2 C3 C4 C5 C6], Hgb as [G1 G2 G3 G4 G5 G6 G7].
  unfold persistGrant in Hp. inv_run.
  match goal with H : CreateAuditLog _ _ _ _ _ _ _ = _ |- _ =>
    apply CreateAuditLog_Ok in H as [m Haud] end.
  repeat match goal with H : rows _ _ !! _ = None |- _ => revert H end. db_eqs.
  intros F1 F2 F3. rewrite Hop in F1 |- *. rewrite S1, S2 in F2 |- *. unfold amount in *.
  split; cbn.
  - exists b, (with_available (pc_availableAfter c) now b). split; [done|].
    split. { by rewrite (alter_insert_row _ _ _ b). }
    split. { split; try done; simpl; unfold amount; lia. }
    simpl. repeat split; try lia. intros Hpos. rewrite C4. apply Hid. rewrite <- Gc2. exact Hpos.
  - exists op. rewrite Hkey. by repeat split.
  - done.
  - rewrite Gc2. apply debt_paid; [done|]. unfold event_account. lia.
  - by apply share_same.
  - by apply reservation_same.
  - by eapply (claim_made _ _ _ claim).
  - done.
  - by apply same_members.
  - unfold event_balanced, minted. rewrite Gg. lia.
Qed.
End grants.

(** ** Reading, falling back and retrying *)

Section combinators.
Context {O : Type}.
Notation W := (WorldOf (ResourceDB O)).
Implicit Types (w : W).

Lemma or_else_Ok {A} (m : ST W (option A)) rest w a w' : or_else m rest w = (Ok a, w') →
  m w = (Ok (Some a), w') ∨ ∃ w1, m w = (Ok None, w1) ∧ rest w1 = (Ok a, w').
Proof.
  unfold or_else. intros Hr. inv_run; [by left|right; eauto].
Qed.

Context (R : W → W → Prop) `{!Frame R}.
Lemma keeps_or_else {A} (m : ST W (option A)) (rest : ST W A) :
  keeps R m → keeps R rest → keeps R (or_else m rest).
Proof.
  intros Hm Hr. unfold or_else. apply keeps_bind; [apply _|done|]. intros [a|]; [apply keeps_ret, _|done].
Qed.
Lemma keeps_or_replay {A} (replay : ST W (option A)) (m : ST W A) :
  keeps R replay → keeps R m → keeps R (or_replay replay m).
Proof.
  intros Hr Hm w. unfold or_replay. specialize (Hm w). destruct (m w) as [[a|e] w1]; [done|].
  specialize (Hr w1). destruct (replay w1) as [[[a|]|e'] w2]; simpl in *; by etrans.
Qed.

Lemma keeps_check_bind {A} e (k : unit → ST W A) :
  (e = None → keeps R (k tt)) → keeps R (mbind k (check e)).
Proof.
  intros Hk w. unfold mbind, ST_bind, check. destruct e; simpl; [reflexivity|by apply Hk].
Qed.
Lemma keeps_guard_bind {A} b e (k : unit → ST W A) :
  (b = false → keeps R (k tt)) → keeps R (mbind k (guard_not b e)).
Proof.
  intros Hk w. unfold mbind, ST_bind, guard_not. destruct b; simpl; [reflexivity|by apply Hk].
Qed.
End combinators.

(** A read leaves the tables alone. *)
Lemma read_db {D A} (m : ST (WorldOf D) A) w r w' :
  keeps (on_db eq) m → m w = (r, w') → the_db w' = the_db w.
Proof. intros Hm E. specialize (Hm w). rewrite E in Hm. by symmetry. Qed.

Ltac resource_keeps_step :=
  lazymatch goal with
  | |- keeps _ (or_else _ _) => apply keeps_or_else; [apply _| |]
  | |- keeps _ (or_replay _ _) => apply keeps_or_replay; [apply _| |]
  | |- _ => keeps_step
  end.
(** Up to the transactions, with what the checks before them established. *)
Ltac request_step :=
  lazymatch goal with
  | |- keeps _ (Transaction _) => fail
  | |- keeps _ (mbind _ (check _)) => apply keeps_check_bind; [apply _|intros ?]
  | |- keeps _ (mbind _ (guard_not _ _)) => apply keeps_guard_bind; [apply _|intros ?]
  | |- _ => resource_keeps_step
  end.
Ltac solve_requests := intros; cbv zeta; repeat (request_step; cbv beta zeta).
Ltac solve_resource_keeps := intros; cbv zeta; repeat (resource_keeps_step; cbv beta zeta).

Section reads.
Context {O : Type} `{Env} `{ResourceOwners O}.
Notation W := (WorldOf (ResourceDB O)).
Context (R : W → W → Prop) `{!Frame R}.

Lemma keeps_resultFromOperation row : keeps R (resultFromOperation row).
Proof. unfold resultFromOperation. solve_resource_keeps. Qed.
#[local] Hint Resolve keeps_resultFromOperation : keeps.
Lemma keeps_lookupOperation org op fp : keeps R (lookupOperation org op fp).
Proof. unfold lookupOperation. solve_resource_keeps. Qed.
#[local] Hint Resolve keeps_lookupOperation : keeps.
Lemma keeps_lookupSource i : keeps R (lookupSource i).
Proof. unfold lookupSource. solve_resource_keeps. Qed.
#[local] Hint Resolve keeps_lookupSource : keeps.
Lemma keeps_ReplayWelcomeGrant i : keeps R (ReplayWelcomeGrant i).
Proof. unfold ReplayWelcomeGrant. solve_resource_keeps. Qed.
Lemma keeps_purchasedGrantResult org op fp : keeps R (purchasedGrantResultFromOperation org op fp).
Proof. unfold purchasedGrantResultFromOperation. solve_resource_keeps. Qed.
#[local] Hint Resolve keeps_purchasedGrantResult : keeps.
Lemma keeps_replayPurchasedGrantOnce i : keeps R (replayPurchasedGrantOnce i).
Proof. unfold replayPurchasedGrantOnce. solve_resource_keeps. Qed.
#[local] Hint Resolve keeps_replayPurchasedGrantOnce : keeps.
Lemma keeps_ReplayPurchasedResourceGrant i : keeps R (ReplayPurchasedResourceGrant i).
Proof. unfold ReplayPurchasedResourceGrant. solve_resource_keeps. Qed.
Lemma keeps_trial_result i row : keeps R (trial_result i row).
Proof. unfold trial_result. solve_resource_keeps. Qed.
#[local] Hint Resolve keeps_trial_result : keeps.
Lemma keeps_replayTrialAIGrantOnce i : keeps R (replayTrialAIGrantOnce i).
Proof. unfold replayTrialAIGrantOnce. solve_resource_keeps. Qed.
#[local] Hint Resolve keeps_replayTrialAIGrantOnce : keeps.
Lemma keeps_ReplayTrialAIGrant i : keeps R (ReplayTrialAIGrant i).
Proof. unfold ReplayTrialAIGrant. solve_resource_keeps. Qed.
Lemma keeps_ask_owners {A} (f : O → result A) : keeps R (ask_owners f).
Proof. intros w. reflexivity. Qed.
Lemma keeps_reservationResult row : keeps R (reservationResultFromOperation row).
Proof. unfold reservationResultFromOperation. solve_resource_keeps. Qed.
#[local] Hint Resolve keeps_reservationResult : keeps.
Lemma keeps_lookupReserveOperation org op fp : keeps R (lookupReserveOperation org op fp).
Proof. unfold lookupReserveOperation. solve_resource_keeps. Qed.
Lemma keeps_lookupReservationIdentity i : keeps R (lookupReservationIdentity i).
Proof. unfold lookupReservationIdentity. solve_resource_keeps. Qed.
#[local] Hint Resolve keeps_lookupReserveOperation keeps_lookupReservationIdentity : keeps.
Lemma keeps_ReplayReservation i : keeps R (ReplayReservation i).
Proof. unfold ReplayReservation. solve_resource_keeps. Qed.
Lemma keeps_lookupBoundReservation owner i : keeps R (lookupBoundReservation owner i).
Proof. unfold lookupBoundReservation. solve_resource_keeps. Qed.
Lemma keeps_settlementResult row : keeps R (settlementResultFromOperation row).
Proof. unfold settlementResultFromOperation. solve_resource_keeps. Qed.
#[local] Hint Resolve keeps_settlementResult : keeps.
Lemma keeps_lookupSettlementOperation org op fp : keeps R (lookupSettlementOperation org op fp).
Proof. unfold lookupSettlementOperation. solve_resource_keeps. Qed.
Lemma keeps_settlementResultFromReservation r fp : keeps R (settlementResultFromReservation r fp).
Proof. unfold settlementResultFromReservation. solve_resource_keeps. Qed.
#[local] Hint Resolve keeps_lookupSettlementOperation keeps_settlementResultFromReservation : keeps.
Lemma keeps_ReplaySettlement i : keeps R (ReplaySettlement i).
Proof. unfold ReplaySettlement. solve_resource_keeps. Qed.
Lemma keeps_loadReservation org id : keeps R (loadReservation org id).
Proof. unfold loadReservation. solve_resource_keeps. Qed.
End reads.
#[export] Hint Resolve keeps_lookupOperation keeps_lookupSource keeps_ReplayWelcomeGrant
  keeps_replayPurchasedGrantOnce keeps_ReplayPurchasedResourceGrant keeps_replayTrialAIGrantOnce
  keeps_ReplayTrialAIGrant keeps_ask_owners keeps_lookupReserveOperation
  keeps_lookupReservationIdentity keeps_ReplayReservation keeps_lookupBoundReservation
  keeps_lookupSettlementOperation keeps_settlementResultFromReservation keeps_ReplaySettlement
  keeps_loadReservation : keeps.

(** ** Every request for a grant *)

Section grant_requests.
Context {O : Type} `{Env} `{ResourceAuthorities}.
Notation W := (WorldOf (ResourceDB O)).
Implicit Types (w : W).

Lemma mintWelcome_move i bucket w r w' :
  rd_buckets (the_db w) !! (wx_OrganizationID i, wx_ResourceType i) = Some bucket →
  0 < wx_Quantity i ≤ max_int64 → wx_SourceType i = SourceOnboardingWelcomeStorePeriod →
  wx_OperationType i = OperationGrantWelcomeStoreRenewalPeriod →
  mintWelcome i bucket w = (Ok r, w') →
  ∃ c id, Sound (the_db w) → move (welcome_event i bucket c id) (the_db w) (the_db w').
Proof.
  unfold mintWelcome. intros Hb Hq Hsrc Hty Hr. inv_run. do 2 eexists. intros Hs.
  match goal with Hn : the_db ?x = the_db w |- _ =>
    rewrite <- Hn in *; eapply (persistGrant_move x) end; try eassumption; try done.
  - split; try done. unfold is_grant. cbn. by rewrite Hsrc.
  - apply no_reserve_key; cbn; by rewrite Hty.
Qed.

Lemma mintPurchase_move i bucket w r w' :
  rd_buckets (the_db w) !! (px_OrganizationID i, px_ResourceType i) = Some bucket →
  0 < px_Quantity i ≤ max_int64 → px_OperationType i = OperationGrantCommercialPurchase →
  mintPurchase i bucket w = (Ok r, w') →
  ∃ c id, Sound (the_db w) → move (purchase_event i bucket c id) (the_db w) (the_db w').
Proof.
  unfold mintPurchase. intros Hb Hq Hty Hr. inv_run. do 2 eexists. intros Hs.
  match goal with Hn : the_db ?x = the_db w |- _ =>
    rewrite <- Hn in *; eapply (persistGrant_move x) end; try eassumption; try done.
  - congruence.
  - split; try done. unfold is_grant. cbn. by rewrite Hty.
  - apply no_reserve_key; cbn; by rewrite Hty.
Qed.

Lemma mintTrial_move i bucket w r w' :
  rd_buckets (the_db w) !! (tx_OrganizationID i, ResourceAIPoint) = Some bucket →
  mintTrial i bucket w = (Ok r, w') →
  ∃ c id, Sound (the_db w) → move (trial_event i bucket c id) (the_db w) (the_db w').
Proof.
  unfold mintTrial. intros Hb Hr. inv_run. do 2 eexists. intros Hs.
  match goal with Hn : the_db ?x = the_db w |- _ =>
    rewrite <- Hn in *; eapply (persistGrant_move x) end; try eassumption; done.
Qed.

(** A locked, re-checked grant. *)
Lemma grant_transaction_evolves {A} org resource (read : ST W (option A))
    (mint : organizationResourceBucketRow → ST W A) w a w' :
  validResourceType resource = true → keeps (on_db eq) read →
  (∀ b w r w', rd_buckets (the_db w) !! (org, resource) = Some b → mint b w = (Ok r, w') →
     evolves (the_db w) (the_db w')) →
  (bucket ← lockBucket org resource; or_else read (mint bucket)) w = (Ok a, w') →
  evolves (the_db w) (the_db w').
Proof.
  intros Hv Hread Hmint Hr. inv_step Hr.
  match goal with H : lockBucket _ _ _ = _ |- _ => apply lockBucket_Ok in H as [Hlock Hb]; [|done] end.
  match goal with H : or_else _ _ _ = _ |- _ => apply or_else_Ok in H as [H1|(w2 & H1 & H2)] end;
    apply (read_db _ _ _ _ Hread) in H1.
  - by rewrite H1.
  - etrans; [exact Hlock|]. rewrite <- H1 in Hb |- *. by apply (Hmint _ _ _ _ Hb H2).
Qed.

Lemma after_read {A} (read : ST W (option A)) (rest : ST W A) w a w' :
  keeps (on_db eq) read → (∀ w a w', rest w = (Ok a, w') → evolves (the_db w) (the_db w')) →
  or_else read rest w = (Ok a, w') → evolves (the_db w) (the_db w').
Proof.
  intros Hread Hrest Hr. apply or_else_Ok in Hr as [H1|(w2 & H1 & H2)];
    apply (read_db _ _ _ _ Hread) in H1.
  - by rewrite H1.
  - rewrite <- H1. eauto.
Qed.

Lemma ExecuteWelcomeGrant_evolves i : 0 < wx_Quantity i ≤ max_int64 →
  validResourceType (wx_ResourceType i) = true →
  wx_SourceType i = SourceOnboardingWelcomeStorePeriod →
  wx_OperationType i = OperationGrantWelcomeStoreRenewalPeriod →
  keeps (on_db evolves) (ExecuteWelcomeGrant (O:=O) i).
Proof.
  intros Hq Hv Hsrc Hty. unfold ExecuteWelcomeGrant. solve_requests.
  apply keeps_Transaction_Ok; [apply _|]. intros w a w'.
  apply after_read; [solve_resource_keeps|]. clear w a w'. intros w a w'.
  apply after_read; [solve_resource_keeps|]. clear w a w'. intros w a w'.
  apply grant_transaction_evolves; [done|solve_resource_keeps|].
  clear w a w'. intros b w r w' Hb Hr.
  destruct (mintWelcome_move _ _ _ _ _ Hb Hq Hsrc Hty Hr) as (c & id & Hm). eapply move_evolves; eauto.
Qed.

Lemma GrantWelcome_evolves i : keeps (on_db evolves) (GrantWelcomeStoreRenewalPeriod (O:=O) i).
Proof.
  unfold GrantWelcomeStoreRenewalPeriod. solve_requests.
  apply ExecuteWelcomeGrant_evolves; [by split|done..].
Qed.

Lemma validatePurchased_valid i : validatePurchasedGrantIdentity i = None →
  0 < pg_Quantity i ∧ validResourceType (pg_ResourceType i) = true.
Proof.
  unfold validatePurchasedGrantIdentity. intros Hv. repeat case_match; try done.
  reflect_bools. naive_solver.
Qed.

Lemma ExecutePurchase_evolves i : 0 < px_Quantity i ≤ max_int64 →
  validResourceType (px_ResourceType i) = true →
  px_OperationType i = OperationGrantCommercialPurchase →
  keeps (on_db evolves) (ExecutePurchasedResourceGrant (O:=O) i).
Proof.
  intros Hq Hv Hty. unfold ExecutePurchasedResourceGrant. solve_requests.
  apply keeps_Transaction_Ok; [apply _|]. intros w a w'.
  apply after_read; [solve_resource_keeps|]. clear w a w'. intros w a w'.
  apply grant_transaction_evolves; [done|solve_resource_keeps|].
  clear w a w'. intros b w r w' Hb Hr.
  destruct (mintPurchase_move _ _ _ _ _ Hb Hq Hty Hr) as (c & id & Hm). eapply move_evolves; eauto.
Qed.

Lemma GrantPurchasedResource_evolves i : pg_Quantity i ≤ max_int64 →
  keeps (on_db evolves) (GrantPurchasedResource (O:=O) i).
Proof.
  intros Hq. unfold GrantPurchasedResource. solve_requests.
  match goal with H : validatePurchasedGrantIdentity _ = None |- _ =>
    apply validatePurchased_valid in H as [??] end.
  by apply ExecutePurchase_evolves.
Qed.

Lemma ExecuteTrialAIGrant_evolves i : keeps (on_db evolves) (ExecuteTrialAIGrant (O:=O) i).
Proof.
  unfold ExecuteTrialAIGrant. solve_requests.
  apply keeps_Transaction_Ok; [apply _|]. intros w a w'. unfold executeTrialAIGrantTransaction.
  apply after_read; [solve_resource_keeps|]. clear w a w'. intros w a w'.
  apply grant_transaction_evolves; [done|solve_resource_keeps|].
  clear w a w'. intros b w r w' Hb Hr.
  destruct (mintTrial_move _ _ _ _ _ Hb Hr) as (c & id & Hm). eapply move_evolves; eauto.
Qed.
#[local] Hint Resolve ExecuteTrialAIGrant_evolves : keeps.

Lemma GrantTrial_evolves i : keeps (on_db evolves) (GrantTrial (O:=O) i).
Proof. unfold GrantTrial, prepareTrial. solve_requests. Qed.
Lemma InspectTrial_evolves i : keeps (on_db evolves) (InspectTrial (O:=O) i).
Proof. unfold InspectTrial, prepareTrial. solve_requests. Qed.
End grant_requests.
