(* ===== verification/ResourceReserve.v ===== *)
(** * Reservations and settlements evolve the resource tables

    Placing a reservation and settling it are moves; the services keep every
    invariant, provided the owners of reservations and the consumers that are
    charged are not the same. *)
From S2P Require Import Prelude GoStd Encoding GenerationFacts ResourceTypes PointTypes Store ResourceStore ResourceRepo ResourceCharges ResourcePoints ResourceBooks ResourceInv ResourceMoves ResourceSteps.

(** The reservation owners are no consumers, whose charges the charge service
    alone settles, and do not reserve AI points for images or invocations. *)
Class SeparateOwners {O : Type} `{ResourceOwners O} : Prop := {
  owners_apart c : validResourceConsumer c = true → owner_registered c = false;
  owners_no_points t : owner_registered t = true → point_owner t = false }.

(** The event of a move is the one that was recorded. *)
Ltac the_event :=
  match goal with |- context [move ?v _ {| rd_events := <[_:=?e]> _ |}] => unify v e end.

Section updates.
Context {D K V : Type} `{Countable K} (t : TableOf D K V).
Implicit Types (w : WorldOf D).

Lemma UpdateWhere_one k P f w b w' : UpdateWhere t k P f w = (Ok b, w') → negb b = false →
  ∃ v, rows t (the_db w) !! k = Some v ∧ P v = true ∧
    w' = write t (<[k := f v]> (rows t (the_db w))) w.
Proof. intros [[-> ->]|(-> & Hv)]%UpdateWhere_Ok Hb; [done|exact Hv]. Qed.
End updates.

(** Facts about rows in terms of the tables a run started from. *)
Ltac rows_of w :=
  repeat match goal with H : map_find _ _ = None |- _ => clear H end;
  repeat match goal with H : rows _ _ !! _ = _ |- _ => revert H end;
  repeat match goal with H : _ = rows _ _ !! _ |- _ => revert H end;
  db_eqs.

Section members.
Context {O : Type}.
Implicit Types (d : ResourceDB O).

(** A reservation that no member pays for leaves the shares alone. *)
Lemma members_put d d' k r' : rd_positions d' = rd_positions d →
  rd_reservations d' = <[k:=r']> (rd_reservations d) → member_charge r' = false →
  (∀ r, rd_reservations d !! k = Some r → member_charge r = false) → ∀ p,
  share po_Reserved d' p - charged open_reservation d' p =
    share po_Reserved d p - charged open_reservation d p ∧
  share po_Consumed d' p - charged committed d' p = share po_Consumed d p - charged committed d p.
Proof.
  unfold share, charged. intros -> -> Hr' Hr p. rewrite !tally_put. unfold term.
  rewrite Hr', !andb_false_r. destruct (rd_reservations d !! k) as [r|]; simpl; [|lia].
  rewrite (Hr r) by done. rewrite !andb_false_r. simpl. lia.
Qed.
End members.

Section owners.
Context {O : Type} `{ResourceOwners O}.
Implicit Types (w : WorldOf (ResourceDB O)).

Lemma on_owners_Ok f w u w' : on_owners f w = (Ok u, w') →
  ∃ o, the_db w' = put_owners o (the_db w).
Proof. unfold on_owners. destruct (f _); naive_solver. Qed.
Lemma ask_owners_Ok {A} (f : O → result A) w a w' : ask_owners f w = (Ok a, w') →
  f (rd_owners (the_db w)) = Ok a ∧ w' = w.
Proof. unfold ask_owners. naive_solver. Qed.
End owners.

Ltac inv_owners :=
  repeat match goal with
  | H : on_owners _ _ = (Ok _, _) |- _ => apply on_owners_Ok in H as [? H]
  | H : ask_owners _ _ = (Ok _, _) |- _ => apply ask_owners_Ok in H as [? H]; subst
  | H : UpdateWhere _ _ _ _ _ = (Ok ?b, _), G : negb ?b = false |- _ =>
      apply UpdateWhere_one in H as (? & ? & ? & H); [subst|exact G]; clear G
  | H : CreateAuditLog _ _ _ _ _ _ _ = (Ok _, _) |- _ => apply CreateAuditLog_Ok in H as [? H]
  | _ => progress inv_run
  end.

Section reserve.
Context {O : Type} `{Env} `{ResourceOwners O} `{ResourceAuthorities}.
Notation W := (WorldOf (ResourceDB O)).
Implicit Types (w : W).

Lemma placeReservation_move i bucket w r w' :
  rd_buckets (the_db w) !! (ex_OrganizationID i, ex_ResourceType i) = Some bucket →
  0 < ex_Quantity i ≤ max_int64 → ex_Quantity i ≤ b_Available bucket →
  placeReservation i bucket w = (Ok r, w') → ex_OperationType i = OperationReserve →
  point_owner (ex_OwnerType i) = false →
  ∃ e, Sound (the_db w) → move e (the_db w) (the_db w').
Proof.
  unfold placeReservation. intros Hb Hq Ha Hr Hty Hpt. cbv zeta in Hr.
  inv_owners. match goal with Hx : (wrap64 ?a <? b_Reserved bucket) = false |- _ => rename Hx into Hov end.
  eexists. intros Hs. rows_of w.
  intros F1 F2 F3 F4. the_event. simplify_eq. pose proof (snd_buckets _ Hs _ _ Hb) as Hgb.
  pose proof (cell_at b_Available _ _ _ Hb) as Hav.
  destruct Hgb as [G1 G2 G3 G4 G5 G6 G7]. unfold amount in *.
  apply wrap_overflow in Hov as [-> Hfit]; [|lia..].
  rewrite (wrap64_id (b_Available bucket - ex_Quantity i)) by i64_bounds.
  split; cbn.
  - exists bucket. eexists. split; [done|]. split; [reflexivity|].
    split. { split; try done; simpl; unfold amount; lia. }
    simpl. rewrite (wrap64_id (- _)) by i64_bounds. repeat split; try lia.
    unfold event_account. simpl. intros Ho. pose proof (snd_idle _ Hs (ex_OrganizationID i, ex_ResourceType i)) as Hid.
    unfold balance in Hid. rewrite Hav in Hid. lia.
  - eexists. split; [exact F1|]. do 3 (split; [done|]). intros key. rewrite no_reserve_key; [done|..];
      cbn; by rewrite Hty.
  - done.
  - by apply debt_same.
  - by apply share_same.
  - eapply (reservation_placed _ _ _ (reservation_row i _ _)); [exact F2|reflexivity|..]; try done.
    + split; try done; [by left|]. intros Hp. unfold pointed in Hp. simpl in Hp. congruence.
    + by apply unpointed_effect.
  - by apply claim_same.
  - done.
  - eapply members_put; [done|reflexivity|done|]. intros r0 Hr0. simpl in Hr0. congruence.
  - unfold event_balanced, minted. simpl. rewrite (wrap64_id (- _)) by i64_bounds. lia.
Qed.

Lemma reserveTransaction_evolves i w r w' : 0 < ex_Quantity i ≤ max_int64 →
  ex_OperationType i = OperationReserve → point_owner (ex_OwnerType i) = false → reserveTransaction i w = (Ok r, w') →
  evolves (the_db w) (the_db w').
Proof.
  intros Hq Hty Hpt. unfold reserveTransaction.
  apply after_read; [solve_resource_keeps|]. clear w r w'. intros w r w'.
  apply after_read; [solve_resource_keeps|]. clear w r w'. intros w r w' Hr.
  inv_owners. rename select (or_else _ _ _ = _) into Hr. revert Hr.
  apply after_read; [solve_resource_keeps|]. clear r w'. intros w1 r w'.
  destruct (os_ReservationID _ ≠s ""%string).
  - intros Hr. apply read_db in Hr; [by rewrite Hr|solve_resource_keeps].
  - intros Hr. inv_owners. reflect_bools.
    match goal with Hp : placeReservation _ _ _ = _ |- _ =>
      eapply placeReservation_move in Hp as [e He]; [by eapply move_evolves; eauto|..] end; try done; lia.
Qed.

Lemma Reserve_evolves `{!SeparateOwners} i : ei_Quantity i ≤ max_int64 → keeps (on_db evolves) (Reserve i).
Proof.
  intros Hq. unfold Reserve, ExecuteReservation. solve_requests.
  match goal with Hx : validateReserveIdentity _ = None |- _ => rename Hx into Hv end.
  assert (0 < ei_Quantity i).
  { unfold validateReserveIdentity in Hv. repeat case_match; try done. reflect_bools. simpl in *. naive_solver. }
  apply keeps_Transaction_Ok; [apply _|]. intros w r w'. apply reserveTransaction_evolves; try done.
  apply owners_no_points. by apply negb_false_iff.
Qed.

(** ** Settlements *)

(** The amounts of a settlement, by its decision. *)
Record settled_amounts (d : ResourceDB O) (r : organizationResourceReservationRow)
    (b : organizationResourceBucketRow) (decision : string) (s : calculatedSettlement) : Prop := {
  sa_decision : cs_decision s = decision;
  sa_reserved : cs_reservedAfter s = b_Reserved b - rr_Quantity r;
  sa_consumed : cs_consumedAfter s =
    b_Consumed b + (if decision =s SettlementCommit then rr_Quantity r else 0);
  sa_available : cs_availableAfter s =
    b_Available b + (if decision =s SettlementCommit then 0 else cs_netCredit s);
  sa_credit : if decision =s SettlementCommit
    then cs_grossCredit s = 0 ∧ cs_debtRepaid s = 0 ∧ cs_netCredit s = 0
    else cs_grossCredit s = rr_Quantity r ∧ 0 ≤ cs_netCredit s ∧
      cs_debtRepaid s + cs_netCredit s = rr_Quantity r;
  sa_fits : cs_availableAfter s ≤ max_int64 ∧ cs_consumedAfter s ≤ max_int64;
  sa_idle : 0 < owed d (reservation_account r) - cs_debtRepaid s → cs_availableAfter s = 0 }.

Lemma calculateSettlement_Ok r bucket decision w s w1 : Sound (the_db w) →
  rd_buckets (the_db w) !! reservation_account r = Some bucket → 0 < rr_Quantity r ≤ max_int64 →
  rr_Quantity r ≤ b_Reserved bucket → decision = SettlementCommit ∨ decision = SettlementRelease →
  calculateSettlement r bucket decision w = (Ok s, w1) →
  settled_amounts (the_db w) r bucket decision s ∧
  ∃ m, the_db w1 = put_rows debts m (the_db w) ∧ ((m = rd_debts (the_db w) ∧ cs_debtRepaid s = 0) ∨
    (m = <[reservation_account r := {| db_OrganizationID := rr_OrganizationID r;
       db_ResourceType := rr_ResourceType r;
       db_Amount := owed (the_db w) (reservation_account r) - cs_debtRepaid s |}]> (rd_debts (the_db w)) ∧
     0 ≤ cs_debtRepaid s ≤ owed (the_db w) (reservation_account r))).
Proof.
  intros Hs Hb Hq Hres Hd Hc. destruct (snd_buckets _ Hs _ _ Hb) as [_ _ G3 G4 G5 G6 _].
  pose proof (snd_idle _ Hs (reservation_account r)) as Hid. unfold balance in Hid.
  rewrite (cell_at b_Available _ _ _ Hb) in Hid. pose proof (owed_nonneg _ (reservation_account r) Hs) as Ho0.
  unfold calculateSettlement in Hc. unfold amount in *. destruct Hd as [-> | ->]; simpl in Hc; inv_run.
  - match goal with Hx : (wrap64 ?a <? b_Consumed bucket) = false |- _ => rename Hx into Hov end.
    apply wrap_overflow in Hov as [Hov Hfit]; [|lia..]. split.
    + split; simpl; try done; try lia; i64.
    + exists (rd_debts (the_db w)). split; [by destruct (the_db w)|by left].
  - match goal with Hx : applyPositiveCredit _ _ _ _ _ = _, Hn : the_db _ = the_db w |- _ =>
      rename Hx into Hcr; pose proof Hn as Hdb end.
    apply applyPositiveCredit_Ok in Hcr as [[C1 C2 C3 C4 C5 C6] Hw1]; [|by rewrite Hdb|done|done].
    rewrite Hdb in *. unfold reservation_account in *. split.
    + split; simpl; unfold reservation_account; try done; try lia; i64.
    + eexists. split; [exact Hw1|]. right. split; [done|]. simpl. lia.
Qed.

Lemma persistSettlement_move i r proof bucket decision w s w1 res w' :
  rd_reservations (the_db w) !! reservation_key r = Some r →
  rd_buckets (the_db w) !! reservation_account r = Some bucket →
  rr_Quantity r ≤ b_Reserved bucket → member_charge r = false → pointed r = false →
  lx_OperationType i = OperationSettleReservation → decision = SettlementCommit ∨ decision = SettlementRelease →
  calculateSettlement r bucket decision w = (Ok s, w1) →
  persistSettlement i r proof s w1 = (Ok res, w') → lx_OrganizationID i = rr_OrganizationID r →
  ∃ e, Sound (the_db w) → move e (the_db w) (the_db w').
Proof.
  intros Hr Hb Hres Hm Hpt Hty Hd Hc Hp Horg.
  unfold persistSettlement in Hp. cbv zeta in Hp. inv_owners.
  eexists. intros Hs. destruct (snd_reservations _ Hs _ _ Hr) as [Rk Rq Rs Rt Rc Rp].
  apply calculateSettlement_Ok in Hc as [[S1 S3 S4 S5 S6 [S7 S8] S9] (m & Hw1 & Hdebt)]; [|done..].
  destruct (snd_buckets _ Hs _ _ Hb) as [G1 G2 G3 G4 G5 G6 G7].
  match goal with Ho : open_reservation ?x = true |- _ => rename Ho into Hopen; rename x into r1 end.
  rows_of w. intros F1 F2 F3 F4. the_event. unfold amount in *.
  assert (r1 = r) as -> by (unfold reservation_key in Hr; congruence).
  match type of F3 with _ = Some ?y => assert (y = bucket) as -> by (unfold reservation_account in Hb; congruence) end.
  unfold event_account. rewrite Horg in *.
  assert (∀ z, 0 < z → in_int64 z → wrap64 (- z) = - z) as Hneg by (intros; i64).
  destruct Hd as [-> | ->]; simpl in S4, S5, S6; rewrite S1 in *; simpl;
    (split; cbn; unfold event_account; simpl; rewrite ?S1, ?(Hneg (rr_Quantity r)) by i64_bounds; simpl;
     [|eexists; split; [exact F1|do 3 (split; [done|]); intros key; rewrite no_reserve_key; [done|..]; cbn; by rewrite Hty]|done|destruct Hdebt as [[-> Hz]|[-> Hz]]; [by apply debt_same|by apply debt_paid]
      |by apply share_same| |apply claim_same; [done|unfold is_grant; simpl; by rewrite S1]|done|eapply members_put; [done|reflexivity|done|intros r0 Hr0; simpl in Hr0; congruence]
      |unfold event_balanced, minted, is_grant; simpl; rewrite S1, Hneg by i64_bounds; simpl; lia]).
  all: try (exists bucket; eexists; split; [done|]; split; [reflexivity|]; split;
    [split; try done; simpl; unfold amount; lia|simpl; repeat split; try lia; exact S9]).
  all: eapply (reservation_closed _ _ _ r); [done|reflexivity|..]; try done.
  all: try (simpl; apply Hneg; [lia|i64_bounds]).
  all: try (simpl; rewrite S1; done).
  all: try (by apply unpointed_effect).
  all: split; try done; try exact Rc; try exact Rp; simpl; auto.
Qed.

Lemma validateTerminalProof_decides r proof decision : validateTerminalProof r proof = Ok decision →
  (decision = SettlementCommit ∧ ot_State proof = OwnerAttemptSucceededTerminal) ∨
  (decision = SettlementRelease ∧ (ot_State proof = OwnerAttemptFailedTerminal ∨
     ot_State proof = OwnerAttemptCancelledTerminal)).
Proof.
  unfold validateTerminalProof. intros Hv. case_match; [done|].
  destruct (ot_State proof =s OwnerAttemptSucceededTerminal) eqn:E1.
  - unfold mbind, result_bind in Hv. case_match; simplify_eq. apply String.eqb_eq in E1. auto.
  - destruct ((ot_State proof =s OwnerAttemptFailedTerminal)
      || (ot_State proof =s OwnerAttemptCancelledTerminal)) eqn:E2; [|done].
    unfold mbind, result_bind in Hv. case_match; simplify_eq.
    right. apply orb_true_iff in E2. rewrite !String.eqb_eq in E2. auto.
Qed.

Lemma separate_no_member `{!SeparateOwners} k r : good_reservation k r →
  owner_registered (rr_OwnerType r) = true → member_charge r = false.
Proof.
  intros [_ _ _ _ Hc _] Ho. unfold member_charge.
  destruct (rr_ChargeProtocol r =s consumerChargeProtocol) eqn:E; [|done]. simpl.
  apply String.eqb_eq in E. specialize (Hc E). exfalso.
  unfold ValidConsumerChargeIntent in Hc. simpl in Hc. case_match eqn:E2; [done|].
  unfold ValidConsumerChargeIdentity in E2. simpl in E2.
  destruct (validResourceConsumer (rr_OwnerType r)) eqn:E3.
  - rewrite (owners_apart _ E3) in Ho. done.
  - rewrite !andb_false_r in E2. done.
Qed.

Lemma loadReservation_Ok org id w r w' : loadReservation org id w = (Ok r, w') →
  rd_reservations (the_db w) !! (org, id) = Some r ∧ w' = w.
Proof. unfold loadReservation. intros Hr. inv_run. by subst. Qed.

Lemma same_owner seed r : sameReservationIdentity seed r = true → rr_OwnerType seed = rr_OwnerType r.
Proof. unfold sameReservationIdentity. intros Hs. reflect_bools. apply Hs. Qed.

Lemma settleTransaction_evolves `{!SeparateOwners} i seed w r w' :
  owner_registered (rr_OwnerType seed) = true → lx_OperationType i = OperationSettleReservation →
  settleTransaction i seed w = (Ok r, w') → evolves (the_db w) (the_db w').
Proof.
  intros Ho Hty. unfold settleTransaction.
  apply after_read; [solve_resource_keeps|]. clear w r w'. intros w r w' Hr.
  inv_owners. rename select (or_else _ _ _ = _) into Hr.
  match goal with Hl : loadReservation _ _ _ = _ |- _ =>
    apply loadReservation_Ok in Hl as [Hres ->] end.
  apply or_else_Ok in Hr as [Hr|(w2 & Hrd & Hr)];
    [apply read_db in Hr; [by rewrite Hr|solve_resource_keeps]|].
  apply read_db in Hrd; [|solve_resource_keeps].
  inv_owners. reflect_bools. intros Hs Ht.
  rename select (validateTerminalProof _ _ = _) into Hv. apply validateTerminalProof_decides in Hv.
  rename select (sameReservationIdentity _ _ = _) into Hsame.
  rewrite Hrd in *.
  match goal with Hl : rd_reservations _ !! _ = Some ?x |- _ => rename x into reservation end.
  pose proof (snd_reservations _ Hs _ _ Hres) as Hg. pose proof (gr_key _ _ Hg) as Hk.
  assert (member_charge reservation = false) as Hm.
  { eapply separate_no_member; [exact Hg|].
    by rewrite <- (same_owner _ _ Hsame). }
  assert (pointed reservation = false) as Hpt.
  { apply owners_no_points. by rewrite <- (same_owner _ _ Hsame). }
  rewrite Hk in Hres.
  match goal with Hp : persistSettlement _ _ _ _ _ = _, Hc : calculateSettlement _ ?b ?d _ = _ |- _ =>
    apply (persistSettlement_move _ _ _ b d w2) in Hp as [e He] end;
    rewrite ?Hrd in *; try done; [|naive_solver|congruence].
  exact (move_evolves e _ _ (λ Hs _, He Hs) Hs Ht).
Qed.

Lemma Settle_evolves `{!SeparateOwners} i : keeps (on_db evolves) (Settle i).
Proof.
  unfold Settle, ExecuteSettlement. solve_requests.
  match goal with Ho : negb (owner_registered _) = false |- _ => apply negb_false_iff in Ho end.
  apply keeps_Transaction_Ok; [apply _|]. intros w r w'. by apply settleTransaction_evolves.
Qed.
End reserve.
