(* ===== verification/ResourceShares.v ===== *)
(** * Transfers and charges evolve the resource tables

    A transfer between an organization and its member, a charge and its
    settlement are moves: the fixed operation they lock is completed in the
    transaction that creates it. Claiming due charges is quiet, and recovery is
    a sequence of settlements. *)
From S2P Require Import Prelude GoStd Encoding GenerationFacts ResourceTypes PointTypes Store ResourceStore ResourceRepo ResourceCharges ResourcePoints ResourceBooks ResourceInv ResourceMoves ResourceSteps ResourceReserve.

Section locks.
Context {O : Type} `{Env}.
Notation W := (WorldOf (ResourceDB O)).
Implicit Types (w : W) (d : ResourceDB O).

(** A new operation is being processed in [d'], and nothing else changed. *)
Definition opens d d' (op : organizationResourceOperationRow) : Prop :=
  let key := (op_OrganizationID op, op_OperationID op) in
  rd_operations d !! key = None ∧ d' = put_rows operations (<[key := op]> (rd_operations d)) d.

Lemma lockFixed_raw org key kind fp w op w' :
  lockFixedResourceOperation org key kind fp w = (Ok op, w') →
  op_OperationType op = kind ∧
  ((the_db w' = the_db w ∧ rd_operations (the_db w) !! (org, key) = Some op) ∨
   (op_State op = "processing"%string ∧ (op_OrganizationID op, op_OperationID op) = (org, key) ∧
    opens (the_db w) (the_db w') op)).
Proof.
  unfold lockFixedResourceOperation, opens. intros Hr. inv_run. reflect_bools.
  match goal with Hc : CreateIgnore _ _ _ = _ |- _ => apply CreateIgnore_Ok in Hc as
    [(-> & -> & _)|(-> & Hn & _ & ->)] end.
  - split; [naive_solver|]. by left.
  - match goal with Hl : Some _ = _ |- _ => cbn in Hl; rewrite lookup_insert_eq in Hl end.
    simplify_eq. split; [done|]. right. by repeat split.
Qed.

Lemma lockFixed_Ok org key kind fp w op w' :
  lockFixedResourceOperation org key kind fp w = (Ok op, w') →
  Traced (the_db w) → (op_OrganizationID op, op_OperationID op) = (org, key) ∧
  op_OperationType op = kind ∧
  ((the_db w' = the_db w ∧ (op_State op = "succeeded"%string ∨ closed_reserve op) ∧
    rd_operations (the_db w) !! (org, key) = Some op) ∨
   (op_State op = "processing"%string ∧ opens (the_db w) (the_db w') op)).
Proof.
  intros Hl Ht. apply lockFixed_raw in Hl as [Hk [[Hdb Hop]|(Hst & Hkey & Ho)]].
  - destruct (trc_operations _ Ht _ _ Hop) as [Hkey Hst]. split; [done|]. split; [done|]. by left.
  - split; [done|]. split; [done|]. by right.
Qed.

(** An operation that is locked is either answered from its record, or new and
    carried out. *)
Lemma fixed_evolves org key kind fp w op w1 w' :
  lockFixedResourceOperation org key kind fp w = (Ok op, w1) →
  (op_State op = "succeeded"%string ∨ (op_State op = "failed"%string ∧ closable kind = true) →
    the_db w' = the_db w1) →
  ((op_OrganizationID op, op_OperationID op) = (org, key) → op_OperationType op = kind →
    op_State op = "processing"%string → opens (the_db w) (the_db w1) op → Sound (the_db w) → Traced (the_db w) →
    ∃ e, move e (the_db w) (the_db w')) →
  evolves (the_db w) (the_db w').
Proof.
  intros Hl Hold Hnew Hs Ht. apply lockFixed_Ok in Hl as (Hk & Hkind & [(Hdb & Hst & _)|[Hst Ho]]); [..|done].
  - rewrite Hold, Hdb by (destruct Hst as [|[??]]; [by left|right; by rewrite <- Hkind]). by apply evolves_preorder.
  - destruct (Hnew Hk Hkind Hst Ho Hs Ht) as [e He]. by apply (move_evolves e).
Qed.

Lemma lockPosition_Ok org member resource w x w' : IsMemberAllocatedResource resource = true →
  lockMemberResourcePosition org member resource w = (Ok x, w') →
  evolves (the_db w) (the_db w') ∧ rd_positions (the_db w') !! (org, member, resource) = Some x ∧
  rd_buckets (the_db w') = rd_buckets (the_db w).
Proof.
  unfold lockMemberResourcePosition. intros Hv Hr. inv_run.
  match goal with Hc : CreateIgnore _ _ _ = _ |- _ => apply CreateIgnore_Ok in Hc as
    [(-> & -> & _)|(-> & Hn & _ & ->)] end.
  - match goal with Hd : the_db _ = the_db w |- _ => rewrite <- Hd end. by split.
  - match goal with Hd : the_db _ = the_db w |- _ => cbn in Hn; rewrite Hd in Hn end.
    match goal with Hl : Some x = _ |- _ => cbn in Hl; rewrite lookup_insert_eq in Hl end. simplify_eq.
    split; [|db_eqs; split; [apply lookup_insert_eq|done]].
    eapply evolves_new_share; [exact Hn| | | | |db_eqs; reflexivity..]; [|reflexivity..].
    split; try exact Hv; try done; simpl; unfold amount, max_int64; lia.
Qed.
End locks.

(** ** Transfers *)

Section transfers.
Context {O : Type} `{Env} `{ResourceAuthorities}.
Notation W := (WorldOf (ResourceDB O)).
Implicit Types (w : W) (d : ResourceDB O).

Lemma debt_move_ext d d1 d0 d' k z : debt_move d d1 k z → rd_debts d0 = rd_debts d →
  rd_debts d' = rd_debts d1 → debt_move d0 d' k z.
Proof.
  intros Hm E0 E1. assert (owed d0 k = owed d k) as Ho by (unfold owed; by rewrite E0).
  destruct Hm as [Hs Hz|Hs Hz]; [apply debt_same; congruence|].
  apply debt_paid; rewrite ?Ho; congruence.
Qed.

(** A credit is a move of the debt. *)
Lemma credit_move org resource gross before w c w' : Sound (the_db w) → 0 < gross ≤ max_int64 →
  amount before → applyPositiveCredit org resource gross before w = (Ok c, w') →
  credited (the_db w) (org, resource) gross before c ∧
  debt_move (the_db w) (the_db w') (org, resource) (pc_debtRepaid c) ∧
  ∃ m, the_db w' = put_rows debts m (the_db w).
Proof.
  intros Hs Hg Hb Hc. apply applyPositiveCredit_Ok in Hc as [Hcr Hw]; [|done..].
  split; [done|]. destruct Hcr as [C1 C2 C3 C4 C5 C6]. split; [|eauto].
  apply debt_paid; [by rewrite Hw|lia].
Qed.

(** What a transfer moves, within the bounds. *)
Record shifted d k (b : organizationResourceBucketRow) (x : memberResourcePositionRow)
    (t : transferred) : Prop := {
  shf_available : tr_Available t = b_Available b + tr_AvailableDelta t ∧ amount (tr_Available t);
  shf_allocated : tr_Allocated t = b_Allocated b + tr_AllocatedDelta t ∧ amount (tr_Allocated t);
  shf_free : tr_Free t = po_Free x + tr_AllocatedDelta t ∧ amount (tr_Free t);
  shf_balanced : tr_AvailableDelta t + tr_AllocatedDelta t + pc_debtRepaid (tr_Credit t) = 0;
  shf_idle : 0 < owed d k - pc_debtRepaid (tr_Credit t) → tr_Available t = 0 }.

Lemma outstanding_Ok org resource w z w' : outstanding org resource w = (Ok z, w') →
  z = owed (the_db w) (org, resource) ∧ w' = w.
Proof. unfold outstanding, owed, cell. intros Hr. inv_run. cbn. by case_match. Qed.

Lemma allocate_Ok c b x w t w' : Sound (the_db w) → 0 < mt_Quantity c ≤ max_int64 →
  good_bucket (mt_OrganizationID c, mt_ResourceType c) b → amount (po_Free x) →
  allocate c b x w = (Ok t, w') →
  shifted (the_db w) (mt_OrganizationID c, mt_ResourceType c) b x t ∧
  debt_move (the_db w) (the_db w') (mt_OrganizationID c, mt_ResourceType c) (pc_debtRepaid (tr_Credit t)) ∧
  ∃ m, the_db w' = put_rows debts m (the_db w).
Proof.
  unfold allocate. intros Hs Hq Hb Hx Hr. inv_run.
  match goal with Ho : outstanding _ _ _ = _ |- _ => apply outstanding_Ok in Ho as [-> ->] end.
  pose proof (owed_nonneg _ (mt_OrganizationID c, mt_ResourceType c) Hs) as Ho.
  destruct Hb as [_ _ G3 G4 _ _ _]. unfold amount in *. reflect_bools.
  split; [split; simpl; unfold amount; repeat split; i64|].
  split; [by apply debt_same|]. exists (rd_debts (the_db w)). by destruct (the_db w).
Qed.

Lemma reclaim_Ok c b x w t w' : Sound (the_db w) → 0 < mt_Quantity c ≤ max_int64 →
  rd_buckets (the_db w) !! (mt_OrganizationID c, mt_ResourceType c) = Some b → amount (po_Free x) →
  reclaim c b x w = (Ok t, w') →
  shifted (the_db w) (mt_OrganizationID c, mt_ResourceType c) b x t ∧
  debt_move (the_db w) (the_db w') (mt_OrganizationID c, mt_ResourceType c) (pc_debtRepaid (tr_Credit t)) ∧
  ∃ m, the_db w' = put_rows debts m (the_db w).
Proof.
  unfold reclaim. intros Hs Hq Hb Hx Hr. destruct (snd_buckets _ Hs _ _ Hb) as [_ _ G3 G4 _ _ _].
  pose proof (λ cr, credited_idle _ (mt_OrganizationID c, mt_ResourceType c) (mt_Quantity c) cr Hs) as Hid.
  unfold balance in Hid. rewrite (cell_at b_Available _ _ _ Hb) in Hid.
  inv_run. match goal with Ho : applyPositiveCredit _ _ _ _ _ = _ |- _ =>
    apply credit_move in Ho as [Hcr Hm]; [|done..] end.
  split; [|exact Hm]. specialize (Hid _ ltac:(lia) Hcr).
  destruct Hcr as [C1 C2 C3 C4 C5 C6]. unfold amount in *. reflect_bools.
  split; simpl; unfold amount; repeat split; try i64.
Qed.

Lemma valid_transfer c : ValidMemberResourceTransfer c = true →
  0 < mt_Quantity c ∧ IsMemberAllocatedResource (mt_ResourceType c) = true ∧
  (mt_Action c = MemberResourceAllocate ∨ mt_Action c = MemberResourceReclaim).
Proof. unfold ValidMemberResourceTransfer. intros Hv. reflect_bools. intuition lia. Qed.

Lemma transfer_Ok c b x w t w' : Sound (the_db w) → 0 < mt_Quantity c ≤ max_int64 →
  rd_buckets (the_db w) !! (mt_OrganizationID c, mt_ResourceType c) = Some b → amount (po_Free x) →
  transferAmounts c b x w = (Ok t, w') →
  shifted (the_db w) (mt_OrganizationID c, mt_ResourceType c) b x t ∧
  debt_move (the_db w) (the_db w') (mt_OrganizationID c, mt_ResourceType c) (pc_debtRepaid (tr_Credit t)) ∧
  ∃ m, the_db w' = put_rows debts m (the_db w).
Proof.
  intros Hs Hq Hb Hx. unfold transferAmounts. case_match; [|by apply reclaim_Ok].
  intros Ht. eapply allocate_Ok; [done|done|by apply (snd_buckets _ Hs)|done|exact Ht].
Qed.

(** The position a transfer saves. *)
Lemma next_good p x free reserved consumed updated : good_share p x → amount free → amount reserved →
  amount consumed → po_Version x ≠ max_int64 → good_share p (next_position free reserved consumed updated x).
Proof.
  intros [S1 S2 S3 S4 S5 S6] Hf Hr Hc Hv. unfold amount in *. split; try done. simpl. unfold amount. i64.
Qed.

Lemma member_type_valid t : IsMemberAllocatedResource t = true →
  validResourceType t = true ∧ t ≠ ResourceAIPoint.
Proof.
  unfold IsMemberAllocatedResource, validResourceType. intros Ht. reflect_bools.
  destruct Ht as [-> | ->]; (split; [by auto|done]).
Qed.

(** A share that changes in another amount. *)
Lemma share_put f d d' p x x' q : rd_positions d !! p = Some x →
  rd_positions d' = <[p:=x']> (rd_positions d) → f x' = f x → share f d' q = share f d q.
Proof.
  intros Hx Hp Hf. unfold share. rewrite Hp, cell_put. case_decide; [subst|done].
  by rewrite (cell_at f _ _ x Hx).
Qed.

Lemma members_share d d' p x x' : rd_positions d !! p = Some x →
  rd_positions d' = <[p:=x']> (rd_positions d) → rd_reservations d' = rd_reservations d →
  po_Reserved x' = po_Reserved x → po_Consumed x' = po_Consumed x → ∀ q,
  share po_Reserved d' q - charged open_reservation d' q =
    share po_Reserved d q - charged open_reservation d q ∧
  share po_Consumed d' q - charged committed d' q = share po_Consumed d q - charged committed d q.
Proof.
  intros Hx Hp Hr E1 E2 q. rewrite (share_put po_Reserved d d' p x x' q) by done.
  rewrite (share_put po_Consumed d d' p x x' q) by done. unfold charged. by rewrite Hr.
Qed.

Lemma transferNew_move c b x op d w r w' : 0 < mt_Quantity c ≤ max_int64 →
  mt_Action c = MemberResourceAllocate ∨ mt_Action c = MemberResourceReclaim →
  IsMemberAllocatedResource (mt_ResourceType c) = true →
  rd_buckets d !! (mt_OrganizationID c, mt_ResourceType c) = Some b →
  rd_positions d !! (mt_OrganizationID c, mt_MemberID c, mt_ResourceType c) = Some x →
  (op_OrganizationID op, op_OperationID op) = (mt_OrganizationID c, mt_OperationID c) →
  op_OperationType op = mt_Action c → opens d (the_db w) op → Sound d →
  transferNew c b x w = (Ok r, w') → ∃ e, move e d (the_db w').
Proof.
  intros Hq Hact Hty Hb Hx Hop Hkind [Hn Hw] Hs. unfold transferNew. intros Hr.
  rewrite Hop in Hn, Hw. injection Hop as Ho1 Ho2.
  assert (Sound (the_db w)) as Hsw. { rewrite Hw. by destruct Hs. }
  pose proof (snd_shares _ Hs _ _ Hx) as Hgs. pose proof (gs_free _ _ Hgs) as Hfree.
  inv_owners. reflect_bools.
  match goal with Ht : transferAmounts _ _ _ ?w1 = _, He : the_db ?w1 = the_db w |- _ =>
    rename He into Hw1; rewrite <- Hw1 in Hsw; apply transfer_Ok in Ht as [Hsh [Hdm [m Hm]]];
    [|done|done|by rewrite Hw1, Hw|done] end.
  eexists. rows_of w. intros F1. the_event.
  rewrite (alter_insert_row _ _ _ b Hb), (alter_insert_row _ _ _ op), insert_insert_eq by apply lookup_insert_eq.
  rewrite <- (gs_key _ _ Hgs). rewrite Hw1, Hw in Hdm, Hsh. rewrite Hm, Hw1, Hw in Hdm.
  destruct Hsh as [[A1 A2] [L1 L2] [R1 R2] Hbal Hid]. pose proof (snd_buckets _ Hs _ _ Hb) as [B1 B2 B3 B4 B5 B6 B7].
  destruct (member_type_valid _ Hty) as [_ Hpoint].
  split; cbn.
  - exists b. eexists. split; [done|]. split; [reflexivity|].
    split. { split; try done. intros Hp. destruct Hpoint. injection B1 as _ ->. exact Hp. }
    simpl. repeat split; try lia. exact Hid.
  - eexists. split; [exact Hn|]. split; [reflexivity|]. split; [simpl; by rewrite Ho1, Ho2|].
    split; [done|]. intros key. rewrite no_reserve_key; [done|..]; cbn; rewrite Hkind; by destruct Hact as [-> | ->].
  - done.
  - by eapply debt_move_ext.
  - eapply (share_moved _ _ _ _ x); [exact Hx|reflexivity|..]; try done.
    + pose proof (gs_key _ _ Hgs). unfold position_account, event_account. simpl. congruence.
    + apply next_good; try done; [apply Hgs..|apply H1].
  - by apply reservation_same.
  - apply claim_same; [done|]. unfold is_grant. simpl. by destruct Hact as [-> | ->].
  - done.
  - by eapply members_share; [exact Hx|..].
  - unfold event_balanced, minted. replace (is_grant _) with false; [simpl; lia|].
    unfold is_grant. simpl. by destruct Hact as [-> | ->].
Qed.

Lemma transferTransaction_evolves c w r w' : ValidMemberResourceTransfer c = true →
  mt_Quantity c ≤ max_int64 → transferTransaction c w = (Ok r, w') → evolves (the_db w) (the_db w').
Proof.
  unfold transferTransaction. intros Hv Hq Hr. destruct (valid_transfer _ Hv) as (Hq' & Hty & Hact).
  inv_owners; reflect_bools;
    match goal with Hp : lockMemberResourcePosition _ _ _ w = _, Hf : lockFixedResourceOperation _ _ _ _ ?w1 = (Ok _, ?w2) |- _ =>
      apply lockPosition_Ok in Hp as (Hev & Hp & Hbk); [|done]; rename Hf into Hl;
      etrans; [exact Hev|]; apply (fixed_evolves _ _ _ _ _ _ _ _ Hl) end; try congruence;
    try (intros [|[? _]]; congruence).
  - intros _. rename select ((match op_ImmutableResult _ with _ => _ end) _ = _) into Hm.
    case_match; inv_run; done.
  - intros Hk Hkind _ Ho Hs Ht. eapply transferNew_move; try done. by rewrite Hbk.
Qed.

Lemma TransferResource_evolves p c : mt_Quantity c ≤ max_int64 →
  keeps (on_db evolves) (TransferResource (O:=O) p c).
Proof.
  intros Hq. unfold TransferResource, Transfer. solve_requests. apply keeps_Transaction_Ok; [apply _|].
  intros w r w'. apply transferTransaction_evolves; [|done]. by apply negb_false_iff.
Qed.
End transfers.
