(* ===== verification/ResourceChargeSteps.v ===== *)
(** * Consumer charges evolve the resource tables

    Reserving a charge, out of the organization's resources or of its member's
    share, and settling it on proof are moves. Claiming due charges changes
    nothing that counts, so recovery is a sequence of settlements. *)
From S2P Require Import Prelude GoStd Encoding GenerationFacts ResourceTypes PointTypes Store ResourceStore ResourceRepo ResourceCharges ResourcePoints ResourceBooks ResourceInv ResourceMoves ResourceSteps ResourceReserve ResourceShares.

(** ** Members who pay *)

Section payers.
Context {O : Type}.
Implicit Types (d : ResourceDB O).

(** A reservation and the share that pays for it change together. *)
Lemma members_moved d d' p x x' k r' : rd_positions d !! p = Some x →
  rd_positions d' = <[p:=x']> (rd_positions d) → rd_reservations d' = <[k:=r']> (rd_reservations d) →
  let of_kind P := term (λ r, P r && member_charge r && bool_decide (share_of r = p)) rr_Quantity in
  (∀ r, rd_reservations d !! k = Some r → share_of r = p) → share_of r' = p →
  po_Reserved x' - po_Reserved x =
    of_kind open_reservation (Some r') - of_kind open_reservation (rd_reservations d !! k) →
  po_Consumed x' - po_Consumed x =
    of_kind committed (Some r') - of_kind committed (rd_reservations d !! k) → ∀ q,
  share po_Reserved d' q - charged open_reservation d' q =
    share po_Reserved d q - charged open_reservation d q ∧
  share po_Consumed d' q - charged committed d' q = share po_Consumed d q - charged committed d q.
Proof.
  intros Hx Hp Hr of_kind Hold Hnew E1 E2 q. unfold share, charged. rewrite Hp, Hr, !tally_put, !cell_put.
  destruct (decide (q = p)) as [->|Hne].
  - rewrite !(cell_at _ _ _ x Hx). unfold of_kind in E1, E2. lia.
  - assert (∀ P r, share_of r = p →
      P r && member_charge r && bool_decide (share_of r = q) = false) as Hz.
    { intros P r ->. rewrite bool_decide_eq_false_2 by congruence. apply andb_false_r. }
    unfold term. rewrite !Hz by done. destruct (rd_reservations d !! k) as [r|]; [|lia].
    rewrite !Hz by auto. lia.
Qed.
End payers.

Section reserve_charge.
Context {O : Type} `{Env}.
Notation W := (WorldOf (ResourceDB O)).
Implicit Types (w : W) (d : ResourceDB O) (i : ConsumerChargeIntent).

Definition charge_account i : account := (ci_OrganizationID (ct_Identity i), ct_ResourceType i).
Definition payer_share i : share_key :=
  (ci_OrganizationID (ct_Identity i), ct_MemberID i, ct_ResourceType i).

Lemma valid_intent i : ValidConsumerChargeIntent i = true →
  0 < ct_Quantity i ∧ IsMemberAllocatedResource (ct_ResourceType i) = true.
Proof.
  unfold ValidConsumerChargeIntent, IsMemberAllocatedResource. intros Hv. repeat case_match; try done;
    reflect_bools; destruct Hv as [-> ?]; (split; [lia|by auto]).
Qed.

(** A consumer's charges are no points. *)
Lemma valid_intent_unpointed i : ValidConsumerChargeIntent i = true →
  point_owner (ci_Consumer (ct_Identity i)) = false.
Proof.
  unfold ValidConsumerChargeIntent, ValidConsumerChargeIdentity, validResourceConsumer. intros Hv.
  case_match eqn:E; [done|]. reflect_bools. destruct E as [[[[[[[_ [[-> | ->]| ->]] _] _] _] _] _] _]; reflexivity.
Qed.

Lemma lock_funding_Ok i w o w' : IsMemberAllocatedResource (ct_ResourceType i) = true →
  lock_funding i w = (Ok o, w') →
  evolves (the_db w) (the_db w') ∧ rd_buckets (the_db w') = rd_buckets (the_db w) ∧
  if member_funded i then ∃ x, o = Some x ∧ rd_positions (the_db w') !! payer_share i = Some x
  else o = None.
Proof.
  unfold lock_funding. intros Hty. destruct (member_funded i); intros Hr; inv_run.
  - match goal with Hp : lockMemberResourcePosition _ _ _ _ = _ |- _ =>
      apply lockPosition_Ok in Hp as (Hev & Hp & Hbk); [|done] end.
    split; [done|]. split; [done|]. eauto.
  - by split; [reflexivity|].
Qed.

(** How a share pays: [f] less free, [r] more reserved, [c] more consumed. *)
Record pays (p : share_key) (x x' : memberResourcePositionRow) (f r c : Z) : Prop := {
  pay_good : good_share p x';
  pay_account : position_account x' = position_account x;
  pay_free : po_Free x' = po_Free x + f;
  pay_reserved : po_Reserved x' = po_Reserved x + r;
  pay_consumed : po_Consumed x' = po_Consumed x + c }.

(** The payer's share changes, or the organization pays. *)
Definition payer_rows i d (m : gmap share_key memberResourcePositionRow) (f r c : Z) : Prop :=
  if member_funded i then ∃ x x', rd_positions d !! payer_share i = Some x ∧
    m = <[payer_share i := x']> (rd_positions d) ∧ pays (payer_share i) x x' f r c
  else m = rd_positions d.
Definition payer_move i d d' (f r c : Z) : Prop :=
  ∃ m, d' = put_rows positions m d ∧ payer_rows i d m f r c.

Lemma payer_stays i d f r c : member_funded i = false → payer_move i d d f r c.
Proof. intros Hm. exists (rd_positions d). unfold payer_rows. rewrite Hm. by destruct d. Qed.

Lemma payer_share_move i d d' e f r c : payer_rows i d (rd_positions d') f r c →
  Sound d → event_account e = charge_account i →
  ev_AllocatedDelta e = (if member_funded i then f else 0) → share_move d d' e.
Proof.
  unfold payer_rows. intros Hp Hs Ha Hd. destruct (member_funded i).
  - destruct Hp as (x & x' & Hx & Hm & [P1 P2 P3 P4 P5]).
    eapply (share_moved _ _ _ _ x x'); [exact Hx|exact Hm|..]; try done; [|congruence].
    rewrite Ha. pose proof (gs_key _ _ (snd_shares _ Hs _ _ Hx)) as Hk.
    unfold payer_share in Hk. unfold position_account, charge_account. congruence.
  - by apply share_same.
Qed.

Lemma payer_members i d d' f r c k row' : payer_rows i d (rd_positions d') f r c →
  rd_reservations d' = <[k:=row']> (rd_reservations d) →
  (∀ row, rd_reservations d !! k = Some row →
    member_charge row = member_funded i ∧ share_of row = payer_share i) →
  member_charge row' = member_funded i → share_of row' = payer_share i →
  r = term open_reservation rr_Quantity (Some row') - term open_reservation rr_Quantity (rd_reservations d !! k) →
  c = term committed rr_Quantity (Some row') - term committed rr_Quantity (rd_reservations d !! k) → ∀ q,
  share po_Reserved d' q - charged open_reservation d' q =
    share po_Reserved d q - charged open_reservation d q ∧
  share po_Consumed d' q - charged committed d' q = share po_Consumed d q - charged committed d q.
Proof.
  unfold payer_rows. intros Hp Hr Hold Hm' Hs' Er Ec. destruct (member_funded i) eqn:Hf.
  - destruct Hp as (x & x' & Hx & Hm & [P1 P2 P3 P4 P5]).
    assert (∀ P o, (∀ row, o = Some row → member_charge row = true ∧ share_of row = payer_share i) →
      term (λ r, P r && member_charge r && bool_decide (share_of r = payer_share i)) rr_Quantity o =
      term P rr_Quantity o) as Ht.
    { intros P [row|] Ho; [|done]. unfold term. destruct (Ho row eq_refl) as [-> ->].
      by rewrite bool_decide_eq_true_2, !andb_true_r. }
    eapply members_moved; [exact Hx|exact Hm|exact Hr|..]; cbv zeta; [by apply Hold|done|..];
      rewrite !Ht by naive_solver; lia.
  - eapply members_put; [done|exact Hr|done|]. intros row Hrow. by apply Hold.
Qed.

(** A bucket after deltas, within the bounds. *)
Record bucket_moves k (b b' : organizationResourceBucketRow) (available allocated reserved consumed : Z)
    : Prop := {
  bm_good : good_bucket k b';
  bm_available : b_Available b' = b_Available b + available;
  bm_allocated : b_Allocated b' = b_Allocated b + allocated;
  bm_reserved : b_Reserved b' = b_Reserved b + reserved;
  bm_consumed : b_Consumed b' = b_Consumed b + consumed }.

Lemma pays_next p x f r c updated : good_share p x → po_Version x ≠ max_int64 →
  amount (po_Free x + f) → amount (po_Reserved x + r) → amount (po_Consumed x + c) →
  pays p x (next_position (po_Free x + f) (po_Reserved x + r) (po_Consumed x + c) updated x) f r c.
Proof. intros Hg Hv Hf Hr Hc. by split; [apply next_good|..]. Qed.

Lemma bucket_moves_with k b b' available allocated reserved consumed t : good_bucket k b →
  b_ResourceType b ≠ ResourceAIPoint → amount (b_Available b + available) →
  amount (b_Allocated b + allocated) → amount (b_Reserved b + reserved) →
  amount (b_Consumed b + consumed) →
  b' = with_balances (b_Available b + available) (b_Allocated b + allocated) (b_Reserved b + reserved)
    (b_Consumed b + consumed) t b → bucket_moves k b b' available allocated reserved consumed.
Proof. intros [B1 B2 B3 B4 B5 B6 B7] Hp Ha Hl Hr Hc ->. by split. Qed.

(** The row that is saved has the amounts that were computed. *)
Lemma bucket_moves_saved k b b' a l r c t : good_bucket k b → bucket_moves k b b' a l r c →
  bucket_moves k b (with_balances (b_Available b') (b_Allocated b') (b_Reserved b') (b_Consumed b') t b)
    a l r c.
Proof.
  intros [B1 B2 _ _ _ _ _] [[C1 C2 C3 C4 C5 C6 C7] M1 M2 M3 M4]. split; try done. split; try done.
  simpl. intros Hp. apply C7. congruence.
Qed.

(** A move of the bucket, of an event that has its deltas. *)
Lemma bucket_moved e d d' b b' a l r c :
  rd_buckets d !! event_account e = Some b → rd_buckets d' = <[event_account e := b']> (rd_buckets d) →
  bucket_moves (event_account e) b b' a l r c → ev_AvailableDelta e = a → ev_AllocatedDelta e = l →
  ev_ReservedDelta e = r → ev_ConsumedDelta e = c → ev_AvailableAfter e = b_Available b' →
  ev_ReservedAfter e = b_Reserved b' → ev_ConsumedAfter e = b_Consumed b' →
  (0 < owed d (event_account e) - ev_DebtRepaid e → b_Available b' = 0) →
  ∃ b b', rd_buckets d !! event_account e = Some b ∧
    rd_buckets d' = <[event_account e := b']> (rd_buckets d) ∧ good_bucket (event_account e) b' ∧
    b_Available b' = b_Available b + ev_AvailableDelta e ∧
    b_Allocated b' = b_Allocated b + ev_AllocatedDelta e ∧
    b_Reserved b' = b_Reserved b + ev_ReservedDelta e ∧
    b_Consumed b' = b_Consumed b + ev_ConsumedDelta e ∧
    ev_AvailableAfter e = b_Available b' ∧ ev_ReservedAfter e = b_Reserved b' ∧
    ev_ConsumedAfter e = b_Consumed b' ∧
    (0 < owed d (event_account e) - ev_DebtRepaid e → b_Available b' = 0).
Proof. intros Hb Hd [Hg M1 M2 M3 M4] <- <- <- <- A1 A2 A3 Hi. exists b, b'. split_and!; done. Qed.

Lemma charge_no_point i b : IsMemberAllocatedResource (ct_ResourceType i) = true →
  good_bucket (charge_account i) b → b_ResourceType b ≠ ResourceAIPoint.
Proof.
  intros Hty [B1 _ _ _ _ _ _]. destruct (member_type_valid _ Hty) as [_ Hpoint].
  unfold charge_account in B1. congruence.
Qed.

Lemma fund_charge_Ok i b o w b' z w' : 0 < ct_Quantity i ≤ max_int64 →
  IsMemberAllocatedResource (ct_ResourceType i) = true → good_bucket (charge_account i) b →
  b_Reserved b ≤ max_int64 - ct_Quantity i → Sound (the_db w) →
  (if member_funded i then ∃ x, o = Some x ∧ rd_positions (the_db w) !! payer_share i = Some x
   else o = None) →
  fund_charge i b o w = (Ok (b', z), w') →
  let q := ct_Quantity i in
  bucket_moves (charge_account i) b b' (if member_funded i then 0 else - q)
    (if member_funded i then - q else 0) q 0 ∧
  payer_move i (the_db w) (the_db w') (- q) q 0.
Proof.
  intros Hq Hty Hb Hres Hs Ho Hr q. pose proof (charge_no_point _ _ Hty Hb) as Hnp.
  pose proof Hb as [B1 B2 B3 B4 B5 B6 B7]. unfold amount in *. destruct (member_funded i) eqn:Hf.
  - destruct Ho as (x & -> & Hx). unfold fund_charge, fund_from_member in Hr. inv_run. reflect_bools.
    pose proof (snd_shares _ Hs _ _ Hx) as Hg. pose proof Hg as [S1 S2 S3 S4 S5 S6]. unfold amount in *.
    match goal with He : the_db ?w1 = the_db w, Hu : (b', z) = _ |- _ =>
      rename He into Hw; injection Hu as -> -> end.
    split.
    + eapply bucket_moves_with; try done; try (unfold amount; lia). f_equal; i64.
    + eexists. split; [rewrite write_db, Hw; reflexivity|]. unfold payer_rows. rewrite Hf. do 2 eexists.
      split; [exact Hx|]. split.
      * cbn. rewrite S1. reflexivity.
      * replace (po_Free x -! ct_Quantity i) with (po_Free x + - q) by (unfold q; i64).
        replace (po_Reserved x +! ct_Quantity i) with (po_Reserved x + q) by (unfold q; i64).
        replace (po_Consumed x) with (po_Consumed x + 0) by lia.
        apply pays_next; unfold amount, q; try done; try i64.
  - subst o. unfold fund_charge, fund_from_bucket in Hr. inv_run. reflect_bools.
    match goal with Hu : (b', z) = _ |- _ => injection Hu as -> -> end. split; [|by apply payer_stays].
    eapply bucket_moves_with; try done; try (unfold amount; lia). f_equal; i64.
Qed.

Lemma with_bucket_key k b b' a l r c : good_bucket k b → bucket_moves k b b' a l r c →
  (b_OrganizationID b', b_ResourceType b') = k.
Proof. intros _ [[Hk _ _ _ _ _ _] _ _ _ _]. done. Qed.

Lemma reserveNewCharge_move i b o op d w r w' : ValidConsumerChargeIntent i = true →
  ct_Quantity i ≤ max_int64 → rd_buckets d !! charge_account i = Some b →
  (if member_funded i then ∃ x, o = Some x ∧ rd_positions d !! payer_share i = Some x else o = None) →
  (op_OrganizationID op, op_OperationID op) = (ci_OrganizationID (ct_Identity i),
    chargeOperationKey "consumer-reserve:" (ct_Identity i)) →
  op_OperationType op = "reserve_consumer_resource"%string →
  op_State op = "processing"%string → opens d (the_db w) op → Sound d →
  reserveNewCharge i b o op w = (Ok r, w') → ∃ e, move e d (the_db w').
Proof.
  intros Hv Hq Hb Ho Hop Hkind Hst [Hn Hw] Hs Hr. destruct (valid_intent _ Hv) as [Hq0 Hty].
  rewrite Hop in Hn, Hw. injection Hop as Ho1 Ho2.
  assert (Sound (the_db w)) as Hsw. { rewrite Hw. by destruct Hs. }
  pose proof (snd_buckets _ Hs _ _ Hb) as Hgb.
  unfold reserveNewCharge, updateConsumerBucket, completeChargeOperation, createConsumerEvent in Hr.
  cbv zeta in Hr. inv_owners. reflect_bools.
  match goal with Hf : fund_charge _ _ _ ?w1 = (Ok (?b1, _), _), Hou : outstanding _ _ _ = _, He : the_db ?w1 = the_db ?w0 |- _ =>
    apply outstanding_Ok in Hou as [-> ->]; rename He into Hw1, b1 into b';
    apply fund_charge_Ok in Hf as [Hbm Hpm];
    [|lia|done|done|i64|by rewrite Hw1|by rewrite Hw1, Hw] end.
  rewrite Hw1 in Hpm. destruct Hpm as (m & Hm & Hrows). rewrite Hw in Hrows.
  eexists. rows_of w. rewrite (with_bucket_key _ _ _ _ _ _ _ Hgb Hbm), Ho1, Ho2, ?Hw. cbn.
  intros F1 F2 F3 F4. the_event. rewrite Hb in F2. rewrite lookup_insert_eq in F3. simplify_eq.
  match goal with Hd : owed (the_db _) _ ≤ 0 |- _ => rename Hd into Hdebt; rewrite Hw in Hdebt end.
  rewrite insert_insert_eq. apply (bucket_moves_saved _ _ _ _ _ _ _ x5) in Hbm; [|done].
  replace (-! ct_Quantity i) with (- ct_Quantity i) by i64.
  split; [|cbn..].
  - eapply bucket_moved; [exact Hb|reflexivity|exact Hbm|..]; try done.
    change (owed d (charge_account i) ≤ 0) in Hdebt. intros Ho'. exfalso.
    change (0 < owed d (charge_account i) - 0) in Ho'. lia.
  - eexists. split; [exact Hn|]. split; [reflexivity|]. split; [simpl; by rewrite Ho1, Ho2|].
    split; [done|]. intros key. rewrite no_reserve_key; [done|..]; cbn; by rewrite Hkind.
  - done.
  - by apply debt_same.
  - by eapply payer_share_move.
  - eapply (reservation_placed _ _ _ (charge_row i _ x7 z x5)); [exact F1|reflexivity|..]; try done.
    + split; try done; [by left|]. intros Hp. unfold pointed in Hp. simpl in Hp.
      by rewrite valid_intent_unpointed in Hp.
    + apply unpointed_effect; [|done]. by apply valid_intent_unpointed.
  - by apply claim_same.
  - done.
  - eapply payer_members; [done|reflexivity|rewrite F1; done|done|done|rewrite F1..]; simpl; unfold term; simpl; lia.
  - unfold event_balanced, minted. simpl. destruct (member_funded i); lia.
Qed.

Lemma readConsumer_Ok c w o w' : readConsumerReservation c w = (Ok o, w') →
  w' = w ∧ ∀ r, o = Some r → rr_ChargeProtocol r = consumerChargeProtocol ∧
    ∃ k, rd_reservations (the_db w) !! k = Some r.
Proof.
  unfold readConsumerReservation. intros Hr. inv_run. split; [done|]. intros r Hr.
  apply map_find_Some in Hr as [Hp Hk]. reflect_bools. split; [apply Hp|exact Hk].
Qed.

Lemma reserveChargeTransaction_evolves i w r w' : ValidConsumerChargeIntent i = true →
  ct_Quantity i ≤ max_int64 → reserveChargeTransaction i w = (Ok r, w') →
  evolves (the_db w) (the_db w').
Proof.
  intros Hv Hq. unfold reserveChargeTransaction. intros Hr. destruct (valid_intent _ Hv) as [_ Hty].
  inv_owners; reflect_bools;
    match goal with Hp : lock_funding _ w = _, Hf : lockFixedResourceOperation _ _ _ _ _ = _ |- _ =>
      apply lock_funding_Ok in Hp as (Hev & Hbk & Ho); [|done]; rename Hf into Hl;
      etrans; [exact Hev|]; apply (fixed_evolves _ _ _ _ _ _ _ _ Hl) end; try congruence; try (intros [|[_ Hc]]; [congruence|discriminate Hc]).
  { by match goal with Hc : readConsumerReservation _ _ = _ |- _ => apply readConsumer_Ok in Hc as [-> _] end. }
  intros Hk Hkind Hst Hop Hs Ht. eapply reserveNewCharge_move; try done. by rewrite Hbk.
Qed.

(** ** Settling a charge *)

Record settles_bucket i (succeeded : bool) d (b b' : organizationResourceBucketRow)
    (c : positiveCreditAllocation) : Prop := {
  stb_moves : bucket_moves (charge_account i) b b' (if member_funded i then 0 else pc_net c)
    (if member_funded i then pc_net c else 0) (- ct_Quantity i)
    (if succeeded then ct_Quantity i else 0);
  stb_credit : pc_net c + pc_debtRepaid c = (if succeeded then 0 else ct_Quantity i);
  stb_net : 0 ≤ pc_net c ≤ ct_Quantity i ∧ (succeeded = true → pc_net c = 0);
  stb_idle : 0 < owed d (charge_account i) - pc_debtRepaid c → b_Available b' = 0 }.

Lemma settle_bucket_Ok i succeeded b w b' c w' : 0 < ct_Quantity i ≤ max_int64 →
  IsMemberAllocatedResource (ct_ResourceType i) = true →
  rd_buckets (the_db w) !! charge_account i = Some b → ct_Quantity i ≤ b_Reserved b →
  Sound (the_db w) → settle_bucket i succeeded b w = (Ok (b', c), w') →
  settles_bucket i succeeded (the_db w) b b' c ∧
  debt_move (the_db w) (the_db w') (charge_account i) (pc_debtRepaid c) ∧
  ∃ m, the_db w' = put_rows debts m (the_db w).
Proof.
  intros Hq Hty Hb Hres Hs Hr. pose proof (snd_buckets _ Hs _ _ Hb) as Hg.
  pose proof (charge_no_point _ _ Hty Hg) as Hnp. pose proof Hg as [B1 B2 B3 B4 B5 B6 B7].
  pose proof (snd_idle _ Hs (charge_account i)) as Hid. unfold balance in Hid.
  rewrite (cell_at b_Available _ _ _ Hb) in Hid. unfold amount in *. unfold settle_bucket in Hr. cbv zeta in Hr.
  destruct succeeded.
  - inv_run. reflect_bools. match goal with Hu : (b', c) = _ |- _ => injection Hu as -> -> end.
    split; [split; simpl|].
    + replace (if member_funded i then 0 else 0) with 0 by (by case_match).
      eapply bucket_moves_with; try done; try (unfold amount; i64). f_equal; i64.
    + done.
    + split; [lia|done].
    + rewrite Z.sub_0_r. exact Hid.
    + split; [by apply debt_same|]. exists (rd_debts (the_db w)). by destruct (the_db w).
  - inv_run. match goal with Hu : (b', _) = _ |- _ => injection Hu as -> -> end.
    match goal with Hc : applyPositiveCredit _ _ _ _ _ = _ |- _ =>
      apply credit_move in Hc as (Hcr & Hdm & Hm); [|done|done|by destruct (member_funded i)] end.
    split; [|by split]. destruct Hcr as [C1 C2 C3 C4 C5 C6]. unfold charge_account in *.
    split; [|lia|split; [lia|done]|].
    + eapply bucket_moves_with; try done; try (destruct (member_funded i); unfold amount; lia).
      destruct (member_funded i); f_equal; try i64; lia.
    + unfold charge_account. simpl. destruct (member_funded i); lia.
Qed.

Lemma settle_payer_Ok i succeeded c b o w z w' : 0 < ct_Quantity i ≤ max_int64 →
  0 ≤ pc_net c ≤ ct_Quantity i → (succeeded = true → pc_net c = 0) →
  map_Forall good_share (rd_positions (the_db w)) →
  (if member_funded i then ∃ x, o = Some x ∧ rd_positions (the_db w) !! payer_share i = Some x
   else o = None) →
  settle_payer i succeeded c b o w = (Ok z, w') →
  payer_move i (the_db w) (the_db w') (pc_net c) (- ct_Quantity i)
    (if succeeded then ct_Quantity i else 0).
Proof.
  intros Hq Hn Hn0 Hs Ho Hr. unfold settle_payer in Hr. destruct (member_funded i) eqn:Hf.
  - destruct Ho as (x & -> & Hx). unfold settle_position in Hr. cbv zeta in Hr.
    pose proof (Hs _ _ Hx) as Hg. pose proof Hg as [S1 S2 S3 S4 S5 S6]. unfold amount in *.
    inv_run. match goal with He : the_db _ = the_db w |- _ => rename He into Hw end.
    eexists. split; [rewrite write_db, Hw; reflexivity|]. unfold payer_rows. rewrite Hf. do 2 eexists.
    split; [exact Hx|]. split; [cbn; rewrite S1; reflexivity|].
    destruct succeeded; [specialize (Hn0 eq_refl)|]; reflect_bools.
    + replace (po_Reserved x -! ct_Quantity i) with (po_Reserved x + - ct_Quantity i) by i64.
      replace (po_Consumed x +! ct_Quantity i) with (po_Consumed x + ct_Quantity i) by i64.
      replace (po_Free x) with (po_Free x + pc_net c) by lia.
      apply pays_next; unfold amount; try done; i64.
    + replace (po_Reserved x -! ct_Quantity i) with (po_Reserved x + - ct_Quantity i) by i64.
      replace (po_Free x +! pc_net c) with (po_Free x + pc_net c) by i64.
      replace (po_Consumed x) with (po_Consumed x + 0) by lia.
      apply pays_next; unfold amount; try done; i64.
  - subst o. inv_run. unfold payer_move.
    by apply payer_stays.
Qed.

(** A row that records the charge of an intent. *)
Record records i (row : organizationResourceReservationRow) : Prop := {
  rcd_quantity : rr_Quantity row = ct_Quantity i;
  rcd_account : reservation_account row = charge_account i;
  rcd_share : share_of row = payer_share i;
  rcd_member : member_charge row = member_funded i;
  rcd_protocol : rr_ChargeProtocol row = consumerChargeProtocol }.

Lemma charge_records row : rr_ChargeProtocol row = consumerChargeProtocol →
  records (cr_Intent (consumerChargeReceipt row)) row.
Proof. intros Hp. split; try done. unfold member_charge. by rewrite Hp. Qed.

Lemma settled_good k row (succeeded : bool) evidence operationID balance now : good_reservation k row →
  good_reservation k (settled_row (if succeeded then ReservationCommitted else ReservationReleased)
    evidence operationID balance now row).
Proof. intros [R1 R2 R3 R4 R5 R6]. split; try done; destruct succeeded; simpl; auto; by split. Qed.

Lemma settleNewCharge_move i proof b o op row d w r w' : ValidConsumerChargeIntent i = true →
  rd_buckets d !! charge_account i = Some b →
  (if member_funded i then ∃ x, o = Some x ∧ rd_positions d !! payer_share i = Some x else o = None) →
  (op_OrganizationID op, op_OperationID op) = (ci_OrganizationID (ct_Identity i),
    chargeOperationKey "consumer-settle:" (ct_Identity i)) →
  op_OperationType op = "settle_consumer_resource"%string → op_State op = "processing"%string → opens d (the_db w) op → Sound d →
  rd_reservations d !! reservation_key row = Some row → records i row →
  settleNewCharge i proof b o op row w = (Ok r, w') → ∃ e, move e d (the_db w').
Proof.
  intros Hv Hb Ho Hop Hkind Hst [Hn Hw] Hs Hrow [Hqr Hacc Hsh Hmc Hpr] Hr. destruct (valid_intent _ Hv) as [Hq0 Hty].
  pose proof (snd_reservations _ Hs _ _ Hrow) as Hg.
  pose proof (gr_quantity _ _ Hg) as Hq. rewrite Hqr in Hq.
  assert (pointed row = false) as Hpt.
  { apply not_true_iff_false. intros Hp. destruct (gr_pointed _ _ Hg Hp) as (_ & _ & Hn'). congruence. }
  rewrite Hop in Hn, Hw. injection Hop as Ho1 Ho2.
  assert (Sound (the_db w)) as Hsw. { rewrite Hw. by destruct Hs. }
  pose proof (snd_buckets _ Hs _ _ Hb) as Hgb.
  unfold settleNewCharge, updateConsumerBucket, completeChargeOperation, createConsumerEvent in Hr.
  cbv zeta in Hr. inv_owners. reflect_bools.
  set (succeeded := cp_State proof =s ConsumerEffectSucceeded) in *.
  match goal with Hf : settle_bucket _ _ _ ?w1 = (Ok (?b1, ?c1), _), He : the_db ?w1 = the_db w |- _ =>
    rename He into Hw1, b1 into b', c1 into c;
    apply settle_bucket_Ok in Hf as ([Hbm Hcr [Hnet Hnet0] Hid] & Hdm & md & Hmd);
    [|lia|done|by rewrite Hw1, Hw|lia|by rewrite Hw1] end.
  rewrite Hw1 in Hmd, Hdm, Hid. rewrite Hw in Hid. rewrite Hmd, Hw in Hdm.
  match goal with Hf : settle_payer _ _ _ _ _ _ = _ |- _ =>
    apply settle_payer_Ok in Hf as (m & Hm & Hrows);
    [|lia|done|done|rewrite Hmd, Hw; apply Hs|by rewrite Hmd, Hw] end.
  rewrite Hmd, Hw in Hrows.
  eexists. rows_of w. rewrite (with_bucket_key _ _ _ _ _ _ _ Hgb Hbm), Ho1, Ho2, ?Hw. cbn.
  intros F1 F2 F3. the_event. rewrite Hb in F1. rewrite lookup_insert_eq in F2. simplify_eq.
  assert (rr_OrganizationID row = ci_OrganizationID (ct_Identity i)) as Horg
    by (unfold reservation_account, charge_account in Hacc; congruence).
  rewrite insert_insert_eq. apply (bucket_moves_saved _ _ _ _ _ _ _ x3) in Hbm; [|done].
  replace (-! ct_Quantity i) with (- ct_Quantity i) by i64.
  match goal with |- move ?ev _ _ => assert (event_account ev = charge_account i) as Hea by exact Hacc end.
  split; rewrite ?Hea.
  - rewrite <- Hea in Hbm |- *. eapply bucket_moved; [by rewrite Hea|by rewrite Hea|exact Hbm|..]; try done.
    rewrite Hea. exact Hid.
  - eexists. unfold operation_of. simpl. rewrite Horg. split; [exact Hn|]. split; [reflexivity|].
    split; [simpl; by rewrite Ho1, Ho2|]. split; [done|]. intros key.
    rewrite no_reserve_key; [done|..]; cbn; by rewrite Hkind.
  - done.
  - by eapply debt_move_ext.
  - by eapply payer_share_move.
  - eapply (reservation_closed _ _ _ row); [exact Hrow|reflexivity|done|by apply reserved_is_open|..]; try done.
    + by apply settled_good.
    + by destruct succeeded.
    + by rewrite Hqr.
    + intros _. simpl. rewrite Hqr. by destruct succeeded.
    + by apply unpointed_effect.
  - apply claim_same; [done|]. by destruct succeeded.
  - done.
  - eapply (payer_members _ _ _ _ _ _ (reservation_key row)); [exact Hrows|reflexivity|..]; try done.
    + intros row' Hrow'. assert (row' = row) as -> by congruence. done.
    + rewrite Hrow. unfold term. rewrite (reserved_is_open row) by done. destruct succeeded; simpl; lia.
    + rewrite Hrow. unfold term. rewrite (reserved_not_committed row) by done. destruct succeeded; simpl; lia.
  - unfold event_balanced, minted. replace (is_grant _) with false by (by destruct succeeded).
    simpl. destruct (member_funded i), succeeded; lia.
Qed.

Lemma settleChargeTransaction_evolves original proof w r w' :
  ValidConsumerChargeIntent (cr_Intent original) = true →
  settleChargeTransaction original proof w = (Ok r, w') → evolves (the_db w) (the_db w').
Proof.
  intros Hv. unfold settleChargeTransaction. intros Hr. destruct (valid_intent _ Hv) as [_ Hty].
  inv_owners; reflect_bools.
  all: match goal with Hp : lock_funding _ _ = _, Hf : lockFixedResourceOperation _ _ _ _ _ = _,
           Hc : readConsumerReservation _ _ = _ |- _ =>
      apply lock_funding_Ok in Hp as (Hev & Hbk & Ho); [|done]; rename Hf into Hl;
      apply readConsumer_Ok in Hc as [-> Hrow]; specialize (Hrow _ eq_refl) as [Hpr [key Hrow]];
      etrans; [exact Hev|]; apply (fixed_evolves _ _ _ _ _ _ _ _ Hl) end; try congruence; try (intros [|[_ Hc]]; [congruence|discriminate Hc]).
  intros Hk Hkind Hst Hop Hs Ht.
  match goal with Hi : cr_Intent (consumerChargeReceipt ?row) = _ ∧ _ |- _ =>
    destruct Hi as [Hi _]; pose proof (charge_records row Hpr) as Hrec; rewrite Hi in Hrec end.
  assert (rd_reservations (the_db x4) !! key = Some x9) as Hin by (destruct Hop as [_ Hop]; by rewrite Hop in Hrow).
  pose proof (gr_key _ _ (snd_reservations _ Hs _ _ Hin)) as ->.
  eapply settleNewCharge_move; try done. by rewrite Hbk.
Qed.
End reserve_charge.

(** ** Every request of a consumer *)

(** The quantity of an intent is an int64. *)
Class TypedOwners {O : Type} `{ResourceOwners O} : Prop :=
  typed_intent i o t : ReadChargeIntent i o = Ok t → ct_Quantity t ≤ max_int64.

Lemma keeps_ask_bind {O A B} (R : WorldOf (ResourceDB O) → WorldOf (ResourceDB O) → Prop) `{!Frame R}
    (f : O → result A) (k : A → ST (WorldOf (ResourceDB O)) B) :
  (∀ a o, f o = Ok a → keeps R (k a)) → keeps R (mbind k (ask_owners f)).
Proof.
  intros Hk w. unfold mbind, ST_bind, ask_owners. destruct (f _) as [a|e] eqn:E; simpl; [|reflexivity].
  by apply (Hk a _ E).
Qed.

Section charge_requests.
Context {O : Type} `{Env} `{Collation} `{ResourceOwners O}.
Notation W := (WorldOf (ResourceDB O)).

Section reads.
Context (R : W → W → Prop) `{!Frame R}.
Lemma keeps_readConsumerReservation i : keeps R (readConsumerReservation i).
Proof. unfold readConsumerReservation. solve_resource_keeps. Qed.
#[local] Hint Resolve keeps_readConsumerReservation : keeps.
Lemma keeps_ReadCharge i : keeps R (ReadCharge i).
Proof. unfold ReadCharge. solve_resource_keeps. Qed.
#[local] Hint Resolve keeps_ReadCharge : keeps.
Lemma keeps_ChargeLookup i : keeps R (ConsumerChargeService_Lookup i).
Proof. unfold ConsumerChargeService_Lookup. solve_resource_keeps. Qed.
Lemma keeps_ReadPosition org member resource : keeps R (ReadPosition org member resource).
Proof. unfold ReadPosition. solve_resource_keeps. Qed.
Lemma keeps_ReadBalances org : keeps R (ReadBalances org).
Proof. unfold ReadBalances, read_one. solve_resource_keeps. Qed.
Lemma keeps_or_charge i P m : keeps R m → keeps R (or_charge i P m).
Proof. intros Hm. unfold or_charge. solve_resource_keeps. Qed.
Lemma keeps_attempt {A} (m : ST W A) : keeps R m → keeps R (attempt m).
Proof. intros Hm w. specialize (Hm w). unfold attempt. by destruct (m w). Qed.
End reads.
#[local] Hint Resolve keeps_ReadCharge keeps_ChargeLookup keeps_or_charge keeps_attempt : keeps.

Lemma ReserveCharge_evolves i : ct_Quantity i ≤ max_int64 → keeps (on_db evolves) (ReserveCharge (O:=O) i).
Proof.
  intros Hq. unfold ReserveCharge. solve_requests. apply keeps_or_charge; [apply _|].
  apply keeps_Transaction_Ok; [apply _|]. intros w r w'.
  apply reserveChargeTransaction_evolves; [|done]. by apply negb_false_iff.
Qed.

Lemma ChargeReserve_evolves `{!TypedOwners} i : keeps (on_db evolves) (ConsumerChargeService_Reserve i).
Proof.
  unfold ConsumerChargeService_Reserve. do 2 (apply keeps_guard_bind; [apply _|intros _]).
  apply keeps_ask_bind; [apply _|]. intros t o Ht. apply keeps_guard_bind; [apply _|intros _].
  apply ReserveCharge_evolves. by eapply typed_intent.
Qed.

Lemma SettleCharge_evolves original proof : keeps (on_db evolves) (SettleCharge (O:=O) original proof).
Proof.
  unfold SettleCharge. cbv zeta. apply keeps_guard_bind; [apply _|intros Hv].
  apply keeps_guard_bind; [apply _|intros _]. apply keeps_or_charge; [apply _|].
  apply keeps_Transaction_Ok; [apply _|]. intros w r w'. apply settleChargeTransaction_evolves.
  apply orb_false_iff in Hv as [[Hv _]%orb_false_iff _]. by apply negb_false_iff.
Qed.
#[local] Hint Resolve SettleCharge_evolves : keeps.

Lemma Reconcile_evolves i : keeps (on_db evolves) (Reconcile i).
Proof. unfold Reconcile. solve_requests. Qed.

Lemma claim_one_evolves next row : keeps (on_db evolves) (claim_one (O:=O) next row).
Proof.
  unfold claim_one. apply keeps_bind; [apply _| |intros []; solve_requests].
  intros w. destruct (UpdateWhere _ _ _ _ w) as [[b|e] w'] eqn:E.
  - apply UpdateWhere_Ok in E as [[-> ->]|(-> & r & Hr & Hst & ->)]; [reflexivity|]. simpl.
    apply String.eqb_eq in Hst. unfold on_db.
    eapply (evolves_open_reservation _ _ _ r (with_next_check next r)); [exact Hr|done|done|done| |done..].
    by apply reserved_is_open.
  - exfalso. unfold UpdateWhere in E. destruct (_ !! _) as [v|]; [|done]. by destruct (_ =s _).
Qed.
#[local] Hint Resolve claim_one_evolves Reconcile_evolves : keeps.

Lemma ClaimDue_evolves consumers : keeps (on_db evolves) (ClaimDue (O:=O) consumers).
Proof. unfold ClaimDue. solve_resource_keeps. Qed.

Lemma reconcile_all_evolves l : keeps (on_db evolves) (reconcile_all l).
Proof.
  induction l as [|i l IH]; simpl; [solve_keeps|]. apply keeps_bind; [apply _| |intros r].
  - apply keeps_attempt. auto with keeps.
  - apply keeps_bind; [apply _|exact IH|intros []; solve_keeps].
Qed.

Lemma RecoverDue_evolves : keeps (on_db evolves) RecoverDue.
Proof.
  unfold RecoverDue. apply keeps_bind; [apply _|apply ClaimDue_evolves|intros l].
  apply reconcile_all_evolves.
Qed.
End charge_requests.
#[export] Hint Resolve keeps_ReadCharge keeps_ChargeLookup keeps_ReadPosition keeps_ReadBalances : keeps.
