(* ===== verification/ResourcePointMoves.v ===== *)
(** * AI points evolve the resource tables: what operations share

    Locking a member's month and the bucket of points, the bound a limit sets,
    and the moves that place and close a reservation of points, whichever owner
    asks for it. *)
From S2P Require Import Prelude GoStd Encoding Cursors GenerationFacts ResourceTypes PointTypes Store ResourceStore ResourceRepo ResourceCharges ResourcePoints ResourceBooks ResourceInv ResourceMoves ResourceSteps ResourceReserve ResourceShares ResourceChargeSteps.

(** Forgets the run, once everything is said of the tables it started from. *)
Ltac clear_run := repeat match goal with H : context [the_db _] |- _ => clear H end.

(** The receipt an operation recorded, and the pair that was returned. *)
Ltac inv_receipt :=
  match goal with H : (match op_ImmutableResult ?o with _ => _ end) _ = (Ok _, _) |- _ =>
    destruct (op_ImmutableResult o) eqn:?; try (exfalso; exact (fail_Ok _ _ _ _ H)); inv_run end;
  repeat match goal with H : (_, _) = (_, _) |- _ => injection H as -> -> end.

Section shared.
Context {O : Type} `{Env}.
Notation W := (WorldOf (ResourceDB O)).
Implicit Types (w : W) (d : ResourceDB O) (m : month_key).

(** The month's row, created without usage when there was none. *)
Record month_locked d m (x : memberAIPointMonthRow) (rows : gmap month_key memberAIPointMonthRow) : Prop := {
  ml_put y : <[m := y]> rows = <[m := y]> (rd_months d);
  ml_key : m = (mo_OrganizationID x, mo_MemberID x, mo_MonthStart x);
  ml_usage : mo_Reserved x = month mo_Reserved d m ∧ mo_Consumed x = month mo_Consumed d m;
  ml_good : amount (mo_Reserved x) ∧ amount (mo_Consumed x);
  ml_same : rows = rd_months d ∨
    (rd_months d !! m = None ∧ rows = <[m := x]> (rd_months d) ∧ mo_Reserved x = 0 ∧ mo_Consumed x = 0) }.

Lemma lockMonth_Ok org member t w x w' d : Sound d → rd_months (the_db w) = rd_months d →
  lockMemberMonth org member t w = (Ok x, w') →
  ∃ ms, the_db w' = put_rows months ms (the_db w) ∧ month_locked d (org, member, t) x ms.
Proof.
  unfold lockMemberMonth. intros Hs Hd Hr. inv_run. rename select (Some _ = _) into Hx. symmetry in Hx.
  match goal with Hc : CreateIgnore _ _ _ = _ |- _ => apply CreateIgnore_Ok in Hc as
    [(-> & -> & _)|(-> & Hn & _ & ->)] end; cbn in Hx |- *; rewrite Hd in *.
  - exists (rd_months d). rewrite <- Hd. split; [by destruct (the_db w)|]. rewrite Hd.
    destruct (snd_months _ Hs _ _ Hx) as [G1 G2 G3].
    split; unfold month; rewrite ?(cell_at _ _ _ x Hx); auto.
  - rewrite lookup_insert_eq in Hx. simplify_eq. eexists. split; [reflexivity|].
    cbn in Hn. rewrite Hd in Hn. split; unfold month, cell; rewrite ?Hn; try done.
    + intros y. apply insert_insert_eq.
    + by right.
Qed.

Lemma month_locked_sound d d1 m x ms : Sound d → month_locked d m x ms → Sound d1 →
  Sound (put_rows months ms d1).
Proof.
  intros Hs [_ Hk _ [Hr Hc] Hsame] Hs1.
  assert (map_Forall good_month ms) as Hms.
  { destruct Hsame as [-> |(_ & -> & _)]; [apply Hs|]. apply map_Forall_insert_2; [by split|apply Hs]. }
  by destruct Hs1 as [Sb Sd Sdb Si Ss Sr Sm].
Qed.

Lemma lockPointBucket_Ok org points w b w' : 0 < points ≤ max_int64 →
  lockPointBucket org points w = (Ok b, w') →
  w' = w ∧ rows buckets (the_db w) !! (org, ResourceAIPoint) = Some b ∧ points ≤ b_Available b ∧
  b_Reserved b + points ≤ max_int64.
Proof.
  unfold lockPointBucket. intros Hp Hr. inv_run. rename select (Some _ = _) into Hb. symmetry in Hb.
  reflect_bools. split; [done|]. split; [done|]. split; [lia|]. i64.
Qed.

(** What the limit leaves. *)
Lemma over_limit_within l x points : amount (lm_MonthlyLimit l) → amount (mo_Reserved x) →
  amount (mo_Consumed x) → 0 < points ≤ max_int64 → over_limit l x points = false →
  mo_Reserved x + points + mo_Consumed x ≤ lm_MonthlyLimit l.
Proof.
  unfold over_limit, amount. intros Hl Hr Hc Hp Ho. reflect_bools. destruct Ho as [[H1 H2] H3].
  revert H2 H3. rewrite (wrap64_id (lm_MonthlyLimit l - mo_Consumed x)) by i64_bounds. intros H2.
  rewrite wrap64_id by i64_bounds. lia.
Qed.

(** The bucket of points after deltas, within the bounds. *)
Lemma point_bucket_moves k b b' available reserved consumed t : good_bucket k b →
  amount (b_Available b + available) → amount (b_Reserved b + reserved) → amount (b_Consumed b + consumed) →
  b' = with_balances (b_Available b + available) (b_Allocated b) (b_Reserved b + reserved)
    (b_Consumed b + consumed) t b → bucket_moves k b b' available 0 reserved consumed.
Proof.
  intros [B1 B2 B3 B4 B5 B6 B7] Ha Hr Hc ->. split; [by split|simpl; lia..].
Qed.

(** ** Moves of points *)

(** The tables after an event of points, from what the operation wrote. *)
Record point_writes (e : organizationResourceEventRow) (r : organizationResourceReservationRow)
    (o : organizationResourceOperationRow) b b' d d' : Prop := {
  pw_bucket : rd_buckets d !! event_account e = Some b ∧
    rd_buckets d' = <[event_account e := b']> (rd_buckets d);
  pw_moves : bucket_moves (event_account e) b b' (ev_AvailableDelta e) 0 (ev_ReservedDelta e)
    (ev_ConsumedDelta e);
  pw_deltas : ev_AllocatedDelta e = 0 ∧ ev_AvailableAfter e = b_Available b' ∧
    ev_ReservedAfter e = b_Reserved b' ∧ ev_ConsumedAfter e = b_Consumed b';
  pw_idle : 0 < owed d (event_account e) - ev_DebtRepaid e → b_Available b' = 0;
  pw_operation : rd_operations d !! operation_of e = None ∧
    rd_operations d' = <[operation_of e := o]> (rd_operations d) ∧
    (op_OrganizationID o, op_OperationID o) = operation_of e ∧ op_State o = "succeeded"%string ∧
    (∀ key, reserve_key_of o = Some key → is_Some (rd_operations d !! (op_OrganizationID o, key)));
  pw_event : rd_events d !! (ev_EventID e, ev_OrganizationID e) = None ∧
    rd_events d' = <[(ev_EventID e, ev_OrganizationID e) := e]> (rd_events d);
  pw_debt : debt_move d d' (event_account e) (ev_DebtRepaid e);
  pw_same : rd_positions d' = rd_positions d ∧ rd_source_claims d' = rd_source_claims d ∧
    rd_limits d' = rd_limits d;
  pw_reservations : rd_reservations d' = <[reservation_key r := r]> (rd_reservations d) ∧
    pointed r = true ∧ good_reservation (reservation_key r) r ∧
    (∀ r0, rd_reservations d !! reservation_key r = Some r0 → pointed r0 = true);
  pw_reason : is_grant e = false;
  pw_balanced : event_balanced e }.

Lemma pointed_no_member k r : good_reservation k r → pointed r = true → member_charge r = false.
Proof.
  intros Hg Hp. destruct (gr_pointed _ _ Hg Hp) as (_ & _ & Hn). unfold member_charge.
  apply String.eqb_neq in Hn. by rewrite Hn.
Qed.

Lemma point_writes_move e r o b b' d d' : Sound d → point_writes e r o b b' d d' →
  reservation_move d d' e → move e d d'.
Proof.
  intros Hs [[P1 P1'] P2 (P3 & A1 & A2 & A3) P4 (P5 & P5' & P5'' & P5s & P5k) P6 P7 (S1 & S2 & S3)
    (P8 & Hp & Hg & Hold) P9 P10] Hr.
  split; try done.
  - eapply bucket_moved; [exact P1|exact P1'|exact P2|..]; done.
  - by eexists.
  - by apply share_same.
  - by apply claim_same.
  - eapply members_put; [done|exact P8|by eapply pointed_no_member|].
    intros r0 Hr0. eapply pointed_no_member; [by apply (snd_reservations _ Hs _ _ Hr0)|by apply Hold].
Qed.

(** What a reservation of points is made of. *)
Record point_row (r : organizationResourceReservationRow) m : Prop := {
  ptr_pointed : pointed r = true;
  ptr_month : month_of r = Some m;
  ptr_type : rr_ResourceType r = ResourceAIPoint;
  ptr_protocol : rr_ChargeProtocol r ≠ consumerChargeProtocol;
  ptr_quantity : 0 < rr_Quantity r ≤ max_int64 }.

Lemma point_row_good r m : point_row r m → rr_State r = ReservationReserved →
  rr_SettlementOperationID r = None → good_reservation (reservation_key r) r.
Proof.
  intros [P1 P2 P3 P4 P5] Hst Hset. split; try done; [by left|..].
  - split; [intros _|done]. by apply reserved_is_open.
  - intros _. split; [|by split]. unfold month_of in P2. destruct (rr_MemberMonthStart r); [by eexists|done].
Qed.

(** Points of a month are reserved, within the limit and the balance. *)
Lemma place_points_move r b o m x l opid reason alloc id t logs owners d :
  Sound d → Traced d → point_row r m → rr_State r = ReservationReserved →
  rr_SettlementOperationID r = None →
  let q := rr_Quantity r in
  let b' := with_balances (b_Available b - q) (b_Allocated b) (b_Reserved b + q) (b_Consumed b) in
  let e := point_event_row r (b' (b_UpdatedAt b) b) opid reason (- q) q 0 alloc 0 0 0 id in
  rd_buckets d !! reservation_account r = Some b → q ≤ b_Available b → b_Reserved b + q ≤ max_int64 →
  rd_limits d !! (rr_OrganizationID r, rr_MemberID r) = Some l →
  m = (mo_OrganizationID x, mo_MemberID x, mo_MonthStart x) →
  mo_Reserved x = month mo_Reserved d m → mo_Consumed x = month mo_Consumed d m →
  amount (mo_Reserved x) → amount (mo_Consumed x) → mo_Reserved x + q + mo_Consumed x ≤ lm_MonthlyLimit l →
  rd_reservations d !! reservation_key r = None → rr_OperationID r = opid →
  rd_operations d !! (rr_OrganizationID r, opid) = None → op_State o = "succeeded"%string →
  (op_OrganizationID o, op_OperationID o) = (rr_OrganizationID r, opid) → reserve_key_of o = None →
  rd_events d !! (id, rr_OrganizationID r) = None → is_grant e = false →
  move e d {|
    rd_buckets := <[reservation_account r := b' t b]> (rd_buckets d); rd_debts := rd_debts d;
    rd_operations := <[(rr_OrganizationID r, opid) := o]> (rd_operations d);
    rd_source_claims := rd_source_claims d;
    rd_reservations := <[reservation_key r := r]> (rd_reservations d);
    rd_events := <[(id, rr_OrganizationID r) := e]> (rd_events d); rd_audit_logs := logs;
    rd_positions := rd_positions d; rd_limits := rd_limits d;
    rd_months := <[m := with_month (mo_Reserved x + q) (mo_Consumed x) x]> (rd_months d);
    rd_owners := owners |}.
Proof.
  intros Hs Ht Hrow Hst Hset q b' e Hb Hav Hres Hl Hm Hx1 Hx2 Ha1 Ha2 Hlim Hnr Hid Hno Hso Hko Hkey Hne Hgr.
  pose proof Hrow as [P1 P2 P3 P4 P5]. pose proof (point_row_good r m Hrow Hst Hset) as Hg.
  pose proof (snd_buckets _ Hs _ _ Hb) as Hgb. pose proof Hgb as [B1 B2 B3 B4 B5 B6 B7].
  pose proof (snd_idle _ Hs (reservation_account r)) as Hid'. unfold balance in Hid'.
  rewrite (cell_at b_Available _ _ _ Hb) in Hid'.
  destruct (trc_limits _ Ht _ _ Hl) as (Hlk & Hla & Hls). unfold amount in *. subst q.
  apply (point_writes_move e r o b (b' t b)); [done| |].
  - split; try done.
    + apply (point_bucket_moves _ _ _ _ _ _ t); try done; subst b'; simpl; unfold amount; [lia..|].
      f_equal; lia.
    + change (event_account e) with (reservation_account r). simpl. lia.
    + split; [done|]. split; [done|]. split; [done|]. split; [done|]. intros key. by rewrite Hkey.
    + by apply debt_same.
    + split; [done|]. split; [done|]. split; [done|]. intros r0 Hr0. congruence.
    + unfold event_balanced, minted. rewrite Hgr. simpl. lia.
  - eapply (reservation_placed _ _ _ r); try done. unfold month_effect. rewrite P1.
    eexists m, _. split; [done|]. split; [reflexivity|]. simpl. split; [split; [done|unfold amount; simpl; lia..]|].
    split; [lia|]. split; [lia|]. intros _. exists (lm_MonthlyLimit l).
    unfold month_of in P2. destruct (rr_MemberMonthStart r); simplify_eq/=. split; [congruence|lia].
Qed.

(** A month that holds what is given back stays within its limit. *)
Lemma month_used d m x q actual : Traced d → m = (mo_OrganizationID x, mo_MemberID x, mo_MonthStart x) →
  Sound d → mo_Reserved x = month mo_Reserved d m → mo_Consumed x = month mo_Consumed d m →
  0 < q ≤ mo_Reserved x → 0 ≤ actual ≤ q →
  limited d (with_month (mo_Reserved x - q) (mo_Consumed x + actual) x).
Proof.
  intros Ht Hm Hs Hr Hc Hq Ha. unfold limited. simpl. intros _.
  unfold month, cell in Hr, Hc. destruct (rd_months d !! m) as [x0|] eqn:Hx0; [|lia].
  pose proof (gm_key _ _ (snd_months _ Hs _ _ Hx0)) as Hk. pose proof (gm_consumed _ _ (snd_months _ Hs _ _ Hx0)).
  unfold amount in *. destruct (trc_months _ Ht _ _ Hx0) as (z & Hz & Hle); [lia|].
  exists z. split; [congruence|lia].
Qed.

(** The debt after a credit, as the tables have it. *)
Definition debts_after d (k : account) (repaid : Z) (m : gmap (string * string) organizationResourceDebtRow)
    : Prop :=
  (m = rd_debts d ∧ repaid = 0) ∨
  (m = <[k := {| db_OrganizationID := k.1; db_ResourceType := k.2; db_Amount := owed d k - repaid |}]>
    (rd_debts d) ∧ 0 ≤ repaid ≤ owed d k).

(** The event that finalizes a reservation of points: of [held], [used] are consumed. *)
Definition points_event (org : string) (held used : Z) (e : organizationResourceEventRow) : Prop :=
  event_account e = (org, ResourceAIPoint) ∧ ev_ReservedDelta e = - held ∧
  ev_ConsumedDelta e = used ∧ is_grant e = false ∧ ev_AllocatedDelta e = 0.

(** A finalization is due: something was reserved, and it was not finalized. *)
Definition finalization_due d (org rkey fkey : string) : Prop :=
  is_Some (rd_operations d !! (org, rkey)) ∧ rd_operations d !! (org, fkey) = None.

(** Balances and debts as before. *)
Definition same_balances d d' : Prop := rd_buckets d' = rd_buckets d ∧ rd_debts d' = rd_debts d.

(** The points a reservation holds are consumed in part, and the rest comes back. *)
Lemma close_points_move r r' b o m x a actual repaid opid reason alloc gross id t debts logs owners d :
  Sound d → Traced d → point_row r m →
  rd_reservations d !! reservation_key r = Some r → open_reservation r = true →
  reservation_terms r' = reservation_terms r →
  rr_State r' = ReservationCommitted ∨ rr_State r' = ReservationReleased →
  rr_SettlementOperationID r' = Some opid →
  let q := rr_Quantity r in
  let b' := with_balances (b_Available b + a) (b_Allocated b) (b_Reserved b - q) (b_Consumed b + actual) in
  let e := point_event_row r (b' (b_UpdatedAt b) b) opid reason a (- q) actual alloc gross repaid a id in
  rd_buckets d !! reservation_account r = Some b → q ≤ b_Reserved b → 0 ≤ a → 0 ≤ actual →
  a + repaid + actual = q → b_Available b + a ≤ max_int64 → b_Consumed b + actual ≤ max_int64 →
  (0 < owed d (reservation_account r) - repaid → b_Available b + a = 0) →
  debts_after d (reservation_account r) repaid debts →
  m = (mo_OrganizationID x, mo_MemberID x, mo_MonthStart x) →
  mo_Reserved x = month mo_Reserved d m → mo_Consumed x = month mo_Consumed d m →
  amount (mo_Reserved x) → amount (mo_Consumed x) → q ≤ mo_Reserved x → mo_Consumed x + actual ≤ max_int64 →
  rd_operations d !! (rr_OrganizationID r, opid) = None → op_State o = "succeeded"%string →
  (op_OrganizationID o, op_OperationID o) = (rr_OrganizationID r, opid) →
  (∀ key, reserve_key_of o = Some key → is_Some (rd_operations d !! (op_OrganizationID o, key))) →
  rd_events d !! (id, rr_OrganizationID r) = None → is_grant e = false →
  move e d {|
    rd_buckets := <[reservation_account r := b' t b]> (rd_buckets d); rd_debts := debts;
    rd_operations := <[(rr_OrganizationID r, opid) := o]> (rd_operations d);
    rd_source_claims := rd_source_claims d;
    rd_reservations := <[reservation_key r := r']> (rd_reservations d);
    rd_events := <[(id, rr_OrganizationID r) := e]> (rd_events d); rd_audit_logs := logs;
    rd_positions := rd_positions d; rd_limits := rd_limits d;
    rd_months := <[m := with_month (mo_Reserved x - q) (mo_Consumed x + actual) x]> (rd_months d);
    rd_owners := owners |}.
Proof.
  intros Hs Ht Hrow Hr Hopen Hterms Hst Hset q b' e Hb Hres Ha Hac Hsum Hfit Hfit' Hid Hdebt Hm Hx1 Hx2 Ha1 Ha2
    Hq Hcm Hno Hso Hko Hkey Hne Hgr.
  pose proof Hrow as [P1 P2 P3 P4 P5]. pose proof (snd_reservations _ Hs _ _ Hr) as Hg.
  pose proof (snd_buckets _ Hs _ _ Hb) as Hgb. pose proof Hgb as [B1 B2 B3 B4 B5 B6 B7].
  destruct (terms_fixed r r' Hterms) as (Tq & Ta & Tk & Tsh & Tm & Tp & Tid & Torg & Ti & Tpt & Tmo & Tty & Tms & _).
  assert (open_reservation r' = false) as Hclosed by (unfold open_reservation; by destruct Hst as [-> | ->]).
  assert (0 ≤ repaid) by (destruct Hdebt as [[_ ->]|[_ ?]]; lia).
  unfold amount in *. subst q.
  assert (good_reservation (reservation_key r') r') as Hg'.
  { destruct Hg as [G1 G2 G3 G4 G5 G6]. split; rewrite ?Tq, ?Tp, ?Ti, ?Tpt, ?Tty, ?Tms; try done.
    - naive_solver.
    - rewrite Hset, Hclosed. by split. }
  apply (point_writes_move e r' o b (b' t b)); [done| |].
  - split; try done.
    + apply (point_bucket_moves _ _ _ _ _ _ t); try done; subst b'; simpl; unfold amount; [lia..|].
      f_equal; lia.
    + destruct Hdebt as [[-> ->]|[-> ?]]; [by apply debt_same|by apply debt_paid].
    + rewrite Tk, Tpt. split; [done|]. split; [done|]. split; [by rewrite Tk in Hg'|]. intros r0 Hr0.
      congruence.
    + unfold event_balanced, minted. rewrite Hgr. simpl. lia.
  - rewrite Tk in Hg'. eapply (reservation_closed _ _ _ r); try done; [congruence|].
    unfold month_effect. rewrite P1. eexists m, _. split; [done|]. split; [reflexivity|]. simpl.
    split; [split; [done|unfold amount; simpl; lia..]|]. split; [lia|]. split; [lia|].
    eapply month_used; try done; lia.
Qed.

(** ** Operations without an event *)

(** Operations that succeeded, or were closed, are recorded, and limits with them. *)
Lemma evolves_operations d d' : rd_operations d ⊆ rd_operations d' →
  (∀ k o, rd_operations d' !! k = Some o → rd_operations d !! k = Some o ∨
    (k = (op_OrganizationID o, op_OperationID o) ∧ (op_State o = "succeeded"%string ∨ closed_reserve o) ∧
     ∀ key, reserve_key_of o = Some key → is_Some (rd_operations d' !! (op_OrganizationID o, key)))) →
  (∀ k l, rd_limits d' !! k = Some l → rd_limits d !! k = Some l ∨
    (k = (lm_OrganizationID l, lm_MemberID l) ∧ amount (lm_MonthlyLimit l) ∧
     limit_set d' (lm_OrganizationID l) (lm_MemberID l) (lm_MonthlyLimit l))) →
  rd_buckets d' = rd_buckets d → rd_debts d' = rd_debts d → rd_source_claims d' = rd_source_claims d →
  rd_reservations d' = rd_reservations d → rd_events d' = rd_events d →
  rd_positions d' = rd_positions d → rd_months d' = rd_months d → evolves d d'.
Proof.
  intros Hsub Hops Hlim H1 H2 H3 H4 H5 H6 H7 Hs Ht.
  assert (∀ k, is_Some (rd_operations d !! k) → is_Some (rd_operations d' !! k)) as Hop.
  { intros k [x Hx]. exists x. by eapply lookup_weaken. }
  assert (∀ org member z, limit_set d org member z → limit_set d' org member z) as Hset.
  { intros org member z. by apply limit_set_kept. }
  destruct d as [a1 a2 a3 a4 a5 a6 a7 a8 a9 a10 a11], d' as [c1 c2 c3 c4 c5 c6 c7 c8 c9 c10 c11].
  simpl_db. subst. split.
  - by destruct Hs.
  - destruct Ht as [T1 Tf Tl Tmn T2 T3 T4 T5 T6 T9 T7 T8]. split; simpl_db; try done.
    + intros k o [Ho|(-> & Hst & _)]%Hops; [by apply T1|done].
    + intros k o key [Ho|(-> & _ & Hk)]%Hops Hkey; [by eapply Hop, Tf|by apply Hk].
    + intros k l [Hl|(-> & Ha & Hl)]%Hlim; [|done]. destruct (Tl _ _ Hl) as (-> & Ha & Hl'). auto.
    + intros k m Hm Hpos. destruct (Tmn _ _ Hm Hpos) as (z & Hz & Hle). eauto.
    + intros k e He. destruct (T2 _ _ He) as [-> He']. auto.
    + intros k c Hc. destruct (T4 _ _ Hc) as [-> Hc']. auto.
    + intros k r Hr. by eapply Hop, T6.
  - split; try done. intros k r Hr. exists r. by repeat split.
  - exists []. constructor. by split.
Qed.

(** The two operations of a finalization, locked one after the other. *)
Lemma finalize_locks org rkey rkind rfp fkey fkind ffp w op1 w1 op2 w2 : rkey ≠ fkey →
  closable fkind = false →
  (∀ o, op_OperationType o = fkind → op_OperationID o = fkey → reserve_key_of o = Some rkey) →
  lockFixedResourceOperation org rkey rkind rfp w = (Ok op1, w1) →
  lockFixedResourceOperation org fkey fkind ffp w1 = (Ok op2, w2) → Traced (the_db w) →
  let d := the_db w in
  (op_OrganizationID op1, op_OperationID op1) = (org, rkey) ∧ op_OperationType op1 = rkind ∧
  (op_OrganizationID op2, op_OperationID op2) = (org, fkey) ∧ op_OperationType op2 = fkind ∧
  ((op_State op2 = "succeeded"%string ∧ the_db w2 = d ∧ is_Some (rd_operations d !! (org, fkey))) ∨
   (op_State op2 = "processing"%string ∧ op_State op1 ≠ "processing"%string ∧ opens d (the_db w2) op2 ∧
     is_Some (rd_operations d !! (org, rkey))) ∨
   (op_State op2 = "processing"%string ∧ op_State op1 = "processing"%string ∧
     rd_operations d !! (org, rkey) = None ∧ rd_operations d !! (org, fkey) = None ∧
     the_db w2 = put_rows operations (<[(org, fkey) := op2]> (<[(org, rkey) := op1]> (rd_operations d))) d)).
Proof.
  intros Hne Hcl Hrk H1 H2 Ht d. apply lockFixed_Ok in H1 as (K1 & T1 & H1); [|done].
  apply lockFixed_raw in H2 as [T2 H2].
  destruct H1 as [(D1 & S1 & L1)|[S1 [N1 D1]]].
  - rewrite D1 in H2. destruct H2 as [[D2 L2]|(S2 & K2 & O2)].
    + destruct (trc_operations _ Ht _ _ L2) as [K2 St2]. do 4 (split; [done|]). left. split; [|by eauto].
      destruct St2 as [|[_ Hc]]; [done|]. by rewrite T2, Hcl in Hc.
    + do 4 (split; [done|]). right. left. split; [done|]. split; [|by eauto].
      intros Hp. destruct S1 as [S1|[S1 _]]; by rewrite Hp in S1.
  - rewrite K1 in N1, D1. rewrite D1 in H2. unfold opens in H2. cbn in H2.
    destruct H2 as [[D2 L2]|(S2 & K2 & O2 & D2)].
    + exfalso. rewrite lookup_insert_ne in L2 by congruence.
      destruct (trc_operations _ Ht _ _ L2) as [K2 _]. injection K2 as Ko Ki.
      destruct (trc_finalized _ Ht _ _ rkey L2) as [o Ho]; [by apply Hrk|]. subst d. congruence.
    + rewrite K2 in O2. rewrite lookup_insert_ne in O2 by congruence. do 4 (split; [done|]). right. right.
      do 4 (split; [done|]). rewrite K2 in D2. exact D2.
Qed.

Lemma alter_pair {V : Type} (g : V → V) (k1 k2 : string * string) (a b : V) (m : gmap (string * string) V) : k1 ≠ k2 →
  alter g k1 (<[k2 := b]> (<[k1 := a]> m)) = <[k2 := b]> (<[k1 := g a]> m).
Proof.
  intros Hne. rewrite (alter_insert_row g k1 _ a) by (rewrite lookup_insert_ne by done; apply lookup_insert_eq).
  rewrite insert_insert_ne by done. by rewrite insert_insert_eq.
Qed.

(** A finalization that finds nothing reserved records both of its operations. *)
Lemma evolves_closed_pair org rkey fkey o1 o2 logs owners d : rkey ≠ fkey →
  rd_operations d !! (org, rkey) = None → rd_operations d !! (org, fkey) = None →
  (op_OrganizationID o1, op_OperationID o1) = (org, rkey) → closed_reserve o1 → reserve_key_of o1 = None →
  (op_OrganizationID o2, op_OperationID o2) = (org, fkey) → op_State o2 = "succeeded"%string →
  reserve_key_of o2 = Some rkey →
  evolves d {|
    rd_buckets := rd_buckets d; rd_debts := rd_debts d;
    rd_operations := <[(org, fkey) := o2]> (<[(org, rkey) := o1]> (rd_operations d));
    rd_source_claims := rd_source_claims d; rd_reservations := rd_reservations d;
    rd_events := rd_events d; rd_audit_logs := logs; rd_positions := rd_positions d;
    rd_limits := rd_limits d; rd_months := rd_months d; rd_owners := owners |}.
Proof.
  intros Hne N1 N2 K1 C1 R1 K2 S2 R2. apply evolves_operations; simpl; try done.
  - trans (<[(org, rkey) := o1]> (rd_operations d)); apply insert_subseteq;
      rewrite ?lookup_insert_ne by congruence; done.
  - intros k o. rewrite !lookup_insert_Some. intros [[<- <-]|[_ [[<- <-]|[_ Ho]]]]; [right|right|by left].
    + split; [done|]. split; [by left|]. rewrite R2. intros key [= <-].
      assert (op_OrganizationID o2 = org) as -> by congruence.
      rewrite lookup_insert_ne, lookup_insert_eq by congruence. eauto.
    + split; [done|]. split; [by right|]. by rewrite R1.
  - by left.
Qed.
End shared.
