(* ===== verification/ResourceLimitSteps.v ===== *)
(** * Limits of AI points evolve the resource tables

    Setting a member's monthly limit records an operation and changes no balance. *)
From S2P Require Import Prelude GoStd Encoding Cursors GenerationFacts ResourceTypes PointTypes Store ResourceStore ResourceRepo ResourceCharges ResourcePoints ResourceBooks ResourceInv ResourceMoves ResourceSteps ResourceReserve ResourceShares ResourceChargeSteps ResourcePointMoves.

Section limits.
Context {O : Type} `{Env} `{PointOwners O}.
Notation W := (WorldOf (ResourceDB O)).
Implicit Types (w : W) (d : ResourceDB O).

Lemma evolves_month_locked d m x ms : month_locked d m x ms → evolves d (put_rows months ms d).
Proof.
  intros [_ Hk _ [Hr Hc] [-> |(Hn & -> & Z1 & Z2)]]; [by apply evolves_unchanged|].
  eapply evolves_new_month; [exact Hn| |exact Z1|exact Z2|done]. by split.
Qed.

(** The limit of a member, created when there was none. *)
Lemma lockLimit_Ok row w b w1 d l : Traced d → rd_limits (the_db w) = rd_limits d →
  CreateIgnore limits row w = (Ok b, w1) → let k := (lm_OrganizationID row, lm_MemberID row) in
  rows limits (the_db w1) !! k = Some l →
  (lm_OrganizationID l, lm_MemberID l) = k ∧ ∃ ls, the_db w1 = put_rows limits ls (the_db w) ∧
    ∀ y, <[k := y]> ls = <[k := y]> (rd_limits d).
Proof.
  intros Ht Hd Hc k Hl. apply CreateIgnore_Ok in Hc as [(-> & -> & _)|(-> & Hn & _ & ->)]; cbn in Hl; rewrite Hd in Hl.
  - destruct (trc_limits _ Ht _ _ Hl) as [Hk _]. split; [done|]. exists (rd_limits d). rewrite <- Hd.
    split; [by destruct (the_db w)|done].
  - rewrite lookup_insert_eq in Hl. simplify_eq. split; [done|]. eexists. split; [reflexivity|].
    intros y. cbn. rewrite Hd. apply insert_insert_eq.
Qed.

Lemma setNewLimit_evolves i op d w s w' : amount (sl_Target i) →
  (op_OrganizationID op, op_OperationID op) = (sl_OrganizationID i, sl_OperationID i) →
  op_OperationType op = "set_member_ai_point_limit"%string → opens d (the_db w) op → Sound d → Traced d →
  setNewLimit i w = (Ok s, w') → evolves d (the_db w').
Proof.
  intros Ha Hop Hkind [Hn Hw] Hs Ht Hr. rewrite Hop in Hn, Hw. injection Hop as Ho1 Ho2.
  unfold setNewLimit in Hr. cbv zeta in Hr. inv_owners.
  match goal with Hc : CreateIgnore limits _ ?w1 = _, Hl : Some ?r = rows limits _ !! _, He : the_db ?w1 = the_db w |- _ =>
    rename He into Hw1; symmetry in Hl; rename r into limit;
    apply (lockLimit_Ok _ _ _ _ d _ Ht ltac:(by rewrite Hw1, Hw) Hc) in Hl as (Hkey & ls & Hls & Hput); clear Hc end.
  rewrite Hw1, Hw in Hls. cbn in Hls, Hput, Hkey.
  match goal with Hl : lockMemberMonth _ _ _ _ = _ |- _ =>
    apply (lockMonth_Ok _ _ _ _ _ _ d) in Hl as (ms & Hms & Hml); [|done|by rewrite Hls] end.
  rewrite Hls in Hms. rows_of w. rewrite Hkey, Hput, (alter_insert_row _ _ _ op) by apply lookup_insert_eq.
  rewrite insert_insert_eq. clear_run.
  etrans; [exact (evolves_month_locked _ _ _ _ Hml)|].
  apply evolves_operations; simpl; try done.
  - by apply insert_subseteq.
  - intros k o. rewrite lookup_insert_Some. intros [[<- <-]|[_ Ho]]; [right|by left].
    split; [simpl; by rewrite Ho1, Ho2|]. split; [by left|].
    intros key. rewrite no_reserve_key; [done|..]; cbn; by rewrite Hkind.
  - intros k l. rewrite lookup_insert_Some. intros [[<- <-]|[_ Hl]]; [right|by left].
    split; [by simpl|]. split; [done|]. simpl. eexists _, _, _.
    split; [apply lookup_insert_eq|]. split; [exact Hkind|]. by split_and!.
Qed.

Lemma setLimit_evolves i w s w' : amount (sl_Target i) → setLimitTransaction i w = (Ok s, w') →
  evolves (the_db w) (the_db w').
Proof.
  unfold setLimitTransaction. intros Ha Hr Hs Ht.
  apply bind_Ok in Hr as (op & w1 & Hl & Hr).
  apply lockFixed_Ok in Hl as (Hk & Hkind & [(Hdb & Hst & _)|[Hst Ho]]); [| |done]; inv_run; reflect_bools.
  - inv_receipt. rewrite Hdb. by apply evolves_preorder.
  - destruct Hst as [|[Hf _]]; congruence.
  - congruence.
  - by eapply setNewLimit_evolves.
Qed.

Lemma SetLimit_evolves i : sl_Target i ≤ max_int64 → keeps (on_db evolves) (SetLimit (O:=O) i).
Proof.
  intros Hi. unfold SetLimit. apply keeps_guard_bind; [apply _|]. intros Hv.
  apply keeps_Transaction_Ok; [apply _|]. intros w s w'. apply setLimit_evolves.
  unfold ValidMemberLimitCommand in Hv. reflect_bools. unfold amount. naive_solver.
Qed.

Lemma SetMonthlyLimit_evolves p i : sl_Target i ≤ max_int64 →
  keeps (on_db evolves) (SetMonthlyLimit (O:=O) p i).
Proof. intros Hi. unfold SetMonthlyLimit. solve_requests. by apply SetLimit_evolves. Qed.

Lemma keeps_ReadMonthlyLimit (R : W → W → Prop) `{!Frame R} p org member :
  keeps R (ReadMonthlyLimit (O:=O) p org member).
Proof. unfold ReadMonthlyLimit, ReadLimit. solve_resource_keeps. Qed.
End limits.
