(* ===== verification/ResourceImageSteps.v ===== *)
(** * Image generations evolve the resource tables

    Reserving points for an image generation and finalizing it are moves, or
    close an operation that never reserved. *)
From S2P Require Import Prelude GoStd Encoding Cursors GenerationFacts ResourceTypes PointTypes Store ResourceStore ResourceRepo ResourceCharges ResourcePoints ResourceBooks ResourceInv ResourceMoves ResourceSteps ResourceReserve ResourceShares ResourceChargeSteps ResourcePointMoves.

Section image.
Context {O : Type} `{Env} `{GenerationAssets} `{PointOwners O}.
Notation W := (WorldOf (ResourceDB O)).
Implicit Types (w : W) (d : ResourceDB O).

Lemma reserveNewImage_move id f op d w r w' : 0 < gi_Points (gf_Intent f) ≤ max_int64 →
  (op_OrganizationID op, op_OperationID op) = (si_TenantID id, imageReserveKey f) →
  op_OperationType op = "image_generation_reserve"%string → op_State op = "processing"%string →
  opens d (the_db w) op → Sound d → Traced d →
  reserveNewImage id f op w = (Ok r, w') → ∃ e, move e d (the_db w').
Proof.
  intros Hq Hop Hkind Hst [Hn Hw] Hs Ht Hr. rewrite Hop in Hn, Hw. injection Hop as Ho1 Ho2.
  assert (Sound (the_db w)) as Hsw. { rewrite Hw. by destruct Hs. }
  unfold reserveNewImage, saveImageBucket, completeImageOperation in Hr. cbv zeta in Hr. inv_owners.
  match goal with Hl : lockMemberMonth _ _ _ ?w1 = _, He : the_db ?w1 = the_db w |- _ =>
    rename He into Hw1; apply (lockMonth_Ok _ _ _ _ _ _ d) in Hl as (ms & Hms & Hml);
    [|done|by rewrite Hw1, Hw]; rewrite Hw1, Hw in Hms end.
  match goal with Hb : lockPointBucket _ _ _ = _ |- _ =>
    apply lockPointBucket_Ok in Hb as (-> & Hb & Hav & Hres); [|done] end.
  reflect_bools. eexists. rows_of w. rewrite Ho1, Ho2, lookup_insert_eq, insert_insert_eq.
  intros F1 F2 F3 F4 F5 F6. the_event. clear_run. simplify_eq.
  pose proof (snd_buckets _ Hs _ _ F2) as Hgb. rewrite <- (gb_key _ _ Hgb) in *. 
  destruct Hml as [M1 M2 [M3 M4] [M5 M6] _]. rewrite <- M2, M1.
  destruct (trc_limits _ Ht _ _ (eq_sym F1)) as (_ & Hla & _).
  rename select (over_limit _ _ _ = false) into Hov.
  apply over_limit_within in Hov; [|done..]. pose proof (gb_available _ _ Hgb). unfold amount in *.
  replace (b_Available x13 -! gi_Points (gf_Intent f)) with (b_Available x13 - gi_Points (gf_Intent f)) by i64.
  pose proof (gb_reserved _ _ Hgb). unfold amount in *.
  replace (b_Reserved x13 +! gi_Points (gf_Intent f)) with (b_Reserved x13 + gi_Points (gf_Intent f)) by i64.
  replace (mo_Reserved x9 +! gi_Points (gf_Intent f)) with (mo_Reserved x9 + gi_Points (gf_Intent f)) by i64.
  replace (-! gi_Points (gf_Intent f)) with (- gi_Points (gf_Intent f)) by i64.
  assert (x3 = x13) as -> by congruence.
  apply (place_points_move (image_row id f x15 x17) x13 _ _ x9 x5); try done.
  - simpl. congruence.
  - by apply no_reserve_key; simpl; rewrite Hkind.
Qed.

Lemma image_keys_differ f : imageReserveKey f ≠ imageFinalizeKey f.
Proof. unfold imageReserveKey, imageFinalizeKey. discriminate. Qed.

Lemma image_reserve_key o f : op_OperationType o = "image_generation_finalize"%string →
  op_OperationID o = imageFinalizeKey f → reserve_key_of o = Some (imageReserveKey f).
Proof.
  unfold reserve_key_of. intros -> ->.
  replace (strip_prefix _ (imageFinalizeKey f)) with (Some (gf_IntentID f)); [done|].
  symmetry. by apply strip_prefix_spec.
Qed.

Lemma matches_image f r : matchesImageReservation f r = true → pointed r = true ∧
  rr_ResourceType r = ResourceAIPoint ∧ rr_MemberMonthStart r = Some (gi_MonthStart (gf_Intent f)) ∧
  rr_OperationID r = imageReserveKey f ∧ rr_Quantity r = gi_Points (gf_Intent f).
Proof.
  unfold matchesImageReservation. intros Hm. reflect_bools. destruct_and!.
  unfold pointed, point_owner. rename select (rr_OwnerType r = _) into Ho. rewrite Ho. by repeat split.
Qed.

Lemma settleImage_move org f proof reserveOp op now u d w r w1 w2 logs :
  (op_OrganizationID op, op_OperationID op) = (org, imageFinalizeKey f) →
  op_OperationType op = "image_generation_finalize"%string → op_State op = "processing"%string →
  opens d (the_db w) op → is_Some (rd_operations d !! (org, imageReserveKey f)) → Sound d → Traced d →
  settleImage org f proof reserveOp op now w = (Ok r, w1) →
  completeImageOperation op (GenerationSettled r) now w1 = (Ok u, w2) →
  ∃ e, move e d (put_rows audit_logs logs (the_db w2)) ∧ points_event org (gi_Points (gf_Intent f))
    (if gf_State f =s GenerationSucceeded then gi_Points (gf_Intent f) else 0) e.
Proof.
  intros Hop Hkind Hst [Hn Hw] Hres Hs Ht Hr Hc. rewrite Hop in Hn, Hw. injection Hop as Ho1 Ho2.
  assert (Sound (the_db w)) as Hsw. { rewrite Hw. by destruct Hs. }
  unfold settleImage, imageReservationOf, saveImageBucket in Hr. unfold completeImageOperation in Hc.
  cbv zeta in Hr. inv_owners. inv_receipt.
  set (succeeded := gf_State f =s GenerationSucceeded) in *.
  match goal with Hl : lockMemberMonth _ _ _ w = _ |- _ =>
    apply (lockMonth_Ok _ _ _ _ _ _ d) in Hl as (ms & Hms & Hml); [|done|by rewrite Hw] end.
  match goal with Hl : Some ?r = rows resource_reservations _ !! _ |- _ => rename Hl into Hrow; rename r into row end.
  reflect_bools. match goal with Hm : matchesImageReservation _ _ = true ∧ _ |- _ => destruct Hm as [Hmatch Hrs] end.
  destruct (matches_image _ _ Hmatch) as (Hpt & Hty & Hmo & Hid & Hq). rewrite Hmo in *. simpl in Hml.
  symmetry in Hrow. cbn in Hrow. rewrite Hw in Hrow. cbn in Hrow.
  pose proof (snd_reservations _ Hs _ _ Hrow) as Hg. pose proof (gr_key _ _ Hg) as Hk.
  injection Hk as Hk1 Hk2.
  match goal with Hc : calculateSettlement _ _ _ ?w3 = _, Hb : Some ?b = rows buckets (the_db ?w3) !! _ |- _ =>
    rename Hb into Hbk, Hc into Hcalc; symmetry in Hbk; rename b into bucket end.
  assert (reservation_account row = (op_OrganizationID op, ResourceAIPoint)) as Hacc
    by (unfold reservation_account; congruence).
  apply calculateSettlement_Ok in Hcalc as [Hsa (md & Hmd & Hdebt)];
    [|rewrite Hms; exact (month_locked_sound _ _ _ _ _ Hs Hml Hsw)|by rewrite Hacc|apply Hg|lia|destruct succeeded; auto].
  rewrite Hms, Hw in Hmd, Hsa, Hdebt. cbn in Hmd.
  rewrite Hk1, Hk2 in Hrow. rewrite Hk1 in Hacc, Hml, Hn, Hres. eexists. rows_of w. rewrite Ho2, lookup_insert_eq, insert_insert_eq, Hk1.
  rewrite (alter_insert_row _ _ _ _ Hrow). intros F1 F2 F3 F4. the_event. clear_run. simplify_eq.
  pose proof (snd_buckets _ Hs _ _ F1) as Hgb. rewrite <- (gb_key _ _ Hgb) in *. 
  destruct Hml as [M1 M2 [M3 M4] [M5 M6] _]. rewrite <- M2, M1.
  assert (x0 = bucket) as -> by congruence. destruct Hsa as [S1 S3 S4 S5 S6 [S7 S8] S9].
  set (actual := if succeeded then rr_Quantity row else 0).
  pose proof (gr_quantity _ _ Hg) as Hq'. unfold amount in *.
  assert (cs_availableAfter x10 = b_Available bucket + cs_netCredit x10 ∧
    cs_consumedAfter x10 = b_Consumed bucket + actual ∧ 0 ≤ cs_netCredit x10 ∧ 0 ≤ actual ∧
    cs_netCredit x10 + cs_debtRepaid x10 + actual = rr_Quantity row ∧
    (if succeeded then mo_Consumed x27 +! rr_Quantity row else mo_Consumed x27) = mo_Consumed x27 + actual ∧
    mo_Consumed x27 + actual ≤ max_int64) as (E1 & E2 & E3 & E4 & E5 & E6 & E7).
  { subst actual. destruct succeeded; simpl in S4, S5, S6; repeat split; try lia; destruct H8; try done; i64. }
  rewrite S3, E1, E2, E6. rewrite E1 in S7, S9. rewrite E2 in S8.
  replace (mo_Reserved x27 -! rr_Quantity row) with (mo_Reserved x27 - rr_Quantity row) by i64.
  replace (-! rr_Quantity row) with (- rr_Quantity row) by i64.
  split; [rewrite <- Hacc|split; [exact Hacc|split; [simpl; lia|subst actual; by destruct succeeded]]].
  apply (close_points_move row _ bucket _ _ x27); try done.
  - split; try done; [unfold month_of; by rewrite Hmo|by apply (gr_pointed _ _ Hg)].
  - by apply reserved_is_open.
  - destruct succeeded; auto.
  - by rewrite Hacc.
  - simpl. congruence.
  - intros key. rewrite (image_reserve_key _ f) by done. intros [= <-]. simpl. by rewrite Hk1.
  - by destruct succeeded.
Qed.

(** Nothing was reserved: both operations are closed. *)
Lemma closeUnreserved_evolves org f proof now op1 op2 d w r w1 u w2 logs :
  (op_OrganizationID op1, op_OperationID op1) = (org, imageReserveKey f) →
  op_OperationType op1 = "image_generation_reserve"%string →
  (op_OrganizationID op2, op_OperationID op2) = (org, imageFinalizeKey f) →
  op_OperationType op2 = "image_generation_finalize"%string →
  rd_operations d !! (org, imageReserveKey f) = None → rd_operations d !! (org, imageFinalizeKey f) = None →
  the_db w = put_rows operations (<[(org, imageFinalizeKey f) := op2]>
    (<[(org, imageReserveKey f) := op1]> (rd_operations d))) d →
  closeUnreservedImage org f proof op1 now w = (Ok r, w1) →
  completeImageOperation op2 (GenerationSettled r) now w1 = (Ok u, w2) →
  evolves d (put_rows audit_logs logs (the_db w2)) ∧ same_balances d (put_rows audit_logs logs (the_db w2)).
Proof.
  intros K1 T1 K2 T2 N1 N2 Hw Hr Hc. unfold closeUnreservedImage in Hr. unfold completeImageOperation in Hc.
  inv_owners. injection K1 as O1 I1. injection K2 as O2 I2. rows_of w.
  rewrite O2, I1, I2. rewrite alter_pair, lookup_insert_eq, insert_insert_eq by done.
  intros [= <-]. split; [|done]. apply evolves_closed_pair; try done; simpl; try congruence.
  - split; [done|]. cbn [failed_operation op_OperationType]. by rewrite T1.
  - apply no_reserve_key; cbn; by rewrite T1.
  - by apply image_reserve_key.
Qed.

(** ** Requests *)

(** The points of a fact are an int64. *)
Lemma fact_points f : GenerationFact_Validate f = None → 0 < gi_Points (gf_Intent f).
Proof.
  unfold GenerationFact_Validate, NewGenerationFact. intros Hv.
  destruct (existsb _ _); [done|]. destruct (_ || _) eqn:E in Hv; [done|]. reflect_bools. tauto.
Qed.

Lemma reserveImage_evolves id f w r w' : 0 < gi_Points (gf_Intent f) ≤ max_int64 →
  reserveImageTransaction id f w = (Ok r, w') → evolves (the_db w) (the_db w').
Proof.
  unfold reserveImageTransaction. intros Hq Hr.
  inv_run; reflect_bools; destruct_and?; match goal with Hl : lockFixedResourceOperation _ _ _ _ _ = _ |- _ =>
    apply (fixed_evolves _ _ _ _ _ _ _ _ Hl) end; try congruence; try (intros [|[? _]]; congruence).
  - intros _. inv_receipt. done.
  - intros Hk Hkind Hst Ho Hs Ht. by eapply reserveNewImage_move.
Qed.

(** Finalizing leaves the balances as they are, or posts the generation's event. *)
Lemma finalizeImage_cases id f w r w' : finalizeImageTransaction id f w = (Ok r, w') →
  Sound (the_db w) → Traced (the_db w) →
  let due := finalization_due (the_db w) (si_TenantID id) (imageReserveKey f) (imageFinalizeKey f) in
  (¬ due ∧ evolves (the_db w) (the_db w') ∧ same_balances (the_db w) (the_db w')) ∨
  (due ∧ ∃ e, move e (the_db w) (the_db w') ∧ points_event (si_TenantID id) (gi_Points (gf_Intent f))
    (if gf_State f =s GenerationSucceeded then gi_Points (gf_Intent f) else 0) e).
Proof.
  unfold finalizeImageTransaction. cbv zeta. intros Hr Hs Ht. revert Hs Ht.
  apply bind_Ok in Hr as (op1 & w1 & L1 & Hr). apply bind_Ok in Hr as (op2 & w2 & L2 & Hr).
  intros Hs Ht. destruct (finalize_locks _ _ _ _ _ _ _ _ _ _ _ _ (image_keys_differ f)
    (eq_refl : closable "image_generation_finalize" = false) (λ o, image_reserve_key o f) L1 L2 Ht) as (K1 & T1 & K2 & T2 & Hc).
  inv_owners; reflect_bools; destruct Hc as [(S2 & D2 & Hold)|[(S2 & S1 & O2 & Hex)|(S2 & S1 & N1 & N2 & D2)]];
    try congruence.
  - left. inv_receipt. split; [intros [_ Hd]; rewrite Hd in Hold; by destruct Hold|].
    rewrite D2. split; [by apply evolves_preorder|done].
  - left. split; [intros [[? Hd] _]; congruence|].
    rename select (the_db _ = put_rows audit_logs _ _) into Hlog. rewrite Hlog.
    match goal with Hc : closeUnreservedImage _ _ _ _ _ _ = _, Hf : completeImageOperation _ _ _ _ = _,
      Hn : the_db _ = the_db w2 |- _ => rewrite D2 in Hn;
      exact (closeUnreserved_evolves _ _ _ _ _ _ _ _ _ _ _ _ _ K1 T1 K2 T2 N1 N2 Hn Hc Hf) end.
  - right. split; [split; [done|]; rewrite <- K2; apply O2|].
    rename select (the_db _ = put_rows audit_logs _ _) into Hlog. rewrite Hlog.
    match goal with Hc : settleImage _ _ _ _ _ _ _ = _, Hf : completeImageOperation _ _ _ _ = _,
      Hn : the_db _ = the_db w2 |- _ => rewrite <- Hn in O2;
      exact (settleImage_move _ _ _ _ _ _ _ _ _ _ _ _ x0 K2 T2 S2 O2 Hex Hs Ht Hc Hf) end.
Qed.

Lemma finalizeImage_evolves id f w r w' : finalizeImageTransaction id f w = (Ok r, w') →
  evolves (the_db w) (the_db w').
Proof.
  intros Hr Hs Ht. destruct (finalizeImage_cases _ _ _ _ _ Hr Hs Ht) as [(_ & He & _)|(_ & e & He & _)].
  - by apply He.
  - exact (move_evolves e _ _ (λ _ _, He) Hs Ht).
Qed.

(** The quantities of facts are of type int64. *)
Class TypedPointOwners : Prop :=
  typed_fact id o f : ReadGenerationFact (O:=O) id o = Ok f → gi_Points (gf_Intent f) ≤ max_int64.

Lemma keeps_readImageFact_bind `{!TypedPointOwners} {A} id (k : GenerationFact → ST W A) :
  (∀ f, gi_Points (gf_Intent f) ≤ max_int64 → GenerationFact_Validate f = None →
     gi_Identity (gf_Intent f) = id → keeps (on_db evolves) (k f)) →
  keeps (on_db evolves) (mbind k (readImageFact id)).
Proof.
  intros Hk w. destruct (mbind k (readImageFact id) w) as [r w'] eqn:E. unfold readImageFact in E.
  unfold mbind, ST_bind, ask_owners, guard_not in E.
  destruct (ReadGenerationFact id (rd_owners (the_db w))) as [f|e] eqn:Hf; [|by simplify_eq].
  destruct (negb (nil_error (GenerationFact_Validate f)) || _) eqn:Hv; simpl in E; [by simplify_eq|].
  reflect_bools. destruct Hv as [Hv Hi].
  assert (GenerationFact_Validate f = None) as Hn by (destruct (GenerationFact_Validate f); done).
  specialize (Hk f (typed_fact _ _ _ Hf) Hn Hi w). rewrite E in Hk. exact Hk.
Qed.

Lemma ReserveImageGeneration_evolves `{!TypedPointOwners} id :
  keeps (on_db evolves) (ReserveImageGeneration id).
Proof.
  unfold ReserveImageGeneration. apply keeps_readImageFact_bind. intros f Hq Hv _. solve_requests.
  apply keeps_Transaction_Ok; [apply _|]. intros w r w'. apply reserveImage_evolves.
  split; [by apply fact_points|done].
Qed.

Lemma FinalizeImageGeneration_evolves `{!TypedPointOwners} id :
  keeps (on_db evolves) (FinalizeImageGeneration id).
Proof.
  unfold FinalizeImageGeneration. apply keeps_readImageFact_bind. intros f _ _ _. solve_requests.
  apply keeps_Transaction_Ok; [apply _|]. intros w r w'. apply finalizeImage_evolves.
Qed.
End image.
