(* ===== verification/ResourceInvocationSteps.v ===== *)
(** * Model invocations evolve the resource tables

    Reserving points for an invocation and finalizing it are moves, or close an
    operation that never reserved; claiming due invocations changes nothing that
    counts, so recovery is a sequence of finalizations. *)
From S2P Require Import Prelude GoStd Encoding Cursors GenerationFacts ResourceTypes PointTypes Store ResourceStore ResourceRepo ResourceCharges ResourcePoints ResourceBooks ResourceInv ResourceMoves ResourceSteps ResourceReserve ResourceShares ResourceChargeSteps ResourcePointMoves.

Section invocations.
Context {O : Type} `{Env} `{Collation} `{PointOwners O}.
Notation W := (WorldOf (ResourceDB O)).
Implicit Types (w : W) (d : ResourceDB O) (f : InvocationRecord).

Definition reserve_key f : string := modelPointKey "reserve" (ir_InvocationID f).
Definition finalize_key f : string := modelPointKey "finalize" (ir_InvocationID f).

Lemma invocation_keys_differ f : reserve_key f ≠ finalize_key f.
Proof. unfold reserve_key, finalize_key, modelPointKey. discriminate. Qed.

Lemma invocation_reserve_key o f : op_OperationType o = "model_point_finalize"%string →
  op_OperationID o = finalize_key f → reserve_key_of o = Some (reserve_key f).
Proof.
  unfold reserve_key_of. intros -> ->.
  replace (strip_prefix "model-point-finalize:" (finalize_key f)) with (Some (modelPointHash (Some (JStr (ir_InvocationID f)))));
    [done|]. symmetry. by apply strip_prefix_spec.
Qed.

Lemma reserveNewInvocation_move f op d w u w' : 0 < maximum_points f ≤ max_int64 →
  (op_OrganizationID op, op_OperationID op) = (ir_TenantID f, reserve_key f) →
  op_OperationType op = "model_point_reserve"%string → op_State op = "processing"%string →
  opens d (the_db w) op → Sound d → Traced d →
  reserveNewInvocation f op w = (Ok u, w') → ∃ e, move e d (the_db w').
Proof.
  intros Hq Hop Hkind Hst [Hn Hw] Hs Ht Hr. rewrite Hop in Hn, Hw. injection Hop as Ho1 Ho2.
  unfold reserveNewInvocation, updateConsumerBucket, completeImageOperation, writeModelPointEvent in Hr.
  cbv zeta in Hr. inv_owners.
  match goal with Hl : lockMemberMonth _ _ _ ?w1 = _, He : the_db ?w1 = the_db w |- _ =>
    rename He into Hw1; apply (lockMonth_Ok _ _ _ _ _ _ d) in Hl as (ms & Hms & Hml);
    [|done|by rewrite Hw1, Hw]; rewrite Hw1, Hw in Hms end.
  match goal with Hb : lockPointBucket _ _ _ = _ |- _ =>
    apply lockPointBucket_Ok in Hb as (-> & Hb & Hav & Hres); [|done] end.
  reflect_bools. eexists. rows_of w. rewrite Ho1, Ho2, lookup_insert_eq, insert_insert_eq.
  intros F1 F2 F3 F4 F5 F6. the_event. clear_run. simplify_eq.
  pose proof (snd_buckets _ Hs _ _ F2) as Hgb. rewrite <- (gb_key _ _ Hgb) in *.
  destruct Hml as [M1 M2 [M3 M4] [M5 M6] _]. rewrite <- M2, M1.
  destruct (trc_limits _ Ht _ _ (eq_sym F1)) as (_ & Hla & _).
  rename select (over_limit _ _ _ = false) into Hov.
  apply over_limit_within in Hov; [|done..]. pose proof (gb_available _ _ Hgb).
  pose proof (gb_reserved _ _ Hgb). unfold amount in *.
  replace (b_Available x11 -! maximum_points f) with (b_Available x11 - maximum_points f) by i64.
  replace (b_Reserved x11 +! maximum_points f) with (b_Reserved x11 + maximum_points f) by i64.
  replace (mo_Reserved x7 +! maximum_points f) with (mo_Reserved x7 + maximum_points f) by i64.
  replace (-! maximum_points f) with (- maximum_points f) by i64.
  assert (x3 = x11) as -> by congruence.
  apply (place_points_move (model_row f (model_receipt f x13 (lm_Version x5)) x) x11 _ _ x7 x5); try done.
  - simpl. congruence.
  - by apply no_reserve_key; simpl; rewrite Hkind.
Qed.

Lemma matches_invocation f receipt r : matchesModelPointReceipt f receipt r = true → pointed r = true ∧
  rr_ResourceType r = ResourceAIPoint ∧ rr_MemberMonthStart r = Some (mr_Month receipt) ∧
  rr_Quantity r = maximum_points f.
Proof.
  unfold matchesModelPointReceipt. cbv zeta. intros Hm. reflect_bools. destruct_and!.
  unfold pointed, point_owner. rename select (rr_OwnerType r = _) into Ho. rewrite Ho.
  repeat split; [done|congruence|done].
Qed.

(** The unused part, credited. *)
Record unused_points d k quantity actual available (c : positiveCreditAllocation) : Prop := {
  up_net : 0 ≤ pc_net c ∧ pc_net c + pc_debtRepaid c + actual = quantity;
  up_after : pc_availableAfter c = available + pc_net c ∧ pc_availableAfter c ≤ max_int64;
  up_idle : 0 < owed d k - pc_debtRepaid c → available + pc_net c = 0 }.

Lemma unused_credit_Ok org quantity actual available w c w' : Sound (the_db w) →
  available = balance b_Available (the_db w) (org, ResourceAIPoint) → amount available →
  0 ≤ actual ≤ quantity → quantity ≤ max_int64 →
  unused_credit org quantity actual available w = (Ok c, w') →
  let k := (org, ResourceAIPoint) in
  unused_points (the_db w) k quantity actual available c ∧
  ∃ m, the_db w' = put_rows debts m (the_db w) ∧ debts_after (the_db w) k (pc_debtRepaid c) m.
Proof.
  intros Hs Hav Ham Ha Hq Hr k. unfold unused_credit in Hr. destruct (quantity >? actual) eqn:E; reflect_bools.
  - rewrite (wrap64_id (quantity - actual)) in Hr by i64_bounds.
    apply (applyPositiveCredit_Ok _ _ _ _ _ _ _ Hs) in Hr as [Hc Hw]; [|lia|done].
    rewrite Hav in Hc. pose proof (credited_idle _ _ (quantity - actual) _ Hs ltac:(lia) Hc) as Hid. rewrite <- Hav in *.
    destruct Hc as [C1 C2 C3 C4 C5 C6]. subst k. split; [split; try done; lia|].
    eexists. split; [exact Hw|]. right. split; [done|lia].
  - inv_run. assert (actual = quantity) as -> by lia.
    pose proof (snd_idle _ Hs k) as Hid. subst k.
    unfold amount in *. split; [split; simpl; lia|]. exists (rd_debts (the_db w)).
    split; [by destruct (the_db w)|by left].
Qed.

Lemma settleInvocation_move f actual state proof payload reserve op now u d w w1 w2 :
  0 ≤ actual ≤ maximum_points f → state = ReservationCommitted ∨ state = ReservationReleased →
  (op_OrganizationID op, op_OperationID op) = (ir_TenantID f, finalize_key f) →
  op_OperationType op = "model_point_finalize"%string → op_State op = "processing"%string →
  opens d (the_db w) op → is_Some (rd_operations d !! (ir_TenantID f, reserve_key f)) → Sound d → Traced d →
  settleInvocation f actual state proof payload reserve op now w = (Ok tt, w1) →
  completeImageOperation op payload now w1 = (Ok u, w2) →
  ∃ e, move e d (the_db w2) ∧ points_event (ir_TenantID f) (maximum_points f) actual e.
Proof.
  intros Hac Hstate Hop Hkind Hst [Hn Hw] Hres Hs Ht Hr Hc. rewrite Hop in Hn, Hw. injection Hop as Ho1 Ho2.
  assert (Sound (the_db w)) as Hsw. { rewrite Hw. by destruct Hs. }
  unfold settleInvocation, invocationReservationOf, updateConsumerBucket, writeModelPointEvent in Hr.
  unfold completeImageOperation in Hc. cbv zeta in Hr. apply bind_Ok in Hr as ([row x] & wm & Hrow & Hr).
  inv_owners; inv_receipt.
  match goal with Hl : lockMemberMonth _ _ _ w = _ |- _ =>
    apply (lockMonth_Ok _ _ _ _ _ _ d) in Hl as (ms & Hms & Hml); [|done|by rewrite Hw] end.
  match goal with Hl : Some ?r = rows resource_reservations _ !! _ |- _ => rename Hl into Hrow; rename r into row end.
  reflect_bools. destruct_and!. rename select (open_reservation row = true) into Hopen.
  rename select (matchesModelPointReceipt _ _ _ = true) into Hmatch.
  destruct (matches_invocation _ _ _ Hmatch) as (Hpt & Hty & Hmo & Hq).
  symmetry in Hrow. cbn in Hrow. rewrite Hw in Hrow. cbn in Hrow.
  pose proof (snd_reservations _ Hs _ _ Hrow) as Hg. pose proof (gr_quantity _ _ Hg) as Hq'.
  pose proof (gr_key _ _ Hg) as Hk. injection Hk as Hk1 Hk2. rewrite Hk1 in *. rewrite Hk2 in Hrow.
  assert (reservation_account row = (rr_OrganizationID row, ResourceAIPoint)) as Hacc
    by (unfold reservation_account; congruence).
  match goal with Hc : unused_credit _ _ _ _ ?w3 = _, Hb : Some ?b = rows buckets (the_db ?w3) !! _ |- _ =>
    rename Hb into Hbk, Hc into Hcr; symmetry in Hbk; rename b into bucket end.
  assert (rd_buckets d !! (rr_OrganizationID row, ResourceAIPoint) = Some bucket) as Hb
    by (rewrite Hms, Hw in Hbk; exact Hbk).
  pose proof (snd_buckets _ Hs _ _ Hb) as Hgb.
  apply unused_credit_Ok in Hcr as [Hup (md & Hmd & Hdebt)];
    [|rewrite Hms; exact (month_locked_sound _ _ _ _ _ Hs Hml Hsw)
     |rewrite Hms, Hw; symmetry; exact (cell_at b_Available _ _ _ Hb)|apply Hgb|done|lia].
  rewrite Hms, Hw in Hmd, Hup, Hdebt. cbn in Hmd.
  eexists. rows_of w. rewrite Ho1, Ho2, lookup_insert_eq, insert_insert_eq, (alter_insert_row _ _ _ _ Hrow).
  intros _ F1 F2 F3. the_event. clear_run. simplify_eq. rewrite <- (gb_key _ _ Hgb) in *.
  destruct Hml as [M1 M2 [M3 M4] [M5 M6] _]. rewrite <- M2, M1.
  assert (x1 = bucket) as -> by congruence. destruct Hup as [[U1 U2] [U3 U4] U5]. unfold amount in *.
  pose proof (gb_reserved _ _ Hgb). pose proof (gb_consumed _ _ Hgb). unfold amount in *.
  rewrite U3 in U4 |- *. rewrite <- Hq in *.
  replace (b_Reserved bucket -! rr_Quantity row) with (b_Reserved bucket - rr_Quantity row) by i64.
  replace (b_Consumed bucket +! actual) with (b_Consumed bucket + actual) by i64.
  replace (mo_Reserved x24 -! rr_Quantity row) with (mo_Reserved x24 - rr_Quantity row) by i64.
  replace (mo_Consumed x24 +! actual) with (mo_Consumed x24 + actual) by i64.
  replace (-! rr_Quantity row) with (- rr_Quantity row) by i64. rewrite <- Hacc.
  split; [|split; [exact Hacc|]; split; [simpl; lia|]; by destruct Hstate as [-> | ->]].
  apply (close_points_move row _ bucket _ _ x24); try done.
  - split; try done; [unfold month_of; by rewrite Hmo|by apply (gr_pointed _ _ Hg)].
  - by rewrite Hacc.
  - i64.
  - rewrite Hacc. exact U5.
  - by rewrite Hacc.
  - i64.
  - simpl. congruence.
  - intros key. rewrite (invocation_reserve_key _ f) by done. intros [= <-]. simpl. by rewrite Ho1.
Qed.

(** ** Requests *)

Lemma reserveInvocation_evolves f w u w' : 0 < maximum_points f ≤ max_int64 →
  reserveInvocationTransaction f w = (Ok u, w') → evolves (the_db w) (the_db w').
Proof.
  unfold reserveInvocationTransaction. cbv zeta. intros Hq Hr. fold (reserve_key f) in Hr.
  inv_run; reflect_bools; destruct_and?; match goal with Hl : lockFixedResourceOperation _ _ _ _ _ = _ |- _ =>
    apply (fixed_evolves _ _ _ _ _ _ _ _ Hl) end; try congruence; try (intros [|[? _]]; congruence).
  - intros _. inv_receipt. done.
  - intros Hk Hkind Hst Ho Hs Ht. by eapply reserveNewInvocation_move.
Qed.

Lemma closeInvocation_evolves f payload now op1 op2 d w v w1 u w2 :
  (op_OrganizationID op1, op_OperationID op1) = (ir_TenantID f, reserve_key f) →
  op_OperationType op1 = "model_point_reserve"%string → op_State op1 = "processing"%string →
  (op_OrganizationID op2, op_OperationID op2) = (ir_TenantID f, finalize_key f) →
  op_OperationType op2 = "model_point_finalize"%string →
  rd_operations d !! (ir_TenantID f, reserve_key f) = None →
  rd_operations d !! (ir_TenantID f, finalize_key f) = None →
  the_db w = put_rows operations (<[(ir_TenantID f, finalize_key f) := op2]>
    (<[(ir_TenantID f, reserve_key f) := op1]> (rd_operations d))) d →
  UpdateWhere operations (ir_TenantID f, op_OperationID op1) (λ o, op_State o =s "processing")%string
    (failed_operation "model_not_dispatched" now) w = (Ok v, w1) →
  completeImageOperation op2 payload now w1 = (Ok u, w2) → evolves d (the_db w2) ∧ same_balances d (the_db w2).
Proof.
  intros K1 T1 S1 K2 T2 N1 N2 Hw Hr Hc. unfold completeImageOperation in Hc.
  injection K1 as O1 I1. injection K2 as O2 I2.
  pose proof (invocation_keys_differ f) as Hne. unfold UpdateWhere, table in Hr. cbn in Hr. rewrite Hw, I1 in Hr. cbn in Hr.
  rewrite lookup_insert_ne, lookup_insert_eq, S1 in Hr by congruence.
  simpl in Hr. injection Hr as _ <-. inv_owners. rows_of w.
  rewrite O2, I2, alter_pair, lookup_insert_eq, insert_insert_eq by congruence.
  intros [= <-]. split; [|done]. apply evolves_closed_pair; try done; simpl; try congruence.
  - split; [done|]. cbn [failed_operation op_OperationType]. by rewrite T1.
  - apply no_reserve_key; cbn; by rewrite T1.
  - by apply invocation_reserve_key.
Qed.

(** Finalizing leaves the balances as they are, or posts the invocation's event. *)
Lemma finalizeInvocation_cases f actual noDispatch w u w' : 0 ≤ actual ≤ maximum_points f →
  finalizeInvocationTransaction f actual noDispatch w = (Ok u, w') → Sound (the_db w) → Traced (the_db w) →
  let due := finalization_due (the_db w) (ir_TenantID f) (reserve_key f) (finalize_key f) in
  (¬ due ∧ evolves (the_db w) (the_db w') ∧ same_balances (the_db w) (the_db w')) ∨
  (due ∧ ∃ e, move e (the_db w) (the_db w') ∧ points_event (ir_TenantID f) (maximum_points f) actual e).
Proof.
  unfold finalizeInvocationTransaction. cbv zeta. fold (reserve_key f) (finalize_key f). intros Hac Hr Hs Ht.
  apply bind_Ok in Hr as (op1 & w1 & L1 & Hr). apply bind_Ok in Hr as (op2 & w2 & L2 & Hr).
  destruct (finalize_locks _ _ _ _ _ _ _ _ _ _ _ _ (invocation_keys_differ f)
    (eq_refl : closable "model_point_finalize" = false) (λ o, invocation_reserve_key o f) L1 L2 Ht)
    as (K1 & T1 & K2 & T2 & Hc).
  inv_run; reflect_bools; destruct Hc as [(S2 & D2 & Hold)|[(S2 & S1 & O2 & Hex)|(S2 & S1 & N1 & N2 & D2)]];
    try congruence.
  - left. split; [intros [_ Hd]; rewrite Hd in Hold; by destruct Hold|].
    rewrite D2. split; [by apply evolves_preorder|done].
  - left. split; [intros [[? Hd] _]; congruence|].
    match goal with Hc : UpdateWhere _ _ _ _ _ = _, Hf : completeImageOperation _ _ _ _ = _,
      Hn : the_db _ = the_db w2 |- _ => rewrite D2 in Hn;
      exact (closeInvocation_evolves _ _ _ _ _ _ _ _ _ _ _ K1 T1 S1 K2 T2 N1 N2 Hn Hc Hf) end.
  - right. split; [split; [done|]; rewrite <- K2; apply O2|].
    match goal with Hc : settleInvocation _ _ _ _ _ _ _ _ _ = (Ok ?u, _), Hf : completeImageOperation _ _ _ _ = _,
      Hn : the_db _ = the_db w2 |- _ => rewrite <- Hn in O2; destruct u;
      eapply (settleInvocation_move _ _ _ _ _ _ _ _ _ _ _ _ _ Hac) in Hc as (e & He & Hi);
      [exact (ex_intro _ e (conj He Hi))|by destruct noDispatch; auto|done..] end.
Qed.

Lemma finalizeInvocation_run f actual noDispatch w u w' : 0 ≤ actual ≤ maximum_points f →
  finalizeInvocationTransaction f actual noDispatch w = (Ok u, w') → evolves (the_db w) (the_db w').
Proof.
  intros Hac Hr Hs Ht. destruct (finalizeInvocation_cases _ _ _ _ _ _ Hac Hr Hs Ht) as [(_ & He & _)|(_ & e & He & _)].
  - by apply He.
  - exact (move_evolves e _ _ (λ _ _, He) Hs Ht).
Qed.

Lemma keeps_readInvocation_bind {A} org id (k : InvocationRecord → ST W A) :
  (∀ f, valid_invocation org id f = true → keeps (on_db evolves) (k f)) →
  keeps (on_db evolves) (mbind k (readInvocation org id)).
Proof.
  intros Hk w. destruct (mbind k (readInvocation org id) w) as [r w'] eqn:E. unfold readInvocation in E.
  unfold mbind, ST_bind, ask_owners, guard_not in E.
  destruct (ReadModelInvocation org id (rd_owners (the_db w))) as [f|e]; [|by simplify_eq].
  destruct (negb (valid_invocation org id f)) eqn:Hv; simpl in E; [by simplify_eq|].
  apply negb_false_iff in Hv. specialize (Hk f Hv w). rewrite E in Hk. exact Hk.
Qed.

Lemma finalizeInvocation_evolves org id f : valid_invocation org id f = true →
  keeps (on_db evolves) (finalizeInvocation (O:=O) f).
Proof.
  intros Hv w. unfold finalizeInvocation.
  destruct (modelPointTerminal f) as [[actual nd]|e] eqn:Ht; [|cbn; reflexivity].
  apply (keeps_Transaction_Ok evolves). intros w1 u w1'. apply finalizeInvocation_run.
  by apply (modelPointTerminal_within org id f _ nd).
Qed.

Lemma ReserveAIInvocationUsage_evolves org member id tokens at_ :
  keeps (on_db evolves) (ReserveAIInvocationUsage org member id tokens at_).
Proof.
  unfold ReserveAIInvocationUsage. apply keeps_readInvocation_bind. intros f Hv. solve_requests.
  apply keeps_Transaction_Ok; [apply _|]. intros w u w'. apply reserveInvocation_evolves.
  by eapply maximum_points_Ok.
Qed.
Lemma SettleAIInvocationUsage_evolves org member id total at_ :
  keeps (on_db evolves) (SettleAIInvocationUsage org member id total at_).
Proof.
  unfold SettleAIInvocationUsage. apply keeps_readInvocation_bind. intros f Hv. solve_requests.
  by eapply finalizeInvocation_evolves.
Qed.
Lemma ReleaseAIInvocationUsage_evolves org id : keeps (on_db evolves) (ReleaseAIInvocationUsage org id).
Proof.
  unfold ReleaseAIInvocationUsage. apply keeps_readInvocation_bind. intros f Hv. solve_requests.
  by eapply finalizeInvocation_evolves.
Qed.

(** ** Recovery *)

Definition open_in d (r : organizationResourceReservationRow) : Prop :=
  ∃ r0, rd_reservations d !! (rr_OrganizationID r, rr_ReservationID r) = Some r0 ∧ open_reservation r0 = true.

Lemma postpone_Ok next r w u w' : postpone next r w = (Ok u, w') → open_in (the_db w) r →
  evolves (the_db w) (the_db w') ∧ ∀ r', open_in (the_db w) r' → open_in (the_db w') r'.
Proof.
  unfold postpone. intros Hr (r0 & Hr0 & Ho). inv_run. split.
  - eapply (evolves_open_reservation _ _ _ r0 (with_next_check next r0)); [exact Hr0|done|done|done|done| |done..].
    cbn. by rewrite (alter_insert_row _ _ _ _ Hr0).
  - intros r' (r1 & Hr1 & Ho1). unfold open_in. cbn. rewrite (alter_insert_row _ _ _ _ Hr0).
    destruct (decide ((rr_OrganizationID r', rr_ReservationID r') = (rr_OrganizationID r, rr_ReservationID r)))
      as [->|Hne]; [rewrite lookup_insert_eq; by eexists|]. rewrite lookup_insert_ne by done. eauto.
Qed.

Lemma postpone_all next l : ∀ w u w', each (postpone next) l w = (Ok u, w') →
  Forall (open_in (the_db w)) l → evolves (the_db w) (the_db w').
Proof.
  induction l as [|r l IH]; intros w u w' Hr Hl; simpl in Hr; inv_run; [reflexivity|].
  inversion Hl as [|?? Hr Hl']. match goal with Hp : postpone _ _ _ = _ |- _ =>
    destruct (postpone_Ok _ _ _ _ _ Hp Hr) as [He Hk] end.
  etrans; [exact He|]. eapply IH; [eassumption|]. by eapply Forall_impl.
Qed.

Lemma claimDueInvocations_evolves : keeps (on_db evolves) (claimDueInvocations (O:=O)).
Proof.
  apply (keeps_Transaction_Ok evolves). intros w u w' Hr Hs Ht. revert Hs Ht. cbv zeta in Hr. inv_run.
  rename select (each _ _ _ = _) into Hr. rename select (the_db _ = the_db w) into Hw. rewrite <- Hw.
  intros Hs Ht. eapply postpone_all; [exact Hr| |done..]. apply Forall_forall. intros r Hr'.
  apply elem_of_take in Hr' as (i & Hi & _). apply list_elem_of_lookup_2 in Hi.
  rewrite merge_sort_Permutation in Hi. apply elem_of_rows_where in Hi as [Hd [k Hk]].
  exists r. rewrite <- (gr_key _ _ (snd_reservations _ Hs _ _ Hk)). split; [exact Hk|].
  unfold due_invocation in Hd. reflect_bools. naive_solver.
Qed.
#[local] Hint Resolve claimDueInvocations_evolves : keeps.

Lemma finalize_all_evolves l : keeps (on_db evolves) (finalize_all (O:=O) l).
Proof.
  induction l as [|row l IH]; simpl; [solve_keeps|]. apply keeps_bind; [apply _| |intros r].
  - apply keeps_attempt. apply keeps_readInvocation_bind. intros f. apply finalizeInvocation_evolves.
  - apply keeps_bind; [apply _|exact IH|intros []; solve_keeps].
Qed.

Lemma RecoverDueInvocations_evolves : keeps (on_db evolves) (RecoverDueInvocations (O:=O)).
Proof.
  unfold RecoverDueInvocations. apply keeps_bind; [apply _|apply claimDueInvocations_evolves|].
  apply finalize_all_evolves.
Qed.
End invocations.
