(* ===== verification/ResourceLedger.v ===== *)
(** * The life of the resource ledger

    Requests to the services of organization resources, in any order and
    however they end, interleaved with the owners' domains changing their own
    state: every history keeps the invariants of ResourceInv and is a sequence
    of steps of the specification of ResourceBooks. *)
From S2P Require Import Prelude GoStd Encoding GenerationFacts ResourceTypes PointTypes Store ResourceStore ResourceRepo ResourceCharges ResourcePoints ResourceBooks ResourceInv ResourceMoves ResourceSteps ResourceReserve ResourceShares ResourceChargeSteps ResourcePointMoves ResourceLimitSteps ResourceImageSteps ResourceInvocationSteps.

(** A call of a service. *)
Inductive resource_request : Type :=
  | GrantWelcomeRequest (i : GrantWelcomeStoreRenewalPeriodInput)
  | GrantPurchaseRequest (i : PurchasedResourceGrantInput)
  | GrantTrialRequest (i : TrialAIGrantInput)
  | InspectTrialRequest (i : TrialAIGrantInput)
  | ReserveRequest (i : ReserveInput)
  | SettleRequest (i : SettlementInput)
  | TransferRequest (p : Principal) (c : MemberResourceTransfer)
  | PositionRequest (org member resource : string)
  | ChargeRequest (i : ConsumerChargeIdentity)
  | LookupRequest (i : ConsumerChargeIdentity)
  | ReconcileRequest (i : ConsumerChargeIdentity)
  | RecoverRequest
  | BalancesRequest (org : string)
  | SetLimitRequest (p : Principal) (i : SetMemberLimitExecution)
  | ReadLimitRequest (p : Principal) (org member : string)
  | ReserveImageRequest (id : SlotExternalEffectIdentity)
  | FinalizeImageRequest (id : SlotExternalEffectIdentity)
  | ReserveInvocationRequest (org member id : string) (tokens : Z) (at_ : Time)
  | SettleInvocationRequest (org member id : string) (total : Z) (at_ : Time)
  | ReleaseInvocationRequest (org id : string)
  | RecoverInvocationsRequest.

(** The quantities of a request are of type int64. *)
Definition typed_request (q : resource_request) : Prop :=
  match q with
  | GrantPurchaseRequest i => pg_Quantity i ≤ max_int64
  | ReserveRequest i => ei_Quantity i ≤ max_int64
  | TransferRequest _ c => mt_Quantity c ≤ max_int64
  | SetLimitRequest _ i => sl_Target i ≤ max_int64
  | _ => True
  end.

Section life.
Context {O : Type} `{Env} `{Collation} `{ResourceOwners O} `{!SeparateOwners} `{!TypedOwners}
  `{ResourceAuthorities} `{GenerationAssets} `{PointOwners O} `{!TypedPointOwners}.
Notation W := (WorldOf (ResourceDB O)).
Implicit Types (w : W) (d : ResourceDB O).

Definition serve (q : resource_request) : ST W unit :=
  match q with
  | GrantWelcomeRequest i => GrantWelcomeStoreRenewalPeriod i;; mret tt
  | GrantPurchaseRequest i => GrantPurchasedResource i;; mret tt
  | GrantTrialRequest i => GrantTrial i;; mret tt
  | InspectTrialRequest i => InspectTrial i;; mret tt
  | ReserveRequest i => Reserve i;; mret tt
  | SettleRequest i => Settle i;; mret tt
  | TransferRequest p c => TransferResource p c;; mret tt
  | PositionRequest org member resource => ReadPosition org member resource;; mret tt
  | ChargeRequest i => ConsumerChargeService_Reserve i;; mret tt
  | LookupRequest i => ConsumerChargeService_Lookup i;; mret tt
  | ReconcileRequest i => Reconcile i;; mret tt
  | RecoverRequest => RecoverDue;; mret tt
  | BalancesRequest org => ReadBalances org;; mret tt
  | SetLimitRequest p i => SetMonthlyLimit p i;; mret tt
  | ReadLimitRequest p org member => ReadMonthlyLimit p org member;; mret tt
  | ReserveImageRequest id => ReserveImageGeneration id;; mret tt
  | FinalizeImageRequest id => FinalizeImageGeneration id;; mret tt
  | ReserveInvocationRequest org member id tokens at_ =>
      ReserveAIInvocationUsage org member id tokens at_;; mret tt
  | SettleInvocationRequest org member id total at_ =>
      SettleAIInvocationUsage org member id total at_;; mret tt
  | ReleaseInvocationRequest org id => ReleaseAIInvocationUsage org id;; mret tt
  | RecoverInvocationsRequest => RecoverDueInvocations;; mret tt
  end.

(** A request is served, with a result or an error, or the domain of an owner
    moves on by itself. *)
Inductive life : W → W → Prop :=
  | life_request q w r w' : typed_request q → serve q w = (r, w') → life w w'
  | life_owners o w : life w (set_db (put_owners o) w).

(** A ledger without history: no balance, and debts that were taken over. *)
Record opening d : Prop := {
  opn_buckets : map_Forall (λ k b, good_bucket k b ∧ b_Available b = 0 ∧ b_Allocated b = 0 ∧
    b_Reserved b = 0 ∧ b_Consumed b = 0) (rd_buckets d);
  opn_debts : map_Forall good_debt (rd_debts d);
  opn_debtors k : is_Some (rd_debts d !! k) → is_Some (rd_buckets d !! k);
  opn_operations : rd_operations d = ∅;
  opn_claims : rd_source_claims d = ∅;
  opn_reservations : rd_reservations d = ∅;
  opn_events : rd_events d = ∅;
  opn_positions : rd_positions d = ∅;
  opn_limits : rd_limits d = ∅;
  opn_months : rd_months d = ∅ }.

Definition reachable d0 w : Prop :=
  opening d0 ∧ ∃ w0, the_db w0 = d0 ∧ rtc life w0 w.

(** * Lemmas *)

Lemma serve_evolves q : typed_request q → keeps (on_db evolves) (serve q).
Proof.
  intros Hq. destruct q; cbn [serve]; (apply keeps_bind; [apply _| |intros; apply keeps_ret, _]).
  - apply GrantWelcome_evolves.
  - by apply GrantPurchasedResource_evolves.
  - apply GrantTrial_evolves.
  - apply InspectTrial_evolves.
  - by apply Reserve_evolves.
  - by apply Settle_evolves.
  - by apply TransferResource_evolves.
  - auto with keeps typeclass_instances.
  - by apply ChargeReserve_evolves.
  - auto with keeps typeclass_instances.
  - by apply Reconcile_evolves.
  - by apply RecoverDue_evolves.
  - auto with keeps typeclass_instances.
  - by apply SetMonthlyLimit_evolves.
  - apply keeps_ReadMonthlyLimit, _.
  - by apply ReserveImageGeneration_evolves.
  - by apply FinalizeImageGeneration_evolves.
  - apply ReserveAIInvocationUsage_evolves.
  - apply SettleAIInvocationUsage_evolves.
  - apply ReleaseAIInvocationUsage_evolves.
  - apply RecoverDueInvocations_evolves.
Qed.

Lemma life_evolves w w' : rtc life w w' → evolves (the_db w) (the_db w').
Proof.
  induction 1 as [w|w1 w2 w3 Hl _ IH]; [reflexivity|]. etrans; [|exact IH]. destruct Hl as [q w1 r w2 Hq Hr|o w].
  - pose proof (serve_evolves q Hq w1) as Hk. by rewrite Hr in Hk.
  - by apply evolves_unchanged.
Qed.

Lemma opening_empty d k b f : opening d → rd_buckets d !! k = Some b →
  f = b_Available ∨ f = b_Allocated ∨ f = b_Reserved ∨ f = b_Consumed → f b = 0.
Proof. intros Ho Hb Hf. destruct (opn_buckets _ Ho _ _ Hb) as (_ & ? & ? & ? & ?). naive_solver. Qed.

Lemma opening_balance d k f : opening d →
  f = b_Available ∨ f = b_Allocated ∨ f = b_Reserved ∨ f = b_Consumed → balance f d k = 0.
Proof.
  intros Ho Hf. unfold balance, cell. destruct (_ !! k) as [b|] eqn:Hb; [|done]. by eapply opening_empty.
Qed.

Lemma opening_sound d : opening d → Sound d ∧ Traced d.
Proof.
  intros Ho. assert (∀ k, balance b_Available d k = 0) as Hav by (intros; by apply opening_balance; auto).
  destruct Ho as [Hb Hd Hdb E1 E2 E3 E4 E5 E6 E7]. split.
  - split; rewrite ?E3, ?E5, ?E7; try apply map_Forall_empty; try done. intros k b Hk. by apply (Hb k).
  - split; rewrite ?E1, ?E2, ?E3, ?E4, ?E6, ?E7; try apply map_Forall_empty; intros *; rewrite lookup_empty; done.
Qed.

Lemma opening_balanced d : opening d → Balanced (owed d) d.
Proof.
  intros Ho. pose proof (λ k f, opening_balance d k f Ho) as Hz.
  destruct Ho as [_ _ _ E1 E2 E3 E4 E5 E6 E7].
  assert (∀ {K V} `{Countable K} P (f : V → Z), tally P f (∅ : gmap K V) = 0) as Ht by done.
  split; intros k; unfold spent, of_events, held, of_shares, of_months, charged, share, month, pledged;
    rewrite ?E3, ?E4, ?E5, ?E7, ?Ht;
    rewrite ?Hz by auto; try lia; done.
Qed.

Lemma reachable_evolved d0 w : reachable d0 w → evolved d0 (the_db w).
Proof.
  intros [Ho (w0 & <- & Hl)]. destruct (opening_sound _ Ho). by apply life_evolves.
Qed.
End life.
