(* ===== verification/ResourceTheorems.v ===== *)
(** * What holds of the resource ledger

    The properties of organization resources: in every history the books
    balance and the ledger implements its specification, what happens once
    happens once, a recorded answer is given again, and balances can be read.
    Worked examples run the services on a small ledger. *)
From S2P Require Import Prelude GoStd Encoding GenerationFacts ResourceTypes PointTypes Store ResourceStore ResourceRepo ResourceCharges ResourcePoints ResourceBooks ResourceInv ResourceMoves ResourceSteps ResourceReserve ResourceShares ResourceChargeSteps ResourcePointMoves ResourceLimitSteps ResourceImageSteps ResourceInvocationSteps ResourceLedger.

(** ** Specifications *)

Section specifications.
Context {O : Type}.
Notation DB := (ResourceDB O).
Implicit Types (d : DB).

(** The table of events a journal makes. *)
Definition journal (l : list organizationResourceEventRow)
    (m : gmap (string * string) organizationResourceEventRow) :=
  foldl (λ m e, <[(ev_EventID e, ev_OrganizationID e) := e]> m) m l.

(** The balance that is shown of an account. *)
Definition shown_balance d (org resource unit_ : string) : Balance :=
  {| bl_ResourceType := resource; bl_Unit := unit_;
     bl_Recorded := (λ b, (FormatInt (b_Available b), FormatInt (b_Allocated b),
       FormatInt (b_Reserved b), FormatInt (b_Consumed b), FormatInt (owed d (org, resource)),
       b_UpdatedAt b)) <$> rd_buckets d !! (org, resource) |}.

(** The time of a bucket was set, in a year of four digits. *)
Definition stamped (b : organizationResourceBucketRow) : Prop :=
  IsZero (b_UpdatedAt b) = false ∧ 1 ≤ year_of (b_UpdatedAt b) ≤ 9999.

(** Only members' positions and owners may differ. *)
Definition same_ledger d d' : Prop :=
  rd_buckets d' = rd_buckets d ∧ rd_debts d' = rd_debts d ∧ rd_operations d' = rd_operations d ∧
  rd_source_claims d' = rd_source_claims d ∧ rd_reservations d' = rd_reservations d ∧
  rd_events d' = rd_events d.
End specifications.

(** * Lemmas *)

(** ** Statements, run forward *)

Section forward.
Context {O : Type}.
Notation W := (WorldOf (ResourceDB O)).
Implicit Types (w : W).

Lemma run_bind {A B} (m : ST W A) (k : A → ST W B) w a w1 : m w = (Ok a, w1) → mbind k m w = k a w1.
Proof. unfold mbind, ST_bind. by intros ->. Qed.
Lemma run_guard b e w : b = false → guard_not b e w = (Ok tt, w).
Proof. by intros ->. Qed.
Lemma run_take_pk {K V} `{Countable K} (t : TableOf (ResourceDB O) K V) k w o :
  rows t (the_db w) !! k = o → take_pk t k w = (Ok o, w).
Proof. by intros <-. Qed.
Lemma run_check e w : e = None → check e w = (Ok tt, w).
Proof. by intros ->. Qed.
Lemma run_lift {A} (r : result A) w a : r = Ok a → lift r w = (Ok a, w).
Proof. by intros ->. Qed.
Lemma run_or_error {A} e (m : ST W A) w a w1 : m w = (Ok a, w1) → or_error e m w = (Ok a, w1).
Proof. unfold or_error. by intros ->. Qed.
Lemma run_each {A B} (f : A → ST W B) (g : A → B) l w : (∀ x, x ∈ l → f x w = (Ok (g x), w)) →
  each f l w = (Ok (map g l), w).
Proof.
  induction l as [|x l IH]; intros Hf; [done|]. cbn [each]. rewrite (run_bind _ _ _ (g x) w) by (apply Hf; left).
  rewrite (run_bind _ _ _ (map g l) w); [done|]. apply IH. intros y Hy. apply Hf. by right.
Qed.
Lemma differs_same (a b : string) : a = b → (a ≠s b) = false.
Proof. intros ->. by rewrite String.eqb_refl. Qed.
End forward.

(** Runs the first statement, by the lemma that fits. *)
Ltac run_step :=
  first [ erewrite run_bind by (apply run_guard; rewrite ?differs_same by done; done)
        | erewrite run_bind by (apply run_take_pk; eassumption)
        | erewrite run_bind by (apply run_check; eassumption)
        | erewrite run_bind by (apply run_lift; eassumption)
        | erewrite run_bind by eassumption
        | erewrite run_bind by (apply run_take_pk; reflexivity) ]; cbv beta iota.

Section histories.
Context {O : Type}.
Implicit Types (d : ResourceDB O).

Lemma journal_app (l l' : list organizationResourceEventRow) (m : gmap (string * string) organizationResourceEventRow) :
  journal (l ++ l') m = journal l' (journal l m).
Proof. apply foldl_app. Qed.

(** The events of the steps are recorded, each of them a new one. *)
Lemma steps_recorded l d d' : ledger_step l d d' →
  rd_events d' = journal l (rd_events d) ∧
  size (rd_events d') = (size (rd_events d) + length l)%nat.
Proof.
  induction 1 as [d d' [He]|e d d' [He Hf]|l l' d1 d2 d3 _ [E1 S1] _ [E2 S2]].
  - rewrite He. split; [done|simpl; lia].
  - rewrite He. split; [done|]. rewrite map_size_insert_None by done. simpl. lia.
  - rewrite journal_app, <- E1. split; [done|]. rewrite S2, S1, length_app. lia.
Qed.

Lemma grants_claim d k1 e1 k2 e2 : Traced d → rd_events d !! k1 = Some e1 → rd_events d !! k2 = Some e2 →
  is_grant e1 = true → is_grant e2 = true → ev_SourceType e1 = ev_SourceType e2 →
  ev_SourceIdentity e1 = ev_SourceIdentity e2 → k1 = k2.
Proof.
  intros Ht H1 H2 G1 G2 Es Ei. destruct (trc_grants _ Ht _ _ H1 G1) as (c1 & C1 & O1 & P1).
  destruct (trc_grants _ Ht _ _ H2 G2) as (c2 & C2 & O2 & P2). rewrite Es, Ei in C1.
  assert (c1 = c2) as -> by congruence. apply (trc_once _ Ht _ e1 _ e2); congruence.
Qed.

Lemma settlements_close d k1 e1 k2 e2 id : Traced d → rd_events d !! k1 = Some e1 →
  rd_events d !! k2 = Some e2 → settles e1 → settles e2 →
  ev_OrganizationID e1 = ev_OrganizationID e2 → ev_ReservationID e1 = Some id →
  ev_ReservationID e2 = Some id → k1 = k2.
Proof.
  intros Ht H1 H2 G1 G2 Eo I1 I2. destruct (trc_settlements _ Ht _ _ H1 G1) as (i1 & r1 & J1 & R1 & S1).
  destruct (trc_settlements _ Ht _ _ H2 G2) as (i2 & r2 & J2 & R2 & S2).
  apply (trc_once _ Ht _ e1 _ e2); congruence.
Qed.
End histories.

(** ** Charges *)

Section charge_lookup.
Context {O : Type} `{Env}.
Notation W := (WorldOf (ResourceDB O)).
Implicit Types (w : W) (d : ResourceDB O) (i : ConsumerChargeIntent).

Definition charge_of d i r : Prop := rd_reservations d !! reservation_key r = Some r ∧
  rr_ChargeProtocol r = consumerChargeProtocol ∧ cr_Intent (consumerChargeReceipt r) = i.

(** The charge of an identity is one. *)
Lemma charge_unique d i k r r' : Sound d → Traced d → charge_of d i r → rd_reservations d !! k = Some r' →
  rr_ChargeProtocol r' = consumerChargeProtocol →
  ct_Identity (cr_Intent (consumerChargeReceipt r')) = ct_Identity i → r' = r.
Proof.
  intros Hs Ht (Hr & Hp & Hi) Hk Hp' Hi'.
  pose proof (trc_charges _ Ht _ _ Hr Hp) as O1. pose proof (trc_charges _ Ht _ _ Hk Hp') as O2.
  rewrite Hi', <- Hi in O2.
  assert (k = reservation_key r) as ->; [|congruence].
  apply (trc_placed _ Ht _ r' _ r); [done..| |congruence].
  rewrite <- Hi in Hi'. apply (f_equal ci_OrganizationID) in Hi'. exact Hi'.
Qed.

Lemma readConsumer_finds d i r w : the_db w = d → Sound d → Traced d → charge_of d i r →
  readConsumerReservation (ct_Identity i) w = (Ok (Some r), w).
Proof.
  intros Hw Hs Ht Hc. unfold readConsumerReservation, take, gets, table. cbn. rewrite Hw. do 2 f_equal.
  pose proof Hc as (Hr & Hp & Hi). apply (map_find_unique _ _ (reservation_key r)); [done|..].
  - rewrite <- Hi, Hp. simpl. by rewrite !String.eqb_refl.
  - intros k r' Hk HP. reflect_bools. destruct HP as [[[P1 P2] P3] P4].
    assert (r' = r) as ->; [|by rewrite (gr_key _ _ (snd_reservations _ Hs _ _ Hk))].
    eapply charge_unique; [done|done|done|exact Hk|done|].
    unfold consumerChargeReceipt. simpl. destruct (ct_Identity i); simpl in *. congruence.
Qed.

Lemma or_replay_Ok {A} (replay : ST W (option A)) (m : ST W A) w a w' : or_replay replay m w = (Ok a, w') →
  m w = (Ok a, w') ∨ ∃ e w1, m w = (Err e, w1) ∧ replay w1 = (Ok (Some a), w').
Proof.
  unfold or_replay. destruct (m w) as [[x|e] w1]; [by left|]. intros Hr. right. exists e, w1.
  split; [done|]. by destruct (replay w1) as [[[y|]|] ?]; simplify_eq.
Qed.

Lemma reserveNew_recorded i b o op w receipt w' : reserveNewCharge i b o op w = (Ok receipt, w') →
  ∃ r, charge_of (the_db w') i r ∧ receipt = consumerChargeReceipt r.
Proof.
  unfold reserveNewCharge, createConsumerEvent, updateConsumerBucket, completeChargeOperation. cbv zeta.
  intros Hr. inv_owners. eexists. split; [|reflexivity]. unfold charge_of. db_eqs.
  split; [apply lookup_insert_eq|]. split; [done|]. by destruct i as [[] ].
Qed.

Lemma found_charge i w r w' : readConsumerReservation (ct_Identity i) w = (Ok (Some r), w') →
  Sound (the_db w') → cr_Intent (consumerChargeReceipt r) = i → w' = w ∧ charge_of (the_db w) i r.
Proof.
  intros [-> Hk]%readConsumer_Ok Hs Hi. destruct (Hk _ eq_refl) as [Hp [k Hr]]. split; [done|].
  split; [|by split]. by rewrite (gr_key _ _ (snd_reservations _ Hs _ _ Hr)) in Hr.
Qed.

Lemma reserved_on_record i w receipt w' : Sound (the_db w') → ReserveCharge i w = (Ok receipt, w') →
  ∃ r, charge_of (the_db w') i r ∧ receipt = consumerChargeReceipt r.
Proof.
  unfold ReserveCharge, or_charge. intros Hs Hr. inv_step Hr.
  rename select (or_replay _ _ _ = _) into Hr. apply or_replay_Ok in Hr as [Hr|(e & w1 & _ & Hr)].
  - unfold reserveChargeTransaction in Hr. inv_run; [|by eapply reserveNew_recorded].
    reflect_bools. match goal with Hc : readConsumerReservation _ _ = _ |- _ =>
      apply found_charge in Hc as [-> Hc]; [|done|done] end. eauto.
  - inv_run. rename select (ReadCharge _ _ = _) into Hc. unfold ReadCharge in Hc. inv_run.
    case_bool_decide; [|done]. simplify_eq.
    match goal with Hc : readConsumerReservation _ _ = _ |- _ =>
      apply found_charge in Hc as [-> Hc]; [|done|done] end. eauto.
Qed.

#[local] Instance same_ledger_preorder : PreOrder (@same_ledger O).
Proof. unfold same_ledger. split; [by intros d|]. intros d1 d2 d3 ??. destruct_and!. split_and!; congruence. Qed.
#[local] Instance same_ledger_positions : Writes (on_db same_ledger) (@positions O).
Proof. intros m w. by split_and!. Qed.
Lemma keeps_lock_funding i : keeps (on_db same_ledger) (lock_funding (O:=O) i).
Proof. unfold lock_funding, lockMemberResourcePosition. solve_keeps. Qed.

(** Its operation is the recorded one. *)
Lemma charge_locked d d' i r op (P : Prop) : Traced d → charge_of d i r →
  op_OperationType op = "reserve_consumer_resource"%string →
  (d' = d ∧ (op_State op = "succeeded"%string ∨ closed_reserve op) ∧ P) ∨
    (op_State op = "processing"%string ∧ opens d d' op) →
  (op_OrganizationID op, op_OperationID op) = (ci_OrganizationID (ct_Identity i),
    chargeOperationKey "consumer-reserve:" (ct_Identity i)) →
  d' = d ∧ op_State op = "succeeded"%string.
Proof.
  intros Ht (Hr & Hp & Hi) Hkind [(Hd & [Hst|[_ Hc]] & _)|[_ [Hn _]]] Hk; [done|by rewrite Hkind in Hc|].
  exfalso. rewrite Hk in Hn. destruct (trc_reservations _ Ht _ _ Hr) as [o Ho].
  rewrite (trc_charges _ Ht _ _ Hr Hp), Hi in Ho. apply (f_equal (λ i, ci_OrganizationID (ct_Identity i))) in Hi.
  simpl in Hi. congruence.
Qed.

Lemma ReadCharge_finds i r w : Sound (the_db w) → Traced (the_db w) → ValidConsumerChargeIntent i = true →
  charge_of (the_db w) i r → ReadCharge (ct_Identity i) w = (Ok (consumerChargeReceipt r), w).
Proof.
  intros Hs Ht Hv Hc. unfold ReadCharge. replace (ValidConsumerChargeIdentity _) with true.
  - unfold mbind, ST_bind. cbn -[readConsumerReservation]. by rewrite (readConsumer_finds (the_db w) i r).
  - symmetry. apply not_false_iff_true. intros Hf. unfold ValidConsumerChargeIntent in Hv. by rewrite Hf in Hv.
Qed.

(** A charge on record is answered from it. *)
Lemma charge_answered i r w : Sound (the_db w) → Traced (the_db w) → ValidConsumerChargeIntent i = true →
  charge_of (the_db w) i r → ∃ w', ReserveCharge i w = (Ok (consumerChargeReceipt r), w') ∧
  same_ledger (the_db w) (the_db w').
Proof.
  intros Hs Ht Hv Hc. destruct (valid_intent _ Hv) as [_ Hty].
  unfold ReserveCharge, or_charge, or_replay. rewrite Hv. unfold mbind at 1, ST_bind at 1. simpl.
  destruct (Transaction _ w) as [[a|e] w1] eqn:E.
  - exists w1. apply Transaction_Ok in E. unfold reserveChargeTransaction in E. inv_run; reflect_bools.
    all: rename select (lock_funding _ _ = _) into Hf.
    all: pose proof (keeps_Ok _ _ _ _ _ (keeps_lock_funding i) Hf) as Hsame.
    all: apply lock_funding_Ok in Hf as (Hev & _ & _); [|done]; destruct (Hev Hs Ht) as [Hs4 Ht4 _ _].
    all: assert (charge_of (the_db x4) i r) as Hc4 by (unfold charge_of; destruct Hsame as (_&_&_&_& -> &_); exact Hc).
    all: rename select (lockFixedResourceOperation _ _ _ _ _ = _) into Hl; apply lockFixed_Ok in Hl as (Hk & Hkd & Hl); [|done].
    all: destruct (charge_locked _ _ _ _ _ _ Ht4 Hc4 Hkd Hl Hk) as [Hdb Hst].
    2: congruence.
    match goal with Hf : readConsumerReservation _ _ = _ |- _ =>
      rewrite (readConsumer_finds (the_db x4) i r) in Hf by done end.
    simplify_eq. split; [done|]. by rewrite Hdb.
  - apply Transaction_Err in E. exists w1. unfold mbind, ST_bind.
    rewrite (ReadCharge_finds i r) by (by rewrite ?E). destruct Hc as (_ & _ & Hi).
    rewrite bool_decide_eq_true_2 by done. simpl. by rewrite E.
Qed.
End charge_lookup.

(** ** Purchases *)

Section purchase_lookup.
Context {O : Type} `{Env} `{ResourceAuthorities}.
Notation W := (WorldOf (ResourceDB O)).
Implicit Types (w : W) (d : ResourceDB O) (x : PurchasedResourceGrantExecution).

(** The operation of a purchase that was granted. *)
Definition purchase_recorded d x (s : PurchasedResourceGrantSnapshot) : Prop :=
  ∃ row, rd_operations d !! (px_OrganizationID x, px_OperationID x) = Some row ∧
    op_RequestFingerprint row = px_RequestFingerprint x ∧
    op_OperationType row = OperationGrantCommercialPurchase ∧
    op_OrganizationID row = px_OrganizationID x ∧ op_OperationID row = px_OperationID x ∧
    op_State row = "succeeded"%string ∧ op_ImmutableResult row = PurchasedResult s.

Lemma purchase_answered x s w : purchase_recorded (the_db w) x s →
  ReplayPurchasedResourceGrant x w = (Ok (Some (json_PurchasedResourceGrantSnapshot s, true)), w).
Proof.
  intros (row & Hrow & E1 & E2 & E3 & E4 & E5 & E6).
  unfold ReplayPurchasedResourceGrant, replayPurchasedGrantOnce, purchasedGrantResultFromOperation.
  do 2 run_step. rewrite E3, E4. do 3 run_step. by rewrite E6.
Qed.

Lemma purchase_readable s : valid_utf8 (pn_CommercialOrderID s) = true →
  valid_utf8 (pn_CommercialOrderItemID s) = true → json_PurchasedResourceGrantSnapshot s = s.
Proof. intros H1 H2. unfold json_PurchasedResourceGrantSnapshot. rewrite !json_text_valid by done. by destruct s. Qed.

Lemma replay_is_replay x w s b w' : replayPurchasedGrantOnce x w = (Ok (Some (s, b)), w') → b = true.
Proof.
  unfold replayPurchasedGrantOnce, purchasedGrantResultFromOperation. intros Hr. inv_run.
  all: simplify_eq; rename select ((match op_ImmutableResult _ with _ => _ end) _ = _) into Hm;
    case_match; inv_run; by simplify_eq.
Qed.

Lemma mintPurchase_recorded x b w s f w' : px_OperationType x = OperationGrantCommercialPurchase →
  mintPurchase x b w = (Ok (s, f), w') → purchase_recorded (the_db w') x s.
Proof.
  unfold mintPurchase, persistGrant. cbv zeta. intros Hty Hr. inv_owners. simplify_eq. eexists. db_eqs.
  split; [apply lookup_insert_eq|]. by split_and!.
Qed.

Lemma purchase_granted x w s w' : px_OperationType x = OperationGrantCommercialPurchase →
  ExecutePurchasedResourceGrant x w = (Ok (s, false), w') → purchase_recorded (the_db w') x s.
Proof.
  unfold ExecutePurchasedResourceGrant, ReplayPurchasedResourceGrant. intros Hty Hr.
  apply or_else_Ok in Hr as [Hr|(w1 & _ & Hr)]; [by apply replay_is_replay in Hr|].
  apply or_replay_Ok in Hr as [Hr|(e & w2 & _ & Hr)].
  - apply Transaction_Ok in Hr. apply or_else_Ok in Hr as [Hr|(w2 & _ & Hr)]; [by apply replay_is_replay in Hr|].
    inv_step Hr. rename select (or_else _ _ _ = _) into Hr.
    apply or_else_Ok in Hr as [Hr|(w4 & _ & Hr)]; [by apply replay_is_replay in Hr|].
    by apply mintPurchase_recorded in Hr.
  - inv_run. destruct x0 as [[]|]; simplify_eq.
Qed.
End purchase_lookup.

(** ** Reservations *)

Section reservation_events.
Context {O : Type} `{Env} `{ResourceOwners O} `{ResourceAuthorities}.
Notation W := (WorldOf (ResourceDB O)).
Implicit Types (w : W) (d : ResourceDB O).

Lemma recorded_is_replay row w s b w' : reservationResultFromOperation (O:=O) row w = (Ok (s, b), w') → b = true.
Proof. unfold reservationResultFromOperation. intros Hr. inv_run. case_match; inv_run; by simplify_eq. Qed.

Lemma operation_is_replay org op fp w s b w' : lookupReserveOperation org op fp w = (Ok (Some (s, b)), w') → b = true.
Proof.
  unfold lookupReserveOperation. intros Hr. inv_run; simplify_eq.
  rename select (reservationResultFromOperation _ _ = _) into Hm. by apply recorded_is_replay in Hm.
Qed.
Lemma identity_is_replay i w s b w' : lookupReservationIdentity i w = (Ok (Some (s, b)), w') → b = true.
Proof.
  unfold lookupReservationIdentity. intros Hr. inv_run; simplify_eq.
  rename select (reservationResultFromOperation _ _ = _) into Hm. by apply recorded_is_replay in Hm.
Qed.
Lemma bound_is_replay owner i w s b w' : lookupBoundReservation owner i w = (Ok (s, b), w') → b = true.
Proof.
  unfold lookupBoundReservation. intros Hr. inv_run; simplify_eq.
  rename select (reservationResultFromOperation _ _ = _) into Hm. by apply recorded_is_replay in Hm.
Qed.

(** What a new reservation records of the balances. *)
Definition reservation_recorded d d' x (s : ReservationSnapshot) : Prop :=
  ∃ e, rd_events d' !! (en_EventID s, ex_OrganizationID x) = Some e ∧ ev_Reason e = OperationReserve ∧
    let k := (ex_OrganizationID x, ex_ResourceType x) in
    ev_AvailableAfter e = balance b_Available d' k ∧ ev_ReservedAfter e = balance b_Reserved d' k ∧
    ev_ConsumedAfter e = balance b_Consumed d' k ∧
    balance b_Allocated d' k = balance b_Allocated d k ∧ ev_AllocatedAfter e = 0.

Lemma place_recorded x b w s f w' :
  rd_buckets (the_db w) !! (ex_OrganizationID x, ex_ResourceType x) = Some b →
  placeReservation x b w = (Ok (s, f), w') → reservation_recorded (the_db w) (the_db w') x s.
Proof.
  unfold placeReservation. cbv zeta. intros Hb Hr. inv_owners. simplify_eq. eexists. db_eqs.
  split; [apply lookup_insert_eq|]. split; [done|]. unfold balance. db_eqs. rewrite !cell_put, !decide_True by done.
  rewrite (cell_at b_Allocated _ _ _ Hb). rows_of w. intros. simplify_eq. by split_and!.
Qed.

Lemma reserve_is_replay i w s b w' : ReplayReservation i w = (Ok (Some (s, b)), w') → b = true.
Proof.
  unfold ReplayReservation. intros Hr. inv_run; simplify_eq.
  - by eapply operation_is_replay.
  - by eapply identity_is_replay.
Qed.

(** A new answer comes after a read that found none. *)
Lemma fresh_after {A} (read : ST W (option (A * bool))) rest w s w' :
  keeps (on_db eq) read → (∀ w s b w', read w = (Ok (Some (s, b)), w') → b = true) →
  or_else read rest w = (Ok (s, false), w') → ∃ w1, the_db w1 = the_db w ∧ rest w1 = (Ok (s, false), w').
Proof.
  intros Hk Hb Hr. apply or_else_Ok in Hr as [Hr|(w1 & Hr & Hr')]; [by apply Hb in Hr|].
  exists w1. split; [by apply read_db in Hr|done].
Qed.

Lemma reserveTransaction_recorded x w s w' : reserveTransaction x w = (Ok (s, false), w') →
  reservation_recorded (the_db w) (the_db w') x s.
Proof.
  unfold reserveTransaction. intros Hr.
  apply fresh_after in Hr as (w1 & <- & Hr); [|solve_resource_keeps|by apply operation_is_replay].
  apply fresh_after in Hr as (w2 & <- & Hr); [|solve_resource_keeps|by apply identity_is_replay].
  inv_owners. rename select (or_else _ _ _ = _) into Hr.
  apply fresh_after in Hr as (w3 & <- & Hr); [|solve_resource_keeps|by apply identity_is_replay].
  inv_owners; [by apply bound_is_replay in Hr|]. by eapply place_recorded.
Qed.

Lemma ExecuteReservation_recorded x w s w' : ExecuteReservation x w = (Ok (s, false), w') →
  reservation_recorded (the_db w) (the_db w') x s.
Proof.
  unfold ExecuteReservation. intros Hr. inv_run. rename select (or_else _ _ _ = _) into Hr.
  apply fresh_after in Hr as (w1 & <- & Hr); [|solve_resource_keeps|by apply reserve_is_replay].
  apply or_replay_Ok in Hr as [Hr|(e & w2 & _ & Hr)].
  - apply Transaction_Ok in Hr. by apply reserveTransaction_recorded.
  - inv_run. match goal with o : option (ReservationSnapshot * bool) |- _ => destruct o as [[]|] end; simplify_eq.
Qed.
End reservation_events.

(** ** Balances *)

Section balances.
Context {O : Type} `{Env}.
Notation W := (WorldOf (ResourceDB O)).
Implicit Types (w : W) (d : ResourceDB O).

Lemma read_balance_shown d org resource unit_ : Sound d →
  (∀ b, rd_buckets d !! (org, resource) = Some b → stamped b) →
  read_balance resource unit_ (rd_buckets d !! (org, resource)) (rd_debts d !! (org, resource)) =
    Ok (shown_balance d org resource unit_).
Proof.
  intros Hs Hst. unfold read_balance, shown_balance. pose proof (owed_nonneg d (org, resource) Hs) as Ho.
  pose proof (snd_idle _ Hs (org, resource)) as Hid. pose proof (snd_debtors _ Hs (org, resource)) as Hdb.
  unfold owed, balance, cell in *. destruct (rd_buckets d !! (org, resource)) as [b|] eqn:Hb.
  - destruct (snd_buckets _ Hs _ _ Hb) as [B1 B2 B3 B4 B5 B6 B7]. destruct (Hst b eq_refl) as [T1 T2].
    unfold amount in *. simplify_eq. set (o := match rd_debts d !! _ with Some _ => _ | None => _ end) in *.
    rewrite T1. case_match eqn:E; [exfalso|done].
    rewrite !orb_true_iff, !andb_true_iff in E. reflect_bools. destruct_or! E; try lia.
    destruct E as [Hp Hz]. by specialize (B7 Hp).
  - destruct (rd_debts d !! (org, resource)) as [x|]; [|done]. by destruct (Hdb ltac:(eauto)).
Qed.

Lemma read_one_shown org resource unit_ w : Sound (the_db w) →
  (∀ k b, rd_buckets (the_db w) !! k = Some b → stamped b) →
  read_one org (resource, unit_) w = (Ok (shown_balance (the_db w) org resource unit_), w).
Proof.
  intros Hs Hst. unfold read_one. run_step. run_step. apply run_lift. apply read_balance_shown; [done|].
  intros b. apply Hst.
Qed.

Lemma ReadBalances_shown org w : Sound (the_db w) → (∀ k b, rd_buckets (the_db w) !! k = Some b → stamped b) →
  org ≠ ""%string → slen org ≤ 128 → TrimSpace org = org →
  ∃ t w', ReadBalances org w = (Ok ([shown_balance (the_db w) org ResourceStoreRenewalPeriod "period";
    shown_balance (the_db w) org ResourceAIPoint "point";
    shown_balance (the_db w) org ResourceDataRow "row"]%string, t), w') ∧ the_db w' = the_db w.
Proof.
  intros Hs Hst H1 H2 H3. unfold ReadBalances.
  erewrite run_bind by (apply run_guard; rewrite H3, String.eqb_refl; apply String.eqb_neq in H1 as ->;
    simpl; rewrite orb_false_r; lia). cbv beta.
  do 2 eexists. erewrite run_bind.
  2: { apply (run_each _ (λ r, shown_balance (the_db w) org r.1 r.2)). intros [] _. by apply read_one_shown. }
  split; [reflexivity|done].
Qed.
End balances.

(** * Properties *)

Section properties.
Context {O : Type} `{Env} `{Collation} `{ResourceOwners O} `{!SeparateOwners} `{!TypedOwners}
  `{ResourceAuthorities} `{GenerationAssets} `{PointOwners O} `{!TypedPointOwners}.
Notation W := (WorldOf (ResourceDB O)).
Implicit Types (w : W) (d : ResourceDB O).

(** C4. The books balance in every history. Whatever requests were served, with
    whatever outcome, an account's available, allocated, reserved and consumed
    units are the sums of its events' deltas; with the debt repaid they add up to
    what grants minted; what is reserved is what open reservations hold, what is
    consumed is what committed ones hold and, of AI points, what the months of
    members count; what is allocated is what members have free; a member's reserved
    and consumed units are its charges, and a member's month reserves what its open
    reservations of points hold. *)
Theorem resource_books_balance d0 w : reachable d0 w → Balanced (owed d0) (the_db w).
Proof.
  intros Hr. destruct (reachable_evolved _ _ Hr) as [_ _ _ [l Hl]].
  eapply ledger_step_balanced; [exact Hl|]. by apply opening_balanced, Hr.
Qed.

(** C3. The services implement the ledger's specification: a history is a
    sequence of steps, each quiet or posting one new event that moves balances by
    its deltas, and the table of events is the journal of these steps, each event
    in it once. *)
Theorem resource_ledger_refines d0 w : reachable d0 w →
  ∃ l, ledger_step l d0 (the_db w) ∧ rd_events (the_db w) = journal l ∅ ∧
    size (rd_events (the_db w)) = length l.
Proof.
  intros Hr. destruct (reachable_evolved _ _ Hr) as [_ _ _ [l Hl]]. exists l. split; [done|].
  destruct (steps_recorded _ _ _ Hl) as [He Hn]. rewrite (opn_events d0) in He, Hn by apply Hr.
  by rewrite map_size_empty in Hn.
Qed.

(** C7. What happens once happens once: in no history do two events mint from one
    source (an organization's welcome, an order item, a trial), and no
    reservation, charges included, is settled by two events. *)
Theorem resource_events_once d0 w k1 e1 k2 e2 : reachable d0 w →
  rd_events (the_db w) !! k1 = Some e1 → rd_events (the_db w) !! k2 = Some e2 →
  (is_grant e1 = true ∧ is_grant e2 = true ∧ ev_SourceType e1 = ev_SourceType e2 ∧
     ev_SourceIdentity e1 = ev_SourceIdentity e2) ∨
  (settles e1 ∧ settles e2 ∧ ev_OrganizationID e1 = ev_OrganizationID e2 ∧
     ev_ReservationID e1 = ev_ReservationID e2) → k1 = k2.
Proof.
  intros Hr He1 He2 Hc. destruct (reachable_evolved _ _ Hr) as [_ Ht _ _].
  destruct Hc as [(G1 & G2 & Es & Ei)|(G1 & G2 & Eo & Ei)]; [by eapply grants_claim|].
  destruct (trc_settlements _ Ht _ _ He1 G1) as (id & _ & J1 & _). eapply settlements_close; try done. congruence.
Qed.

(** C8. A purchased grant is answered again with its own receipt: once it was
    granted, the same request made at any later time returns the same snapshot as
    JSON keeps it (the same one, when the identities of the order are UTF-8), says
    that it is a replay, and changes nothing. *)
Theorem purchase_answered_again d0 i w1 s w2 w3 : reachable d0 w1 → pg_Quantity i ≤ max_int64 →
  GrantPurchasedResource i w1 = (Ok (s, false), w2) → rtc life w2 w3 →
  GrantPurchasedResource i w3 = (Ok (json_PurchasedResourceGrantSnapshot s, true), w3) ∧
  (valid_utf8 (pn_CommercialOrderID s) = true → valid_utf8 (pn_CommercialOrderItemID s) = true →
     json_PurchasedResourceGrantSnapshot s = s).
Proof.
  intros Hr Hq Hg Hl. pose proof (keeps_Ok _ _ _ _ _ (GrantPurchasedResource_evolves i Hq) Hg) as Hev.
  destruct (reachable_evolved _ _ Hr) as [Hs1 Ht1 _ _]. destruct (Hev Hs1 Ht1) as [Hs2 Ht2 _ _].
  destruct (life_evolves _ _ Hl Hs2 Ht2) as [_ _ [Hops _ _ _] _].
  split; [|by apply purchase_readable].
  unfold GrantPurchasedResource in Hg |- *. cbv zeta in Hg |- *. inv_run; [by simplify_eq|].
  rename select (ExecutePurchasedResourceGrant _ _ = _) into Hx. apply purchase_granted in Hx; [|done].
  destruct Hx as (row & Hrow & Hx).
  assert (purchase_recorded (the_db w3) (purchase_execution (normalizePurchasedGrantInput i)) s) as Hrec.
  { exists row. split; [by eapply lookup_weaken|exact Hx]. }
  run_step. erewrite run_bind by (apply run_or_error, run_lift; eassumption). cbv beta.
  by rewrite (run_bind _ _ _ _ _ (purchase_answered _ _ _ Hrec)).
Qed.

(** C9. A charge is reserved once: after a consumer's charge was reserved, making
    the same reservation at any later time answers with the receipt of that
    charge's row as it is then (its intent, state, evidence and balance), whether
    or not it was settled since: the receipt [ReadCharge] gives. The row is the
    one first reserved, and no balance, debt, operation, reservation or event
    changes. *)
Theorem charge_reserved_once d0 i w1 receipt w2 w3 : reachable d0 w1 → ct_Quantity i ≤ max_int64 →
  ReserveCharge i w1 = (Ok receipt, w2) → rtc life w2 w3 →
  ∃ row w4, charge_of (the_db w3) i row ∧
    rr_ReservationID row = cr_ReservationID receipt ∧ rr_CreatedAt row = cr_CreatedAt receipt ∧
    ReserveCharge i w3 = (Ok (consumerChargeReceipt row), w4) ∧
    ReadCharge (ct_Identity i) w3 = (Ok (consumerChargeReceipt row), w3) ∧
    same_ledger (the_db w3) (the_db w4).
Proof.
  intros Hr Hq Hg Hl. pose proof (keeps_Ok _ _ _ _ _ (ReserveCharge_evolves i Hq) Hg) as Hev.
  destruct (reachable_evolved _ _ Hr) as [Hs1 Ht1 _ _]. destruct (Hev Hs1 Ht1) as [Hs2 Ht2 _ _].
  destruct (life_evolves _ _ Hl Hs2 Ht2) as [Hs3 Ht3 Hk _].
  assert (ValidConsumerChargeIntent i = true) as Hv.
  { unfold ReserveCharge in Hg. inv_step Hg. inv_run. by apply negb_false_iff. }
  destruct (reserved_on_record _ _ _ _ Hs2 Hg) as (r & (Hrow & Hp & Hi) & ->).
  destruct (kept_reservations _ _ Hk _ _ Hrow) as (r' & Hrow' & Hterms & _).
  destruct (terms_fixed r r' Hterms) as (_ & _ & Ek & _ & _ & Ep & _ & _ & Ei & _ & _ & _ & _ & Ec).
  assert (charge_of (the_db w3) i r') as Hc by (split; [by rewrite Ek|split; congruence]).
  destruct (charge_answered i r' w3 Hs3 Ht3 Hv Hc) as (w4 & Hw4 & Hsame).
  exists r', w4. split; [done|]. split; [unfold reservation_key in Ek; simpl; congruence|].
  split; [done|]. split; [done|]. split; [by apply ReadCharge_finds|done].
Qed.

(** C38. The balances of an organization can always be read, in every history that
    stamped its buckets with years of four digits: none is negative, AI points are
    never allocated, there is no balance beside a debt; what is shown is what is
    stored, with the debt that is owed. *)
Theorem balances_always_read d0 org w : reachable d0 w →
  (∀ k b, rd_buckets (the_db w) !! k = Some b → stamped b) →
  org ≠ ""%string → slen org ≤ 128 → TrimSpace org = org →
  ∃ t w', ReadBalances org w = (Ok ([shown_balance (the_db w) org ResourceStoreRenewalPeriod "period";
    shown_balance (the_db w) org ResourceAIPoint "point";
    shown_balance (the_db w) org ResourceDataRow "row"]%string, t), w') ∧ the_db w' = the_db w.
Proof.
  intros Hr Hst. destruct (reachable_evolved _ _ Hr) as [Hs _ _ _]. by apply ReadBalances_shown.
Qed.

(** C39. The event of a new reservation shows the balances after it, the allocated
    balance apart: [allocated_after] is zero whatever the organization has
    allocated to its members, which the reservation does not change. *)
Theorem reservation_event_forgets_allocated i w s w' : Reserve i w = (Ok (s, false), w') →
  reservation_recorded (the_db w) (the_db w') (reservation_execution (normalizeReserveInput i)) s.
Proof.
  unfold Reserve. cbv zeta. intros Hr. inv_run; [by simplify_eq|].
  rename select (ReplayReservation _ _ = _) into Hp. apply read_db in Hp; [|solve_resource_keeps].
  rewrite <- Hp. by apply ExecuteReservation_recorded.
Qed.
End properties.
