(* ===== verification/PointTheorems.v ===== *)
(** * What holds of AI points

    The properties of points: in every history a member's use of a month is
    within a limit that was set, an image generation and a model invocation are
    charged exactly what their facts say, and a price in points is exact. *)
From S2P Require Import Prelude GoStd Encoding GenerationFacts ResourceTypes PointTypes Store ResourceStore ResourceRepo ResourceCharges ResourcePoints ResourceBooks ResourceInv ResourceMoves ResourceSteps ResourceReserve ResourceShares ResourceChargeSteps ResourcePointMoves ResourceLimitSteps ResourceImageSteps ResourceInvocationSteps ResourceLedger.

(** ** Specifications *)

Section specifications.
Context {O : Type}.
Notation DB := (ResourceDB O).
Implicit Types (d : DB).

(** What an account has beyond its debt. *)
Definition net_available d (k : account) : Z := balance b_Available d k - owed d k.

(** Of the points of an organization that are reserved, [held] are finalized and
    [used] of these consumed, the rest returned. *)
Definition points_settled (org : string) (held used : Z) d d' : Prop :=
  let k := (org, ResourceAIPoint) in
  balance b_Reserved d' k = balance b_Reserved d k - held ∧
  balance b_Consumed d' k = balance b_Consumed d k + used ∧
  net_available d' k = net_available d k + (held - used) ∧
  balance b_Allocated d' k = balance b_Allocated d k.

(** The tokens' price in millionths of a point. *)
Definition token_cost (p : ModelPointTariff) (prompt completion : Z) : Z :=
  prompt * mp_InputPointsPerMillionTokens p + completion * mp_OutputPointsPerMillionTokens p.
End specifications.

(** * Lemmas *)

Section lemmas.
Context {O : Type}.
Implicit Types (d : ResourceDB O).

Lemma points_event_settles org held used e d d' : Sound d → move e d d' → points_event org held used e →
  points_settled org held used d d'.
Proof.
  intros Hs Hm (Hk & Hr & Hc & Hg & Ha). pose proof (move_posts _ _ _ Hs Hm) as Hp.
  pose proof (post_balanced _ _ _ Hp) as Hb. unfold event_balanced, minted in Hb. rewrite Hg in Hb.
  unfold points_settled, net_available.
  rewrite (post_available _ _ _ Hp), (post_allocated _ _ _ Hp), (post_reserved _ _ _ Hp),
    (post_consumed _ _ _ Hp), (post_owed _ _ _ Hp), Hk. unfold at_account.
  rewrite !decide_True by done. lia.
Qed.

End lemmas.

Section runs.
Context {O : Type} `{Env} `{Collation} `{ResourceOwners O} `{!SeparateOwners} `{!TypedOwners}
  `{ResourceAuthorities} `{GenerationAssets} `{PointOwners O} `{!TypedPointOwners}.
Notation W := (WorldOf (ResourceDB O)).
Implicit Types (w : W).

Lemma readImageFact_Ok id w f w' : readImageFact id w = (Ok f, w') →
  w' = w ∧ ReadGenerationFact id (rd_owners (the_db w)) = Ok f.
Proof.
  unfold readImageFact. intros Hr. inv_owners. done.
Qed.

Lemma readInvocation_Ok org id w f w' : readInvocation org id w = (Ok f, w') →
  w' = w ∧ ReadModelInvocation org id (rd_owners (the_db w)) = Ok f ∧ valid_invocation org id f = true.
Proof.
  unfold readInvocation. intros Hr. inv_owners. by reflect_bools.
Qed.
End runs.

(** * Properties *)

Section properties.
Context {O : Type} `{Env} `{Collation} `{ResourceOwners O} `{!SeparateOwners} `{!TypedOwners}
  `{ResourceAuthorities} `{GenerationAssets} `{PointOwners O} `{!TypedPointOwners}.
Notation W := (WorldOf (ResourceDB O)).
Implicit Types (w : W) (d : ResourceDB O).

(** C10. A member never uses more points than an administrator allowed: in every
    history, what a member has reserved and consumed of a month is within a limit
    that was set for this member. *)
Theorem member_points_within_limit d0 w k m : reachable d0 w → rd_months (the_db w) !! k = Some m →
  0 < mo_Reserved m + mo_Consumed m → ∃ limit,
    limit_set (the_db w) (mo_OrganizationID m) (mo_MemberID m) limit ∧
    0 ≤ mo_Reserved m ∧ 0 ≤ mo_Consumed m ∧ mo_Reserved m + mo_Consumed m ≤ limit.
Proof.
  intros Hr Hm Hpos. destruct (reachable_evolved _ _ Hr) as [Hs Ht _ _].
  destruct (trc_months _ Ht _ _ Hm Hpos) as (z & Hz & Hle). exists z.
  destruct (snd_months _ Hs _ _ Hm) as [_ [? _] [? _]]. by repeat split.
Qed.

(** C12. An image generation is charged by its outcome: when finalizing it succeeds
    and it is due (points were reserved for it and it was not finalized before), its
    reserved points are consumed if the provider succeeded and returned otherwise,
    debt first; when it is not due, balances stay as they are. *)
Theorem image_charged_exactly d0 id w r w' : reachable d0 w → FinalizeImageGeneration id w = (Ok r, w') →
  ∃ f, ReadGenerationFact id (rd_owners (the_db w)) = Ok f ∧
    (gf_State f = GenerationSucceeded ∨ gf_State f = GenerationNoEffect) ∧
    let points := gi_Points (gf_Intent f) in
    let due := finalization_due (the_db w) (si_TenantID id) (imageReserveKey f) (imageFinalizeKey f) in
    (due → points_settled (si_TenantID id) points
       (if gf_State f =s GenerationSucceeded then points else 0) (the_db w) (the_db w')) ∧
    (¬ due → same_balances (the_db w) (the_db w')).
Proof.
  intros Hr Hf. destruct (reachable_evolved _ _ Hr) as [Hs Ht _ _]. unfold FinalizeImageGeneration in Hf.
  apply bind_Ok in Hf as (f & w1 & Hread & Hf). apply readImageFact_Ok in Hread as [-> Hread].
  exists f. split; [done|]. inv_run. reflect_bools. split; [naive_solver|]. cbv zeta.
  rename select (finalizeImageTransaction _ _ _ = _) into Hrun.
  destruct (finalizeImage_cases _ _ _ _ _ Hrun Hs Ht) as [(Hd & _ & He)|(Hd & e & He & Hp)]; [done|].
  split; [intros _|done]. by eapply points_event_settles.
Qed.

(** C11. A model invocation is charged for what it used, and never for more than it
    reserved: when settling it succeeds and it is due (points were reserved for its
    maximum usage and it was not settled before), the points of its actual usage are
    consumed and the rest of what was reserved is returned, debt first; when it is
    not due, balances stay as they are. *)
Theorem invocation_charged_exactly d0 org member id total at_ w u w' : reachable d0 w →
  SettleAIInvocationUsage org member id total at_ w = (Ok u, w') →
  ∃ f used noDispatch, ReadModelInvocation org id (rd_owners (the_db w)) = Ok f ∧ ir_MemberID f = member ∧
    modelPointTerminal f = Ok (used, noDispatch) ∧ 0 ≤ used ≤ maximum_points f ∧
    let due := finalization_due (the_db w) org (modelPointKey "reserve" id) (modelPointKey "finalize" id) in
    (due → points_settled org (maximum_points f) used (the_db w) (the_db w')) ∧
    (¬ due → same_balances (the_db w) (the_db w')).
Proof.
  intros Hr Hf. destruct (reachable_evolved _ _ Hr) as [Hs Ht _ _]. unfold SettleAIInvocationUsage in Hf.
  apply bind_Ok in Hf as (f & w1 & Hread & Hf). apply readInvocation_Ok in Hread as (-> & Hread & Hv).
  unfold finalizeInvocation in Hf. inv_run.
  rename select (finalizeInvocationTransaction _ _ _ _ = _) into Hrun.
  rename select (modelPointTerminal _ = _) into Hterm. reflect_bools.
  destruct (modelPointTerminal_within _ _ _ _ _ Hv Hterm) as [Hle _].
  do 3 eexists. split; [exact Hread|]. split; [tauto|]. split; [exact Hterm|]. split; [exact Hle|]. cbv zeta.
  assert (ir_TenantID f = org ∧ ir_InvocationID f = id) as [Ho Hi]
    by (unfold valid_invocation in Hv; reflect_bools; tauto).
  pose proof (finalizeInvocation_cases _ _ _ _ _ _ Hle Hrun Hs Ht) as Hc.
  unfold reserve_key, finalize_key in Hc. rewrite Ho, Hi in Hc.
  destruct Hc as [(Hd & _ & He)|(Hd & e & He & Hp)]; [done|]. split; [intros _|done].
  by eapply points_event_settles.
Qed.
End properties.

(** C40. A price in points is exact: for a valid tariff and token counts that are
    not negative, the answer is the cost in millionths rounded up to whole points,
    and there is an answer as soon as that fits an int64. *)
Theorem tariff_points_exact p prompt completion z : ModelPointTariff_Points p prompt completion = Ok z ↔
  ModelPointTariff_Valid p = true ∧ 0 ≤ prompt ∧ 0 ≤ completion ∧ z ≤ max_int64 ∧
  token_cost p prompt completion ≤ z * 1000000 < token_cost p prompt completion + 1000000.
Proof.
  unfold token_cost. split.
  - intros (Hv & ? & ? & ? & ->)%Points_Ok. do 3 (split; [done|]). split; [lia|].
    rewrite <- Z.add_assoc. Z.to_euclidean_division_equations. lia.
  - intros (Hv & Ha & Hb & Hz & Hc). unfold ModelPointTariff_Points. rewrite Hv.
    destruct (tariff_positive p Hv).
    replace ((_ + 999999) / 1000000) with z.
    + assert (min_int64 ≤ z) by (unfold min_int64; nia).
      destruct (Z.ltb_spec prompt 0); [lia|]. destruct (Z.ltb_spec completion 0); [lia|]. simpl.
      destruct (Z.leb_spec min_int64 z); [|lia]. by destruct (Z.leb_spec z max_int64); [|lia].
    + Z.to_euclidean_division_equations. lia.
Qed.
