(* ===== verification/ResourceDemo.v ===== *)
(** * The resource ledger at work

    A small ledger: one organization that owes two data rows, an owner of
    reservations, the registered consumers and a commercial authority; and one
    whose member generates an image and invokes a model. Each property of
    ResourceTheorems, PointTheorems and GenerationLife is applied to them. *)
From S2P Require Import Prelude GoStd Encoding GenerationFacts GenerationLife ResourceTypes PointTypes Store ResourceStore ResourceRepo ResourceCharges ResourcePoints ResourceBooks ResourceInv ResourceMoves ResourceSteps ResourceReserve ResourceShares ResourceChargeSteps ResourcePointMoves ResourceLimitSteps ResourceImageSteps ResourceInvocationSteps ResourceLedger ResourceTheorems PointTheorems.

(** ** Owners and authorities

    The owner of reservations keeps the reservation it is bound to. *)
Definition demo_intent (funding : string) (i : ConsumerChargeIdentity) : ConsumerChargeIntent :=
  {| ct_Identity := i; ct_ActorID := "user-1"; ct_MemberID := "member-1"; ct_Funding := funding;
     ct_ResourceType := ResourceDataRow; ct_Quantity := 1;
     ct_Fingerprint := "0123456789abcdef0123456789abcdef0123456789abcdef0123456789abcdef";
     ct_BusinessScope := "catalog" |}%string.

#[local] Instance demo_owners : ResourceOwners (option string) := {|
  owner_registered := String.eqb "catalog_v1";
  LockOwnerAttempt i o := Ok {| os_OrganizationID := oi_OrganizationID i;
    os_OwnerType := oi_OwnerType i; os_OwnerAttemptID := oi_OwnerAttemptID i;
    os_BusinessScope := "catalog"; os_State := OwnerAttemptNotStarted;
    os_ReservationID := default "" o; os_ResourceType := if o then ResourceDataRow else "";
    os_ReservationPurpose := if o then "import" else "" |}%string;
  BindReservation b _ := Ok (Some (ob_ReservationID b));
  LockTerminalProof b _ := Ok {| ot_OrganizationID := ob_OrganizationID b;
    ot_OwnerType := ob_OwnerType b; ot_OwnerAttemptID := ob_OwnerAttemptID b;
    ot_BusinessScope := "catalog"; ot_ReservationID := ob_ReservationID b;
    ot_ResourceType := ob_ResourceType b; ot_ReservationPurpose := ob_ReservationPurpose b;
    ot_State := OwnerAttemptSucceededTerminal; ot_EvidenceID := "import-1" |}%string;
  consumer_registered _ := true;
  ReadChargeIntent i _ := Ok (demo_intent FundingMember i);
  ReadChargeProof r _ := Ok {| cp_Intent := cr_Intent r; cp_ReservationID := cr_ReservationID r;
    cp_State := ConsumerEffectSucceeded; cp_EvidenceID := "row-1" |}%string |}.

#[local] Instance demo_authorities : ResourceAuthorities := {|
  AuthorizeWelcomeGrant _ := None;
  VerifyWelcomeGrantEligibility org := Ok {| wa_OrganizationID := org; wa_EvidenceID := "evidence-1";
    wa_ApprovedAt := demo_start |}%string;
  AuthorizePurchasedGrant := TrustedCommercialGrant;
  AuthorizeTrialAIGrant p org := Ok {| ta_OrganizationID := org; ta_OperatorID := pr_ID p;
    ta_EvidenceID := "evidence-2"; ta_GrantEnabled := true |}%string;
  AuthorizeReservation _ _ _ := Ok 100;
  AuthorizeSettlement _ := None;
  AuthorizeMemberResourceTransfer _ _ := None |}.

#[local] Instance demo_separate : SeparateOwners (O:=option string).
Proof.
  split.
  - intros c. unfold validResourceConsumer. intros Hc. reflect_bools.
    destruct Hc as [[-> | ->]| ->]; reflexivity.
  - intros t Ht. apply String.eqb_eq in Ht as <-. reflexivity.
Qed.
#[local] Instance demo_typed : TypedOwners (O:=option string).
Proof. intros i o t [= <-]. by vm_compute. Qed.

#[local] Existing Instance demo_env.
#[local] Existing Instance c_collation.

(** An image generation that succeeds once its reservation is bound, and one
    invocation that uses less than it reserved. *)
#[local] Instance demo_assets : GenerationAssets := {|
  validGenerationResultURL := String.eqb "https://images.example/1";
  empty_catalog_hash := "" |}%string.

Definition demo_digest : string :=
  "0123456789abcdef0123456789abcdef0123456789abcdef0123456789abcdef"%string.
Definition demo_image : SlotExternalEffectIdentity :=
  {| si_TenantID := "org-1"; si_OwnerUserID := "user-1"; si_RunID := "run-1"; si_PlanRevision := 1;
     si_SlotID := "slot-1"; si_Attempt := 1 |}%string.
Definition demo_generation : GenerationIntent :=
  {| gi_Identity := demo_image; gi_MemberID := "member-1"; gi_CatalogHash := "catalog-v1:" +:+ demo_digest;
     gi_SourceDigest := demo_digest; gi_PromptVersion := "prompt-1"; gi_RouteReference := "route-1";
     gi_CredentialReference := "credential-1"; gi_ConfigurationVersion := "1"; gi_Provider := "grsai";
     gi_Model := "gpt-image-2-vip"; gi_Protocol := "grsai-json-sync-v1"; gi_Resolution := "1024x1024";
     gi_Quality := "medium"; gi_PriceVersion := "price-1"; gi_Points := 5; gi_LimitVersion := 1;
     gi_MonthStart := demo_start; gi_InputProtocol := ""; gi_InputDigest := "" |}%string.
Definition demo_success : GenerationSuccess :=
  {| gs_ResponseID := "response-1"; gs_RequestID := ""; gs_ResultDigest := demo_digest;
     gs_ResultURL := "https://images.example/1"; gs_ResultUnavailable := ""; gs_UsageKnown := false;
     gs_InputTokens := 0; gs_OutputTokens := 0; gs_TotalTokens := 0 |}%string.
Definition demo_fact (o : option string) : result GenerationFact :=
  f ← NewGenerationFact demo_generation;
  mret match o with
  | Some id => with_fact_state GenerationSucceeded demo_success
      (with_reservation (image_receipt "org-1" f id) f)
  | None => f
  end.

Definition demo_tariff : ModelPointTariff :=
  {| mp_PriceVersion := "price-1"; mp_InputPointsPerMillionTokens := 10000;
     mp_OutputPointsPerMillionTokens := 30000 |}%string.
Definition demo_invocation (used : option (Z * Z)) : InvocationRecord :=
  {| ir_PointTariff := demo_tariff; ir_MaximumPromptTokens := 400; ir_MaximumCompletionTokens := 100;
     ir_InvocationID := "call-1"; ir_ParentInvocationID := ""; ir_AgentRunID := "run-1";
     ir_TenantID := "org-1"; ir_UserID := "user-1"; ir_MemberID := "member-1"; ir_BusinessTaskID := "";
     ir_TraceID := ""; ir_Capability := ""; ir_Operation := OperationProductAgentDecision;
     ir_RouteMode := ""; ir_RouteOutcome := ""; ir_CacheStatus := ""; ir_ProviderID := ""; ir_ModelID := "";
     ir_RequestedRoutingKey := ""; ir_RoutingKey := ""; ir_CredentialReference := "";
     ir_PolicyVersion := ""; ir_ConfigurationVersion := ""; ir_PromptKey := ""; ir_PromptVersion := "";
     ir_PromptScope := ""; ir_PromptHash := ""; ir_StartedAt := demo_start + Second;
     ir_FinishedAt := if used then demo_start + 2 * Second else zero_time; ir_LatencyMilliseconds := 0;
     ir_Attempt := 1; ir_FallbackIndex := 0; ir_PromptTokens := default 0 (fst <$> used);
     ir_CompletionTokens := default 0 (snd <$> used);
     ir_TotalTokens := default 0 ((λ u, u.1 + u.2) <$> used); ir_ImageCount := 0;
     ir_EstimatedCostMicros := 0; ir_EstimatedCostKnown := false;
     ir_UsageKnown := if used then true else false; ir_Currency := "";
     ir_Outcome := if used then InvocationSucceeded else InvocationDispatched; ir_ErrorCategory := "";
     ir_RouteErrorCategory := ""; ir_ErrorCode := ""; ir_ProviderRequestID := ""; ir_UpstreamJobID := "";
     ir_InputHash := demo_digest; ir_OutputHash := ""; ir_ReviewScore := "0";
     ir_ReviewNeedsHumanReview := false; ir_ReviewReasons := None |}%string.

#[local] Instance demo_points : PointOwners (option string) := {|
  ReadGenerationFact _ := demo_fact;
  ReadModelInvocation _ _ o := Ok (demo_invocation (if o then Some (250, 0) else None));
  AuthorizeImageGeneration _ := None;
  AuthorizeModelInvocation _ := None;
  AuthorizeMemberLimitRead _ _ _ := None;
  AuthorizeMemberLimitWrite _ _ _ := None |}.

#[local] Instance demo_typed_points : TypedPointOwners (O:=option string).
Proof.
  intros id o f Hf. simpl in Hf. unfold demo_fact in Hf.
  destruct (NewGenerationFact demo_generation) as [f0|] eqn:E; simpl in Hf; [|done].
  assert (gf_Intent f0 = demo_generation) as Hi by apply (NewGenerationFact_Ok _ _ E).
  destruct o; injection Hf as <-; change (gi_Points (gf_Intent f0) ≤ max_int64); rewrite Hi; by vm_compute.
Qed.

(** ** The ledger and its history *)

Definition demo_bucket : organizationResourceBucketRow :=
  {| b_OrganizationID := "org-1"; b_ResourceType := ResourceDataRow; b_Available := 0; b_Allocated := 0;
     b_Reserved := 0; b_Consumed := 0; b_UpdatedAt := demo_start |}%string.
Definition demo_account : account := ("org-1", ResourceDataRow)%string.

Definition demo_ledger : ResourceDB (option string) := {|
  rd_buckets := {[ demo_account := demo_bucket ]};
  rd_debts := {[ demo_account := {| db_OrganizationID := "org-1"; db_ResourceType := ResourceDataRow;
    db_Amount := 2 |}%string ]};
  rd_operations := ∅; rd_source_claims := ∅; rd_reservations := ∅; rd_events := ∅;
  rd_audit_logs := ∅; rd_positions := ∅; rd_limits := ∅; rd_months := ∅; rd_owners := None |}.

Definition demo_operator : Principal := {| pr_ID := "user-1"; pr_Kind := PrincipalTenantHuman |}%string.
Definition demo_purchase : PurchasedResourceGrantInput :=
  {| pg_OrganizationID := "org-1"; pg_OperationID := "buy-1"; pg_CommercialOrderID := "order-1";
     pg_CommercialOrderItemID := "item-1"; pg_ResourceType := ResourceDataRow; pg_Quantity := 10;
     pg_Principal := {| pr_ID := "commercial-billing"; pr_Kind := PrincipalTrustedCommercial |} |}%string.
Definition demo_reserve : ReserveInput :=
  {| ei_OrganizationID := "org-1"; ei_OperationID := "reserve-1"; ei_OwnerType := "catalog_v1";
     ei_OwnerAttemptID := "attempt-1"; ei_BusinessScope := "catalog"; ei_ResourceType := ResourceDataRow;
     ei_Quantity := 4; ei_ReservationPurpose := "import"; ei_Principal := demo_operator |}%string.
Definition demo_transfer : MemberResourceTransfer :=
  {| mt_OrganizationID := "org-1"; mt_MemberID := "member-1"; mt_ActorID := "user-1";
     mt_OperationID := "give-1"; mt_ResourceType := ResourceDataRow; mt_Action := MemberResourceAllocate;
     mt_Quantity := 3; mt_ExpectedVersion := 0; mt_QuoteID := "" |}%string.
Definition demo_identity : ConsumerChargeIdentity :=
  {| ci_OrganizationID := "org-1"; ci_Consumer := ConsumerProductAcquisition;
     ci_OperationID := "fetch-1" |}%string.

Definition demo_requests : list resource_request :=
  [GrantPurchaseRequest demo_purchase;
   TransferRequest demo_operator demo_transfer;
   ReserveRequest demo_reserve;
   SettleRequest {| li_OrganizationID := "org-1"; li_OperationID := "settle-1"; li_ReservationID := "uuid-2";
     li_Principal := demo_operator |}%string;
   ChargeRequest demo_identity; RecoverRequest].

Definition demo_start_world : WorldOf (ResourceDB (option string)) :=
  {| the_db := demo_ledger; uuids_used := 0; clock_reads := 0 |}.
Definition serve_all (l : list resource_request) (w : WorldOf (ResourceDB (option string)))
    : WorldOf (ResourceDB (option string)) :=
  fold_left (λ w q, (serve q w).2) l w.
(** The world after the first requests. *)
Definition resource_world (n : nat) : WorldOf (ResourceDB (option string)) :=
  serve_all (List.firstn n demo_requests) demo_start_world.

(** The same, of an organization that has allocated five rows to a member. *)
Definition allocated_world : WorldOf (ResourceDB (option string)) :=
  {| the_db := {|
       rd_buckets := {[ demo_account := {| b_OrganizationID := "org-1"; b_ResourceType := ResourceDataRow;
         b_Available := 8; b_Allocated := 5; b_Reserved := 0; b_Consumed := 0;
         b_UpdatedAt := demo_start |}%string ]};
       rd_debts := ∅; rd_operations := ∅; rd_source_claims := ∅; rd_reservations := ∅; rd_events := ∅;
       rd_audit_logs := ∅; rd_positions := ∅; rd_limits := ∅; rd_months := ∅; rd_owners := None |};
     uuids_used := 0; clock_reads := 0 |}.

(** An organization without points yet, and its member's limit of twenty. *)
Definition point_account : account := ("org-1", ResourceAIPoint)%string.
Definition point_ledger : ResourceDB (option string) := {|
  rd_buckets := {[ point_account := {| b_OrganizationID := "org-1"; b_ResourceType := ResourceAIPoint;
    b_Available := 0; b_Allocated := 0; b_Reserved := 0; b_Consumed := 0;
    b_UpdatedAt := demo_start |}%string ]};
  rd_debts := ∅; rd_operations := ∅; rd_source_claims := ∅; rd_reservations := ∅; rd_events := ∅;
  rd_audit_logs := ∅; rd_positions := ∅; rd_limits := ∅; rd_months := ∅; rd_owners := None |}.
Definition point_requests : list resource_request :=
  [GrantTrialRequest {| ti_OrganizationID := "org-1"; ti_OperationID := "trial-1";
     ti_Principal := {| pr_ID := "user-1"; pr_Kind := PrincipalTrustedTrialOperator |} |}%string;
   SetLimitRequest demo_operator {| sl_OrganizationID := "org-1"; sl_MemberID := "member-1";
     sl_OperationID := "limit-1"; sl_ActorID := "user-1"; sl_ExpectedVersion := 0; sl_Target := 20 |}%string].
Definition invoke_requests : list resource_request :=
  [ReserveInvocationRequest "org-1" "member-1" "call-1" 500 (demo_start + Second)]%string.

(** The world after more requests, where the owner knows of the reservation. *)
Definition point_world (more : list resource_request) : WorldOf (ResourceDB (option string)) :=
  set_db (put_owners (Some "uuid-1"%string)) (serve_all (point_requests ++ more)
    {| the_db := point_ledger; uuids_used := 0; clock_reads := 0 |}).

(** The image's reservation is due to be finalized. *)
Definition image_due (f : GenerationFact) : bool :=
  let ops := rd_operations (the_db (point_world [ReserveImageRequest demo_image])) in
  match ops !! ("org-1"%string, imageReserveKey f), ops !! ("org-1"%string, imageFinalizeKey f) with
  | Some _, None => true
  | _, _ => false
  end.

(** * Lemmas *)

Lemma ok_passes {A} (r : result A) (P : A → bool) :
  match r with Ok a => P a | Err _ => false end = true → ∃ a, r = Ok a ∧ P a = true.
Proof. destruct r; [eauto|done]. Qed.

Lemma demo_opening : opening demo_ledger.
Proof.
  split; try done.
  - apply map_Forall_singleton. split; [|done]. split; try done; by vm_compute.
  - apply map_Forall_singleton. split; [done|by vm_compute].
  - intros k. simpl. rewrite !lookup_singleton_is_Some. done.
Qed.

Lemma serve_life l w : Forall typed_request l → rtc life w (serve_all l w).
Proof.
  intros Hl. revert w.
  induction Hl as [|q l Hq _ IH]; intros w; [reflexivity|]. simpl. eapply rtc_l; [|apply IH].
  apply (life_request q _ (serve q w).1 _ Hq). by destruct (serve q w).
Qed.

Lemma demo_typed_requests n : Forall typed_request (List.firstn n demo_requests).
Proof. apply Forall_take. repeat constructor; by vm_compute. Qed.

Lemma demo_ledger_reachable n : reachable demo_ledger (resource_world n).
Proof.
  split; [apply demo_opening|]. exists demo_start_world. split; [done|].
  apply serve_life, demo_typed_requests.
Qed.

Lemma point_world_reachable more : Forall typed_request more → reachable point_ledger (point_world more).
Proof.
  intros Hm. split.
  - split; try done.
    + apply map_Forall_singleton. split; [|done]. split; try done; by vm_compute.
    + intros k. simpl. by intros [? ?%lookup_empty_Some].
  - eexists {| the_db := point_ledger; uuids_used := 0; clock_reads := 0 |}. split; [done|].
    eapply rtc_r; [apply serve_life|apply life_owners]. apply Forall_app. split; [|done].
    repeat constructor; by vm_compute.
Qed.

Lemma image_due_ok f : image_due f = true →
  finalization_due (the_db (point_world [ReserveImageRequest demo_image])) "org-1" (imageReserveKey f)
    (imageFinalizeKey f).
Proof.
  unfold image_due, finalization_due. generalize (rd_operations (the_db (point_world [ReserveImageRequest demo_image]))).
  intros ops. cbv zeta. destruct (ops !! _) as [o|] eqn:Ho; [|done]. destruct (ops !! (_, imageFinalizeKey f)) eqn:Hn; [done|].
  split; [by eexists|done].
Qed.

(** * Witnesses *)

Lemma resource_books_balance_witness :
  reachable demo_ledger (resource_world 6) ∧ Balanced (owed demo_ledger) (the_db (resource_world 6)) ∧
  balance b_Available (the_db (resource_world 6)) demo_account = 1.
Proof.
  split; [apply demo_ledger_reachable|]. split; [|vm_compute; reflexivity].
  exact (resource_books_balance (H:=demo_env) demo_ledger (resource_world 6) (demo_ledger_reachable 6)).
Defined.

Lemma resource_ledger_refines_witness :
  ∃ l, ledger_step l demo_ledger (the_db (resource_world 6)) ∧
    rd_events (the_db (resource_world 6)) = journal l ∅ ∧
    size (rd_events (the_db (resource_world 6))) = length l.
Proof. exact (resource_ledger_refines (H:=demo_env) demo_ledger (resource_world 6) (demo_ledger_reachable 6)). Defined.

Lemma resource_events_once_witness :
  ∃ k e, rd_events (the_db (resource_world 1)) !! k = Some e ∧ is_grant e = true ∧ k = k.
Proof.
  destruct (row_passes (rd_events (the_db (resource_world 1)) !! ("uuid-0", "org-1")%string) is_grant)
    as (e & He & Hg); [vm_compute; reflexivity|].
  exists ("uuid-0", "org-1")%string, e. split; [exact He|]. split; [exact Hg|].
  exact (resource_events_once (H:=demo_env) demo_ledger (resource_world 1) _ e _ e (demo_ledger_reachable 1) He He
    (or_introl (conj Hg (conj Hg (conj eq_refl eq_refl))))).
Defined.

Lemma purchase_answered_again_witness :
  ∃ s w2, GrantPurchasedResource demo_purchase demo_start_world = (Ok (s, false), w2) ∧
    GrantPurchasedResource demo_purchase w2 = (Ok (json_PurchasedResourceGrantSnapshot s, true), w2).
Proof.
  destruct (ok_run_passes (GrantPurchasedResource demo_purchase demo_start_world) (λ r, negb r.2))
    as ([s []] & w2 & Hr & Hn); [vm_compute; reflexivity|discriminate Hn|].
  exists s, w2. split; [exact Hr|].
  destruct (purchase_answered_again (H:=demo_env) demo_ledger demo_purchase demo_start_world s w2 w2
    (demo_ledger_reachable 0) ltac:(by vm_compute) Hr (rtc_refl _ _)) as [Hrep _].
  exact Hrep.
Defined.

Lemma charge_reserved_once_witness :
  ∃ receipt w2 row w4,
    ReserveCharge (demo_intent FundingEnterprise demo_identity) (resource_world 1) = (Ok receipt, w2) ∧
    ReserveCharge (demo_intent FundingEnterprise demo_identity) (serve RecoverRequest w2).2 =
      (Ok (consumerChargeReceipt row), w4) ∧
    rr_ReservationID row = cr_ReservationID receipt.
Proof.
  destruct (is_ok_run (ReserveCharge (demo_intent FundingEnterprise demo_identity) (resource_world 1)))
    as (receipt & w2 & Hr); [vm_compute; reflexivity|].
  destruct (charge_reserved_once (H:=demo_env) demo_ledger (demo_intent FundingEnterprise demo_identity)
    (resource_world 1) receipt w2 (serve RecoverRequest w2).2 (demo_ledger_reachable 1) ltac:(by vm_compute) Hr
    (rtc_once _ _ (life_request RecoverRequest w2 (serve RecoverRequest w2).1 (serve RecoverRequest w2).2 I
      (surjective_pairing _)))) as (row & w4 & _ & Hid & _ & Hr' & _).
  exists receipt, w2, row, w4. split; [exact Hr|]. split; [exact Hr'|exact Hid].
Defined.

Lemma balances_always_read_witness :
  ∃ t w', ReadBalances "org-1" demo_start_world = (Ok ([
    shown_balance demo_ledger "org-1" ResourceStoreRenewalPeriod "period";
    shown_balance demo_ledger "org-1" ResourceAIPoint "point";
    shown_balance demo_ledger "org-1" ResourceDataRow "row"], t), w') ∧ the_db w' = demo_ledger.
Proof.
  refine (balances_always_read (H:=demo_env) demo_ledger "org-1"%string demo_start_world (demo_ledger_reachable 0) _ _ _ _).
  - intros k b Hb. simpl in Hb. apply lookup_singleton_Some in Hb as [_ <-]. by vm_compute.
  - discriminate.
  - by vm_compute.
  - by vm_compute.
Defined.

Lemma reservation_event_forgets_allocated_witness :
  ∃ s w', Reserve demo_reserve allocated_world = (Ok (s, false), w') ∧
    reservation_recorded (the_db allocated_world) (the_db w')
      (reservation_execution (normalizeReserveInput demo_reserve)) s ∧
    balance b_Allocated (the_db allocated_world) demo_account = 5.
Proof.
  destruct (ok_run_passes (Reserve demo_reserve allocated_world) (λ r, negb r.2))
    as ([s []] & w' & Hr & Hn); [vm_compute; reflexivity|discriminate Hn|].
  exists s, w'. split; [exact Hr|]. split; [|by vm_compute].
  exact (reservation_event_forgets_allocated demo_reserve allocated_world s w' Hr).
Defined.

Lemma member_points_within_limit_witness :
  ∃ k m limit, rd_months (the_db (point_world invoke_requests)) !! k = Some m ∧ mo_Reserved m = 7 ∧
    limit_set (the_db (point_world invoke_requests)) (mo_OrganizationID m) (mo_MemberID m) limit ∧
    mo_Reserved m + mo_Consumed m ≤ limit.
Proof.
  destruct (row_passes (rd_months (the_db (point_world invoke_requests)) !! ("org-1", "member-1", demo_start)%string)
    (λ m, (mo_Reserved m =? 7) && (mo_Consumed m =? 0))) as (m & Hm & Hp); [vm_compute; reflexivity|].
  apply andb_true_iff in Hp as [H7 H0]. apply Z.eqb_eq in H7, H0.
  assert (Forall typed_request invoke_requests) as Ht by (repeat constructor).
  destruct (member_points_within_limit (H:=demo_env) point_ledger (point_world invoke_requests) _ m
    (point_world_reachable _ Ht) Hm ltac:(lia)) as (limit & Hl & _ & _ & Hle).
  exists ("org-1", "member-1", demo_start)%string, m, limit.
  split; [exact Hm|]. split; [exact H7|]. split; [exact Hl|exact Hle].
Defined.

Lemma image_charged_exactly_witness :
  ∃ r w', FinalizeImageGeneration demo_image (point_world [ReserveImageRequest demo_image]) = (Ok r, w') ∧
    points_settled "org-1" 5 5 (the_db (point_world [ReserveImageRequest demo_image])) (the_db w').
Proof.
  destruct (is_ok_run (FinalizeImageGeneration demo_image (point_world [ReserveImageRequest demo_image])))
    as (r & w' & Hr); [vm_compute; reflexivity|].
  assert (Forall typed_request [ReserveImageRequest demo_image]) as Ht by (repeat constructor).
  destruct (image_charged_exactly (H:=demo_env) point_ledger demo_image _ r w'
    (point_world_reachable _ Ht) Hr) as (f & Hread & _ & Hs & _).
  exists r, w'. split; [exact Hr|].
  destruct (ok_passes (demo_fact (Some "uuid-1"%string)) (λ f, (gf_State f =s GenerationSucceeded) &&
    (gi_Points (gf_Intent f) =? 5) && image_due f)) as (f' & Hf' & Hp); [vm_compute; reflexivity|].
  assert (demo_fact (Some "uuid-1"%string) = Ok f) as Hf by exact Hread.
  rewrite Hf' in Hf. injection Hf as <-.
  apply andb_true_iff in Hp as [Hp Hd]. apply andb_true_iff in Hp as [Hst Hpt]. apply Z.eqb_eq in Hpt.
  rewrite Hst, Hpt in Hs. exact (Hs (image_due_ok f' Hd)).
Defined.

Lemma invocation_charged_exactly_witness :
  ∃ u w' used, SettleAIInvocationUsage "org-1" "member-1" "call-1" 250 (demo_start + 2 * Second)
      (point_world invoke_requests) = (Ok u, w') ∧
    points_settled "org-1" 7 used (the_db (point_world invoke_requests)) (the_db w').
Proof.
  destruct (is_ok_run (SettleAIInvocationUsage "org-1" "member-1" "call-1" 250 (demo_start + 2 * Second)
    (point_world invoke_requests))) as (u & w' & Hr); [vm_compute; reflexivity|].
  destruct (row_passes (rd_operations (the_db (point_world invoke_requests)) !!
    ("org-1", modelPointKey "reserve" "call-1")%string) (λ _, true)) as (o & Ho & _); [vm_compute; reflexivity|].
  assert (rd_operations (the_db (point_world invoke_requests)) !!
    ("org-1", modelPointKey "finalize" "call-1")%string = None) as Hn by (vm_compute; reflexivity).
  assert (Forall typed_request invoke_requests) as Ht by (repeat constructor).
  destruct (invocation_charged_exactly (H:=demo_env) point_ledger "org-1" "member-1" "call-1" 250
    (demo_start + 2 * Second) _ u w' (point_world_reachable _ Ht) Hr) as (f & used & no & Hread & _ & _ & _ & Hs & _).
  exists u, w', used. split; [exact Hr|].
  assert (maximum_points f = 7) as Hq.
  { change (Ok (demo_invocation (Some (250, 0))) = Ok f) in Hread. injection Hread as <-. vm_compute. reflexivity. }
  rewrite Hq in Hs. exact (Hs (conj (mk_is_Some _ _ Ho) Hn)).
Defined.

Lemma generation_dispatched_once_witness :
  ∃ f0, NewGenerationFact demo_generation = Ok f0 ∧ GenerationFact_Validate f0 = None.
Proof.
  destruct (NewGenerationFact demo_generation) as [f0|] eqn:Hf; [|by vm_compute in Hf].
  exists f0. split; [reflexivity|].
  exact (proj1 (generation_dispatched_once demo_generation f0 f0 Hf (rtc_refl _ _))).
Defined.
